(* ===== verification/_CoqProject ===== *)
-Q . S2P
Prelude.v
GoStrings.v
GoUrl.v
GoErrors.v
Values.v
SqlBuilder.v
Query.v
Datetime.v
Http.v
Tape.v
RateLimit.v
Simpleforce.v
Client.v
ClientReads.v
ClientWrites.v
Sdk.v
Users.v
Groups.v
Profiles.v
PermissionSets.v
Territories.v
Agents.v
Config.v
Connector.v
Rest.v
Paging.v
Links.v
Listing.v
Org.v
Memberships.v
SyncView.v
Table.v
Records.v
Associations.v
UserRecords.v
LeastProfile.v
Accounts.v
UserSync.v
ResourceSync.v
Caching.v
NoPanic.v
Draining.v
