(* ===== verification/Prelude.v ===== *)
(** * The baton-salesforce connector

    A Baton connector syncs the users, groups, roles, profiles, permission sets,
    permission set groups, territories, agents and connected applications of a
    Salesforce organization as resources with entitlements and grants, and
    provisions them: it grants and revokes, creates and deactivates accounts.
    This library models the connector ([src/pkg/connector], [src/pkg/config]),
    and what it relies on in the Salesforce client it vendors
    ([conductorone/simpleforce]), in the query builder ([huandu/go-sqlbuilder]),
    in the SDK ([conductorone/baton-sdk]) and in [golang.org/x/oauth2], and proves
    what makes it correct.

    ** How the parts interact

    The SDK calls a syncer ([users.go], [groups.go], ...) to list a page of
    resources, the entitlements of a resource, a page of its grants, or to grant
    and revoke.  A syncer calls a read or a write of the Salesforce client
    ([client/salesforce.go], [client/user.go]).  A read builds a SOQL statement
    ([client/query.go], go-sqlbuilder), and sends it through [query] of
    [client/request.go]; a write creates, updates or deletes one object.  Both
    initialize the client first, and go through simpleforce's REST calls, the
    SDK's HTTP client, and the connector's transport
    ([client/ratelimit.go]), which puts an OAuth token on the request and keeps
    the rate limit the response reports.

    ** How Go is modelled

    A function body is a value of [GoM S A] (below): a step from a store to a result
    and a store, or a panic. Several results are a tuple, an [error] is an option of
    [go_error], a nil dereference and an index out of range are [Panics]. The store is
    [World] of [Http]: the state of the environment, the Salesforce client, which
    every syncer points to, and the requests handed to the SDK's HTTP client so far
    (whether its cache or the network answers them), with the forms posted for the
    first token of a client; later renewals of the token are the environment's.
    Strings are byte strings. Maps are [gmap]s, and association lists where their
    order shows.

    What the repository does not define is the class [Env] of [Http], an argument of
    every definition that uses it: the network, which may fail or break off in the
    middle of a body, the signing of JWT assertions, what an OAuth token endpoint
    makes of a form and the later renewals of tokens, the response cache of the SDK,
    which may fail too, the wait between two attempts, the parser of e-mail addresses
    and the time zone database.
    The theorems hold for every environment, or for every one that keeps the
    documented promises of a class: [RestService] (a session that is accepted, answers
    that can be read, and lookups that are not answered from a cache), over it
    [Listed] (how a list is answered page by page) and [ResourceListing] (the rows of
    a table), [LinkService], [ListService] and [ComponentService] (what the REST API
    does to a table of pairs of ids, how it lists one, and the groups of a permission
    set; which pairs it takes, which it does not let go, and whether it takes one
    again or refuses the duplicate are up to it), [TableService] (the same of a table
    of records with fields and validation rules of its own, which may also decline a
    deletion and has its own code for the refusal of a second record with one key),
    [ProfileService], [AccountService] and [LoginService] (the profiles, licenses,
    passwords and logins next to the users' table), [SaneEnv] (the shapes of its
    answers), [PagedEnv] (its pages are finitely many). [Tape], [Org], [Records] and
    the last section of [Draining] are concrete environments that keep them, at which
    the hypotheses of the theorems are shown to hold together.

    ** The files

    - [Prelude]: outcomes, the monad [GoM], and a small program logic: [moves] and
      [returns], with the hint database [golog] that proves of a whole handler
      that it keeps a relation on stores or a property of results, and the
      triples of total correctness, [triple] and [total].
    - [GoStrings]: [strings], [strconv] and [net/url]'s escaping.  [GoUrl]:
      [url.Parse], [String] and [JoinPath], and the URLs the connector makes of
      an instance, a path and an id.  [GoErrors]:
      error chains and trees, [errors.Is], [errors.As], [status.Code], the
      sentinels and error checks of [client/request.go].  [Values]: dynamic
      values, JSON, and simpleforce's [SObject] ([sobject.go]).
    - [SqlBuilder]: go-sqlbuilder's SELECT builder, its compiler of arguments
      and its MySQL interpolation, with a reader of SQL literals.  [Query]:
      [client/query.go] over it.
    - [Datetime]: [client/util.go] and [time.Parse] on its layout.
    - [Http]: the environment, the store, the SDK's [Do], the transport of
      [client/ratelimit.go].  [Tape]: the concrete environment.  [RateLimit]: the
      transport's properties.
    - [Simpleforce]: [force.go], [errorHelpers.go] and the REST calls of
      [sobject.go].
    - [Client]: [New], [Initialize] and [Ping] of [client/salesforce.go], and
      [client/request.go].  [ClientReads], [ClientWrites]: the reads and the
      writes of [client/salesforce.go] and [client/user.go] over the types of
      [client/models.go].
    - [Sdk]: resources, entitlements, grants, the constructors of the SDK, the
      syncer interfaces as a class with its laws, [resource_types.go].
    - [Users], [Groups] (with roles), [Profiles], [PermissionSets] (with
      permission set groups), [Territories], [Agents] (with connected
      applications): the syncers, one file of [pkg/connector] each or two.
    - [Config]: [pkg/config].  [Connector]: [connector.go], [actions.go],
      [client/auth.go] with the token requests of [golang.org/x/oauth2], and the
      step relation of a whole run.
    - [Rest]: the class [RestService] of what any REST API over a set of rows
      keeps, and what a call of the client does to it, from the reply alone:
      [CreateObject_gives], [UpdateObject_gives], [DeleteObject_gives],
      [query_answers].  [Paging]: what a listing of rows in pages is, the class
      [Listed] of the statements that list by a key, and that following the
      page tokens gives the rows.
    - [Links]: the four membership tables ([GroupMember],
      [PermissionSetAssignment] twice, [UserTerritory2Association]) as sets of
      pairs, the class of what the API promises of one, and what the client's
      lookups, creates and deletes do to it; [Listing]: the same of its pages, and
      of the groups that contain a permission set.
      [Org]: an executable org that keeps the promises.  [Memberships]: the
      abstract specification, a set of pairs that a grant adds to and a revoke
      takes from, that the handlers implement it ([AddsPair], [RemovesPair]), and
      the interface ([MembershipHandlers]) over which whole histories are treated.
      [SyncView]: what the sync sees of them.
    - [Table]: a table of records, described by a [schema] (its text fields, its
      key, the statements asked of it), and [TableService], with what every kind of
      client call does to it.  [Records]: an executable org of one table.
      [Associations]: the table of territory associations as a map from territory
      and user to role, which grants and revokes of membership and roles update
      and the sync reports.  [UserRecords]: the same of the role, the profile and
      the status of users, which are fields of the users' table.
      [LeastProfile]: the revocation of a profile, which moves the user to another
      one, with [ProfileService], what the API promises of profiles and licenses.
      [Accounts]: account requests over the same table, with [AccountService], what
      the API promises of passwords and logins.  [UserSync]: the sync of users over
      what these requests leave, with [LoginService], what the API promises of the
      logins of many users.  [ResourceSync]: the sync of the other resources, over the
      rows of their tables.
    - [Caching]: the SDK's cache of responses around any environment, its keys, and
      what a revoke after a grant makes of it.
    - [NoPanic]: that every call returns.  [Draining]: that following page
      tokens ends.

    A definition has the name of the Go function it models; methods of the
    syncers carry the syncer's name ([group_Revoke]), those of
    [SelectBuilder] the prefix [SB_], of [SObject] the prefix [SObject_].
    Conversions the Go code writes inline in a loop are definitions of their own
    ([user_of], [users_loop]).

    ** What is proved

    - Queries.  [query_rendering] gives the text of every statement;
      [query_injection_safe], that no value put in a statement leaves its
      string literal; [query_url_decodes], that the statement survives the URL;
      [NewQuery_selects_id] (a lemma), that every record comes with its id.
    - The client.  [Initialize_connects], [Initialize_failure] (lemmas):
      initialization connects once, or changes nothing.  [query_page] (a lemma): a page is what
      the one answer says.  [httpRequest_result]: what an error tells its caller.
      [RoundTrip_rate_limit]: where the rate limit comes from.
      [cache_keys]: the response cache does not take one statement for another.
      [CreateUser_request], and the lemmas [user_field_requests],
      [membership_requests] and [object_body_is_values]: exactly which requests the
      writes send, with which bodies.
    - Reads.  [GetUsers_filter], [GetUserLoginsByUserIDs_requests],
      [GetUserByEmailWithRetry_bounded], [parseSalesforceDatetime_reads], and the
      lemma [GetBotDefinitions_unsupported].
    - Provisioning as set operations.  [group_membership_refines],
      [permission_set_group_refines] and the lemma [territory_membership_refines]: a
      grant adds the one pair and a revoke takes it out, through all of the stack, and
      the answer says whether there was anything to do (but for the grant of a
      group membership that is there, which answers what Salesforce does);
      [provisioning_history]: so does any sequence of them;
      [provisioned_is_synced]: and the sync reports exactly that.
      [territory_roles_refine], [territory_provisioned_is_synced]: the same for a map
      from territory and user to role.
      [user_fields_refine], [roles_provisioned_are_synced]: the same for the fields
      of users, and [profile_Revoke_refines]: for the revocation of a profile.
      [account_requests_refine]: a request for an account makes one record,
      or activates a user, or neither; [accounts_are_unique]: over any sequence of
      them and of operations on users, no address is given out twice;
      [users_are_synced]: the sync then lists the users that the configuration asks
      for, enabled when active and not frozen, and [resources_are_synced]: the other
      resources, one for each row of their tables.  Salesforce may decline any of the
      changes: a new pair or record, an update of a record, a deletion.  The
      theorems are for an API whose lookups are not answered from a cache; with the
      SDK's cache they fail, [revokes_are_stale] shows how.
    - Termination and absence of panics.  [sync_never_panics],
      [provisioning_never_panics]: every call of a sync, and every well formed one
      that provisions, returns a result or an error;
      [sync_terminates]: the loop over the pages of every syncer ends.
    - Syncers.  [permission_Grants_complete] (a lemma): following the page
      tokens of a permission set's grants visits every page of both phases.  [profile_Revoke_panics] and
      [CreateAccount_provisions], and the lemmas [profile_Revoke_moves],
      [territory_Grant_table], [territory_Revoke_table], [CreateAccount_existing],
      [group_Revoke_idempotent], [permissionSetGroup_idempotent],
      [user_Delete_deactivates] and [user_List_logins], are the decision tables of the provisioning
      calls, error branches included.
    - The whole connector.  Over every sequence of calls of the SDK, failing ones
      included: [sync_reads_only], a sync changes nothing in Salesforce;
      [reachable_client], the client stays well formed; [sync_consistent], what
      is synced has the types and entitlements it claims;
      [only_users_are_granted].  [New_credentials], [fallBackToHTTPS_spec], and
      the lemmas [ResourceSyncers_types] and [configuration_groups], are about its
      construction and configuration; [generated_getters_fit], about reading it.

    ** Bounds and fuel

    Recursion is structural but for three places, which run on a length.
    [chunks_fuel], the slicing of user ids, takes at least one id a round
    ([chunks_fuel_concat] shows that nothing is left); [CompileWithFlavor]
    consumes a byte of the format a round, [split_all] a separator: more fuel
    changes nothing ([CompileWithFlavor_fuel], [split_all_fuel]).
    [get_user_attempts] runs on the three retries of the code.
    Following page tokens is the relation [sync_pages], whose derivations are
    finite; [list_pages] builds one from the pages of the API,
    and [sync_terminates] shows that against an API with finitely many pages
    there always is an end.
    Integers that Go keeps in an [int] are kept in range where the code converts
    from text ([strconv_Atoi], [scan_int]); a statement has at most [int64_max]
    values.

    ** What is not modelled

    HTTP redirects; the expiry, the size and the on-disk variant of the SDK's response
    cache, and the hash of its keys; the SDK's rate limiter and metrics; logging; the parser behind [mail.ParseAddress] and the time zone
    database behind [time.LoadLocation]; letter case outside of ASCII; the [totalSize] of
    an answer, which nothing reads; the reflection by which the getters of
    [conf.gen.go] find a field, where the declared fields stand;
    the registration of the global action with the SDK; [main.go], the code
    generator of the configuration, the mock server of the tests; the runtime of
    the SDK (storage, the sync loop, gRPC, the command line).  Statements other
    than SELECT and dialects other than MySQL of go-sqlbuilder, and Describe,
    Upsert, downloads and the tooling API of simpleforce, are never called. *)
From stdpp Require Export base tactics numbers list gmap sets strings.
From Stdlib Require Export Lia.

#[global] Set Default Goal Selector "!".

(** ** The effects of a Go function *)

(** What a call does when it comes back: it returns its results, or the
    goroutine panics (a nil dereference, an index out of range, a write to a
    nil map). *)
Inductive outcome (A : Type) : Type :=
| Returns (a : A)
| Panics (why : string).
Arguments Returns {A} a.
Arguments Panics {A} why.

(** A Go function body over a mutable store [S].  Go's several results are one
    tuple, an [error] result is an option in it; only a panic cuts the body
    short. *)
Definition GoM (S A : Type) : Type := S -> outcome A * S.

#[export] Instance GoM_ret S : MRet (GoM S) := fun A a s => (Returns a, s).
#[export] Instance GoM_bind S : MBind (GoM S) := fun A B k m s =>
  match m s with
  | (Returns a, s') => k a s'
  | (Panics why, s') => (Panics why, s')
  end.

Definition go_panic {S A} (why : string) : GoM S A := fun s => (Panics why, s).
Definition go_get {S} : GoM S S := fun s => (Returns s, s).
Definition go_modify {S} (f : S -> S) : GoM S unit := fun s => (Returns tt, f s).

(** [for _, x := range l { acc = body acc x }], the body free to stop the loop
    with an early result ([inr]). *)
Fixpoint go_range {S X Acc R} (body : Acc -> X -> GoM S (Acc + R)) (acc : Acc)
    (l : list X) : GoM S (Acc + R) :=
  match l with
  | [] => mret (inl acc)
  | x :: l' =>
      r ← body acc x;
      match r with
      | inl acc' => go_range body acc' l'
      | inr res => mret (inr res)
      end
  end.

Section GoM_laws.
Context {S : Type}.

Lemma GoM_bind_ret_l {A B} (a : A) (k : A -> GoM S B) s :
  (mret a ≫= k) s = k a s.
Proof. reflexivity. Qed.

Lemma GoM_bind_run {A B} (m : GoM S A) (k : A -> GoM S B) s a s' :
  m s = (Returns a, s') -> (m ≫= k) s = k a s'.
Proof. intros H. unfold mbind, GoM_bind. by rewrite H. Qed.

Lemma GoM_bind_panic {A B} (m : GoM S A) (k : A -> GoM S B) s why s' :
  m s = (Panics why, s') -> (m ≫= k) s = (Panics why, s').
Proof. intros H. unfold mbind, GoM_bind. by rewrite H. Qed.

Lemma GoM_bind_inv {A B} (m : GoM S A) (k : A -> GoM S B) s b s' :
  (m ≫= k) s = (Returns b, s') -> exists a s1, m s = (Returns a, s1) /\ k a s1 = (Returns b, s').
Proof. unfold mbind, GoM_bind. destruct (m s) as [[a|why] s1]; [eauto|done]. Qed.
End GoM_laws.

(** ** A small program logic *)

(** [moves R m]: whatever [m] does, it takes the store along [R]. *)
Definition moves {S A} (R : S -> S -> Prop) (m : GoM S A) : Prop :=
  forall s, R s (m s).2.

(** [returns Q m]: the result of [m], when it has one, satisfies [Q]. *)
Definition returns {S A} (Q : A -> Prop) (m : GoM S A) : Prop :=
  forall s a s', m s = (Returns a, s') -> Q a.

Create HintDb golog discriminated.
#[export] Hint Constants Opaque : golog.

Section moves_rules.
Context {S : Type} (R : S -> S -> Prop) `{!PreOrder R}.

Lemma moves_ret {A} (a : A) : moves R (mret a).
Proof. intros s. reflexivity. Qed.

Lemma moves_panic {A} why : moves R (go_panic (A:=A) why).
Proof. intros s. reflexivity. Qed.

Lemma moves_get : moves R go_get.
Proof. intros s. reflexivity. Qed.

Lemma moves_bind {A B} (m : GoM S A) (k : A -> GoM S B) :
  moves R m -> (forall a, moves R (k a)) -> moves R (m ≫= k).
Proof.
  intros Hm Hk s. specialize (Hm s). unfold mbind, GoM_bind.
  destruct (m s) as [[a|why] s'] eqn:E; [|done].
  simpl in Hm. etrans; [exact Hm|apply Hk].
Qed.

Lemma moves_range {X Acc Res} (body : Acc -> X -> GoM S (Acc + Res)) acc l :
  (forall a x, moves R (body a x)) -> moves R (go_range body acc l).
Proof.
  intros Hb. revert acc. induction l as [|x l IH]; intros acc; simpl.
  - apply moves_ret.
  - apply moves_bind; [apply Hb|]. intros [a|r]; [apply IH|apply moves_ret].
Qed.
End moves_rules.
#[export] Hint Resolve moves_ret moves_panic moves_get moves_bind moves_range : golog.

Lemma moves_weaken {S A} (R1 R2 : S -> S -> Prop) (m : GoM S A) :
  (forall s s', R1 s s' -> R2 s s') -> moves R1 m -> moves R2 m.
Proof. intros H Hm s. apply H, Hm. Qed.

Section returns_rules.
Context {S : Type}.

Lemma returns_ret {A} (Q : A -> Prop) (a : A) : Q a -> returns Q (mret (M:=GoM S) a).
Proof. intros HQ s a' s' [= <- _]. exact HQ. Qed.

Lemma returns_bind {A B} (P : A -> Prop) (Q : B -> Prop) (m : GoM S A) (k : A -> GoM S B) :
  returns P m -> (forall a, P a -> returns Q (k a)) -> returns Q (m ≫= k).
Proof.
  intros Hm Hk s b s' (a & s1 & Ha & Hb)%GoM_bind_inv. exact (Hk a (Hm _ _ _ Ha) _ _ _ Hb).
Qed.

Lemma returns_then {A B} (Q : B -> Prop) (m : GoM S A) (k : A -> GoM S B) :
  (forall a, returns Q (k a)) -> returns Q (m ≫= k).
Proof. intros Hk. apply (returns_bind (fun _ => True)); [done|auto]. Qed.

Lemma returns_range {X Acc Res} (I : Acc -> Prop) (Q : Res -> Prop)
    (body : Acc -> X -> GoM S (Acc + Res)) acc l :
  (forall a x, I a -> returns (fun r => match r with inl a' => I a' | inr res => Q res end) (body a x)) ->
  I acc -> returns (fun r => match r with inl a' => I a' | inr res => Q res end) (go_range body acc l).
Proof.
  intros Hb. revert acc. induction l as [|x l IH]; intros acc Hacc; simpl; [by apply returns_ret|].
  eapply returns_bind; [by apply Hb|]. intros [a|r] Hr; [by apply IH|by apply returns_ret].
Qed.
End returns_rules.
#[export] Hint Resolve returns_ret returns_then : golog.

(** [triple P m Q]: from a store with [P], [m] returns (it neither panics nor runs
    for ever), and its result and the store it leaves satisfy [Q]. *)
Definition triple {S A} (P : S -> Prop) (m : GoM S A) (Q : A -> S -> Prop) : Prop :=
  forall s, P s -> exists a s', m s = (Returns a, s') /\ Q a s'.

(** [total I m]: [m] returns and keeps the invariant [I]. *)
Definition total {S A} (I : S -> Prop) (m : GoM S A) : Prop := triple I m (fun _ => I).

Section triple_rules.
Context {S : Type}.

Lemma triple_ret {A} (P : S -> Prop) (Q : A -> S -> Prop) (a : A) :
  (forall s, P s -> Q a s) -> triple P (mret a) Q.
Proof. intros H s Hs. exists a, s. split; [done|by apply H]. Qed.

Lemma triple_bind {A B} P (m : GoM S A) Q (k : A -> GoM S B) R :
  triple P m Q -> (forall a, triple (Q a) (k a) R) -> triple P (m ≫= k) R.
Proof.
  intros Hm Hk s Hs. destruct (Hm s Hs) as (a & s1 & Ha & Hq).
  destruct (Hk a s1 Hq) as (b & s2 & Hb & Hr). exists b, s2.
  split; [by rewrite (GoM_bind_run _ _ _ _ _ Ha)|done].
Qed.

(** Reading the store. *)
Lemma triple_get {A} P (k : S -> GoM S A) Q :
  (forall s, P s -> triple (fun s' => s' = s) (k s) Q) -> triple P (go_get ≫= k) Q.
Proof. intros Hk s Hs. by apply (Hk s Hs). Qed.

Lemma triple_consequence {A} (P P' : S -> Prop) (m : GoM S A) (Q Q' : A -> S -> Prop) :
  (forall s, P' s -> P s) -> (forall a s, Q a s -> Q' a s) -> triple P m Q -> triple P' m Q'.
Proof. intros HP HQ Hm s Hs. destruct (Hm s (HP s Hs)) as (a & s' & Hr & Hq). eauto. Qed.

Lemma triple_pre {A} (P P' : S -> Prop) (m : GoM S A) Q :
  (forall s, P' s -> P s) -> triple P m Q -> triple P' m Q.
Proof. intros HP. by apply triple_consequence. Qed.

Lemma triple_post {A} P (m : GoM S A) (Q Q' : A -> S -> Prop) :
  (forall a s, Q a s -> Q' a s) -> triple P m Q -> triple P m Q'.
Proof. intros HQ. by apply triple_consequence. Qed.

(** Bodies that run alike. *)
Lemma triple_run {A} P (m m' : GoM S A) Q : (forall s, m s = m' s) -> triple P m' Q -> triple P m Q.
Proof. intros Hm Hm' s Hs. rewrite Hm. by apply Hm'. Qed.

(** A result that always satisfies [R] satisfies it here. *)
Lemma triple_returns {A} P (m : GoM S A) Q (R : A -> Prop) :
  returns R m -> triple P m Q -> triple P m (fun a s => R a /\ Q a s).
Proof. intros HR Hm s Hs. destruct (Hm s Hs) as (a & s' & Hr & Hq). exists a, s'. eauto. Qed.

Lemma triple_pure {A} (X : Prop) P (m : GoM S A) Q :
  (X -> triple P m Q) -> triple (fun s => X /\ P s) m Q.
Proof. intros H s [HX Hs]. by apply H. Qed.

(** A loop that goes on to its end. *)
Lemma triple_range {X Acc R} (I : list X -> Acc -> S -> Prop) done' (l : list X) (body : Acc -> X -> GoM S (Acc + R)) acc :
  (forall done' acc x, x ∈ l ->
     triple (I done' acc) (body acc x) (fun r s => exists acc', r = inl acc' /\ I (done' ++ [x]) acc' s)) ->
  triple (I done' acc) (go_range body acc l) (fun r s => exists acc', r = inl acc' /\ I (done' ++ l) acc' s).
Proof.
  revert done' acc. induction l as [|x l IH]; intros done' acc Hbody.
  - apply triple_ret. intros s Hs. exists acc. by rewrite app_nil_r.
  - eapply triple_bind; [apply Hbody; by left|]. intros r s (acc' & -> & Hs).
    destruct (IH (done' ++ [x]) acc') with (s := s) as (r' & s' & Hrun & acc'' & -> & Hs'); [|done|].
    + intros d a y Hy. apply Hbody. by right.
    + exists (inl acc''), s'. split; [done|]. exists acc''. by rewrite <-app_assoc in Hs'.
Qed.

Lemma total_ret {A} (I : S -> Prop) (a : A) : total I (mret a).
Proof. by apply triple_ret. Qed.

Lemma total_get (I : S -> Prop) : total I go_get.
Proof. intros s Hs. by exists s, s. Qed.

Lemma total_bind {A B} (I : S -> Prop) (m : GoM S A) (k : A -> GoM S B) :
  total I m -> (forall a, total I (k a)) -> total I (m ≫= k).
Proof. apply triple_bind. Qed.

Lemma total_bind_returns {A B} (I : S -> Prop) (R : A -> Prop) (m : GoM S A) (k : A -> GoM S B) :
  total I m -> returns R m -> (forall a, R a -> total I (k a)) -> total I (m ≫= k).
Proof.
  intros Hm HR Hk. eapply triple_bind; [by apply triple_returns|]. intros a. by apply triple_pure, Hk.
Qed.

Lemma total_range {X Acc Res} (I : S -> Prop) (body : Acc -> X -> GoM S (Acc + Res)) acc l :
  (forall a x, x ∈ l -> total I (body a x)) -> total I (go_range body acc l).
Proof.
  revert acc. induction l as [|x l IH]; intros acc Hb; simpl; [apply total_ret|].
  apply total_bind; [apply Hb; by left|]. intros [a|r]; [|apply total_ret].
  apply IH. intros a' x' Hx. apply Hb. by right.
Qed.
End triple_rules.
#[export] Hint Resolve total_ret total_get : golog.
