(* ===== verification/GoStrings.v ===== *)
(** * The parts of Go's [strings], [strconv], [fmt] and [net/url] the connector uses

    A Go string is a sequence of bytes, here the Standard Library's [string].
    The functions are the standard library's: [strings.HasPrefix],
    [strings.TrimPrefix], [strings.HasSuffix], [strings.SplitN],
    [strings.ToLower] on ASCII, [strconv.Itoa], [strconv.FormatBool],
    [strconv.Atoi] on digits, and [net/url]'s [QueryEscape] and
    [QueryUnescape]. *)
From S2P Require Export Prelude.
From Stdlib Require Import Ascii DecimalString DecimalN ZArith.

(** ** Concatenation *)

Lemma str_app_cons c s t : String c s +:+ t = String c (s +:+ t).
Proof. reflexivity. Qed.

Lemma str_app_nil_l s : "" +:+ s = s.
Proof. reflexivity. Qed.

Lemma str_app_nil_r s : s +:+ "" = s.
Proof. induction s as [|c s IH]; [done|]. by rewrite str_app_cons, IH. Qed.

Lemma str_app_assoc s t u : (s +:+ t) +:+ u = s +:+ (t +:+ u).
Proof. induction s as [|c s IH]; [done|]. by rewrite !str_app_cons, IH. Qed.

Lemma str_app_inj_l s t u : s +:+ t = s +:+ u -> t = u.
Proof. apply String.app_inj. Qed.

Lemma str_app_length s t : String.length (s +:+ t) = String.length s + String.length t.
Proof. induction s as [|c s IH]; [done|]. rewrite str_app_cons. simpl. by rewrite IH. Qed.

Create Rewrite HintDb gostr.
#[export] Hint Rewrite str_app_cons str_app_nil_l str_app_nil_r str_app_assoc : gostr.

(** [strings.Join(ss, sep)] *)
Fixpoint strings_Join (ss : list string) (sep : string) : string :=
  match ss with
  | [] => ""
  | [s] => s
  | s :: ss' => s +:+ sep +:+ strings_Join ss' sep
  end.

(** Every byte of the string satisfies [p]. *)
Fixpoint str_forall (p : ascii -> bool) (s : string) : bool :=
  match s with
  | "" => true
  | String c s' => p c && str_forall p s'
  end.

Lemma str_forall_app p s t : str_forall p (s +:+ t) = str_forall p s && str_forall p t.
Proof.
  induction s as [|c s IH]; [done|]. rewrite str_app_cons. simpl. rewrite IH.
  by rewrite andb_assoc.
Qed.

Lemma str_forall_weaken (p q : ascii -> bool) s :
  (forall c, p c = true -> q c = true) -> str_forall p s = true -> str_forall q s = true.
Proof.
  intros H. induction s as [|c s IH]; [done|]. simpl.
  rewrite !andb_true_iff. intros [Hc Hs]. auto.
Qed.

(** ** Prefixes and suffixes *)

(** The rest of [s] after the prefix [p]. *)
Fixpoint strip_prefix (p s : string) : option string :=
  match p, s with
  | "", _ => Some s
  | String a p', String b s' => if Ascii.eqb a b then strip_prefix p' s' else None
  | String _ _, "" => None
  end.

Definition strings_HasPrefix (s p : string) : bool :=
  match strip_prefix p s with Some _ => true | None => false end.

Definition strings_TrimPrefix (s p : string) : string :=
  match strip_prefix p s with Some rest => rest | None => s end.

(** [len(s) >= len(suffix) && s[len(s)-len(suffix):] == suffix]: some tail of
    [s] is the suffix. *)
Fixpoint strings_HasSuffix (s suffix : string) : bool :=
  String.eqb s suffix ||
  match s with "" => false | String _ s' => strings_HasSuffix s' suffix end.

Lemma strip_prefix_app p s : strip_prefix p (p +:+ s) = Some s.
Proof.
  induction p as [|a p IH]; [done|]. rewrite str_app_cons. simpl.
  by rewrite Ascii.eqb_refl.
Qed.

Lemma strip_prefix_Some p s r : strip_prefix p s = Some r <-> s = p +:+ r.
Proof.
  split; [|intros ->; apply strip_prefix_app].
  revert s. induction p as [|a p IH]; intros s; simpl; [by intros [= ->]|].
  destruct s as [|b s]; [done|].
  destruct (Ascii.eqb_spec a b) as [->|]; [|done].
  intros H. rewrite str_app_cons. f_equal. by apply IH.
Qed.

Lemma HasPrefix_spec s p : strings_HasPrefix s p = true <-> exists r, s = p +:+ r.
Proof.
  unfold strings_HasPrefix. destruct (strip_prefix p s) as [r|] eqn:E.
  - apply strip_prefix_Some in E. naive_solver.
  - split; [done|]. intros [r ->]. by rewrite strip_prefix_app in E.
Qed.

Lemma HasPrefix_app p s : strings_HasPrefix (p +:+ s) p = true.
Proof. apply HasPrefix_spec. by eexists. Qed.

Lemma TrimPrefix_app p s : strings_TrimPrefix (p +:+ s) p = s.
Proof. unfold strings_TrimPrefix. by rewrite strip_prefix_app. Qed.

Lemma TrimPrefix_no s p : strings_HasPrefix s p = false -> strings_TrimPrefix s p = s.
Proof. unfold strings_HasPrefix, strings_TrimPrefix. by destruct (strip_prefix p s). Qed.

Lemma HasSuffix_spec s x : strings_HasSuffix s x = true <-> exists r, s = r +:+ x.
Proof.
  induction s as [|c s IH]; cbn [strings_HasSuffix].
  - rewrite orb_false_r, String.eqb_eq. split; [intros <-; by exists ""|].
    intros [r Hr]. by destruct r.
  - rewrite orb_true_iff, String.eqb_eq, IH. split.
    + intros [<-|[r ->]]; [by exists ""|]. by exists (String c r).
    + intros [[|d r] Hr]; [by left|]. rewrite str_app_cons in Hr.
      injection Hr as -> ->. right. by exists r.
Qed.

(** ** [strings.SplitN] with a one byte separator *)

(** The text before the first separator and, if there is one, the text after it. *)
Fixpoint split_first (sep : ascii) (s : string) : string * option string :=
  match s with
  | "" => ("", None)
  | String c s' =>
      if Ascii.eqb c sep then ("", Some s')
      else let '(hd, tl) := split_first sep s' in (String c hd, tl)
  end.

(** [strings.SplitN(s, sep, n)] for [n > 0]: at most [n] pieces, the last one
    unsplit. *)
Fixpoint strings_SplitN (s : string) (sep : ascii) (n : nat) : list string :=
  match n with
  | 0 => []
  | 1 => [s]
  | S n' =>
      match split_first sep s with
      | (hd, Some tl) => hd :: strings_SplitN tl sep n'
      | (hd, None) => [hd]
      end
  end.

Definition no_char (sep : ascii) (s : string) : bool :=
  str_forall (fun c => negb (Ascii.eqb c sep)) s.

Lemma split_first_app sep s t :
  no_char sep s = true -> split_first sep (s +:+ String sep t) = (s, Some t).
Proof.
  unfold no_char. induction s as [|c s IH]; intros H.
  - rewrite str_app_nil_l. simpl. by rewrite Ascii.eqb_refl.
  - rewrite str_app_cons. simpl in *. apply andb_true_iff in H as [H1 H2].
    apply negb_true_iff in H1. by rewrite H1, IH.
Qed.

Lemma split_first_none sep s : no_char sep s = true -> split_first sep s = (s, None).
Proof.
  unfold no_char. induction s as [|c s IH]; intros H; [done|]. simpl in *.
  apply andb_true_iff in H as [H1 H2]. apply negb_true_iff in H1. by rewrite H1, IH.
Qed.

Lemma split_first_join sep s hd tl :
  split_first sep s = (hd, Some tl) -> s = hd +:+ String sep tl.
Proof.
  revert hd. induction s as [|c s IH]; intros hd; [done|]. simpl.
  destruct (Ascii.eqb_spec c sep) as [->|]; [by intros [= <- <-]|].
  destruct (split_first sep s) as [hd' tl'] eqn:E. intros [= <- ->].
  rewrite str_app_cons. f_equal. by apply IH.
Qed.

Lemma split_first_length sep s hd tl :
  split_first sep s = (hd, Some tl) -> String.length tl < String.length s.
Proof.
  revert hd. induction s as [|c s IH]; intros hd; [done|]. simpl.
  destruct (Ascii.eqb c sep); [intros [= _ ->]; lia|].
  destruct (split_first sep s) as [h t]. intros [= _ ->]. specialize (IH h eq_refl). lia.
Qed.

(** ** Decimal integers *)

Definition is_digit (c : ascii) : bool :=
  let n := N_of_ascii c in (48 <=? n)%N && (n <=? 57)%N.

(** [strconv.Itoa], and [%d], of a non-negative integer. *)
Definition itoa (n : nat) : string := NilEmpty.string_of_uint (N.to_uint (N.of_nat n)).

(** [%d] of an [int64]. *)
Definition format_int (z : Z) : string :=
  match z with
  | Zneg p => "-" +:+ NilEmpty.string_of_uint (N.to_uint (Npos p))
  | _ => NilEmpty.string_of_uint (N.to_uint (Z.to_N z))
  end.

(** The value of a string of decimal digits ([None] on any other byte). *)
Definition digits_val (s : string) : option Z :=
  match NilEmpty.uint_of_string s with
  | Some u => Some (Z.of_N (N.of_uint u))
  | None => None
  end.

Definition int64_min : Z := - 2 ^ 63.
Definition int64_max : Z := 2 ^ 63 - 1.
Definition in_int64 (z : Z) : bool := (int64_min <=? z)%Z && (z <=? int64_max)%Z.

(** [strconv.Atoi] of a run of digits: an error out of the range of [int]. *)
Definition strconv_Atoi (digits : string) : option Z :=
  if String.eqb digits "" then None
  else match digits_val digits with
       | Some z => if in_int64 z then Some z else None
       | None => None
       end.

(** [strconv.FormatBool], and [%t]. *)
Definition strconv_FormatBool (b : bool) : string := if b then "true" else "false".

(** The longest run of bytes satisfying [p], and the rest. *)
Fixpoint span (p : ascii -> bool) (s : string) : string * string :=
  match s with
  | "" => ("", "")
  | String c s' =>
      if p c then let '(a, b) := span p s' in (String c a, b) else ("", s)
  end.

(** The string does not start with a byte satisfying [p]. *)
Definition stops (p : ascii -> bool) (s : string) : Prop :=
  match s with "" => True | String c _ => p c = false end.

Lemma span_app p s t : str_forall p s = true -> stops p t -> span p (s +:+ t) = (s, t).
Proof.
  induction s as [|c s IH]; intros Hs Ht.
  - rewrite str_app_nil_l. destruct t as [|c t]; simpl in *; [done|]. by rewrite Ht.
  - rewrite str_app_cons. simpl in *. apply andb_true_iff in Hs as [-> Hs].
    by rewrite IH.
Qed.

Lemma span_join p s a b : span p s = (a, b) -> s = a +:+ b /\ str_forall p a = true /\ stops p b.
Proof.
  revert a. induction s as [|c s IH]; intros a; simpl; [by intros [= <- <-]|].
  destruct (p c) eqn:Hc; [|by intros [= <- <-]].
  destruct (span p s) as [a' b'] eqn:E. intros [= <- ->].
  destruct (IH a' eq_refl) as (-> & H1 & H2). simpl. by rewrite Hc, H1.
Qed.

Lemma uint_digits u : str_forall is_digit (NilEmpty.string_of_uint u) = true.
Proof. induction u; simpl; auto. Qed.

Lemma itoa_digits n : str_forall is_digit (itoa n) = true.
Proof. apply uint_digits. Qed.

Lemma digits_val_uint n : digits_val (NilEmpty.string_of_uint (N.to_uint n)) = Some (Z.of_N n).
Proof. unfold digits_val. by rewrite NilEmpty.usu, DecimalN.Unsigned.of_to. Qed.

Lemma uint_nonempty n : NilEmpty.string_of_uint (N.to_uint n) <> "".
Proof.
  intros H. pose proof (digits_val_uint n) as Hd. rewrite H in Hd.
  injection Hd as Hd. assert (n = 0%N) as -> by lia. discriminate.
Qed.

Lemma itoa_val n : digits_val (itoa n) = Some (Z.of_nat n).
Proof. unfold itoa. rewrite digits_val_uint. f_equal. lia. Qed.

Lemma itoa_nonempty n : itoa n <> "".
Proof. apply uint_nonempty. Qed.

Lemma in_int64_spec z : in_int64 z = true <-> (int64_min <= z <= int64_max)%Z.
Proof. unfold in_int64. by rewrite andb_true_iff, !Z.leb_le. Qed.

Lemma itoa_Atoi n : (Z.of_nat n <= int64_max)%Z -> strconv_Atoi (itoa n) = Some (Z.of_nat n).
Proof.
  intros Hn. unfold strconv_Atoi. rewrite itoa_val.
  rewrite (proj2 (String.eqb_neq _ _)) by apply itoa_nonempty.
  rewrite (proj2 (in_int64_spec _)); [done|]. unfold int64_min. lia.
Qed.

Definition lower_byte (c : ascii) : ascii :=
  let n := N_of_ascii c in
  if (65 <=? n)%N && (n <=? 90)%N then ascii_of_N (n + 32) else c.

Fixpoint strings_ToLower (s : string) : string :=
  match s with
  | "" => ""
  | String c s => String (lower_byte c) (strings_ToLower s)
  end.

(** ** [net/url] escaping *)

(** RFC 3986 unreserved bytes, never escaped. *)
Definition url_unreserved (c : ascii) : bool :=
  let n := N_of_ascii c in
  (((48 <=? n) && (n <=? 57)) || ((65 <=? n) && (n <=? 90)) || ((97 <=? n) && (n <=? 122)))%N
  || existsb (Ascii.eqb c) ["-"; "_"; "."; "~"]%char.

Definition upper_hex (n : N) : ascii :=
  if (n <? 10)%N then ascii_of_N (48 + n) else ascii_of_N (55 + n).

Definition unhex (c : ascii) : option N :=
  let n := N_of_ascii c in
  if (48 <=? n)%N && (n <=? 57)%N then Some (n - 48)%N
  else if (97 <=? n)%N && (n <=? 102)%N then Some (n - 87)%N
  else if (65 <=? n)%N && (n <=? 70)%N then Some (n - 55)%N
  else None.

Definition percent_escape (c : ascii) : string :=
  let n := N_of_ascii c in
  String "%" (String (upper_hex (n / 16)) (String (upper_hex (n mod 16)) "")).

(** [url.QueryEscape] *)
Fixpoint url_QueryEscape (s : string) : string :=
  match s with
  | "" => ""
  | String c s' =>
      (if url_unreserved c then String c ""
       else if Ascii.eqb c " " then "+"
       else percent_escape c) +:+ url_QueryEscape s'
  end.

(** [url.QueryUnescape] *)
Fixpoint url_QueryUnescape (s : string) : option string :=
  match s with
  | "" => Some ""
  | String c s' =>
      if Ascii.eqb c "%" then
        match s' with
        | String h (String l s'') =>
            match unhex h, unhex l, url_QueryUnescape s'' with
            | Some a, Some b, Some r => Some (String (ascii_of_N (16 * a + b)) r)
            | _, _, _ => None
            end
        | _ => None
        end
      else
        match url_QueryUnescape s' with
        | Some r => Some (String (if Ascii.eqb c "+" then " "%char else c) r)
        | None => None
        end
  end.

(** The bytes of an escaped query value: it can hold no [&], [#] or [=]. *)
Definition url_query_byte (c : ascii) : bool :=
  url_unreserved c || Ascii.eqb c "+" || Ascii.eqb c "%".

(** A decidable fact of bytes is checked on the 256 of them. *)
Lemma every_byte (f : ascii -> bool) :
  forallb f (map ascii_of_nat (seq 0 256)) = true -> forall c, f c = true.
Proof.
  intros H c. rewrite forallb_forall in H. apply H.
  rewrite <-(ascii_nat_embedding c). apply in_map, in_seq.
  pose proof (nat_ascii_bounded c). lia.
Qed.

(** Prove [f c = true] for a byte [c] by evaluation. *)
Ltac by_bytes c := revert c; apply every_byte; vm_compute; reflexivity.

Lemma percent_digits c :
  exists a b, unhex (upper_hex (N_of_ascii c / 16)) = Some a /\
    unhex (upper_hex (N_of_ascii c mod 16)) = Some b /\ ascii_of_N (16 * a + b) = c.
Proof.
  assert (match unhex (upper_hex (N_of_ascii c / 16)), unhex (upper_hex (N_of_ascii c mod 16)) with
          | Some a, Some b => Ascii.eqb (ascii_of_N (16 * a + b)) c
          | _, _ => false
          end = true) as H by by_bytes c.
  destruct (unhex _) as [a|]; [|done]. destruct (unhex _) as [b|]; [|done].
  apply Ascii.eqb_eq in H. by exists a, b.
Qed.

Lemma percent_unescape c s :
  url_QueryUnescape (percent_escape c +:+ s) =
  (fun r => String c r) <$> url_QueryUnescape s.
Proof.
  unfold percent_escape. rewrite !str_app_cons, str_app_nil_l. cbn [url_QueryUnescape].
  destruct (percent_digits c) as (a & b & -> & -> & ->).
  by destruct (url_QueryUnescape s).
Qed.

Lemma unreserved_literal c :
  url_unreserved c = true -> Ascii.eqb c "%" = false /\ Ascii.eqb c "+" = false.
Proof.
  assert (negb (url_unreserved c) || negb (Ascii.eqb c "%" || Ascii.eqb c "+") = true) as H
    by by_bytes c.
  intros Hu. rewrite Hu in H. simpl in H. apply negb_true_iff, orb_false_iff in H. done.
Qed.

(** Decoding the escaped text gives the text back. *)
Lemma QueryUnescape_QueryEscape s : url_QueryUnescape (url_QueryEscape s) = Some s.
Proof.
  induction s as [|c s IH]; [done|]. cbn [url_QueryEscape].
  destruct (url_unreserved c) eqn:Hu.
  - destruct (unreserved_literal c Hu) as [H1 H2].
    rewrite str_app_cons, str_app_nil_l. cbn [url_QueryUnescape]. by rewrite H1, H2, IH.
  - destruct (Ascii.eqb_spec c " ") as [->|].
    + change ("+" +:+ ?x) with (String "+" x). cbn [url_QueryUnescape]. by rewrite IH.
    + by rewrite percent_unescape, IH.
Qed.

Lemma percent_escape_bytes c : str_forall url_query_byte (percent_escape c) = true.
Proof. by_bytes c. Qed.

Lemma QueryEscape_bytes s : str_forall url_query_byte (url_QueryEscape s) = true.
Proof.
  induction s as [|c s IH]; [done|]. cbn [url_QueryEscape]. rewrite str_forall_app, IH.
  destruct (url_unreserved c) eqn:Hu; [|destruct (Ascii.eqb c " ")].
  - simpl. unfold url_query_byte. by rewrite Hu.
  - done.
  - by rewrite percent_escape_bytes.
Qed.
