(* ===== verification/GoUrl.v ===== *)
(** * Go's [net/url]: [Parse], [URL.String], [URL.JoinPath]

    As of the Go version of [go.mod] (1.25.2), for what the program does with
    URLs: checking the instance URL ([fallBackToHTTPS]), making the token
    endpoints ([auth.go]), the query path ([request.go]), and the check
    [http.NewRequest] makes of every URL it is given.  An error is [None]: the
    program only hands it on. *)
From S2P Require Export GoStrings.
From Stdlib Require Import Ascii.

Record Userinfo := { ui_username : string; ui_password : option string }.

Record URL := {
  url_Scheme : string;
  url_Opaque : string;
  url_User : option Userinfo;
  url_Host : string;
  url_Path : string;
  url_RawPath : string;
  url_OmitHost : bool;
  url_ForceQuery : bool;
  url_RawQuery : string;
  url_Fragment : string;
  url_RawFragment : string;
}.

#[export] Instance Userinfo_eq_dec : EqDecision Userinfo.
Proof. solve_decision. Defined.
#[export] Instance URL_eq_dec : EqDecision URL.
Proof. solve_decision. Defined.

(** ** Escaping *)

Inductive encoding := encodePath | encodeHost | encodeZone | encodeUserPassword | encodeFragment.

#[export] Instance encoding_eq_dec : EqDecision encoding.
Proof. solve_decision. Defined.

Definition is_host_mode (mode : encoding) : bool :=
  bool_decide (mode = encodeHost \/ mode = encodeZone).

Definition is_one_of (l : list ascii) (c : ascii) : bool := existsb (Ascii.eqb c) l.

Definition is_alnum (c : ascii) : bool :=
  let n := N_of_ascii c in
  (((48 <=? n) && (n <=? 57)) || ((65 <=? n) && (n <=? 90)) || ((97 <=? n) && (n <=? 122)))%N.

(** [shouldEscape] *)
Definition shouldEscape (c : ascii) (mode : encoding) : bool :=
  if is_alnum c then false
  else if is_host_mode mode
    && is_one_of ["!"; "$"; "&"; "'"; "("; ")"; "*"; "+"; ","; ";"; "="; ":"; "["; "]"; "<"; ">"; "034"]%char c
  then false
  else if is_one_of ["-"; "_"; "."; "~"]%char c then false
  else if is_one_of ["$"; "&"; "+"; ","; "/"; ":"; ";"; "="; "?"; "@"]%char c
    && negb (is_host_mode mode)
  then
    match mode with
    | encodePath => Ascii.eqb c "?"
    | encodeUserPassword => is_one_of ["@"; "/"; "?"; ":"]%char c
    | _ => false
    end
  else if bool_decide (mode = encodeFragment) && is_one_of ["!"; "("; ")"; "*"]%char c then false
  else true.

(** [escape] *)
Fixpoint url_escape (mode : encoding) (s : string) : string :=
  match s with
  | "" => ""
  | String c s =>
      (if shouldEscape c mode then percent_escape c else String c "") +:+ url_escape mode s
  end.

(** [unescape]: whether the byte may stand for itself, and whether the escape
    of two digits is allowed. *)
Definition literal_ok (mode : encoding) (c : ascii) : bool :=
  negb (is_host_mode mode && (N_of_ascii c <? 128)%N && shouldEscape c mode).

Definition escape_ok (mode : encoding) (a b : N) : bool :=
  let percent := (a =? 2)%N && (b =? 5)%N in
  let v := ascii_of_N (16 * a + b) in
  match mode with
  | encodeHost => percent || negb (a <? 8)%N
  | encodeZone => percent || Ascii.eqb v " " || negb (shouldEscape v encodeHost)
  | _ => true
  end.

Fixpoint url_unescape (mode : encoding) (s : string) : option string :=
  match s with
  | "" => Some ""
  | String c s' =>
      if Ascii.eqb c "%" then
        match s' with
        | String h (String l s'') =>
            match unhex h, unhex l with
            | Some a, Some b =>
                if escape_ok mode a b then String (ascii_of_N (16 * a + b)) <$> url_unescape mode s''
                else None
            | _, _ => None
            end
        | _ => None
        end
      else if literal_ok mode c then String c <$> url_unescape mode s'
      else None
  end.

(** [validEncoded] *)
Definition validEncoded (s : string) (mode : encoding) : bool :=
  str_forall (fun c =>
    is_one_of ["!"; "$"; "&"; "'"; "("; ")"; "*"; "+"; ","; ";"; "="; ":"; "@"; "["; "]"; "%"]%char c
    || negb (shouldEscape c mode)) s.

(** [EscapedPath] and [EscapedFragment] *)
Definition escaped (mode : encoding) (raw decoded : string) : string :=
  if negb (String.eqb raw "") && validEncoded raw mode
     && bool_decide (url_unescape mode raw = Some decoded)
  then raw
  else url_escape mode decoded.

Definition EscapedPath (u : URL) : string :=
  if negb (String.eqb (url_RawPath u) "") && validEncoded (url_RawPath u) encodePath
     && bool_decide (url_unescape encodePath (url_RawPath u) = Some (url_Path u))
  then url_RawPath u
  else if String.eqb (url_Path u) "*" then "*"
  else url_escape encodePath (url_Path u).

Definition EscapedFragment (u : URL) : string :=
  escaped encodeFragment (url_RawFragment u) (url_Fragment u).

(** [setPath] and [setFragment]: the decoded text, and the text as it was where
    the default encoding is another. *)
Definition decoded_raw (mode : encoding) (s : string) : option (string * string) :=
  match url_unescape mode s with
  | None => None
  | Some d => Some (d, if String.eqb s (url_escape mode d) then "" else s)
  end.

Definition with_path (u : URL) (path raw : string) : URL :=
  {| url_Scheme := url_Scheme u; url_Opaque := url_Opaque u; url_User := url_User u;
     url_Host := url_Host u; url_Path := path; url_RawPath := raw; url_OmitHost := url_OmitHost u;
     url_ForceQuery := url_ForceQuery u; url_RawQuery := url_RawQuery u;
     url_Fragment := url_Fragment u; url_RawFragment := url_RawFragment u |}.

Definition setPath (u : URL) (p : string) : option URL :=
  '(path, raw) ← decoded_raw encodePath p; Some (with_path u path raw).

Definition setFragment (u : URL) (f : string) : option URL :=
  '(frag, raw) ← decoded_raw encodeFragment f;
  Some {| url_Scheme := url_Scheme u; url_Opaque := url_Opaque u; url_User := url_User u;
          url_Host := url_Host u; url_Path := url_Path u; url_RawPath := url_RawPath u;
          url_OmitHost := url_OmitHost u; url_ForceQuery := url_ForceQuery u;
          url_RawQuery := url_RawQuery u; url_Fragment := frag; url_RawFragment := raw |}.

(** ** Hosts *)

(** The text before the last separator and the text after it, if there is one. *)
Fixpoint split_last (sep : ascii) (s : string) : option (string * string) :=
  match s with
  | "" => None
  | String c s' =>
      match split_last sep s' with
      | Some (a, b) => Some (String c a, b)
      | None => if Ascii.eqb c sep then Some ("", s') else None
      end
  end.

(** The text before the first [%25], and the rest. *)
Fixpoint split_zone (s : string) : string * string :=
  match s with
  | "" => ("", "")
  | String c s' =>
      if strings_HasPrefix s "%25" then ("", s)
      else let '(a, b) := split_zone s' in (String c a, b)
  end.

Fixpoint split_all (fuel : nat) (sep : ascii) (s : string) : list string :=
  match fuel with
  | 0 => [s]
  | S fuel =>
      match split_first sep s with
      | (hd, Some tl) => hd :: split_all fuel sep tl
      | (hd, None) => [hd]
      end
  end.

(** The length of the text is fuel enough. *)
Lemma split_all_fuel n m sep s : String.length s <= n -> n <= m -> split_all n sep s = split_all m sep s.
Proof.
  revert m s. induction n as [|n IH]; intros m s Hn Hm.
  { destruct s; [|simpl in Hn; lia]. by destruct m. }
  destruct m as [|m]; [lia|]. cbn [split_all]. destruct (split_first sep s) as [hd [tl|]] eqn:Hsplit; [|done].
  apply split_first_length in Hsplit. f_equal. apply IH; lia.
Qed.

(** [validOptionalPort] *)
Definition validOptionalPort (port : string) : bool :=
  match port with
  | "" => true
  | String c digits => Ascii.eqb c ":" && str_forall is_digit digits
  end.

(** [netip]'s [parseIPv4Fields]: four octets. *)
Definition ipv4_octet (s : string) : bool :=
  match digits_val s with
  | Some v => negb (String.eqb s "") && (v <=? 255)%Z
              && (bool_decide (String.length s = 1) || negb (strings_HasPrefix s "0"))
  | None => false
  end.

Definition ipv4_fields (s : string) : bool :=
  let octets := split_all (String.length s) "." s in
  bool_decide (length octets = 4) && forallb ipv4_octet octets.

(** [netip]'s [parseIPv6] after a leading ellipsis: [i] bytes are read; the
    result is how many there are, whether there is an ellipsis, and what is left
    over.  Eight rounds read the sixteen bytes. *)
Fixpoint ipv6_groups (rounds i : nat) (ellipsis : bool) (s : string) : option (nat * bool * string) :=
  match rounds with
  | 0 => Some (i, ellipsis, s)
  | S rounds =>
      let '(digits, rest) := span (fun c => bool_decide (is_Some (unhex c))) s in
      if negb (bool_decide (1 <= String.length digits <= 4)) then None
      else
        match rest with
        | "" => Some (i + 2, ellipsis, "")
        | String c s' =>
            if Ascii.eqb c "." then
              if negb ellipsis && negb (bool_decide (i = 12)) then None
              else if bool_decide (16 < i + 4) then None
              else if ipv4_fields s then Some (i + 4, ellipsis, "") else None
            else if negb (Ascii.eqb c ":") then None
            else
              match s' with
              | "" => None
              | String d s'' =>
                  if Ascii.eqb d ":" then
                    if ellipsis then None
                    else if String.eqb s'' "" then Some (i + 2, true, "")
                    else ipv6_groups rounds (i + 2) true s''
                  else ipv6_groups rounds (i + 2) ellipsis s'
              end
        end
  end.

(** [netip.ParseAddr] accepts the text as an IPv6 address. *)
Definition valid_ipv6 (s : string) : bool :=
  let '(addr, zone) := split_first "%" s in
  let before := fst (span (fun c => negb (is_one_of ["."; ":"; "%"]%char c)) s) in
  strings_HasPrefix s (before +:+ ":") && negb (bool_decide (zone = Some ""))
  && (let '(ellipsis, body) :=
        match strip_prefix "::" addr with Some b => (true, b) | None => (false, addr) end in
      (ellipsis && String.eqb body "")
      || match ipv6_groups 8 0 ellipsis body with
         | Some (i, ellipsis, rest) => String.eqb rest "" && (if bool_decide (i < 16) then ellipsis else negb ellipsis)
         | None => false
         end).

(** [parseHost] of [net/url]: an IP literal is in brackets. *)
Definition url_parseHost (host : string) : option string :=
  match split_last "[" host with
  | Some (_, _) =>
      match split_last "]" host with
      | None => None
      | Some (opened, colonPort) =>
          if negb (validOptionalPort colonPort) then None
          else
            port ← url_unescape encodeHost colonPort;
            match split_last "[" opened with
            | None => None
            | Some (_, hostname) =>
                let '(addr, zone) := split_zone hostname in
                addr ← url_unescape encodeHost addr;
                zone ← url_unescape encodeZone zone;
                if valid_ipv6 (addr +:+ zone) then Some ("[" +:+ addr +:+ zone +:+ "]" +:+ port) else None
            end
      end
  | None =>
      match split_last ":" host with
      | Some (_, port) =>
          if validOptionalPort (":" +:+ port) then url_unescape encodeHost host else None
      | None => url_unescape encodeHost host
      end
  end.

(** [validUserinfo] *)
Definition validUserinfo (s : string) : bool :=
  str_forall (fun c => is_alnum c
    || is_one_of ["-"; "."; "_"; ":"; "~"; "!"; "$"; "&"; "'"; "("; ")"; "*"; "+"; ","; ";"; "="; "%"; "@"]%char c) s.

(** [parseAuthority] *)
Definition parseAuthority (authority : string) : option (option Userinfo * string) :=
  match split_last "@" authority with
  | None => host ← url_parseHost authority; Some (None, host)
  | Some (userinfo, host) =>
      host ← url_parseHost host;
      if negb (validUserinfo userinfo) then None
      else
        let '(username, password) := split_first ":" userinfo in
        username ← url_unescape encodeUserPassword username;
        match password with
        | None => Some (Some {| ui_username := username; ui_password := None |}, host)
        | Some password =>
            password ← url_unescape encodeUserPassword password;
            Some (Some {| ui_username := username; ui_password := Some password |}, host)
        end
  end.

(** ** Parse *)

Definition is_letter (c : ascii) : bool := is_alnum c && negb (is_digit c).

(** [getScheme]: the scheme and the rest; no scheme leaves the text whole. *)
Definition getScheme (rawURL : string) : option (string * string) :=
  let '(run, rest) := span (fun c => is_alnum c || is_one_of ["+"; "-"; "."]%char c) rawURL in
  match run, rest with
  | "", String c _ => if Ascii.eqb c ":" then None else Some ("", rawURL)
  | String a _, String c rest =>
      if is_letter a && Ascii.eqb c ":" then Some (run, rest) else Some ("", rawURL)
  | _, "" => Some ("", rawURL)
  end.

Definition url_ctl_byte (c : ascii) : bool :=
  (N_of_ascii c <? 32)%N || (N_of_ascii c =? 127)%N.

Definition has_byte (c : ascii) (s : string) : bool := negb (no_char c s).

(** The end of the authority: at the next slash. *)
Definition split_authority (s : string) : string * string :=
  span (fun c => negb (Ascii.eqb c "/")) s.

Definition empty_url : URL :=
  {| url_Scheme := ""; url_Opaque := ""; url_User := None; url_Host := ""; url_Path := "";
     url_RawPath := ""; url_OmitHost := false; url_ForceQuery := false; url_RawQuery := "";
     url_Fragment := ""; url_RawFragment := "" |}.

(** The text after the scheme, without and with its query. *)
Definition split_query (rest : string) : string * bool * string :=
  match split_first "?" rest with
  | (head, None) => (head, false, "")
  | (head, Some "") => (head, true, "")
  | (head, Some query) => (head, false, query)
  end.

(** [parse], not for a request line. *)
Definition url_parse (rawURL : string) : option URL :=
  if negb (str_forall (fun c => negb (url_ctl_byte c)) rawURL) then None
  else if String.eqb rawURL "*" then Some (with_path empty_url "*" "")
  else
    '(scheme, rest) ← getScheme rawURL;
    let scheme := strings_ToLower scheme in
    let '(rest, force, query) := split_query rest in
    let made opaque user host omit :=
      {| url_Scheme := scheme; url_Opaque := opaque; url_User := user; url_Host := host;
         url_Path := ""; url_RawPath := ""; url_OmitHost := omit; url_ForceQuery := force;
         url_RawQuery := query; url_Fragment := ""; url_RawFragment := "" |} in
    if negb (strings_HasPrefix rest "/") && negb (String.eqb scheme "") then
      Some (made rest None "" false)
    else if negb (strings_HasPrefix rest "/") && has_byte ":" (fst (split_authority rest)) then None
    else
      match strip_prefix "//" rest with
      | Some after =>
          if negb (String.eqb scheme "") || negb (strings_HasPrefix rest "///") then
            let '(authority, path) := split_authority after in
            '(user, host) ← parseAuthority authority;
            setPath (made "" user host false) path
          else setPath (made "" None "" false) rest
      | None => setPath (made "" None "" (negb (String.eqb scheme "") && strings_HasPrefix rest "/")) rest
      end.

(** [url.Parse] *)
Definition url_Parse (rawURL : string) : option URL :=
  let '(u, frag) := split_first "#" rawURL in
  url ← url_parse u;
  match frag with
  | None | Some "" => Some url
  | Some frag => setFragment url frag
  end.

(** ** String and JoinPath *)

Definition Userinfo_String (u : Userinfo) : string :=
  url_escape encodeUserPassword (ui_username u) +:+
  match ui_password u with
  | Some p => ":" +:+ url_escape encodeUserPassword p
  | None => ""
  end.

(** The scheme and authority of [URL.String]. *)
Definition url_front (u : URL) : string :=
  (if String.eqb (url_Scheme u) "" then "" else url_Scheme u +:+ ":") +:+
  (if negb (String.eqb (url_Scheme u) "") || negb (String.eqb (url_Host u) "")
      || bool_decide (is_Some (url_User u)) then
     if url_OmitHost u && String.eqb (url_Host u) "" && bool_decide (url_User u = None) then ""
     else
       (if negb (String.eqb (url_Host u) "") || negb (String.eqb (url_Path u) "")
           || bool_decide (is_Some (url_User u)) then "//" else "") +:+
       match url_User u with Some ui => Userinfo_String ui +:+ "@" | None => "" end +:+
       url_escape encodeHost (url_Host u)
   else "").

(** [URL.String] *)
Definition url_String (u : URL) : string :=
  (if negb (String.eqb (url_Opaque u) "") then
     (if String.eqb (url_Scheme u) "" then "" else url_Scheme u +:+ ":") +:+ url_Opaque u
   else
     let front := url_front u in
     let path := EscapedPath u in
     front +:+
     (if negb (String.eqb path "") && negb (strings_HasPrefix path "/") && negb (String.eqb (url_Host u) "")
      then "/" +:+ path
      else if String.eqb front "" && has_byte ":" (fst (split_authority path)) then "./" +:+ path
      else path)) +:+
  (if url_ForceQuery u || negb (String.eqb (url_RawQuery u) "") then "?" +:+ url_RawQuery u else "") +:+
  (if String.eqb (url_Fragment u) "" then "" else "#" +:+ EscapedFragment u).

(** [path.Clean] of a rooted path, by its elements. *)
Definition clean_step (stack : list string) (elem : string) : list string :=
  if String.eqb elem "" || String.eqb elem "." then stack
  else if String.eqb elem ".." then match stack with [] => [] | _ :: stack => stack end
  else elem :: stack.

Definition clean_rooted (p : string) : string :=
  "/" +:+ strings_Join (rev (foldl clean_step [] (split_all (String.length p) "/" p))) "/".

(** [u.JoinPath(elem)] for one element; [path.Join] of a rooted path and it. *)
Definition url_JoinPath (u : URL) (elem : string) : URL :=
  let path := EscapedPath u in
  let rooted := strings_HasPrefix path "/" in
  let first := if rooted then path else "/" +:+ path in
  let joined := clean_rooted (if String.eqb elem "" then first else first +:+ "/" +:+ elem) in
  let p := if rooted then joined else strings_TrimPrefix joined "/" in
  let p := if strings_HasSuffix elem "/" && negb (strings_HasSuffix p "/") then p +:+ "/" else p in
  default u (setPath u p).

(** ** URLs below an instance *)

(** A byte of a plain host name. *)
Definition host_byte (c : ascii) : bool := is_alnum c || is_one_of ["-"; "."]%char c.

(** A byte a path may hold as it is, and one a query may. *)
Definition path_byte (c : ascii) : bool :=
  negb (url_ctl_byte c) && negb (is_one_of ["%"; "#"; "?"]%char c).
Definition query_byte (c : ascii) : bool := negb (url_ctl_byte c) && negb (Ascii.eqb c "#").

Definition path_safe (s : string) : bool := str_forall path_byte s.

(** [https://] and a plain host name. *)
Definition instance_url (s : string) : bool :=
  match strip_prefix "https://" s with
  | Some host => negb (String.eqb host "") && str_forall host_byte host
  | None => false
  end.

Lemma forall_no_char p c s : p c = false -> str_forall p s = true -> no_char c s = true.
Proof.
  intros Hc. apply str_forall_weaken. intros d Hd. apply negb_true_iff.
  destruct (Ascii.eqb_spec d c) as [->|]; [congruence|done].
Qed.

Lemma split_last_none c s : no_char c s = true -> split_last c s = None.
Proof.
  unfold no_char. induction s as [|d s IH]; intros H; [done|]. simpl in *.
  apply andb_true_iff in H as [Hd Hs]. apply negb_true_iff in Hd. by rewrite IH, Hd.
Qed.

Lemma unescape_literal mode p s :
  (forall c, p c = true -> Ascii.eqb c "%" = false /\ literal_ok mode c = true) ->
  str_forall p s = true -> url_unescape mode s = Some s.
Proof.
  intros Hp. induction s as [|c s IH]; intros H; [done|]. simpl in *.
  apply andb_true_iff in H as [Hc Hs]. destruct (Hp c Hc) as [-> ->]. by rewrite IH.
Qed.

Lemma host_byte_facts c :
  host_byte c = true -> (Ascii.eqb c "%" = false /\ literal_ok encodeHost c = true) /\ path_byte c = true.
Proof.
  assert (negb (host_byte c) || (negb (Ascii.eqb c "%") && literal_ok encodeHost c && path_byte c) = true) as H
    by by_bytes c.
  intros Hc. rewrite Hc in H. simpl in H. rewrite !andb_true_iff, negb_true_iff in H. tauto.
Qed.

Lemma path_byte_facts c :
  path_byte c = true ->
  (Ascii.eqb c "%" = false /\ literal_ok encodePath c = true) /\ query_byte c = true.
Proof.
  assert (negb (path_byte c) || (negb (Ascii.eqb c "%") && literal_ok encodePath c && query_byte c) = true) as H
    by by_bytes c.
  intros Hc. rewrite Hc in H. simpl in H. rewrite !andb_true_iff, negb_true_iff in H. tauto.
Qed.

Lemma path_query_bytes s : path_safe s = true -> str_forall query_byte s = true.
Proof. apply str_forall_weaken. intros c Hc. by apply path_byte_facts. Qed.

Lemma host_path_safe s : str_forall host_byte s = true -> path_safe s = true.
Proof. apply str_forall_weaken. intros c Hc. by apply host_byte_facts. Qed.

Lemma path_safe_app s t : path_safe (s +:+ t) = path_safe s && path_safe t.
Proof. apply str_forall_app. Qed.

Lemma parseAuthority_host host :
  str_forall host_byte host = true -> parseAuthority host = Some (None, host).
Proof.
  intros H. unfold parseAuthority, url_parseHost.
  rewrite !split_last_none by (by apply (forall_no_char host_byte)).
  by rewrite (unescape_literal _ host_byte) by (done || intros c Hc; by apply host_byte_facts).
Qed.

Lemma setPath_safe u p : path_safe p = true -> exists raw, setPath u p = Some (with_path u p raw).
Proof.
  intros H. unfold setPath, decoded_raw.
  rewrite (unescape_literal _ path_byte) by (done || intros c Hc; by apply path_byte_facts).
  simpl. eauto.
Qed.

(** A query: nothing, or a question mark and its text. *)
Definition query_part (q : string) : bool :=
  match q with "" => true | String c q => Ascii.eqb c "?" && str_forall query_byte q end.

Lemma split_query_part s q :
  no_char "?" s = true -> query_part q = true ->
  exists force, split_query (s +:+ q) = (s, force, match q with "" => "" | String _ q => q end).
Proof.
  intros Hs Hq. unfold split_query. destruct q as [|c q].
  - rewrite str_app_nil_r, split_first_none by done. eauto.
  - simpl in Hq. apply andb_true_iff in Hq as [Hc _]. apply Ascii.eqb_eq in Hc as ->.
    rewrite split_first_app by done. destruct q; eauto.
Qed.

Lemma query_part_bytes q : query_part q = true -> str_forall query_byte q = true.
Proof.
  destruct q as [|c q]; [done|]. simpl. rewrite !andb_true_iff. intros [Hc ->].
  by apply Ascii.eqb_eq in Hc as ->.
Qed.

Lemma query_byte_facts c : query_byte c = true -> url_ctl_byte c = false /\ Ascii.eqb c "#" = false.
Proof. unfold query_byte. by rewrite andb_true_iff, !negb_true_iff. Qed.

Lemma escaped_query_byte c : url_query_byte c = true -> query_byte c = true.
Proof.
  assert (negb (url_query_byte c) || query_byte c = true) as H by by_bytes c.
  intros Hc. by rewrite Hc in H.
Qed.

Lemma QueryEscape_query_bytes s : str_forall query_byte (url_QueryEscape s) = true.
Proof. apply (str_forall_weaken url_query_byte), QueryEscape_bytes. apply escaped_query_byte. Qed.

(** Everything below an instance parses. *)
Lemma url_Parse_below b p q :
  instance_url b = true -> path_safe p = true -> query_part q = true ->
  exists u host, url_Parse (b +:+ "/" +:+ p +:+ q) = Some u
    /\ b = "https://" +:+ host /\ url_Scheme u = "https" /\ url_Host u = host /\ url_Path u = "/" +:+ p
    /\ url_RawQuery u = match q with "" => "" | String _ q => q end.
Proof.
  intros Hb Hp Hq. unfold instance_url in Hb.
  destruct (strip_prefix "https://" b) as [host|] eqn:Eb; [|done].
  apply strip_prefix_Some in Eb as ->. apply andb_true_iff in Hb as [_ Hh].
  assert (path_safe (host +:+ "/" +:+ p) = true) as Hhp
    by (rewrite !path_safe_app, (host_path_safe host), Hp; done).
  assert (str_forall query_byte ("https://" +:+ host +:+ "/" +:+ p +:+ q) = true) as Hall.
  { rewrite !str_forall_app, !path_query_bytes, query_part_bytes by (done || by apply host_path_safe).
    done. }
  unfold url_Parse. rewrite str_app_assoc, split_first_none
    by (by apply (forall_no_char query_byte)).
  unfold url_parse.
  rewrite (str_forall_weaken query_byte) by (done || intros c [H%negb_true_iff _]%query_byte_facts; done).
  change (String.eqb ("https://" +:+ host +:+ "/" +:+ p +:+ q) "*") with false. cbv iota beta.
  change (getScheme ("https://" +:+ host +:+ "/" +:+ p +:+ q))
    with (Some ("https", ("//" +:+ (host +:+ "/" +:+ p +:+ q)))).
  cbn [mbind option_bind].
  assert (no_char "?" ("//" +:+ (host +:+ "/" +:+ p)) = true) as Hq1
    by (apply (forall_no_char path_byte); [done|exact Hhp]).
  replace ("//" +:+ (host +:+ "/" +:+ p +:+ q)) with (("//" +:+ (host +:+ "/" +:+ p)) +:+ q)
    by (by rewrite !str_app_assoc).
  destruct (split_query_part _ q Hq1 Hq) as (force & ->).
  change (strings_HasPrefix ("//" +:+ (host +:+ "/" +:+ p)) "/") with true.
  change (strip_prefix "//" ("//" +:+ (host +:+ "/" +:+ p))) with (Some (host +:+ "/" +:+ p)).
  cbn [negb andb orb String.eqb strings_ToLower]. unfold split_authority.
  rewrite (span_app _ host) by (done || by apply (forall_no_char host_byte)).
  rewrite parseAuthority_host by done. cbn [mbind option_bind].
  match goal with |- context [setPath ?u ?p'] => destruct (setPath_safe u p') as [raw ->]; [done|] end.
  by eexists _, _.
Qed.

(** ** Instances with and without their scheme *)

Definition plain_url (scheme host path : string) : URL :=
  {| url_Scheme := scheme; url_Opaque := ""; url_User := None; url_Host := host; url_Path := path;
     url_RawPath := ""; url_OmitHost := false; url_ForceQuery := false; url_RawQuery := "";
     url_Fragment := ""; url_RawFragment := "" |}.

Lemma escape_literal mode s :
  str_forall (fun c => negb (shouldEscape c mode)) s = true -> url_escape mode s = s.
Proof.
  induction s as [|c s IH]; [done|]. simpl. intros [->%negb_true_iff Hs]%andb_true_iff. by rewrite IH.
Qed.

Lemma host_byte_plain c :
  host_byte c = true ->
  url_ctl_byte c = false /\ shouldEscape c encodeHost = false /\ shouldEscape c encodePath = false
  /\ is_alnum c || is_one_of ["+"; "-"; "."]%char c = true.
Proof.
  assert (negb (host_byte c) || (negb (url_ctl_byte c) && negb (shouldEscape c encodeHost)
    && negb (shouldEscape c encodePath) && (is_alnum c || is_one_of ["+"; "-"; "."]%char c)) = true) as H
    by by_bytes c.
  intros Hc. rewrite Hc in H. simpl in H. rewrite !andb_true_iff, !negb_true_iff in H. tauto.
Qed.

Section host.
Context (host : string) (Hh : str_forall host_byte host = true).

Lemma host_no_char c : host_byte c = false -> no_char c host = true.
Proof. intros Hc. by apply (forall_no_char host_byte). Qed.

Lemma host_no_ctl : str_forall (fun c => negb (url_ctl_byte c)) host = true.
Proof. apply (str_forall_weaken host_byte); [|done]. intros c (-> & _)%host_byte_plain. done. Qed.

Lemma host_escape_path : url_escape encodePath host = host.
Proof.
  apply escape_literal, (str_forall_weaken host_byte); [|done]. intros c (_ & _ & -> & _)%host_byte_plain. done.
Qed.

Lemma host_escape_host : url_escape encodeHost host = host.
Proof.
  apply escape_literal, (str_forall_weaken host_byte); [|done]. intros c (_ & -> & _)%host_byte_plain. done.
Qed.

Lemma host_scheme_run rest :
  stops (fun c => is_alnum c || is_one_of ["+"; "-"; "."]%char c) rest ->
  span (fun c => is_alnum c || is_one_of ["+"; "-"; "."]%char c) (host +:+ rest) = (host, rest).
Proof.
  intros Hr. apply span_app; [|done]. apply (str_forall_weaken host_byte); [|done].
  by intros c (_ & _ & _ & Hc)%host_byte_plain.
Qed.

(** A host after [https://] parses to itself. *)
Lemma url_Parse_https : url_Parse ("https://" +:+ host) = Some (plain_url "https" host "").
Proof.
  unfold url_Parse. rewrite split_first_none
    by (change (no_char "#" ("https://" +:+ host)) with (no_char "#" host); by apply host_no_char).
  unfold url_parse.
  change (str_forall (fun c => negb (url_ctl_byte c)) ("https://" +:+ host))
    with (str_forall (fun c => negb (url_ctl_byte c)) host).
  rewrite host_no_ctl. cbn [negb].
  change (String.eqb ("https://" +:+ host) "*") with false. cbv iota.
  change (getScheme ("https://" +:+ host)) with (Some ("https", "//" +:+ host)).
  cbn [mbind option_bind]. unfold split_query. rewrite split_first_none
    by (change (no_char "?" ("//" +:+ host)) with (no_char "?" host); by apply host_no_char).
  change (strings_HasPrefix ("//" +:+ host) "/") with true.
  change (strip_prefix "//" ("//" +:+ host)) with (Some host).
  cbn [negb andb orb String.eqb strings_ToLower]. unfold split_authority.
  rewrite <-(str_app_nil_r host) at 1. rewrite (span_app _ host) by (done || by apply host_no_char).
  rewrite parseAuthority_host by done. reflexivity.
Qed.

Lemma url_String_https : host <> "" -> url_String (plain_url "https" host "") = "https://" +:+ host.
Proof.
  intros Hne. unfold url_String, url_front, EscapedPath. simpl. rewrite host_escape_host.
  destruct (String.eqb_spec host ""); [done|]. simpl. by rewrite !str_app_nil_r.
Qed.

Lemma host_no_slash p : strip_prefix (String "/" p) host = None.
Proof.
  pose proof (host_no_char "/" eq_refl) as Hc. unfold no_char in Hc. destruct host as [|c h]; [done|].
  cbn [str_forall] in Hc. apply andb_true_iff in Hc as [Hc _]. apply negb_true_iff in Hc.
  cbn [strip_prefix]. destruct (Ascii.eqb_spec "/" c) as [<-|]; [done|done].
Qed.

(** Without a scheme it is a path. *)
Lemma url_Parse_host : url_Parse host = Some (plain_url "" "" host).
Proof.
  unfold url_Parse. rewrite split_first_none by (by apply host_no_char).
  unfold url_parse. rewrite host_no_ctl. cbn [negb].
  destruct (String.eqb_spec host "*") as [->|_]; [done|].
  assert (getScheme host = Some ("", host)) as ->.
  { unfold getScheme. rewrite <-(str_app_nil_r host) at 1. rewrite host_scheme_run by done. by destruct host. }
  cbn [mbind option_bind strings_ToLower]. unfold split_query.
  rewrite split_first_none by (by apply host_no_char). cbv beta iota zeta.
  unfold strings_HasPrefix. rewrite !host_no_slash. cbn [negb andb String.eqb]. unfold split_authority.
  rewrite <-(str_app_nil_r host) at 1. rewrite (span_app _ host) by (done || by apply host_no_char).
  unfold has_byte. rewrite host_no_char by done. cbn [fst negb].
  unfold setPath, decoded_raw.
  rewrite (unescape_literal _ host_byte) by (done || intros c [? Hc]%host_byte_facts; by apply path_byte_facts).
  by rewrite host_escape_path, String.eqb_refl.
Qed.

(** With a port and no scheme, the host is taken for the scheme. *)
Lemma url_Parse_host_port port :
  match host with String c _ => is_letter c | "" => false end = true ->
  str_forall is_digit port = true ->
  url_Parse (host +:+ ":" +:+ port)
  = Some {| url_Scheme := strings_ToLower host; url_Opaque := port; url_User := None; url_Host := "";
            url_Path := ""; url_RawPath := ""; url_OmitHost := false; url_ForceQuery := false;
            url_RawQuery := ""; url_Fragment := ""; url_RawFragment := "" |}.
Proof.
  intros Hl Hp.
  assert (str_forall (fun c => host_byte c || Ascii.eqb c ":") (host +:+ ":" +:+ port) = true) as Hall.
  { rewrite !str_forall_app, (str_forall_weaken host_byte), (str_forall_weaken is_digit _ port); try done.
    - intros c. unfold is_digit, host_byte, is_alnum. by intros ->.
    - by intros c ->. }
  unfold url_Parse. rewrite split_first_none by (by apply (forall_no_char (fun c => host_byte c || Ascii.eqb c ":"))).
  unfold url_parse. rewrite (str_forall_weaken (fun c => host_byte c || Ascii.eqb c ":")); [|..|exact Hall].
  2: { intros c [Hc|Hc%Ascii.eqb_eq]%orb_true_iff; [by apply host_byte_plain in Hc as (-> & _)|by subst]. }
  cbn [negb]. assert (String.eqb (host +:+ ":" +:+ port) "*" = false) as ->.
  { destruct host as [|c h]; [done|]. rewrite str_app_cons. apply String.eqb_neq. intros [= -> Hx].
    by destruct h. }
  assert (getScheme (host +:+ ":" +:+ port) = Some (host, port)) as ->.
  { unfold getScheme. rewrite host_scheme_run by done. destruct host as [|c h]; [done|].
    change (":" +:+ port) with (String ":" port). cbv beta iota. by rewrite Hl. }
  cbn [mbind option_bind]. unfold split_query.
  rewrite split_first_none by (by apply (forall_no_char is_digit)).
  assert (strings_HasPrefix port "/" = false) as ->.
  { destruct port as [|d p]; [done|]. simpl in Hp. apply andb_true_iff in Hp as [Hd _].
    unfold strings_HasPrefix. cbn [strip_prefix]. destruct (Ascii.eqb_spec "/" d) as [<-|]; [done|done]. }
  assert (String.eqb (strings_ToLower host) "" = false) as -> by (by destruct host).
  reflexivity.
Qed.
End host.
