(* ===== verification/GoErrors.v ===== *)
(** * Go errors as the connector builds and inspects them

    A Go error is a chain ([fmt.Errorf] with [%w]) or a tree ([errors.Join]).
    The connector tells errors apart with [errors.Is] on the package level
    sentinels of [pkg/connector/client/request.go], with [errors.As] on
    [simpleforce.SalesforceError], and with [status.Code] of gRPC. *)
From S2P Require Export GoStrings.
From Stdlib Require Import Ascii.

(** The gRPC codes ([codes.Code]). *)
Inductive grpc_code : Set :=
| OK | Canceled | Unknown | InvalidArgument | DeadlineExceeded | NotFound
| AlreadyExists | PermissionDenied | ResourceExhausted | FailedPrecondition
| Aborted | OutOfRange | Unimplemented | Internal | Unavailable | DataLoss
| Unauthenticated.

#[export] Instance grpc_code_eq_dec : EqDecision grpc_code.
Proof. solve_decision. Defined.

(** [codes.Code.String]. *)
Definition code_text (c : grpc_code) : string :=
  match c with
  | OK => "OK" | Canceled => "Canceled" | Unknown => "Unknown"
  | InvalidArgument => "InvalidArgument" | DeadlineExceeded => "DeadlineExceeded"
  | NotFound => "NotFound" | AlreadyExists => "AlreadyExists"
  | PermissionDenied => "PermissionDenied" | ResourceExhausted => "ResourceExhausted"
  | FailedPrecondition => "FailedPrecondition" | Aborted => "Aborted"
  | OutOfRange => "OutOfRange" | Unimplemented => "Unimplemented"
  | Internal => "Internal" | Unavailable => "Unavailable" | DataLoss => "DataLoss"
  | Unauthenticated => "Unauthenticated"
  end.

(** [simpleforce.SalesforceError]. *)
Record SalesforceError := {
  sf_Message : string;
  sf_HttpCode : Z;
  sf_ErrorCode : string;
  sf_ErrorMessage : string;
}.

(** The package level [errors.New] values that code compares by identity. *)
Inductive sentinel : Set :=
| ErrObjectNotFound          (* client: salesforce object does not exist *)
| ErrObjectAlreadyExists     (* client: salesforce object already exists *)
| ErrRoleAlreadyCleared      (* client: salesforce territory role is already empty *)
| ErrRoleMismatch            (* client: salesforce territory role does not match expected role *)
| ErrFailure                 (* simpleforce: general failure *)
| ErrAuthentication          (* simpleforce: authentication failure *)
| ErrNoTypeIdClientOrId.     (* simpleforce: sObject has no type id, client or id *)

#[export] Instance sentinel_eq_dec : EqDecision sentinel.
Proof. solve_decision. Defined.

Definition sentinel_text (x : sentinel) : string :=
  match x with
  | ErrObjectNotFound => "salesforce object does not exist"
  | ErrObjectAlreadyExists => "salesforce object already exists"
  | ErrRoleAlreadyCleared => "salesforce territory role is already empty"
  | ErrRoleMismatch => "salesforce territory role does not match expected role"
  | ErrFailure => "general failure"
  | ErrAuthentication => "authentication failure"
  | ErrNoTypeIdClientOrId => "sObject has no type id, client or id"
  end.

(** A non-nil [error]. *)
Inductive go_error :=
| EMsg (text : string)                        (* errors.New, fmt.Errorf without %w *)
| ESentinel (x : sentinel)
| EWrap (text : string) (e : go_error)        (* fmt.Errorf(text + "%w", e) *)
| EStatus (code : grpc_code) (text : string)  (* status.Error(code, text) *)
| ESalesforce (e : SalesforceError)
| EJoin (e1 e2 : go_error).                   (* errors.Join(e1, e2) *)

(** A value of Go's type [error]. *)
Abbreviation error := (option go_error).

Fixpoint error_text (e : go_error) : string :=
  match e with
  | EMsg t => t
  | ESentinel x => sentinel_text x
  | EWrap t e => t +:+ error_text e
  | EStatus c t => "rpc error: code = " +:+ code_text c +:+ " desc = " +:+ t
  | ESalesforce e => sf_Message e
  | EJoin e1 e2 => error_text e1 +:+ String "010"%char "" +:+ error_text e2
  end.

(** [errors.Join(e1, e2)]: nil errors are dropped. *)
Definition errors_Join (e1 e2 : error) : error :=
  match e1, e2 with
  | Some a, Some b => Some (EJoin a b)
  | Some a, None => Some a
  | None, _ => e2
  end.

(** [errors.Is(err, x)] for a sentinel [x]: identity along the tree. *)
Fixpoint errors_Is (e : go_error) (x : sentinel) : bool :=
  match e with
  | ESentinel y => bool_decide (x = y)
  | EWrap _ e => errors_Is e x
  | EJoin e1 e2 => errors_Is e1 x || errors_Is e2 x
  | _ => false
  end.

(** [errors.As(err, &sfErr)]: the first [SalesforceError] of the tree, in depth
    first order. *)
Fixpoint errors_As_Salesforce (e : go_error) : option SalesforceError :=
  match e with
  | ESalesforce x => Some x
  | EWrap _ e => errors_As_Salesforce e
  | EJoin e1 e2 =>
      match errors_As_Salesforce e1 with
      | Some x => Some x
      | None => errors_As_Salesforce e2
      end
  | _ => None
  end.

(** The first gRPC status of the tree. *)
Fixpoint errors_As_Status (e : go_error) : option grpc_code :=
  match e with
  | EStatus c _ => Some c
  | EWrap _ e => errors_As_Status e
  | EJoin e1 e2 =>
      match errors_As_Status e1 with
      | Some x => Some x
      | None => errors_As_Status e2
      end
  | _ => None
  end.

(** [status.Code(err)]. *)
Definition status_Code (e : error) : grpc_code :=
  match e with
  | None => OK
  | Some e => default Unknown (errors_As_Status e)
  end.

(** [pkg/connector/client/request.go]: [isSalesforceDuplicateError] and
    [isSObjectNotSupportedError]. *)
Definition isSalesforceDuplicateError (err : go_error) : bool :=
  match errors_As_Salesforce err with
  | Some sfErr => String.eqb (sf_ErrorCode sfErr) "DUPLICATE_VALUE"
  | None => false
  end.

Definition isSObjectNotSupportedError (err : go_error) : bool :=
  match errors_As_Salesforce err with
  | Some sfErr => String.eqb (sf_ErrorCode sfErr) "INVALID_TYPE"
  | None => false
  end.

(** Wrapping is transparent to the three inspections. *)
Lemma errors_Is_wrap t e x : errors_Is (EWrap t e) x = errors_Is e x.
Proof. done. Qed.

Lemma NotSupported_wrap t e :
  isSObjectNotSupportedError (EWrap t e) = isSObjectNotSupportedError e.
Proof. done. Qed.

Lemma status_Code_wrap t e : status_Code (Some (EWrap t e)) = status_Code (Some e).
Proof. done. Qed.
