(* ===== verification/Values.v ===== *)
(** * Dynamic values, decoded JSON and simpleforce's [SObject]

    [value] is what Go's [interface{}] holds in this program; [json] a decoded
    JSON document; [SObject] the map of [simpleforce/sobject.go], with its
    accessors, [Set], [makeCopy] and the merge [json.Unmarshal] makes into it. *)
From S2P Require Export GoErrors.
From Stdlib Require Import Ascii SpecFloat.
From Stdlib Require Export ZArith.

(** ** JSON *)

(** A JSON document; a number is the float64 it decodes to. *)
Inductive json :=
| JNull
| JBool (b : bool)
| JNum (f : spec_float)
| JStr (s : string)
| JArr (l : list json)
| JObj (l : list (string * json)).

(** simpleforce's [SObjectAttributes]. *)
Record SObjectAttributes := { attr_Type : string; attr_URL : string }.

(** A value of Go's [interface{}].  [VClient] is a [*simpleforce.Client], with
    whether the pointer is non-nil. *)
Inductive value :=
| VNil
| VBool (b : bool)
| VString (s : string)
| VInt (z : Z)
| VInt64 (z : Z)
| VFloat (f : spec_float)
| VMap (m : gmap string value)
| VSlice (l : list value)
| VAttributes (a : SObjectAttributes)
| VClient (nonnil : bool).

(** [json.Unmarshal] into an [interface{}]: objects become maps, in which a
    repeated key keeps its last value. *)
Fixpoint of_json (j : json) : value :=
  match j with
  | JNull => VNil
  | JBool b => VBool b
  | JNum f => VFloat f
  | JStr s => VString s
  | JArr l => VSlice (map of_json l)
  | JObj l => VMap (foldl (fun m '(k, v) => <[k := of_json v]> m) ∅ l)
  end.

(** The float64 1, to which the code compares a number. *)
Definition float_one : spec_float := S754_finite false 4503599627370496 (-52).
Definition float_eq_one (f : spec_float) : bool := SFeqb f float_one.
Definition float_finite (f : spec_float) : bool :=
  match f with S754_infinity _ | S754_nan => false | _ => true end.

(** [fmt]'s [%s] of the values the error branches print. *)
Definition format_s (v : value) : string :=
  match v with
  | VNil => "%!s(<nil>)"
  | VString s => s
  | _ => "%!s(...)"
  end.

(** ** [SObject] *)

Abbreviation SObject := (gmap string value).

Definition sobjectClientKey : string := "__client__".
Definition sobjectAttributesKey : string := "attributes".
Definition sobjectIDKey : string := "Id".
Definition sobjectExternalIDFieldNameKey : string := "ExternalIDField".

Definition blacklistedUpdateFields : list string :=
  ["LastModifiedDate"; "LastReferencedDate"; "IsClosed"; "ContactPhone"; "CreatedById";
   "CaseNumber"; "ContactFax"; "ContactMobile"; "IsDeleted"; "LastViewedDate";
   "SystemModstamp"; "CreatedDate"; "ContactEmail"; "ClosedDate"; "LastModifiedById"].

(** A missing key reads as the nil interface. *)
Definition InterfaceField (obj : SObject) (key : string) : value := default VNil (obj !! key).

Definition StringField (obj : SObject) (key : string) : string :=
  match InterfaceField obj key with VString s => s | _ => "" end.

Definition SObject_ID (obj : SObject) : string := StringField obj sobjectIDKey.

Definition ExternalIDFieldName (obj : SObject) : string :=
  StringField obj sobjectExternalIDFieldNameKey.

Definition ExternalID (obj : SObject) : string := StringField obj (ExternalIDFieldName obj).

(** [x, _ := m[key].(string)]: [None] when the entry is set to something else
    than a string, on which the unchecked assertion of [AttributesField] panics;
    a missing or nil entry leaves the field empty. *)
Definition attr_string (m : gmap string value) (key : string) : option string :=
  match default VNil (m !! key) with
  | VNil => Some ""
  | VString s => Some s
  | _ => None
  end.

Definition AttributesField (obj : SObject) : outcome (option SObjectAttributes) :=
  match InterfaceField obj sobjectAttributesKey with
  | VAttributes a => Returns (Some a)
  | VMap m =>
      match attr_string m "type", attr_string m "url" with
      | Some t, Some u => Returns (Some {| attr_Type := t; attr_URL := u |})
      | _, _ => Panics "interface conversion: interface {} is not string"
      end
  | _ => Returns None
  end.

Definition SObject_Type (obj : SObject) : outcome string :=
  match AttributesField obj with
  | Returns None => Returns ""
  | Returns (Some a) => Returns (attr_Type a)
  | Panics why => Panics why
  end.

Definition SObject_Set (obj : SObject) (key : string) (v : value) : SObject := <[key := v]> obj.

(** Whether the object carries a non-nil client. *)
Definition SObject_client (obj : SObject) : bool :=
  match InterfaceField obj sobjectClientKey with VClient b => b | _ => false end.

Definition setClient (obj : SObject) (c : bool) : SObject := <[sobjectClientKey := VClient c]> obj.

Definition setType (obj : SObject) (typeName : string) : SObject :=
  match InterfaceField obj sobjectAttributesKey with
  | VAttributes a =>
      <[sobjectAttributesKey := VAttributes {| attr_Type := typeName; attr_URL := attr_URL a |}]> obj
  | _ => <[sobjectAttributesKey := VAttributes {| attr_Type := typeName; attr_URL := "" |}]> obj
  end.

Definition setID (obj : SObject) (id : string) : SObject := <[sobjectIDKey := VString id]> obj.

(** [client.SObject(typeName)] of force.go. *)
Definition Client_SObject (c : bool) (typeName : string) : SObject :=
  setType (setClient ∅ c) typeName.

(** [url[rIndex+1:]] for the last slash: [None] without one or when nothing
    follows it. *)
Fixpoint after_last_slash (s : string) : option string :=
  match s with
  | "" => None
  | String c s' =>
      match after_last_slash s' with
      | Some r => Some r
      | None =>
          if Ascii.eqb c "/" then if no_char "/" s' && negb (String.eqb s' "") then Some s' else None
          else None
      end
  end.

Definition value_map (v : value) : option (gmap string value) :=
  match v with VMap m => Some m | _ => None end.
Definition value_string (v : value) : option string :=
  match v with VString s => Some s | _ => None end.

(** [SObjectField(ctx, typeName, key)]: the field as another object, [None] for
    nil.  The keys of the linked map are set last, each once. *)
Definition SObjectField (obj : SObject) (typeName key : string) : option SObject :=
  let oid := StringField obj key in
  if negb (String.eqb oid "") then
    Some (setID (setType (setClient ∅ (SObject_client obj)) typeName) oid)
  else
    linked ← value_map (InterfaceField obj key);
    attrs ← value_map (default VNil (linked !! sobjectAttributesKey));
    let typeName := default "" (value_string (default VNil (attrs !! "type"))) in
    let url := default "" (value_string (default VNil (attrs !! "url"))) in
    if String.eqb typeName "" || String.eqb url "" then None
    else
      oid ← after_last_slash url;
      Some (linked ∪ setID (Client_SObject (SObject_client obj) typeName) oid).

(** The keys [makeCopy] leaves out of the request body. *)
Definition stripped_key (obj : SObject) (key : string) : bool :=
  bool_decide (key ∈ [sobjectClientKey; sobjectAttributesKey; sobjectIDKey;
                      sobjectExternalIDFieldNameKey; ExternalIDFieldName obj])
  || bool_decide (key ∈ blacklistedUpdateFields).

Definition makeCopy (obj : SObject) : gmap string value :=
  filter (fun kv => stripped_key obj kv.1 = false) obj.

(** [json.Marshal] of a request body fails on a NaN or an infinity.  Nested
    values are decoded JSON, in which numbers are finite. *)
Definition json_Marshal_ok (m : gmap string value) : bool :=
  forallb (fun kv => match kv.2 with VFloat f => float_finite f | _ => true end) (map_to_list m).

(** [json.Unmarshal(data, obj)] into an existing object: the keys of a JSON
    object are set over the map's own, [null] leaves a nil map, anything else is
    an error. *)
Definition unmarshal_into (j : json) (obj : SObject) : option SObject :=
  match j with
  | JObj l => Some (foldl (fun m '(k, v) => <[k := of_json v]> m) obj l)
  | JNull => Some ∅
  | _ => None
  end.

(** ** Facts *)

Lemma InterfaceField_Set obj k v : InterfaceField (SObject_Set obj k v) k = v.
Proof. unfold InterfaceField, SObject_Set. by rewrite lookup_insert_eq. Qed.

Lemma InterfaceField_Set_ne obj k k' v :
  k <> k' -> InterfaceField (SObject_Set obj k v) k' = InterfaceField obj k'.
Proof. intros. unfold InterfaceField, SObject_Set. by rewrite lookup_insert_ne. Qed.

Lemma StringField_Set obj k s : StringField (SObject_Set obj k (VString s)) k = s.
Proof. unfold StringField. by rewrite InterfaceField_Set. Qed.

Lemma StringField_Set_ne obj k k' v :
  k <> k' -> StringField (SObject_Set obj k v) k' = StringField obj k'.
Proof. intros. unfold StringField. by rewrite InterfaceField_Set_ne. Qed.

Create Rewrite HintDb sobj.
#[export] Hint Rewrite InterfaceField_Set StringField_Set : sobj.
#[export] Hint Rewrite InterfaceField_Set_ne StringField_Set_ne using discriminate : sobj.

Lemma makeCopy_lookup obj k v :
  makeCopy obj !! k = Some v <-> obj !! k = Some v /\ stripped_key obj k = false.
Proof. unfold makeCopy. apply map_lookup_filter_Some. Qed.

Lemma makeCopy_lookup_eq obj k :
  makeCopy obj !! k = if stripped_key obj k then None else obj !! k.
Proof.
  apply option_eq. intros v. rewrite makeCopy_lookup.
  destruct (stripped_key obj k); split; [by intros [_ ?]|done|by intros [? _]|done].
Qed.

Lemma Client_SObject_lookup c t k :
  Client_SObject c t !! k =
    if decide (k = sobjectAttributesKey) then Some (VAttributes {| attr_Type := t; attr_URL := "" |})
    else if decide (k = sobjectClientKey) then Some (VClient c) else None.
Proof.
  unfold Client_SObject, setType, setClient, InterfaceField.
  rewrite lookup_insert_ne by done. rewrite lookup_empty. simpl.
  repeat case_decide; subst; by rewrite ?lookup_insert_eq, ?lookup_insert_ne, ?lookup_empty by done.
Qed.
