(* ===== verification/SqlBuilder.v ===== *)
(** * The SELECT builder of go-sqlbuilder, as far as the connector uses it

    [SelectBuilder] with the operations [Select], [From], [Where], [Equal], [NE],
    [GT], [In], [OrderBy], [Limit], [Build], the placeholder compiler of
    [args.go] and the MySQL interpolation of [interpolate.go].  Strings are byte
    strings: every byte these functions look at is ASCII, and no byte of a
    multi-byte rune is, so that going by bytes and going by runes is the same.
    The arguments of the connector are strings, and argument 0 of a builder is
    the proxy of its WHERE clause. *)
From S2P Require Export GoStrings.
From Stdlib Require Import Ascii DecimalString.

Record SelectBuilder := {
  sb_selectCols : list string;
  sb_tables : list string;
  sb_andExprs : list string;      (* the one clause of WhereClause; nil without *)
  sb_orderByCols : list string;
  sb_limit : Z;                   (* -1 for none *)
  sb_args : list string;          (* the arguments $1, $2, ... *)
}.

(** [sqlbuilder.Select(cols...).From(table)]. *)
Definition SelectFrom (cols : list string) (table : string) : SelectBuilder :=
  {| sb_selectCols := cols; sb_tables := [table]; sb_andExprs := [];
     sb_orderByCols := []; sb_limit := -1; sb_args := [] |}.

(** [Args.Add]: the argument goes to the end, its placeholder is "$index". *)
Definition Args_Add (sb : SelectBuilder) (arg : string) : string * SelectBuilder :=
  ("$" +:+ itoa (S (length (sb_args sb))),
   {| sb_selectCols := sb_selectCols sb; sb_tables := sb_tables sb;
      sb_andExprs := sb_andExprs sb; sb_orderByCols := sb_orderByCols sb;
      sb_limit := sb_limit sb; sb_args := sb_args sb ++ [arg] |}).

(** [Escape]: every "$" doubled. *)
Fixpoint Escape (ident : string) : string :=
  match ident with
  | "" => ""
  | String c s => if Ascii.eqb c "$" then "$$" +:+ Escape s else String c (Escape s)
  end.

Definition Cond_binary (op : string) (sb : SelectBuilder) (field value : string) :
    string * SelectBuilder :=
  let '(p, sb) := Args_Add sb value in
  (Escape field +:+ op +:+ p, sb).

Definition Cond_Equal := Cond_binary " = ".
Definition Cond_NE := Cond_binary " <> ".
Definition Cond_GT := Cond_binary " > ".

Fixpoint Args_AddAll (sb : SelectBuilder) (vs : list string) : list string * SelectBuilder :=
  match vs with
  | [] => ([], sb)
  | v :: vs =>
      let '(p, sb) := Args_Add sb v in
      let '(ps, sb) := Args_AddAll sb vs in
      (p :: ps, sb)
  end.

Definition Cond_In (sb : SelectBuilder) (field : string) (vs : list string) :
    string * SelectBuilder :=
  let '(ps, sb) := Args_AddAll sb vs in
  (Escape field +:+ " IN (" +:+ strings_Join ps ", " +:+ ")", sb).

Definition SB_Where (sb : SelectBuilder) (andExpr : string) : SelectBuilder :=
  {| sb_selectCols := sb_selectCols sb; sb_tables := sb_tables sb;
     sb_andExprs := sb_andExprs sb ++ [andExpr]; sb_orderByCols := sb_orderByCols sb;
     sb_limit := sb_limit sb; sb_args := sb_args sb |}.

Definition SB_OrderBy (sb : SelectBuilder) (col : string) : SelectBuilder :=
  {| sb_selectCols := sb_selectCols sb; sb_tables := sb_tables sb;
     sb_andExprs := sb_andExprs sb; sb_orderByCols := sb_orderByCols sb ++ [col];
     sb_limit := sb_limit sb; sb_args := sb_args sb |}.

Definition SB_Limit (sb : SelectBuilder) (limit : Z) : SelectBuilder :=
  {| sb_selectCols := sb_selectCols sb; sb_tables := sb_tables sb;
     sb_andExprs := sb_andExprs sb; sb_orderByCols := sb_orderByCols sb;
     sb_limit := limit; sb_args := sb_args sb |}.

(** ** Compiling the placeholders *)

(** [compileSuccessive] and [compileArg]: what argument [offset] writes and
    leaves in the values, with the next offset.  [proxy] builds argument 0. *)
Definition compileSuccessive
    (proxy : list string -> outcome (string * list string)) (args : list string)
    (values : list string) (offset : nat) : outcome (string * list string * nat) :=
  match offset with
  | 0 => match proxy values with
         | Returns (s, values) => Returns (s, values, 1)
         | Panics why => Panics why
         end
  | S k => match args !! k with
           | Some a => Returns ("?", values ++ [a], S offset)
           | None => Returns ("", values, offset)
           end
  end.

(** [CompileWithFlavor] for MySQL, with the builder's [namedArgs] empty: text up
    to a "$" is copied, "$$" is a dollar, "${name}" vanishes, "$12" is an
    argument, "$?" the next one.  The loop shortens the format in every round:
    its length is fuel enough. *)
Fixpoint CompileWithFlavor (fuel : nat)
    (proxy : list string -> outcome (string * list string)) (args : list string)
    (format : string) (values : list string) (offset : nat) :
    outcome (string * list string) :=
  match fuel with
  | 0 => Returns (format, values)
  | S fuel =>
      let '(head, rest) := split_first "$" format in
      match rest with
      | None => Returns (head, values)
      | Some "" => Returns (head +:+ "$", values)
      | Some (String r format' as format) =>
          let continue s format values offset :=
            match CompileWithFlavor fuel proxy args format values offset with
            | Returns (q, values) => Returns (head +:+ s +:+ q, values)
            | Panics why => Panics why
            end in
          if Ascii.eqb r "$" then continue "$" format' values offset
          else if Ascii.eqb r "{" then
            match split_first "}" format' with
            | (_, None) => continue "" format values offset
            | (_, Some format) => continue "" format values offset
            end
          else if is_digit r then
            let '(digits, format) := span is_digit format in
            match strconv_Atoi digits with
            | None => continue "" format values offset
            | Some pointer =>
                match compileSuccessive proxy args values (Z.to_nat pointer) with
                | Returns (s, values, offset) => continue s format values offset
                | Panics why => Panics why
                end
            end
          else if Ascii.eqb r "?" then
            match compileSuccessive proxy args values offset with
            | Returns (s, values, offset) => continue s format' values offset
            | Panics why => Panics why
            end
          else continue "$" format values offset
      end
  end.

(** The WHERE clause inside itself recurses without end. *)
Definition proxy_in_where (_ : list string) : outcome (string * list string) :=
  Panics "stack overflow".

(** [WhereClause.BuildWithFlavor]. *)
Definition WhereClause_Build (sb : SelectBuilder) (values : list string) :
    outcome (string * list string) :=
  match sb_andExprs sb with
  | [] => Returns ("", [])
  | exprs =>
      let format := strings_Join exprs " AND " in
      match CompileWithFlavor (String.length format) proxy_in_where (sb_args sb) format values 0 with
      | Returns (sql, values) => Returns ("WHERE " +:+ sql, values)
      | Panics why => Panics why
      end
  end.

(** [WriteLeadingString]: a blank first, unless the buffer is empty. *)
Definition WriteLeadingString (buf s : string) : string :=
  if String.eqb buf "" then s else buf +:+ " " +:+ s.

(** The format [SelectBuilder.BuildWithFlavor] compiles. *)
Definition SB_format (sb : SelectBuilder) : string :=
  let buf := "" in
  let buf := match sb_selectCols sb with
             | [] => buf
             | cols => WriteLeadingString buf "SELECT " +:+ strings_Join cols ", "
             end in
  let buf := match sb_tables sb with
             | [] => buf
             | tables => WriteLeadingString buf "FROM " +:+ strings_Join tables ", "
             end in
  let buf := match sb_andExprs sb with
             | [] => buf
             | _ => WriteLeadingString buf "$0"
             end in
  let buf := match sb_orderByCols sb with
             | [] => buf
             | cols => WriteLeadingString buf "ORDER BY " +:+ strings_Join cols ", "
             end in
  if (0 <=? sb_limit sb)%Z then WriteLeadingString buf "LIMIT " +:+ format_int (sb_limit sb)
  else buf.

Definition SB_Build (sb : SelectBuilder) : outcome (string * list string) :=
  let format := SB_format sb in
  CompileWithFlavor (String.length format) (WhereClause_Build sb) (sb_args sb) format [] 0.

(** ** Interpolation *)

Definition char_quote : ascii := "'".
Definition char_dquote : ascii := "034".
Definition char_backslash : ascii := "092".

(** The escape of one byte of a string value. *)
Definition quote_byte (c : ascii) : string :=
  if Ascii.eqb c "000" then "\0"
  else if Ascii.eqb c "008" then "\b"
  else if Ascii.eqb c "010" then "\n"
  else if Ascii.eqb c "013" then "\r"
  else if Ascii.eqb c "009" then "\t"
  else if Ascii.eqb c "026" then "\Z"
  else if Ascii.eqb c char_quote then "\'"
  else if Ascii.eqb c char_dquote then String char_backslash (String char_dquote "")
  else if Ascii.eqb c char_backslash then "\\"
  else String c "".

Fixpoint quote_body (s : string) : string :=
  match s with
  | "" => ""
  | String c s => quote_byte c +:+ quote_body s
  end.

(** [quoteStringValue]. *)
Definition quoteStringValue (s : string) : string := "'" +:+ quote_body s +:+ "'".

(** One rune outside of an escape: the quote that is open after it. *)
Definition quote_step (quote : option ascii) (r : ascii) : option ascii :=
  if Ascii.eqb r char_quote || Ascii.eqb r char_dquote || Ascii.eqb r "`" then
    match quote with
    | Some q => if Ascii.eqb q r then None else quote
    | None => Some r
    end
  else quote.

(** [mysqlLikeInterpolate]: [None] for [ErrInterpolateMissingArgs]. *)
Fixpoint mysqlLikeInterpolate (quote : option ascii) (escaping : bool) (query : string)
    (args : list string) : option string :=
  match query with
  | "" => Some ""
  | String r rest =>
      if escaping then String r <$> mysqlLikeInterpolate quote false rest args
      else if Ascii.eqb r "?" then
        match quote with
        | Some _ => String r <$> mysqlLikeInterpolate quote false rest args
        | None =>
            match args with
            | [] => None
            | a :: args =>
                (fun q => quoteStringValue a +:+ q) <$> mysqlLikeInterpolate None false rest args
            end
        end
      else if Ascii.eqb r char_backslash then
        String r <$> mysqlLikeInterpolate quote (bool_decide (quote <> None)) rest args
      else String r <$> mysqlLikeInterpolate (quote_step quote r) false rest args
  end.

(** [MySQL.Interpolate(sb.Build())]. *)
Definition Interpolate_Build (sb : SelectBuilder) : outcome (option string) :=
  match SB_Build sb with
  | Returns (sql, args) => Returns (mysqlLikeInterpolate None false sql args)
  | Panics why => Panics why
  end.

(** ** Reading a literal back *)

(** The byte an escape stands for. *)
Definition unquote_byte (c : ascii) : ascii :=
  if Ascii.eqb c "0" then "000"
  else if Ascii.eqb c "b" then "008"
  else if Ascii.eqb c "n" then "010"
  else if Ascii.eqb c "r" then "013"
  else if Ascii.eqb c "t" then "009"
  else if Ascii.eqb c "Z" then "026"
  else c.

(** The reader of a query: the text with "?" for every quoted literal, and the
    values of the literals.  It reads MySQL's escapes, which are what the quoting
    writes; SOQL's documentation lists neither [\0] nor [\Z], written for the two
    control characters.  [lit] is the literal being read, [None] outside;
    the query ends outside of a literal. *)
Fixpoint read_literals (lit : option string) (query : string) : option (string * list string) :=
  match query, lit with
  | "", None => Some ("", [])
  | "", Some _ => None
  | String c rest, None =>
      if Ascii.eqb c char_quote then read_literals (Some "") rest
      else '(text, vs) ← read_literals None rest; Some (String c text, vs)
  | String c rest, Some l =>
      if Ascii.eqb c char_quote then
        '(text, vs) ← read_literals None rest; Some (String "?" text, l :: vs)
      else if Ascii.eqb c char_backslash then
        match rest with
        | "" => None
        | String c rest => read_literals (Some (l +:+ String (unquote_byte c) "")) rest
        end
      else read_literals (Some (l +:+ String c "")) rest
  end.

Lemma read_quote_byte c l rest :
  read_literals (Some l) (quote_byte c +:+ rest) = read_literals (Some (l +:+ String c "")) rest.
Proof.
  assert (quote_byte c = String c "" /\ c <> char_quote /\ c <> char_backslash
          \/ exists e, quote_byte c = String char_backslash (String e "") /\ unquote_byte e = c)
    as [(-> & Hq & Hb)|(e & -> & He)].
  { unfold quote_byte.
    repeat (match goal with |- context [Ascii.eqb c ?x] => destruct (Ascii.eqb_spec c x) as [->|] end;
            [right; eexists; split; reflexivity|]).
    by left. }
  - rewrite str_app_cons, str_app_nil_l. simpl.
    destruct (Ascii.eqb_spec c char_quote); [done|].
    by destruct (Ascii.eqb_spec c char_backslash).
  - rewrite !str_app_cons, str_app_nil_l. simpl. by rewrite He.
Qed.

Lemma read_quote_body s l rest :
  read_literals (Some l) (quote_body s +:+ rest) = read_literals (Some (l +:+ s)) rest.
Proof.
  revert l. induction s as [|c s IH]; intros l; cbn [quote_body].
  - by rewrite str_app_nil_l, str_app_nil_r.
  - rewrite str_app_assoc, read_quote_byte, IH. f_equal. f_equal.
    by rewrite str_app_assoc, str_app_cons, str_app_nil_l.
Qed.

(** ** The fuel of the compiler *)

Lemma span_length p s : String.length (span p s).2 <= String.length s.
Proof.
  induction s as [|c s IH]; [done|]. simpl. destruct (p c); [|done]. destruct (span p s). simpl in *. lia.
Qed.

(** The length of the format is fuel enough: more of it changes nothing. *)
Lemma CompileWithFlavor_fuel n m proxy args format values offset :
  String.length format <= n -> n <= m ->
  CompileWithFlavor n proxy args format values offset = CompileWithFlavor m proxy args format values offset.
Proof.
  revert m format values offset. induction n as [|n IH]; intros m format values offset Hn Hm.
  { destruct format; [|simpl in Hn; lia]. by destruct m. }
  destruct m as [|m]; [lia|]. cbn [CompileWithFlavor].
  destruct (split_first "$" format) as [hd [tl|]] eqn:Hsplit; [|done].
  apply split_first_length in Hsplit. destruct tl as [|r tl]; [done|].
  assert (forall f v o, String.length f <= String.length (String r tl) ->
    CompileWithFlavor n proxy args f v o = CompileWithFlavor m proxy args f v o) as Hrec
    by (intros f v o Hf; apply IH; lia).
  pose proof (span_length is_digit (String r tl)) as Hspan. destruct (span is_digit (String r tl)) as [digits rest].
  cbn [snd] in Hspan.
  assert (forall f, (split_first "}" tl).2 = Some f -> String.length f <= String.length (String r tl)) as Hbrace.
  { intros f Hf. destruct (split_first "}" tl) as [h [t|]] eqn:Ht; [|done]. injection Hf as ->.
    apply split_first_length in Ht. simpl. lia. }
  destruct (Ascii.eqb r "$"); [by rewrite Hrec by (simpl; lia)|].
  destruct (Ascii.eqb r "{").
  { destruct (split_first "}" tl) as [h [t|]]; rewrite Hrec; by auto. }
  destruct (is_digit r).
  { destruct (strconv_Atoi digits) as [pointer|]; [|by rewrite Hrec].
    destruct (compileSuccessive _ _ _ _) as [[[v l] o]|]; [by rewrite Hrec|done]. }
  destruct (Ascii.eqb r "?"); [|by rewrite Hrec].
  destruct (compileSuccessive _ _ _ _) as [[[v l] o]|]; [by rewrite Hrec by (simpl; lia)|done].
Qed.

(** ** Pieces of a format

    [piece args format vs text out]: compiling [format] writes [text] and adds
    [vs] to the values; interpolating [text] with them writes [out]; reading
    [out] gives [text] and [vs] back. *)

(** Text that neither the compiler nor the interpolation looks at. *)
Definition plain_byte (c : ascii) : bool :=
  negb (Ascii.eqb c "$") && negb (Ascii.eqb c "?") && negb (Ascii.eqb c char_quote)
  && negb (Ascii.eqb c char_dquote) && negb (Ascii.eqb c "`").
Definition plain (s : string) : bool := str_forall plain_byte s.

Definition out_prefix (s : string) (o : outcome (string * list string)) :
    outcome (string * list string) :=
  match o with
  | Returns (q, values) => Returns (s +:+ q, values)
  | Panics why => Panics why
  end.

Lemma out_prefix_app s t o : out_prefix s (out_prefix t o) = out_prefix (s +:+ t) o.
Proof. destruct o as [[]|]; simpl; [|done]. by rewrite str_app_assoc. Qed.

Definition compiles (args : list string) (format : string) (vs : list string) (text : string) : Prop :=
  forall fuel proxy t values off, length vs <= fuel -> stops is_digit t ->
    exists off', CompileWithFlavor fuel proxy args (format +:+ t) values off
      = out_prefix text (CompileWithFlavor (fuel - length vs) proxy args t (values ++ vs) off').

Definition interpolates (text : string) (vs : list string) (out : string) : Prop :=
  forall rest args, mysqlLikeInterpolate None false (text +:+ rest) (vs ++ args)
    = (fun q => out +:+ q) <$> mysqlLikeInterpolate None false rest args.

Definition reads_back (out text : string) (vs : list string) : Prop :=
  forall rest, read_literals None (out +:+ rest)
    = '(t, l) ← read_literals None rest; Some (text +:+ t, vs ++ l).

Record piece (args : list string) (format : string) (vs : list string) (text out : string) : Prop := {
  piece_compiles : compiles args format vs text;
  piece_interpolates : interpolates text vs out;
  piece_reads : reads_back out text vs;
  piece_fuel : length vs <= String.length format;
}.

Lemma plain_no_dollar s : plain s = true -> no_char "$" s = true.
Proof.
  apply str_forall_weaken. intros c. unfold plain_byte. rewrite !andb_true_iff. tauto.
Qed.

Lemma split_first_prefix sep s t :
  no_char sep s = true ->
  split_first sep (s +:+ t) = (s +:+ (split_first sep t).1, (split_first sep t).2).
Proof.
  unfold no_char. induction s as [|c s IH]; intros H.
  - rewrite !str_app_nil_l. by destruct (split_first sep t).
  - rewrite !str_app_cons. simpl in *. apply andb_true_iff in H as [H1 H2].
    apply negb_true_iff in H1. by rewrite H1, IH.
Qed.

Lemma Compile_prefix fuel proxy args s t values off :
  no_char "$" s = true ->
  CompileWithFlavor fuel proxy args (s +:+ t) values off
  = out_prefix s (CompileWithFlavor fuel proxy args t values off).
Proof.
  intros Hs. destruct fuel as [|fuel]; [done|]. cbn [CompileWithFlavor].
  rewrite split_first_prefix by done. destruct (split_first "$" t) as [hd [tl|]]; simpl; [|done].
  destruct tl as [|r tl]; [by autorewrite with gostr|].
  repeat case_match; simplify_eq/=; by autorewrite with gostr.
Qed.

Lemma Compile_plain fuel proxy args s values off :
  no_char "$" s = true -> CompileWithFlavor fuel proxy args s values off = Returns (s, values).
Proof.
  intros Hs. rewrite <-(str_app_nil_r s) at 1. rewrite Compile_prefix by done.
  destruct fuel; simpl; by rewrite str_app_nil_r.
Qed.

Lemma digit_not_special c :
  is_digit c = true -> Ascii.eqb c "$" = false /\ Ascii.eqb c "{" = false.
Proof.
  intros H. split; apply Ascii.eqb_neq; intros ->; discriminate.
Qed.

(** One placeholder. *)
Lemma Compile_digits fuel proxy args k t values off :
  (Z.of_nat k <= int64_max)%Z -> stops is_digit t ->
  CompileWithFlavor (S fuel) proxy args (String "$" (itoa k +:+ t)) values off
  = match compileSuccessive proxy args values k with
    | Returns (s, values, off) => out_prefix s (CompileWithFlavor fuel proxy args t values off)
    | Panics why => Panics why
    end.
Proof.
  intros Hk Ht. pose proof (itoa_digits k) as Hd. pose proof (itoa_Atoi k Hk) as Ha.
  pose proof (span_app is_digit (itoa k) t Hd Ht) as Hsp.
  destruct (itoa k) as [|c s] eqn:E; [by destruct (itoa_nonempty k)|].
  simpl in Hd. apply andb_true_iff in Hd as [Hc Hd].
  rewrite str_app_cons in *. cbn [CompileWithFlavor split_first].
  rewrite Ascii.eqb_refl.
  destruct (digit_not_special c Hc) as [-> ->]. rewrite Hc, Hsp, Ha, Nat2Z.id.
  destruct (compileSuccessive proxy args values k) as [[[? ?] ?]|]; [|done].
  unfold out_prefix. by case_match.
Qed.

Lemma plain_byte_neq c :
  plain_byte c = true ->
  Ascii.eqb c "?" = false /\ Ascii.eqb c char_quote = false /\ quote_step None c = None.
Proof.
  unfold plain_byte, quote_step. rewrite !andb_true_iff, !negb_true_iff.
  intros ((((_ & H1) & H2) & H3) & H4). by rewrite H1, H2, H3, H4.
Qed.

Section pieces.
Context (args : list string).

Lemma piece_plain s : plain s = true -> piece args s [] s s.
Proof.
  intros Hs. split.
  - intros fuel proxy t values off _ Ht. exists off.
    rewrite Compile_prefix by by apply plain_no_dollar.
    by rewrite app_nil_r, Nat.sub_0_r.
  - intros rest args'. unfold plain in Hs. induction s as [|c s IH]; cbn [app].
    + rewrite str_app_nil_l. by destruct (mysqlLikeInterpolate _ _ _ _).
    + simpl in Hs. apply andb_true_iff in Hs as [Hc Hs].
      destruct (plain_byte_neq c Hc) as (H1 & H2 & H3).
      rewrite str_app_cons. cbn [mysqlLikeInterpolate]. rewrite H1, H3.
      cbn [app] in IH. rewrite bool_decide_eq_false_2 by (intros ?; done).
      rewrite IH by done.
      by destruct (mysqlLikeInterpolate None false rest args'), (Ascii.eqb c char_backslash).
  - intros rest. unfold plain in Hs. induction s as [|c s IH].
    + rewrite str_app_nil_l. by destruct (read_literals None rest) as [[]|].
    + simpl in Hs. apply andb_true_iff in Hs as [Hc Hs].
      destruct (plain_byte_neq c Hc) as (H1 & H2 & H3).
      rewrite str_app_cons. cbn [read_literals]. rewrite H2, IH by done.
      by destruct (read_literals None rest) as [[]|].
  - simpl. lia.
Qed.

Lemma piece_arg k v :
  args !! k = Some v -> (Z.of_nat (S k) <= int64_max)%Z ->
  piece args ("$" +:+ itoa (S k)) [v] "?" (quoteStringValue v).
Proof.
  intros Hv Hk. split.
  - intros fuel proxy t values off Hf Ht. destruct fuel as [|fuel]; [simpl in Hf; lia|].
    exists (S (S k)).
    change (("$" +:+ itoa (S k)) +:+ t) with (String "$" (itoa (S k) +:+ t)).
    rewrite Compile_digits by done. unfold compileSuccessive. rewrite Hv.
    by simpl; rewrite Nat.sub_0_r.
  - intros rest args'. done.
  - intros rest. unfold quoteStringValue.
    change (("'" +:+ quote_body v +:+ "'") +:+ rest)
      with (String "'" ((quote_body v +:+ "'") +:+ rest)).
    rewrite str_app_assoc. cbn [read_literals].
    replace (Ascii.eqb "'" char_quote) with true by done.
    rewrite read_quote_body, str_app_nil_l. done.
  - simpl. lia.
Qed.

(** The second format may not go on with the digits of the first. *)
Lemma piece_app f1 vs1 t1 o1 f2 vs2 t2 o2 :
  piece args f1 vs1 t1 o1 -> piece args f2 vs2 t2 o2 ->
  (forall t, stops is_digit t -> stops is_digit (f2 +:+ t)) ->
  piece args (f1 +:+ f2) (vs1 ++ vs2) (t1 +:+ t2) (o1 +:+ o2).
Proof.
  intros [C1 I1 R1 F1] [C2 I2 R2 F2] Hd. split.
  - intros fuel proxy t values off Hf Ht. rewrite length_app in Hf.
    rewrite str_app_assoc.
    destruct (C1 fuel proxy (f2 +:+ t) values off) as [off1 ->]; [lia|auto|].
    destruct (C2 (fuel - length vs1) proxy t (values ++ vs1) off1) as [off2 ->]; [lia|done|].
    exists off2. rewrite length_app, app_assoc, Nat.sub_add_distr.
    apply out_prefix_app.
  - intros rest args'. rewrite str_app_assoc, <-app_assoc, I1, I2.
    destruct (mysqlLikeInterpolate _ _ _ _); simpl; [|done]. by rewrite str_app_assoc.
  - intros rest. rewrite str_app_assoc, R1, R2.
    destruct (read_literals None rest) as [[]|]; simpl; [|done].
    by rewrite str_app_assoc, app_assoc.
  - rewrite length_app, str_app_length. lia.
Qed.
End pieces.

Lemma piece_plain_app args s f vs t o :
  plain s = true -> piece args f vs t o -> piece args (s +:+ f) vs (s +:+ t) (s +:+ o).
Proof.
  intros Hs [C I R F]. pose proof (piece_plain args s Hs) as [_ I0 R0 _]. split.
  - intros fuel proxy u values off Hf Hu.
    destruct (C fuel proxy u values off Hf Hu) as [off' E]. exists off'.
    rewrite str_app_assoc, Compile_prefix, E by by apply plain_no_dollar.
    apply out_prefix_app.
  - intros rest args'. rewrite str_app_assoc. etrans; [apply (I0 (t +:+ rest) (vs ++ args'))|].
    rewrite I. destruct (mysqlLikeInterpolate _ _ _ _); simpl; [|done]. by rewrite str_app_assoc.
  - intros rest. rewrite str_app_assoc, R0, R.
    destruct (read_literals None rest) as [[]|]; simpl; [|done]. by rewrite str_app_assoc.
  - rewrite str_app_length. lia.
Qed.

(** A list of pieces. *)
Inductive pieces (args : list string) :
    list string -> list string -> list string -> list string -> Prop :=
| pieces_nil : pieces args [] [] [] []
| pieces_cons f vs t o fs vss ts os :
    piece args f vs t o -> pieces args fs vss ts os ->
    pieces args (f :: fs) (vs ++ vss) (t :: ts) (o :: os).

Lemma pieces_app args fs1 vs1 ts1 os1 fs2 vs2 ts2 os2 :
  pieces args fs1 vs1 ts1 os1 -> pieces args fs2 vs2 ts2 os2 ->
  pieces args (fs1 ++ fs2) (vs1 ++ vs2) (ts1 ++ ts2) (os1 ++ os2).
Proof.
  intros H1 H2. induction H1; simpl; [done|]. rewrite <-app_assoc. by constructor.
Qed.

Lemma strings_Join_cons s x l sep :
  strings_Join (s :: x :: l) sep = s +:+ sep +:+ strings_Join (x :: l) sep.
Proof. done. Qed.

Lemma plain_app s t : plain (s +:+ t) = plain s && plain t.
Proof. apply str_forall_app. Qed.

Lemma plain_join ss sep :
  Forall (fun s => plain s = true) ss -> plain sep = true -> plain (strings_Join ss sep) = true.
Proof.
  intros H Hsep. induction H as [|s ss Hs H IH]; [done|].
  destruct ss; [done|]. by rewrite strings_Join_cons, !plain_app, Hs, Hsep, IH.
Qed.

Lemma piece_join args c sep fs vs ts os :
  pieces args fs vs ts os -> is_digit c = false -> plain (String c sep) = true ->
  piece args (strings_Join fs (String c sep)) vs (strings_Join ts (String c sep))
    (strings_Join os (String c sep)).
Proof.
  intros H Hc Hsep. induction H as [|f vs t o fs vss ts os Hp H IH].
  { by apply piece_plain. }
  inversion H; subst.
  - simpl. by rewrite app_nil_r.
  - rewrite !strings_Join_cons.
    apply piece_app; [done| |done].
    by apply piece_plain_app.
Qed.

(** ** Building a whole query *)

(** What the builder puts before and after the WHERE clause. *)
Definition sb_head (cols : list string) (table : string) : string :=
  "SELECT " +:+ strings_Join cols ", " +:+ " FROM " +:+ table.

Definition sb_where (exprs : list string) : string :=
  match exprs with [] => "" | _ => " WHERE " +:+ strings_Join exprs " AND " end.

Definition sb_tail (orderBy : list string) (limit : Z) : string :=
  match orderBy with [] => "" | _ => " ORDER BY " +:+ strings_Join orderBy ", " end
  +:+ (if (0 <=? limit)%Z then " LIMIT " +:+ format_int limit else "").

Lemma format_int_plain z : plain (format_int z) = true.
Proof.
  assert (forall u, plain (NilEmpty.string_of_uint u) = true) as H.
  { intros u. apply (str_forall_weaken is_digit); [|apply uint_digits]. intros c Hc.
    cut (implb (is_digit c) (plain_byte c) = true); [by rewrite Hc|]. clear Hc. by_bytes c. }
  destruct z; unfold format_int; [apply H..|]. rewrite plain_app. by rewrite H.
Qed.

Lemma WriteLeadingString_ne buf s :
  buf <> "" -> WriteLeadingString buf s = buf +:+ " " +:+ s.
Proof. unfold WriteLeadingString. by destruct (String.eqb_spec buf ""). Qed.

Lemma WriteLeadingString_head cols table x s :
  WriteLeadingString (sb_head cols table +:+ x) s = sb_head cols table +:+ x +:+ " " +:+ s.
Proof. by rewrite <-(str_app_assoc (sb_head cols table) x). Qed.

(** The format of the builder, cut at the proxy of its WHERE clause. *)
Lemma SB_format_shape sb table :
  sb_selectCols sb <> [] -> sb_tables sb = [table] ->
  SB_format sb = sb_head (sb_selectCols sb) table
    +:+ match sb_andExprs sb with [] => "" | _ => " $0" end
    +:+ sb_tail (sb_orderByCols sb) (sb_limit sb).
Proof.
  intros Hcols Ht. unfold SB_format, sb_tail. rewrite Ht.
  replace (WriteLeadingString _ "FROM " +:+ strings_Join [table] ", ")
    with (sb_head (sb_selectCols sb) table +:+ "").
  2: { rewrite str_app_nil_r. unfold sb_head. destruct (sb_selectCols sb) as [|c cols]; [done|].
       rewrite WriteLeadingString_ne by (intros H; discriminate H).
       change (WriteLeadingString "" "SELECT ") with "SELECT ". by rewrite !str_app_assoc. }
  destruct (sb_andExprs sb), (sb_orderByCols sb), (0 <=? sb_limit sb)%Z;
    repeat rewrite ?WriteLeadingString_head, ?str_app_assoc, ?str_app_nil_l, ?str_app_nil_r; done.
Qed.

Section build.
Context (sb : SelectBuilder) (table : string) (vs ts os : list string).
Context (Hcols : sb_selectCols sb <> []) (Htable : sb_tables sb = [table]).
Context (Hplain : plain (sb_head (sb_selectCols sb) table) = true).
Context (Horder : plain (strings_Join (sb_orderByCols sb) ", ") = true).
Context (Hpieces : pieces (sb_args sb) (sb_andExprs sb) vs ts os).

Lemma sb_tail_plain : plain (sb_tail (sb_orderByCols sb) (sb_limit sb)) = true.
Proof.
  unfold sb_tail. rewrite plain_app. destruct (sb_orderByCols sb), (0 <=? sb_limit sb)%Z;
    rewrite ?plain_app, ?format_int_plain, ?Horder; done.
Qed.

Let head := sb_head (sb_selectCols sb) table.
Let tail := sb_tail (sb_orderByCols sb) (sb_limit sb).

Lemma WhereClause_Build_pieces :
  sb_andExprs sb <> [] ->
  WhereClause_Build sb [] = Returns ("WHERE " +:+ strings_Join ts " AND ", vs).
Proof.
  intros Hne. unfold WhereClause_Build. destruct (sb_andExprs sb) as [|e es] eqn:E; [done|].
  destruct (piece_join _ " " "AND " _ _ _ _ Hpieces) as [C _ _ F]; [done..|].
  destruct (C (String.length (strings_Join (e :: es) " AND ")) proxy_in_where "" [] 0)
    as [off' Hc]; [done|done|].
  rewrite str_app_nil_r in Hc. rewrite Hc. simpl.
  rewrite Compile_plain by done. simpl. by rewrite str_app_nil_r.
Qed.

Lemma SB_Build_pieces : SB_Build sb = Returns (head +:+ sb_where ts +:+ tail, vs).
Proof.
  unfold SB_Build. rewrite (SB_format_shape sb table Hcols Htable).
  fold head tail.
  pose proof WhereClause_Build_pieces as Hw.
  pose proof (plain_no_dollar _ sb_tail_plain) as Ht. pose proof (plain_no_dollar _ Hplain) as Hh.
  fold head in Hh. fold tail in Ht.
  destruct (sb_andExprs sb) as [|e es] eqn:E.
  - inversion Hpieces; subst. rewrite Compile_plain; [done|].
    rewrite !str_app_nil_l. unfold no_char in *. by rewrite str_forall_app, Hh, Ht.
  - rewrite Compile_prefix by done.
    set (n := String.length _). assert (exists m, n = S m) as [m ->].
    { exists (pred n). unfold n. rewrite !str_app_length. simpl. lia. }
    rewrite (str_app_cons " " "$0"). rewrite <-(str_app_nil_l (String " " _)).
    rewrite str_app_nil_l, <-(str_app_nil_l ("$0" +:+ tail)), <-str_app_cons, Compile_prefix by done.
    change ("$0" +:+ tail) with (String "$" (itoa 0 +:+ tail)).
    rewrite Compile_digits; [|done|].
    2: { unfold tail, sb_tail. by destruct (sb_orderByCols sb), (0 <=? sb_limit sb)%Z. }
    unfold compileSuccessive. rewrite Hw by done.
    simpl. rewrite Compile_plain by done. simpl. inversion Hpieces; subst.
    unfold sb_where. by autorewrite with gostr.
Qed.

Lemma sb_where_piece : piece (sb_args sb) (sb_where (sb_andExprs sb)) vs (sb_where ts) (sb_where os).
Proof.
  unfold sb_where. destruct Hpieces as [|? ? ? ? ? ? ? ? H H']; [by apply piece_plain|].
  apply piece_plain_app; [done|]. apply (piece_join _ " " "AND "); [|done..].
  by constructor.
Qed.

(** The query and what reading it gives back. *)
Lemma Interpolate_Build_pieces :
  Interpolate_Build sb = Returns (Some (head +:+ sb_where os +:+ tail))
  /\ read_literals None (head +:+ sb_where os +:+ tail) = Some (head +:+ sb_where ts +:+ tail, vs).
Proof.
  assert (stops is_digit tail) as Hd.
  { unfold tail, sb_tail. by destruct (sb_orderByCols sb), (0 <=? sb_limit sb)%Z. }
  pose proof (piece_plain (sb_args sb) _ sb_tail_plain) as Pt.
  pose proof sb_where_piece as Pw.
  assert (piece (sb_args sb) (head +:+ sb_where (sb_andExprs sb) +:+ tail) vs
            (head +:+ sb_where ts +:+ tail) (head +:+ sb_where os +:+ tail)) as [_ I R _].
  { apply piece_plain_app; [done|]. rewrite <-(app_nil_r vs).
    apply piece_app; [done|done|].
    intros t Ht. fold tail. destruct tail; [done|]. done. }
  unfold Interpolate_Build. rewrite SB_Build_pieces. split.
  - specialize (I "" []). rewrite !str_app_nil_r, app_nil_r in I. rewrite I.
    simpl. by rewrite str_app_nil_r.
  - specialize (R ""). rewrite !str_app_nil_r in R. rewrite R. simpl.
    by rewrite str_app_nil_r, app_nil_r.
Qed.
End build.
