(* ===== verification/Query.v ===== *)
(** * SOQL queries: [pkg/connector/client/query.go] and [getQueryString]

    [SalesforceQuery] and its builder methods over [SqlBuilder], the fields the
    connector selects from each table, and what a finished query looks like:
    its text, and that reading it gives back exactly the values put in. *)
From S2P Require Export SqlBuilder.
From Stdlib Require Import Ascii.

Definition SalesforcePK : string := "Id".
Definition allFieldsKeyword : string := "Fields(standard)".
Definition TableNameGroupMemberships : string := "GroupMember".
Definition TableNameGroups : string := "Group".
Definition TableNamePermissionAssignments : string := "PermissionSetAssignment".
Definition TableNamePermissionsSets : string := "PermissionSet".
Definition TableNameProfiles : string := "Profile".
Definition TableNameUserLicenses : string := "UserLicense".
Definition TableNameRoles : string := "UserRole".
Definition TableNameUsers : string := "User".
Definition TablePermissionSetGroup : string := "PermissionSetGroup".
Definition TablePermissionSetGroupComponent : string := "PermissionSetGroupComponent".
Definition TableNameConnectedApps : string := "ConnectedApplication".
Definition TableNameUserLogin : string := "UserLogin".
Definition TableNameTerritory2 : string := "Territory2".
Definition TableNameTerritory2Model : string := "Territory2Model".
Definition TableNameUserTerritory2Assoc : string := "UserTerritory2Association".
Definition TableNamePicklistValueInfo : string := "PicklistValueInfo".
Definition TableNameBotDefinition : string := "BotDefinition".

Definition TableNamesToFieldsMapping : gmap string (list string) := list_to_map [
  (TableNameUsers, ["FirstName"; "LastName"; "Email"; "Username"; "IsActive"; "UserType";
     "ProfileId"; "UserRoleId"; "LastLoginDate"; "Profile.UserLicense.LicenseDefinitionKey"]);
  (TableNameRoles, ["Name"]);
  (TableNameProfiles, ["Name"; "UserLicenseId"]);
  (TableNameUserLicenses, ["Name"]);
  (TableNamePermissionAssignments, ["PermissionSetId"; "AssigneeId"; "IsActive"]);
  (TableNameGroupMemberships, ["GroupId"; "UserOrGroupId"]);
  (TableNamePermissionsSets, ["Name"; "Label"; "Type"; "ProfileId"; "Profile.Name"]);
  (TableNameGroups, ["Name"; "DeveloperName"; "Type"; "RelatedId"; "Related.Name"]);
  (TablePermissionSetGroup, ["IsDeleted"; "DeveloperName"; "Language"; "MasterLabel";
     "NamespacePrefix"; "Description"; "HasActivationRequired"]);
  (TablePermissionSetGroupComponent, ["IsDeleted"; "PermissionSetGroupId"; "PermissionSetId"]);
  (TableNameConnectedApps, ["Name"]);
  (TableNameUserLogin, ["UserId"; "IsFrozen"; "IsPasswordLocked"]);
  (TableNameTerritory2, ["Name"; "Territory2ModelId"; "Territory2TypeId";
     "ParentTerritory2Id"; "Description"]);
  (TableNameTerritory2Model, ["Name"; "State"]);
  (TableNameUserTerritory2Assoc, ["UserId"; "Territory2Id"; "RoleInTerritory2"]);
  (TableNamePicklistValueInfo, ["Value"]);
  (TableNameBotDefinition, ["DeveloperName"; "MasterLabel"; "BotUserId"])].
#[global] Opaque TableNamesToFieldsMapping.

Record SalesforceQuery := { sq_sb : SelectBuilder; sq_skipOrderBy : bool }.

Definition sq_with (q : SalesforceQuery) (sb : SelectBuilder) : SalesforceQuery :=
  {| sq_sb := sb; sq_skipOrderBy := sq_skipOrderBy q |}.

Definition WithoutOrderBy (q : SalesforceQuery) : SalesforceQuery :=
  {| sq_sb := sq_sb q; sq_skipOrderBy := true |}.

Definition NewIDQuery (tableName : string) : SalesforceQuery :=
  {| sq_sb := SelectFrom [SalesforcePK] tableName; sq_skipOrderBy := false |}.

(** [append] and the write to [selectors[0]] never reach the mapping: its slices
    are full, and none of them is ["*"]. *)
Definition NewQuery (tableName : string) (selectors : list string) : SalesforceQuery :=
  let selectors :=
    match selectors with
    | [] => default [] (TableNamesToFieldsMapping !! tableName)
    | _ => selectors
    end in
  let selectors :=
    match selectors with
    | ["*"] => [allFieldsKeyword]
    | _ => selectors ++ [SalesforcePK]
    end in
  {| sq_sb := SelectFrom selectors tableName; sq_skipOrderBy := false |}.

Definition WhereEq (q : SalesforceQuery) (field value : string) : SalesforceQuery :=
  let '(e, sb) := Cond_Equal (sq_sb q) field value in sq_with q (SB_Where sb e).

Definition WhereBoolEq (q : SalesforceQuery) (field : string) (value : bool) : SalesforceQuery :=
  sq_with q (SB_Where (sq_sb q) (field +:+ " = " +:+ strconv_FormatBool value)).

Definition WhereNotEq (q : SalesforceQuery) (field value : string) : SalesforceQuery :=
  let '(e, sb) := Cond_NE (sq_sb q) field value in sq_with q (SB_Where sb e).

Definition WhereGT (q : SalesforceQuery) (field value : string) : SalesforceQuery :=
  let '(e, sb) := Cond_GT (sq_sb q) field value in sq_with q (SB_Where sb e).

(** [q.sb.Where(q.sb.In(field, values...))], as [GetUserLoginsByUserIDs] does. *)
Definition WhereIn (q : SalesforceQuery) (field : string) (values : list string) : SalesforceQuery :=
  let '(e, sb) := Cond_In (sq_sb q) field values in sq_with q (SB_Where sb e).

Definition OrderBy (q : SalesforceQuery) (field : string) : SalesforceQuery :=
  sq_with q (SB_OrderBy (sq_sb q) field).

Definition Limit (q : SalesforceQuery) (limit : Z) : SalesforceQuery :=
  sq_with q (SB_Limit (sq_sb q) limit).

Definition SalesforceQuery_String (q : SalesforceQuery) : outcome string :=
  match Interpolate_Build (sq_sb q) with
  | Returns (Some query) => Returns query
  | Returns None => Returns "invalid query"
  | Panics why => Panics why
  end.

Definition WhereInSubQuery (q : SalesforceQuery) (field : string) (sq : SalesforceQuery) :
    outcome SalesforceQuery :=
  match SalesforceQuery_String sq with
  | Returns s => Returns (sq_with q (SB_Where (sq_sb q) (field +:+ " IN (" +:+ s +:+ ")")))
  | Panics why => Panics why
  end.

(** [request.go]; [pageSize] is not read. *)
Definition getQueryString (q : SalesforceQuery) (paginationPath : string) (pageSize : Z) :
    outcome string :=
  if negb (String.eqb paginationPath "") then Returns paginationPath
  else if sq_skipOrderBy q then SalesforceQuery_String q
  else SalesforceQuery_String (OrderBy q SalesforcePK).

(** ** What a query says *)

(** A condition, as the code adds it. *)
Inductive q_cond :=
| QEq (field value : string)
| QBool (field : string) (value : bool)
| QNe (field value : string)
| QGt (field value : string)
| QIn (field : string) (values : list string).

Definition add_cond (q : SalesforceQuery) (c : q_cond) : SalesforceQuery :=
  match c with
  | QEq f v => WhereEq q f v
  | QBool f b => WhereBoolEq q f b
  | QNe f v => WhereNotEq q f v
  | QGt f v => WhereGT q f v
  | QIn f vs => WhereIn q f vs
  end.

(** The values a condition carries, and its text over their rendering. *)
Definition cond_values (c : q_cond) : list string :=
  match c with
  | QEq _ v | QNe _ v | QGt _ v => [v]
  | QBool _ _ => []
  | QIn _ vs => vs
  end.

Definition cond_field (c : q_cond) : string :=
  match c with QEq f _ | QNe f _ | QGt f _ | QBool f _ | QIn f _ => f end.

Definition cond_text (render : string -> string) (c : q_cond) : string :=
  match c with
  | QEq f v => f +:+ " = " +:+ render v
  | QBool f b => f +:+ " = " +:+ strconv_FormatBool b
  | QNe f v => f +:+ " <> " +:+ render v
  | QGt f v => f +:+ " > " +:+ render v
  | QIn f vs => f +:+ " IN (" +:+ strings_Join (map render vs) ", " +:+ ")"
  end.

(** The statement over its parts. *)
Definition query_text (render : string -> string) (cols : list string) (table : string)
    (conds : list q_cond) (orderBy : list string) (limit : Z) : string :=
  sb_head cols table +:+ sb_where (map (cond_text render) conds) +:+ sb_tail orderBy limit.

(** A statement is no page path of the API. *)
Lemma query_text_no_path render cols table conds orderBy limit :
  strings_HasPrefix (query_text render cols table conds orderBy limit) "/services/data" = false.
Proof. reflexivity. Qed.

Definition query_values (conds : list q_cond) : list string := conds ≫= cond_values.

(** The format text a condition adds when [k] arguments are there already. *)
Definition cond_format (k : nat) (c : q_cond) : string :=
  match c with
  | QEq f _ => f +:+ " = " +:+ "$" +:+ itoa (S k)
  | QBool f b => f +:+ " = " +:+ strconv_FormatBool b
  | QNe f _ => f +:+ " <> " +:+ "$" +:+ itoa (S k)
  | QGt f _ => f +:+ " > " +:+ "$" +:+ itoa (S k)
  | QIn f vs => f +:+ " IN (" +:+ strings_Join (imap (fun i _ => "$" +:+ itoa (S (k + i))) vs) ", " +:+ ")"
  end.

Fixpoint cond_formats (k : nat) (cs : list q_cond) : list string :=
  match cs with
  | [] => []
  | c :: cs => cond_format k c :: cond_formats (k + length (cond_values c)) cs
  end.

Lemma Escape_plain s : plain s = true -> Escape s = s.
Proof.
  intros H%plain_no_dollar. unfold no_char in H. induction s as [|c s IH]; [done|].
  simpl in *. apply andb_true_iff in H as [Hc Hs]. apply negb_true_iff in Hc.
  by rewrite Hc, IH.
Qed.

Definition sb_add_args (sb : SelectBuilder) (vs : list string) : SelectBuilder :=
  {| sb_selectCols := sb_selectCols sb; sb_tables := sb_tables sb;
     sb_andExprs := sb_andExprs sb; sb_orderByCols := sb_orderByCols sb;
     sb_limit := sb_limit sb; sb_args := sb_args sb ++ vs |}.

Lemma sb_add_args_nil sb : sb_add_args sb [] = sb.
Proof. destruct sb. unfold sb_add_args. simpl. by rewrite app_nil_r. Qed.

Lemma Args_AddAll_spec sb vs :
  Args_AddAll sb vs =
    (imap (fun i _ => "$" +:+ itoa (S (length (sb_args sb) + i))) vs, sb_add_args sb vs).
Proof.
  revert sb. induction vs as [|v vs IH]; intros sb.
  - by rewrite sb_add_args_nil.
  - cbn [Args_AddAll Args_Add]. rewrite IH. cbn [imap sb_args]. rewrite length_app. simpl.
    f_equal.
    + f_equal; [by rewrite Nat.add_0_r|]. apply imap_ext. intros i x _. simpl.
      by replace (length (sb_args sb) + 1 + i) with (length (sb_args sb) + S i) by lia.
    + unfold sb_add_args. simpl. by rewrite <-app_assoc.
Qed.

(** What adding a condition does to the builder. *)
Lemma add_cond_spec q c :
  plain (cond_field c) = true ->
  add_cond q c = sq_with q (SB_Where (sb_add_args (sq_sb q) (cond_values c))
                             (cond_format (length (sb_args (sq_sb q))) c)).
Proof.
  intros Hf. destruct c; simpl in *; unfold WhereEq, WhereBoolEq, WhereNotEq, WhereGT, WhereIn,
    Cond_Equal, Cond_NE, Cond_GT, Cond_binary, Cond_In; simpl.
  1-4: by rewrite ?sb_add_args_nil, ?Escape_plain.
  rewrite Args_AddAll_spec. by rewrite Escape_plain.
Qed.

Definition q_fold (q : SalesforceQuery) (conds : list q_cond) : SalesforceQuery :=
  foldl add_cond q conds.

Lemma q_fold_spec conds q :
  Forall (fun c => plain (cond_field c) = true) conds ->
  let sb := sq_sb q in
  let sb' := sq_sb (q_fold q conds) in
  sb_andExprs sb' = sb_andExprs sb ++ cond_formats (length (sb_args sb)) conds
  /\ sb_args sb' = sb_args sb ++ query_values conds
  /\ sb_selectCols sb' = sb_selectCols sb /\ sb_tables sb' = sb_tables sb
  /\ sb_orderByCols sb' = sb_orderByCols sb /\ sb_limit sb' = sb_limit sb
  /\ sq_skipOrderBy (q_fold q conds) = sq_skipOrderBy q.
Proof.
  intros H. revert q. induction H as [|c conds Hc H IH]; intros q; simpl.
  - by rewrite !app_nil_r.
  - specialize (IH (add_cond q c)). rewrite (add_cond_spec q c Hc) in *. simpl in IH.
    destruct IH as (He & Ha & ?). rewrite length_app in He.
    rewrite <-app_assoc in He, Ha. done.
Qed.

Section cond_pieces.
Context (args : list string) (Hargs : (Z.of_nat (length args) <= int64_max)%Z).

Lemma args_piece k v :
  args !! k = Some v -> piece args ("$" +:+ itoa (S k)) [v] "?" (quoteStringValue v).
Proof.
  intros H. apply piece_arg; [done|]. apply lookup_lt_Some in H. lia.
Qed.

Lemma args_pieces k vs :
  (forall i v, vs !! i = Some v -> args !! (k + i) = Some v) ->
  pieces args (imap (fun i _ => "$" +:+ itoa (S (k + i))) vs) vs
    (map (fun _ => "?") vs) (map quoteStringValue vs).
Proof.
  revert k. induction vs as [|v vs IH]; intros k H; [constructor|].
  cbn [imap map]. apply (pieces_cons _ _ [v]).
  - apply args_piece. apply H. done.
  - rewrite (imap_ext _ (fun i _ => "$" +:+ itoa (S (S k + i)))).
    + apply IH. intros i w Hw. replace (S k + i) with (k + S i) by lia. by apply H.
    + intros i x _. simpl. by rewrite Nat.add_succ_r.
Qed.

Lemma binary_piece f op k v :
  plain f = true -> plain op = true -> args !! k = Some v ->
  piece args (f +:+ op +:+ "$" +:+ itoa (S k)) [v] (f +:+ op +:+ "?") (f +:+ op +:+ quoteStringValue v).
Proof. intros Hf Hop Hv. by repeat (apply piece_plain_app; [done|]); apply args_piece. Qed.

Lemma cond_piece k c :
  plain (cond_field c) = true ->
  (forall i v, cond_values c !! i = Some v -> args !! (k + i) = Some v) ->
  piece args (cond_format k c) (cond_values c) (cond_text (fun _ => "?") c)
    (cond_text quoteStringValue c).
Proof.
  intros Hf H. destruct c as [f v|f b|f v|f v|f vs]; simpl in *.
  1,3,4: apply binary_piece; [done..|]; specialize (H 0 v eq_refl); by rewrite Nat.add_0_r in H.
  - apply piece_plain. rewrite !plain_app, Hf. by destruct b.
  - apply piece_plain_app; [done|]. apply piece_plain_app; [done|].
    rewrite <-(app_nil_r vs) at 2.
    apply piece_app; [|by apply piece_plain|done].
    apply (piece_join _ "," " "); [|done..]. by apply args_pieces.
Qed.

Lemma conds_pieces k cs :
  Forall (fun c => plain (cond_field c) = true) cs ->
  (forall i v, query_values cs !! i = Some v -> args !! (k + i) = Some v) ->
  pieces args (cond_formats k cs) (query_values cs) (map (cond_text (fun _ => "?")) cs)
    (map (cond_text quoteStringValue) cs).
Proof.
  intros Hf. revert k. induction Hf as [|c cs Hc Hf IH]; intros k H; [constructor|].
  change (query_values (c :: cs)) with (cond_values c ++ query_values cs) in *.
  constructor.
  - apply cond_piece; [done|]. intros i v Hv. apply H. by apply lookup_app_l_Some.
  - apply IH. intros i v Hv. rewrite <-Nat.add_assoc. apply H.
    by rewrite lookup_app_r, Nat.add_comm, Nat.add_sub by lia.
Qed.
End cond_pieces.

Definition NewQuery_cols (tableName : string) (selectors : list string) : list string :=
  sb_selectCols (sq_sb (NewQuery tableName selectors)).

Lemma NewQuery_sb t sel :
  sq_sb (NewQuery t sel) = SelectFrom (NewQuery_cols t sel) t.
Proof. reflexivity. Qed.

Lemma NewQuery_cols_nonempty t sel : NewQuery_cols t sel <> [].
Proof.
  unfold NewQuery_cols, NewQuery. cbn [sq_sb sb_selectCols SelectFrom].
  generalize (default [] (TableNamesToFieldsMapping !! t)). intros fields.
  set (l := match sel with [] => _ | _ => _ end).
  assert (forall x, l ++ [x] <> []) by (intros x; by destruct l).
  repeat case_match; try done; subst; auto.
Qed.

(** Queries over plain names: no "$", "?" or quote in them. *)
Definition plain_query (t : string) (sel : list string) (conds : list q_cond) : Prop :=
  plain (sb_head (NewQuery_cols t sel) t) = true
  /\ Forall (fun c => plain (cond_field c) = true) conds
  /\ (Z.of_nat (length (query_values conds)) <= int64_max)%Z.

#[export] Instance plain_query_dec t sel conds : Decision (plain_query t sel conds).
Proof. apply _. Defined.

Lemma query_pieces t sel conds orderBy limit :
  plain_query t sel conds -> plain (strings_Join orderBy ", ") = true ->
  let q := q_fold (NewQuery t sel) conds in
  forall sb, sb_selectCols sb = sb_selectCols (sq_sb q) -> sb_tables sb = sb_tables (sq_sb q) ->
    sb_andExprs sb = sb_andExprs (sq_sb q) -> sb_args sb = sb_args (sq_sb q) ->
    sb_orderByCols sb = orderBy -> sb_limit sb = limit ->
    Interpolate_Build sb
      = Returns (Some (query_text quoteStringValue (NewQuery_cols t sel) t conds orderBy limit))
    /\ read_literals None (query_text quoteStringValue (NewQuery_cols t sel) t conds orderBy limit)
      = Some (query_text (fun _ => "?") (NewQuery_cols t sel) t conds orderBy limit, query_values conds).
Proof.
  intros (Ht & Hf & Hn) Ho q sb Hcols Htab Hex Hargs <- <-.
  destruct (q_fold_spec conds (NewQuery t sel) Hf) as (E1 & E2 & E3 & E4 & _).
  fold q in E1, E2, E3, E4. simpl in E1, E2.
  rewrite E1 in Hex. rewrite E2 in Hargs. rewrite E3, NewQuery_sb in Hcols. rewrite E4 in Htab.
  simpl in *. unfold query_text. rewrite <-Hcols.
  apply Interpolate_Build_pieces.
  - rewrite Hcols. apply NewQuery_cols_nonempty.
  - done.
  - by rewrite Hcols.
  - done.
  - rewrite Hex, Hargs. by apply conds_pieces.
Qed.

(** The text of a query over plain names. *)
Lemma getQueryString_text t sel conds skip pageSize :
  plain_query t sel conds ->
  let q := q_fold (NewQuery t sel) conds in
  getQueryString (if skip : bool then WithoutOrderBy q else q) "" pageSize
  = Returns (query_text quoteStringValue (NewQuery_cols t sel) t conds
               (if skip then [] else [SalesforcePK]) (-1)).
Proof.
  intros H q. unfold getQueryString, SalesforceQuery_String. simpl.
  destruct (q_fold_spec conds (NewQuery t sel) (proj1 (proj2 H))) as (_ & _ & _ & _ & E5 & E6 & E7).
  fold q in E5, E6, E7. simpl in E5, E6, E7.
  destruct skip; simpl.
  - by rewrite (proj1 (query_pieces t sel conds [] (-1) H eq_refl (sq_sb q)
                         eq_refl eq_refl eq_refl eq_refl E5 E6)).
  - rewrite E7. simpl.
    rewrite (proj1 (query_pieces t sel conds [SalesforcePK] (-1) H eq_refl
                      (SB_OrderBy (sq_sb q) SalesforcePK) eq_refl eq_refl eq_refl eq_refl
                      (f_equal (fun l => l ++ [SalesforcePK]) E5) E6)).
    done.
Qed.

(** Reading the text of a query over plain names. *)
Lemma query_text_read t sel conds orderBy limit :
  plain_query t sel conds -> plain (strings_Join orderBy ", ") = true ->
  read_literals None (query_text quoteStringValue (NewQuery_cols t sel) t conds orderBy limit)
  = Some (query_text (fun _ => "?") (NewQuery_cols t sel) t conds orderBy limit,
          query_values conds).
Proof.
  intros H Ho.
  destruct (query_pieces t sel conds orderBy limit H Ho
    {| sb_selectCols := sb_selectCols (sq_sb (q_fold (NewQuery t sel) conds));
       sb_tables := sb_tables (sq_sb (q_fold (NewQuery t sel) conds));
       sb_andExprs := sb_andExprs (sq_sb (q_fold (NewQuery t sel) conds));
       sb_orderByCols := orderBy; sb_limit := limit;
       sb_args := sb_args (sq_sb (q_fold (NewQuery t sel) conds)) |}) as [_ R]; done.
Qed.

(** ** Properties *)

(** C22: a query built by [NewQuery] and the [Where] methods over plain names is
    sent as SELECT columns FROM table WHERE its conditions, in the order they
    were added, each value a quoted literal, ordered by Id unless
    [WithoutOrderBy] was called.  With a pagination path, the path alone is
    sent. *)
Theorem query_rendering t sel conds skip path pageSize :
  plain_query t sel conds ->
  let q := q_fold (NewQuery t sel) conds in
  getQueryString (if skip : bool then WithoutOrderBy q else q) path pageSize
  = Returns (if bool_decide (path = "")
             then query_text quoteStringValue (NewQuery_cols t sel) t conds
                    (if skip then [] else [SalesforcePK]) (-1)
             else path).
Proof.
  intros H q. case_bool_decide as Hp; [subst path; by apply getQueryString_text|].
  unfold getQueryString. by destruct (String.eqb_spec path "").
Qed.

Lemma query_rendering_witness :
  getQueryString (q_fold (NewQuery TableNameUsers [])
    [QEq "Email" "o'hara@x.io?"; QBool "IsActive" true; QIn "UserId" ["a"; "b"]]) "" 0
  = Returns (query_text quoteStringValue (NewQuery_cols TableNameUsers []) TableNameUsers
     [QEq "Email" "o'hara@x.io?"; QBool "IsActive" true; QIn "UserId" ["a"; "b"]] [SalesforcePK] (-1)).
Proof.
  apply (query_rendering TableNameUsers [] _ false "" 0). vm_compute. repeat constructor. discriminate.
Defined.

(** C1: no value can leave its literal.  Whatever the values of a query over
    plain names are (quotes, backslashes, question marks and control bytes
    included), [getQueryString] returns a statement, and reading its string
    literals finds the statement with a hole for every value, and exactly the
    values put in, in their order. *)
Theorem query_injection_safe t sel conds skip pageSize :
  plain_query t sel conds ->
  let q := q_fold (NewQuery t sel) conds in
  exists s, getQueryString (if skip : bool then WithoutOrderBy q else q) "" pageSize = Returns s
    /\ read_literals None s
       = Some (query_text (fun _ => "?") (NewQuery_cols t sel) t conds
                 (if skip then [] else [SalesforcePK]) (-1),
               query_values conds).
Proof.
  intros H q. eexists. split; [by apply getQueryString_text|].
  apply query_text_read; [done|]. by destruct skip.
Qed.

Lemma query_injection_safe_witness :
  exists s, getQueryString (q_fold (NewQuery TableNameUsers ["Email"])
              [QEq "Email" "x' OR Name = 'y\"; QIn "UserId" ["a'b"; "?"]]) "" 0 = Returns s
    /\ read_literals None s
       = Some ("SELECT Email, Id FROM User WHERE Email = ? AND UserId IN (?, ?) ORDER BY Id",
               ["x' OR Name = 'y\"; "a'b"; "?"]).
Proof.
  refine (query_injection_safe TableNameUsers ["Email"] _ false 0 _).
  vm_compute. repeat constructor. discriminate.
Defined.

(** Every query selects the record id, last, unless all standard fields are
    asked for. *)
Theorem NewQuery_selects_id t sel :
  NewQuery_cols t sel =
    if bool_decide (sel = ["*"]) then [allFieldsKeyword]
    else (if bool_decide (sel = []) then default [] (TableNamesToFieldsMapping !! t) else sel)
           ++ [SalesforcePK].
Proof.
  unfold NewQuery_cols, NewQuery. cbn [sq_sb sb_selectCols SelectFrom].
  destruct sel as [|s sel].
  - assert (default [] (TableNamesToFieldsMapping !! t) <> ["*"]) as Hne.
    { destruct (TableNamesToFieldsMapping !! t) as [l|] eqn:E; [|done].
      assert (map_Forall (fun _ l => l <> ["*"]) TableNamesToFieldsMapping) as H.
      { apply (bool_decide_unpack _). vm_compute. done. }
      apply (H _ _ E). }
    revert Hne. generalize (default [] (TableNamesToFieldsMapping !! t)). intros l Hne.
    rewrite (bool_decide_eq_false_2 ([] = ["*"])), bool_decide_eq_true_2 by done.
    repeat case_match; simplify_eq; done.
  - rewrite (bool_decide_eq_false_2 (s :: sel = [])) by done.
    generalize (default [] (TableNamesToFieldsMapping !! t)). intros _.
    case_bool_decide; simplify_eq; [done|]. repeat case_match; simplify_eq; done.
Qed.
