(* ===== verification/Datetime.v ===== *)
(** * Salesforce datetimes: [pkg/connector/client/util.go]

    [parseSalesforceDatetime] with [time.Parse] on its one layout,
    "2006-01-02T15:04:05.000-0700".  A time is the instant it denotes: seconds
    since the Unix epoch, in UTC, and milliseconds. *)
From S2P Require Export GoErrors.
From Stdlib Require Import Ascii.

Record go_time := { time_unix : Z; time_milli : Z }.

#[export] Instance go_time_eq_dec : EqDecision go_time.
Proof. solve_decision. Defined.

(** The value of one digit. *)
Definition digit_of (c : ascii) : option Z :=
  if is_digit c then Some (Z.of_N (N_of_ascii c) - 48)%Z else None.

(** [time.getnum]: two digits, or one when [fixed] is off and no other digit
    follows. *)
Definition getnum (s : string) (fixed : bool) : option (Z * string) :=
  match s with
  | "" => None
  | String a s1 =>
      x ← digit_of a;
      match s1 with
      | String b s2 =>
          match digit_of b with
          | Some y => Some ((10 * x + y)%Z, s2)
          | None => if fixed then None else Some (x, s1)
          end
      | "" => if fixed then None else Some (x, s1)
      end
  end.

(** [n] digits, all of them. *)
Fixpoint getdigits (n : nat) (acc : Z) (s : string) : option (Z * string) :=
  match n, s with
  | 0, _ => Some (acc, s)
  | S n, String c s => d ← digit_of c; getdigits n (10 * acc + d)%Z s
  | S _, "" => None
  end.

(** A literal of the layout. *)
Definition skip_lit (l s : string) : option string := strip_prefix l s.

Definition is_leap (y : Z) : bool :=
  ((y mod 4 =? 0) && (negb (y mod 100 =? 0) || (y mod 400 =? 0)))%Z.

Definition daysIn (m y : Z) : Z :=
  if (m =? 2)%Z then if is_leap y then 29 else 28
  else if bool_decide (m ∈ [4; 6; 9; 11]%Z) then 30 else 31.

(** Days from 1970-01-01 to the first of January of the year, and to the first of
    the month within the year. *)
Definition days_before_year (y : Z) : Z :=
  (365 * (y - 1970) + ((y - 1) / 4 - 1969 / 4) - ((y - 1) / 100 - 1969 / 100)
   + ((y - 1) / 400 - 1969 / 400))%Z.

Definition days_before_month (m y : Z) : Z :=
  foldl (fun acc i => (acc + daysIn (Z.of_nat i) y)%Z) 0%Z (seq 1 (Z.to_nat (m - 1))).

Definition civil_seconds (y mo d h mi s : Z) : Z :=
  ((days_before_year y + days_before_month mo y + (d - 1)) * 86400 + h * 3600 + mi * 60 + s)%Z.

(** The fraction ".000": a period or a comma and three places, which [atoi]
    reads, a plus sign allowed; a minus sign is out of range. *)
Definition getfraction (s : string) : option (Z * string) :=
  match s with
  | String c s =>
      if Ascii.eqb c "." || Ascii.eqb c "," then
        match s with
        | String "+" s => '(x, s) ← getdigits 2 0 s; Some ((x * 1)%Z, s)
        | String "-" s => '(x, s) ← getdigits 2 0 s; if (x =? 0)%Z then Some (0%Z, s) else None
        | _ => getdigits 3 0 s
        end
      else None
  | "" => None
  end.

(** The offset "-0700", in seconds. *)
Definition getoffset (s : string) : option (Z * string) :=
  match s with
  | String sign s =>
      '(hr, s) ← getnum s true;
      '(mm, s) ← getnum s true;
      if (24 <? hr)%Z || (60 <? mm)%Z then None
      else if Ascii.eqb sign "+" then Some ((hr * 60 + mm) * 60, s)%Z
      else if Ascii.eqb sign "-" then Some (- ((hr * 60 + mm) * 60), s)%Z
      else None
  | "" => None
  end.

(** A field of at most [hi], at least [lo]. *)
Definition in_range (lo hi x : Z) : bool := (lo <=? x)%Z && (x <=? hi)%Z.

(** [time.Parse(layout, date)], then [UTC()]. *)
Definition time_Parse (s : string) : option go_time :=
  '(y, s) ← getdigits 4 0 s;
  s ← skip_lit "-" s;
  '(mo, s) ← getnum s true;
  if negb (in_range 1 12 mo) then None else
  s ← skip_lit "-" s;
  '(d, s) ← getnum s true;
  s ← skip_lit "T" s;
  '(h, s) ← getnum s false;
  if negb (in_range 0 23 h) then None else
  s ← skip_lit ":" s;
  '(mi, s) ← getnum s true;
  if negb (in_range 0 59 mi) then None else
  s ← skip_lit ":" s;
  '(sec, s) ← getnum s true;
  if negb (in_range 0 59 sec) then None else
  '(ms, s) ← getfraction s;
  '(off, s) ← getoffset s;
  if negb (String.eqb s "") then None
  else if negb (in_range 1 (daysIn mo y) d) then None
  else Some {| time_unix := (civil_seconds y mo d h mi sec - off)%Z; time_milli := ms |}.

(** The two results: the time (or nil) and the error. *)
Definition parseSalesforceDatetime (date : string) : option go_time * error :=
  if String.eqb date "" then (None, None)
  else
    match time_Parse date with
    | None => (None, Some (EMsg ("parsing time " +:+ date)))
    | Some t => (Some t, None)
    end.

(** ** What is read back from a well-formed date *)

Definition digit_char (d : Z) : ascii := ascii_of_N (Z.to_N (48 + d)).
Definition two (x : Z) : string := String (digit_char (x / 10)) (String (digit_char (x mod 10)) "").
Definition three (x : Z) : string := String (digit_char (x / 100)) (two (x mod 100)).
Definition four (x : Z) : string := two (x / 100) +:+ two (x mod 100).

(** The layout, written: [neg] is the sign of the offset. *)
Definition datetime_text (y mo d h mi s ms : Z) (neg : bool) (oh om : Z) : string :=
  four y +:+ "-" +:+ two mo +:+ "-" +:+ two d +:+ "T" +:+ two h +:+ ":" +:+ two mi +:+ ":" +:+ two s
  +:+ "." +:+ three ms +:+ (if neg then "-" else "+") +:+ two oh +:+ two om.

Definition offset_seconds (neg : bool) (oh om : Z) : Z :=
  if neg then (- ((oh * 60 + om) * 60))%Z else ((oh * 60 + om) * 60)%Z.

Definition datetime_ok (y mo d h mi s ms oh om : Z) : bool :=
  in_range 0 9999 y && in_range 1 12 mo && in_range 1 (daysIn mo y) d && in_range 0 23 h
  && in_range 0 59 mi && in_range 0 59 s && in_range 0 999 ms && in_range 0 24 oh && in_range 0 60 om.

#[local] Ltac Zify.zify_post_hook ::= Z.to_euclidean_division_equations.

Lemma digit_of_char d : (0 <= d <= 9)%Z -> digit_of (digit_char d) = Some d.
Proof.
  intros H. assert (d ∈ [0; 1; 2; 3; 4; 5; 6; 7; 8; 9]%Z) as Hin by (rewrite !elem_of_cons; lia).
  by repeat (apply elem_of_cons in Hin as [->|Hin]; [reflexivity|]); apply elem_of_nil in Hin.
Qed.

Lemma getnum_two x s fixed : (0 <= x <= 99)%Z -> getnum (two x +:+ s) fixed = Some (x, s).
Proof.
  intros H. unfold two. rewrite !str_app_cons, str_app_nil_l. unfold getnum.
  rewrite !digit_of_char by lia.
  simpl. f_equal. f_equal. lia.
Qed.

Lemma getdigits_cons n acc c s d :
  digit_of c = Some d -> getdigits (S n) acc (String c s) = getdigits n (10 * acc + d)%Z s.
Proof. intros H. simpl. by rewrite H. Qed.

Lemma getdigits_three x s : (0 <= x <= 999)%Z -> getdigits 3 0 (three x +:+ s) = Some (x, s).
Proof.
  intros H. unfold three, two. rewrite !str_app_cons, str_app_nil_l.
  erewrite !getdigits_cons by (apply digit_of_char; lia). cbn [getdigits]. f_equal. f_equal. lia.
Qed.

Lemma getdigits_four x s : (0 <= x <= 9999)%Z -> getdigits 4 0 (four x +:+ s) = Some (x, s).
Proof.
  intros H. unfold four, two. rewrite !str_app_cons, str_app_nil_l, !str_app_cons, str_app_nil_l.
  erewrite !getdigits_cons by (apply digit_of_char; lia). cbn [getdigits]. f_equal. f_equal. lia.
Qed.

Lemma in_range_spec lo hi x : in_range lo hi x = true <-> (lo <= x <= hi)%Z.
Proof. unfold in_range. lia. Qed.

Lemma getfraction_three x s : (0 <= x <= 999)%Z -> getfraction ("." +:+ three x +:+ s) = Some (x, s).
Proof.
  intros H. rewrite str_app_cons, str_app_nil_l. unfold getfraction. simpl (Ascii.eqb "." ".").
  rewrite <-(getdigits_three x s) by done. simpl orb. cbv iota.
  unfold three. rewrite str_app_cons.
  assert (digit_of (digit_char (x / 100)) = Some (x / 100)%Z) as Hd by (apply digit_of_char; lia).
  repeat (match goal with |- context [match ?c with _ => _ end] => destruct c end; try done).
Qed.

Lemma getoffset_two neg oh om :
  (0 <= oh <= 24)%Z -> (0 <= om <= 60)%Z ->
  getoffset ((if neg : bool then "-" else "+") +:+ two oh +:+ two om)
  = Some (offset_seconds neg oh om, "").
Proof.
  intros H1 H2. rewrite <-(str_app_nil_r (two om)).
  destruct neg; rewrite str_app_cons, str_app_nil_l; unfold getoffset;
    rewrite getnum_two by lia; cbn [mbind option_bind];
    rewrite getnum_two by lia; cbn [mbind option_bind];
    replace (24 <? oh)%Z with false by lia; replace (60 <? om)%Z with false by lia; reflexivity.
Qed.

Lemma skip_lit_app l s : skip_lit l (l +:+ s) = Some s.
Proof. apply strip_prefix_app. Qed.

(** C37: a date written in the layout is read as the instant it denotes: the civil
    time less its offset, whatever the sign of the offset. *)
Theorem parseSalesforceDatetime_reads y mo d h mi s ms neg oh om :
  datetime_ok y mo d h mi s ms oh om = true ->
  parseSalesforceDatetime (datetime_text y mo d h mi s ms neg oh om)
  = (Some {| time_unix := civil_seconds y mo d h mi s
               - offset_seconds neg oh om;
             time_milli := ms |}, None)%Z.
Proof.
  unfold datetime_ok. rewrite !andb_true_iff, !in_range_spec.
  intros ((((((((Hy & Hmo) & Hd) & Hh) & Hmi) & Hs) & Hms) & Hoh) & Hom).
  assert (daysIn mo y <= 31)%Z as Hdays by (unfold daysIn; repeat case_match; lia).
  assert (forall x, x <> "" -> parseSalesforceDatetime x
    = match time_Parse x with None => (None, Some (EMsg ("parsing time " +:+ x)))
      | Some t => (Some t, None) end) as Hp.
  { intros x Hx. unfold parseSalesforceDatetime. by destruct (String.eqb_spec x ""). }
  rewrite Hp by (unfold datetime_text, four, two; by rewrite !str_app_cons).
  assert (time_Parse (datetime_text y mo d h mi s ms neg oh om) = Some
    {| time_unix := civil_seconds y mo d h mi s - offset_seconds neg oh om;
       time_milli := ms |}%Z) as ->; [|done].
  unfold time_Parse, datetime_text.
  repeat (rewrite ?getdigits_four, ?getnum_two, ?getfraction_three, ?getoffset_two, ?skip_lit_app by lia;
          cbn [mbind option_bind];
          repeat match goal with |- context [in_range ?a ?b ?x] =>
            rewrite (proj2 (in_range_spec a b x)) by lia; cbn [negb] end).
  done.
Qed.

Lemma parseSalesforceDatetime_reads_witness :
  parseSalesforceDatetime "2024-02-29T23:30:05.250-0330"
  = (Some {| time_unix := 1709262005; time_milli := 250 |}, None)%Z.
Proof. exact (parseSalesforceDatetime_reads 2024 2 29 23 30 5 250 true 3 30 eq_refl). Defined.
