(* ===== verification/Http.v ===== *)
(** * HTTP: the environment, the store, the SDK's client and the rate limit transport

    [RoundTrip] is [pkg/connector/client/ratelimit.go]; [Do] the part of the
    SDK's [BaseHttpClient.Do] that a simpleforce request goes through.

    What is outside of the repository's code is the class [Env]: the network,
    the OAuth token endpoints, the response cache of the SDK, the parsing of
    e-mail addresses, the time zone database.  A response comes with what its body
    decodes to, as JSON and as the XML documents the code looks for. *)
From S2P Require Export GoUrl Values.
From Stdlib Require Import Ascii.

(** ** Requests and responses *)

Inductive http_method := MethodGet | MethodPost | MethodPatch | MethodDelete.

#[export] Instance http_method_eq_dec : EqDecision http_method.
Proof. solve_decision. Defined.

Inductive request_body :=
| NoBody
| JsonBody (m : gmap string value)   (* json.Marshal of a map *)
| TextBody (s : string)
| FormBody (settings : list (string * string)).   (* url.Values, encoded *)

Record http_request := {
  req_method : http_method;
  req_url : string;
  req_authorization : string;
  req_body : request_body;
}.

(** The login answer of the SOAP endpoint. *)
Record login_response := { login_SessionID : string; login_ServerURL : string }.

Record http_response := {
  resp_status : Z;
  resp_status_text : string;
  resp_limit_info : option (list string);      (* the Sforce-Limit-Info header *)
  resp_read_error : error;                     (* reading the body failed *)
  resp_text : string;                          (* the body, or the part that was read *)
  resp_json : option json;                     (* the body as JSON, when it is *)
  resp_fault : option (string * string);       (* as a SOAP fault: faultstring, faultcode *)
  resp_login : option login_response;          (* as a SOAP login response *)
}.

Definition status_ok (status : Z) : bool := (200 <=? status)%Z && (status <=? 299)%Z.

(** An OAuth token: the access token and the [instance_url] extra. *)
Record oauth_token := { AccessToken : string; token_instance_url : option string }.

(** [jwt.Config] and [clientcredentials.Config], as [auth.go] fills them in. *)
Record jwt_config := {
  jwt_Email : string; jwt_Subject : string; jwt_PrivateKey : string; jwt_TokenURL : string;
  jwt_Audience : string;
}.

Record credentials_config := { cc_ClientID : string; cc_ClientSecret : string; cc_TokenURL : string }.

(** [v2.RateLimitDescription]. *)
Inductive rate_status := STATUS_UNSPECIFIED | STATUS_OK | STATUS_OVERLIMIT.

Record RateLimitDescription := {
  rl_Status : rate_status;
  rl_Limit : Z;
  rl_Remaining : Z;
}.

(** ** The world outside *)

Class Env := {
  env_state : Type;
  (* The transport below the connector's: a response, or the error the SDK's
     client makes of a failed request. *)
  env_http : http_request -> env_state -> (go_error + http_response) * env_state;
  env_token : env_state -> (go_error + oauth_token) * env_state;
  (* Making an HTTP client or its cache may fail. *)
  env_new_http : env_state -> error * env_state;
  (* The SDK's cache of GET responses, which may fail. *)
  env_cache_get : http_request -> env_state -> go_error + option http_response;
  env_cache_set : http_request -> http_response -> env_state -> env_state;
  env_cache_clear : env_state -> error * env_state;
  (* The wait between two attempts: false when the context is done. *)
  env_wait : env_state -> bool * env_state;
  (* golang.org/x/oauth2: the signed assertion of a configuration, unless its key
     cannot be read; and what a token endpoint makes of a request. *)
  env_jwt_assertion : jwt_config -> env_state -> (go_error + string) * env_state;
  env_token_exchange : http_request -> env_state -> (go_error + oauth_token) * env_state;
  (* mail.ParseAddress accepts the address. *)
  mail_ParseAddress : string -> bool;
  (* The system's time zone database has the zone. *)
  env_zoneinfo : string -> bool;
}.

(** ** The connector's state *)

(** simpleforce's [Client]. *)
Record simple_client := {
  sc_sessionID : string;
  sc_apiVersion : string;
  sc_baseURL : string;
  sc_instanceURL : string;
  sc_clientID : string;
}.

(** [salesforceHttpTransport]; [t_tokenSource] tells whether it has one. *)
Record salesforceHttpTransport := {
  t_rateLimit : option RateLimitDescription;
  t_tokenSource : bool;
}.

Record SalesforceClient := {
  c_baseUrl : string;
  c_client : option simple_client;
  c_salesforceTransport : option salesforceHttpTransport;
  c_TokenSource : bool;                 (* whether it is non-nil *)
  c_Username : string;
  c_password : string;
  c_securityToken : string;
  c_initialized : bool;
}.

(** The state a call runs in.  [w_log] lists the requests made so far: those handed
    to the SDK's client, whether its cache or the network answers, and the eager
    token exchanges of [auth.go].  When a token source renews its token later on
    is left to [env_token]. *)
Record World `{Env} := {
  w_env : env_state;
  w_client : SalesforceClient;
  w_log : list http_request;
}.
Arguments World {_}.

(** ** Rate limits *)

Definition RateLimitHeaderKey : string := "Sforce-Limit-Info".

(** A blank [fmt] skips before a number. *)
Definition is_blank (c : ascii) : bool :=
  bool_decide (c ∈ ["009"; "011"; "012"; "013"; " "]%char).

(** One [%d] of [fmt.Sscanf] into an [int64]: blanks, a sign, digits. *)
Definition scan_int (s : string) : option (Z * string) :=
  let s := (span is_blank s).2 in
  let '(neg, s) :=
    match s with
    | String c s' =>
        if Ascii.eqb c "-" then (true, s') else if Ascii.eqb c "+" then (false, s') else (false, s)
    | "" => (false, s)
    end in
  let '(digits, rest) := span is_digit s in
  if String.eqb digits "" then None
  else
    n ← digits_val digits;
    let z := if neg : bool then (- n)%Z else n in
    if in_int64 z then Some (z, rest) else None.

(** [fmt.Sscanf(s, "api-usage=%d/%d", ...)] when it finds both numbers. *)
Definition sscanf_api_usage (s : string) : option (Z * Z) :=
  s ← strip_prefix "api-usage=" s;
  '(remaining, s) ← scan_int s;
  s ← strip_prefix "/" s;
  '(limit, _) ← scan_int s;
  Some (remaining, limit).

Definition rate_limit_of (remaining limit : Z) : RateLimitDescription :=
  {| rl_Status := if (limit <? remaining)%Z then STATUS_OVERLIMIT else STATUS_OK;
     rl_Limit := limit; rl_Remaining := remaining |}.

(** The rate limit [RoundTrip] reads off a response. *)
Definition response_rate_limit (resp : http_response) : option RateLimitDescription :=
  match resp_limit_info resp with
  | Some [info] =>
      match sscanf_api_usage info with
      | Some (remaining, limit) => Some (rate_limit_of remaining limit)
      | None => None
      end
  | _ => None
  end.

(** [WithRateLimitAnnotations]: every argument is appended, a nil one as an empty
    message. *)
Inductive annotation :=
| ARateLimit (r : option RateLimitDescription)
| AGrantAlreadyExists
| AGrantAlreadyRevoked.

Definition annotations : Type := list annotation.

Definition WithRateLimitAnnotations (rs : list (option RateLimitDescription)) : annotations :=
  map ARateLimit rs.

Section http.
Context `{Env}.

Abbreviation M := (GoM World).

Definition with_env (f : env_state -> env_state) : M unit :=
  go_modify (fun w => {| w_env := f (w_env w); w_client := w_client w; w_log := w_log w |}).

(** Ask the environment. *)
Definition ask {A} (f : env_state -> A * env_state) : M A := fun w =>
  let '(a, e) := f (w_env w) in
  (Returns a, {| w_env := e; w_client := w_client w; w_log := w_log w |}).

Definition set_client (c : SalesforceClient) : M unit :=
  go_modify (fun w => {| w_env := w_env w; w_client := c; w_log := w_log w |}).

Definition log_request (req : http_request) : M unit :=
  go_modify (fun w => {| w_env := w_env w; w_client := w_client w; w_log := w_log w ++ [req] |}).

(** [RoundTrip]: the token source's token replaces the header unless it cannot
    be had; the rate limit is that of this response, or none. *)
Definition RoundTrip (t : salesforceHttpTransport) (request : http_request) :
    M (salesforceHttpTransport * (go_error + http_response)) :=
  request ← (if t_tokenSource t then
               token ← ask env_token;
               match token with
               | inl _ => mret request
               | inr token =>
                   mret {| req_method := req_method request; req_url := req_url request;
                           req_authorization := "Bearer " +:+ AccessToken token;
                           req_body := req_body request |}
               end
             else mret request);
  response ← ask (env_http request);
  match response with
  | inl err => mret ({| t_rateLimit := None; t_tokenSource := t_tokenSource t |}, inl err)
  | inr resp =>
      mret ({| t_rateLimit := response_rate_limit resp; t_tokenSource := t_tokenSource t |}, inr resp)
  end.

(** ** The SDK's client *)

Definition GrpcCodeFromHTTPStatus (httpStatus : Z) : grpc_code :=
  if (httpStatus =? 400)%Z then InvalidArgument
  else if (httpStatus =? 408)%Z then DeadlineExceeded
  else if bool_decide (httpStatus ∈ [429; 502; 503; 504]%Z) then Unavailable
  else if (httpStatus =? 404)%Z then NotFound
  else if (httpStatus =? 401)%Z then Unauthenticated
  else if (httpStatus =? 403)%Z then PermissionDenied
  else if (httpStatus =? 409)%Z then AlreadyExists
  else if (httpStatus =? 501)%Z then Unimplemented
  else if (500 <=? httpStatus)%Z && (httpStatus <=? 599)%Z then Unavailable
  else if (400 <=? httpStatus)%Z && (httpStatus <=? 499)%Z then InvalidArgument
  else Unknown.

(** [BaseHttpClient.Do]: the response and the error, either of which may be
    missing.  A cached response does not reach the transport; when the body cannot
    be read both are there. *)
Definition Do (t : salesforceHttpTransport) (req : http_request) :
    M (salesforceHttpTransport * option http_response * error) :=
  _ ← log_request req;
  w ← go_get;
  match (match req_method req with MethodGet => env_cache_get req (w_env w) | _ => inr None end) with
  | inl err => mret (t, None, Some err)
  | inr cached =>
      '(t, resp) ← match cached with
                   | Some resp => mret (t, inr resp)
                   | None => RoundTrip t req
                   end;
      match resp with
      | inl err => mret (t, None, Some err)
      | inr resp =>
          match resp_read_error resp with
          | Some err => mret (t, Some resp, Some err)
          | None =>
              if negb (status_ok (resp_status resp)) then
                mret (t, Some resp,
                      Some (EStatus (GrpcCodeFromHTTPStatus (resp_status resp)) (resp_status_text resp)))
              else
                _ ← match req_method req with
                    | MethodGet =>
                        if (resp_status resp =? 200)%Z then with_env (env_cache_set req resp) else mret tt
                    | _ => mret tt
                    end;
                mret (t, Some resp, None)
          end
      end
  end.
End http.
