(* ===== verification/Tape.v ===== *)
(** * A concrete environment: a tape of responses

    The environment the theorems are instantiated at: the network answers with
    the responses of a tape, in order, nothing is cached, every token exchange
    succeeds. *)
From S2P Require Export Http.
From Stdlib Require Import SpecFloat.

Definition tape_env : Env := {|
  env_state := list (go_error + http_response);
  env_http _ tape :=
    match tape with
    | [] => (inl (EMsg "connection refused"), [])
    | r :: tape => (r, tape)
    end;
  env_token tape := (inr {| AccessToken := "token"; token_instance_url := None |}, tape);
  env_new_http tape := (None, tape);
  env_cache_get _ _ := inr None;
  env_cache_set _ _ tape := tape;
  env_cache_clear tape := (None, tape);
  env_wait tape := (true, tape);
  env_jwt_assertion _ tape := (inr "signed", tape);
  env_token_exchange _ tape := (inr {| AccessToken := "token"; token_instance_url := None |}, tape);
  mail_ParseAddress _ := true;
  env_zoneinfo _ := true;
|}.

(** A JSON response with a status. *)
Definition json_response (status : Z) (text : string) (j : json) : http_response :=
  {| resp_status := status; resp_status_text := text; resp_limit_info := None; resp_read_error := None; resp_text := text;
     resp_json := Some j; resp_fault := None; resp_login := None |}.

Definition ok_json (j : json) : go_error + http_response := inr (json_response 200 "200 OK" j).

(** A page of records. *)
Definition page_json (records : list json) (done : bool) (next : string) : json :=
  JObj [("totalSize", JNum (S754_zero false)); ("done", JBool done); ("nextRecordsUrl", JStr next);
        ("records", JArr records)].

(** An error answer of the REST API. *)
Definition error_json (message code : string) : json :=
  JArr [JObj [("message", JStr message); ("errorCode", JStr code)]].

Definition sf_client : simple_client :=
  {| sc_sessionID := "sid"; sc_apiVersion := "54.0";
     sc_baseURL := "https://acme.my.salesforce.com";
     sc_instanceURL := "https://acme.my.salesforce.com";
     sc_clientID := "ConductorOne" |}.

Definition tape_client : SalesforceClient :=
  {| c_baseUrl := "https://acme.my.salesforce.com";
     c_client := Some sf_client;
     c_salesforceTransport := Some {| t_rateLimit := None; t_tokenSource := false |};
     c_TokenSource := false; c_Username := "admin"; c_password := "pw"; c_securityToken := "";
     c_initialized := true |}.

(** A logged in connector before a tape. *)
Definition tape_world (tape : list (go_error + http_response)) : @World tape_env :=
  @Build_World tape_env tape tape_client [].

(** Show what a run at the tape answers; its final state is left as it is. *)
Ltac reads :=
  match goal with
  | |- ?run = _ => rewrite (surjective_pairing run); f_equal; vm_compute; reflexivity
  end.
