(* ===== verification/RateLimit.v ===== *)
(** * The rate limit of a response: properties of [client/ratelimit.go]

    That [Sscanf] reads back the numbers of an api-usage header, and what the
    transport holds after a round trip. *)
From S2P Require Export Tape.
From Stdlib Require Import Ascii DecimalString.

(** ** Reading the rate limit header *)

Lemma digit_not_blank_sign c :
  is_digit c = true -> is_blank c = false /\ Ascii.eqb c "-" = false /\ Ascii.eqb c "+" = false.
Proof.
  intros H. assert (forall d, is_digit d = false -> Ascii.eqb c d = false) as Hne.
  { intros d Hd. apply Ascii.eqb_neq. intros ->. congruence. }
  split; [|split; by apply Hne].
  unfold is_blank. apply bool_decide_eq_false_2. rewrite !elem_of_cons, elem_of_nil.
  intros [->|[->|[->|[->|[->|[]]]]]]; discriminate.
Qed.

Lemma scan_digits n rest :
  stops is_digit rest ->
  let ds := NilEmpty.string_of_uint (N.to_uint n) in
  span is_digit (ds +:+ rest) = (ds, rest) /\ String.eqb ds "" = false
  /\ digits_val ds = Some (Z.of_N n).
Proof.
  intros Hr ds. split_and!.
  - apply span_app; [apply uint_digits|done].
  - apply String.eqb_neq, uint_nonempty.
  - apply digits_val_uint.
Qed.

(** [%d] reads back what [%d] writes, of every [int64]. *)
Lemma scan_int_format z rest :
  in_int64 z = true -> stops is_digit rest -> scan_int (format_int z +:+ rest) = Some (z, rest).
Proof.
  intros Hz Hr.
  assert (forall n, z = Z.of_N n ->
    scan_int (NilEmpty.string_of_uint (N.to_uint n) +:+ rest) = Some (z, rest)) as Hpos.
  { intros n ->. destruct (scan_digits n rest Hr) as (H1 & H2 & H3).
    pose proof (uint_digits (N.to_uint n)) as Hd.
    destruct (NilEmpty.string_of_uint (N.to_uint n)) as [|c s] eqn:E; [done|].
    simpl in Hd. apply andb_true_iff in Hd as [Hc _].
    destruct (digit_not_blank_sign c Hc) as (B1 & B2 & B3).
    rewrite str_app_cons in *. unfold scan_int. simpl (span is_blank _). rewrite B1. simpl snd.
    cbv iota. rewrite B2, B3. cbv iota. rewrite H1, H2. cbv iota. rewrite H3.
    cbn [mbind option_bind]. by rewrite Hz. }
  destruct z as [|p|p]; [exact (Hpos 0%N eq_refl)|exact (Hpos (Npos p) eq_refl)|].
  destruct (scan_digits (Npos p) rest Hr) as (H1 & H2 & H3).
  cbv zeta in *. unfold format_int. revert H1 H2 H3.
  generalize (NilEmpty.string_of_uint (N.to_uint (N.pos p))). intros ds H1 H2 H3.
  rewrite str_app_assoc, str_app_cons, str_app_nil_l. unfold scan_int.
  simpl (span is_blank (String "-" _)). simpl snd. cbv iota.
  change (Ascii.eqb "-" "-") with true. cbv iota. rewrite H1, H2. cbv iota. rewrite H3.
  cbn [mbind option_bind]. change (- Z.of_N (N.pos p))%Z with (Z.neg p). by rewrite Hz.
Qed.

Lemma sscanf_api_usage_format used limit rest :
  in_int64 used = true -> in_int64 limit = true -> stops is_digit rest ->
  sscanf_api_usage ("api-usage=" +:+ format_int used +:+ "/" +:+ format_int limit +:+ rest)
  = Some (used, limit).
Proof.
  intros Hu Hl Hr. unfold sscanf_api_usage. rewrite strip_prefix_app. cbn [mbind option_bind].
  rewrite scan_int_format by done. cbn [mbind option_bind].
  rewrite strip_prefix_app. cbn [mbind option_bind]. by rewrite scan_int_format.
Qed.

(** C40: after a round trip the transport holds the rate limit of that response
    and of no earlier one: the two numbers of an api-usage header, whatever
    follows them, over the limit exactly when the first exceeds the second;
    nothing when the request failed or the header is missing, is there more than
    once, or does not start like a usage. *)
Theorem RoundTrip_rate_limit `{Env} t req w t' r w' :
  RoundTrip t req w = (Returns (t', r), w') ->
  t_tokenSource t' = t_tokenSource t /\
  match r with
  | inl _ => t_rateLimit t' = None
  | inr resp =>
      (forall used limit rest,
         resp_limit_info resp
           = Some ["api-usage=" +:+ format_int used +:+ "/" +:+ format_int limit +:+ rest] ->
         in_int64 used = true -> in_int64 limit = true -> stops is_digit rest ->
         t_rateLimit t' = Some {| rl_Status := if (limit <? used)%Z then STATUS_OVERLIMIT else STATUS_OK;
                                  rl_Limit := limit; rl_Remaining := used |})
      /\ (resp_limit_info resp = None -> t_rateLimit t' = None)
      /\ (forall info, resp_limit_info resp = Some info -> length info <> 1 -> t_rateLimit t' = None)
      /\ (forall info, resp_limit_info resp = Some [info] -> strings_HasPrefix info "api-usage=" = false ->
           t_rateLimit t' = None)
  end.
Proof.
  intros Hrun.
  assert (t_tokenSource t' = t_tokenSource t /\
    t_rateLimit t' = match r with inl _ => None | inr resp => response_rate_limit resp end) as [Ht Hl].
  { unfold RoundTrip, ask in Hrun. revert Hrun. unfold mbind, GoM_bind, mret, GoM_ret.
    repeat case_match; intros Heq; simplify_eq; done. }
  split; [done|]. rewrite Hl. destruct r as [err|resp]; [done|]. unfold response_rate_limit. split_and!.
  - intros used limit rest -> Hu Hlim Hr. by rewrite sscanf_api_usage_format.
  - by intros ->.
  - intros [|info [|info' l]] ->; done.
  - intros info -> Hpre. unfold sscanf_api_usage.
    by destruct (strip_prefix "api-usage=" info) as [s|] eqn:Es; [|done]; apply strip_prefix_Some in Es as ->; rewrite HasPrefix_app in Hpre.
Qed.

Section RoundTrip_witness.
#[local] Existing Instance tape_env.

Lemma RoundTrip_rate_limit_witness :
  let resp := {| resp_status := 200; resp_status_text := "200 OK";
                 resp_limit_info := Some ["api-usage=120/100 per-app"]; resp_read_error := None; resp_text := "";
                 resp_json := None; resp_fault := None; resp_login := None |} in
  let t := {| t_rateLimit := Some (rate_limit_of 1 2); t_tokenSource := true |} in
  let req := {| req_method := MethodGet; req_url := "u"; req_authorization := ""; req_body := NoBody |} in
  exists t' w', RoundTrip t req (tape_world [inr resp]) = (Returns (t', inr resp), w')
    /\ t_rateLimit t' = Some {| rl_Status := STATUS_OVERLIMIT; rl_Limit := 100; rl_Remaining := 120 |}.
Proof.
  intros resp t req. eexists _, _. split; [reflexivity|].
  refine (proj1 (proj2 (RoundTrip_rate_limit t req (tape_world [inr resp]) _ (inr resp) _ _))
            120%Z 100%Z " per-app" _ _ _ _); reflexivity.
Defined.
End RoundTrip_witness.
