(* ===== verification/Simpleforce.v ===== *)
(** * simpleforce: errors, requests and the REST calls of an [SObject]

    [errorHelpers.go], and of [force.go] and [sobject.go] what the connector
    calls: [Query], [ApexREST], [LoginPassword], [Get], [Create], [Update],
    [Delete].  A call goes through a transport, whose state it hands back. *)
From S2P Require Export Tape Query.
From Stdlib Require Import Ascii.

(** ** Decoding JSON into structs *)

(** A struct field takes every key that equals its name up to case, the last one
    winning; [null] leaves the field as it was; another type is an error. *)
Definition decode_field {A} (name : string) (decode : json -> option A) (zero : A)
    (l : list (string * json)) : option A :=
  foldl (fun acc kv =>
    acc' ← acc;
    if String.eqb (strings_ToLower kv.1) (strings_ToLower name) then
      match kv.2 with
      | JNull => Some acc'
      | j => decode j
      end
    else Some acc') (Some zero) l.

Definition decode_string (j : json) : option string :=
  match j with JStr s => Some s | _ => None end.
Definition decode_bool (j : json) : option bool :=
  match j with JBool b => Some b | _ => None end.
(** [totalSize] is decoded but not read. *)
Definition decode_number (j : json) : option unit :=
  match j with JNum _ => Some tt | _ => None end.

(** A JSON array, element by element. *)
Definition decode_list {A} (decode : json -> option A) (j : json) : option (list A) :=
  match j with
  | JArr l => mapM decode l
  | _ => None
  end.

(** An element of [[]SObject]: [None] inside for the nil map of a [null]. *)
Definition decode_sobject (j : json) : option (option SObject) :=
  match j with
  | JNull => Some None
  | JObj _ => Some <$> unmarshal_into j ∅
  | _ => None
  end.

(** [QueryResult], but for [TotalSize], which is decoded and never read. *)
Record QueryResult := {
  qr_Done : bool;
  qr_NextRecordsURL : string;
  qr_Records : list (option SObject);
}.

Definition decode_QueryResult (j : json) : option QueryResult :=
  match j with
  | JNull => Some {| qr_Done := false; qr_NextRecordsURL := ""; qr_Records := [] |}
  | JObj l =>
      _ ← decode_field "totalSize" decode_number tt l;
      done ← decode_field "done" decode_bool false l;
      next ← decode_field "nextRecordsUrl" decode_string "" l;
      records ← decode_field "records" (decode_list decode_sobject) [] l;
      Some {| qr_Done := done; qr_NextRecordsURL := next; qr_Records := records |}
  | _ => None
  end.

(** ** Errors *)

(** An element of [jsonError]: message and error code. *)
Definition decode_json_error (j : json) : option (string * string) :=
  match j with
  | JNull => Some ("", "")
  | JObj l =>
      message ← decode_field "message" decode_string "" l;
      code ← decode_field "errorCode" decode_string "" l;
      Some (message, code)
  | _ => None
  end.

(** [json.Unmarshal(responseBody, &jsonError)]: [null] gives a nil slice. *)
Definition decode_json_errors (j : json) : option (list (string * string)) :=
  match j with
  | JNull => Some []
  | _ => decode_list decode_json_error j
  end.

Definition salesforce_error (status : Z) (message code : string) : SalesforceError :=
  {| sf_Message := "[simpleforce] Error. http code: " +:+ format_int status
       +:+ " Error Message:  " +:+ message +:+ " Error Code: " +:+ code;
     sf_HttpCode := status; sf_ErrorCode := code; sf_ErrorMessage := message |}.

(** [ParseSalesforceError]: an empty JSON list is indexed at 0. *)
Definition ParseSalesforceError (resp : http_response) : outcome SalesforceError :=
  match resp_json resp ≫= decode_json_errors with
  | Some ((message, code) :: _) => Returns (salesforce_error (resp_status resp) message code)
  | Some [] => Panics "index out of range [0] with length 0"
  | None =>
      match resp_fault resp with
      | Some (message, code) => Returns (salesforce_error (resp_status resp) message code)
      | None => Returns {| sf_Message := resp_text resp; sf_HttpCode := resp_status resp;
                           sf_ErrorCode := ""; sf_ErrorMessage := "" |}
      end
  end.

(** [parseUhttpError].  A body of which nothing could be read is closed by now. *)
Definition parseUhttpError (resp : option http_response) (errHttp : error) : outcome error :=
  match resp with
  | None => Returns errHttp
  | Some resp =>
      if negb (status_ok (resp_status resp)) then
        if bool_decide (is_Some (resp_read_error resp)) && String.eqb (resp_text resp) "" then
          Returns (errors_Join errHttp (Some (EMsg "http: read on closed response body")))
        else
          match ParseSalesforceError resp with
          | Returns e => Returns (errors_Join errHttp (Some (ESalesforce e)))
          | Panics why => Panics why
          end
      else Returns errHttp
  end.

(** [html.EscapeString]. *)
Fixpoint html_EscapeString (s : string) : string :=
  match s with
  | "" => ""
  | String c s =>
      (if Ascii.eqb c "&" then "&amp;"
       else if Ascii.eqb c char_quote then "&#39;"
       else if Ascii.eqb c "<" then "&lt;"
       else if Ascii.eqb c ">" then "&gt;"
       else if Ascii.eqb c char_dquote then "&#34;"
       else String c "") +:+ html_EscapeString s
  end.

Definition nl : string := String "010" "".
Definition dq : string := String "034" "".

(** The SOAP body of [LoginPassword]. *)
Definition soap_login_body (clientID username password token : string) : string :=
  "<?xml version=" +:+ dq +:+ "1.0" +:+ dq +:+ " encoding=" +:+ dq +:+ "utf-8" +:+ dq +:+ " ?>" +:+ nl
  +:+ "        <env:Envelope" +:+ nl
  +:+ "                xmlns:xsd=" +:+ dq +:+ "http://www.w3.org/2001/XMLSchema" +:+ dq +:+ nl
  +:+ "                xmlns:xsi=" +:+ dq +:+ "http://www.w3.org/2001/XMLSchema-instance" +:+ dq +:+ nl
  +:+ "                xmlns:env=" +:+ dq +:+ "http://schemas.xmlsoap.org/soap/envelope/" +:+ dq +:+ nl
  +:+ "                xmlns:urn=" +:+ dq +:+ "urn:partner.soap.sforce.com" +:+ dq +:+ ">" +:+ nl
  +:+ "            <env:Header>" +:+ nl
  +:+ "                <urn:CallOptions>" +:+ nl
  +:+ "                    <urn:client>" +:+ clientID +:+ "</urn:client>" +:+ nl
  +:+ "                    <urn:defaultNamespace>sf</urn:defaultNamespace>" +:+ nl
  +:+ "                </urn:CallOptions>" +:+ nl
  +:+ "            </env:Header>" +:+ nl
  +:+ "            <env:Body>" +:+ nl
  +:+ "                <n1:login xmlns:n1=" +:+ dq +:+ "urn:partner.soap.sforce.com" +:+ dq +:+ ">" +:+ nl
  +:+ "                    <n1:username>" +:+ username +:+ "</n1:username>" +:+ nl
  +:+ "                    <n1:password>" +:+ html_EscapeString password +:+ token +:+ "</n1:password>" +:+ nl
  +:+ "                </n1:login>" +:+ nl
  +:+ "            </env:Body>" +:+ nl
  +:+ "        </env:Envelope>".

Definition DefaultAPIVersion : string := "54.0".

(** [client.isLoggedIn]. *)
Definition isLoggedIn (client : simple_client) : bool := negb (String.eqb (sc_sessionID client) "").

(** [strings.Replace(s, "v", "", -1)]. *)
Fixpoint drop_v (s : string) : string :=
  match s with
  | "" => ""
  | String c s => if Ascii.eqb c "v" then drop_v s else String c (drop_v s)
  end.

(** [makeURL]; the version it stores is the one it uses. *)
Definition makeURL (client : simple_client) (req : string) : string :=
  sc_instanceURL client +:+ "/services/data/v" +:+ drop_v (sc_apiVersion client) +:+ "/" +:+ req.

(** The URL of [Query]. *)
Definition query_url (client : simple_client) (q : string) : string :=
  if strings_HasPrefix q "/services/data" then sc_instanceURL client +:+ q
  else sc_instanceURL client +:+ "/services/data/v" +:+ sc_apiVersion client
         +:+ "/query?q=" +:+ url_QueryEscape q.

(** ** Where the URLs parse *)

(** The instance is [https] and a plain host name. *)
Definition url_ok (client : simple_client) : bool :=
  instance_url (sc_instanceURL client) && path_safe (sc_apiVersion client).

Lemma drop_v_safe s : path_safe s = true -> path_safe (drop_v s) = true.
Proof.
  unfold path_safe. induction s as [|c s IH]; [done|]. simpl. intros [Hc Hs]%andb_true_iff.
  destruct (Ascii.eqb c "v"); [by apply IH|]. simpl. by rewrite Hc, IH.
Qed.

Lemma makeURL_parts client req :
  url_ok client = true -> path_safe req = true ->
  exists u host, url_Parse (makeURL client req) = Some u
    /\ sc_instanceURL client = "https://" +:+ host /\ url_Host u = host
    /\ url_Path u = "/services/data/v" +:+ drop_v (sc_apiVersion client) +:+ "/" +:+ req
    /\ url_RawQuery u = "".
Proof.
  intros [Hi Hv]%andb_true_iff Hr.
  destruct (url_Parse_below (sc_instanceURL client)
              ("services/data/v" +:+ drop_v (sc_apiVersion client) +:+ "/" +:+ req) "")
    as (u & host & Hp & Hs & _ & Hh & Hpath & Hq).
  - done.
  - by rewrite !path_safe_app, drop_v_safe, Hr.
  - done.
  - rewrite str_app_nil_r in Hp. by exists u, host.
Qed.

Lemma makeURL_parses client req :
  url_ok client = true -> path_safe req = true -> url_Parse (makeURL client req) <> None.
Proof. intros Hok Hr. by destruct (makeURL_parts client req Hok Hr) as (u & host & -> & _). Qed.

(** Prove that a REST URL parses, its variable parts being safe. *)
Ltac url_parses :=
  apply makeURL_parses; [done|];
  rewrite ?path_safe_app; repeat match goal with H : path_safe _ = true |- _ => rewrite H end; done.

(** The URL of a statement parses, and the one of a page path of the API. *)
Lemma query_url_parts client q :
  url_ok client = true -> strings_HasPrefix q "/services/data" = false ->
  exists u host, url_Parse (query_url client q) = Some u
    /\ sc_instanceURL client = "https://" +:+ host /\ url_Host u = host
    /\ url_Path u = "/services/data/v" +:+ sc_apiVersion client +:+ "/query"
    /\ url_RawQuery u = "q=" +:+ url_QueryEscape q.
Proof.
  intros [Hi Hv]%andb_true_iff Hq. unfold query_url. rewrite Hq.
  destruct (url_Parse_below (sc_instanceURL client)
              ("services/data/v" +:+ sc_apiVersion client +:+ "/query") ("?q=" +:+ url_QueryEscape q))
    as (u & host & Hp & Hs & _ & Hh & Hpath & Hr).
  - done.
  - by rewrite !path_safe_app, Hv.
  - apply QueryEscape_query_bytes.
  - rewrite !str_app_assoc in Hp. exists u, host. split_and!; done.
Qed.

Lemma query_url_parses client q :
  url_ok client = true -> strings_HasPrefix q "/services/data" = false ->
  url_Parse (query_url client q) <> None.
Proof. intros Hok Hq. by destruct (query_url_parts client q Hok Hq) as (u & host & -> & _). Qed.

Lemma query_path_parses client p q :
  url_ok client = true -> strings_HasPrefix ("/" +:+ p +:+ q) "/services/data" = true ->
  path_safe p = true -> query_part q = true -> url_Parse (query_url client ("/" +:+ p +:+ q)) <> None.
Proof.
  intros [Hi Hv]%andb_true_iff Hpre Hp Hq. unfold query_url. rewrite Hpre.
  destruct (url_Parse_below (sc_instanceURL client) p q Hi Hp Hq) as (u & host & -> & _). done.
Qed.

Section simpleforce.
Context `{Env}.

Abbreviation M := (GoM World).
Abbreviation T := salesforceHttpTransport.

Definition lift {A} (o : outcome A) : M A := fun w => (o, w).

(** [client.httpRequest]: the body of a response with a 2xx status. *)
Definition httpRequest (client : simple_client) (t : T) (method : http_method) (url : string)
    (body : request_body) : M (T * (error * option http_response)) :=
  match url_Parse url with
  | None => mret (t, (Some (EMsg "parse: invalid URL"), None))
  | Some _ =>
      '(t, resp, err) ← Do t {| req_method := method; req_url := url;
                                req_authorization := "Bearer " +:+ sc_sessionID client;
                                req_body := body |};
      match err, resp with
      | Some _, _ =>
          err ← lift (parseUhttpError resp err);
          mret (t, (err, None))
      | None, None => go_panic "invalid memory address or nil pointer dereference"
      | None, Some resp =>
          if negb (status_ok (resp_status resp)) then
            err ← lift (parseUhttpError (Some resp) err);
            mret (t, (err, None))
          else mret (t, (None, Some resp))
      end
  end.

(** [SetSidLoc]. *)
Definition SetSidLoc (client : simple_client) (sid loc : string) : simple_client :=
  {| sc_sessionID := sid; sc_apiVersion := sc_apiVersion client; sc_baseURL := sc_baseURL client;
     sc_instanceURL := loc; sc_clientID := sc_clientID client |}.

Definition parseHost (input : string) : string :=
  match url_Parse input with
  | Some parsed => url_Scheme parsed +:+ "://" +:+ url_Host parsed
  | None => "Failed to parse URL input"
  end.

(** [LoginPassword]: the logged in client, or an error. *)
Definition LoginPassword (client : simple_client) (t : T) (username password token : string) :
    M (T * (go_error + simple_client)) :=
  let soapBody := soap_login_body (sc_clientID client) username password token in
  let requestUrl := sc_baseURL client +:+ "/services/Soap/u/" +:+ sc_apiVersion client in
  match url_Parse requestUrl with
  | None => mret (t, inl (EMsg "parse: invalid URL"))
  | Some _ =>
      '(t, resp, err) ← Do t {| req_method := MethodPost; req_url := requestUrl;
                                req_authorization := ""; req_body := TextBody soapBody |};
      match err, resp with
      | Some err, None => mret (t, inl err)
      | None, None => go_panic "invalid memory address or nil pointer dereference"
      | _, Some resp =>
          if negb (resp_status resp =? 200)%Z then
            e ← lift (ParseSalesforceError resp);
            mret (t, inl (ESalesforce e))
          else
            match resp_login resp with
            | None => mret (t, inl (EMsg "xml: cannot parse the login response"))
            | Some r => mret (t, inr (SetSidLoc client (login_SessionID r)
                                        (parseHost (login_ServerURL r))))
            end
      end
  end.

(** The records of a query with their client set; a nil record cannot take
    one. *)
Definition set_record_clients (records : list (option SObject)) : outcome (list SObject) :=
  match mapM (fun r => flip setClient true <$> r) records with
  | Some records => Returns records
  | None => Panics "assignment to entry in nil map"
  end.

(** [client.Query]: done, next records URL and records. *)
Definition Query (client : simple_client) (t : T) (q : string) :
    M (T * (go_error + (bool * string * list SObject))) :=
  if negb (isLoggedIn client) then mret (t, inl (ESentinel ErrAuthentication))
  else
    '(t, (err, resp)) ← httpRequest client t MethodGet (query_url client q) NoBody;
    match err with
    | Some err => mret (t, inl err)
    | None =>
        match (resp ≫= resp_json) ≫= decode_QueryResult with
        | None => mret (t, inl (EMsg "json: cannot unmarshal the query result"))
        | Some result =>
            records ← lift (set_record_clients (qr_Records result));
            mret (t, inr (qr_Done result, qr_NextRecordsURL result, records))
        end
    end.

(** [client.ApexREST]: the response with the body, or an error. *)
Definition ApexREST (client : simple_client) (t : T) (method : http_method) (path : string)
    (requestBody : request_body) : M (T * (error * option http_response)) :=
  if negb (isLoggedIn client) then mret (t, (Some (ESentinel ErrAuthentication), None))
  else httpRequest client t method (sc_instanceURL client +:+ "/" +:+ path) requestBody.

(** [obj.Get(ctx, id)]: [None] for a nil object without an error. *)
Definition SObject_Get (client : simple_client) (t : T) (obj : SObject) (id : string) :
    M (T * (error * option SObject)) :=
  typ ← lift (SObject_Type obj);
  if String.eqb typ "" || negb (SObject_client obj) then
    mret (t, (Some (ESentinel ErrNoTypeIdClientOrId), None))
  else if String.eqb id "" then mret (t, (None, None))
  else
    '(t, (err, resp)) ← httpRequest client t MethodGet
                          (makeURL client ("sobjects/" +:+ typ +:+ "/" +:+ id)) NoBody;
    match err with
    | Some err => mret (t, (Some err, None))
    | None =>
        match (resp ≫= resp_json) ≫= fun j => unmarshal_into j obj with
        | None => mret (t, (Some (EMsg "json: cannot unmarshal the object"), None))
        | Some obj => mret (t, (None, Some obj))
        end
    end.

(** [setIDFromResponseData]. *)
Definition setIDFromResponseData (obj : SObject) (j : option json) : go_error + SObject :=
  let respVal :=
    match j with
    | Some JNull => Some ("", false)
    | Some (JObj l) =>
        id ← decode_field "id" decode_string "" l;
        success ← decode_field "success" decode_bool false l;
        Some (id, success)
    | _ => None
    end in
  match respVal with
  | None => inl (EMsg "json: cannot unmarshal the response")
  | Some (id, success) =>
      if negb success || String.eqb id "" then inl (EMsg "request was unsuccessful")
      else inr (setID obj id)
  end.

Definition json_Marshal_error : go_error := EMsg "json: unsupported value".

(** [obj.Create]. *)
Definition SObject_Create (client : simple_client) (t : T) (obj : SObject) :
    M (T * (go_error + SObject)) :=
  typ ← lift (SObject_Type obj);
  if String.eqb typ "" || negb (SObject_client obj) then
    mret (t, inl (ESentinel ErrNoTypeIdClientOrId))
  else
    let reqObj := makeCopy obj in
    if negb (json_Marshal_ok reqObj) then mret (t, inl json_Marshal_error)
    else
      '(t, (err, resp)) ← httpRequest client t MethodPost
                            (makeURL client ("sobjects/" +:+ typ +:+ "/")) (JsonBody reqObj);
      match err with
      | Some err => mret (t, inl err)
      | None => mret (t, setIDFromResponseData obj (resp ≫= resp_json))
      end.

(** [obj.Update]. *)
Definition SObject_Update (client : simple_client) (t : T) (obj : SObject) :
    M (T * (go_error + SObject)) :=
  typ ← lift (SObject_Type obj);
  if String.eqb typ "" || negb (SObject_client obj) || String.eqb (SObject_ID obj) "" then
    mret (t, inl (ESentinel ErrNoTypeIdClientOrId))
  else
    let reqObj := makeCopy obj in
    if negb (json_Marshal_ok reqObj) then mret (t, inl json_Marshal_error)
    else
      '(t, (err, _)) ← httpRequest client t MethodPatch
                         (makeURL client ("sobjects/" +:+ typ +:+ "/" +:+ SObject_ID obj))
                         (JsonBody reqObj);
      match err with
      | Some err => mret (t, inl err)
      | None => mret (t, inr obj)
      end.

(** [obj.Delete]. *)
Definition SObject_Delete (client : simple_client) (t : T) (obj : SObject) : M (T * error) :=
  typ ← lift (SObject_Type obj);
  if String.eqb typ "" || negb (SObject_client obj) then
    mret (t, Some (ESentinel ErrFailure))
  else if String.eqb (SObject_ID obj) "" then mret (t, Some (ESentinel ErrFailure))
  else
    '(t, (err, _)) ← httpRequest client t MethodDelete
                       (makeURL client ("sobjects/" +:+ typ +:+ "/" +:+ SObject_ID obj)) NoBody;
    mret (t, err).
End simpleforce.

(** ** What requests a call makes *)

(** Every request added to the log satisfies [P]; the client's state is left
    alone. *)
Definition logs `{Env} (P : http_request -> Prop) (w w' : World) : Prop :=
  w_client w' = w_client w /\ exists l, w_log w' = w_log w ++ l /\ Forall P l.

#[export] Instance logs_preorder `{Env} P : PreOrder (logs P).
Proof.
  split.
  - intros w. split; [done|]. exists []. by rewrite app_nil_r.
  - intros w1 w2 w3 (C1 & l1 & E1 & H1) (C2 & l2 & E2 & H2). split; [by rewrite C2|].
    exists (l1 ++ l2). rewrite E2, E1, app_assoc. split; [done|]. by apply Forall_app.
Qed.

(** A request that changes nothing in Salesforce: a GET, or the login. *)
Definition reads_only (req : http_request) : Prop :=
  match req_method req, req_body req with
  | MethodGet, _ | MethodPost, TextBody _ => True
  | _, _ => False
  end.

Section logs_lemmas.
Context `{Env} (P : http_request -> Prop).

Lemma logs_ask {A} (f : env_state -> A * env_state) : moves (logs P) (ask f).
Proof. intros w. unfold ask. destruct (f (w_env w)). split; [done|]. exists [].
  by rewrite app_nil_r. Qed.

Lemma logs_with_env f : moves (logs P) (with_env f).
Proof. intros w. split; [done|]. exists []. by rewrite app_nil_r. Qed.

Lemma logs_lift {A} (o : outcome A) : moves (logs P) (lift o).
Proof. intros w. split; [done|]. exists []. by rewrite app_nil_r. Qed.

Lemma logs_request req : P req -> moves (logs P) (log_request req).
Proof. intros HP w. split; [done|]. exists [req]. split; [done|by constructor]. Qed.
End logs_lemmas.

#[export] Hint Resolve logs_ask logs_with_env logs_lift logs_request : golog.
#[export] Hint Extern 0 (PreOrder _) => apply _ : golog.

(** Walk through a body: binds, matches, and the calls the database knows. *)
Ltac walk :=
  repeat first
    [ match goal with |- forall _, _ => intro end
    | solve [eauto 4 with golog]
    | match goal with
      | |- moves _ (@mbind _ _ _ _ _ _) => apply moves_bind; [apply _| |]
      | |- moves _ (go_range _ _ _) => apply moves_range; [apply _|]
      end
    | case_match ].

Section logs_calls.
Context `{Env} (P : http_request -> Prop).

Lemma logs_RoundTrip t req : moves (logs P) (RoundTrip t req).
Proof. unfold RoundTrip. walk. Qed.

Lemma logs_Do t req : P req -> moves (logs P) (Do t req).
Proof. intros HP. unfold Do. pose proof logs_RoundTrip. walk. Qed.

Lemma logs_httpRequest client t method url body :
  (forall auth, P {| req_method := method; req_url := url; req_authorization := auth; req_body := body |}) ->
  moves (logs P) (httpRequest client t method url body).
Proof. intros HP. unfold httpRequest. pose proof logs_Do. walk. Qed.
End logs_calls.

(** The reading calls, for a [P] that holds of reads, and the writing ones. *)
Section logs_rest.
Context `{Env} (P : http_request -> Prop) (Hreads : forall req, reads_only req -> P req).

Lemma logs_LoginPassword client t u p tok : moves (logs P) (LoginPassword client t u p tok).
Proof. unfold LoginPassword. walk. apply logs_Do, Hreads. done. Qed.

Lemma logs_Query client t q : moves (logs P) (Query client t q).
Proof.
  unfold Query. walk. apply logs_httpRequest. intros auth. by apply Hreads.
Qed.

Lemma logs_ApexREST client t method path :
  (forall req, req_method req = method -> req_body req = NoBody -> P req) ->
  moves (logs P) (ApexREST client t method path NoBody).
Proof. intros Hm. unfold ApexREST. walk; apply logs_httpRequest; intros auth; by apply Hm. Qed.

Lemma logs_Get client t obj id : moves (logs P) (SObject_Get client t obj id).
Proof.
  unfold SObject_Get. walk. apply logs_httpRequest. intros auth. by apply Hreads.
Qed.
End logs_rest.

Section logs_writes.
Context `{Env} (P : http_request -> Prop).

Lemma logs_Create client t obj :
  (forall req, req_method req = MethodPost -> P req) -> moves (logs P) (SObject_Create client t obj).
Proof. intros HP. unfold SObject_Create. pose proof (logs_httpRequest P). walk; auto. Qed.

Lemma logs_Update client t obj :
  (forall req, req_method req = MethodPatch -> P req) -> moves (logs P) (SObject_Update client t obj).
Proof. intros HP. unfold SObject_Update. pose proof (logs_httpRequest P). walk; auto. Qed.

Lemma logs_Delete client t obj :
  (forall req, req_method req = MethodDelete -> P req) -> moves (logs P) (SObject_Delete client t obj).
Proof. intros HP. unfold SObject_Delete. pose proof (logs_httpRequest P). walk; auto. Qed.
End logs_writes.

(** ** What a request comes back with *)

(** The request [httpRequest] makes. *)
Definition client_request (client : simple_client) (method : http_method) (url : string)
    (body : request_body) : http_request :=
  {| req_method := method; req_url := url;
     req_authorization := "Bearer " +:+ sc_sessionID client; req_body := body |}.

(** The error made of a response with a Salesforce error in it. *)
Definition response_error (resp : http_response) (message code : string) : go_error :=
  EJoin (EStatus (GrpcCodeFromHTTPStatus (resp_status resp)) (resp_status_text resp))
    (ESalesforce (salesforce_error (resp_status resp) message code)).

(** A response out of [Do] has the error of its body, or that of its status, or none. *)
Lemma Do_error `{Env} t req w t' resp e w' :
  Do t req w = (Returns (t', Some resp, e), w') ->
  e = match resp_read_error resp with
      | Some err => Some err
      | None => if status_ok (resp_status resp) then None
                else Some (EStatus (GrpcCodeFromHTTPStatus (resp_status resp)) (resp_status_text resp))
      end.
Proof.
  intros Hrun. unfold Do, log_request, go_modify, go_get, with_env, mbind, GoM_bind, mret, GoM_ret in Hrun.
  repeat (case_match; simplify_eq/=; try done).
  all: repeat match goal with Hn : negb _ = _ |- _ =>
         apply (f_equal negb) in Hn; rewrite negb_involutive in Hn; simpl in Hn; rewrite Hn end; done.
Qed.

(** A response with an error status and a Salesforce error in it. *)
Lemma httpRequest_fails `{Env} client t method url body w t' resp e w' message code l :
  url_Parse url <> None ->
  Do t (client_request client method url body) w = (Returns (t', Some resp, e), w') ->
  resp_read_error resp = None -> status_ok (resp_status resp) = false ->
  resp_json resp ≫= decode_json_errors = Some ((message, code) :: l) ->
  httpRequest client t method url body w
  = (Returns (t', (Some (response_error resp message code), None)), w').
Proof.
  intros Hurl Hdo Hread Hs Hdec. unfold httpRequest. destruct (url_Parse url) as [u|]; [|done].
  fold (client_request client method url body). rewrite (GoM_bind_run _ _ _ _ _ Hdo).
  pose proof (Do_error _ _ _ _ _ _ _ Hdo) as ->. unfold parseUhttpError, lift. rewrite Hread, Hs.
  cbn [negb]. unfold ParseSalesforceError. by rewrite Hdec.
Qed.

(** C39: a statement goes into the URL so that it comes out unchanged.  On an
    instance with a plain host name the URL parses, with the path of the query
    resource and one parameter, [q], of which the value decodes to the statement,
    whatever the statement is. *)
Theorem query_url_decodes client q :
  url_ok client = true -> strings_HasPrefix q "/services/data" = false ->
  exists u host e, url_Parse (query_url client q) = Some u
    /\ sc_instanceURL client = "https://" +:+ host /\ url_Host u = host
    /\ url_Path u = "/services/data/v" +:+ sc_apiVersion client +:+ "/query"
    /\ url_RawQuery u = "q=" +:+ e /\ has_byte "&" e = false /\ url_QueryUnescape e = Some q.
Proof.
  intros Hok Hq. destruct (query_url_parts client q Hok Hq) as (u & host & Hp & Hi & Hh & Hpath & Hr).
  exists u, host, (url_QueryEscape q). split_and!; try done; [|apply QueryUnescape_QueryEscape].
  unfold has_byte. by rewrite (forall_no_char url_query_byte) by (done || apply QueryEscape_bytes).
Qed.

Lemma query_url_decodes_witness :
  exists u host e, url_Parse (query_url sf_client "SELECT Id FROM User WHERE Name = 'a&b#c?'") = Some u
    /\ sc_instanceURL sf_client = "https://" +:+ host /\ url_Host u = host
    /\ url_Path u = "/services/data/v54.0/query"
    /\ url_RawQuery u = "q=" +:+ e /\ has_byte "&" e = false
    /\ url_QueryUnescape e = Some "SELECT Id FROM User WHERE Name = 'a&b#c?'".
Proof. exact (query_url_decodes sf_client "SELECT Id FROM User WHERE Name = 'a&b#c?'" eq_refl eq_refl). Defined.

(** C35: the error of a failed request tells everything the callers ask of it: its
    gRPC code is that of the HTTP status, and the duplicate and not-supported
    checks answer by the Salesforce error code of the body.  A 2xx response comes
    back without an error, a failure of the network, or of reading the body of a
    2xx response, as it is. *)
Theorem httpRequest_result `{Env} client t method url body w t' r e w' :
  url_Parse url <> None ->
  Do t (client_request client method url body) w = (Returns (t', r, e), w') ->
  match r with
  | None => e <> None -> httpRequest client t method url body w = (Returns (t', (e, None)), w')
  | Some resp =>
      if status_ok (resp_status resp) then
        httpRequest client t method url body w
        = (Returns (t', match resp_read_error resp with Some err => (Some err, None) | None => (None, Some resp) end), w')
      else
        forall message code l, resp_read_error resp = None ->
          resp_json resp ≫= decode_json_errors = Some ((message, code) :: l) ->
          exists err, httpRequest client t method url body w = (Returns (t', (Some err, None)), w')
            /\ status_Code (Some err) = GrpcCodeFromHTTPStatus (resp_status resp)
            /\ isSalesforceDuplicateError err = String.eqb code "DUPLICATE_VALUE"
            /\ isSObjectNotSupportedError err = String.eqb code "INVALID_TYPE"
            /\ forall x, errors_Is err x = false
  end.
Proof.
  intros Hurl Hdo. destruct r as [resp|].
  - pose proof (Do_error _ _ _ _ _ _ _ Hdo) as ->.
    destruct (status_ok (resp_status resp)) eqn:Eok.
    { unfold httpRequest. destruct (url_Parse url) as [u|]; [|done].
      fold (client_request client method url body). rewrite (GoM_bind_run _ _ _ _ _ Hdo).
      unfold parseUhttpError. rewrite Eok. by destruct (resp_read_error resp). }
    intros message code l Hread Hdec. exists (response_error resp message code). split; [|done].
    by eapply httpRequest_fails.
  - intros He. destruct e as [e|]; [|done]. unfold httpRequest. destruct (url_Parse url); [|done].
    fold (client_request client method url body). by rewrite (GoM_bind_run _ _ _ _ _ Hdo).
Qed.

Section httpRequest_witness.
#[local] Existing Instance tape_env.

Lemma httpRequest_result_witness :
  let client := {| sc_sessionID := "sid"; sc_apiVersion := "54.0"; sc_baseURL := "";
                   sc_instanceURL := "https://x"; sc_clientID := "" |} in
  let resp := json_response 400 "400 Bad Request" (error_json "dup" "DUPLICATE_VALUE") in
  let t := {| t_rateLimit := None; t_tokenSource := false |} in
  exists err, httpRequest client t MethodPost "https://x" NoBody (tape_world [inr resp])
    = (Returns (t, (Some err, None)), @Build_World tape_env [] tape_client
         [client_request client MethodPost "https://x" NoBody])
    /\ status_Code (Some err) = InvalidArgument /\ isSalesforceDuplicateError err = true
    /\ isSObjectNotSupportedError err = false /\ forall x, errors_Is err x = false.
Proof.
  intros client resp t.
  refine (httpRequest_result client t MethodPost "https://x" NoBody (tape_world [inr resp]) t
            (Some resp) (Some (EStatus InvalidArgument "400 Bad Request")) _ _ _
            "dup" "DUPLICATE_VALUE" [] _ _); [discriminate|reflexivity..].
Defined.
End httpRequest_witness.

(** ** Exactly one request *)

(** A call that sends nothing. *)
Lemma logs_none `{Env} {A} (m : GoM World A) w :
  moves (logs (fun _ => False)) m -> w_log (m w).2 = w_log w.
Proof.
  intros Hm. destruct (Hm w) as (_ & l & -> & Hl). destruct l as [|r l]; [by rewrite app_nil_r|].
  by apply Forall_cons in Hl as [[] _].
Qed.

Lemma bind_log `{Env} {A B} (m : GoM World A) (k : A -> GoM World B) w :
  (forall a, moves (logs (fun _ => False)) (k a)) -> w_log ((m ≫= k) w).2 = w_log (m w).2.
Proof.
  intros Hk. unfold mbind, GoM_bind. destruct (m w) as [[a|why] w']; [|done]. by apply logs_none.
Qed.

Lemma Do_log `{Env} t req w : w_log (Do t req w).2 = w_log w ++ [req].
Proof.
  unfold Do. rewrite bind_log; [done|]. intros _. pose proof logs_RoundTrip. walk.
Qed.

Lemma httpRequest_log `{Env} client t method url body w :
  url_Parse url <> None ->
  w_log (httpRequest client t method url body w).2 = w_log w ++ [client_request client method url body].
Proof.
  intros Hurl. unfold httpRequest. destruct (url_Parse url); [|done].
  rewrite bind_log; [apply Do_log|]. walk.
Qed.
