(* ===== verification/Client.v ===== *)
(** * The Salesforce client: connection, queries and single-object calls

    [SalesforceClient] of [client/salesforce.go] ([New], [Initialize], [Ping])
    and the helpers of [client/request.go] on which every read and write of the
    connector goes. *)
From S2P Require Export Simpleforce.

Definition LimitsPath : string := "/services/data/v64.0/limits".
Definition SalesforceClientID : string := "ConductorOne".
Definition PageSizeDefault : Z := 100.
Definition GroupIDPrefix : string := "00G".
Definition UserIDPrefix : string := "005".
Definition trueConst : string := "true".

(** [client.New]. *)
Definition New (baseUrl : string) (tokenSource : bool) (username password securityToken : string) :
    SalesforceClient :=
  {| c_baseUrl := baseUrl; c_client := None; c_salesforceTransport := None;
     c_TokenSource := tokenSource; c_Username := username; c_password := password;
     c_securityToken := securityToken; c_initialized := false |}.

(** [simpleforce.NewClient]'s client. *)
Definition new_simple_client (url clientID apiVersion : string) : simple_client :=
  {| sc_sessionID := ""; sc_apiVersion := apiVersion;
     sc_baseURL := if strings_HasSuffix url "/" then String.substring 0 (String.length url - 1) url
                   else url;
     sc_instanceURL := ""; sc_clientID := clientID |}.

Definition no_rate_limit_yet : RateLimitDescription :=
  {| rl_Status := STATUS_UNSPECIFIED; rl_Limit := 0; rl_Remaining := 0 |}.

Definition nil_dereference : string := "invalid memory address or nil pointer dereference".

Section client.
Context `{Env}.

Abbreviation M := (GoM World).

Definition get_client : M SalesforceClient := w ← go_get; mret (w_client w).

(** [simpleforce.NewClient]: an HTTP client, then its cached wrapper. *)
Definition simpleforce_NewClient (url clientID apiVersion : string) : M (go_error + simple_client) :=
  err ← ask env_new_http;
  match err with
  | Some err => mret (inl err)
  | None =>
      err ← ask env_new_http;
      match err with
      | Some err => mret (inl err)
      | None => mret (inr (new_simple_client url clientID apiVersion))
      end
  end.

(** The second half of [Initialize]: log in over the new transport. *)
Definition Initialize_login (c : SalesforceClient) (simpleClient : simple_client)
    (t : salesforceHttpTransport) : M (salesforceHttpTransport * (go_error + simple_client)) :=
  if c_TokenSource c then
    token ← ask env_token;
    match token with
    | inl err => mret (t, inl (EWrap "baton-salesforce: failed to get token: " err))
    | inr token =>
        let instanceURL :=
          match token_instance_url token with
          | Some v => if String.eqb v "" then c_baseUrl c else v
          | None => c_baseUrl c
          end in
        mret (t, inr (SetSidLoc simpleClient (AccessToken token) instanceURL))
    end
  else LoginPassword simpleClient t (c_Username c) (c_password c) (c_securityToken c).

(** [Initialize] up to the log in: a logged in client and the transport it logged
    in over. *)
Definition connect (c : SalesforceClient) :
    M (go_error + (salesforceHttpTransport * simple_client)) :=
  simpleClient ← simpleforce_NewClient (c_baseUrl c) SalesforceClientID DefaultAPIVersion;
  match simpleClient with
  | inl err => mret (inl err)
  | inr simpleClient =>
      err ← ask env_new_http;
      match err with
      | Some err => mret (inl err)
      | None =>
          let interceptedTransport :=
            {| t_rateLimit := Some no_rate_limit_yet; t_tokenSource := c_TokenSource c |} in
          err ← ask env_new_http;
          match err with
          | Some err => mret (inl (EWrap "creating HTTP wrapper failed: " err))
          | None =>
              '(t, login) ← Initialize_login c simpleClient interceptedTransport;
              match login with
              | inl err => mret (inl err)
              | inr simpleClient => mret (inr (t, simpleClient))
              end
          end
      end
  end.

(** The client's fields once it is connected. *)
Definition connected (c : SalesforceClient) (t : salesforceHttpTransport)
    (simpleClient : simple_client) : SalesforceClient :=
  {| c_baseUrl := c_baseUrl c; c_client := Some simpleClient; c_salesforceTransport := Some t;
     c_TokenSource := c_TokenSource c; c_Username := c_Username c; c_password := c_password c;
     c_securityToken := c_securityToken c; c_initialized := true |}.

Definition Initialize : M error :=
  c ← get_client;
  if c_initialized c then mret None
  else
    connection ← connect c;
    match connection with
    | inl err => mret (Some err)
    | inr (t, simpleClient) =>
        _ ← set_client (connected c t simpleClient);
        mret None
    end.

(** A call on [c.client]: it goes through [c.salesforceTransport]. *)
Definition on_client {A} (f : simple_client -> salesforceHttpTransport -> M (salesforceHttpTransport * A)) :
    M A :=
  c ← get_client;
  match c_client c, c_salesforceTransport c with
  | Some client, Some t =>
      '(t, a) ← f client t;
      _ ← set_client
        {| c_baseUrl := c_baseUrl c; c_client := c_client c; c_salesforceTransport := Some t;
           c_TokenSource := c_TokenSource c; c_Username := c_Username c;
           c_password := c_password c; c_securityToken := c_securityToken c;
           c_initialized := c_initialized c |};
      mret a
  | _, _ => go_panic nil_dereference
  end.

(** [c.salesforceTransport.rateLimit]. *)
Definition rateLimit : M (option RateLimitDescription) :=
  c ← get_client;
  match c_salesforceTransport c with
  | Some t => mret (t_rateLimit t)
  | None => go_panic nil_dereference
  end.

Definition Ping : M (option RateLimitDescription * error) :=
  err ← Initialize;
  match err with
  | Some err => mret (None, Some (EWrap "salesforce-connector: failed to initialize client: " err))
  | None =>
      '(err, _) ← on_client (fun client t => ApexREST client t MethodGet LimitsPath NoBody);
      ratelimitData ← rateLimit;
      match err with
      | Some err =>
          mret (ratelimitData, Some (EWrap "salesforce-connector: error validating credentials: " err))
      | None => mret (ratelimitData, None)
      end
  end.

(** Records, next page, rate limit, error. *)
Definition query (q : SalesforceQuery) (paginationPath : string) (pageSize : Z) :
    M (list SObject * string * option RateLimitDescription * error) :=
  err ← Initialize;
  match err with
  | Some err => mret ([], "", None, Some err)
  | None =>
      queryString ← lift (getQueryString q paginationPath pageSize);
      records ← on_client (fun client t => Query client t queryString);
      ratelimitData ← rateLimit;
      match records with
      | inl err => mret ([], "", ratelimitData, Some err)
      | inr (done, nextRecordsURL, records) =>
          mret (records, if done : bool then "" else nextRecordsURL, ratelimitData, None)
      end
  end.

(** [u.String()] of the query path pinned to an API version. *)
Definition versioned_query_path (apiVersion soql : string) : string :=
  url_String
    {| url_Scheme := ""; url_Opaque := ""; url_User := None; url_Host := "";
       url_Path := "/services/data/v" +:+ apiVersion +:+ "/query"; url_RawPath := "";
       url_OmitHost := false; url_ForceQuery := false; url_RawQuery := "q=" +:+ url_QueryEscape soql;
       url_Fragment := ""; url_RawFragment := "" |}.

Definition queryWithAPIVersion (q : SalesforceQuery) (paginationPath apiVersion : string) :
    M (list SObject * string * option RateLimitDescription * error) :=
  err ← Initialize;
  match err with
  | Some err => mret ([], "", None, Some err)
  | None =>
      queryString ← (if String.eqb paginationPath "" then
                       soql ← lift (SalesforceQuery_String (OrderBy q SalesforcePK));
                       mret (versioned_query_path apiVersion soql)
                     else mret paginationPath);
      records ← on_client (fun client t => Query client t queryString);
      ratelimitData ← rateLimit;
      match records with
      | inl err =>
          mret ([], "", ratelimitData,
                Some (EWrap ("baton-salesforce: query failed (API v" +:+ apiVersion +:+ "): ") err))
      | inr (done, nextRecordsURL, records) =>
          mret (records, if done : bool then "" else nextRecordsURL, ratelimitData, None)
      end
  end.

Definition getSObject (q : SalesforceQuery) :
    M (option SObject * option RateLimitDescription * error) :=
  '(records, _, ratelimitData, err) ← query q "" (-1);
  match err with
  | Some err => mret (None, ratelimitData, Some err)
  | None =>
      match records with
      | [] => mret (None, ratelimitData, Some (ESentinel ErrObjectNotFound))
      | record :: _ => mret (Some record, ratelimitData, None)
      end
  end.

(** [for key, value := range values { obj = obj.Set(key, value) }] in the order
    the map is walked in. *)
Definition set_all (values : list (string * value)) (obj : SObject) : SObject :=
  foldl (fun obj kv => <[kv.1 := kv.2]> obj) obj values.

Definition CreateObject (tableName : string) (values : gmap string value) :
    M (option RateLimitDescription * error) :=
  err ← Initialize;
  match err with
  | Some err => mret (None, Some err)
  | None =>
      created ← on_client (fun client t =>
        SObject_Create client t (set_all (map_to_list values) (Client_SObject true tableName)));
      ratelimitData ← rateLimit;
      match created with
      | inl err => mret (ratelimitData, Some err)
      | inr _ => mret (ratelimitData, None)
      end
  end.

Definition UpdateObject (tableName id : string) (values : gmap string value) :
    M (option RateLimitDescription * error) :=
  err ← Initialize;
  match err with
  | Some err => mret (None, Some err)
  | None =>
      updated ← on_client (fun client t =>
        SObject_Update client t
          (set_all (map_to_list values) (SObject_Set (Client_SObject true tableName) "Id" (VString id))));
      ratelimitData ← rateLimit;
      match updated with
      | inl err =>
          mret (ratelimitData,
                Some (EWrap ("baton-salesforce: failed to update " +:+ tableName +:+ ": ") err))
      | inr _ => mret (ratelimitData, None)
      end
  end.

Definition DeleteObject (tableName id : string) : M (option RateLimitDescription * error) :=
  err ← Initialize;
  match err with
  | Some err => mret (None, Some err)
  | None =>
      err ← on_client (fun client t =>
        SObject_Delete client t (SObject_Set (Client_SObject true tableName) "Id" (VString id)));
      ratelimitData ← rateLimit;
      mret (ratelimitData, err)
  end.

Definition getOneUser (userId : string) :
    M (option SObject * option RateLimitDescription * error) :=
  err ← Initialize;
  match err with
  | Some err => mret (None, None, Some err)
  | None =>
      '(err, user) ← on_client (fun client t =>
        SObject_Get client t (Client_SObject true TableNameUsers) userId);
      match err with
      | Some err => mret (None, None, Some err)
      | None =>
          ratelimitData ← rateLimit;
          match user with
          | None => mret (None, ratelimitData, Some (EMsg ("missing user " +:+ userId)))
          | Some user => mret (Some user, ratelimitData, None)
          end
      end
  end.

(** [user.Set(fieldName, value).Update(ctx)]; the object's own client is the
    connector's. *)
Definition updateUser (user : SObject) (fieldName value : string) :
    M (option RateLimitDescription * error) :=
  updated ← on_client (fun client t =>
    SObject_Update client t (SObject_Set user fieldName (VString value)));
  ratelimitData ← rateLimit;
  match updated with
  | inl err => mret (ratelimitData, Some err)
  | inr _ => mret (ratelimitData, None)
  end.

(** The object itself never fails to be copied; its type may panic. *)
Definition copySObject (obj : SObject) (allowedFields : list string) : outcome SObject :=
  match SObject_Type obj with
  | Panics why => Panics why
  | Returns typ =>
      let response := SObject_Set (Client_SObject true typ) "Id" (VString (SObject_ID obj)) in
      let response :=
        if String.eqb (ExternalIDFieldName obj) "" then response
        else SObject_Set response (ExternalIDFieldName obj) (VString (ExternalID obj)) in
      Returns (foldl (fun response field =>
        if String.eqb (StringField obj field) "" then response
        else SObject_Set response field (VString (StringField obj field))) response allowedFields)
  end.

Definition setValue (userId fieldName fieldValue : string) :
    M (option RateLimitDescription * error) :=
  '(user, ratelimitData, err) ← getOneUser userId;
  match err, user with
  | Some err, _ => mret (ratelimitData, Some err)
  | None, None => go_panic nil_dereference
  | None, Some user =>
      copied ← lift (copySObject user [fieldName]);
      updateUser copied fieldName fieldValue
  end.

Definition setOneValue (userId fieldName fieldValue : string) :
    M (option RateLimitDescription * error) :=
  '(user, ratelimitData, err) ← getOneUser userId;
  match err, user with
  | Some err, _ => mret (ratelimitData, Some err)
  | None, None => go_panic nil_dereference
  | None, Some user =>
      copied ← lift (copySObject user [fieldName]);
      updateUser copied fieldName fieldValue
  end.

Definition clearValue (userId fieldName fieldValue : string) :
    M (option RateLimitDescription * error) :=
  '(user, ratelimitData, err) ← getOneUser userId;
  match err, user with
  | Some err, _ => mret (ratelimitData, Some err)
  | None, None => go_panic nil_dereference
  | None, Some user =>
      if negb (String.eqb (StringField user fieldName) fieldValue) then
        mret (None, Some (EMsg ("missing " +:+ fieldName +:+ ": " +:+ fieldValue)))
      else
        copied ← lift (copySObject user [fieldName]);
        updateUser copied fieldName ""
  end.
End client.

(** ** How a call takes the client along *)

(** An initialized client has its connection. *)
Definition ready (c : SalesforceClient) : Prop :=
  c_initialized c = true -> is_Some (c_client c) /\ is_Some (c_salesforceTransport c).

Definition same_config (c c' : SalesforceClient) : Prop :=
  c_baseUrl c' = c_baseUrl c /\ c_TokenSource c' = c_TokenSource c /\ c_Username c' = c_Username c
  /\ c_password c' = c_password c /\ c_securityToken c' = c_securityToken c.

(** The configuration stays, a connection once made is kept, and every request
    sent satisfies [P]. *)
Record evolves (c c' : SalesforceClient) : Prop := {
  evolves_config : same_config c c';
  evolves_ready : ready c -> ready c';
  evolves_initialized : c_initialized c = true ->
    c_initialized c' = true /\ c_client c' = c_client c;
}.

Definition runs `{Env} (P : http_request -> Prop) (w w' : World) : Prop :=
  evolves (w_client w) (w_client w') /\ exists l, w_log w' = w_log w ++ l /\ Forall P l.

#[export] Instance evolves_preorder : PreOrder evolves.
Proof.
  split.
  - intros c. split; [done|done|done].
  - intros c1 c2 c3 [C1 R1 I1] [C2 R2 I2]. split.
    + unfold same_config in *. intuition congruence.
    + auto.
    + intros Hi. destruct (I1 Hi) as [Hi2 E2]. destruct (I2 Hi2) as [Hi3 E3].
      by rewrite E3, E2.
Qed.

#[export] Instance runs_preorder `{Env} P : PreOrder (runs P).
Proof.
  split.
  - intros w. split; [done|]. exists []. by rewrite app_nil_r.
  - intros w1 w2 w3 (C1 & l1 & E1 & H1) (C2 & l2 & E2 & H2). split; [by etrans|].
    exists (l1 ++ l2). rewrite E2, E1, app_assoc. split; [done|]. by apply Forall_app.
Qed.

Section runs_lemmas.
Context `{Env} (P : http_request -> Prop).

Lemma logs_runs {A} (m : GoM World A) : moves (logs P) m -> moves (runs P) m.
Proof. apply moves_weaken. intros w w' [C L]. split; [by rewrite C|done]. Qed.

Lemma runs_ask {A} (f : env_state -> A * env_state) : moves (runs P) (ask f).
Proof. apply logs_runs, logs_ask. Qed.

Lemma runs_lift {A} (o : outcome A) : moves (runs P) (lift o).
Proof. apply logs_runs, logs_lift. Qed.

Lemma runs_get_client : moves (runs P) get_client.
Proof. intros w. reflexivity. Qed.

Lemma runs_rateLimit : moves (runs P) rateLimit.
Proof.
  intros w. unfold rateLimit, get_client. rewrite GoM_bind_run with (a := w_client w) (s' := w) by done.
  by case_match.
Qed.

Lemma runs_on_client {A} (f : simple_client -> salesforceHttpTransport ->
    GoM World (salesforceHttpTransport * A)) :
  (forall client t, moves (logs P) (f client t)) -> moves (runs P) (on_client f).
Proof.
  intros Hf w. unfold on_client, get_client.
  rewrite GoM_bind_run with (a := w_client w) (s' := w) by done.
  destruct (c_client (w_client w)) as [client|] eqn:Ec, (c_salesforceTransport (w_client w)) as [t|] eqn:Et;
    [|done..].
  destruct (Hf client t w) as [Hc Hl].
  destruct (f client t w) as [[[t' a]|why] w'] eqn:E.
  - rewrite (GoM_bind_run _ _ _ _ _ E). simpl in *. split; [|exact Hl].
    split; [done| |done]. intros _ _. simpl. eauto.
  - rewrite (GoM_bind_panic _ _ _ _ _ E). simpl in *. split; [by rewrite Hc|exact Hl].
Qed.
End runs_lemmas.
#[export] Hint Resolve runs_ask runs_lift runs_get_client runs_rateLimit : golog.

(** ** Initialization *)

Section initialize.
Context `{Env} (P : http_request -> Prop) (Hreads : forall req, reads_only req -> P req).

Lemma logs_connect c : moves (logs P) (connect c).
Proof.
  unfold connect, simpleforce_NewClient, Initialize_login. walk. by apply logs_LoginPassword.
Qed.

(** What [Initialize] does, in one step. *)
Lemma Initialize_cases w :
  (c_initialized (w_client w) = true /\ Initialize w = (Returns None, w))
  \/ c_initialized (w_client w) = false /\ exists r w', logs P w w' /\ connect (w_client w) w = (r, w') /\
    Initialize w =
      match r with
      | Panics why => (Panics why, w')
      | Returns (inl err) => (Returns (Some err), w')
      | Returns (inr (t, sc)) =>
          (Returns None, {| w_env := w_env w'; w_client := connected (w_client w) t sc; w_log := w_log w' |})
      end.
Proof.
  unfold Initialize, get_client. rewrite GoM_bind_run with (a := w_client w) (s' := w) by done.
  destruct (c_initialized (w_client w)) eqn:Ei; [by left|right].
  pose proof (logs_connect (w_client w) w) as Hl.
  split; [done|].
  destruct (connect (w_client w) w) as [r w'] eqn:E. exists r, w'. split_and!; [done|done|].
  destruct r as [[err|[t sc]]|why].
  - by rewrite (GoM_bind_run _ _ _ _ _ E).
  - by rewrite (GoM_bind_run _ _ _ _ _ E).
  - by rewrite (GoM_bind_panic _ _ _ _ _ E).
Qed.

Lemma runs_Initialize : moves (runs P) Initialize.
Proof.
  intros w. destruct (Initialize_cases w) as [[Hi ->]|(Hi & r & w' & [Hc Hl] & _ & ->)]; [done|].
  destruct r as [[err|[t sc]]|why]; simpl; (split; [|exact Hl]); rewrite ?Hc; try done.
  split; simpl; [done| |congruence]. intros _ _. simpl. eauto.
Qed.

(** A successful initialization leaves the client initialized. *)
Lemma Initialize_ok w w' : Initialize w = (Returns None, w') -> c_initialized (w_client w') = true.
Proof.
  destruct (Initialize_cases w) as [[Hi ->]|(Hi & r & w1 & _ & _ & ->)]; [by intros [= <-]|].
  destruct r as [[err|[t sc]]|why]; intros Heq; simplify_eq. done.
Qed.
End initialize.

#[export] Hint Resolve runs_Initialize : golog.

(** ** Reading calls make reading requests *)

Section runs_reads.
Context `{Env} (P : http_request -> Prop) (Hreads : forall req, reads_only req -> P req).

Lemma runs_query q path size : moves (runs P) (query q path size).
Proof. unfold query. walk. apply runs_on_client. intros. by apply logs_Query. Qed.

Lemma runs_queryWithAPIVersion q path v : moves (runs P) (queryWithAPIVersion q path v).
Proof. unfold queryWithAPIVersion. walk; apply runs_on_client; intros; by apply logs_Query. Qed.

Lemma runs_getSObject q : moves (runs P) (getSObject q).
Proof. unfold getSObject. pose proof runs_query. walk. Qed.

Lemma runs_Ping : moves (runs P) Ping.
Proof.
  unfold Ping. walk. apply runs_on_client. intros. apply logs_ApexREST. intros req Hm Hb.
  apply Hreads. unfold reads_only. by rewrite Hm.
Qed.

Lemma runs_getOneUser id : moves (runs P) (getOneUser id).
Proof. unfold getOneUser. walk. apply runs_on_client. intros. by apply logs_Get. Qed.
End runs_reads.

#[export] Hint Resolve runs_query runs_queryWithAPIVersion runs_getSObject runs_Ping runs_getOneUser : golog.

(** ** Every call keeps the client's invariant *)

Section runs_writes.
Context `{Env} (P : http_request -> Prop) (Hreads : forall req, reads_only req -> P req).

Lemma runs_CreateObject t v :
  (forall req, req_method req = MethodPost -> P req) -> moves (runs P) (CreateObject t v).
Proof. intros HP. unfold CreateObject. walk. apply runs_on_client. intros. by apply logs_Create. Qed.

Lemma runs_DeleteObject t id :
  (forall req, req_method req = MethodDelete -> P req) -> moves (runs P) (DeleteObject t id).
Proof. intros HP. unfold DeleteObject. walk. apply runs_on_client. intros. by apply logs_Delete. Qed.

Section patches.
Context (Hpatch : forall req, req_method req = MethodPatch -> P req).

Lemma runs_UpdateObject t id v : moves (runs P) (UpdateObject t id v).
Proof. unfold UpdateObject. walk. apply runs_on_client. intros. by apply logs_Update. Qed.

Lemma runs_updateUser u f v : moves (runs P) (updateUser u f v).
Proof. unfold updateUser. walk. apply runs_on_client. intros. by apply logs_Update. Qed.

Lemma runs_setOneValue id f v : moves (runs P) (setOneValue id f v).
Proof. unfold setOneValue. pose proof runs_updateUser. walk. Qed.

Lemma runs_setValue id f v : moves (runs P) (setValue id f v).
Proof. unfold setValue. pose proof runs_updateUser. walk. Qed.

Lemma runs_clearValue id f v : moves (runs P) (clearValue id f v).
Proof. unfold clearValue. pose proof runs_updateUser. walk. Qed.
End patches.
End runs_writes.

#[export] Hint Resolve runs_CreateObject runs_UpdateObject runs_DeleteObject runs_updateUser
  runs_setOneValue runs_setValue runs_clearValue : golog.

(** ** A connected client *)

(** The client is initialized, over this simpleforce client. *)
Definition online `{Env} (client : simple_client) (w : World) : Prop :=
  c_initialized (w_client w) = true /\ c_client (w_client w) = Some client
  /\ is_Some (c_salesforceTransport (w_client w)).

Section online.
Context `{Env} (client : simple_client).

Lemma Initialize_online w : online client w -> Initialize w = (Returns None, w).
Proof.
  intros (Hi & _). unfold Initialize, get_client.
  rewrite GoM_bind_run with (a := w_client w) (s' := w) by done. by rewrite Hi.
Qed.

Lemma runs_none {A} (m : GoM World A) w :
  moves (runs (fun _ => False)) m -> w_log (m w).2 = w_log w.
Proof.
  intros Hm. destruct (Hm w) as (_ & l & -> & Hl). destruct l as [|r l]; [by rewrite app_nil_r|].
  by apply Forall_cons in Hl as [[] _].
Qed.

Lemma bind_quiet {A B} (m : GoM World A) (k : A -> GoM World B) w :
  (forall a, moves (runs (fun _ => False)) (k a)) -> w_log ((m ≫= k) w).2 = w_log (m w).2.
Proof.
  intros Hk. unfold mbind, GoM_bind. destruct (m w) as [[a|why] w']; [|done]. by apply runs_none.
Qed.

(** Initialization is over: the rest runs. *)
Lemma init_bind_online {B} (k : error -> GoM World B) w :
  online client w -> (Initialize ≫= k) w = k None w.
Proof. intros Hw. by rewrite (GoM_bind_run _ _ _ _ _ (Initialize_online w Hw)). Qed.

Lemma on_client_log {A} (f : simple_client -> salesforceHttpTransport ->
    GoM World (salesforceHttpTransport * A)) w l :
  online client w -> (forall t, w_log (f client t w).2 = w_log w ++ l) ->
  w_log (on_client f w).2 = w_log w ++ l.
Proof.
  intros (_ & Hc & [t Ht]) Hf. unfold on_client, get_client.
  rewrite GoM_bind_run with (a := w_client w) (s' := w) by done. rewrite Hc, Ht.
  rewrite <-(Hf t). unfold mbind at 1, GoM_bind at 1. by destruct (f client t w) as [[[t' a]|why] w'].
Qed.

(** A call of the simpleforce client that returns: the transport it leaves is the
    one the rate limit is read from. *)
Lemma on_client_run {A} (f : simple_client -> salesforceHttpTransport ->
    GoM World (salesforceHttpTransport * A)) w t t' a w' :
  online client w -> c_salesforceTransport (w_client w) = Some t ->
  f client t w = (Returns (t', a), w') ->
  exists w'', on_client f w = (Returns a, w'') /\ w_log w'' = w_log w'
    /\ rateLimit w'' = (Returns (t_rateLimit t'), w'') /\ online client w''.
Proof.
  intros (Hi & Hc & _) Ht Hf. unfold on_client, get_client.
  rewrite GoM_bind_run with (a := w_client w) (s' := w) by done. rewrite Hc, Ht.
  rewrite (GoM_bind_run _ _ _ _ _ Hf). eexists. split_and!; [done..|]. split_and!; eauto.
Qed.
End online.

(** ** What the writing helpers send *)

(** Field names that are neither simpleforce's bookkeeping nor read-only. *)
Definition plain_field (key : string) : Prop :=
  key ∉ [sobjectClientKey; sobjectAttributesKey; sobjectIDKey; sobjectExternalIDFieldNameKey; ""]
        ++ blacklistedUpdateFields.

#[export] Instance plain_field_dec key : Decision (plain_field key).
Proof. unfold plain_field. apply _. Defined.

Definition plain_fields (values : gmap string value) : Prop :=
  map_Forall (fun key _ => plain_field key) values.

#[export] Instance plain_fields_dec values : Decision (plain_fields values).
Proof. unfold plain_fields. apply _. Defined.

(** Setting a map's entries one by one is setting the map, in any order. *)
Lemma set_all_union l obj :
  NoDup l.*1 -> set_all l obj = list_to_map l ∪ obj.
Proof.
  unfold set_all. revert obj. induction l as [|[k v] l IH]; intros obj Hnd; simpl.
  - by rewrite map_empty_union.
  - apply NoDup_cons in Hnd as [Hk Hnd]. rewrite IH by done.
    rewrite <-insert_union_r, insert_union_l; [done|]. by apply not_elem_of_list_to_map_1.
Qed.

Lemma set_all_values l values obj : l ≡ₚ map_to_list values -> set_all l obj = values ∪ obj.
Proof.
  intros Hl.
  assert (NoDup l.*1) as Hnd by (rewrite Hl; apply NoDup_fst_map_to_list).
  rewrite set_all_union by done. f_equal. rewrite <-(list_to_map_to_list values).
  by apply list_to_map_proper.
Qed.

Section written_object.
Context (values : gmap string value) (Hplain : plain_fields values).

Lemma plain_values_lookup key :
  key ∈ [sobjectClientKey; sobjectAttributesKey; sobjectIDKey; sobjectExternalIDFieldNameKey; ""] ->
  values !! key = None.
Proof.
  intros Hk. destruct (values !! key) eqn:E; [|done].
  exfalso. apply (Hplain key _ E). apply elem_of_app. by left.
Qed.

Lemma written_type obj : SObject_Type (values ∪ obj) = SObject_Type obj.
Proof.
  unfold SObject_Type, AttributesField, InterfaceField.
  rewrite lookup_union_r; [done|]. apply plain_values_lookup. set_solver.
Qed.

Lemma written_client obj : SObject_client (values ∪ obj) = SObject_client obj.
Proof.
  unfold SObject_client, InterfaceField. rewrite lookup_union_r; [done|].
  apply plain_values_lookup. set_solver.
Qed.

Lemma written_id obj : SObject_ID (values ∪ obj) = SObject_ID obj.
Proof.
  unfold SObject_ID, StringField, InterfaceField. rewrite lookup_union_r; [done|].
  apply plain_values_lookup. set_solver.
Qed.

(** The request body is exactly the values. *)
Lemma written_body obj :
  (forall key, is_Some (obj !! key) -> key ∈ [sobjectClientKey; sobjectAttributesKey; sobjectIDKey]) ->
  makeCopy (values ∪ obj) = values.
Proof.
  intros Hobj. apply map_eq. intros key. rewrite makeCopy_lookup_eq.
  assert (ExternalIDFieldName (values ∪ obj) = "") as Hext.
  { unfold ExternalIDFieldName, StringField, InterfaceField. rewrite lookup_union_r.
    2: { apply plain_values_lookup. set_solver. }
    destruct (obj !! sobjectExternalIDFieldNameKey) as [x|] eqn:E; [|done].
    specialize (Hobj _ (mk_is_Some _ _ E)).
    by repeat (apply elem_of_cons in Hobj as [Hobj|Hobj]; [discriminate|]); apply elem_of_nil in Hobj. }
  unfold stripped_key. rewrite Hext.
  destruct (values !! key) as [v|] eqn:E.
  - rewrite (lookup_union_Some_l _ _ _ _ E). pose proof (Hplain key v E) as Hk.
    unfold plain_field in Hk. rewrite not_elem_of_app in Hk. destruct Hk as [Hk1 Hk2].
    by rewrite !bool_decide_eq_false_2.
  - rewrite lookup_union_r by done. destruct (obj !! key) as [v|] eqn:Eo.
    + rewrite bool_decide_eq_true_2; [done|]. specialize (Hobj _ (mk_is_Some _ _ Eo)).
      rewrite !elem_of_cons in *. tauto.
    + by case_match.
Qed.
End written_object.

Section writes_log.
Context `{Env} (client : simple_client) (t : string).

Lemma lift_bind_ret {A B} (a : A) (k : A -> GoM World B) w : (lift (Returns a) ≫= k) w = k a w.
Proof. done. Qed.

Lemma Client_SObject_type c : SObject_Type (Client_SObject c t) = Returns t.
Proof.
  unfold SObject_Type, AttributesField, InterfaceField. by rewrite Client_SObject_lookup.
Qed.

Lemma Client_SObject_client c typ : SObject_client (Client_SObject c typ) = c.
Proof. unfold SObject_client, InterfaceField. by rewrite Client_SObject_lookup. Qed.

Lemma Client_SObject_keys c key :
  is_Some (Client_SObject c t !! key) -> key ∈ [sobjectClientKey; sobjectAttributesKey; sobjectIDKey].
Proof.
  rewrite Client_SObject_lookup. intros [v Hv]. repeat case_decide; [set_solver..|done].
Qed.

Lemma Set_id_keys c id key :
  is_Some (SObject_Set (Client_SObject c t) "Id" (VString id) !! key) ->
  key ∈ [sobjectClientKey; sobjectAttributesKey; sobjectIDKey].
Proof.
  unfold SObject_Set. intros [v Hv]. apply lookup_insert_Some in Hv as [[<- _]|[_ Hv]]; [set_solver|].
  apply Client_SObject_keys with c. eauto.
Qed.

Lemma Set_id_type c id v : SObject_Type (SObject_Set (Client_SObject c id) "Id" v) = SObject_Type (Client_SObject c id).
Proof.
  unfold SObject_Type, AttributesField, InterfaceField, SObject_Set. by rewrite lookup_insert_ne.
Qed.

Lemma Set_id_client c typ v :
  SObject_client (SObject_Set (Client_SObject c typ) "Id" v) = c.
Proof.
  unfold SObject_client, InterfaceField, SObject_Set. rewrite lookup_insert_ne by done.
  by rewrite Client_SObject_lookup.
Qed.

Section body.
Context (Ht : t <> "") (values : gmap string value) (Hplain : plain_fields values)
  (Hmarshal : json_Marshal_ok values = true).

Lemma CreateObject_log w :
  online client w -> url_Parse (makeURL client ("sobjects/" +:+ t +:+ "/")) <> None ->
  w_log (CreateObject t values w).2 = w_log w ++
    [client_request client MethodPost (makeURL client ("sobjects/" +:+ t +:+ "/")) (JsonBody values)].
Proof.
  intros Hw Hurl. unfold CreateObject. rewrite (init_bind_online client) by done.
  rewrite bind_quiet by walk. apply (on_client_log client); [done|]. intros tr.
  rewrite (set_all_values _ values) by done. unfold SObject_Create.
  rewrite written_type, Client_SObject_type, lift_bind_ret, written_client, Client_SObject_client by done.
  destruct (String.eqb_spec t ""); [done|]. cbn [orb negb].
  rewrite written_body by (done || apply Client_SObject_keys). rewrite Hmarshal. cbn [negb].
  rewrite bind_log; [by apply httpRequest_log|]. walk.
Qed.

Lemma UpdateObject_log w id :
  online client w -> id <> "" ->
  url_Parse (makeURL client ("sobjects/" +:+ t +:+ "/" +:+ id)) <> None ->
  w_log (UpdateObject t id values w).2 = w_log w ++
    [client_request client MethodPatch (makeURL client ("sobjects/" +:+ t +:+ "/" +:+ id)) (JsonBody values)].
Proof.
  intros Hw Hid Hurl. unfold UpdateObject. rewrite (init_bind_online client) by done.
  rewrite bind_quiet by walk. apply (on_client_log client); [done|]. intros tr.
  rewrite (set_all_values _ values) by done. unfold SObject_Update.
  rewrite written_type, Set_id_type, Client_SObject_type, lift_bind_ret, written_client, Set_id_client,
    written_id by done.
  assert (SObject_ID (SObject_Set (Client_SObject true t) "Id" (VString id)) = id) as ->
    by (apply StringField_Set).
  destruct (String.eqb_spec t ""), (String.eqb_spec id ""); [done..|]. cbn [orb negb].
  rewrite written_body by (done || apply Set_id_keys). rewrite Hmarshal. cbn [negb].
  rewrite bind_log; [by apply httpRequest_log|]. walk.
Qed.
End body.

Lemma DeleteObject_log w id :
  t <> "" -> online client w -> id <> "" ->
  url_Parse (makeURL client ("sobjects/" +:+ t +:+ "/" +:+ id)) <> None ->
  w_log (DeleteObject t id w).2 = w_log w ++
    [client_request client MethodDelete (makeURL client ("sobjects/" +:+ t +:+ "/" +:+ id)) NoBody].
Proof.
  intros Ht Hw Hid Hurl. unfold DeleteObject. rewrite (init_bind_online client) by done.
  rewrite bind_quiet by walk. apply (on_client_log client); [done|]. intros tr.
  unfold SObject_Delete. rewrite Set_id_type, Client_SObject_type, lift_bind_ret, Set_id_client.
  assert (SObject_ID (SObject_Set (Client_SObject true t) "Id" (VString id)) = id) as ->
    by (apply StringField_Set).
  destruct (String.eqb_spec t ""), (String.eqb_spec id ""); [done..|]. cbn [orb negb].
  rewrite bind_log; [by apply httpRequest_log|]. walk.
Qed.
End writes_log.

(** ** What a query sends *)

Lemma online_runs `{Env} client P w w' : runs P w w' -> online client w -> online client w'.
Proof.
  intros [[_ Hr Hi] _] (H1 & H2 & H3). destruct (Hi H1) as [H1' H2']. split_and!; [done|congruence|].
  apply Hr; [|done]. intros _. by rewrite H2.
Qed.

Lemma query_log `{Env} client q path size w s :
  online client w -> isLoggedIn client = true -> getQueryString q path size = Returns s ->
  url_Parse (query_url client s) <> None ->
  w_log (query q path size w).2 = w_log w ++ [client_request client MethodGet (query_url client s) NoBody].
Proof.
  intros Hw Hl Hs Hurl. unfold query. rewrite (init_bind_online client) by done.
  rewrite Hs, lift_bind_ret. rewrite bind_quiet by walk. apply (on_client_log client); [done|].
  intros tr. unfold Query. rewrite Hl. cbn [negb]. rewrite bind_log; [by apply httpRequest_log|]. walk.
Qed.

(** ** What the user helpers send *)

(** The object [setOneValue] and its kin update: the user's type and id, and the
    field as it was read. *)
Lemma copySObject_set user t f :
  SObject_Type user = Returns t -> ExternalIDFieldName user = "" ->
  exists obj, copySObject user [f] = Returns obj
    /\ forall v, SObject_Set obj f v = {[f := v]} ∪ SObject_Set (Client_SObject true t) "Id" (VString (SObject_ID user)).
Proof.
  intros Ht He. unfold copySObject. rewrite Ht, He. cbn [String.eqb].
  eexists. split; [done|]. intros v. cbn [foldl]. rewrite <-insert_union_singleton_l. unfold SObject_Set.
  case_match; [done|]. by rewrite insert_insert_eq.
Qed.

Section user_log.
Context `{Env} (client : simple_client).

Lemma getOneUser_log w id :
  online client w -> id <> "" -> url_Parse (makeURL client ("sobjects/User/" +:+ id)) <> None ->
  w_log (getOneUser id w).2
  = w_log w ++ [client_request client MethodGet (makeURL client ("sobjects/User/" +:+ id)) NoBody].
Proof.
  intros Hw Hid Hurl. unfold getOneUser, TableNameUsers. rewrite (init_bind_online client) by done.
  rewrite bind_quiet by walk. apply (on_client_log client); [done|]. intros tr. unfold SObject_Get.
  rewrite Client_SObject_type, lift_bind_ret, Client_SObject_client.
  destruct (String.eqb_spec id ""); [done|]. cbn [orb negb String.eqb].
  rewrite bind_log; [by apply httpRequest_log|]. walk.
Qed.

Lemma updateUser_log w user obj t f v :
  online client w -> SObject_Type user = Returns t -> t <> "" -> SObject_ID user <> "" ->
  SObject_Set obj f (VString v)
    = {[f := VString v]} ∪ SObject_Set (Client_SObject true t) "Id" (VString (SObject_ID user)) ->
  plain_field f ->
  url_Parse (makeURL client ("sobjects/" +:+ t +:+ "/" +:+ SObject_ID user)) <> None ->
  w_log (updateUser obj f v w).2 = w_log w ++
    [client_request client MethodPatch (makeURL client ("sobjects/" +:+ t +:+ "/" +:+ SObject_ID user))
       (JsonBody {[f := VString v]})].
Proof.
  intros Hw Ht Hne Hid Hobj Hf Hurl. unfold updateUser. rewrite bind_quiet by walk.
  apply (on_client_log client); [done|]. intros tr. rewrite Hobj.
  assert (plain_fields {[f := VString v]}) as Hplain by (by apply map_Forall_singleton).
  unfold SObject_Update.
  rewrite written_type, Set_id_type, Client_SObject_type, lift_bind_ret, written_client, Set_id_client,
    written_id by done.
  assert (SObject_ID (SObject_Set (Client_SObject true t) "Id" (VString (SObject_ID user))) = SObject_ID user)
    as -> by (apply StringField_Set).
  destruct (String.eqb_spec t ""), (String.eqb_spec (SObject_ID user) ""); [done..|]. cbn [orb negb].
  rewrite written_body by (done || apply Set_id_keys).
  assert (json_Marshal_ok {[f := VString v]} = true) as ->.
  { unfold json_Marshal_ok. by rewrite map_to_list_singleton. }
  cbn [negb]. rewrite bind_log; [by apply httpRequest_log|]. walk.
Qed.
End user_log.

(** Reading a user and writing one of its fields. *)
Section user_write.
Context `{Env} (client : simple_client) (Hok : url_ok client = true).
Context (userId f t : string) (w w1 : World) (user : SObject) (rl : option RateLimitDescription).
Context (Hw : online client w) (Hu : userId <> "")
  (Hus : path_safe userId = true) (Hts : path_safe t = true) (Hids : path_safe (SObject_ID user) = true)
  (Hget : getOneUser userId w = (Returns (Some user, rl, None), w1))
  (Ht : SObject_Type user = Returns t) (Hne : t <> "") (Hid : SObject_ID user <> "")
  (He : ExternalIDFieldName user = "") (Hf : plain_field f).

Definition get_user_request : http_request :=
  client_request client MethodGet (makeURL client ("sobjects/User/" +:+ userId)) NoBody.
Definition patch_user_request (x : string) : http_request :=
  client_request client MethodPatch (makeURL client ("sobjects/" +:+ t +:+ "/" +:+ SObject_ID user))
    (JsonBody {[f := VString x]}).

Lemma user_read_log : w_log w1 = w_log w ++ [get_user_request].
Proof. 
  unfold get_user_request. rewrite <-(getOneUser_log client w userId Hw Hu) by url_parses.
  by rewrite Hget.
Qed.

Lemma user_write_log :
  exists obj, copySObject user [f] = Returns obj
    /\ forall x, w_log (updateUser obj f x w1).2 = w_log w ++ [get_user_request; patch_user_request x].
Proof.
  pose proof (runs_getOneUser (fun _ => True) (fun _ _ => I) userId w) as Hruns.
  rewrite Hget in Hruns. pose proof (online_runs _ _ _ _ Hruns Hw) as Hw1.
  destruct (copySObject_set user t f Ht He) as (obj & Hcopy & Hobj). exists obj. split; [done|].
  intros x. rewrite (updateUser_log client w1 user obj t f x Hw1 Ht Hne Hid (Hobj _) Hf) by url_parses.
  rewrite user_read_log. by rewrite <-app_assoc.
Qed.

Lemma setOneValue_log v :
  w_log (setOneValue userId f v w).2 = w_log w ++ [get_user_request; patch_user_request v].
Proof.
  destruct user_write_log as (obj & Hcopy & Hlog). unfold setOneValue.
  rewrite (GoM_bind_run _ _ _ _ _ Hget). cbn beta iota. rewrite Hcopy. apply Hlog.
Qed.
End user_write.

(** ** Properties *)

(** After an initialization without an error the client is connected, its
    configuration is what it was, and initializing again does nothing at all. *)
Theorem Initialize_connects `{Env} w w' :
  ready (w_client w) -> Initialize w = (Returns None, w') ->
  c_initialized (w_client w') = true
  /\ is_Some (c_client (w_client w')) /\ is_Some (c_salesforceTransport (w_client w'))
  /\ same_config (w_client w) (w_client w') /\ Initialize w' = (Returns None, w').
Proof.
  intros Hready Hinit.
  pose proof (Initialize_ok (fun _ => True) (fun _ _ => I) w w' Hinit) as Hi.
  destruct (runs_Initialize (fun _ => True) (fun _ _ => I) w) as [[Hconf Hr _] _].
  rewrite Hinit in Hconf, Hr. destruct (Hr Hready Hi) as [Hc Ht]. split_and!; try done.
  destruct (Initialize_cases (fun _ => True) (fun _ _ => I) w') as [[_ ->]|(Hf & _)]; [done|].
  simpl in *. congruence.
Qed.

(** An initialization that fails leaves the client exactly as it was, not
    initialized, so that the next call tries again; it has sent nothing but
    logins. *)
Theorem Initialize_failure `{Env} w err w' :
  Initialize w = (Returns (Some err), w') ->
  w_client w' = w_client w /\ c_initialized (w_client w') = false
  /\ exists l, w_log w' = w_log w ++ l /\ Forall reads_only l.
Proof.
  intros Hinit.
  destruct (Initialize_cases reads_only (fun _ H => H) w)
    as [[Hi Heq]|(Hi & r & w1 & [Hc Hl] & _ & Heq)]; rewrite Heq in Hinit; [done|].
  destruct r as [[e|[t sc]]|why]; simplify_eq. by rewrite Hc.
Qed.

Section Initialize_witness.
#[local] Existing Instance tape_env.

(** A client that has a token source and has not been used. *)
Definition fresh_world : @World tape_env :=
  @Build_World tape_env [] (New "https://acme.my.salesforce.com" true "" "" "") [].

Lemma Initialize_connects_witness :
  Initialize fresh_world = (Returns None, (Initialize fresh_world).2)
  /\ c_initialized (w_client (Initialize fresh_world).2) = true.
Proof.
  split; [reflexivity|].
  exact (proj1 (Initialize_connects fresh_world (Initialize fresh_world).2 (fun H => match Bool.diff_false_true H with end)
                  eq_refl)).
Defined.

(** A client without a token source, of which the login is refused_world. *)
Definition refused_world : @World tape_env :=
  @Build_World tape_env [inr (json_response 500 "500" (error_json "refused" "LOGIN"))]
    (New "https://acme.my.salesforce.com" false "admin" "pw" "") [].

Lemma Initialize_failure_witness :
  w_client (Initialize refused_world).2 = w_client refused_world /\ length (w_log (Initialize refused_world).2) = 1.
Proof.
  split; [|vm_compute; reflexivity].
  assert (exists err, Initialize refused_world = (Returns (Some err), (Initialize refused_world).2)) as [err Herr]
    by (eexists; vm_compute; reflexivity).
  exact (proj1 (Initialize_failure refused_world err (Initialize refused_world).2 Herr)).
Defined.
End Initialize_witness.

(** The object [CreateObject] and [UpdateObject] send is the map they are
    given, entry for entry, whatever order Go walks the map in: none of the
    object's bookkeeping (client, type, id) gets into the body. *)
Theorem object_body_is_values values l t id :
  plain_fields values -> l ≡ₚ map_to_list values ->
  let created := set_all l (Client_SObject true t) in
  let updated := set_all l (SObject_Set (Client_SObject true t) "Id" (VString id)) in
  makeCopy created = values /\ SObject_Type created = Returns t
  /\ makeCopy updated = values /\ SObject_Type updated = Returns t /\ SObject_ID updated = id.
Proof.
  intros Hplain Hl. cbv zeta. rewrite !(set_all_values l values) by done.
  rewrite !(written_type values Hplain). rewrite (written_id values Hplain). rewrite Set_id_type.
  rewrite Client_SObject_type.
  rewrite (written_body values Hplain _ (Client_SObject_keys t true)).
  rewrite (written_body values Hplain _ (Set_id_keys t true id)).
  by split_and!.
Qed.

Lemma object_body_is_values_witness :
  let values : gmap string value := {["GroupId" := VString "00G1"; "UserOrGroupId" := VString "0051"]} in
  makeCopy (set_all [("UserOrGroupId", VString "0051"); ("GroupId", VString "00G1")]
              (Client_SObject true "GroupMember")) = values.
Proof.
  intros values.
  refine (proj1 (object_body_is_values values _ "GroupMember" "" _ _)).
  - apply (bool_decide_unpack _). vm_compute. exact I.
  - apply perm_swap.
Defined.

(** Changing a field of a user takes exactly two requests: a GET of the user
    and a PATCH of that record whose body is the one field, whatever else the
    user has.  [clearValue] patches only a field that has the value to be
    cleared, with the empty string, and otherwise stops after the GET. *)
Theorem user_field_requests `{Env} client userId f v w user rl w1 t :
  online client w -> url_ok client = true -> userId <> "" -> path_safe userId = true ->
  getOneUser userId w = (Returns (Some user, rl, None), w1) ->
  SObject_Type user = Returns t -> t <> "" -> SObject_ID user <> "" -> ExternalIDFieldName user = "" ->
  path_safe t = true -> path_safe (SObject_ID user) = true -> plain_field f ->
  let get := client_request client MethodGet (makeURL client ("sobjects/User/" +:+ userId)) NoBody in
  let patch x := client_request client MethodPatch
                   (makeURL client ("sobjects/" +:+ t +:+ "/" +:+ SObject_ID user))
                   (JsonBody {[f := VString x]}) in
  w_log (setOneValue userId f v w).2 = w_log w ++ [get; patch v]
  /\ w_log (setValue userId f v w).2 = w_log w ++ [get; patch v]
  /\ w_log (clearValue userId f v w).2
     = w_log w ++ get :: (if String.eqb (StringField user f) v then [patch ""] else []).
Proof.
  intros Hw Hok Hu Hus Hget Ht Hne Hid He Hts Hids Hf get patch.
  destruct (user_write_log client Hok userId f t w w1 user rl Hw Hu Hus Hts Hids Hget Ht Hne Hid He Hf)
    as (obj & Hcopy & Hlog).
  unfold setOneValue, setValue, clearValue. rewrite !(GoM_bind_run _ _ _ _ _ Hget). cbn beta iota.
  rewrite Hcopy. split; [apply Hlog|]. split; [apply Hlog|].
  destruct (String.eqb (StringField user f) v); [apply Hlog|].
  exact (user_read_log client Hok userId w w1 user rl Hw Hu Hus Hget).
Qed.

(** One page of a query: the request of the query, and for an answer in the
    shape of a query result the records of the page, the rate limit of that very
    answer, and the page to go on with unless the server says that this was the
    last. *)
Theorem query_page `{Env} client q path size w s t t' resp result records w' :
  online client w -> isLoggedIn client = true -> c_salesforceTransport (w_client w) = Some t ->
  getQueryString q path size = Returns s -> url_Parse (query_url client s) <> None ->
  Do t (client_request client MethodGet (query_url client s) NoBody) w
    = (Returns (t', Some resp, None), w') ->
  resp_json resp ≫= decode_QueryResult = Some result ->
  set_record_clients (qr_Records result) = Returns records ->
  (query q path size w).1
    = Returns (records, if qr_Done result then "" else qr_NextRecordsURL result, t_rateLimit t', None)
  /\ w_log (query q path size w).2 = w_log w'.
Proof.
  intros Hw Hl Ht Hs Hurl Hdo Hdec Hrec.
  assert (status_ok (resp_status resp) = true) as Hok.
  { pose proof (Do_error _ _ _ _ _ _ _ Hdo) as He. destruct (resp_read_error resp); [done|]. by destruct (status_ok (resp_status resp)). }
  assert (Query client t s w
    = (Returns (t', inr (qr_Done result, qr_NextRecordsURL result, records)), w')) as Hq.
  { unfold Query, httpRequest. rewrite Hl. cbn [negb]. destruct (url_Parse (query_url client s)); [|done].
    fold (client_request client MethodGet (query_url client s) NoBody).
    erewrite GoM_bind_run by (rewrite (GoM_bind_run _ _ _ _ _ Hdo), Hok; reflexivity).
    cbn beta iota. change ((Some resp ≫= resp_json) ≫= decode_QueryResult)
      with (resp_json resp ≫= decode_QueryResult). rewrite Hdec. by rewrite Hrec. }
  destruct (on_client_run client (fun client t => Query client t s) w t t' _ w' Hw Ht Hq)
    as (w'' & Hon & Hlog & Hrate & _).
  unfold query. rewrite (init_bind_online client) by done. rewrite Hs, lift_bind_ret.
  rewrite (GoM_bind_run _ _ _ _ _ Hon), (GoM_bind_run _ _ _ _ _ Hrate). split; [done|exact Hlog].
Qed.

Section query_page_witness.
#[local] Existing Instance tape_env.

(** A first page, with the usage header. *)
Definition role_page : http_response :=
  {| resp_status := 200; resp_status_text := "200 OK"; resp_limit_info := Some ["api-usage=18/5000"];
     resp_read_error := None; resp_text := ""; resp_json := Some (page_json [JObj [("Id", JStr "00E1")]] false "/services/data/next");
     resp_fault := None; resp_login := None |}.
Definition roles_text : string := "SELECT Name, Id FROM UserRole ORDER BY Id".
Definition role_query_run :=
  Do {| t_rateLimit := None; t_tokenSource := false |}
     (client_request sf_client MethodGet (query_url sf_client roles_text) NoBody)
     (tape_world [inr role_page]).

Lemma query_page_witness :
  (query (NewQuery TableNameRoles []) "" 100 (tape_world [inr role_page])).1
  = Returns ([{["Id" := VString "00E1"; sobjectClientKey := VClient true]}], "/services/data/next",
             Some {| rl_Status := STATUS_OK; rl_Limit := 5000; rl_Remaining := 18 |}, None).
Proof.
  refine (proj1 (query_page sf_client (NewQuery TableNameRoles []) "" 100 (tape_world [inr role_page])
    roles_text {| t_rateLimit := None; t_tokenSource := false |}
    {| t_rateLimit := Some {| rl_Status := STATUS_OK; rl_Limit := 5000; rl_Remaining := 18 |};
       t_tokenSource := false |}
    role_page {| qr_Done := false; qr_NextRecordsURL := "/services/data/next";
                 qr_Records := [Some {["Id" := VString "00E1"]}] |}
    [{["Id" := VString "00E1"; sobjectClientKey := VClient true]}] role_query_run.2 _ _ _ _ _ _ _ _)).
  - vm_compute. eauto.
  - reflexivity.
  - reflexivity.
  - vm_compute. reflexivity.
  - discriminate.
  - unfold role_query_run. reads.
  - vm_compute. reflexivity.
  - vm_compute. reflexivity.
Defined.
End query_page_witness.

Section user_field_witness.
#[local] Existing Instance tape_env.

(** A user of whom the role is set. *)
Definition user_answer : json :=
  JObj [("attributes", JObj [("type", JStr "User"); ("url", JStr "/services/data/v54.0/sobjects/User/005A")]);
        ("Id", JStr "005A"); ("Email", JStr "a@x.io"); ("UserRoleId", JStr "00E1")].
Definition user_world : World := tape_world [ok_json user_answer].
Definition user_read := getOneUser "005A" user_world.
Definition read_user : SObject := match user_read.1 with Returns (Some read_user, _, _) => read_user | _ => ∅ end.

Lemma user_field_requests_witness :
  w_log (clearValue "005A" "UserRoleId" "00E1" user_world).2
  = [client_request sf_client MethodGet (makeURL sf_client "sobjects/User/005A") NoBody;
     client_request sf_client MethodPatch (makeURL sf_client "sobjects/User/005A")
       (JsonBody {["UserRoleId" := VString ""]})].
Proof.
  refine (proj2 (proj2 (user_field_requests sf_client "005A" "UserRoleId" "00E1" user_world read_user None user_read.2
    "User" _ _ _ _ _ _ _ _ _ _ _ _))).
  - vm_compute. eauto.
  - reflexivity.
  - discriminate.
  - reflexivity.
  - rewrite (surjective_pairing (getOneUser "005A" user_world)). f_equal.
  - vm_compute. reflexivity.
  - discriminate.
  - vm_compute. discriminate.
  - vm_compute. reflexivity.
  - reflexivity.
  - vm_compute. reflexivity.
  - apply (bool_decide_unpack _). vm_compute. exact I.
Defined.
End user_field_witness.
