(* ===== verification/ClientReads.v ===== *)
(** * The reads of the Salesforce client

    The [Get...] calls of [client/salesforce.go] and [client/user.go] over the
    types of [client/models.go]: each is one SOQL query (or one per page, or one
    per chunk of user ids) and what is made of its records. *)
From S2P Require Export Client Datetime.

(** ** [models.go] *)

Record SalesforceUser := {
  u_ID : string; u_Email : string; u_Username : string; u_FirstName : string;
  u_LastName : string; u_UserType : string; u_LicenseDefinitionKey : string;
  u_IsActive : bool; u_LastLoginDate : option go_time;
}.

Record SalesforceGroupMembership := {
  gm_ID : string; gm_GroupID : string; gm_PrincipalID : string; gm_IsGroup : bool;
}.

Record SalesforceGroup := {
  g_ID : string; g_Name : string; g_Type : string; g_RelatedID : string; g_DeveloperName : string;
}.

Record SalesforceRole := { r_ID : string; r_Name : string }.

Record SalesforcePermission := {
  p_ID : string; p_Name : string; p_Label : string; p_Type : string; p_ProfileID : string;
}.

Record SalesforceProfile := { pf_ID : string; pf_Name : string; pf_UserLicenseId : string }.

Record SalesforceUserLicense := { ul_ID : string; ul_Name : string }.

Record PermissionSetAssignment := {
  pa_ID : string; pa_UserID : string; pa_PermissionSetID : string;
  pa_PermissionSetGroupID : string; pa_IsActive : bool;
}.

Record PermissionSetGroup := {
  psg_ID : string; psg_IsDeleted : bool; psg_DeveloperName : string; psg_Language : string;
  psg_MasterLabel : string; psg_NamespacePrefix : string; psg_Description : string;
  psg_HasActivationRequired : bool;
}.

Record PermissionSetGroupComponent := {
  psc_ID : string; psc_IsDeleted : bool; psc_PermissionSetGroupID : string; psc_PermissionSetID : string;
}.

Record ConnectedApplication := { ca_ID : string; ca_Name : string }.

Record BotDefinition := {
  bot_ID : string; bot_DeveloperName : string; bot_MasterLabel : string; bot_BotUserID : string;
}.

Record UserLogin := {
  l_ID : string; l_UserId : string; l_IsFrozen : bool; l_IsPasswordLocked : bool;
}.

Record UserTerritory2Association := {
  ut_ID : string; ut_UserId : string; ut_Territory2Id : string; ut_RoleInTerritory2 : string;
}.

(** ** Fields of a record *)

(** The boolean a dynamic value stands for, [None] for another type. *)
Definition bool_of_value (v : value) : option bool :=
  match v with
  | VBool b => Some b
  | VString s => Some (String.eqb s trueConst)
  | VInt z | VInt64 z => Some (z =? 1)%Z
  | VFloat f => Some (float_eq_one f)
  | _ => None
  end.

Definition getIsActive (record : SObject) : go_error + bool :=
  let v := InterfaceField record "IsActive" in
  match bool_of_value v with
  | Some b => inr b
  | None => inl (EMsg ("salesforce-connector: unexpected is active type, " +:+ format_s v))
  end.

Definition getBoolField (record : SObject) (field : string) : go_error + bool :=
  let v := InterfaceField record field in
  match bool_of_value v with
  | Some b => inr b
  | None => inl (EMsg ("salesforce-connector: unexpected field " +:+ field +:+ " type, " +:+ format_s v))
  end.

Definition userTypesToSkip : list string :=
  ["CspLitePortal"; "CustomerSuccess"; "PowerCustomerSuccess"; "CsnOnly"; "Guest"].

Definition shouldSkipSyncingUserType (user : SObject) (syncNonStandardUsers : bool) : bool :=
  let userType := StringField user "UserType" in
  if String.eqb userType "" then true
  else if syncNonStandardUsers then false
  else bool_decide (userType ∈ userTypesToSkip).

Definition licenseDefinitionKey (record : SObject) : string :=
  default "" (
    profile ← value_map (InterfaceField record "Profile");
    license ← value_map (default VNil (profile !! "UserLicense"));
    value_string (default VNil (license !! "LicenseDefinitionKey"))).

(** The name of a related object, or the record's own. *)
Definition related_name (record : SObject) (typeName key : string) : string :=
  let name := match SObjectField record typeName key with
              | Some related => StringField related "Name"
              | None => ""
              end in
  if String.eqb name "" then StringField record "Name" else name.

Definition getGroupName (record : SObject) : string := related_name record "Name" "Related".
Definition getPermissionSetName (record : SObject) : string := related_name record "Profile" "Profile".

Definition getIsGroup (record : SObject) : go_error + bool :=
  let principalID := StringField record "UserOrGroupId" in
  if strings_HasPrefix principalID GroupIDPrefix then inr true
  else if strings_HasPrefix principalID UserIDPrefix then inr false
  else inl (EMsg ("invalid principal id " +:+ principalID)).

(** ** Records *)

Definition role_of (record : SObject) : SalesforceRole :=
  {| r_ID := SObject_ID record; r_Name := StringField record "Name" |}.

Definition group_of (record : SObject) : SalesforceGroup :=
  {| g_ID := SObject_ID record; g_Name := getGroupName record; g_Type := StringField record "Type";
     g_RelatedID := StringField record "RelatedId";
     g_DeveloperName := StringField record "DeveloperName" |}.

Definition permission_of (record : SObject) : SalesforcePermission :=
  {| p_ID := SObject_ID record; p_Name := getPermissionSetName record;
     p_Label := StringField record "Label"; p_Type := StringField record "Type";
     p_ProfileID := StringField record "ProfileId" |}.

Definition profile_of (record : SObject) : SalesforceProfile :=
  {| pf_ID := SObject_ID record; pf_Name := StringField record "Name";
     pf_UserLicenseId := StringField record "UserLicenseId" |}.

(** A user of which only the id is read. *)
Definition user_id_of (record : SObject) : SalesforceUser :=
  {| u_ID := SObject_ID record; u_Email := ""; u_Username := ""; u_FirstName := "";
     u_LastName := ""; u_UserType := ""; u_LicenseDefinitionKey := ""; u_IsActive := false;
     u_LastLoginDate := None |}.

Definition user_of (record : SObject) (licenseKey : string) (isActive : bool)
    (lastLogin : option go_time) : SalesforceUser :=
  {| u_ID := SObject_ID record; u_Email := StringField record "Email";
     u_Username := StringField record "Username"; u_FirstName := StringField record "FirstName";
     u_LastName := StringField record "LastName"; u_UserType := StringField record "UserType";
     u_LicenseDefinitionKey := licenseKey; u_IsActive := isActive; u_LastLoginDate := lastLogin |}.

(** [IsActive] compares the assignee's id, as the code does. *)
Definition permission_set_assignment_of (record : SObject) : PermissionSetAssignment :=
  {| pa_ID := SObject_ID record; pa_UserID := StringField record "AssigneeId";
     pa_PermissionSetID := StringField record "PermissionSetId"; pa_PermissionSetGroupID := "";
     pa_IsActive := String.eqb (StringField record "AssigneeId") trueConst |}.

Definition group_assignment_of (record : SObject) : PermissionSetAssignment :=
  {| pa_ID := SObject_ID record; pa_UserID := StringField record "AssigneeId";
     pa_PermissionSetID := ""; pa_PermissionSetGroupID := StringField record "PermissionSetGroupId";
     pa_IsActive := false |}.

Definition connected_application_of (record : SObject) : ConnectedApplication :=
  {| ca_ID := SObject_ID record; ca_Name := StringField record "Name" |}.

Definition bot_of (record : SObject) : BotDefinition :=
  {| bot_ID := SObject_ID record; bot_DeveloperName := StringField record "DeveloperName";
     bot_MasterLabel := StringField record "MasterLabel"; bot_BotUserID := StringField record "BotUserId" |}.

Definition territory_member_of (record : SObject) : UserTerritory2Association :=
  {| ut_ID := SObject_ID record; ut_UserId := StringField record "UserId";
     ut_Territory2Id := StringField record "Territory2Id";
     ut_RoleInTerritory2 := StringField record "RoleInTerritory2" |}.

Definition user_login_of (record : SObject) (isFrozen isPasswordLocked : bool) : UserLogin :=
  {| l_ID := SObject_ID record; l_UserId := StringField record "UserId"; l_IsFrozen := isFrozen;
     l_IsPasswordLocked := isPasswordLocked |}.

(** A loop over records that may skip one or stop with an error. *)
Fixpoint each_record {A} (f : SObject -> go_error + option A) (records : list SObject) :
    go_error + list A :=
  match records with
  | [] => inr []
  | record :: records =>
      match f record with
      | inl err => inl err
      | inr None => each_record f records
      | inr (Some a) =>
          match each_record f records with
          | inl err => inl err
          | inr l => inr (a :: l)
          end
      end
  end.

(** One turn of the loop of [GetUsers]. *)
Definition users_loop (syncDeactivatedUsers syncNonStandardUsers : bool) (record : SObject) :
    go_error + option SalesforceUser :=
  match getIsActive record with
  | inl err => inl err
  | inr isActive =>
      if negb syncDeactivatedUsers && negb isActive then inr None
      else if shouldSkipSyncingUserType record syncNonStandardUsers then inr None
      else
        match parseSalesforceDatetime (StringField record "LastLoginDate") with
        | (_, Some err) => inl err
        | (lastLogin, None) =>
            inr (Some (user_of record (licenseDefinitionKey record) isActive lastLogin))
        end
  end.

(** One turn of the loop of [GetUserByEmail]. *)
Definition user_by_email_loop (record : SObject) : go_error + option SalesforceUser :=
  match getIsActive record with
  | inl err => inl err
  | inr isActive =>
      if shouldSkipSyncingUserType record true then inr None
      else
        match parseSalesforceDatetime (StringField record "LastLoginDate") with
        | (_, Some err) => inl err
        | (lastLogin, None) => inr (Some (user_of record "" isActive lastLogin))
        end
  end.

Definition membership_loop (record : SObject) : go_error + option SalesforceGroupMembership :=
  match getIsGroup record with
  | inl _ => inr None
  | inr isGroup =>
      inr (Some {| gm_ID := SObject_ID record; gm_GroupID := StringField record "GroupId";
                   gm_PrincipalID := StringField record "UserOrGroupId"; gm_IsGroup := isGroup |})
  end.

Definition permission_set_group_loop (record : SObject) : go_error + option PermissionSetGroup :=
  match getBoolField record "HasActivationRequired" with
  | inl err => inl err
  | inr hasActivationRequired =>
      match getBoolField record "IsDeleted" with
      | inl err => inl err
      | inr isDeleted =>
          inr (Some {| psg_ID := SObject_ID record; psg_IsDeleted := isDeleted;
                       psg_DeveloperName := StringField record "DeveloperName";
                       psg_Language := StringField record "Language";
                       psg_MasterLabel := StringField record "MasterLabel";
                       psg_NamespacePrefix := StringField record "NamespacePrefix";
                       psg_Description := StringField record "Description";
                       psg_HasActivationRequired := hasActivationRequired |})
      end
  end.

Definition component_loop (record : SObject) : go_error + option PermissionSetGroupComponent :=
  match getBoolField record "IsDeleted" with
  | inl err => inl err
  | inr isDeleted =>
      inr (Some {| psc_ID := SObject_ID record; psc_IsDeleted := isDeleted;
                   psc_PermissionSetGroupID := StringField record "PermissionSetGroupId";
                   psc_PermissionSetID := StringField record "PermissionSetId" |})
  end.

Definition login_loop (record : SObject) : go_error + option UserLogin :=
  match getBoolField record "IsFrozen" with
  | inl err => inl err
  | inr isFrozen =>
      match getBoolField record "IsPasswordLocked" with
      | inl err => inl err
      | inr isPasswordLocked => inr (Some (user_login_of record isFrozen isPasswordLocked))
      end
  end.

Definition userLoginInClauseChunkSize : nat := 250.
Definition AgentforceAPIVersion : string := "60.0".

(** [userIDs[start:min(start+n, len)]] for start = 0, n, 2n, ... *)
Fixpoint chunks_fuel {A} (fuel n : nat) (l : list A) : list (list A) :=
  match fuel, l with
  | 0, _ | _, [] => []
  | S fuel, _ => take n l :: chunks_fuel fuel n (drop n l)
  end.

(** The chunks; a round takes at least one id, so the length is fuel enough. *)
Definition chunks {A} (n : nat) (l : list A) : list (list A) := chunks_fuel (length l) n l.

(** The query of one chunk. *)
Definition user_login_query (ids : list string) : SalesforceQuery :=
  WhereIn (NewQuery TableNameUserLogin []) "UserId" ids.

Section reads.
Context `{Env}.

Abbreviation M := (GoM World).
Abbreviation page A := (list A * string * option RateLimitDescription * error)%type.

(** Query, then convert the records: [keep] tells whether the rate limit
    survives an error of the loop. *)
Definition query_each {A} (q : SalesforceQuery) (pageToken : string) (pageSize : Z) (keep : bool)
    (f : SObject -> go_error + option A) : M (page A) :=
  '(records, paginationUrl, ratelimitData, err) ← query q pageToken pageSize;
  match err with
  | Some err => mret ([], "", ratelimitData, Some err)
  | None =>
      match each_record f records with
      | inl err => mret ([], "", if keep then ratelimitData else None, Some err)
      | inr l => mret (l, paginationUrl, ratelimitData, None)
      end
  end.

(** The loops that only convert. *)
Definition query_map {A} (q : SalesforceQuery) (pageToken : string) (pageSize : Z)
    (f : SObject -> A) : M (page A) :=
  '(records, paginationUrl, ratelimitData, err) ← query q pageToken pageSize;
  match err with
  | Some err => mret ([], "", ratelimitData, Some err)
  | None => mret (map f records, paginationUrl, ratelimitData, None)
  end.

(** The first record, if any. *)
Definition query_first {A} (q : SalesforceQuery) (f : SObject -> A) :
    M (option A * option RateLimitDescription * error) :=
  '(records, _, ratelimitData, err) ← query q "" 1;
  match err with
  | Some err => mret (None, ratelimitData, Some err)
  | None => mret (f <$> head records, ratelimitData, None)
  end.

Definition GetUsers (pageToken : string) (pageSize : Z)
    (syncDeactivatedUsers syncNonStandardUsers : bool) : M (page SalesforceUser) :=
  query_each (if syncNonStandardUsers then NewQuery TableNameUsers []
              else WhereEq (NewQuery TableNameUsers []) "UserType" "Standard")
    pageToken pageSize false (users_loop syncDeactivatedUsers syncNonStandardUsers).

Definition GetProfileById (id : string) :
    M (option SalesforceProfile * option RateLimitDescription * error) :=
  query_first (WhereEq (NewQuery TableNameProfiles []) "Id" id) profile_of.

Definition GetProfileByName (name : string) :
    M (option SalesforceProfile * option RateLimitDescription * error) :=
  query_first (WhereEq (NewQuery TableNameProfiles []) "Name" name) profile_of.

Definition GetUserRoles (pageToken : string) (pageSize : Z) : M (page SalesforceRole) :=
  query_map (NewQuery TableNameRoles []) pageToken pageSize role_of.

Definition GetGroups (pageToken : string) (pageSize : Z) : M (page SalesforceGroup) :=
  query_map (NewQuery TableNameGroups []) pageToken pageSize group_of.

Definition GetPermissionSets (pageToken : string) (pageSize : Z) : M (page SalesforcePermission) :=
  query_map (NewQuery TableNamePermissionsSets []) pageToken pageSize permission_of.

Definition GetProfiles (pageToken : string) (pageSize : Z) : M (page SalesforceProfile) :=
  query_map (NewQuery TableNameProfiles []) pageToken pageSize profile_of.

Definition GetUserLicenseByID (id : string) :
    M (option SalesforceUserLicense * option RateLimitDescription * error) :=
  query_first (WhereEq (NewQuery TableNameUserLicenses []) "Id" id)
    (fun record => {| ul_ID := SObject_ID record; ul_Name := StringField record "Name" |}).

Definition getAssignments (conditionKey conditionValue pageToken : string) (pageSize : Z) :
    M (page SalesforceUser) :=
  query_map (WhereEq (WhereEq (NewQuery TableNameUsers []) "UserType" "Standard")
               conditionKey conditionValue) pageToken pageSize user_id_of.

Definition GetProfileAssignments (profileID pageToken : string) (pageSize : Z) :
    M (page SalesforceUser) :=
  getAssignments "ProfileId" profileID pageToken pageSize.

Definition GetRoleAssignments (userRoleID pageToken : string) (pageSize : Z) :
    M (page SalesforceUser) :=
  getAssignments "UserRoleId" userRoleID pageToken pageSize.

Definition GetPermissionSetAssignments (permissionSetID pageToken : string) (pageSize : Z) :
    M (page PermissionSetAssignment) :=
  query_map (WhereEq (NewQuery TableNamePermissionAssignments []) "PermissionSetId" permissionSetID)
    pageToken pageSize permission_set_assignment_of.

Definition GetGroupMemberships (groupID pageToken : string) (pageSize : Z) :
    M (page SalesforceGroupMembership) :=
  query_each (WhereEq (NewQuery TableNameGroupMemberships []) "GroupId" groupID)
    pageToken pageSize true membership_loop.

Definition getGroupMembership (userId groupID : string) :
    M (option SObject * option RateLimitDescription * error) :=
  getSObject (WhereEq (WhereEq (NewQuery TableNameGroupMemberships []) "GroupId" groupID)
                "UserOrGroupId" userId).

Definition getPermissionSetAssignment (userId permissionSetId : string) :
    M (option SObject * option RateLimitDescription * error) :=
  getSObject (WhereEq (WhereEq (NewQuery TableNamePermissionAssignments []) "AssigneeId" userId)
                "PermissionSetId" permissionSetId).

Definition GetPermissionSetGroups (pageToken : string) (pageSize : Z) : M (page PermissionSetGroup) :=
  query_each (NewQuery TablePermissionSetGroup []) pageToken pageSize true permission_set_group_loop.

Definition GetPermissionSetGroupComponentsByPermissionSet (permissionSetId pageToken : string)
    (pageSize : Z) : M (page PermissionSetGroupComponent) :=
  query_each (WhereEq (NewQuery TablePermissionSetGroupComponent []) "PermissionSetId" permissionSetId)
    pageToken pageSize true component_loop.

Definition GetPermissionSetGroupAssignments (permissionSetGroupId pageToken : string) (pageSize : Z) :
    M (page PermissionSetAssignment) :=
  query_map (WhereEq (NewQuery TableNamePermissionAssignments ["PermissionSetGroupId"; "AssigneeId"])
               "PermissionSetGroupId" permissionSetGroupId) pageToken pageSize group_assignment_of.

Definition GetOnePermissionSetGroupAssignment (userId permissionSetGroupId : string) :
    M (option PermissionSetAssignment * error) :=
  '(assignment, _, err) ← query_first
    (WhereEq (WhereEq (NewQuery TableNamePermissionAssignments ["PermissionSetGroupId"; "AssigneeId"])
                "AssigneeId" userId) "PermissionSetGroupId" permissionSetGroupId) group_assignment_of;
  mret (assignment, err).

Definition GetConnectedApplications (pageToken : string) (pageSize : Z) : M (page ConnectedApplication) :=
  query_map (NewQuery TableNameConnectedApps []) pageToken pageSize connected_application_of.

Definition GetBotDefinitions (pageToken : string) : M (page BotDefinition) :=
  '(records, paginationUrl, ratelimitData, err) ←
    queryWithAPIVersion (NewQuery TableNameBotDefinition []) pageToken AgentforceAPIVersion;
  match err with
  | Some err =>
      if isSObjectNotSupportedError err then mret ([], "", ratelimitData, None)
      else mret ([], "", ratelimitData, Some err)
  | None => mret (map bot_of records, paginationUrl, ratelimitData, None)
  end.

(** The result map and the last rate limit; an error ends the loop. *)
Definition user_logins_chunk (acc : gmap string UserLogin * option RateLimitDescription)
    (chunk : list string) :
    M ((gmap string UserLogin * option RateLimitDescription)
       + (option (gmap string UserLogin) * option RateLimitDescription * error)) :=
  '(records, nextPage, ratelimitData, err) ←
    query (user_login_query chunk) "" (Z.of_nat (length chunk));
  match err with
  | Some err => mret (inr (None, ratelimitData, Some err))
  | None =>
      if negb (String.eqb nextPage "") then
        mret (inr (None, ratelimitData,
          Some (EMsg ("baton-salesforce: UserLogin batch query was paginated unexpectedly (chunk size: "
                      +:+ itoa (length chunk) +:+ ")"))))
      else
        match each_record login_loop records with
        | inl err => mret (inr (None, ratelimitData, Some err))
        | inr logins =>
            mret (inl (foldl (fun m l => <[l_UserId l := l]> m) acc.1 logins, ratelimitData))
        end
  end.

Definition GetUserLoginsByUserIDs (userIDs : list string) :
    M (option (gmap string UserLogin) * option RateLimitDescription * error) :=
  r ← go_range user_logins_chunk (∅, None) (chunks userLoginInClauseChunkSize userIDs);
  match r with
  | inl (result, ratelimitData) => mret (Some result, ratelimitData, None)
  | inr failed => mret failed
  end.

Definition GetUserLogin (userId : string) : M (option UserLogin * option RateLimitDescription * error) :=
  '(records, _, ratelimitData, err) ←
    query (WhereEq (NewQuery TableNameUserLogin []) "UserId" userId) "" 1;
  match err with
  | Some err => mret (None, ratelimitData, Some err)
  | None =>
      match records with
      | [] => mret (None, ratelimitData, None)
      | record :: _ =>
          match login_loop record with
          | inl err => mret (None, None, Some err)
          | inr userLogin => mret (userLogin, ratelimitData, None)
          end
      end
  end.

Definition GetTerritories (pageToken : string) (pageSize : Z) : M (page SObject) :=
  q ← lift (WhereInSubQuery (NewQuery TableNameTerritory2 []) "Territory2ModelId"
              (WhereEq (NewIDQuery TableNameTerritory2Model) "State" "Active"));
  '(records, paginationURL, ratelimitData, err) ← query q pageToken pageSize;
  match err with
  | Some err => mret ([], "", ratelimitData, Some err)
  | None => mret (records, paginationURL, ratelimitData, None)
  end.

Definition GetTerritoryMembers (territoryID pageToken : string) (pageSize : Z) :
    M (page UserTerritory2Association) :=
  query_map (WhereEq (NewQuery TableNameUserTerritory2Assoc []) "Territory2Id" territoryID)
    pageToken pageSize territory_member_of.

Definition territory_roles_query : SalesforceQuery :=
  WithoutOrderBy (WhereBoolEq (WhereEq (WhereEq (NewQuery TableNamePicklistValueInfo ["Value"])
    "EntityParticle.EntityDefinition.QualifiedApiName" TableNameUserTerritory2Assoc)
    "EntityParticle.DeveloperName" "RoleInTerritory2") "IsActive" true).

Definition GetTerritoryRoles : M (list string * option RateLimitDescription * error) :=
  '(records, _, ratelimitData, err) ← query territory_roles_query "" (-1);
  match err with
  | Some err =>
      mret ([], ratelimitData, Some (EWrap "baton-salesforce: failed to get territory roles: " err))
  | None =>
      mret (filter (fun value => value <> "") (map (fun record => StringField record "Value") records),
            ratelimitData, None)
  end.

Definition territory_assoc_query (userID territoryID : string) : SalesforceQuery :=
  WhereEq (WhereEq (NewQuery TableNameUserTerritory2Assoc []) "Territory2Id" territoryID)
    "UserId" userID.

Definition GetUserTerritoryAssociation (userID territoryID : string) :
    M (option SObject * option RateLimitDescription * error) :=
  getSObject (territory_assoc_query userID territoryID).

(** ** [user.go] *)

Definition GetUserByEmail (email : string) : M (option SalesforceUser * error) :=
  '(records, _, _, err) ← query (WhereEq (NewQuery TableNameUsers []) "Email" email) "" 1;
  match err with
  | Some err => mret (None, Some err)
  | None =>
      match each_record user_by_email_loop records with
      | inl err => mret (None, Some err)
      | inr [] =>
          mret (None, Some (EStatus NotFound ("user with email " +:+ email +:+ " not found")))
      | inr (user :: _) => mret (Some user, None)
      end
  end.

Definition UserExist (email : string) : M (bool * error) :=
  '(user, err) ← GetUserByEmail email;
  match err with
  | Some _ =>
      if bool_decide (status_Code err = NotFound) then mret (false, None) else mret (false, err)
  | None => mret (bool_decide (user <> None), None)
  end.

Definition user_retries : nat := 3.

(** The loop of [GetUserByEmailWithRetry] from an attempt on. *)
Fixpoint get_user_attempts (left : nat) (email : string) : M (option SalesforceUser * error) :=
  match left with
  | 0 => mret (None, Some (EMsg "failed to get user by email after 3 retries"))
  | S left' =>
      err ← ask env_cache_clear;
      match err with
      | Some err => mret (None, Some err)
      | None =>
          '(user, err) ← GetUserByEmail email;
          match err with
          | None => mret (user, None)
          | Some err =>
              if negb (bool_decide (status_Code (Some err) = NotFound)) then mret (None, Some err)
              else if bool_decide (left' = 0) then get_user_attempts left' email
              else
                waited ← ask env_wait;
                if waited : bool then get_user_attempts left' email
                else mret (None, Some (EMsg "context canceled"))
          end
      end
  end.

Definition GetUserByEmailWithRetry (email : string) : M (option SalesforceUser * error) :=
  get_user_attempts user_retries email.
End reads.

(** ** Every read makes reading requests only *)

Section runs_reads.
Context `{Env} (P : http_request -> Prop) (Hreads : forall req, reads_only req -> P req).

Lemma runs_query_each {A} q tok n keep (f : SObject -> go_error + option A) : moves (runs P) (query_each q tok n keep f).
Proof. unfold query_each. walk. Qed.

Lemma runs_query_map {A} q tok n (f : SObject -> A) : moves (runs P) (query_map q tok n f).
Proof. unfold query_map. walk. Qed.

Lemma runs_query_first {A} q (f : SObject -> A) : moves (runs P) (query_first q f).
Proof. unfold query_first. walk. Qed.

End runs_reads.

#[export] Hint Resolve runs_query_each runs_query_map runs_query_first : golog.

Section runs_gets.
Context `{Env} (P : http_request -> Prop) (Hreads : forall req, reads_only req -> P req).

Lemma runs_GetUsers tok n d s : moves (runs P) (GetUsers tok n d s).
Proof. unfold GetUsers. walk. Qed.

Lemma runs_GetProfileById id : moves (runs P) (GetProfileById id).
Proof. unfold GetProfileById. walk. Qed.

Lemma runs_GetProfileByName name : moves (runs P) (GetProfileByName name).
Proof. unfold GetProfileByName. walk. Qed.

Lemma runs_GetUserRoles tok n : moves (runs P) (GetUserRoles tok n).
Proof. unfold GetUserRoles. walk. Qed.

Lemma runs_GetGroups tok n : moves (runs P) (GetGroups tok n).
Proof. unfold GetGroups. walk. Qed.

Lemma runs_GetPermissionSets tok n : moves (runs P) (GetPermissionSets tok n).
Proof. unfold GetPermissionSets. walk. Qed.

Lemma runs_GetProfiles tok n : moves (runs P) (GetProfiles tok n).
Proof. unfold GetProfiles. walk. Qed.

Lemma runs_GetUserLicenseByID id : moves (runs P) (GetUserLicenseByID id).
Proof. unfold GetUserLicenseByID. walk. Qed.

Lemma runs_getAssignments k v tok n : moves (runs P) (getAssignments k v tok n).
Proof. unfold getAssignments. walk. Qed.

Lemma runs_GetProfileAssignments id tok n : moves (runs P) (GetProfileAssignments id tok n).
Proof. unfold GetProfileAssignments. pose proof runs_getAssignments. walk. Qed.

Lemma runs_GetRoleAssignments id tok n : moves (runs P) (GetRoleAssignments id tok n).
Proof. unfold GetRoleAssignments. pose proof runs_getAssignments. walk. Qed.

Lemma runs_GetPermissionSetAssignments id tok n : moves (runs P) (GetPermissionSetAssignments id tok n).
Proof. unfold GetPermissionSetAssignments. walk. Qed.

Lemma runs_GetGroupMemberships id tok n : moves (runs P) (GetGroupMemberships id tok n).
Proof. unfold GetGroupMemberships. walk. Qed.

Lemma runs_GetPermissionSetGroups tok n : moves (runs P) (GetPermissionSetGroups tok n).
Proof. unfold GetPermissionSetGroups. walk. Qed.

Lemma runs_GetPermissionSetGroupComponentsByPermissionSet id tok n : moves (runs P) (GetPermissionSetGroupComponentsByPermissionSet id tok n).
Proof. unfold GetPermissionSetGroupComponentsByPermissionSet. walk. Qed.

Lemma runs_GetPermissionSetGroupAssignments id tok n : moves (runs P) (GetPermissionSetGroupAssignments id tok n).
Proof. unfold GetPermissionSetGroupAssignments. walk. Qed.

Lemma runs_GetConnectedApplications tok n : moves (runs P) (GetConnectedApplications tok n).
Proof. unfold GetConnectedApplications. walk. Qed.

Lemma runs_GetTerritoryMembers id tok n : moves (runs P) (GetTerritoryMembers id tok n).
Proof. unfold GetTerritoryMembers. walk. Qed.

Lemma runs_getGroupMembership u g : moves (runs P) (getGroupMembership u g).
Proof. unfold getGroupMembership. walk. Qed.

Lemma runs_getPermissionSetAssignment u p : moves (runs P) (getPermissionSetAssignment u p).
Proof. unfold getPermissionSetAssignment. walk. Qed.

Lemma runs_GetUserTerritoryAssociation u t : moves (runs P) (GetUserTerritoryAssociation u t).
Proof. unfold GetUserTerritoryAssociation. walk. Qed.

Lemma runs_GetOnePermissionSetGroupAssignment u p : moves (runs P) (GetOnePermissionSetGroupAssignment u p).
Proof. unfold GetOnePermissionSetGroupAssignment. walk. Qed.

Lemma runs_GetBotDefinitions tok : moves (runs P) (GetBotDefinitions tok).
Proof. unfold GetBotDefinitions. walk. Qed.

Lemma runs_user_logins_chunk acc ids : moves (runs P) (user_logins_chunk acc ids).
Proof. unfold user_logins_chunk. walk. Qed.

Lemma runs_GetUserLoginsByUserIDs ids : moves (runs P) (GetUserLoginsByUserIDs ids).
Proof. unfold GetUserLoginsByUserIDs. pose proof runs_user_logins_chunk. walk. Qed.

Lemma runs_GetUserLogin id : moves (runs P) (GetUserLogin id).
Proof. unfold GetUserLogin. walk. Qed.

Lemma runs_GetTerritories tok n : moves (runs P) (GetTerritories tok n).
Proof. unfold GetTerritories. walk. Qed.

Lemma runs_GetTerritoryRoles : moves (runs P) GetTerritoryRoles.
Proof. unfold GetTerritoryRoles. walk. Qed.

Lemma runs_GetUserByEmail email : moves (runs P) (GetUserByEmail email).
Proof. unfold GetUserByEmail. walk. Qed.

Lemma runs_UserExist email : moves (runs P) (UserExist email).
Proof. unfold UserExist. pose proof runs_GetUserByEmail. walk. Qed.

Lemma runs_get_user_attempts n email : moves (runs P) (get_user_attempts n email).
Proof. pose proof runs_GetUserByEmail. induction n as [|n IH]; simpl; walk. Qed.

Lemma runs_GetUserByEmailWithRetry email : moves (runs P) (GetUserByEmailWithRetry email).
Proof. apply runs_get_user_attempts. Qed.
End runs_gets.

#[export] Hint Resolve runs_GetUsers runs_GetProfileById runs_GetProfileByName runs_GetUserRoles
  runs_GetGroups runs_GetPermissionSets runs_GetProfiles runs_GetUserLicenseByID
  runs_getAssignments runs_GetProfileAssignments runs_GetRoleAssignments
  runs_GetPermissionSetAssignments runs_GetGroupMemberships runs_GetPermissionSetGroups
  runs_GetPermissionSetGroupComponentsByPermissionSet runs_GetPermissionSetGroupAssignments
  runs_GetConnectedApplications runs_GetTerritoryMembers runs_getGroupMembership
  runs_getPermissionSetAssignment runs_GetUserTerritoryAssociation
  runs_GetOnePermissionSetGroupAssignment runs_GetBotDefinitions runs_user_logins_chunk
  runs_GetUserLoginsByUserIDs runs_GetUserLogin runs_GetTerritories runs_GetTerritoryRoles
  runs_GetUserByEmail runs_UserExist runs_GetUserByEmailWithRetry : golog.

(** ** Chunks of user ids *)

Section chunks.
Context {A : Type} (n : nat) (Hn : 0 < n).

Lemma chunks_fuel_nil fuel : chunks_fuel fuel n (@nil A) = [].
Proof. by destruct fuel. Qed.

Lemma chunks_fuel_concat fuel (l : list A) : length l <= fuel -> concat (chunks_fuel fuel n l) = l.
Proof.
  revert l. induction fuel as [|fuel IH]; intros l Hl; [by destruct l; [|simpl in Hl; lia]|].
  destruct l as [|x l]; [done|]. cbn [chunks_fuel concat].
  rewrite IH by (rewrite length_drop; simpl in *; lia). apply take_drop.
Qed.

Lemma chunks_fuel_count fuel (l : list A) :
  length l <= fuel -> length (chunks_fuel fuel n l) = (length l + n - 1) / n.
Proof.
  revert l. induction fuel as [|fuel IH]; intros l Hl.
  { destruct l; [|simpl in Hl; lia]. simpl. symmetry. apply Nat.div_small. lia. }
  destruct l as [|x l]; [simpl; symmetry; apply Nat.div_small; lia|].
  cbn [chunks_fuel]. set (l' := x :: l) in *. cbn [length].
  rewrite IH by (rewrite length_drop; unfold l' in *; simpl in *; lia). rewrite length_drop.
  destruct (decide (length l' <= n)) as [Hle|Hgt].
  - replace (length l' - n) with 0 by lia. rewrite (Nat.div_small (0 + n - 1) n) by lia.
    assert (1 <= length l') by (unfold l'; simpl; lia).
    replace (length l' + n - 1) with (length l' - 1 + 1 * n) by lia.
    rewrite Nat.div_add, Nat.div_small by lia. done.
  - replace (length l' + n - 1) with (length l' - n + n - 1 + 1 * n) by lia.
    rewrite Nat.div_add by lia. lia.
Qed.

Lemma chunks_fuel_size fuel (l : list A) :
  length l <= fuel -> Forall (fun c => 0 < length c <= n) (chunks_fuel fuel n l).
Proof.
  revert l. induction fuel as [|fuel IH]; intros l Hl; [destruct l; constructor|].
  destruct l as [|x l]; [constructor|]. cbn [chunks_fuel]. constructor.
  - rewrite length_take. simpl. lia.
  - apply IH. rewrite length_drop. simpl in *. lia.
Qed.
End chunks.

(** The requests of the chunks of a list of ids. *)
Definition user_login_text (ids : list string) : string :=
  query_text quoteStringValue (NewQuery_cols TableNameUserLogin []) TableNameUserLogin
    [QIn "UserId" ids] [SalesforcePK] (-1).

Definition chunk_request (client : simple_client) (ids : list string) : http_request :=
  client_request client MethodGet (query_url client (user_login_text ids)) NoBody.

Lemma user_login_plain ids :
  length ids <= 250 -> plain_query TableNameUserLogin [] [QIn "UserId" ids].
Proof.
  intros Hn. split_and!; [by vm_compute|by constructor|].
  unfold query_values. simpl. rewrite app_nil_r. unfold int64_max. lia.
Qed.

Lemma user_login_head render ids :
  query_text render (NewQuery_cols TableNameUserLogin []) TableNameUserLogin
    [QIn "UserId" ids] [SalesforcePK] (-1)
  = "SELECT UserId, IsFrozen, IsPasswordLocked, Id FROM UserLogin WHERE UserId IN ("
      +:+ strings_Join (map render ids) ", " +:+ ") ORDER BY Id".
Proof.
  assert (NewQuery_cols TableNameUserLogin [] = ["UserId"; "IsFrozen"; "IsPasswordLocked"; "Id"]) as ->
    by (vm_compute; reflexivity).
  unfold query_text. simpl. by autorewrite with gostr.
Qed.

Lemma user_login_query_text ids n :
  length ids <= 250 -> getQueryString (user_login_query ids) "" n = Returns (user_login_text ids).
Proof.
  intros Hn.
  exact (getQueryString_text TableNameUserLogin [] [QIn "UserId" ids] false n (user_login_plain ids Hn)).
Qed.

Section user_logins.
Context `{Env} (client : simple_client) (Hlogged : isLoggedIn client = true)
  (Hok : url_ok client = true).

(** A chunk sends its one request. *)
Lemma user_logins_chunk_log acc ids w :
  online client w -> length ids <= 250 ->
  w_log (user_logins_chunk acc ids w).2 = w_log w ++ [chunk_request client ids].
Proof.
  intros Hw Hn. unfold user_logins_chunk. rewrite bind_quiet by walk.
  apply query_log; [done|done|by apply user_login_query_text|].
  apply query_url_parses; [done|apply query_text_no_path].
Qed.

Lemma user_logins_range_log acc l w :
  online client w -> Forall (fun c => length c <= 250) l ->
  exists done, done `prefix_of` map (chunk_request client) l
    /\ w_log (go_range user_logins_chunk acc l w).2 = w_log w ++ done
    /\ forall r w', go_range user_logins_chunk acc l w = (Returns (inl r), w') ->
         done = map (chunk_request client) l.
Proof.
  intros Hw Hl. revert acc w Hw. induction Hl as [|c l Hc Hl IH]; intros acc w Hw.
  { exists []. simpl. by rewrite app_nil_r. }
  cbn [go_range map]. pose proof (user_logins_chunk_log acc c w Hw Hc) as Hlog.
  pose proof (runs_user_logins_chunk (fun _ => True) (fun _ _ => I) acc c w) as Hruns.
  destruct (user_logins_chunk acc c w) as [[[acc'|res]|why] w1] eqn:E; simpl in Hlog, Hruns.
  - destruct (IH acc' w1 (online_runs _ _ _ _ Hruns Hw)) as (d & Hd & Hlog' & Hall).
    exists (chunk_request client c :: d). rewrite (GoM_bind_run _ _ _ _ _ E). split_and!.
    + by apply prefix_cons.
    + rewrite Hlog', Hlog, <-app_assoc. done.
    + intros r w' Hr. f_equal. by apply (Hall r w').
  - exists [chunk_request client c]. rewrite (GoM_bind_run _ _ _ _ _ E). split_and!; try done.
    apply prefix_cons, prefix_nil.
  - exists [chunk_request client c]. rewrite (GoM_bind_panic _ _ _ _ _ E). split_and!; try done.
    apply prefix_cons, prefix_nil.
Qed.
End user_logins.

(** ** The loops over records *)

(** A loop that ends without an error has gone through every record, and kept
    those it made something of. *)
Lemma each_record_spec {A} (f : SObject -> go_error + option A) records l :
  each_record f records = inr l ->
  Forall (fun r => exists o, f r = inr o) records
  /\ l = omap (fun r => match f r with inr o => o | inl _ => None end) records.
Proof.
  revert l. induction records as [|r records IH]; intros l; simpl; [by intros [= <-]|].
  destruct (f r) as [err|[a|]] eqn:E; [done| |].
  - destruct (each_record f records) as [err|l'] eqn:Er; [done|]. intros [= <-].
    destruct (IH l' eq_refl) as [Hf ->]. split; [constructor; eauto|done].
  - intros Hl. destruct (IH l Hl) as [Hf ->]. split; [constructor; eauto|done].
Qed.

(** ** A query that fails *)

(** A failing response of the API, to a read of a connected client. *)
Lemma Query_fails `{Env} client q t w resp t' e w' message code l :
  isLoggedIn client = true -> url_Parse (query_url client q) <> None ->
  Do t (client_request client MethodGet (query_url client q) NoBody) w = (Returns (t', Some resp, e), w') ->
  resp_read_error resp = None -> status_ok (resp_status resp) = false ->
  resp_json resp ≫= decode_json_errors = Some ((message, code) :: l) ->
  Query client t q w = (Returns (t', inl (response_error resp message code)), w').
Proof.
  intros Hl Hurl Hdo Hread Hs Hdec. unfold Query. rewrite Hl. cbn [negb].
  by rewrite (GoM_bind_run _ _ _ _ _
    (httpRequest_fails client t _ _ _ w t' resp e w' message code l Hurl Hdo Hread Hs Hdec)).
Qed.

(** ** The attempts at finding a user *)

Definition user_by_email_text (email : string) : string :=
  query_text quoteStringValue (NewQuery_cols TableNameUsers []) TableNameUsers
    [QEq "Email" email] [SalesforcePK] (-1).

Lemma user_by_email_query email n :
  getQueryString (WhereEq (NewQuery TableNameUsers []) "Email" email) "" n
  = Returns (user_by_email_text email).
Proof.
  apply (getQueryString_text TableNameUsers [] [QEq "Email" email] false n).
  split_and!; [by vm_compute|by constructor|]. vm_compute. discriminate.
Qed.

(** No error and no user never come together. *)
Definition found_or_error {A} (r : option A * error) : Prop := r.2 = None -> r.1 <> None.

Lemma GetUserByEmail_found `{Env} email : returns found_or_error (GetUserByEmail email).
Proof.
  unfold GetUserByEmail. apply returns_then. intros [[[records next] rl] [err|]]; [by apply returns_ret|].
  destruct (each_record user_by_email_loop records) as [err|[|user users]]; by apply returns_ret.
Qed.

Section attempts.
Context `{Env} (client : simple_client) (email : string).
Context (Hlogged : isLoggedIn client = true)
  (Hok : url_ok client = true).

Definition by_email_request : http_request :=
  client_request client MethodGet (query_url client (user_by_email_text email)) NoBody.

Lemma GetUserByEmail_log w :
  online client w -> w_log (GetUserByEmail email w).2 = w_log w ++ [by_email_request].
Proof.
  intros Hw. unfold GetUserByEmail. rewrite bind_quiet by walk.
  apply query_log; [done|done|apply user_by_email_query|].
  apply query_url_parses; [done|apply query_text_no_path].
Qed.

(** At most [k] such requests, from a connected client to a connected client. *)
Definition asks {A} (k : nat) (m : GoM World A) : Prop :=
  forall w, online client w -> online client (m w).2
    /\ exists j, j <= k /\ w_log (m w).2 = w_log w ++ replicate j by_email_request.

Lemma asks_weaken {A} k k' (m : GoM World A) : k <= k' -> asks k m -> asks k' m.
Proof. intros Hk Hm w Hw. destruct (Hm w Hw) as (Ho & j & Hj & Hl). split; [done|]. exists j. split; [lia|done]. Qed.

Lemma asks_none {A} k (m : GoM World A) : moves (runs (fun _ => False)) m -> asks k m.
Proof.
  intros Hm w Hw. split; [exact (online_runs _ _ _ _ (Hm w) Hw)|]. exists 0. split; [lia|].
  rewrite app_nil_r. by apply runs_none.
Qed.

Lemma asks_bind {A B} k k' (m : GoM World A) (f : A -> GoM World B) :
  asks k m -> (forall a, asks k' (f a)) -> asks (k + k') (m ≫= f).
Proof.
  intros Hm Hf w Hw. destruct (Hm w Hw) as (Ho & j & Hj & Hl). unfold mbind, GoM_bind.
  destruct (m w) as [[a|why] w1]; simpl in *; [|split; [done|]; exists j; split; [lia|done]].
  destruct (Hf a w1 Ho) as (Ho' & j' & Hj' & Hl'). split; [done|]. exists (j + j').
  split; [lia|]. by rewrite Hl', Hl, <-app_assoc, replicate_add.
Qed.

Lemma asks_GetUserByEmail : asks 1 (GetUserByEmail email).
Proof.
  intros w Hw. split; [|by exists 1; split; [|apply GetUserByEmail_log]].
  exact (online_runs _ _ _ _ (runs_GetUserByEmail (fun _ => True) (fun _ _ => I) email w) Hw).
Qed.

Lemma asks_attempts n : asks n (get_user_attempts n email).
Proof.
  induction n as [|n IH]; [apply asks_none; simpl; walk|]. cbn [get_user_attempts].
  apply (asks_bind 0 (S n)); [apply asks_none; walk|]. intros [err|]; [apply asks_none; walk|].
  apply (asks_bind 1 n); [apply asks_GetUserByEmail|].
  intros [user [err|]]; [|apply asks_none; walk].
  repeat case_match; [apply asks_none; walk|done|].
  apply (asks_bind 0 n); [apply asks_none; walk|]. intros [|]; [done|apply asks_none; walk].
Qed.
End attempts.

Lemma get_user_attempts_found `{Env} n email : returns found_or_error (get_user_attempts n email).
Proof.
  induction n as [|n IH]; [by apply returns_ret|]. cbn [get_user_attempts].
  apply returns_then. intros [err|]; [by apply returns_ret|].
  eapply returns_bind; [apply GetUserByEmail_found|]. intros [user [err|]] Hu; [|by apply returns_ret].
  repeat case_match; [by apply returns_ret|done|].
  apply returns_then. intros [|]; [done|by apply returns_ret].
Qed.

(** A chunk that stops the loop does so with an error. *)
Lemma user_logins_fail `{Env} acc l :
  returns (fun r => match r with inl _ => True | inr res => res.2 <> None end)
    (go_range user_logins_chunk acc l).
Proof.
  apply (returns_range (fun _ => True) (fun res => res.2 <> None)); [|done].
  intros a c _. unfold user_logins_chunk. apply returns_then. intros [[[records next] rl] [err|]].
  - by apply returns_ret.
  - destruct (negb (String.eqb next "")); [by apply returns_ret|].
    destruct (each_record login_loop records); by apply returns_ret.
Qed.

(** C23: [GetUserLoginsByUserIDs] asks for the users chunk by chunk: the chunks are
    of at most 250 ids and make up the list, there are ceil(n / 250) of them, the
    requests sent are the chunks' in order, one each, all of them when the call
    succeeds and never more; each request's query reads back as exactly the ids
    of its chunk. *)
Theorem GetUserLoginsByUserIDs_requests `{Env} client userIDs w :
  online client w -> isLoggedIn client = true -> url_ok client = true ->
  let cs := chunks userLoginInClauseChunkSize userIDs in
  concat cs = userIDs /\ Forall (fun c => 0 < length c <= 250) cs
  /\ length cs = (length userIDs + 249) / 250
  /\ Forall (fun c => read_literals None (user_login_text c)
       = Some ("SELECT UserId, IsFrozen, IsPasswordLocked, Id FROM UserLogin WHERE UserId IN ("
               +:+ strings_Join (map (fun _ => "?") c) ", " +:+ ") ORDER BY Id", c)) cs
  /\ exists sent, sent `prefix_of` map (chunk_request client) cs
       /\ w_log (GetUserLoginsByUserIDs userIDs w).2 = w_log w ++ sent
       /\ forall m rl w', GetUserLoginsByUserIDs userIDs w = (Returns (Some m, rl, None), w') ->
            sent = map (chunk_request client) cs.
Proof.
  intros Hw Hl Hok cs.
  assert (Forall (fun c => 0 < length c <= 250) cs) as Hsize
    by (apply chunks_fuel_size; [apply Nat.lt_0_succ|done]).
  split; [|split; [done|split; [|split]]].
  - apply chunks_fuel_concat; [apply Nat.lt_0_succ|done].
  - unfold cs, chunks, userLoginInClauseChunkSize. rewrite chunks_fuel_count by lia.
    f_equal. lia.
  - eapply Forall_impl; [exact Hsize|]. intros c Hc. unfold user_login_text.
    rewrite (query_text_read TableNameUserLogin [] _ [SalesforcePK] (-1) (user_login_plain c (proj2 Hc)) eq_refl).
    rewrite user_login_head. cbn [query_values mbind list_bind cond_values]. rewrite app_nil_r. reflexivity.
  - destruct (user_logins_range_log client Hl Hok (∅, None) cs w Hw) as (d & Hd & Hlog & Hall).
    { eapply Forall_impl; [exact Hsize|]. simpl. lia. }
    exists d. split; [done|]. unfold GetUserLoginsByUserIDs. fold cs.
    rewrite bind_quiet by walk. split; [done|].
    intros m rl w' ([r|res] & w1 & E & Hr)%GoM_bind_inv; [by apply (Hall r w1)|].
    pose proof (user_logins_fail _ _ _ _ _ E) as Herr. injection Hr as -> _. by destruct Herr.
Qed.

(** The records [GetUsers] makes users of: of a type, active unless deactivated
    users are asked for, and of no portal or guest type unless non-standard users
    are. *)
Definition kept_user (deactivated nonStandard : bool) (r : SObject) : bool :=
  match getIsActive r with
  | inr active =>
      (deactivated || active) && negb (String.eqb (StringField r "UserType") "")
      && (nonStandard || negb (bool_decide (StringField r "UserType" ∈ userTypesToSkip)))
  | inl _ => false
  end.

(** The license key is that of the user license of the profile, blank where there
    is none. *)
Definition license_key_of (r : SObject) : string :=
  match InterfaceField r "Profile" with
  | VMap profile =>
      match profile !! "UserLicense" with
      | Some (VMap license) =>
          match license !! "LicenseDefinitionKey" with Some (VString key) => key | _ => "" end
      | _ => ""
      end
  | _ => ""
  end.

Lemma licenseDefinitionKey_of r : licenseDefinitionKey r = license_key_of r.
Proof.
  unfold licenseDefinitionKey, license_key_of. destruct (InterfaceField r "Profile") as [| | | | | |profile| | |]; try done.
  cbn [value_map mbind option_bind]. destruct (profile !! "UserLicense") as [[| | | | | |license| | |]|]; try done.
  cbn. by destruct (license !! "LicenseDefinitionKey") as [[]|].
Qed.

(** The user of a record, every field of it. *)
Definition user_from (r : SObject) (u : SalesforceUser) : Prop :=
  u_ID u = SObject_ID r /\ u_Email u = StringField r "Email" /\ u_Username u = StringField r "Username"
  /\ u_FirstName u = StringField r "FirstName" /\ u_LastName u = StringField r "LastName"
  /\ u_UserType u = StringField r "UserType" /\ u_LicenseDefinitionKey u = license_key_of r
  /\ getIsActive r = inr (u_IsActive u)
  /\ parseSalesforceDatetime (StringField r "LastLoginDate") = (u_LastLoginDate u, None).

Lemma users_loop_spec deactivated nonStandard r o :
  users_loop deactivated nonStandard r = inr o ->
  match o with
  | Some u => kept_user deactivated nonStandard r = true /\ user_from r u
  | None => kept_user deactivated nonStandard r = false
  end.
Proof.
  unfold users_loop, kept_user, user_from, shouldSkipSyncingUserType.
  destruct (getIsActive r) as [|active]; [done|].
  destruct deactivated, active, (String.eqb (StringField r "UserType") ""), nonStandard,
    (bool_decide (StringField r "UserType" ∈ userTypesToSkip)); simpl;
    try (by intros [= <-]);
    destruct (parseSalesforceDatetime _) as [d [e|]]; intros [= <-]; try done.
  all: split; [done|]; split_and!; by rewrite <-?licenseDefinitionKey_of.
Qed.

(** C24: [GetUsers] keeps a record exactly when it is to be synced: its user type is
    set, it is active unless deactivated users are asked for, and its type is no
    portal or guest type unless non-standard users are asked for; only standard
    users are queried for otherwise.  The users come in the order of the
    records, each with every field of its record (the license key from the user
    license of its profile), and a record whose [IsActive] cannot be read, or a
    kept one whose last login cannot, makes the call fail. *)
Theorem GetUsers_filter `{Env} tok n deactivated nonStandard w users next rl w' :
  GetUsers tok n deactivated nonStandard w = (Returns (users, next, rl, None), w') ->
  exists records,
    query (q_fold (NewQuery TableNameUsers [])
             (if nonStandard then [] else [QEq "UserType" "Standard"])) tok n w
      = (Returns (records, next, rl, None), w')
    /\ Forall (fun r => exists active, getIsActive r = inr active) records
    /\ Forall2 user_from (filter (fun r => kept_user deactivated nonStandard r = true) records) users.
Proof.
  intros Hrun. unfold GetUsers, query_each in Hrun.
  apply GoM_bind_inv in Hrun as ([[[records next'] rl'] err] & w1 & Hq & Hrun).
  destruct err as [err|]; [done|].
  destruct (each_record _ records) as [err|l] eqn:Er; [done|]. injection Hrun as <- <- <- <-.
  exists records. split; [by destruct nonStandard|].
  destruct (each_record_spec _ _ _ Er) as [Hall ->]. clear Er Hq. split.
  - eapply Forall_impl; [exact Hall|]. intros r [o Ho]. unfold users_loop in Ho.
    destruct (getIsActive r); [done|eauto].
  - induction Hall as [|r records [o Ho] Hall IH]; [constructor|].
    rewrite filter_cons. cbn [omap list_omap]. rewrite Ho.
    pose proof (users_loop_spec _ _ _ _ Ho) as Hspec.
    destruct o as [u|]; [destruct Hspec as [-> Hu]; by constructor|]. rewrite Hspec. exact IH.
Qed.

(** The request for the agents, in the API version they need. *)
Definition agents_path : string :=
  versioned_query_path AgentforceAPIVersion
    "SELECT DeveloperName, MasterLabel, BotUserId, Id FROM BotDefinition ORDER BY Id".

Lemma agents_path_parses client : url_ok client = true -> url_Parse (query_url client agents_path) <> None.
Proof.
  intros Hok.
  assert (agents_path = "/" +:+ "services/data/v60.0/query" +:+
    "?q=SELECT+DeveloperName%2C+MasterLabel%2C+BotUserId%2C+Id+FROM+BotDefinition+ORDER+BY+Id") as ->
    by (vm_compute; reflexivity).
  by apply query_path_parses.
Qed.

(** In an organisation without the agents' object the sync goes on: the answer
    INVALID_TYPE to the request for the agents (a query pinned to API version
    60.0) makes an empty last page, any other error is passed on. *)
Theorem GetBotDefinitions_unsupported `{Env} client w t t' resp e w' message code l :
  online client w -> isLoggedIn client = true -> c_salesforceTransport (w_client w) = Some t ->
  url_ok client = true ->
  Do t (client_request client MethodGet (query_url client agents_path) NoBody) w
    = (Returns (t', Some resp, e), w') ->
  resp_read_error resp = None -> status_ok (resp_status resp) = false ->
  resp_json resp ≫= decode_json_errors = Some ((message, code) :: l) ->
  exists err, (GetBotDefinitions "" w).1 =
    Returns ([], "", t_rateLimit t', if String.eqb code "INVALID_TYPE" then None else Some err)
    /\ w_log (GetBotDefinitions "" w).2 = w_log w'.
Proof.
  intros Hw Hl Ht Hok Hdo Hread Hs Hdec. pose proof (agents_path_parses client Hok) as Hurl.
  pose proof (Query_fails client agents_path t w resp t' e w' message code l Hl Hurl Hdo Hread Hs Hdec) as Hq.
  destruct (on_client_run client (fun client t => Query client t agents_path) w t t' _ w' Hw Ht Hq)
    as (w'' & Hon & Hlog & Hrate & _).
  assert (SalesforceQuery_String (OrderBy (NewQuery TableNameBotDefinition []) SalesforcePK)
    = Returns "SELECT DeveloperName, MasterLabel, BotUserId, Id FROM BotDefinition ORDER BY Id") as Hsoql
    by (vm_compute; reflexivity).
  assert (queryWithAPIVersion (NewQuery TableNameBotDefinition []) "" AgentforceAPIVersion w
    = (Returns ([], "", t_rateLimit t',
         Some (EWrap "baton-salesforce: query failed (API v60.0): " (response_error resp message code))), w''))
    as Hrun.
  { unfold queryWithAPIVersion. rewrite (init_bind_online client) by done. cbn [String.eqb].
    rewrite Hsoql. erewrite (GoM_bind_run _ _ w agents_path w) by reflexivity.
    rewrite (GoM_bind_run _ _ _ _ _ Hon). by rewrite (GoM_bind_run _ _ _ _ _ Hrate). }
  unfold GetBotDefinitions. rewrite (GoM_bind_run _ _ _ _ _ Hrun). cbn beta iota.
  eexists. unfold isSObjectNotSupportedError. cbn [errors_As_Salesforce response_error].
  destruct (String.eqb code "INVALID_TYPE") eqn:Ec.
  all: cbn; rewrite ?Ec; split; [reflexivity|exact Hlog].
Qed.

(** C33: looking for a user that was just created asks at most three times, each time
    with the same query, and comes back with a user or an error, never with
    neither. *)
Theorem GetUserByEmailWithRetry_bounded `{Env} client email w :
  online client w -> isLoggedIn client = true -> url_ok client = true ->
  (exists k, k <= 3 /\ w_log (GetUserByEmailWithRetry email w).2
                      = w_log w ++ replicate k (by_email_request client email))
  /\ (forall user err w', GetUserByEmailWithRetry email w = (Returns (user, err), w') ->
        err = None -> user <> None).
Proof.
  intros Hw Hl Hurl. split.
  - by apply asks_attempts.
  - intros user err w' Hrun. exact (get_user_attempts_found _ _ _ _ _ Hrun).
Qed.

Section GetUserLogins_witness.
#[local] Existing Instance tape_env.

Definition two_empty_pages : World := tape_world [ok_json (page_json [] true ""); ok_json (page_json [] true "")].

Lemma GetUserLoginsByUserIDs_requests_witness :
  length (chunks userLoginInClauseChunkSize (repeat "005A" 251)) = 2
  /\ concat (chunks userLoginInClauseChunkSize ["005A"; "005B"]) = ["005A"; "005B"]
  /\ w_log (GetUserLoginsByUserIDs (repeat "005A" 251) two_empty_pages).2
     = map (chunk_request sf_client) [repeat "005A" 250; ["005A"]].
Proof.
  assert (forall w, online (H:=tape_env) sf_client (tape_world w)) as Hw by (intros w; vm_compute; eauto).
  split; [|split].
  - exact (proj1 (proj2 (proj2 (GetUserLoginsByUserIDs_requests sf_client (repeat "005A" 251)
      (tape_world []) (Hw []) eq_refl eq_refl)))).
  - exact (proj1 (GetUserLoginsByUserIDs_requests sf_client ["005A"; "005B"] (tape_world [])
      (Hw []) eq_refl eq_refl)).
  - destruct (GetUserLoginsByUserIDs_requests sf_client (repeat "005A" 251) two_empty_pages (Hw _) eq_refl eq_refl)
      as (_ & _ & _ & _ & sent & _ & Hlog & Hall).
    rewrite Hlog, (Hall ∅ None (GetUserLoginsByUserIDs (repeat "005A" 251) two_empty_pages).2); [reflexivity|]. reads.
Defined.
End GetUserLogins_witness.

Section reads_witness.
#[local] Existing Instance tape_env.

Definition user_json (id typ : string) (active : bool) : json :=
  JObj [("Id", JStr id); ("Email", JStr (id +:+ "@x.io")); ("Username", JStr (id +:+ "@x")); ("FirstName", JStr "Ann");
        ("LastName", JStr "Lee"); ("UserType", JStr typ); ("IsActive", JBool active); ("LastLoginDate", JStr "");
        ("Profile", JObj [("UserLicense", JObj [("LicenseDefinitionKey", JStr "SFDC")])])].
Definition listed_world : World := tape_world [ok_json (page_json
  [user_json "005A" "Standard" true; user_json "005B" "Standard" false; user_json "005C" "Guest" true] true "")].
Definition listed_users : list SalesforceUser :=
  match (GetUsers "" 100 false false listed_world).1 with Returns (listed_users, _, _, _) => listed_users | _ => [] end.

Lemma GetUsers_filter_witness :
  exists records, Forall2 user_from (filter (fun r => kept_user false false r = true) records) listed_users
    /\ map u_ID listed_users = ["005A"] /\ map u_Username listed_users = ["005A@x"]
    /\ map u_LicenseDefinitionKey listed_users = ["SFDC"].
Proof.
  destruct (GetUsers_filter "" 100 false false listed_world listed_users "" None (GetUsers "" 100 false false listed_world).2)
    as (records & _ & _ & Hl); [vm_compute; reflexivity|].
  exists records. split; [exact Hl|]. split; [vm_compute; reflexivity|]. split; vm_compute; reflexivity.
Defined.

Definition agents_refusal : http_response :=
  json_response 400 "400 Bad Request" (error_json "sObject type 'BotDefinition' is not supported." "INVALID_TYPE").
Definition plain_transport : salesforceHttpTransport := {| t_rateLimit := None; t_tokenSource := false |}.

Lemma GetBotDefinitions_unsupported_witness :
  (GetBotDefinitions "" (tape_world [inr agents_refusal])).1 = Returns ([], "", None, None).
Proof.
  destruct (GetBotDefinitions_unsupported sf_client (tape_world [inr agents_refusal]) plain_transport plain_transport agents_refusal
    (Some (EStatus InvalidArgument "400 Bad Request"))
    (@Build_World tape_env [] tape_client
       [client_request sf_client MethodGet (query_url sf_client agents_path) NoBody])
    "sObject type 'BotDefinition' is not supported." "INVALID_TYPE" []) as (err & Hrun & _);
    [vm_compute; eauto|reflexivity..|].
  exact Hrun.
Defined.

Definition no_user_page : go_error + http_response := ok_json (page_json [] true "").

Lemma GetUserByEmailWithRetry_bounded_witness :
  let w := tape_world [no_user_page; no_user_page; no_user_page; no_user_page] in
  (exists k, k <= 3 /\ w_log (GetUserByEmailWithRetry "a@x.io" w).2
                      = replicate k (by_email_request sf_client "a@x.io"))
  /\ length (w_log (GetUserByEmailWithRetry "a@x.io" w).2) = 3.
Proof.
  intros w. split; [|vm_compute; reflexivity].
  refine (proj1 (GetUserByEmailWithRetry_bounded sf_client "a@x.io" w _ _ _));
    [vm_compute; eauto|reflexivity|reflexivity].
Defined.
End reads_witness.
