(* ===== verification/ClientWrites.v ===== *)
(** * The writes of the Salesforce client

    Memberships, assignments, profiles, roles, territories and account creation
    of [client/salesforce.go] and [client/user.go], over the create, update and
    delete helpers of [Client]. *)
From S2P Require Export ClientReads.

(** [map[string]interface{}] literals. *)
Definition fields_of (l : list (string * string)) : gmap string value :=
  list_to_map (prod_map id VString <$> l).

Record UserCreateRequest := {
  ucr_Email : string; ucr_Alias : string; ucr_LastName : string; ucr_FirstName : string;
  ucr_ProfileId : string; ucr_TimeZoneSid : string; ucr_ContactID : string;
  ucr_ExtraFields : gmap string value;
}.

(** The three layers of [CreateUser]'s record: defaults, extra fields over them,
    core fields over both. *)
Definition default_user_fields : gmap string value :=
  fields_of [("EmailEncodingKey", "UTF-8"); ("LocaleSidKey", "en_US"); ("LanguageLocaleKey", "en_US")].

Definition core_user_fields (request : UserCreateRequest) : list (string * string) :=
  [("Username", ucr_Email request); ("Alias", ucr_Alias request); ("Email", ucr_Email request);
   ("LastName", ucr_LastName request); ("FirstName", ucr_FirstName request);
   ("TimeZoneSidKey", ucr_TimeZoneSid request); ("ProfileId", ucr_ProfileId request)]
  ++ (if String.eqb (ucr_ContactID request) "" then [] else [("ContactId", ucr_ContactID request)]).

Definition create_user_fields (request : UserCreateRequest) : gmap string value :=
  let userData := default_user_fields in
  let userData := foldl (fun m kv => <[kv.1 := kv.2]> m) userData
                    (map_to_list (ucr_ExtraFields request)) in
  foldl (fun m kv => <[kv.1 := VString kv.2]> m) userData (core_user_fields request).

(** [fmt.Sprintf(ResetPasswordPath, userId)]. *)
Definition ResetPasswordPath (userId : string) : string :=
  "/services/data/v64.0/sobjects/User/" +:+ userId +:+ "/password".

Section writes.
Context `{Env}.

Abbreviation M := (GoM World).
Abbreviation RL := (option RateLimitDescription).

Definition AddUserToGroup (userId groupId : string) : M (RL * error) :=
  CreateObject TableNameGroupMemberships (fields_of [("GroupId", groupId); ("UserOrGroupId", userId)]).

Definition RemoveUserFromGroup (userId groupId : string) : M (bool * RL * error) :=
  '(found, ratelimitData, err) ← getGroupMembership userId groupId;
  match err, found with
  | Some err, _ =>
      if errors_Is err ErrObjectNotFound then mret (false, ratelimitData, None)
      else mret (false, ratelimitData, Some err)
  | None, None => go_panic nil_dereference
  | None, Some found =>
      '(ratelimitData, err) ← DeleteObject TableNameGroupMemberships (SObject_ID found);
      mret (true, ratelimitData, err)
  end.

Definition AddUserToPermissionSet (userId permissionSetId : string) : M (RL * error) :=
  CreateObject TableNamePermissionAssignments
    (fields_of [("AssigneeId", userId); ("PermissionSetId", permissionSetId)]).

Definition RemoveUserFromPermissionSet (userId permissionSetId : string) : M (RL * error) :=
  '(found, ratelimitData, err) ← getPermissionSetAssignment userId permissionSetId;
  match err, found with
  | Some err, _ => mret (ratelimitData, Some err)
  | None, None => go_panic nil_dereference
  | None, Some found => DeleteObject TableNamePermissionAssignments (SObject_ID found)
  end.

Definition AddUserToProfile (userId profileId : string) : M (RL * error) :=
  setOneValue userId "ProfileId" profileId.

Definition SetNewUserProfile (userId profileId : string) : M (RL * error) :=
  setOneValue userId "ProfileId" profileId.

Definition AddUserToRole (userId roleId : string) : M (RL * error) :=
  setValue userId "UserRoleId" roleId.

Definition RemoveUserFromRole (userId roleId : string) : M (RL * error) :=
  clearValue userId "UserRoleId" roleId.

Definition SetUserActiveState (userId : string) (active : bool) : M (RL * error) :=
  setOneValue userId "IsActive" (strconv_FormatBool active).

Definition AddUserToPermissionSetGroup (userId permissionSetGroupId : string) : M (RL * error) :=
  CreateObject TableNamePermissionAssignments
    (fields_of [("AssigneeId", userId); ("PermissionSetGroupId", permissionSetGroupId)]).

Definition RemoveUserFromPermissionSetGroup (assignmentID : string) : M (RL * error) :=
  DeleteObject TableNamePermissionAssignments assignmentID.

(** A create of which the duplicate is told apart. *)
Definition create_association (values : gmap string value) : M (RL * error) :=
  '(ratelimitData, err) ← CreateObject TableNameUserTerritory2Assoc values;
  match err with
  | Some err =>
      if isSalesforceDuplicateError err then mret (ratelimitData, Some (ESentinel ErrObjectAlreadyExists))
      else mret (ratelimitData, Some err)
  | None => mret (ratelimitData, None)
  end.

Definition AddUserToTerritory (userID territoryID : string) : M (RL * error) :=
  create_association (fields_of [("UserId", userID); ("Territory2Id", territoryID)]).

Definition AddUserToTerritoryWithRole (userID territoryID role : string) : M (RL * error) :=
  create_association
    (fields_of [("UserId", userID); ("Territory2Id", territoryID); ("RoleInTerritory2", role)]).

Definition RemoveUserFromTerritory (userID territoryID : string) : M (RL * error) :=
  '(record, ratelimitData, err) ← getSObject (territory_assoc_query userID territoryID);
  match err, record with
  | Some err, _ => mret (ratelimitData, Some err)
  | None, None => go_panic nil_dereference
  | None, Some record => DeleteObject TableNameUserTerritory2Assoc (SObject_ID record)
  end.

Definition SetUserTerritoryRole (assocID role : string) : M (RL * error) :=
  UpdateObject TableNameUserTerritory2Assoc assocID (fields_of [("RoleInTerritory2", role)]).

Definition ClearUserTerritoryRole (userID territoryID expectedRole : string) : M (RL * error) :=
  '(record, ratelimitData, err) ← getSObject (territory_assoc_query userID territoryID);
  match err, record with
  | Some err, _ => mret (ratelimitData, Some err)
  | None, None => go_panic nil_dereference
  | None, Some record =>
      let currentRole := StringField record "RoleInTerritory2" in
      if String.eqb currentRole "" then mret (ratelimitData, Some (ESentinel ErrRoleAlreadyCleared))
      else if negb (String.eqb currentRole expectedRole) then
        mret (ratelimitData, Some (ESentinel ErrRoleMismatch))
      else
        UpdateObject TableNameUserTerritory2Assoc (SObject_ID record)
          (fields_of [("RoleInTerritory2", "")])
  end.

(** [time.LoadLocation]: whether there is such a location. *)
Fixpoint contains_dot_dot (s : string) : bool :=
  strings_HasPrefix s ".." || match s with "" => false | String _ s' => contains_dot_dot s' end.

Definition time_LoadLocation (name : string) : bool :=
  if bool_decide (name ∈ [""; "UTC"; "Local"]) then true
  else if contains_dot_dot name || strings_HasPrefix name "/" || strings_HasPrefix name "\" then false
  else env_zoneinfo name.

Definition CreateUser (request : UserCreateRequest) : M error :=
  if negb (mail_ParseAddress (ucr_Email request)) then
    mret (Some (EWrap "baton-salesforce: invalid user email: " (EMsg "mail: invalid address")))
  else if negb (time_LoadLocation (ucr_TimeZoneSid request)) then
    mret (Some (EWrap "baton-salesforce: invalid timezone: " (EMsg "unknown time zone")))
  else
    '(_, err) ← CreateObject TableNameUsers (create_user_fields request);
    mret err.

(** The client is used as it is: it is not initialized here. *)
Definition SendResetPasswordEmail (userId : string) : M error :=
  '(err, _) ← on_client (fun client t =>
    ApexREST client t MethodDelete (ResetPasswordPath userId) NoBody);
  mret err.
End writes.

(** ** Every write keeps the client's invariant *)

Section runs_writes.
Context `{Env} (P : http_request -> Prop) (Hreads : forall req, reads_only req -> P req).
Context (Hpost : forall req, req_method req = MethodPost -> P req)
  (Hpatch : forall req, req_method req = MethodPatch -> P req)
  (Hdelete : forall req, req_method req = MethodDelete -> P req).

Lemma runs_AddUserToGroup u g : moves (runs P) (AddUserToGroup u g).
Proof. unfold AddUserToGroup. walk. Qed.

Lemma runs_RemoveUserFromGroup u g : moves (runs P) (RemoveUserFromGroup u g).
Proof. unfold RemoveUserFromGroup. walk. Qed.

Lemma runs_AddUserToPermissionSet u p : moves (runs P) (AddUserToPermissionSet u p).
Proof. unfold AddUserToPermissionSet. walk. Qed.

Lemma runs_RemoveUserFromPermissionSet u p : moves (runs P) (RemoveUserFromPermissionSet u p).
Proof. unfold RemoveUserFromPermissionSet. walk. Qed.

Lemma runs_AddUserToProfile u p : moves (runs P) (AddUserToProfile u p).
Proof. unfold AddUserToProfile. walk. Qed.

Lemma runs_SetNewUserProfile u p : moves (runs P) (SetNewUserProfile u p).
Proof. unfold SetNewUserProfile. walk. Qed.

Lemma runs_AddUserToRole u r : moves (runs P) (AddUserToRole u r).
Proof. unfold AddUserToRole. walk. Qed.

Lemma runs_RemoveUserFromRole u r : moves (runs P) (RemoveUserFromRole u r).
Proof. unfold RemoveUserFromRole. walk. Qed.

Lemma runs_SetUserActiveState u b : moves (runs P) (SetUserActiveState u b).
Proof. unfold SetUserActiveState. walk. Qed.

Lemma runs_AddUserToPermissionSetGroup u p : moves (runs P) (AddUserToPermissionSetGroup u p).
Proof. unfold AddUserToPermissionSetGroup. walk. Qed.

Lemma runs_RemoveUserFromPermissionSetGroup a : moves (runs P) (RemoveUserFromPermissionSetGroup a).
Proof. unfold RemoveUserFromPermissionSetGroup. walk. Qed.

Lemma runs_create_association v : moves (runs P) (create_association v).
Proof. unfold create_association. walk. Qed.

Lemma runs_AddUserToTerritory u t : moves (runs P) (AddUserToTerritory u t).
Proof. unfold AddUserToTerritory. pose proof runs_create_association. walk. Qed.

Lemma runs_AddUserToTerritoryWithRole u t r : moves (runs P) (AddUserToTerritoryWithRole u t r).
Proof. unfold AddUserToTerritoryWithRole. pose proof runs_create_association. walk. Qed.

Lemma runs_RemoveUserFromTerritory u t : moves (runs P) (RemoveUserFromTerritory u t).
Proof. unfold RemoveUserFromTerritory. walk. Qed.

Lemma runs_SetUserTerritoryRole a r : moves (runs P) (SetUserTerritoryRole a r).
Proof. unfold SetUserTerritoryRole. walk. Qed.

Lemma runs_ClearUserTerritoryRole u t r : moves (runs P) (ClearUserTerritoryRole u t r).
Proof. unfold ClearUserTerritoryRole. walk. Qed.

Lemma runs_CreateUser req : moves (runs P) (CreateUser req).
Proof. unfold CreateUser. walk. Qed.

Lemma runs_SendResetPasswordEmail u : moves (runs P) (SendResetPasswordEmail u).
Proof. unfold SendResetPasswordEmail. walk. apply runs_on_client. intros. apply logs_ApexREST; auto. Qed.

End runs_writes.

#[export] Hint Resolve runs_AddUserToGroup runs_RemoveUserFromGroup runs_AddUserToPermissionSet
  runs_RemoveUserFromPermissionSet runs_AddUserToProfile runs_SetNewUserProfile
  runs_AddUserToRole runs_RemoveUserFromRole runs_SetUserActiveState
  runs_AddUserToPermissionSetGroup runs_RemoveUserFromPermissionSetGroup runs_create_association
  runs_AddUserToTerritory runs_AddUserToTerritoryWithRole runs_RemoveUserFromTerritory
  runs_SetUserTerritoryRole runs_ClearUserTerritoryRole runs_CreateUser
  runs_SendResetPasswordEmail : golog.

(** ** What the writes send *)

Lemma fields_of_elem l key v : fields_of l !! key = Some v -> exists s, v = VString s /\ (key, s) ∈ l.
Proof.
  unfold fields_of. intros (y & Hv & Hin)%elem_of_list_to_map_2%list_elem_of_fmap.
  destruct y as [k s]. simplify_eq/=. eauto.
Qed.

Lemma fields_of_plain l : Forall plain_field l.*1 -> plain_fields (fields_of l).
Proof.
  intros Hl key v (s & _ & Hin)%fields_of_elem. rewrite Forall_forall in Hl. apply Hl.
  apply list_elem_of_fmap. by exists (key, s).
Qed.

Lemma json_Marshal_ok_strings m :
  (forall key v, m !! key = Some v -> exists s, v = VString s) -> json_Marshal_ok m = true.
Proof.
  intros Hm. unfold json_Marshal_ok. apply forallb_forall. intros [key v] Hin.
  apply list_elem_of_In, elem_of_map_to_list in Hin. by destruct (Hm _ _ Hin) as [s ->].
Qed.

Lemma fields_of_Marshal l : json_Marshal_ok (fields_of l) = true.
Proof. apply json_Marshal_ok_strings. intros key v (s & -> & _)%fields_of_elem. eauto. Qed.

Ltac plain_keys := apply (bool_decide_unpack _); vm_compute; exact I.

Section writes_log.
Context `{Env} (client : simple_client) (Hok : url_ok client = true).

Definition post_request (t : string) (fields : gmap string value) : http_request :=
  client_request client MethodPost (makeURL client ("sobjects/" +:+ t +:+ "/")) (JsonBody fields).
Definition patch_request (t id : string) (fields : gmap string value) : http_request :=
  client_request client MethodPatch (makeURL client ("sobjects/" +:+ t +:+ "/" +:+ id)) (JsonBody fields).
Definition delete_request (t id : string) : http_request :=
  client_request client MethodDelete (makeURL client ("sobjects/" +:+ t +:+ "/" +:+ id)) NoBody.

Lemma CreateObject_fields_log t l w :
  online client w -> t <> "" -> path_safe t = true -> Forall plain_field l.*1 ->
  w_log (CreateObject t (fields_of l) w).2 = w_log w ++ [post_request t (fields_of l)].
Proof.
  intros Hw Ht Hts Hl. apply CreateObject_log; [done| |apply fields_of_Marshal|done|url_parses].
  by apply fields_of_plain.
Qed.

Lemma create_association_log l w :
  online client w -> Forall plain_field l.*1 ->
  w_log (create_association (fields_of l) w).2
  = w_log w ++ [post_request TableNameUserTerritory2Assoc (fields_of l)].
Proof.
  intros Hw Hl. unfold create_association. rewrite bind_quiet by walk. by apply CreateObject_fields_log.
Qed.

Lemma SetUserTerritoryRole_log id role w :
  online client w -> id <> "" -> path_safe id = true ->
  w_log (SetUserTerritoryRole id role w).2
  = w_log w ++ [patch_request TableNameUserTerritory2Assoc id (fields_of [("RoleInTerritory2", role)])].
Proof.
  intros Hw Hid Hids. apply UpdateObject_log; try done; [|url_parses].
  apply fields_of_plain. simpl. plain_keys.
Qed.
End writes_log.

(** The record of [CreateUser]: core fields over extra fields over defaults. *)
Lemma create_user_fields_layers request :
  create_user_fields request
  = fields_of (core_user_fields request) ∪ (ucr_ExtraFields request ∪ default_user_fields).
Proof.
  unfold create_user_fields.
  change (foldl (fun m kv => <[kv.1 := kv.2]> m) default_user_fields (map_to_list (ucr_ExtraFields request)))
    with (set_all (map_to_list (ucr_ExtraFields request)) default_user_fields).
  rewrite (set_all_values _ (ucr_ExtraFields request)) by done. unfold fields_of.
  rewrite <-set_all_union.
  - unfold set_all. generalize (ucr_ExtraFields request ∪ default_user_fields).
    induction (core_user_fields request) as [|kv l IH]; intros m; simpl; [done|]. apply IH.
  - rewrite <-list_fmap_compose. unfold core_user_fields.
    destruct (String.eqb (ucr_ContactID request) ""); plain_keys.
Qed.

Lemma core_user_fields_plain request : Forall plain_field (core_user_fields request).*1.
Proof. unfold core_user_fields. destruct (String.eqb (ucr_ContactID request) ""); plain_keys. Qed.

Lemma create_user_fields_plain request :
  plain_fields (ucr_ExtraFields request) -> plain_fields (create_user_fields request).
Proof.
  intros Hextra. rewrite create_user_fields_layers.
  apply map_Forall_union_2; [apply fields_of_plain, core_user_fields_plain|].
  apply map_Forall_union_2; [done|]. apply fields_of_plain. simpl. plain_keys.
Qed.

(** What [CreateUser] sends. *)
Lemma CreateUser_sends `{Env} client request w :
  online client w -> url_ok client = true ->
  plain_fields (ucr_ExtraFields request) -> json_Marshal_ok (create_user_fields request) = true ->
  if mail_ParseAddress (ucr_Email request) && time_LoadLocation (ucr_TimeZoneSid request)
  then w_log (CreateUser request w).2 = w_log w ++ [post_request client "User" (create_user_fields request)]
  else exists err, CreateUser request w = (Returns (Some err), w).
Proof.
  intros Hw Hok Hextra Hmarshal. unfold CreateUser.
  destruct (mail_ParseAddress _), (time_LoadLocation _); simpl; [|eauto..].
  rewrite bind_quiet by walk. apply CreateObject_log; [done|by apply create_user_fields_plain|done|done|url_parses].
Qed.

(** ** Properties *)

(** Every membership and assignment the connector writes is one request with
    exactly the linking fields: who goes under which field of which object. *)
Theorem membership_requests `{Env} client w u x role assoc :
  online client w -> url_ok client = true -> assoc <> "" -> path_safe assoc = true ->
  w_log (AddUserToGroup u x w).2
    = w_log w ++ [post_request client "GroupMember"
                    {["GroupId" := VString x; "UserOrGroupId" := VString u]}]
  /\ w_log (AddUserToPermissionSet u x w).2
    = w_log w ++ [post_request client "PermissionSetAssignment"
                    {["AssigneeId" := VString u; "PermissionSetId" := VString x]}]
  /\ w_log (AddUserToPermissionSetGroup u x w).2
    = w_log w ++ [post_request client "PermissionSetAssignment"
                    {["AssigneeId" := VString u; "PermissionSetGroupId" := VString x]}]
  /\ w_log (AddUserToTerritory u x w).2
    = w_log w ++ [post_request client "UserTerritory2Association"
                    {["UserId" := VString u; "Territory2Id" := VString x]}]
  /\ w_log (AddUserToTerritoryWithRole u x role w).2
    = w_log w ++ [post_request client "UserTerritory2Association"
                    {["UserId" := VString u; "Territory2Id" := VString x;
                      "RoleInTerritory2" := VString role]}]
  /\ w_log (SetUserTerritoryRole assoc role w).2
    = w_log w ++ [patch_request client "UserTerritory2Association" assoc
                    {["RoleInTerritory2" := VString role]}]
  /\ w_log (RemoveUserFromPermissionSetGroup assoc w).2
    = w_log w ++ [delete_request client "PermissionSetAssignment" assoc].
Proof.
  intros Hw Hok Ha Has. split_and!.
  1-3: apply CreateObject_fields_log; [done..|simpl; plain_keys].
  1-2: apply create_association_log; [done..|simpl; plain_keys].
  - by apply SetUserTerritoryRole_log.
  - apply DeleteObject_log; [done..|url_parses].
Qed.

(** C25: [CreateUser] sends nothing for an address or a time zone that does not
    parse; otherwise it sends one record in which the core fields always win
    (the user name is the e-mail, the contact is there exactly when given) and
    an extra field only overrides a default. *)
Theorem CreateUser_request `{Env} client request w :
  online client w -> url_ok client = true ->
  plain_fields (ucr_ExtraFields request) -> json_Marshal_ok (create_user_fields request) = true ->
  let sent := create_user_fields request in
  (forall key s, (key, s) ∈ core_user_fields request -> sent !! key = Some (VString s))
  /\ (forall key, key ∉ (core_user_fields request).*1 ->
       sent !! key = match ucr_ExtraFields request !! key with
                     | Some v => Some v
                     | None => default_user_fields !! key
                     end)
  /\ (if mail_ParseAddress (ucr_Email request) && time_LoadLocation (ucr_TimeZoneSid request)
      then w_log (CreateUser request w).2 = w_log w ++ [post_request client "User" sent]
      else exists err, CreateUser request w = (Returns (Some err), w)).
Proof.
  intros Hw Hok Hextra Hmarshal sent. unfold sent. rewrite create_user_fields_layers.
  assert (NoDup (core_user_fields request).*1) as Hnd.
  { unfold core_user_fields. destruct (String.eqb (ucr_ContactID request) ""); plain_keys. }
  split_and!.
  - intros key s Hin. apply lookup_union_Some_l. unfold fields_of. apply elem_of_list_to_map_1.
    + by rewrite <-list_fmap_compose.
    + apply list_elem_of_fmap. by exists (key, s).
  - intros key Hk. rewrite lookup_union_r.
    + by rewrite lookup_union; destruct (ucr_ExtraFields request !! key), (default_user_fields !! key).
    + apply not_elem_of_list_to_map_1. by rewrite <-list_fmap_compose.
  - rewrite <-create_user_fields_layers. by apply CreateUser_sends.
Qed.

Section writes_witness.
#[local] Existing Instance tape_env.

Lemma membership_requests_witness :
  w_log (AddUserToGroup "005A" "00G1" (tape_world [])).2
  = [post_request sf_client "GroupMember" {["GroupId" := VString "00G1"; "UserOrGroupId" := VString "005A"]}].
Proof.
  refine (proj1 (membership_requests sf_client (tape_world []) "005A" "00G1" "" "0Ma1" _ _ _ _)).
  - vm_compute. eauto.
  - reflexivity.
  - discriminate.
  - reflexivity.
Defined.

(** A contact, and an extra field for a default and for a core field. *)
Definition contact_request : UserCreateRequest :=
  {| ucr_Email := "a@x.io"; ucr_Alias := "al"; ucr_LastName := "L"; ucr_FirstName := "F";
     ucr_ProfileId := "00e1"; ucr_TimeZoneSid := "UTC"; ucr_ContactID := "003A";
     ucr_ExtraFields := {["LocaleSidKey" := VString "de_DE"; "Username" := VString "x"]} |}.

Lemma CreateUser_request_witness :
  create_user_fields contact_request !! "Username" = Some (VString "a@x.io")
  /\ create_user_fields contact_request !! "LocaleSidKey" = Some (VString "de_DE")
  /\ w_log (CreateUser contact_request (tape_world [])).2 = [post_request sf_client "User" (create_user_fields contact_request)].
Proof.
  assert (online sf_client (tape_world [])) as Hw by (vm_compute; eauto).
  assert (plain_fields (ucr_ExtraFields contact_request)) as Hp by plain_keys.
  assert (json_Marshal_ok (create_user_fields contact_request) = true) as Hm by (vm_compute; reflexivity).
  destruct (CreateUser_request sf_client contact_request (tape_world []) Hw eq_refl Hp Hm)
    as (Hcore & Hrest & Hlog).
  split_and!; [apply Hcore|rewrite Hrest|exact Hlog].
  - apply list_elem_of_In. simpl. auto.
  - vm_compute. reflexivity.
  - plain_keys.
Defined.
End writes_witness.
