(* ===== verification/Sdk.v ===== *)
(** * The SDK's vocabulary: resources, entitlements, grants, syncers

    The part of the baton-sdk's data and constructors the connector fills in
    ([types/resource], [types/entitlement], [types/grant], [annotations]), the
    resource types of [pkg/connector/resource_types.go], and the interfaces a
    resource builder implements.  A resource always has its id; strings that came
    out of a JSON document are valid UTF-8, on which the SDK's constructors do not
    fail. *)
From S2P Require Export ClientWrites.

Record ResourceId := { rid_ResourceType : string; rid_Resource : string }.

#[export] Instance ResourceId_eq_dec : EqDecision ResourceId.
Proof. solve_decision. Defined.

(** [v2.ResourceType]. *)
Inductive rt_trait := TRAIT_USER | TRAIT_GROUP | TRAIT_ROLE | TRAIT_APP | TRAIT_AGENT.

Inductive rt_annotation :=
| SkipEntitlements
| SkipEntitlementsAndGrants
| OptInRequired
| CapabilityPermissions (perms : list string).

Record ResourceType := {
  rt_Id : string; rt_DisplayName : string; rt_Description : string;
  rt_Traits : list rt_trait; rt_Annotations : list rt_annotation;
}.

(** User traits. *)
Inductive user_status := STATUS_ENABLED | STATUS_DISABLED.
Inductive account_type := ACCOUNT_TYPE_HUMAN | ACCOUNT_TYPE_SERVICE.

#[export] Instance account_type_eq_dec : EqDecision account_type.
Proof. solve_decision. Defined.

Record UserTrait := {
  ut_Profile : gmap string string;
  ut_Emails : list (string * bool);      (* address, primary *)
  ut_Status : user_status;
  ut_Login : string;
  ut_AccountType : account_type;
  ut_LastLogin : option go_time;
}.

Inductive resource_trait :=
| NoTrait
| TUser (u : UserTrait)
| TGroup
| TRole
| TApp (nhi_detail : string)                     (* with its non-human identity type *)
| TAgent (profile : gmap string string) (identity : option ResourceId).

Record Resource := {
  res_Id : ResourceId; res_DisplayName : string; res_Parent : option ResourceId;
  res_Trait : resource_trait;
}.

Record Entitlement := {
  ent_Id : string; ent_DisplayName : string; ent_Slug : string; ent_Description : string;
  ent_GrantableTo : list string; ent_Resource : option Resource;
}.

Record Grant := {
  grant_Id : string; grant_Entitlement : Entitlement; grant_Principal : ResourceId;
  grant_Expandable : option (list string);       (* GrantExpandable's entitlement ids *)
}.

(** ** Constructors *)

Definition NewResource (name : string) (rt : ResourceType) (objectID : string)
    (parent : option ResourceId) (trait : resource_trait) : Resource :=
  {| res_Id := {| rid_ResourceType := rt_Id rt; rid_Resource := objectID |};
     res_DisplayName := name; res_Parent := parent; res_Trait := trait |}.

(** A nil resource reads as one with empty ids. *)
Definition NewEntitlementID (resource : option Resource) (permission : string) : string :=
  match resource with
  | Some r => rid_ResourceType (res_Id r) +:+ ":" +:+ rid_Resource (res_Id r) +:+ ":" +:+ permission
  | None => ":" +:+ ":" +:+ permission
  end.

Definition NewAssignmentEntitlement (resource : option Resource) (name : string)
    (grantableTo : list ResourceType) (displayName description : string) : Entitlement :=
  {| ent_Id := NewEntitlementID resource name; ent_DisplayName := displayName; ent_Slug := name;
     ent_Description := description; ent_GrantableTo := map rt_Id grantableTo;
     ent_Resource := resource |}.

(** [grant.NewGrant]; its entitlement carries the id and the resource only. *)
Definition NewGrantWith (expandable : option (list string)) (resource : Resource)
    (entitlementName : string) (principal : ResourceId) : Grant :=
  let entitlement :=
    {| ent_Id := NewEntitlementID (Some resource) entitlementName; ent_DisplayName := "";
       ent_Slug := ""; ent_Description := ""; ent_GrantableTo := []; ent_Resource := Some resource |} in
  {| grant_Id := ent_Id entitlement +:+ ":" +:+ rid_ResourceType principal +:+ ":" +:+ rid_Resource principal;
     grant_Entitlement := entitlement; grant_Principal := principal; grant_Expandable := expandable |}.

Definition NewGrant := NewGrantWith None.

(** [NewUserTrait] over the options [userResource] passes. *)
Definition NewUserTrait (profile : gmap string string) (email : string) (status : user_status)
    (login : string) (accountType : account_type) (lastLogin : option go_time) : UserTrait :=
  {| ut_Profile := profile; ut_Emails := if String.eqb email "" then [] else [(email, true)];
     ut_Status := status; ut_Login := login; ut_AccountType := accountType;
     ut_LastLogin := lastLogin |}.

(** ** Resource types *)

Definition capabilityPermissions (perms : list string) : rt_annotation := CapabilityPermissions perms.

Definition annotationsForUserResourceType : list rt_annotation := [SkipEntitlementsAndGrants].

Definition resourceTypeGroup : ResourceType :=
  {| rt_Id := "group"; rt_DisplayName := "Group"; rt_Description := "";
     rt_Traits := [TRAIT_GROUP]; rt_Annotations := [] |}.
Definition resourceTypePermissionSet : ResourceType :=
  {| rt_Id := "permission"; rt_DisplayName := "Permission Set"; rt_Description := "";
     rt_Traits := []; rt_Annotations := [] |}.
Definition resourceTypeRole : ResourceType :=
  {| rt_Id := "role"; rt_DisplayName := "Role"; rt_Description := "";
     rt_Traits := [TRAIT_ROLE]; rt_Annotations := [] |}.
Definition resourceTypeProfile : ResourceType :=
  {| rt_Id := "profile"; rt_DisplayName := "Profile"; rt_Description := "";
     rt_Traits := []; rt_Annotations := [] |}.
Definition resourceTypeUser : ResourceType :=
  {| rt_Id := "user"; rt_DisplayName := "User"; rt_Description := "";
     rt_Traits := [TRAIT_USER]; rt_Annotations := annotationsForUserResourceType |}.
Definition resourceTypePermissionSetGroup : ResourceType :=
  {| rt_Id := "permission_set_group"; rt_DisplayName := "Permission Set Group"; rt_Description := "";
     rt_Traits := []; rt_Annotations := [] |}.
Definition resourceTypeConnectedApplication : ResourceType :=
  {| rt_Id := "connected_application"; rt_DisplayName := "Connected Application";
     rt_Description := ""; rt_Traits := [TRAIT_APP]; rt_Annotations := [] |}.
Definition resourceTypeTerritory : ResourceType :=
  {| rt_Id := "territory"; rt_DisplayName := "Territory";
     rt_Description := "Requires Enterprise Territory Management 2.0 to be enabled in Salesforce.";
     rt_Traits := []; rt_Annotations := [SkipEntitlements; OptInRequired] |}.
Definition resourceTypeAgent : ResourceType :=
  {| rt_Id := "agent"; rt_DisplayName := "Agent";
     rt_Description := "Agentforce agents and Einstein Bots (BotDefinition). Requires Agentforce or Einstein Bots to be enabled in Salesforce.";
     rt_Traits := [TRAIT_AGENT];
     rt_Annotations := [SkipEntitlementsAndGrants; OptInRequired;
       capabilityPermissions ["Agentforce agents or Einstein Bots (BotDefinition)"]] |}.

(** The user a membership or an assignment belongs to. *)
Definition user_principal (id : string) : ResourceId :=
  {| rid_ResourceType := rt_Id resourceTypeUser; rid_Resource := id |}.

(** Whether a principal is a user. *)
Definition is_user (principal : ResourceId) : bool :=
  String.eqb (rid_ResourceType principal) (rt_Id resourceTypeUser).

(** ** Syncers *)

(** [attrs.PageToken]. *)
Record PageToken := { pt_Token : string; pt_Size : Z }.

Record SyncOpResults := { so_NextPageToken : string; so_Annotations : annotations }.

(** What a sync call hands back; the results may be nil. *)
Definition synced (A : Type) : Type := (list A * option SyncOpResults * error).

Definition sync_failed {A} (annos : annotations) (err : go_error) : synced A :=
  ([], Some {| so_NextPageToken := ""; so_Annotations := annos |}, Some err).

Definition sync_page {A} (l : list A) (nextToken : string) (annos : annotations) : synced A :=
  (l, Some {| so_NextPageToken := nextToken; so_Annotations := annos |}, None).

(** [connectorbuilder.ResourceSyncerV2], with the [StaticEntitlements] of a syncer
    that has some. *)
Class ResourceSyncer `{Env} (B : Type) := {
  syncer_ResourceType : B -> ResourceType;
  syncer_List : B -> PageToken -> GoM World (synced Resource);
  syncer_Entitlements : B -> Resource -> PageToken -> GoM World (synced Entitlement);
  syncer_Grants : B -> Resource -> PageToken -> GoM World (synced Grant);
  syncer_StaticEntitlements : option (B -> GoM World (synced Entitlement));
}.

(** What the sync may rely on: no call of a syncer changes Salesforce, and each
    keeps the client usable. *)
Class ReadOnlySyncer `{Env} (B : Type) `{!ResourceSyncer B} : Prop := {
  List_reads b pt : moves (runs reads_only) (syncer_List b pt);
  Entitlements_reads b r pt : moves (runs reads_only) (syncer_Entitlements b r pt);
  Grants_reads b r pt : moves (runs reads_only) (syncer_Grants b r pt);
}.

(** What the sync hands on holds together: listed resources are of the syncer's
    type, and a grant is for an entitlement of the resource it was asked for, one
    the syncer offers for that resource.  Static entitlements are offered for all
    resources at once, by their slugs; a grant may still name one that has been
    withdrawn. *)
Class TypedSyncer `{Env} (B : Type) `{!ResourceSyncer B} := {
  static_withdrawn : B -> World -> string -> Prop;
  List_typed b pt :
    returns (fun r : synced Resource =>
      Forall (fun res => rid_ResourceType (res_Id res) = rt_Id (syncer_ResourceType b)) r.1.1)
      (syncer_List b pt);
  Grants_offered b resource pt :
    returns (fun r : synced Grant =>
      Forall (fun g => ent_Resource (grant_Entitlement g) = Some resource
        /\ match syncer_StaticEntitlements with
           | None => forall pt' w ents so err w',
               syncer_Entitlements b resource pt' w = (Returns (ents, so, err), w') ->
               ent_Id (grant_Entitlement g) ∈ map ent_Id ents
           | Some static => exists slug,
               ent_Id (grant_Entitlement g) = NewEntitlementID (Some resource) slug
               /\ forall w ents so w', static b w = (Returns (ents, so, None), w') ->
                    slug ∈ map ent_Slug ents \/ static_withdrawn b w slug
           end) r.1.1)
      (syncer_Grants b resource pt);
}.

(** A page of a client's read, turned into what the sync wants: the shape of most
    calls. *)
Definition sync_read `{Env} {A B} (read : GoM World (list A * string * option RateLimitDescription * error))
    (f : list A -> list B) : GoM World (synced B) :=
  '(l, nextToken, ratelimitData, err) ← read;
  let outputAnnotations := WithRateLimitAnnotations [ratelimitData] in
  match err with
  | Some err => mret (sync_failed outputAnnotations err)
  | None => mret (sync_page (f l) nextToken outputAnnotations)
  end.

Lemma runs_sync_read `{Env} {A B} P (read : GoM World (list A * string * option RateLimitDescription * error))
    (f : list A -> list B) :
  moves (runs P) read -> moves (runs P) (sync_read read f).
Proof. intros H0. unfold sync_read. walk. Qed.
#[export] Hint Resolve runs_sync_read : golog.

Lemma returns_sync_read `{Env} {A B} (Q : B -> Prop)
    (read : GoM World (list A * string * option RateLimitDescription * error)) (f : list A -> list B) :
  (forall l, Forall Q (f l)) -> returns (fun r : synced B => Forall Q r.1.1) (sync_read read f).
Proof.
  intros Hf. unfold sync_read. apply returns_then. intros [[[l next] rl] [err|]]; apply returns_ret; [constructor|apply Hf].
Qed.

Lemma Forall_map_all {A B} (Q : B -> Prop) (f : A -> B) l : (forall a, Q (f a)) -> Forall Q (map f l).
Proof. intros Hf. induction l; by constructor. Qed.
#[export] Hint Resolve returns_sync_read Forall_map_all Forall_nil_2 : golog.

(** A grant for the one entitlement of a resource. *)
Ltac offered := split; [reflexivity|]; intros ? ? ? ? ? ? [= <- <- <- <-]; by left.

(** ** Draining the pages of a call *)

Section pages.
Context `{Env} {A : Type}.

(** The sync loop over a syncer's call from a page token on: these are all the
    items, and the last page has no next token. *)
Inductive sync_pages (call : PageToken -> GoM World (synced A)) (size : Z) :
    string -> World -> list A -> World -> Prop :=
| sync_last tok w l annos w' :
    call {| pt_Token := tok; pt_Size := size |} w = (Returns (sync_page l "" annos), w') ->
    sync_pages call size tok w l w'
| sync_more tok w l next annos w1 l' w' :
    call {| pt_Token := tok; pt_Size := size |} w = (Returns (sync_page l next annos), w1) ->
    next <> "" -> sync_pages call size next w1 l' w' ->
    sync_pages call size tok w (l ++ l') w'.

(** The pages of a client's read, the tokens of which satisfy [ok]. *)
Inductive read_pages (ok : string -> Prop)
    (read : string -> GoM World (list A * string * option RateLimitDescription * error)) :
    string -> World -> list A -> World -> Prop :=
| read_last tok w l rl w' :
    read tok w = (Returns (l, "", rl, None), w') -> read_pages ok read tok w l w'
| read_more tok w l next rl w1 l' w' :
    read tok w = (Returns (l, next, rl, None), w1) -> next <> "" -> ok next ->
    read_pages ok read next w1 l' w' -> read_pages ok read tok w (l ++ l') w'.
End pages.
