(* ===== verification/Users.v ===== *)
(** * Users: [pkg/connector/users.go] and the account schema of [connector.go]

    The user resource and its account type, the user syncer, and account
    provisioning: reading the request, creating or re-enabling the account, and
    deactivating it. *)
From S2P Require Export Sdk.
From Stdlib Require Import SpecFloat.

(** ** The user resource *)

Definition userTypeAutomatedProcess : string := "AutomatedProcess".
Definition userTypeCloudIntegration : string := "CloudIntegrationUser".
Definition agentLicenseKeyPrefix : string := "PID_DigitalAgent".
Definition integrationLicenseKeySuffix : string := "_INTEGRATION_USER".
Definition xOrgProxyLicenseKey : string := "PID_XOrg_Proxy_User".

Definition accountTypeForUser (userType licenseDefinitionKey : string) : account_type :=
  if bool_decide (userType = userTypeAutomatedProcess \/ userType = userTypeCloudIntegration) then
    ACCOUNT_TYPE_SERVICE
  else if strings_HasPrefix licenseDefinitionKey agentLicenseKeyPrefix
          || strings_HasSuffix licenseDefinitionKey integrationLicenseKeySuffix
          || String.eqb licenseDefinitionKey xOrgProxyLicenseKey then ACCOUNT_TYPE_SERVICE
  else ACCOUNT_TYPE_HUMAN.

Definition userStatus (user : SalesforceUser) (userLogin : option UserLogin) : user_status :=
  if u_IsActive user then
    match userLogin with
    | Some l => if l_IsFrozen l then STATUS_DISABLED else STATUS_ENABLED
    | None => STATUS_ENABLED
    end
  else STATUS_DISABLED.

Definition userResource (user : SalesforceUser) (userLogin : option UserLogin)
    (shouldUseUsernameForEmail : bool) : Resource :=
  let displayName := u_FirstName user +:+ " " +:+ u_LastName user in
  let email := if shouldUseUsernameForEmail then u_Username user else u_Email user in
  let profile : gmap string string := list_to_map
    [("full_name", displayName); ("username", u_Username user); ("account_type", u_UserType user);
     ("email", email); ("id", u_ID user)] in
  NewResource displayName resourceTypeUser (u_ID user) None
    (TUser (NewUserTrait profile email (userStatus user userLogin) (u_Username user)
              (accountTypeForUser (u_UserType user) (u_LicenseDefinitionKey user))
              (u_LastLoginDate user))).

(** [userBuilder]. *)
Record userBuilder := {
  ub_shouldUseUsernameForEmail : bool;
  ub_syncDeactivatedUsers : bool;
  ub_syncNonStandardUsers : bool;
}.

Definition newUserBuilder := Build_userBuilder.

(** ** The account schema and request *)

(** A value of a [structpb.Struct]; [PbOther] for a list, a struct or an unset
    kind. *)
Inductive pb_value :=
| PbNull
| PbNumber (f : spec_float)
| PbString (s : string)
| PbBool (b : bool)
| PbOther.

(** [rs.GetProfileStringValue]; the profile may be nil. *)
Definition GetProfileStringValue (profile : option (gmap string pb_value)) (k : string) : option string :=
  fields ← profile;
  match fields !! k with
  | Some (PbString s) => Some s
  | _ => None
  end.

(** A field of [accountCreationSchema]. *)
Record schema_field := {
  sf_DisplayName : string; sf_Required : bool; sf_Description : string;
  sf_Placeholder : string; sf_Order : Z; sf_Default : option string;
}.

Definition defaultAccountCreationTimezone : string := "America/New_York".

Definition accountCreationSchema : list (string * schema_field) := [
  ("email", {| sf_DisplayName := "Email"; sf_Required := true;
     sf_Description := "This email will be used as the login for the user.";
     sf_Placeholder := "Email"; sf_Order := 1; sf_Default := None |});
  ("profileId", {| sf_DisplayName := "Profile ID"; sf_Required := true;
     sf_Description := "Salesforce Profile ID";
     sf_Placeholder := "ProfileId"; sf_Order := 2; sf_Default := None |});
  ("alias", {| sf_DisplayName := "Alias"; sf_Required := true; sf_Description := "User Alias";
     sf_Placeholder := "Alias"; sf_Order := 3; sf_Default := None |});
  ("first_name", {| sf_DisplayName := "First Name"; sf_Required := true;
     sf_Description := "User first name";
     sf_Placeholder := "FirstName"; sf_Order := 5; sf_Default := None |});
  ("last_name", {| sf_DisplayName := "Last Name"; sf_Required := true;
     sf_Description := "User last name";
     sf_Placeholder := "LastName"; sf_Order := 4; sf_Default := None |});
  ("timezone", {| sf_DisplayName := "Time Zone"; sf_Required := true;
     sf_Description := "User time zone"; sf_Placeholder := "TimeZone"; sf_Order := 6;
     sf_Default := Some defaultAccountCreationTimezone |});
  ("contactID", {| sf_DisplayName := "Contact ID"; sf_Required := false;
     sf_Description := "Salesforce Contact ID. Required for Community/Experience Cloud users.";
     sf_Placeholder := "ContactID"; sf_Order := 7; sf_Default := None |})].

Definition isSchemaField (key : string) : bool := bool_decide (key ∈ accountCreationSchema.*1).

(** Put an entry into a map that may not have come to be. *)
Definition with_entry (k : string) (v : value) (r : go_error + gmap string value) :
    go_error + gmap string value :=
  match r with inl err => inl err | inr m => inr (<[k := v]> m) end.

(** The extra fields, over the profile in the order it is walked in: a list, a
    struct or an unset value is an error, a null is dropped. *)
Fixpoint extra_fields (fields : list (string * pb_value)) : go_error + gmap string value :=
  match fields with
  | [] => inr ∅
  | (key, val) :: fields =>
      if isSchemaField key then extra_fields fields
      else
        match val with
        | PbOther =>
            inl (EMsg ("baton-salesforce: extra field " +:+ key +:+ " has unsupported value type"))
        | PbNull => extra_fields fields
        | PbString s => with_entry key (VString s) (extra_fields fields)
        | PbNumber f => with_entry key (VFloat f) (extra_fields fields)
        | PbBool b => with_entry key (VBool b) (extra_fields fields)
        end
  end.

(** A required field of the request. *)
Definition required_field {A} (profile : option (gmap string pb_value)) (k : string)
    (cont : string -> go_error + A) : go_error + A :=
  match GetProfileStringValue profile k with
  | None => inl (EMsg ("baton-salesforce: missing " +:+ k +:+ " in account info"))
  | Some s => cont s
  end.

Definition getUserCreateRequestParams (profile : option (gmap string pb_value)) :
    go_error + UserCreateRequest :=
  required_field profile "email" (fun email =>
  required_field profile "alias" (fun alias =>
  required_field profile "first_name" (fun firstName =>
  required_field profile "last_name" (fun lastName =>
  required_field profile "profileId" (fun profileId =>
  required_field profile "timezone" (fun timezone =>
    let contactID := default "" (GetProfileStringValue profile "contactID") in
    match extra_fields (map_to_list (default ∅ profile)) with
    | inl err => inl err
    | inr extraFields =>
        inr {| ucr_Email := email; ucr_Alias := alias; ucr_TimeZoneSid := timezone;
               ucr_ProfileId := profileId; ucr_FirstName := firstName; ucr_LastName := lastName;
               ucr_ContactID := contactID; ucr_ExtraFields := extraFields |}
    end)))))).

(** [CreateAccountCapabilityDetails]: accounts are created without a password. *)
Inductive credential_option := CREDENTIAL_OPTION_NO_PASSWORD.
Record CredentialDetailsAccountProvisioning := {
  cd_SupportedCredentialOptions : list credential_option;
  cd_PreferredCredentialOption : credential_option;
}.
Definition CreateAccountCapabilityDetails (o : userBuilder) : CredentialDetailsAccountProvisioning * annotations * error :=
  ({| cd_SupportedCredentialOptions := [CREDENTIAL_OPTION_NO_PASSWORD];
      cd_PreferredCredentialOption := CREDENTIAL_OPTION_NO_PASSWORD |}, [], None).

Section users.
Context `{Env}.

Abbreviation M := (GoM World).

Definition user_List (o : userBuilder) (token : PageToken) : M (synced Resource) :=
  '(users, nextToken, usersRL, err) ←
    GetUsers (pt_Token token) (pt_Size token) (ub_syncDeactivatedUsers o) (ub_syncNonStandardUsers o);
  match err with
  | Some err =>
      mret (sync_failed (WithRateLimitAnnotations [usersRL])
              (EWrap "baton-salesforce: failed to list users: " err))
  | None =>
      '(userLogins, loginsRL, err) ← GetUserLoginsByUserIDs (map u_ID users);
      let outputAnnotations := WithRateLimitAnnotations [usersRL; loginsRL] in
      match err with
      | Some err =>
          mret (sync_failed outputAnnotations
                  (EWrap "baton-salesforce: failed to list user logins: " err))
      | None =>
          let logins := default ∅ userLogins in
          mret (sync_page
            (map (fun user => userResource user (logins !! u_ID user) (ub_shouldUseUsernameForEmail o)) users)
            nextToken outputAnnotations)
      end
  end.

(** It has no entitlements of its own, and no grants. *)
Definition user_Entitlements (resource : Resource) : synced Entitlement := ([], None, None).
Definition user_Grants (resource : Resource) : synced Grant := ([], None, None).

#[export] Instance user_syncer : ResourceSyncer userBuilder := {|
  syncer_ResourceType _ := resourceTypeUser;
  syncer_List := user_List;
  syncer_Entitlements _ resource _ := mret (user_Entitlements resource);
  syncer_Grants _ resource _ := mret (user_Grants resource);
  syncer_StaticEntitlements := None;
|}.

#[export] Instance user_reads : ReadOnlySyncer userBuilder.
Proof.
  split; intros; simpl; [|walk..]. unfold user_List. walk.
Qed.

#[export] Instance user_typed : TypedSyncer userBuilder.
Proof.
  refine {| static_withdrawn _ _ _ := False |}; intros; simpl; [unfold user_List|by apply returns_ret].
  apply returns_then. intros [[[l next] rl] [err|]]; [by apply returns_ret|].
  apply returns_then. intros [[logins rl'] [err|]]; apply returns_ret; [constructor|].
  by apply Forall_map_all.
Qed.

(** Deleting an account deactivates the user. *)
Definition user_Delete (resourceId : ResourceId) : M (annotations * error) :=
  '(ratelimitData, err) ← SetUserActiveState (rid_Resource resourceId) false;
  match err with
  | Some err => mret ([], Some err)
  | None => mret (WithRateLimitAnnotations [ratelimitData], None)
  end.

(** The end of [CreateAccount]: find the user, have the password reset, make the
    resource. *)
Definition finish_account (o : userBuilder) (email : string) :
    M (option Resource * annotations * error) :=
  '(user, err) ← GetUserByEmailWithRetry email;
  match err, user with
  | Some err, _ => mret (None, [], Some err)
  | None, None => go_panic nil_dereference
  | None, Some user =>
      err ← SendResetPasswordEmail (u_ID user);
      match err with
      | Some err => mret (None, [], Some err)
      | None =>
          '(userLogin, _, err) ← GetUserLogin (u_ID user);
          match err with
          | Some err => mret (None, [], Some err)
          | None =>
              mret (Some (userResource user userLogin (ub_shouldUseUsernameForEmail o)), [], None)
          end
      end
  end.

(** [CreateAccount]: the resource, the annotations, the error. *)
Definition CreateAccount (o : userBuilder) (profile : option (gmap string pb_value)) :
    M (option Resource * annotations * error) :=
  match getUserCreateRequestParams profile with
  | inl err =>
      mret (None, [], Some (EWrap "baton-salesforce: create account get InviteUserParams failed " err))
  | inr userRequest =>
      '(userExist, err) ← UserExist (ucr_Email userRequest);
      match err with
      | Some err =>
          mret (None, [], Some (EWrap "baton-salesforce: check if user exists failed " err))
      | None =>
          if userExist : bool then
            '(user, err) ← GetUserByEmail (ucr_Email userRequest);
            match err, user with
            | Some err, _ => mret (None, [], Some err)
            | None, None => go_panic nil_dereference
            | None, Some user =>
                if negb (u_IsActive user) then
                  '(rl, err) ← SetUserActiveState (u_ID user) true;
                  match err with
                  | Some err => mret (None, WithRateLimitAnnotations [rl], Some err)
                  | None => finish_account o (ucr_Email userRequest)
                  end
                else finish_account o (ucr_Email userRequest)
            end
          else
            err ← CreateUser userRequest;
            match err with
            | Some err => mret (None, [], Some err)
            | None => finish_account o (ucr_Email userRequest)
            end
      end
  end.
End users.

(** ** The extra fields *)

(** The value an extra field is sent as. *)
Definition scalar_value (x : pb_value) : option value :=
  match x with
  | PbString s => Some (VString s)
  | PbNumber f => Some (VFloat f)
  | PbBool b => Some (VBool b)
  | PbNull | PbOther => None
  end.

(** Entries the loop rejects, and the fields it makes of the others. *)
Definition unsupported (kv : string * pb_value) : Prop := isSchemaField kv.1 = false /\ kv.2 = PbOther.

Definition extra_field (kv : string * pb_value) : option (string * value) :=
  if isSchemaField kv.1 then None else pair kv.1 <$> scalar_value kv.2.

Lemma supported k x : isSchemaField k = true \/ x <> PbOther -> ~ unsupported (k, x).
Proof. unfold unsupported. simpl. intros [Hk|Hx] [Hk' Hx']; congruence. Qed.

Lemma extra_fields_spec l :
  match extra_fields l with
  | inl _ => Exists unsupported l
  | inr m => Forall (fun kv => ~ unsupported kv) l /\ m = list_to_map (omap extra_field l)
  end.
Proof.
  induction l as [|[k x] l IH]; [done|]. cbn [extra_fields omap list_omap].
  unfold extra_field at 1. cbn [fst snd].
  destruct (isSchemaField k) eqn:Ek.
  { destruct (extra_fields l) as [err|m]; [by right|]. destruct IH as [Hall ->].
    split; [constructor; [apply supported; auto|done]|done]. }
  destruct x; simpl; try (by left); destruct (extra_fields l) as [err|m]; simpl; try (by right);
    destruct IH as [Hall ->]; (split; [constructor; [by apply supported; right|done]|done]).
Qed.

Lemma extra_field_keys l : NoDup l.*1 -> NoDup (omap extra_field l).*1.
Proof.
  induction l as [|[k x] l IH]; [done|]. intros [Hk Hnd]%NoDup_cons. cbn [omap list_omap].
  unfold extra_field at 1. cbn [fst snd].
  destruct (isSchemaField k); [by apply IH|]. destruct (scalar_value x); [|by apply IH].
  apply NoDup_cons. split; [|by apply IH]. intros (kv & Hk1 & Hin)%list_elem_of_fmap.
  apply list_elem_of_omap in Hin as ([k' y] & Hin & Hy). apply Hk.
  unfold extra_field in Hy. cbn [fst snd] in Hy.
  destruct (isSchemaField k'); [done|]. destruct (scalar_value y); [|done].
  simplify_eq/=. apply list_elem_of_fmap. by exists (k', y).
Qed.

Lemma extra_fields_lookup p m key v :
  extra_fields (map_to_list p) = inr m ->
  m !! key = Some v <-> isSchemaField key = false /\ exists x, p !! key = Some x /\ scalar_value x = Some v.
Proof.
  intros Hrun. pose proof (extra_fields_spec (map_to_list p)) as Hspec. rewrite Hrun in Hspec.
  destruct Hspec as [_ ->].
  rewrite <-elem_of_list_to_map by apply extra_field_keys, NoDup_fst_map_to_list.
  rewrite list_elem_of_omap. unfold extra_field. split.
  - intros ([k x] & Hin%elem_of_map_to_list & Hk). cbn [fst snd] in Hk.
    destruct (isSchemaField k) eqn:Ek; [done|]. destruct (scalar_value x) eqn:Ex; [|done].
    simplify_eq/=. eauto.
  - intros (Hk & x & Hx & Hv). exists (key, x). split; [by apply elem_of_map_to_list|].
    cbn [fst snd]. by rewrite Hk, Hv.
Qed.

Lemma required_field_inr {A} p k (cont : string -> go_error + A) r :
  required_field (Some p) k cont = inr r <-> exists s, p !! k = Some (PbString s) /\ cont s = inr r.
Proof.
  unfold required_field. simpl.
  destruct (p !! k) as [[]|]; (split; [intros Hr; try done; eauto|intros (s' & Hs & Hr); by simplify_eq]).
Qed.

Lemma params_inr p r :
  getUserCreateRequestParams (Some p) = inr r <->
  p !! "email" = Some (PbString (ucr_Email r)) /\ p !! "alias" = Some (PbString (ucr_Alias r))
  /\ p !! "first_name" = Some (PbString (ucr_FirstName r))
  /\ p !! "last_name" = Some (PbString (ucr_LastName r))
  /\ p !! "profileId" = Some (PbString (ucr_ProfileId r))
  /\ p !! "timezone" = Some (PbString (ucr_TimeZoneSid r))
  /\ ucr_ContactID r = default "" (GetProfileStringValue (Some p) "contactID")
  /\ extra_fields (map_to_list p) = inr (ucr_ExtraFields r).
Proof.
  unfold getUserCreateRequestParams. cbn [default from_option id]. split.
  - intros Hrun.
    do 6 (apply required_field_inr in Hrun as (? & ? & Hrun)).
    destruct (extra_fields (map_to_list p)) as [|m]; [done|]. injection Hrun as <-. done.
  - intros (H1 & H2 & H3 & H4 & H5 & H6 & H7 & H8).
    do 6 (apply required_field_inr; eexists; split; [eassumption|]).
    rewrite H8, <-H7. by destruct r.
Qed.

(** ** Properties *)

(** C38: an account is a service account exactly for the two automation user types
    or for an agent, integration or cross-org proxy license. *)
Theorem accountTypeForUser_service userType key :
  accountTypeForUser userType key = ACCOUNT_TYPE_SERVICE <->
  userType ∈ ["AutomatedProcess"; "CloudIntegrationUser"]
  \/ (exists r, key = "PID_DigitalAgent" +:+ r) \/ (exists r, key = r +:+ "_INTEGRATION_USER")
  \/ key = "PID_XOrg_Proxy_User".
Proof.
  unfold accountTypeForUser. rewrite !elem_of_cons, elem_of_nil.
  case_bool_decide as Ht; [tauto|].
  destruct (strings_HasPrefix key agentLicenseKeyPrefix) eqn:Ep.
  { apply HasPrefix_spec in Ep. simpl. tauto. }
  destruct (strings_HasSuffix key integrationLicenseKeySuffix) eqn:Es.
  { apply HasSuffix_spec in Es. simpl. tauto. }
  destruct (String.eqb_spec key xOrgProxyLicenseKey) as [->|Hx]; [simpl; tauto|].
  split; [done|]. intros [Hin|[Hp|[Hs|Hx']]].
  - tauto.
  - apply HasPrefix_spec in Hp. fold agentLicenseKeyPrefix in Hp. congruence.
  - apply HasSuffix_spec in Hs. fold integrationLicenseKeySuffix in Hs. congruence.
  - done.
Qed.

(** A user is enabled exactly when it is active and its login is not frozen;
    the address is the user name when the connector is told so, the e-mail
    otherwise, both as the primary address and in the profile. *)
Theorem userResource_status user userLogin useUsername :
  exists trait, res_Trait (userResource user userLogin useUsername) = TUser trait
    /\ res_Id (userResource user userLogin useUsername) = user_principal (u_ID user)
    /\ (ut_Status trait = STATUS_ENABLED <->
        u_IsActive user = true /\ forall login, userLogin = Some login -> l_IsFrozen login = false)
    /\ let email := if useUsername : bool then u_Username user else u_Email user in
       ut_Profile trait !! "email" = Some email
       /\ forall address primary, (address, primary) ∈ ut_Emails trait <->
            address = email /\ primary = true /\ email <> "".
Proof.
  eexists. split; [reflexivity|]. split; [done|]. split; [|split].
  - cbn [ut_Status NewUserTrait]. unfold userStatus. split.
    + destruct (u_IsActive user); [|done]. destruct userLogin as [login|]; [|done].
      destruct (l_IsFrozen login) eqn:El; [done|]. intros _. split; [done|]. by intros ? [= <-].
    + intros [-> Hl]. destruct userLogin as [login|]; [|done]. by rewrite (Hl login eq_refl).
  - done.
  - intros address primary. cbn [ut_Emails NewUserTrait].
    destruct (String.eqb_spec (if useUsername then u_Username user else u_Email user) "") as [He|He].
    + rewrite elem_of_nil. split; [done|by intros (_ & _ & ?)].
    + rewrite list_elem_of_singleton. split; [by intros [= -> ->]|by intros (-> & -> & _)].
Qed.

(** A page of users is listed with the login of each of its users: the logins
    are looked up for exactly the page's users, a user is enabled when active and
    not frozen by the login found for it, and when the lookup fails the page
    fails, so that a frozen user is never listed as enabled by accident. *)
Theorem user_List_logins `{Env} o token w resources so w' :
  user_List o token w = (Returns (resources, so, None), w') ->
  exists users next rl w1 logins rl',
    GetUsers (pt_Token token) (pt_Size token) (ub_syncDeactivatedUsers o) (ub_syncNonStandardUsers o) w
      = (Returns (users, next, rl, None), w1)
    /\ GetUserLoginsByUserIDs (map u_ID users) w1 = (Returns (logins, rl', None), w')
    /\ so = Some {| so_NextPageToken := next; so_Annotations := [ARateLimit rl; ARateLimit rl'] |}
    /\ resources = map (fun user => userResource user (default ∅ logins !! u_ID user)
                                      (ub_shouldUseUsernameForEmail o)) users.
Proof.
  unfold user_List. intros ([[[users next] rl] [err|]] & w1 & Husers & Hrun)%GoM_bind_inv; [done|].
  apply GoM_bind_inv in Hrun as ([[logins rl'] [err|]] & w2 & Hlogins & Hrun); [done|].
  injection Hrun as <- <- <-. by exists users, next, rl, w1, logins, rl'.
Qed.

(** C26: a request for an account is accepted exactly when the six required fields
    are strings and no extra field is a list or an object; the request then
    carries those fields, the contact's id if it is a string, and as extra fields
    exactly the non-null fields outside of the schema. *)
Theorem getUserCreateRequestParams_spec p :
  let required := ["email"; "alias"; "first_name"; "last_name"; "profileId"; "timezone"] in
  ((exists r, getUserCreateRequestParams (Some p) = inr r) <->
     Forall (fun key => exists s, p !! key = Some (PbString s)) required
     /\ forall key, isSchemaField key = false -> p !! key <> Some PbOther)
  /\ forall r, getUserCreateRequestParams (Some p) = inr r ->
       map (fun key => p !! key) required
         = map (fun s => Some (PbString s))
             [ucr_Email r; ucr_Alias r; ucr_FirstName r; ucr_LastName r; ucr_ProfileId r; ucr_TimeZoneSid r]
       /\ ucr_ContactID r = match p !! "contactID" with Some (PbString id) => id | _ => "" end
       /\ forall key v, ucr_ExtraFields r !! key = Some v <->
            isSchemaField key = false /\ exists x, p !! key = Some x /\ scalar_value x = Some v.
Proof.
  intros required. unfold required. split; [|intros r Hr; split; [|split]].
  - pose proof (extra_fields_spec (map_to_list p)) as Hspec. split.
    + intros [r (H1 & H2 & H3 & H4 & H5 & H6 & _ & H8)%params_inr]. split; [repeat constructor; eauto|].
      rewrite H8 in Hspec. destruct Hspec as [Hall _]. intros key Hk Hp.
      rewrite Forall_forall in Hall. by apply (Hall (key, PbOther)); [apply elem_of_map_to_list|].
    + intros [Hreq Hother]. rewrite !Forall_cons in Hreq.
      destruct Hreq as ([s1 H1] & [s2 H2] & [s3 H3] & [s4 H4] & [s5 H5] & [s6 H6] & _).
      destruct (extra_fields (map_to_list p)) as [err|m] eqn:Em.
      * apply Exists_exists in Hspec as ([k x] & Hin%elem_of_map_to_list & Hk & Hx). simpl in *.
        subst x. by destruct (Hother k Hk).
      * exists {| ucr_Email := s1; ucr_Alias := s2; ucr_LastName := s4; ucr_FirstName := s3;
                  ucr_ProfileId := s5; ucr_TimeZoneSid := s6;
                  ucr_ContactID := default "" (GetProfileStringValue (Some p) "contactID");
                  ucr_ExtraFields := m |}.
        apply params_inr. by split_and!.
  - apply params_inr in Hr as (H1 & H2 & H3 & H4 & H5 & H6 & _). simpl. by rewrite H1, H2, H3, H4, H5, H6.
  - apply params_inr in Hr as (_ & _ & _ & _ & _ & _ & -> & _). unfold GetProfileStringValue.
    cbn [mbind option_bind default]. by destruct (p !! "contactID") as [[]|].
  - intros key v. apply params_inr in Hr as (_ & _ & _ & _ & _ & _ & _ & Hextra).
    by apply extra_fields_lookup.
Qed.

(** A request that does not create a record. *)
Definition creates_nothing (req : http_request) : Prop :=
  match req_method req, req_body req with
  | MethodPost, JsonBody _ => False
  | _, _ => True
  end.

Lemma reads_create_nothing req : reads_only req -> creates_nothing req.
Proof. unfold reads_only, creates_nothing. by destruct (req_method req), (req_body req). Qed.

Lemma patches_create_nothing req : req_method req = MethodPatch -> creates_nothing req.
Proof. unfold creates_nothing. by intros ->. Qed.

Lemma deletes_create_nothing req : req_method req = MethodDelete -> creates_nothing req.
Proof. unfold creates_nothing. by intros ->. Qed.

Lemma finish_account_creates_nothing `{Env} o email : moves (runs creates_nothing) (finish_account o email).
Proof.
  pose proof reads_create_nothing. pose proof deletes_create_nothing.
  unfold finish_account. walk.
Qed.

(** Provisioning an account for an address that already has a user creates no
    second one: once [UserExist] has said so, no request creates a record; the
    user is activated when it was not and its password reset. *)
Theorem CreateAccount_existing `{Env} o profile request w w1 :
  getUserCreateRequestParams profile = inr request ->
  UserExist (ucr_Email request) w = (Returns (true, None), w1) ->
  exists l, w_log (CreateAccount o profile w).2 = w_log w1 ++ l /\ Forall creates_nothing l.
Proof.
  intros Hparams Hexist. unfold CreateAccount. rewrite Hparams.
  rewrite (GoM_bind_run _ _ _ _ _ Hexist). cbn beta iota.
  pose proof reads_create_nothing. pose proof patches_create_nothing. pose proof finish_account_creates_nothing.
  match goal with |- context [ w_log (?m w1).2 ] => assert (moves (runs creates_nothing) m) as Hruns by walk end.
  apply Hruns.
Qed.

(** The new user turns up within [n] lookups, each behind a cleared cache and none
    but the last one empty-handed, with the context alive in between. *)
Inductive turns_up `{Env} (email : string) (user : SalesforceUser) : nat -> World -> World -> Prop :=
| turns_up_now n w w1 w2 :
    ask env_cache_clear w = (Returns None, w1) ->
    GetUserByEmail email w1 = (Returns (Some user, None), w2) -> turns_up email user (S n) w w2
| turns_up_later n w w1 err w2 w3 w4 :
    ask env_cache_clear w = (Returns None, w1) ->
    GetUserByEmail email w1 = (Returns (None, Some err), w2) -> status_Code (Some err) = NotFound ->
    ask env_wait w2 = (Returns true, w3) -> turns_up email user (S n) w3 w4 ->
    turns_up email user (S (S n)) w w4.

Lemma get_user_attempts_turns_up `{Env} email user n w w' :
  turns_up email user n w w' -> get_user_attempts n email w = (Returns (Some user, None), w').
Proof.
  induction 1 as [n w w1 w2 Hclear Hget|n w w1 err w2 w3 w4 Hclear Hget Hcode Hwait _ IH]; cbn [get_user_attempts].
  - by rewrite (GoM_bind_run _ _ _ _ _ Hclear), (GoM_bind_run _ _ _ _ _ Hget).
  - rewrite (GoM_bind_run _ _ _ _ _ Hclear), (GoM_bind_run _ _ _ _ _ Hget). cbn beta iota.
    rewrite bool_decide_eq_true_2 by done. rewrite bool_decide_eq_false_2 by done. cbn [negb].
    by rewrite (GoM_bind_run _ _ _ _ _ Hwait).
Qed.

(** C19: provisioning a new account comes to a good end.  When nobody has the
    address, Salesforce takes the record, and the user turns up within the three
    lookups of the retry loop, however late, then the account is that user's
    resource with its login, and exactly one record was created: the one with
    the fields of the request. *)
Theorem CreateAccount_provisions `{Env} client o profile request w w1 w2 user w3 w4 login rl w5 :
  getUserCreateRequestParams profile = inr request ->
  UserExist (ucr_Email request) w = (Returns (false, None), w1) ->
  online client w1 -> url_ok client = true ->
  plain_fields (ucr_ExtraFields request) -> json_Marshal_ok (create_user_fields request) = true ->
  CreateUser request w1 = (Returns None, w2) ->
  turns_up (ucr_Email request) user user_retries w2 w3 ->
  SendResetPasswordEmail (u_ID user) w3 = (Returns None, w4) ->
  GetUserLogin (u_ID user) w4 = (Returns (login, rl, None), w5) ->
  CreateAccount o profile w
    = (Returns (Some (userResource user login (ub_shouldUseUsernameForEmail o)), [], None), w5)
  /\ exists l, w_log w5 = w_log w1 ++ post_request client "User" (create_user_fields request) :: l
       /\ Forall creates_nothing l.
Proof.
  intros Hparams Hexist Hon Hok Hplain Hmarshal Hcreate Hup Hreset Hlogin.
  assert (finish_account o (ucr_Email request) w2
    = (Returns (Some (userResource user login (ub_shouldUseUsernameForEmail o)), [], None), w5)) as Hfinish.
  { unfold finish_account, GetUserByEmailWithRetry. apply get_user_attempts_turns_up in Hup.
    rewrite (GoM_bind_run _ _ _ _ _ Hup). cbn beta iota. rewrite (GoM_bind_run _ _ _ _ _ Hreset). cbn beta iota.
    by rewrite (GoM_bind_run _ _ _ _ _ Hlogin). }
  split.
  - unfold CreateAccount. rewrite Hparams, (GoM_bind_run _ _ _ _ _ Hexist). cbn beta iota.
    by rewrite (GoM_bind_run _ _ _ _ _ Hcreate).
  - destruct (finish_account_creates_nothing o (ucr_Email request) w2) as [_ (l & Hl & Hnothing)].
    rewrite Hfinish in Hl. exists l. split; [|done]. cbn [snd] in Hl. rewrite Hl.
    pose proof (CreateUser_sends client request w1 Hon Hok Hplain Hmarshal) as Hsent. rewrite Hcreate in Hsent.
    destruct (mail_ParseAddress _ && time_LoadLocation _); [|by destruct Hsent].
    cbn [snd] in Hsent. by rewrite Hsent, <-app_assoc.
Qed.

(** Deprovisioning a user never deletes it: [Delete] reads the user and sets its
    [IsActive] to "false", and sends nothing else. *)
Theorem user_Delete_deactivates `{Env} client resourceId w user rl w1 :
  let id := rid_Resource resourceId in
  online client w -> url_ok client = true -> id <> "" -> path_safe id = true ->
  getOneUser id w = (Returns (Some user, rl, None), w1) ->
  SObject_Type user = Returns "User" -> SObject_ID user = id -> ExternalIDFieldName user = "" ->
  w_log (user_Delete resourceId w).2
  = w_log w ++ [client_request client MethodGet (makeURL client ("sobjects/User/" +:+ id)) NoBody;
                patch_request client "User" id {["IsActive" := VString "false"]}].
Proof.
  intros id Hw Hok Hid Hids Hget Ht Huid He. unfold user_Delete. rewrite bind_quiet by walk.
  assert (patch_request client "User" id {["IsActive" := VString "false"]}
    = patch_user_request client "IsActive" "User" user "false") as ->
    by (unfold patch_request, patch_user_request; by rewrite Huid).
  apply (setOneValue_log client Hok id "IsActive" "User" w w1 user rl Hw Hid Hids eq_refl);
    [by rewrite Huid|done|done|done|by rewrite Huid|done|plain_keys].
Qed.

Section users_witness.
#[local] Existing Instance tape_env.

Definition account_profile : gmap string pb_value :=
  {["email" := PbString "a@x.io"; "alias" := PbString "a"; "first_name" := PbString "A";
    "last_name" := PbString "B"; "profileId" := PbString "00e1"; "timezone" := PbString "UTC"]}.
Definition account_request : UserCreateRequest :=
  {| ucr_Email := "a@x.io"; ucr_Alias := "a"; ucr_LastName := "B"; ucr_FirstName := "A";
     ucr_ProfileId := "00e1"; ucr_TimeZoneSid := "UTC"; ucr_ContactID := ""; ucr_ExtraFields := ∅ |}.
Definition inactive_user : json :=
  JObj [("attributes", JObj [("type", JStr "User"); ("url", JStr "/services/data/v54.0/sobjects/User/005A")]);
        ("Id", JStr "005A"); ("UserType", JStr "Standard"); ("IsActive", JBool false);
        ("LastLoginDate", JStr "")].
Definition user_page : go_error + http_response := ok_json (page_json [inactive_user] true "").
(** The user is found twice, activated, found again, its password is reset and its
    login read. *)
Definition existing_world : World := tape_world
  [user_page; user_page; ok_json inactive_user; inr (json_response 204 "204" JNull); user_page;
   inr (json_response 204 "204" JNull); ok_json (page_json [] true "")].
Definition syncer_options : userBuilder := newUserBuilder false false false.

Lemma CreateAccount_existing_witness :
  length (w_log (CreateAccount syncer_options (Some account_profile) existing_world).2) = 7
  /\ exists l, w_log (CreateAccount syncer_options (Some account_profile) existing_world).2
                 = w_log (UserExist "a@x.io" existing_world).2 ++ l
       /\ Forall creates_nothing l.
Proof.
  split; [vm_compute; reflexivity|].
  refine (CreateAccount_existing syncer_options (Some account_profile) account_request existing_world
    (UserExist "a@x.io" existing_world).2 _ _); [vm_compute; reflexivity|reads].
Defined.

(** An active user with a frozen login. *)
Definition frozen_world : World := tape_world
  [ok_json (page_json [JObj [("Id", JStr "005A"); ("UserType", JStr "Standard"); ("IsActive", JBool true);
                             ("LastLoginDate", JStr "")]] true "");
   ok_json (page_json [JObj [("Id", JStr "0Yw1"); ("UserId", JStr "005A"); ("IsFrozen", JBool true);
                             ("IsPasswordLocked", JBool false)]] true "")].
Definition user_page_token : PageToken := {| pt_Token := ""; pt_Size := 100 |}.
Definition frozen_list := user_List syncer_options user_page_token frozen_world.
Definition frozen_resources : list Resource :=
  match frozen_list.1 with Returns (l, _, _) => l | _ => [] end.

(** Nobody; the record is taken; the user turns up at the second lookup. *)
Definition account_world : World := tape_world
  [ok_json (page_json [] true ""); ok_json (JObj [("id", JStr "005A"); ("success", JBool true); ("errors", JArr [])]);
   ok_json (page_json [] true ""); user_page; inr (json_response 204 "204" JNull); ok_json (page_json [] true "")].
Definition account_world_1 := (UserExist "a@x.io" account_world).2.
Definition account_world_2 := (CreateUser account_request account_world_1).2.
Definition account_world_3 := (GetUserByEmailWithRetry "a@x.io" account_world_2).2.
Definition account_world_4 := (SendResetPasswordEmail "005A" account_world_3).2.
Definition account_world_5 := (GetUserLogin "005A" account_world_4).2.
Definition account_user : SalesforceUser :=
  match (GetUserByEmailWithRetry "a@x.io" account_world_2).1 with
  | Returns (Some user, _) => user
  | _ => user_of ∅ "" false None
  end.

Lemma account_turns_up : turns_up "a@x.io" account_user user_retries account_world_2 account_world_3.
Proof.
  set (w1 := (ask env_cache_clear account_world_2).2).
  set (w2 := (GetUserByEmail "a@x.io" w1).2).
  set (w3 := (ask env_wait w2).2). set (w4 := (ask env_cache_clear w3).2).
  apply (turns_up_later _ _ 1 _ w1 (EStatus NotFound "user with email a@x.io not found") w2 w3); [reads|reads|done|reads|].
  apply (turns_up_now _ _ _ _ w4); reads.
Qed.

Lemma CreateAccount_provisions_witness :
  CreateAccount syncer_options (Some account_profile) account_world
    = (Returns (Some (userResource account_user None false), [], None), account_world_5).
Proof.
  refine (proj1 (CreateAccount_provisions sf_client syncer_options (Some account_profile) account_request
    account_world account_world_1 account_world_2 account_user account_world_3 account_world_4 None None
    account_world_5 _ _ _ eq_refl _ _ _ account_turns_up _ _)).
  - vm_compute. reflexivity.
  - reads.
  - vm_compute. eauto.
  - by apply map_Forall_empty.
  - vm_compute. reflexivity.
  - reads.
  - reads.
  - reads.
Defined.

Lemma user_List_logins_witness :
  length frozen_resources = 1
  /\ exists users (logins : gmap string UserLogin), frozen_resources = map (fun user => userResource user (logins !! u_ID user) false) users.
Proof.
  split; [vm_compute; reflexivity|].
  destruct (user_List_logins syncer_options user_page_token frozen_world frozen_resources
    (Some {| so_NextPageToken := ""; so_Annotations := [ARateLimit None; ARateLimit None] |})
    frozen_list.2) as (users & next & rl & w1 & logins & rl' & _ & _ & _ & Hr);
    [unfold frozen_list; reads|].
  exists users, (default ∅ logins). exact Hr.
Defined.

Definition delete_world : World := tape_world [ok_json inactive_user; inr (json_response 204 "204" JNull)].
Definition deleted_user : SObject :=
  match (getOneUser "005A" delete_world).1 with Returns (Some u, _, _) => u | _ => ∅ end.

Lemma user_Delete_deactivates_witness :
  w_log (user_Delete (user_principal "005A") delete_world).2
  = [client_request sf_client MethodGet (makeURL sf_client "sobjects/User/005A") NoBody;
     patch_request sf_client "User" "005A" {["IsActive" := VString "false"]}].
Proof.
  refine (user_Delete_deactivates sf_client (user_principal "005A") delete_world deleted_user None
    (getOneUser "005A" delete_world).2 _ _ _ _ _ _ _ _).
  - vm_compute. eauto.
  - reflexivity.
  - discriminate.
  - reflexivity.
  - reads.
  - vm_compute. reflexivity.
  - vm_compute. reflexivity.
  - vm_compute. reflexivity.
Defined.
End users_witness.
