(* ===== verification/Groups.v ===== *)
(** * Groups and roles: [pkg/connector/groups.go], [pkg/connector/roles.go] *)
From S2P Require Export Sdk.

Definition groupMemberEntitlementName : string := "member".
Definition organizationGroupName : string := "All Internal Users".
Definition roleAssignmentEntitlementName : string := "assigned".

(** [getGroupName] of the connector. *)
Definition group_display_name (group : SalesforceGroup) : string :=
  if String.eqb (g_Type group) "RoleAndSubordinates" then g_Name group +:+ " (role and subordinates)"
  else if String.eqb (g_Type group) "Role" then g_Name group +:+ " (role)"
  else if String.eqb (g_Type group) "Organization" then organizationGroupName
  else g_Name group +:+ "".

Definition groupResource (group : SalesforceGroup) : Resource :=
  NewResource (group_display_name group) resourceTypeGroup (g_ID group) None TGroup.

Definition roleResource (role : SalesforceRole) : Resource :=
  NewResource (r_Name role) resourceTypeRole (r_ID role) None TRole.

Record groupBuilder := {}.
Definition newGroupBuilder := Build_groupBuilder.
Record roleBuilder := {}.
Definition newRoleBuilder := Build_roleBuilder.

(** The grant of one membership: a group is a principal too. *)
Definition group_grant (resource : Resource) (membership : SalesforceGroupMembership) : Grant :=
  NewGrant resource groupMemberEntitlementName
    {| rid_ResourceType := rt_Id (if gm_IsGroup membership then resourceTypeGroup else resourceTypeUser);
       rid_Resource := gm_PrincipalID membership |}.

Definition role_grant (resource : Resource) (assignment : SalesforceUser) : Grant :=
  NewGrant resource roleAssignmentEntitlementName (user_principal (u_ID assignment)).

Section groups.
Context `{Env}.

Abbreviation M := (GoM World).

Definition group_List (token : PageToken) : M (synced Resource) :=
  sync_read (GetGroups (pt_Token token) (pt_Size token)) (map groupResource).

Definition group_Entitlements (resource : Resource) : synced Entitlement :=
  ([NewAssignmentEntitlement (Some resource) groupMemberEntitlementName [resourceTypeUser]
      (res_DisplayName resource +:+ " Group Member")
      ("Member of " +:+ res_DisplayName resource +:+ " Salesforce group")], None, None).

Definition group_Grants (resource : Resource) (token : PageToken) : M (synced Grant) :=
  sync_read (GetGroupMemberships (rid_Resource (res_Id resource)) (pt_Token token) (pt_Size token))
    (map (group_grant resource)).

#[export] Instance group_syncer : ResourceSyncer groupBuilder := {|
  syncer_ResourceType _ := resourceTypeGroup;
  syncer_List _ := group_List;
  syncer_Entitlements _ resource _ := mret (group_Entitlements resource);
  syncer_Grants _ := group_Grants;
  syncer_StaticEntitlements := None;
|}.

#[export] Instance group_reads : ReadOnlySyncer groupBuilder.
Proof. split; intros; simpl; unfold group_List, group_Grants; walk. Qed.

#[export] Instance group_typed : TypedSyncer groupBuilder.
Proof.
  refine {| static_withdrawn _ _ _ := False |}; intros; apply returns_sync_read; intros l; apply Forall_map_all; intros a; [done|offered].
Qed.

Definition group_Grant (principal : ResourceId) (entitlement : Entitlement) :
    M (annotations * error) :=
  if negb (is_user principal) then
    mret ([], Some (EMsg "salesforce-connector: only users can be granted group membership"))
  else
    match ent_Resource entitlement with
    | None => go_panic nil_dereference
    | Some resource =>
        '(ratelimitData, err) ←
          AddUserToGroup (rid_Resource principal) (rid_Resource (res_Id resource));
        mret (WithRateLimitAnnotations [ratelimitData], err)
    end.

Definition group_Revoke (grant : Grant) : M (annotations * error) :=
  match ent_Resource (grant_Entitlement grant) with
  | None => go_panic nil_dereference
  | Some resource =>
      '(wasRevoked, ratelimitData, err) ←
        RemoveUserFromGroup (rid_Resource (grant_Principal grant)) (rid_Resource (res_Id resource));
      let outputAnnotations := WithRateLimitAnnotations [ratelimitData] in
      match err with
      | Some err => mret (outputAnnotations, Some err)
      | None =>
          mret (if wasRevoked : bool then outputAnnotations
                else outputAnnotations ++ [AGrantAlreadyRevoked], None)
      end
  end.

(** ** Roles *)

Definition role_List (token : PageToken) : M (synced Resource) :=
  sync_read (GetUserRoles (pt_Token token) (pt_Size token)) (map roleResource).

Definition role_Entitlements (resource : Resource) : synced Entitlement :=
  ([NewAssignmentEntitlement (Some resource) roleAssignmentEntitlementName [resourceTypeUser]
      (res_DisplayName resource +:+ " User Role")
      ("Has the " +:+ res_DisplayName resource +:+ " role in Salesforce")], None, None).

Definition role_Grants (resource : Resource) (token : PageToken) : M (synced Grant) :=
  sync_read (GetRoleAssignments (rid_Resource (res_Id resource)) (pt_Token token) (pt_Size token))
    (map (role_grant resource)).

#[export] Instance role_syncer : ResourceSyncer roleBuilder := {|
  syncer_ResourceType _ := resourceTypeRole;
  syncer_List _ := role_List;
  syncer_Entitlements _ resource _ := mret (role_Entitlements resource);
  syncer_Grants _ := role_Grants;
  syncer_StaticEntitlements := None;
|}.

#[export] Instance role_reads : ReadOnlySyncer roleBuilder.
Proof. split; intros; simpl; unfold role_List, role_Grants; walk. Qed.

#[export] Instance role_typed : TypedSyncer roleBuilder.
Proof.
  refine {| static_withdrawn _ _ _ := False |}; intros; apply returns_sync_read; intros l; apply Forall_map_all; intros a; [done|offered].
Qed.

Definition role_Grant (principal : ResourceId) (entitlement : Entitlement) :
    M (annotations * error) :=
  if negb (is_user principal) then
    mret ([], Some (EMsg "salesforce-connector: only users can be granted roles"))
  else
    match ent_Resource entitlement with
    | None => go_panic nil_dereference
    | Some resource =>
        '(ratelimitData, err) ←
          AddUserToRole (rid_Resource principal) (rid_Resource (res_Id resource));
        mret (WithRateLimitAnnotations [ratelimitData], err)
    end.

Definition role_Revoke (grant : Grant) : M (annotations * error) :=
  match ent_Resource (grant_Entitlement grant) with
  | None => go_panic nil_dereference
  | Some resource =>
      '(ratelimitData, err) ←
        RemoveUserFromRole (rid_Resource (grant_Principal grant)) (rid_Resource (res_Id resource));
      mret (WithRateLimitAnnotations [ratelimitData], err)
  end.
End groups.

(** ** Properties *)

(** Revoking a group membership deletes the one membership record there is; for
    a user who is not in the group nothing is written and the answer says that
    the grant was revoked already. *)
Theorem group_Revoke_idempotent `{Env} client g resource w found rl w1 :
  online client w -> url_ok client = true ->
  ent_Resource (grant_Entitlement g) = Some resource ->
  getGroupMembership (rid_Resource (grant_Principal g)) (rid_Resource (res_Id resource)) w
    = (Returns (found, rl, match found with Some _ => None | None => Some (ESentinel ErrObjectNotFound) end), w1) ->
  match found with
  | None => group_Revoke g w = (Returns ([ARateLimit rl; AGrantAlreadyRevoked], None), w1)
  | Some membership =>
      SObject_ID membership <> "" -> path_safe (SObject_ID membership) = true ->
      w_log (group_Revoke g w).2
      = w_log w1 ++ [delete_request client "GroupMember" (SObject_ID membership)]
  end.
Proof.
  intros Hw Hok Hres Hrun.
  pose proof (runs_getGroupMembership (fun _ => True) (fun _ _ => I) (rid_Resource (grant_Principal g))
    (rid_Resource (res_Id resource)) w) as Hruns.
  rewrite Hrun in Hruns. pose proof (online_runs client (fun _ => True) w w1 Hruns Hw) as Hw1.
  assert (RemoveUserFromGroup (rid_Resource (grant_Principal g)) (rid_Resource (res_Id resource)) w
    = match found with
      | Some m => ('(rl, err) ← DeleteObject TableNameGroupMemberships (SObject_ID m); mret (true, rl, err)) w1
      | None => (Returns (false, rl, None), w1)
      end) as Hremove.
  { unfold RemoveUserFromGroup. rewrite (GoM_bind_run _ _ _ _ _ Hrun). by destruct found. }
  unfold group_Revoke. rewrite Hres. destruct found as [m|].
  - intros Hid Hids. rewrite bind_quiet, Hremove by walk. rewrite bind_quiet by walk.
    apply DeleteObject_log; [done..|url_parses].
  - by rewrite (GoM_bind_run _ _ _ _ _ Hremove).
Qed.

Section group_witness.
#[local] Existing Instance tape_env.

Definition no_membership : go_error + http_response := ok_json (page_json [] true "").
Definition a_group : Resource := NewResource "G" resourceTypeGroup "00G1" None TGroup.

Lemma group_Revoke_idempotent_witness :
  group_Revoke (NewGrant a_group "member" (user_principal "005A")) (tape_world [no_membership])
  = (Returns ([ARateLimit None; AGrantAlreadyRevoked], None),
     (getGroupMembership "005A" "00G1" (tape_world [no_membership])).2).
Proof.
  refine (group_Revoke_idempotent sf_client (NewGrant a_group "member" (user_principal "005A")) a_group
    (tape_world [no_membership]) None None
    (getGroupMembership "005A" "00G1" (tape_world [no_membership])).2 _ eq_refl eq_refl _).
  - vm_compute. eauto.
  - reads.
Defined.
End group_witness.
