(* ===== verification/Profiles.v ===== *)
(** * Profiles: [pkg/connector/profiles.go]

    A user always has a profile, so that revoking one means setting another: the
    least privileged profile the configuration names for the user license. *)
From S2P Require Export Sdk.

Definition profileAssignmentEntitlementName : string := "assigned".

Definition profileResource (profile : SalesforceProfile) : Resource :=
  NewResource (pf_Name profile) resourceTypeProfile (pf_ID profile) None NoTrait.

Record profileBuilder := { pb_licenseToLeastProfileMapping : gmap string string }.
Definition newProfileBuilder := Build_profileBuilder.

Definition profile_grant (resource : Resource) (assignment : SalesforceUser) : Grant :=
  NewGrant resource profileAssignmentEntitlementName (user_principal (u_ID assignment)).

Section profiles.
Context `{Env}.

Abbreviation M := (GoM World).

Definition profile_List (token : PageToken) : M (synced Resource) :=
  sync_read (GetProfiles (pt_Token token) (pt_Size token)) (map profileResource).

Definition profile_Entitlements (resource : Resource) : synced Entitlement :=
  ([NewAssignmentEntitlement (Some resource) profileAssignmentEntitlementName [resourceTypeUser]
      (res_DisplayName resource +:+ " Profile")
      ("Has the " +:+ res_DisplayName resource +:+ " profile in Salesforce")], None, None).

Definition profile_Grants (resource : Resource) (token : PageToken) : M (synced Grant) :=
  sync_read (GetProfileAssignments (rid_Resource (res_Id resource)) (pt_Token token) (pt_Size token))
    (map (profile_grant resource)).

#[export] Instance profile_syncer : ResourceSyncer profileBuilder := {|
  syncer_ResourceType _ := resourceTypeProfile;
  syncer_List _ := profile_List;
  syncer_Entitlements _ resource _ := mret (profile_Entitlements resource);
  syncer_Grants _ := profile_Grants;
  syncer_StaticEntitlements := None;
|}.

#[export] Instance profile_reads : ReadOnlySyncer profileBuilder.
Proof. split; intros; simpl; unfold profile_List, profile_Grants; walk. Qed.

#[export] Instance profile_typed : TypedSyncer profileBuilder.
Proof.
  refine {| static_withdrawn _ _ _ := False |}; intros; apply returns_sync_read; intros l; apply Forall_map_all; intros a; [done|offered].
Qed.

Definition profile_Grant (principal : ResourceId) (entitlement : Entitlement) :
    M (annotations * error) :=
  if negb (is_user principal) then
    mret ([], Some (EMsg "salesforce-connector: only users can be granted a profile"))
  else
    match ent_Resource entitlement with
    | None => go_panic nil_dereference
    | Some resource =>
        '(ratelimitData, err) ←
          AddUserToProfile (rid_Resource principal) (rid_Resource (res_Id resource));
        mret (WithRateLimitAnnotations [ratelimitData], err)
    end.

(** A profile that is not found is dereferenced all the same. *)
Definition profile_Revoke (o : profileBuilder) (grant : Grant) : M (annotations * error) :=
  match ent_Resource (grant_Entitlement grant) with
  | None => go_panic nil_dereference
  | Some resource =>
      '(profile, _, err) ← GetProfileById (rid_Resource (res_Id resource));
      match err, profile with
      | Some err, _ => mret ([], Some err)
      | None, None => go_panic nil_dereference
      | None, Some profile =>
          '(profileUserLicense, _, err) ← GetUserLicenseByID (pf_UserLicenseId profile);
          match err, profileUserLicense with
          | Some err, _ =>
              mret ([], Some (EWrap "salesforce-connector: error getting user license by name: " err))
          | None, None =>
              mret ([], Some (EMsg ("salesforce-connector: user license not found for profile "
                                    +:+ pf_UserLicenseId profile)))
          | None, Some license =>
              match pb_licenseToLeastProfileMapping o !! ul_Name license with
              | None =>
                  mret ([], Some (EMsg ("salesforce-connector: no least privileged profile found for license "
                    +:+ ul_Name license +:+ ". Please add a mapping in the connector configuration")))
              | Some leastPrivilegedProfileName =>
                  '(leastPrivilegedProfile, _, err) ← GetProfileByName leastPrivilegedProfileName;
                  match err, leastPrivilegedProfile with
                  | Some err, _ =>
                      mret ([], Some (EWrap "salesforce-connector: error getting least privileged profile: " err))
                  | None, None => go_panic nil_dereference
                  | None, Some leastPrivilegedProfile =>
                      '(ratelimitData, err) ←
                        SetNewUserProfile (rid_Resource (grant_Principal grant)) (pf_ID leastPrivilegedProfile);
                      match err with
                      | Some err =>
                          mret ([], Some (EWrap "salesforce-connector: error setting new user's profile to the least privileged profile: " err))
                      | None => mret (WithRateLimitAnnotations [ratelimitData], None)
                      end
                  end
              end
          end
      end
  end.
End profiles.

(** ** Properties *)

(** Revoking a profile moves the user to another profile and to no other state:
    to the one the configuration names for the license of the revoked profile,
    by a single change of the user's [ProfileId]; without a configured profile
    for the license nothing is written and the answer is an error. *)
Theorem profile_Revoke_moves `{Env} o g resource w profile rl1 w1 license rl2 w2 :
  ent_Resource (grant_Entitlement g) = Some resource ->
  GetProfileById (rid_Resource (res_Id resource)) w = (Returns (Some profile, rl1, None), w1) ->
  GetUserLicenseByID (pf_UserLicenseId profile) w1 = (Returns (Some license, rl2, None), w2) ->
  match pb_licenseToLeastProfileMapping o !! ul_Name license with
  | None => exists err, profile_Revoke o g w = (Returns ([], Some err), w2)
  | Some name =>
      forall least rl3 w3, GetProfileByName name w2 = (Returns (Some least, rl3, None), w3) ->
      let change := SetNewUserProfile (rid_Resource (grant_Principal g)) (pf_ID least) in
      (profile_Revoke o g w).2 = (change w3).2
      /\ forall rl4 w4,
           (change w3 = (Returns (rl4, None), w4) ->
            profile_Revoke o g w = (Returns ([ARateLimit rl4], None), w4))
           /\ forall e, change w3 = (Returns (rl4, Some e), w4) ->
              exists err, profile_Revoke o g w = (Returns ([], Some err), w4)
  end.
Proof.
  intros Hres Hprofile Hlicense. unfold profile_Revoke. rewrite Hres.
  rewrite (GoM_bind_run _ _ _ _ _ Hprofile). cbn beta iota.
  rewrite (GoM_bind_run _ _ _ _ _ Hlicense). cbn beta iota.
  destruct (pb_licenseToLeastProfileMapping o !! ul_Name license) as [name|]; [|by eexists].
  intros least rl3 w3 Hleast. cbv zeta. rewrite (GoM_bind_run _ _ _ _ _ Hleast). cbn beta iota.
  set (change := SetNewUserProfile _ _).
  split; [|intros rl4 w4; split; [|intros e]]; try (intros Hrun; rewrite (GoM_bind_run _ _ _ _ _ Hrun); eauto).
  unfold mbind, GoM_bind. by destruct (change w3) as [[[rl4 [e|]]|why] w4].
Qed.

(** C31: the profile to be revoked and the least privileged one are dereferenced
    without a check: when either query finds no record, revoking panics.  (The
    license is checked.) *)
Theorem profile_Revoke_panics `{Env} o g resource w rl w1 :
  ent_Resource (grant_Entitlement g) = Some resource ->
  (GetProfileById (rid_Resource (res_Id resource)) w = (Returns (None, rl, None), w1) ->
   profile_Revoke o g w = (Panics nil_dereference, w1))
  /\ (forall profile rl1 w2 license rl2 w3 name rl3 w4,
        GetProfileById (rid_Resource (res_Id resource)) w = (Returns (Some profile, rl1, None), w2) ->
        GetUserLicenseByID (pf_UserLicenseId profile) w2 = (Returns (Some license, rl2, None), w3) ->
        pb_licenseToLeastProfileMapping o !! ul_Name license = Some name ->
        GetProfileByName name w3 = (Returns (None, rl3, None), w4) ->
        profile_Revoke o g w = (Panics nil_dereference, w4)).
Proof.
  intros Hres. unfold profile_Revoke. rewrite Hres. split.
  - intros Hprofile. by rewrite (GoM_bind_run _ _ _ _ _ Hprofile).
  - intros profile rl1 w2 license rl2 w3 name rl3 w4 Hprofile Hlicense Hname Hleast.
    rewrite (GoM_bind_run _ _ _ _ _ Hprofile). cbn beta iota.
    rewrite (GoM_bind_run _ _ _ _ _ Hlicense). cbn beta iota. rewrite Hname.
    by rewrite (GoM_bind_run _ _ _ _ _ Hleast).
Qed.

Section profile_witness.
#[local] Existing Instance tape_env.

Definition admin_profile : Resource := NewResource "Admin" resourceTypeProfile "00e1" None NoTrait.
Definition admin_grant : Grant := NewGrant admin_profile "assigned" (user_principal "005A").
Definition mapping : profileBuilder :=
  {| pb_licenseToLeastProfileMapping := {["Salesforce" := "Minimum Access"]} |}.
Definition profile_json (id name : string) : json :=
  JObj [("Id", JStr id); ("Name", JStr name); ("UserLicenseId", JStr "1001")].
Definition license_json (name : string) : json := JObj [("Id", JStr "1001"); ("Name", JStr name)].
Definition one (record : json) : go_error + http_response := ok_json (page_json [record] true "").
(** The profile and its license, which the mapping has nothing for. *)
Definition unmapped_world : World := tape_world [one (profile_json "00e1" "Admin"); one (license_json "Platform")].
Definition unmapped_1 := (GetProfileById "00e1" unmapped_world).2.
Definition unmapped_2 := (GetUserLicenseByID "1001" unmapped_1).2.

Lemma profile_Revoke_moves_witness :
  exists err, profile_Revoke mapping admin_grant unmapped_world = (Returns ([], Some err), unmapped_2).
Proof.
  refine (profile_Revoke_moves mapping admin_grant admin_profile unmapped_world
    {| pf_ID := "00e1"; pf_Name := "Admin"; pf_UserLicenseId := "1001" |} None unmapped_1
    {| ul_ID := "1001"; ul_Name := "Platform" |} None unmapped_2 eq_refl _ _); reads.
Defined.

Definition no_profile_world : World := tape_world [ok_json (page_json [] true "")].

Lemma profile_Revoke_panics_witness :
  profile_Revoke mapping admin_grant no_profile_world
  = (Panics nil_dereference, (GetProfileById "00e1" no_profile_world).2).
Proof.
  refine (proj1 (profile_Revoke_panics mapping admin_grant admin_profile no_profile_world None
    (GetProfileById "00e1" no_profile_world).2 eq_refl) _). reads.
Defined.
End profile_witness.
