(* ===== verification/PermissionSets.v ===== *)
(** * Permission sets and their groups: [pkg/connector/permissions.go],
    [pkg/connector/permission_set_group.go]

    The grants of a permission set come in two phases told apart by the page
    token: the users assigned to it, then, under the prefix "psg:", the groups
    that contain it, whose members the grant expands to. *)
From S2P Require Export Sdk.

Definition permissionSetAssignmentEntitlementName : string := "assigned".
Definition permPsgPageTokenPrefix : string := "psg:".
Definition permissionSetGroupMemberEntitlementName : string := "member".

Definition permissionResource (permission : SalesforcePermission) : Resource :=
  NewResource (p_Type permission +:+ " - " +:+ p_Name permission) resourceTypePermissionSet
    (p_ID permission) None NoTrait.

Definition permissionSetGroupResource (permissionGroup : PermissionSetGroup) : Resource :=
  NewResource (psg_MasterLabel permissionGroup) resourceTypePermissionSetGroup (psg_ID permissionGroup)
    None NoTrait.

Record permissionBuilder := {}.
Definition newPermissionBuilder := Build_permissionBuilder.
Record permissionSetGroupBuilder := {}.
Definition newPermissionSetGroupBuilder := Build_permissionSetGroupBuilder.

(** The grant of a permission set to a group that contains it. *)
Definition component_grant (resource : Resource) (component : PermissionSetGroupComponent) : Grant :=
  let memberEntitlementID := rt_Id resourceTypePermissionSetGroup +:+ ":"
    +:+ psc_PermissionSetGroupID component +:+ ":" +:+ permissionSetGroupMemberEntitlementName in
  NewGrantWith (Some [memberEntitlementID]) resource permissionSetAssignmentEntitlementName
    {| rid_ResourceType := rt_Id resourceTypePermissionSetGroup;
       rid_Resource := psc_PermissionSetGroupID component |}.

Definition assignment_grant (resource : Resource) (assignment : PermissionSetAssignment) : Grant :=
  NewGrant resource permissionSetAssignmentEntitlementName (user_principal (pa_UserID assignment)).

Definition psg_member_grant (resource : Resource) (assignment : PermissionSetAssignment) : Grant :=
  NewGrant resource permissionSetGroupMemberEntitlementName (user_principal (pa_UserID assignment)).

(** The page token after a page of the second phase, and of the first. *)
Definition next_psg_token (nextPsgToken : string) : string :=
  if String.eqb nextPsgToken "" then "" else permPsgPageTokenPrefix +:+ nextPsgToken.

Definition next_user_token (nextUserToken : string) : string :=
  if String.eqb nextUserToken "" then permPsgPageTokenPrefix else nextUserToken.

Section permissions.
Context `{Env}.

Abbreviation M := (GoM World).

Definition permission_List (token : PageToken) : M (synced Resource) :=
  sync_read (GetPermissionSets (pt_Token token) (pt_Size token)) (map permissionResource).

Definition permission_Entitlements (resource : Resource) : synced Entitlement :=
  ([NewAssignmentEntitlement (Some resource) permissionSetAssignmentEntitlementName
      [resourceTypeUser; resourceTypePermissionSetGroup]
      (res_DisplayName resource +:+ " Permission Set")
      ("Has the " +:+ res_DisplayName resource +:+ " permission set in Salesforce")], None, None).

Definition permission_Grants (resource : Resource) (token : PageToken) : M (synced Grant) :=
  let pageToken := pt_Token token in
  if strings_HasPrefix pageToken permPsgPageTokenPrefix then
    '(components, nextPsgToken, ratelimitData, err) ←
      GetPermissionSetGroupComponentsByPermissionSet (rid_Resource (res_Id resource))
        (strings_TrimPrefix pageToken permPsgPageTokenPrefix) (pt_Size token);
    let outputAnnotations := WithRateLimitAnnotations [ratelimitData] in
    match err with
    | Some err => mret (sync_failed outputAnnotations err)
    | None =>
        mret (sync_page (map (component_grant resource) components) (next_psg_token nextPsgToken)
                outputAnnotations)
    end
  else
    '(assignments, nextUserToken, ratelimitData, err) ←
      GetPermissionSetAssignments (rid_Resource (res_Id resource)) pageToken (pt_Size token);
    let outputAnnotations := WithRateLimitAnnotations [ratelimitData] in
    match err with
    | Some err => mret (sync_failed outputAnnotations err)
    | None =>
        mret (sync_page (map (assignment_grant resource) assignments) (next_user_token nextUserToken)
                outputAnnotations)
    end.

#[export] Instance permission_syncer : ResourceSyncer permissionBuilder := {|
  syncer_ResourceType _ := resourceTypePermissionSet;
  syncer_List _ := permission_List;
  syncer_Entitlements _ resource _ := mret (permission_Entitlements resource);
  syncer_Grants _ := permission_Grants;
  syncer_StaticEntitlements := None;
|}.

#[export] Instance permission_reads : ReadOnlySyncer permissionBuilder.
Proof. split; intros; simpl; unfold permission_List, permission_Grants; walk. Qed.

#[export] Instance permission_typed : TypedSyncer permissionBuilder.
Proof.
  refine {| static_withdrawn _ _ _ := False |}; intros b; [intros pt; apply returns_sync_read; intros l; by apply Forall_map_all|].
  intros resource pt. simpl. unfold permission_Grants.
  destruct (strings_HasPrefix _ _); apply returns_then; intros [[[l next] rl] [err|]];
    apply returns_ret; cbn [fst sync_failed sync_page]; try (apply Forall_nil_2);
    apply Forall_map_all; intros a; offered.
Qed.

Definition permission_Grant (principal : ResourceId) (entitlement : Entitlement) :
    M (annotations * error) :=
  if negb (is_user principal) then
    mret ([], Some (EMsg "salesforce-connector: only users can be granted permission sets"))
  else
    match ent_Resource entitlement with
    | None => go_panic nil_dereference
    | Some resource =>
        '(ratelimitData, err) ←
          AddUserToPermissionSet (rid_Resource principal) (rid_Resource (res_Id resource));
        mret (WithRateLimitAnnotations [ratelimitData], err)
    end.

Definition permission_Revoke (grant : Grant) : M (annotations * error) :=
  if negb (is_user (grant_Principal grant)) then
    mret ([], Some (EMsg "salesforce-connector: only users can have permission set grants revoked"))
  else
    match ent_Resource (grant_Entitlement grant) with
    | None => go_panic nil_dereference
    | Some resource =>
        '(ratelimitData, err) ←
          RemoveUserFromPermissionSet (rid_Resource (grant_Principal grant)) (rid_Resource (res_Id resource));
        mret (WithRateLimitAnnotations [ratelimitData], err)
    end.

(** ** Permission set groups *)

Definition permissionSetGroup_List (token : PageToken) : M (synced Resource) :=
  sync_read (GetPermissionSetGroups (pt_Token token) (pt_Size token)) (map permissionSetGroupResource).

Definition permissionSetGroup_Entitlements (resource : Resource) : synced Entitlement :=
  ([NewAssignmentEntitlement (Some resource) permissionSetGroupMemberEntitlementName [resourceTypeUser]
      (res_DisplayName resource +:+ " Permission Set Group Member")
      ("Assigned to the " +:+ res_DisplayName resource +:+ " permission set group in Salesforce")],
   None, None).

Definition permissionSetGroup_Grants (resource : Resource) (token : PageToken) : M (synced Grant) :=
  sync_read (GetPermissionSetGroupAssignments (rid_Resource (res_Id resource)) (pt_Token token)
               (pt_Size token)) (map (psg_member_grant resource)).

#[export] Instance permissionSetGroup_syncer : ResourceSyncer permissionSetGroupBuilder := {|
  syncer_ResourceType _ := resourceTypePermissionSetGroup;
  syncer_List _ := permissionSetGroup_List;
  syncer_Entitlements _ resource _ := mret (permissionSetGroup_Entitlements resource);
  syncer_Grants _ := permissionSetGroup_Grants;
  syncer_StaticEntitlements := None;
|}.

#[export] Instance permissionSetGroup_reads : ReadOnlySyncer permissionSetGroupBuilder.
Proof. split; intros; simpl; unfold permissionSetGroup_List, permissionSetGroup_Grants; walk. Qed.

#[export] Instance permissionSetGroup_typed : TypedSyncer permissionSetGroupBuilder.
Proof.
  refine {| static_withdrawn _ _ _ := False |}; intros; apply returns_sync_read; intros l; apply Forall_map_all; intros a; [done|offered].
Qed.

Definition permissionSetGroup_Grant (principal : ResourceId) (entitlement : Entitlement) :
    M (list Grant * annotations * error) :=
  if negb (is_user principal) then
    mret ([], [], Some (EMsg ("baton-salesforce: resource type " +:+ rid_ResourceType principal
                              +:+ " is not supported")))
  else
    match ent_Resource entitlement with
    | None => go_panic nil_dereference
    | Some resource =>
        let userID := rid_Resource principal in
        let permissionSetGroupID := rid_Resource (res_Id resource) in
        '(existing, err) ← GetOnePermissionSetGroupAssignment userID permissionSetGroupID;
        match err, existing with
        | Some err, _ => mret ([], [], Some err)
        | None, Some _ => mret ([], [AGrantAlreadyExists], None)
        | None, None =>
            '(_, err) ← AddUserToPermissionSetGroup userID permissionSetGroupID;
            match err with
            | Some err => mret ([], [], Some err)
            | None =>
                mret ([NewGrant resource permissionSetGroupMemberEntitlementName principal], [], None)
            end
        end
    end.

Definition permissionSetGroup_Revoke (grant : Grant) : M (annotations * error) :=
  if negb (is_user (grant_Principal grant)) then
    mret ([], Some (EMsg ("baton-salesforce: resource type "
                          +:+ rid_ResourceType (grant_Principal grant) +:+ " is not supported")))
  else
    match ent_Resource (grant_Entitlement grant) with
    | None => go_panic nil_dereference
    | Some resource =>
        '(existing, err) ← GetOnePermissionSetGroupAssignment (rid_Resource (grant_Principal grant))
                             (rid_Resource (res_Id resource));
        match err, existing with
        | Some err, _ => mret ([], Some err)
        | None, None => mret ([AGrantAlreadyRevoked], None)
        | None, Some existing =>
            '(_, err) ← RemoveUserFromPermissionSetGroup (pa_ID existing);
            match err with
            | Some err => mret ([], Some err)
            | None => mret ([], None)
            end
        end
    end.
End permissions.

(** ** The two phases of a permission set's grants *)

(** A page token of the API, as opposed to one of the second phase. *)
Definition api_token (tok : string) : Prop := strings_HasPrefix tok permPsgPageTokenPrefix = false.

Section phases.
Context `{Env} (resource : Resource) (size : Z).

Definition assignment_pages := read_pages api_token
  (fun tok => GetPermissionSetAssignments (rid_Resource (res_Id resource)) tok size).
Definition component_pages := read_pages (fun _ => True)
  (fun tok => GetPermissionSetGroupComponentsByPermissionSet (rid_Resource (res_Id resource)) tok size).

Lemma second_phase tok w components w' :
  component_pages tok w components w' ->
  sync_pages (permission_Grants resource) size (permPsgPageTokenPrefix +:+ tok) w
    (map (component_grant resource) components) w'.
Proof.
  induction 1 as [tok w l rl w' Hread|tok w l next rl w1 l' w' Hread Hne _ _ IH].
  all: pose proof (HasPrefix_app permPsgPageTokenPrefix tok) as Hprefix.
  - eapply sync_last. unfold permission_Grants. cbn [pt_Token pt_Size].
    rewrite Hprefix, TrimPrefix_app. by rewrite (GoM_bind_run _ _ _ _ _ Hread).
  - rewrite map_app. eapply (sync_more _ _ _ _ _ (permPsgPageTokenPrefix +:+ next)); [|done|exact IH].
    unfold permission_Grants. cbn [pt_Token pt_Size].
    rewrite Hprefix, TrimPrefix_app, (GoM_bind_run _ _ _ _ _ Hread).
    unfold next_psg_token. by destruct (String.eqb_spec next "").
Qed.

Lemma first_phase tok w assignments w1 components w2 :
  assignment_pages tok w assignments w1 -> api_token tok -> component_pages "" w1 components w2 ->
  sync_pages (permission_Grants resource) size tok w
    (map (assignment_grant resource) assignments ++ map (component_grant resource) components) w2.
Proof.
  intros Hpages Htok Hcomps. revert Htok.
  induction Hpages as [tok w l rl w1 Hread|tok w l next rl w1 l' w' Hread Hne Hok _ IH]; intros Htok.
  - apply second_phase in Hcomps. eapply (sync_more _ _ _ _ _ (permPsgPageTokenPrefix +:+ "")); [|done|exact Hcomps].
    unfold permission_Grants. cbn [pt_Token pt_Size]. rewrite Htok.
    by rewrite (GoM_bind_run _ _ _ _ _ Hread).
  - rewrite map_app, <-app_assoc. eapply sync_more; [|exact Hne|by apply IH].
    unfold permission_Grants. cbn [pt_Token pt_Size]. rewrite Htok, (GoM_bind_run _ _ _ _ _ Hread).
    unfold next_user_token. by destruct (String.eqb_spec next "").
Qed.
End phases.

(** ** Properties *)

(** The sync of a permission set's grants comes to an end and misses nothing.
    When the API pages through the users assigned to the set and then through the
    groups that contain it, following the connector's page tokens from the
    first call on visits exactly those pages, in that order: all users' grants,
    then all groups' expandable grants, and no token after the last. *)
Theorem permission_Grants_complete `{Env} resource size w assignments w1 components w2 :
  assignment_pages resource size "" w assignments w1 ->
  component_pages resource size "" w1 components w2 ->
  sync_pages (permission_Grants resource) size "" w
    (map (assignment_grant resource) assignments ++ map (component_grant resource) components) w2.
Proof. intros Hassigned Hcomps. by eapply first_phase. Qed.

(** Granting and revoking a permission set group is idempotent: a user who is
    in the group is not added again, one who is not is not removed, and
    otherwise exactly one record is created, or the one there is deleted. *)
Theorem permissionSetGroup_idempotent `{Env} client principal ent g resource w existing w1 :
  online client w -> url_ok client = true ->
  is_user principal = true -> ent_Resource ent = Some resource ->
  grant_Principal g = principal -> ent_Resource (grant_Entitlement g) = Some resource ->
  let userID := rid_Resource principal in
  let groupID := rid_Resource (res_Id resource) in
  GetOnePermissionSetGroupAssignment userID groupID w = (Returns (existing, None), w1) ->
  match existing with
  | Some assignment =>
      permissionSetGroup_Grant principal ent w = (Returns ([], [AGrantAlreadyExists], None), w1)
      /\ (pa_ID assignment <> "" -> path_safe (pa_ID assignment) = true ->
          w_log (permissionSetGroup_Revoke g w).2
          = w_log w1 ++ [delete_request client "PermissionSetAssignment" (pa_ID assignment)])
  | None =>
      w_log (permissionSetGroup_Grant principal ent w).2
      = w_log w1 ++ [post_request client "PermissionSetAssignment"
          {["AssigneeId" := VString userID; "PermissionSetGroupId" := VString groupID]}]
      /\ permissionSetGroup_Revoke g w = (Returns ([AGrantAlreadyRevoked], None), w1)
  end.
Proof.
  intros Hw Hok Hu Hres Hp Hgres userID groupID Hrun.
  pose proof (runs_GetOnePermissionSetGroupAssignment (fun _ => True) (fun _ _ => I) userID groupID w) as Hruns.
  rewrite Hrun in Hruns. pose proof (online_runs client (fun _ => True) w w1 Hruns Hw) as Hw1.
  unfold permissionSetGroup_Grant, permissionSetGroup_Revoke. rewrite Hp, Hu, Hres, Hgres. cbn [negb].
  fold userID groupID. rewrite !(GoM_bind_run _ _ _ _ _ Hrun).
  destruct existing as [assignment|]; cbn beta iota; (split; [|try done]).
  - done.
  - intros Hid Hids. rewrite bind_quiet by walk. apply DeleteObject_log; [done..|url_parses].
  - rewrite bind_quiet by walk. apply CreateObject_fields_log; [done..|simpl; plain_keys].
Qed.

Section permission_witness.
#[local] Existing Instance tape_env.

Definition some_permission : Resource := NewResource "P" resourceTypePermissionSet "0PS1" None NoTrait.
Definition next_page : string := "/services/data/v54.0/query/01g-100".
Definition assigned_json (id : string) : json := JObj [("Id", JStr id); ("AssigneeId", JStr "005A")].
Definition component_json : json :=
  JObj [("Id", JStr "0PGC1"); ("IsDeleted", JBool false); ("PermissionSetGroupId", JStr "0PG1")].
(** Two pages of users, one of groups. *)
Definition paged_world : World := tape_world
  [ok_json (page_json [assigned_json "0Pa1"] false next_page);
   ok_json (page_json [assigned_json "0Pa2"] true ""); ok_json (page_json [component_json] true "")].
Definition paged_world_1 := (GetPermissionSetAssignments "0PS1" "" 100 paged_world).2.
Definition paged_world_2 := (GetPermissionSetAssignments "0PS1" next_page 100 paged_world_1).2.
Definition paged_world_3 :=
  (GetPermissionSetGroupComponentsByPermissionSet "0PS1" "" 100 paged_world_2).2.
Definition assigned (id : string) : PermissionSetAssignment :=
  {| pa_ID := id; pa_UserID := "005A"; pa_PermissionSetID := ""; pa_PermissionSetGroupID := "";
     pa_IsActive := false |}.
Definition component : PermissionSetGroupComponent :=
  {| psc_ID := "0PGC1"; psc_IsDeleted := false; psc_PermissionSetGroupID := "0PG1"; psc_PermissionSetID := "" |}.

Lemma permission_Grants_complete_witness :
  sync_pages (permission_Grants some_permission) 100 "" paged_world
    [assignment_grant some_permission (assigned "0Pa1"); assignment_grant some_permission (assigned "0Pa2");
     component_grant some_permission component] paged_world_3.
Proof.
  refine (permission_Grants_complete some_permission 100 paged_world [assigned "0Pa1"; assigned "0Pa2"]
    paged_world_2 [component] paged_world_3 _ _).
  - refine (read_more _ _ _ _ [assigned "0Pa1"] next_page None paged_world_1 [assigned "0Pa2"] _ _ _ _ _);
      [reads|discriminate|reflexivity|].
    refine (read_last _ _ _ _ _ None _ _). reads.
  - refine (read_last _ _ _ _ _ None _ _). reads.
Defined.

Definition some_group : Resource := NewResource "G" resourceTypePermissionSetGroup "0PG1" None NoTrait.
Definition group_ent : Entitlement :=
  NewAssignmentEntitlement (Some some_group) permissionSetGroupMemberEntitlementName [resourceTypeUser] "" "".
Definition empty_world : World := tape_world [ok_json (page_json [] true "")].

Lemma permissionSetGroup_idempotent_witness :
  permissionSetGroup_Revoke (NewGrant some_group "member" (user_principal "005A")) empty_world
  = (Returns ([AGrantAlreadyRevoked], None), (GetOnePermissionSetGroupAssignment "005A" "0PG1" empty_world).2).
Proof.
  refine (proj2 (permissionSetGroup_idempotent sf_client (user_principal "005A") group_ent
    (NewGrant some_group "member" (user_principal "005A")) some_group empty_world None
    (GetOnePermissionSetGroupAssignment "005A" "0PG1" empty_world).2 _ eq_refl
    eq_refl eq_refl eq_refl eq_refl _)).
  - vm_compute. eauto.
  - reads.
Defined.
End permission_witness.
