(* ===== verification/Territories.v ===== *)
(** * Territories: [pkg/connector/territories.go]

    A territory has one entitlement for membership and one per role of the
    [RoleInTerritory2] picklist; both live on the one association record of user
    and territory. *)
From S2P Require Export Sdk.
From Stdlib Require Import Ascii.

Definition territoryMemberPermission : string := "member".
Definition territoryRolePermissionPrefix : string := "role:".

Record territoryBuilder := {}.
Definition newTerritoryBuilder := Build_territoryBuilder.

Definition territoryResource (record : SObject) : Resource :=
  let parentID := StringField record "ParentTerritory2Id" in
  NewResource (StringField record "Name") resourceTypeTerritory (SObject_ID record)
    (if String.eqb parentID "" then None
     else Some {| rid_ResourceType := rt_Id resourceTypeTerritory; rid_Resource := parentID |}) NoTrait.

Definition parseTerritoryEntitlementID (eID : string) : go_error + string :=
  match strings_SplitN eID ":" 3 with
  | [_; _; permission] => inr permission
  | _ => inl (EMsg ("baton-salesforce: unexpected territory entitlement ID: " +:+ eID))
  end.

Definition role_slug (role : string) : string := territoryRolePermissionPrefix +:+ role.

Definition member_entitlement : Entitlement :=
  NewAssignmentEntitlement None territoryMemberPermission [resourceTypeUser] "Member"
    "Assigned to this territory in Salesforce".

Definition role_entitlement (role : string) : Entitlement :=
  NewAssignmentEntitlement None (role_slug role) [resourceTypeUser] role
    ("Has the " +:+ role +:+ " role in this territory in Salesforce").

(** The grants of one association. *)
Definition territory_grants (resource : Resource) (member : UserTerritory2Association) : list Grant :=
  let principalID := user_principal (ut_UserId member) in
  NewGrant resource territoryMemberPermission principalID ::
  (if String.eqb (ut_RoleInTerritory2 member) "" then []
   else [NewGrant resource (role_slug (ut_RoleInTerritory2 member)) principalID]).

Section territories.
Context `{Env}.

Abbreviation M := (GoM World).

Definition territory_List (token : PageToken) : M (synced Resource) :=
  sync_read (GetTerritories (pt_Token token) (pt_Size token)) (map territoryResource).

Definition territory_Entitlements : synced Entitlement :=
  ([], Some {| so_NextPageToken := ""; so_Annotations := [] |}, None).

Definition territory_StaticEntitlements : M (synced Entitlement) :=
  '(roles, ratelimitData, err) ← GetTerritoryRoles;
  let outputAnnotations := WithRateLimitAnnotations [ratelimitData] in
  match err with
  | Some err =>
      mret (sync_failed outputAnnotations
              (EWrap "baton-salesforce: territories: failed to get static entitlements: " err))
  | None => mret (sync_page (member_entitlement :: map role_entitlement roles) "" outputAnnotations)
  end.

Definition territory_Grants (resource : Resource) (token : PageToken) : M (synced Grant) :=
  sync_read (GetTerritoryMembers (rid_Resource (res_Id resource)) (pt_Token token) (pt_Size token))
    (fun members => members ≫= territory_grants resource).

#[export] Instance territory_syncer : ResourceSyncer territoryBuilder := {|
  syncer_ResourceType _ := resourceTypeTerritory;
  syncer_List _ := territory_List;
  syncer_Entitlements _ _ _ := mret territory_Entitlements;
  syncer_Grants _ := territory_Grants;
  syncer_StaticEntitlements := Some (fun _ => territory_StaticEntitlements);
|}.

#[export] Instance territory_reads : ReadOnlySyncer territoryBuilder.
Proof. split; intros; simpl; unfold territory_List, territory_Grants; walk. Qed.

(** A grant for what the static entitlements offer, unless it has been withdrawn. *)
Definition statically_offered (resource : Resource) (withdrawn : World -> string -> Prop) (g : Grant) : Prop :=
  ent_Resource (grant_Entitlement g) = Some resource
  /\ exists slug, ent_Id (grant_Entitlement g) = NewEntitlementID (Some resource) slug
       /\ forall w ents so w', territory_StaticEntitlements w = (Returns (ents, so, None), w') ->
            slug ∈ map ent_Slug ents \/ withdrawn w slug.

(** A role that an association still has and Salesforce no longer lists. *)
Definition role_withdrawn (w : World) (slug : string) : Prop :=
  exists role, slug = role_slug role
    /\ forall roles rl w', GetTerritoryRoles w = (Returns (roles, rl, None), w') -> role ∉ roles.

(** The static entitlements: membership, and each role there is. *)
Lemma StaticEntitlements_slugs w ents so w' :
  territory_StaticEntitlements w = (Returns (ents, so, None), w') ->
  exists roles rl, GetTerritoryRoles w = (Returns (roles, rl, None), w')
    /\ map ent_Slug ents = territoryMemberPermission :: map role_slug roles.
Proof.
  intros Hrun. unfold territory_StaticEntitlements in Hrun.
  apply GoM_bind_inv in Hrun as ([[roles rl] [err|]] & w1 & Hroles & Hrun); [done|].
  injection Hrun as <- <- <-. exists roles, rl. split; [done|]. cbn. f_equal.
  by rewrite map_map.
Qed.

Lemma member_offered resource principal :
  statically_offered resource role_withdrawn (NewGrant resource territoryMemberPermission principal).
Proof.
  split; [done|]. exists territoryMemberPermission. split; [done|].
  intros w ents so w' Hrun. left.
  destruct (StaticEntitlements_slugs _ _ _ _ Hrun) as (roles & rl & _ & ->). by left.
Qed.

Lemma role_offered resource role principal :
  statically_offered resource role_withdrawn (NewGrant resource (role_slug role) principal).
Proof.
  split; [done|]. exists (role_slug role). split; [done|].
  intros w ents so w' Hrun.
  destruct (StaticEntitlements_slugs _ _ _ _ Hrun) as (roles & rl & Hroles & ->).
  destruct (decide (role ∈ roles)) as [Hin|Hnin].
  - left. right. apply list_elem_of_In, in_map, list_elem_of_In, Hin.
  - right. exists role. split; [done|]. intros roles' rl' w'' Hroles'. rewrite Hroles in Hroles'. by injection Hroles' as <- <- <-.
Qed.

(** Offered by slug: by one of the entitlements. *)
Lemma static_grant_offered (resource : Resource) (id : string) :
  (exists slug, id = NewEntitlementID (Some resource) slug
     /\ forall w ents so w', territory_StaticEntitlements w = (Returns (ents, so, None), w') ->
          slug ∈ map ent_Slug ents \/ role_withdrawn w slug) ->
  forall w ents so w', territory_StaticEntitlements w = (Returns (ents, so, None), w') ->
  (exists ent, ent ∈ ents /\ id = NewEntitlementID (Some resource) (ent_Slug ent))
  \/ (exists role, id = NewEntitlementID (Some resource) (role_slug role)
       /\ forall roles rl w', GetTerritoryRoles w = (Returns (roles, rl, None), w') -> role ∉ roles).
Proof.
  intros (slug & -> & Hoff) w ents so w' Hrun.
  destruct (Hoff w ents so w' Hrun) as [Hin|(role & -> & Hnone)]; [left|right; by exists role].
  apply list_elem_of_In, in_map_iff in Hin as (ent & <- & Hin). exists ent.
  by split; [apply list_elem_of_In|].
Qed.

#[export] Instance territory_typed : TypedSyncer territoryBuilder.
Proof.
  refine {| static_withdrawn _ := role_withdrawn |}; intros b.
  - intros pt. apply returns_sync_read. intros l. by apply Forall_map_all.
  - intros resource pt. apply returns_sync_read. intros l.
    induction l as [|m l IH]; [constructor|]. cbn [mbind list_bind]. apply Forall_app_2; [|exact IH].
    unfold territory_grants. constructor; [apply member_offered|].
    destruct (String.eqb _ ""); repeat constructor. apply role_offered.
Defined.

Lemma runs_StaticEntitlements : moves (runs reads_only) territory_StaticEntitlements.
Proof. unfold territory_StaticEntitlements. walk. Qed.

(** Granting membership to a user who has it, or not. *)
Definition grant_membership (principal : ResourceId) (resource : Resource) (membership : option SObject) :
    M (list Grant * annotations * error) :=
  match membership with
  | Some _ => mret ([], [AGrantAlreadyExists], None)
  | None =>
      '(ratelimitData, err) ← AddUserToTerritory (rid_Resource principal) (rid_Resource (res_Id resource));
      let outputAnnotations := WithRateLimitAnnotations [ratelimitData] in
      match err with
      | Some err =>
          if errors_Is err ErrObjectAlreadyExists then mret ([], [AGrantAlreadyExists], None)
          else mret ([], outputAnnotations, Some err)
      | None =>
          mret ([NewGrant resource territoryMemberPermission principal], outputAnnotations, None)
      end
  end.

(** Granting a role: with the membership, or on the association there is. *)
Definition grant_role (principal : ResourceId) (resource : Resource) (role : string)
    (membership : option SObject) : M (list Grant * annotations * error) :=
  match membership with
  | None =>
      '(ratelimitData, err) ←
        AddUserToTerritoryWithRole (rid_Resource principal) (rid_Resource (res_Id resource)) role;
      let outputAnnotations := WithRateLimitAnnotations [ratelimitData] in
      match err with
      | Some err =>
          if errors_Is err ErrObjectAlreadyExists then mret ([], [AGrantAlreadyExists], None)
          else mret ([], outputAnnotations, Some err)
      | None =>
          mret ([NewGrant resource territoryMemberPermission principal;
                 NewGrant resource (role_slug role) principal], outputAnnotations, None)
      end
  | Some membership =>
      if String.eqb (StringField membership "RoleInTerritory2") role then
        mret ([], [AGrantAlreadyExists], None)
      else
        '(ratelimitData, err) ← SetUserTerritoryRole (SObject_ID membership) role;
        let outputAnnotations := WithRateLimitAnnotations [ratelimitData] in
        match err with
        | Some err => mret ([], outputAnnotations, Some err)
        | None => mret ([NewGrant resource (role_slug role) principal], outputAnnotations, None)
        end
  end.

Definition territory_Grant (principal : ResourceId) (ent : Entitlement) :
    M (list Grant * annotations * error) :=
  if negb (is_user principal) then
    mret ([], [], Some (EMsg "baton-salesforce: only users can be granted territory membership"))
  else
    match ent_Resource ent with
    | None => go_panic nil_dereference
    | Some resource =>
        match parseTerritoryEntitlementID (ent_Id ent) with
        | inl err => mret ([], [], Some err)
        | inr permission =>
            '(membership, ratelimitData, err) ←
              GetUserTerritoryAssociation (rid_Resource principal) (rid_Resource (res_Id resource));
            match err with
            | Some err =>
                if negb (errors_Is err ErrObjectNotFound) then
                  mret ([], WithRateLimitAnnotations [ratelimitData], Some err)
                else if String.eqb permission territoryMemberPermission then
                  grant_membership principal resource membership
                else
                  grant_role principal resource
                    (strings_TrimPrefix permission territoryRolePermissionPrefix) membership
            | None =>
                if String.eqb permission territoryMemberPermission then
                  grant_membership principal resource membership
                else
                  grant_role principal resource
                    (strings_TrimPrefix permission territoryRolePermissionPrefix) membership
            end
        end
    end.

Definition territory_Revoke (g : Grant) : M (annotations * error) :=
  match ent_Resource (grant_Entitlement g) with
  | None => go_panic nil_dereference
  | Some resource =>
      let userID := rid_Resource (grant_Principal g) in
      let territoryID := rid_Resource (res_Id resource) in
      match parseTerritoryEntitlementID (ent_Id (grant_Entitlement g)) with
      | inl err => mret ([], Some err)
      | inr permission =>
          if String.eqb permission territoryMemberPermission then
            '(ratelimitData, err) ← RemoveUserFromTerritory userID territoryID;
            match err with
            | Some err =>
                if errors_Is err ErrObjectNotFound then mret ([AGrantAlreadyRevoked], None)
                else mret (WithRateLimitAnnotations [ratelimitData], Some err)
            | None => mret (WithRateLimitAnnotations [ratelimitData], None)
            end
          else
            let role := strings_TrimPrefix permission territoryRolePermissionPrefix in
            '(ratelimitData, err) ← ClearUserTerritoryRole userID territoryID role;
            match err with
            | Some err =>
                if errors_Is err ErrObjectNotFound || errors_Is err ErrRoleAlreadyCleared
                   || errors_Is err ErrRoleMismatch then mret ([AGrantAlreadyRevoked], None)
                else mret (WithRateLimitAnnotations [ratelimitData], Some err)
            | None => mret (WithRateLimitAnnotations [ratelimitData], None)
            end
      end
  end.
End territories.

(** ** Entitlement ids *)

Lemma parse_NewEntitlementID resource permission :
  no_char ":" (rid_ResourceType (res_Id resource)) = true ->
  no_char ":" (rid_Resource (res_Id resource)) = true ->
  parseTerritoryEntitlementID (NewEntitlementID (Some resource) permission) = inr permission.
Proof.
  intros Ht Hr. unfold parseTerritoryEntitlementID, NewEntitlementID.
  change (":" +:+ ?s) with (String ":" s). cbn [strings_SplitN].
  rewrite (split_first_app ":" _ _ Ht). cbn [strings_SplitN].
  change (":" +:+ permission) with (String ":" permission). by rewrite (split_first_app ":" _ _ Hr).
Qed.

Lemma parse_NewGrant record permission principal :
  no_char ":" (SObject_ID record) = true ->
  parseTerritoryEntitlementID (ent_Id (grant_Entitlement (NewGrant (territoryResource record) permission principal)))
  = inr permission.
Proof. intros Hid. by apply (parse_NewEntitlementID (territoryResource record)). Qed.

(** The association lookup's answer when it found this, or nothing. *)
Definition association_answer (found : option SObject) : error :=
  match found with Some _ => None | None => Some (ESentinel ErrObjectNotFound) end.

(** ** Properties *)

(** C34: the grants of a territory's member say what a revoke or a grant reads out
    of them: a territory record's grants are for membership and, exactly when the
    association has a role, for that role; the permission is recovered from the
    entitlement id whatever the role is called, colons included, and the role from
    the permission. *)
Theorem territory_grants_parse record member :
  no_char ":" (SObject_ID record) = true ->
  let role := ut_RoleInTerritory2 member in
  map (fun g => (parseTerritoryEntitlementID (ent_Id (grant_Entitlement g)), grant_Principal g))
    (territory_grants (territoryResource record) member)
  = map (fun permission => (inr permission, user_principal (ut_UserId member)))
      (territoryMemberPermission :: if String.eqb role "" then [] else [role_slug role])
  /\ strings_TrimPrefix (role_slug role) territoryRolePermissionPrefix = role
  /\ role_slug role <> territoryMemberPermission.
Proof.
  intros Hid role. split_and!; [|done|done]. unfold territory_grants. fold role. cbn [map].
  rewrite parse_NewGrant by done. f_equal. destruct (String.eqb role ""); [done|]. cbn [map].
  by rewrite parse_NewGrant.
Qed.

Section provisioning.
Context `{Env} (client : simple_client) (Hok : url_ok client = true).

Lemma association_online u t w r w1 :
  online client w -> GetUserTerritoryAssociation u t w = (r, w1) -> online client w1.
Proof.
  intros Hw Hrun.
  pose proof (runs_GetUserTerritoryAssociation (fun _ => True) (fun _ _ => I) u t w) as Hruns.
  rewrite Hrun in Hruns. by apply (online_runs client (fun _ => True) w).
Qed.

(** The removals, once the association has been looked up. *)
Lemma RemoveUserFromTerritory_found u t w found rl w1 :
  GetUserTerritoryAssociation u t w = (Returns (found, rl, association_answer found), w1) ->
  RemoveUserFromTerritory u t w =
    match found with
    | Some m => DeleteObject TableNameUserTerritory2Assoc (SObject_ID m) w1
    | None => (Returns (rl, Some (ESentinel ErrObjectNotFound)), w1)
    end.
Proof.
  intros Hrun. unfold RemoveUserFromTerritory. unfold GetUserTerritoryAssociation in Hrun.
  rewrite (GoM_bind_run _ _ _ _ _ Hrun). by destruct found.
Qed.

Lemma ClearUserTerritoryRole_found u t role w found rl w1 :
  GetUserTerritoryAssociation u t w = (Returns (found, rl, association_answer found), w1) ->
  ClearUserTerritoryRole u t role w =
    match found with
    | Some m =>
        if String.eqb (StringField m "RoleInTerritory2") "" then
          (Returns (rl, Some (ESentinel ErrRoleAlreadyCleared)), w1)
        else if negb (String.eqb (StringField m "RoleInTerritory2") role) then
          (Returns (rl, Some (ESentinel ErrRoleMismatch)), w1)
        else SetUserTerritoryRole (SObject_ID m) "" w1
    | None => (Returns (rl, Some (ESentinel ErrObjectNotFound)), w1)
    end.
Proof.
  intros Hrun. unfold ClearUserTerritoryRole. unfold GetUserTerritoryAssociation in Hrun.
  rewrite (GoM_bind_run _ _ _ _ _ Hrun). destruct found as [m|]; [|done]. cbn.
  by destruct (String.eqb (StringField m "RoleInTerritory2") ""),
    (String.eqb (StringField m "RoleInTerritory2") role).
Qed.
End provisioning.

(** Granting a territory permission is idempotent and touches one record.  A
    member who is granted membership, or the role there already is, gets the
    answer that the grant exists and nothing is written; a member's role is
    changed on the association there is; somebody else gets a new association,
    with the role when a role is granted.  No case writes twice. *)
Theorem territory_Grant_table `{Env} client principal ent resource permission w membership rl w1 :
  online client w -> url_ok client = true ->
  is_user principal = true -> ent_Resource ent = Some resource ->
  parseTerritoryEntitlementID (ent_Id ent) = inr permission ->
  let userID := rid_Resource principal in
  let territoryID := rid_Resource (res_Id resource) in
  let role := strings_TrimPrefix permission territoryRolePermissionPrefix in
  let member := String.eqb permission territoryMemberPermission in
  GetUserTerritoryAssociation userID territoryID w
    = (Returns (membership, rl, association_answer membership), w1) ->
  match membership with
  | Some m =>
      if member || String.eqb (StringField m "RoleInTerritory2") role then
        territory_Grant principal ent w = (Returns ([], [AGrantAlreadyExists], None), w1)
      else SObject_ID m <> "" -> path_safe (SObject_ID m) = true ->
        w_log (territory_Grant principal ent w).2
        = w_log w1 ++ [patch_request client "UserTerritory2Association" (SObject_ID m)
                         {["RoleInTerritory2" := VString role]}]
  | None =>
      w_log (territory_Grant principal ent w).2
      = w_log w1 ++ [post_request client "UserTerritory2Association"
          (if member then {["UserId" := VString userID; "Territory2Id" := VString territoryID]}
           else {["UserId" := VString userID; "Territory2Id" := VString territoryID;
                  "RoleInTerritory2" := VString role]})]
  end.
Proof.
  intros Hw Hok Hu Hres Hp userID territoryID role member Hrun.
  pose proof (association_online client _ _ _ _ _ Hw Hrun) as Hw1.
  unfold territory_Grant. rewrite Hu, Hres, Hp. cbn [negb].
  fold userID territoryID role member. rewrite (GoM_bind_run _ _ _ _ _ Hrun).
  destruct membership as [m|]; cbn; destruct member; cbn [orb].
  - done.
  - destruct (String.eqb_spec (StringField m "RoleInTerritory2") role) as [Heq|Hne].
    + done.
    + intros Hid Hids. rewrite bind_quiet by walk. by apply SetUserTerritoryRole_log.
  - rewrite bool_decide_eq_true_2 by done. cbn [negb]. rewrite bind_quiet by walk. apply create_association_log; [done..|simpl; plain_keys].
  - rewrite bool_decide_eq_true_2 by done. cbn [negb]. rewrite bind_quiet by walk. apply create_association_log; [done..|simpl; plain_keys].
Qed.

(** Revoking a territory permission removes no more than was granted.  The role
    is cleared only while it is the member's role and never takes the membership
    with it; membership is revoked by deleting the one association; what is not
    there (no association, no role, another role) is answered as already revoked
    and nothing is written. *)
Theorem territory_Revoke_table `{Env} client g resource permission w found rl w1 :
  online client w -> url_ok client = true ->
  ent_Resource (grant_Entitlement g) = Some resource ->
  parseTerritoryEntitlementID (ent_Id (grant_Entitlement g)) = inr permission ->
  GetUserTerritoryAssociation (rid_Resource (grant_Principal g)) (rid_Resource (res_Id resource)) w
    = (Returns (found, rl, association_answer found), w1) ->
  let role := strings_TrimPrefix permission territoryRolePermissionPrefix in
  match found with
  | Some m =>
      SObject_ID m <> "" -> path_safe (SObject_ID m) = true ->
      if String.eqb permission territoryMemberPermission then
        w_log (territory_Revoke g w).2
        = w_log w1 ++ [delete_request client "UserTerritory2Association" (SObject_ID m)]
      else if negb (String.eqb role "") && String.eqb (StringField m "RoleInTerritory2") role then
        w_log (territory_Revoke g w).2
        = w_log w1 ++ [patch_request client "UserTerritory2Association" (SObject_ID m)
                         {["RoleInTerritory2" := VString ""]}]
      else territory_Revoke g w = (Returns ([AGrantAlreadyRevoked], None), w1)
  | None => territory_Revoke g w = (Returns ([AGrantAlreadyRevoked], None), w1)
  end.
Proof.
  intros Hw Hok Hres Hp Hrun role.
  pose proof (association_online client _ _ _ _ _ Hw Hrun) as Hw1.
  pose proof (RemoveUserFromTerritory_found _ _ _ _ _ _ Hrun) as Hremove.
  pose proof (ClearUserTerritoryRole_found _ _ role _ _ _ _ Hrun) as Hclear.
  unfold territory_Revoke. rewrite Hres, Hp. fold role.
  destruct found as [m|]; cbn beta iota zeta.
  - intros Hid Hids. destruct (String.eqb permission territoryMemberPermission).
    + rewrite bind_quiet, Hremove by walk. apply DeleteObject_log; [done..|url_parses].
    + destruct (String.eqb_spec (StringField m "RoleInTerritory2") "") as [He|He].
      * rewrite (GoM_bind_run _ _ _ _ _ Hclear). rewrite He. by destruct role.
      * destruct (String.eqb_spec (StringField m "RoleInTerritory2") role) as [Hm|Hm];
          cbn [negb] in Hclear; rewrite ?andb_false_r.
        -- destruct (String.eqb_spec role "") as [Hr|Hr]; [congruence|]. cbn [negb andb].
           rewrite bind_quiet, Hclear by walk. by apply SetUserTerritoryRole_log.
        -- by rewrite (GoM_bind_run _ _ _ _ _ Hclear).
  - destruct (String.eqb permission territoryMemberPermission).
    + by rewrite (GoM_bind_run _ _ _ _ _ Hremove).
    + by rewrite (GoM_bind_run _ _ _ _ _ Hclear).
Qed.

Section territory_witness.
#[local] Existing Instance tape_env.

Definition association_json (role : string) : json :=
  JObj [("Id", JStr "0Ma1"); ("UserId", JStr "005A"); ("RoleInTerritory2", JStr role)].
Definition looked_up (role : string) : World := tape_world [ok_json (page_json [association_json role] true "")].
Definition west_territory : Resource := territoryResource {["Id" := VString "0MI1"; "Name" := VString "West"]}.
Definition west_role (role : string) : Entitlement :=
  NewAssignmentEntitlement (Some west_territory) (role_slug role) [resourceTypeUser] role "".
Definition lookup_assoc w := GetUserTerritoryAssociation "005A" "0MI1" w.
Definition found_assoc w : SObject := match (lookup_assoc w).1 with Returns (Some m, _, _) => m | _ => ∅ end.

Lemma looked_up_Seller :
  lookup_assoc (looked_up "Seller")
  = (Returns (Some (found_assoc (looked_up "Seller")), None, None), (lookup_assoc (looked_up "Seller")).2)
  /\ StringField (found_assoc (looked_up "Seller")) "RoleInTerritory2" = "Seller"
  /\ SObject_ID (found_assoc (looked_up "Seller")) = "0Ma1".
Proof.
  split_and!; [|vm_compute; reflexivity..].
  reads.
Qed.

Lemma territory_grants_parse_witness :
  map (fun g => parseTerritoryEntitlementID (ent_Id (grant_Entitlement g)))
    (territory_grants (territoryResource {["Id" := VString "0MI1"]})
       {| ut_ID := "0Ma1"; ut_UserId := "005A"; ut_Territory2Id := "0MI1"; ut_RoleInTerritory2 := "a:b" |})
  = [inr "member"; inr "role:a:b"].
Proof.
  pose proof (territory_grants_parse {["Id" := VString "0MI1"]}
    {| ut_ID := "0Ma1"; ut_UserId := "005A"; ut_Territory2Id := "0MI1"; ut_RoleInTerritory2 := "a:b" |} eq_refl)
    as [Hparse _].
  apply (f_equal (map fst)) in Hparse. rewrite map_map in Hparse. exact Hparse.
Defined.

(** The role changes from Seller to Manager. *)
Lemma territory_Grant_table_witness :
  w_log (territory_Grant (user_principal "005A") (west_role "Manager") (looked_up "Seller")).2
  = w_log (lookup_assoc (looked_up "Seller")).2
      ++ [patch_request sf_client "UserTerritory2Association" "0Ma1"
            {["RoleInTerritory2" := VString "Manager"]}].
Proof.
  destruct looked_up_Seller as (Hl & Hrole & Hid).
  assert (online sf_client (looked_up "Seller")) as Hw by (vm_compute; eauto).
  pose proof (territory_Grant_table sf_client (user_principal "005A") (west_role "Manager") west_territory
    "role:Manager" (looked_up "Seller") (Some (found_assoc (looked_up "Seller"))) None
    (lookup_assoc (looked_up "Seller")).2 Hw eq_refl eq_refl eq_refl eq_refl Hl) as Htable.
  cbn iota in Htable. rewrite Hrole, Hid in Htable. exact (Htable ltac:(discriminate) eq_refl).
Defined.

(** A role that is not the member's is not cleared. *)
Lemma territory_Revoke_table_witness :
  territory_Revoke (NewGrant west_territory (role_slug "Manager") (user_principal "005A")) (looked_up "Seller")
  = (Returns ([AGrantAlreadyRevoked], None), (lookup_assoc (looked_up "Seller")).2).
Proof.
  destruct looked_up_Seller as (Hl & Hrole & Hid).
  assert (online sf_client (looked_up "Seller")) as Hw by (vm_compute; eauto).
  pose proof (territory_Revoke_table sf_client
    (NewGrant west_territory (role_slug "Manager") (user_principal "005A")) west_territory
    "role:Manager" (looked_up "Seller") (Some (found_assoc (looked_up "Seller"))) None
    (lookup_assoc (looked_up "Seller")).2 Hw eq_refl eq_refl eq_refl Hl) as Htable.
  cbn iota in Htable. rewrite Hrole, Hid in Htable. exact (Htable ltac:(discriminate) eq_refl).
Defined.
End territory_witness.
