(* ===== verification/Agents.v ===== *)
(** * Agents and connected applications: [pkg/connector/agents.go],
    [pkg/connector/connected_applications.go] *)
From S2P Require Export Sdk.

Record agentBuilder := {}.
Definition newAgentBuilder := Build_agentBuilder.
Record connectedApplicationBuilder := {}.
Definition newConnectedApplicationBuilder := Build_connectedApplicationBuilder.

Definition agentResource (agent : BotDefinition) : Resource :=
  let name := if String.eqb (bot_MasterLabel agent) "" then bot_DeveloperName agent
              else bot_MasterLabel agent in
  let profile : gmap string string := list_to_map
    [("id", bot_ID agent); ("developer_name", bot_DeveloperName agent);
     ("master_label", bot_MasterLabel agent)] in
  let linked := negb (String.eqb (bot_BotUserID agent) "") in
  NewResource name resourceTypeAgent (bot_ID agent) None
    (TAgent (if linked then <["bot_user_id" := bot_BotUserID agent]> profile else profile)
       (if linked then Some (user_principal (bot_BotUserID agent)) else None)).

Definition connectedApplicationResource (app : ConnectedApplication) : Resource :=
  NewResource (ca_Name app) resourceTypeConnectedApplication (ca_ID app) None
    (TApp "salesforce.connected_application").

Section agents.
Context `{Env}.

Abbreviation M := (GoM World).

Definition agent_List (token : PageToken) : M (synced Resource) :=
  '(agents, nextToken, ratelimitData, err) ← GetBotDefinitions (pt_Token token);
  let outputAnnotations := WithRateLimitAnnotations [ratelimitData] in
  match err with
  | Some err =>
      mret (sync_failed outputAnnotations (EWrap "baton-salesforce: failed to list agents: " err))
  | None => mret (sync_page (map agentResource agents) nextToken outputAnnotations)
  end.

(** It has no entitlements of its own, and no grants. *)
Definition agent_Entitlements (resource : Resource) : synced Entitlement := ([], None, None).
Definition agent_Grants (resource : Resource) : synced Grant := ([], None, None).

#[export] Instance agent_syncer : ResourceSyncer agentBuilder := {|
  syncer_ResourceType _ := resourceTypeAgent;
  syncer_List _ := agent_List;
  syncer_Entitlements _ resource _ := mret (agent_Entitlements resource);
  syncer_Grants _ resource _ := mret (agent_Grants resource);
  syncer_StaticEntitlements := None;
|}.

#[export] Instance agent_reads : ReadOnlySyncer agentBuilder.
Proof. split; intros; simpl; unfold agent_List; walk. Qed.

#[export] Instance agent_typed : TypedSyncer agentBuilder.
Proof.
  refine {| static_withdrawn _ _ _ := False |}; intros; simpl; [unfold agent_List|by apply returns_ret].
  apply returns_then. intros [[[l next] rl] [err|]]; apply returns_ret; [constructor|by apply Forall_map_all].
Qed.

Definition connectedApplication_List (token : PageToken) : M (synced Resource) :=
  sync_read (GetConnectedApplications (pt_Token token) (pt_Size token))
    (map connectedApplicationResource).

(** It has no entitlements of its own, and no grants. *)
Definition connectedApplication_Entitlements (resource : Resource) : synced Entitlement := ([], None, None).
Definition connectedApplication_Grants (resource : Resource) : synced Grant := ([], None, None).

#[export] Instance connectedApplication_syncer : ResourceSyncer connectedApplicationBuilder := {|
  syncer_ResourceType _ := resourceTypeConnectedApplication;
  syncer_List _ := connectedApplication_List;
  syncer_Entitlements _ resource _ := mret (connectedApplication_Entitlements resource);
  syncer_Grants _ resource _ := mret (connectedApplication_Grants resource);
  syncer_StaticEntitlements := None;
|}.

#[export] Instance connectedApplication_reads : ReadOnlySyncer connectedApplicationBuilder.
Proof. split; intros; simpl; unfold connectedApplication_List; walk. Qed.

#[export] Instance connectedApplication_typed : TypedSyncer connectedApplicationBuilder.
Proof.
  refine {| static_withdrawn _ _ _ := False |}; intros; simpl; [apply returns_sync_read; intros l; by apply Forall_map_all|by apply returns_ret].
Qed.
End agents.
