(* ===== verification/Config.v ===== *)
(** * Configuration: [pkg/config/config.go], [pkg/config/helper.go]

    The configuration fields, the authentication groups with the fields each
    asks for, and the configuration as the connector reads it. *)
From S2P Require Export Values.

Definition SalesforceUsernamePasswordGroup : string := "username-password-group".
Definition SalesforceOAuthGroup : string := "oauth-group".
Definition SalesforceJWTBearerGroup : string := "jwt-bearer-group".
Definition SalesforceClientCredentialsGroup : string := "client-credentials-group".

Inductive field_kind := StringField_ | BoolField_ | Oauth2Field_ | StringMapField_ | FileUploadField_.

(** A [field.SchemaField]: name, kind, required, secret, default. *)
Record config_field := {
  cf_Name : string; cf_Kind : field_kind; cf_DisplayName : string; cf_Description : string;
  cf_Required : bool; cf_Secret : bool; cf_Default : option string;
}.

Definition InstanceUrlField : config_field :=
  {| cf_Name := "instance-url"; cf_Kind := StringField_; cf_DisplayName := "Instance URL";
     cf_Description := "Your Salesforce domain, ex: acme.my.salesforce.com";
     cf_Required := true; cf_Secret := false; cf_Default := None |}.
Definition UseUsernameForEmailField : config_field :=
  {| cf_Name := "user-username-for-email"; cf_Kind := BoolField_;
     cf_DisplayName := "Use Username for Email";
     cf_Description := "Use Salesforce usernames for email";
     cf_Required := false; cf_Secret := false; cf_Default := None |}.
Definition UsernameField : config_field :=
  {| cf_Name := "salesforce-username"; cf_Kind := StringField_; cf_DisplayName := "Salesforce Username";
     cf_Description := "Salesforce account username";
     cf_Required := true; cf_Secret := false; cf_Default := None |}.
Definition PasswordField : config_field :=
  {| cf_Name := "salesforce-password"; cf_Kind := StringField_; cf_DisplayName := "Salesforce Password";
     cf_Description := "Salesforce account password";
     cf_Required := true; cf_Secret := true; cf_Default := None |}.
Definition Oauth2TokenField : config_field :=
  {| cf_Name := "oauth2-token"; cf_Kind := Oauth2Field_; cf_DisplayName := "OAuth Authentication";
     cf_Description := "The OAuth Authentication field";
     cf_Required := false; cf_Secret := false; cf_Default := None |}.
Definition SecurityTokenField : config_field :=
  {| cf_Name := "security-token"; cf_Kind := StringField_; cf_DisplayName := "Security Token";
     cf_Description := "Salesforce security token (optional if trusted IP is configured)";
     cf_Required := false; cf_Secret := true; cf_Default := None |}.
Definition SyncConnectedApps : config_field :=
  {| cf_Name := "sync-connected-apps"; cf_Kind := BoolField_; cf_DisplayName := "Sync Connected Apps";
     cf_Description := "Optionally sync access to connected apps";
     cf_Required := false; cf_Secret := false; cf_Default := None |}.
Definition SyncDeactivatedUsers : config_field :=
  {| cf_Name := "sync-deactivated-users"; cf_Kind := BoolField_;
     cf_DisplayName := "Sync Deactivated Users"; cf_Description := "Optionally sync deactivated users";
     cf_Required := false; cf_Secret := false; cf_Default := Some "true" |}.
Definition SyncNonStandardUsers : config_field :=
  {| cf_Name := "sync-non-standard-users"; cf_Kind := BoolField_;
     cf_DisplayName := "Sync Non-Standard Users";
     cf_Description := "Optionally sync non-standard user types (Customer Community, etc)";
     cf_Required := false; cf_Secret := false; cf_Default := Some "false" |}.
Definition LicenseToLeastPrivilegedProfileMapping : config_field :=
  {| cf_Name := "license-to-least-privileged-profile-mapping"; cf_Kind := StringMapField_;
     cf_DisplayName := "License to Least Privileged Profile Mapping";
     cf_Description := "Mapping of Salesforce license types to least privileged profiles";
     cf_Required := false; cf_Secret := false; cf_Default := None |}.
Definition ClientIDField : config_field :=
  {| cf_Name := "salesforce-client-id"; cf_Kind := StringField_; cf_DisplayName := "Client ID";
     cf_Description := "OAuth Client ID / Consumer Key of the Connected App or External Client App";
     cf_Required := true; cf_Secret := false; cf_Default := None |}.
Definition ClientSecretField : config_field :=
  {| cf_Name := "salesforce-client-secret"; cf_Kind := StringField_; cf_DisplayName := "Client Secret";
     cf_Description := "OAuth Client Secret / Consumer Secret";
     cf_Required := true; cf_Secret := true; cf_Default := None |}.
Definition PrivateKeyField : config_field :=
  {| cf_Name := "salesforce-private-key"; cf_Kind := FileUploadField_;
     cf_DisplayName := "Private Key (.pem)"; cf_Description := "PEM private key for JWT Bearer flow";
     cf_Required := true; cf_Secret := true; cf_Default := None |}.
Definition JWTSubjectField : config_field :=
  {| cf_Name := "salesforce-jwt-subject"; cf_Kind := StringField_; cf_DisplayName := "JWT Subject";
     cf_Description := "Salesforce username of the integration user the connector will authenticate as";
     cf_Required := true; cf_Secret := false; cf_Default := None |}.
Definition LoginURLField : config_field :=
  {| cf_Name := "salesforce-login-url"; cf_Kind := StringField_; cf_DisplayName := "Login URL";
     cf_Description := "Salesforce login URL for JWT Bearer token exchange.";
     cf_Required := false; cf_Secret := false; cf_Default := Some "https://login.salesforce.com" |}.

Definition configurationFields : list config_field :=
  [UsernameField; PasswordField; SecurityTokenField; InstanceUrlField; UseUsernameForEmailField;
   SyncConnectedApps; SyncDeactivatedUsers; SyncNonStandardUsers;
   LicenseToLeastPrivilegedProfileMapping; Oauth2TokenField; ClientIDField; ClientSecretField;
   PrivateKeyField; JWTSubjectField; LoginURLField].

(** A [field.SchemaFieldGroup]. *)
Record field_group := {
  fg_Name : string; fg_DisplayName : string; fg_HelpText : string; fg_Fields : list config_field;
  fg_Default : bool;
}.

Definition fieldGroups : list field_group :=
  [{| fg_Name := SalesforceUsernamePasswordGroup;
      fg_DisplayName := "Username and password (deprecated)";
      fg_HelpText := "Use a username and password for authentication. Deprecated: Salesforce is disabling SOAP API login for new orgs.";
      fg_Fields := [UsernameField; PasswordField; SecurityTokenField; InstanceUrlField;
        UseUsernameForEmailField; SyncConnectedApps; SyncDeactivatedUsers; SyncNonStandardUsers;
        LicenseToLeastPrivilegedProfileMapping];
      fg_Default := false |};
   {| fg_Name := SalesforceOAuthGroup; fg_DisplayName := "OAuth";
      fg_HelpText := "Use OAuth for authentication.";
      fg_Fields := [InstanceUrlField; UseUsernameForEmailField; SyncConnectedApps;
        SyncDeactivatedUsers; SyncNonStandardUsers; LicenseToLeastPrivilegedProfileMapping;
        Oauth2TokenField];
      fg_Default := true |};
   {| fg_Name := SalesforceJWTBearerGroup; fg_DisplayName := "JWT Bearer";
      fg_HelpText := "Authenticate using a signed JWT assertion and private key.";
      fg_Fields := [InstanceUrlField; LoginURLField; ClientIDField; PrivateKeyField; JWTSubjectField;
        UseUsernameForEmailField; SyncConnectedApps; SyncDeactivatedUsers; SyncNonStandardUsers;
        LicenseToLeastPrivilegedProfileMapping];
      fg_Default := false |};
   {| fg_Name := SalesforceClientCredentialsGroup; fg_DisplayName := "Client Credentials";
      fg_HelpText := "Authenticate using a client ID and secret.";
      fg_Fields := [InstanceUrlField; ClientIDField; ClientSecretField; UseUsernameForEmailField;
        SyncConnectedApps; SyncDeactivatedUsers; SyncNonStandardUsers;
        LicenseToLeastPrivilegedProfileMapping];
      fg_Default := false |}].

(** The configuration as it is read: [config.Salesforce] of conf.gen.go. *)
Record Salesforce_config := {
  cfg_SalesforceUsername : string;
  cfg_SalesforcePassword : string;
  cfg_SecurityToken : string;
  cfg_InstanceUrl : string;
  cfg_UserUsernameForEmail : bool;
  cfg_SyncConnectedApps : bool;
  cfg_SyncDeactivatedUsers : bool;
  cfg_SyncNonStandardUsers : bool;
  cfg_LicenseToLeastPrivilegedProfileMapping : gmap string value;
  cfg_Oauth2Token : string;
  cfg_SalesforceClientId : string;
  cfg_SalesforceClientSecret : string;
  cfg_SalesforcePrivateKey : string;
  cfg_SalesforceJwtSubject : string;
  cfg_SalesforceLoginUrl : string;
}.

(** The entries whose value is a string. *)
Definition GetLicenseToLeastPrivilegedProfileMapping (c : Salesforce_config) : gmap string string :=
  omap value_string (cfg_LicenseToLeastPrivilegedProfileMapping c).

(** ** The getters of conf.gen.go

    What a field of the struct holds, and the fields under their [mapstructure]
    tags, in the order of the declaration. *)
Inductive config_value :=
| CString (s : string)
| CBytes (s : string)
| CBool (b : bool)
| CStringMap (m : gmap string value).

Definition struct_fields (c : Salesforce_config) : list (string * config_value) :=
  [("salesforce-username", CString (cfg_SalesforceUsername c));
   ("salesforce-password", CString (cfg_SalesforcePassword c));
   ("security-token", CString (cfg_SecurityToken c));
   ("instance-url", CString (cfg_InstanceUrl c));
   ("user-username-for-email", CBool (cfg_UserUsernameForEmail c));
   ("sync-connected-apps", CBool (cfg_SyncConnectedApps c));
   ("sync-deactivated-users", CBool (cfg_SyncDeactivatedUsers c));
   ("sync-non-standard-users", CBool (cfg_SyncNonStandardUsers c));
   ("license-to-least-privileged-profile-mapping", CStringMap (cfg_LicenseToLeastPrivilegedProfileMapping c));
   ("oauth2-token", CString (cfg_Oauth2Token c));
   ("salesforce-client-id", CString (cfg_SalesforceClientId c));
   ("salesforce-client-secret", CString (cfg_SalesforceClientSecret c));
   ("salesforce-private-key", CBytes (cfg_SalesforcePrivateKey c));
   ("salesforce-jwt-subject", CString (cfg_SalesforceJwtSubject c));
   ("salesforce-login-url", CString (cfg_SalesforceLoginUrl c))].

Definition findFieldByTag (c : Salesforce_config) (tagValue : string) : option config_value :=
  snd <$> find (fun kv => String.eqb kv.1 tagValue) (struct_fields c).

(** A getter: the zero value for a name there is not, a panic for a field of
    another type. *)
Definition wrong_type {A} : outcome A := Panics "wrong type".

Definition GetStringSlice (c : Salesforce_config) (fieldName : string) : outcome (list string) :=
  match findFieldByTag c fieldName with None => Returns [] | Some _ => wrong_type end.

Definition GetString (c : Salesforce_config) (fieldName : string) : outcome string :=
  match findFieldByTag c fieldName with
  | None => Returns ""
  | Some (CString t) | Some (CBytes t) => Returns t
  | Some _ => wrong_type
  end.

Definition GetInt (c : Salesforce_config) (fieldName : string) : outcome Z :=
  match findFieldByTag c fieldName with None => Returns 0%Z | Some _ => wrong_type end.

Definition GetBool (c : Salesforce_config) (fieldName : string) : outcome bool :=
  match findFieldByTag c fieldName with
  | None => Returns false
  | Some (CBool t) => Returns t
  | Some _ => wrong_type
  end.

Definition GetStringMap (c : Salesforce_config) (fieldName : string) : outcome (gmap string value) :=
  match findFieldByTag c fieldName with
  | None => Returns ∅
  | Some (CStringMap t) => Returns t
  | Some _ => wrong_type
  end.

(** The getter for a field of this kind, and the one value it gives. *)
Definition reads_as (c : Salesforce_config) (f : config_field) (v : config_value) : Prop :=
  match cf_Kind f, v with
  | StringField_, CString s | Oauth2Field_, CString s | FileUploadField_, CBytes s => GetString c (cf_Name f) = Returns s
  | BoolField_, CBool b => GetBool c (cf_Name f) = Returns b
  | StringMapField_, CStringMap m => GetStringMap c (cf_Name f) = Returns m
  | _, _ => False
  end.

(** ** Properties *)

(** The configuration schema is well formed: no two fields or groups share a
    name, every group is made of declared fields and has the instance URL and
    the fields of the sync, every declared field is in some group, and exactly
    one group, OAuth, is the default. *)
Theorem configuration_groups :
  NoDup (map cf_Name configurationFields) /\ NoDup (map fg_Name fieldGroups)
  /\ Forall (fun g => Forall (fun f => cf_Name f ∈ map cf_Name configurationFields) (fg_Fields g)
        /\ Forall (fun f => cf_Name f ∈ map cf_Name (fg_Fields g))
             [InstanceUrlField; UseUsernameForEmailField; SyncConnectedApps; SyncDeactivatedUsers;
              SyncNonStandardUsers; LicenseToLeastPrivilegedProfileMapping]) fieldGroups
  /\ Forall (fun f => Exists (fun g => cf_Name f ∈ map cf_Name (fg_Fields g)) fieldGroups) configurationFields
  /\ map fg_Name (filter (fun g => fg_Default g = true) fieldGroups) = [SalesforceOAuthGroup].
Proof. split_and!; try (apply (bool_decide_unpack _); vm_compute; exact I). Qed.

(** C30: the generated struct fits the schema.  The tags of its fields are the names
    of the configuration fields, in the same order; each
    configuration field is read by the getter for its kind, without a panic,
    and is the struct's; under any other name every getter gives its zero
    value.  No field is an int or a list: those getters panic on all of them. *)
Theorem generated_getters_fit c :
  map fst (struct_fields c) = map cf_Name configurationFields
  /\ Forall (fun f => exists v, (cf_Name f, v) ∈ struct_fields c /\ findFieldByTag c (cf_Name f) = Some v /\ reads_as c f v
       /\ GetInt c (cf_Name f) = wrong_type /\ GetStringSlice c (cf_Name f) = wrong_type) configurationFields
  /\ forall name, name ∉ map cf_Name configurationFields ->
       GetString c name = Returns "" /\ GetBool c name = Returns false /\ GetStringMap c name = Returns ∅
       /\ GetInt c name = Returns 0%Z /\ GetStringSlice c name = Returns [].
Proof.
  split; [|split].
  - reflexivity.
  - unfold configurationFields. repeat apply Forall_cons_2; [..|apply Forall_nil_2].
    all: eexists; split; [unfold struct_fields; repeat (first [apply list_elem_of_here|apply list_elem_of_further])|].
    all: split; [reflexivity|]; by split_and!.
  - intros name Hname.
    assert (findFieldByTag c name = None) as Hnone.
    { unfold findFieldByTag. destruct (find _ _) as [kv|] eqn:Hf; [|done]. exfalso.
      apply find_some in Hf as [Hin Heq]. apply String.eqb_eq in Heq. apply Hname. subst name.
      change (map cf_Name configurationFields) with (map fst (struct_fields c)).
      apply list_elem_of_In, in_map, Hin. }
    unfold GetString, GetBool, GetStringMap, GetInt, GetStringSlice. by rewrite Hnone.
Qed.
