(* ===== verification/Connector.v ===== *)
(** * The connector: [pkg/connector/connector.go], [pkg/connector/actions.go],
    [pkg/connector/client/auth.go]

    How a configuration and the chosen authentication method become a connector,
    the syncers it offers, the credentials check and the global action. *)
From S2P Require Export Config Users Groups Profiles PermissionSets Territories Agents.

Definition oauthTokenPath : string := "/services/oauth2/token".

(** [Salesforce]; its client is the one of the state. *)
Record Salesforce := {
  d_instanceURL : string;
  d_shouldUseUsernameForEmail : bool;
  d_syncConnectedApps : bool;
  d_syncDeactivatedUsers : bool;
  d_syncNonStandardUsers : bool;
  d_licenseToLeastProfileMapping : gmap string string;
}.

(** [cli.ConnectorOpts]: the method chosen and whether a token source came
    with it. *)
Record ConnectorOpts := { opts_SelectedAuthMethod : string; opts_TokenSource : bool }.

(** A syncer of some builder. *)
Record any_syncer `{Env} := {
  as_builder : Type;
  as_syncer : ResourceSyncer as_builder;
  as_value : as_builder;
  as_reads : ReadOnlySyncer as_builder;
  as_typed : TypedSyncer as_builder;
}.
Arguments any_syncer {_}.
#[export] Existing Instance as_syncer.
#[export] Existing Instance as_reads.
#[export] Existing Instance as_typed.

Definition syncer `{Env} {B} `{!ResourceSyncer B} `{!ReadOnlySyncer B, !TypedSyncer B} (b : B) : any_syncer :=
  {| as_builder := B; as_syncer := _; as_value := b; as_reads := _; as_typed := _ |}.

(** [v2.ConnectorMetadata], as far as it is filled in. *)
Record ConnectorMetadata := {
  md_DisplayName : string; md_Description : string;
  md_AccountCreationSchema : list (string * schema_field);
}.

Definition Metadata : ConnectorMetadata :=
  {| md_DisplayName := "Salesforce"; md_Description := "Connector syncing Salesforce users";
     md_AccountCreationSchema := accountCreationSchema |}.

(** An argument of an action: name, display name, description, required. *)
Record action_field := {
  af_Name : string; af_DisplayName : string; af_Description : string; af_Bool : bool;
  af_IsRequired : bool;
}.

Definition updateUserStatusActionSchema : string * list action_field * list action_field :=
  ("update_user_status",
   [{| af_Name := "resource_id"; af_DisplayName := "User Resource ID";
       af_Description := "The ID of the user resource to update the status of"; af_Bool := false;
       af_IsRequired := true |};
    {| af_Name := "is_active"; af_DisplayName := "Is Active";
       af_Description := "Update the user status to active or inactive"; af_Bool := true;
       af_IsRequired := true |}],
   [{| af_Name := "success"; af_DisplayName := "Success";
       af_Description := "Whether the user resource status was updated successfully"; af_Bool := true;
       af_IsRequired := false |}]).

Section connector.
Context `{Env}.

Abbreviation M := (GoM World).

Definition parse_error : go_error := EMsg "parse: invalid URL".

Definition fallBackToHTTPS (domain : string) : go_error + string :=
  match url_Parse domain with
  | None => inl parse_error
  | Some parsed =>
      if String.eqb (url_Scheme parsed) "" then
        match url_Parse ("https://" +:+ domain) with
        | None => inl parse_error
        | Some parsed => inr (url_String parsed)
        end
      else inr (url_String parsed)
  end.

(** [oauth2]'s request to a token endpoint, which the default HTTP client sends, and
    the token it makes of the answer. *)
Definition token_request (tokenURL : string) (form : list (string * string)) : http_request :=
  {| req_method := MethodPost; req_url := tokenURL; req_authorization := ""; req_body := FormBody form |}.

Definition exchange_token (tokenURL : string) (form : list (string * string)) (bad_url : go_error) :
    M (go_error + oauth_token) :=
  match url_Parse tokenURL with
  | None => mret (inl bad_url)
  | Some _ =>
      _ ← log_request (token_request tokenURL form);
      ask (env_token_exchange (token_request tokenURL form))
  end.

(** [jwt.Config]'s [Token]: sign the assertion and post it. *)
Definition jwt_Token (cfg : jwt_config) : M (go_error + oauth_token) :=
  assertion ← ask (env_jwt_assertion cfg);
  match assertion with
  | inl err => mret (inl err)
  | inr assertion =>
      exchange_token (jwt_TokenURL cfg)
        [("assertion", assertion); ("grant_type", "urn:ietf:params:oauth:grant-type:jwt-bearer")]
        (EMsg "oauth2: cannot fetch token: parse: invalid URL")
  end.

(** [clientcredentials.Config]'s [Token], the credentials in the form. *)
Definition clientcredentials_Token (cfg : credentials_config) : M (go_error + oauth_token) :=
  exchange_token (cc_TokenURL cfg)
    ((if String.eqb (cc_ClientID cfg) "" then [] else [("client_id", cc_ClientID cfg)])
     ++ (if String.eqb (cc_ClientSecret cfg) "" then [] else [("client_secret", cc_ClientSecret cfg)])
     ++ [("grant_type", "client_credentials")]) parse_error.

(** The token is obtained eagerly; the source reuses it. *)
Definition NewJWTBearerTokenSource (clientID subject loginURL privateKey : string) :
    M (error * option oauth_token) :=
  if String.eqb loginURL "" then
    mret (Some (EMsg "baton-salesforce: loginURL must not be empty"), None)
  else
    match url_Parse loginURL with
    | None => mret (Some (EWrap "baton-salesforce: invalid loginURL: " parse_error), None)
    | Some u =>
        tok ← jwt_Token
          {| jwt_Email := clientID; jwt_Subject := subject; jwt_PrivateKey := privateKey;
             jwt_TokenURL := url_String (url_JoinPath u oauthTokenPath);
             jwt_Audience := url_String u |};
        match tok with
        | inl err =>
            mret (Some (EWrap "baton-salesforce: JWT bearer token exchange failed: " err), None)
        | inr tok => mret (None, Some tok)
        end
    end.

Definition NewClientCredentialsTokenSource (clientID clientSecret instanceURL : string) :
    M (error * option oauth_token) :=
  if String.eqb instanceURL "" then
    mret (Some (EMsg "baton-salesforce: instanceURL must not be empty"), None)
  else
    match url_Parse instanceURL with
    | None => mret (Some (EWrap "baton-salesforce: invalid instanceURL: " parse_error), None)
    | Some u =>
        tok ← clientcredentials_Token
          {| cc_ClientID := clientID; cc_ClientSecret := clientSecret;
             cc_TokenURL := url_String (url_JoinPath u oauthTokenPath) |};
        match tok with
        | inl err =>
            mret (Some (EWrap "baton-salesforce: client credentials token exchange failed: " err), None)
        | inr tok => mret (None, Some tok)
        end
    end.

(** The client for the chosen authentication method. *)
Definition new_client (cfg : Salesforce_config) (opts : option ConnectorOpts) (instanceURL : string) :
    M (go_error + SalesforceClient) :=
  let authMethod := match opts with Some o => opts_SelectedAuthMethod o | None => "" end in
  if String.eqb authMethod SalesforceOAuthGroup then
    let tokenSource := match opts with Some o => opts_TokenSource o | None => false end in
    mret (inr (Client.New instanceURL tokenSource "" "" ""))
  else if String.eqb authMethod SalesforceJWTBearerGroup then
    '(err, _) ← NewJWTBearerTokenSource (cfg_SalesforceClientId cfg) (cfg_SalesforceJwtSubject cfg)
                  (cfg_SalesforceLoginUrl cfg) (cfg_SalesforcePrivateKey cfg);
    match err with
    | Some err =>
        mret (inl (EWrap "baton-salesforce: failed to create JWT bearer token source: " err))
    | None => mret (inr (Client.New instanceURL true "" "" ""))
    end
  else if String.eqb authMethod SalesforceClientCredentialsGroup then
    '(err, _) ← NewClientCredentialsTokenSource (cfg_SalesforceClientId cfg)
                  (cfg_SalesforceClientSecret cfg) instanceURL;
    match err with
    | Some err =>
        mret (inl (EWrap "baton-salesforce: failed to create client credentials token source: " err))
    | None => mret (inr (Client.New instanceURL true "" "" ""))
    end
  else
    mret (inr (Client.New instanceURL false (cfg_SalesforceUsername cfg) (cfg_SalesforcePassword cfg)
                 (cfg_SecurityToken cfg))).

(** [connector.New]: the connector, its client in the state. *)
Definition New (cfg : Salesforce_config) (opts : option ConnectorOpts) : M (go_error + Salesforce) :=
  match fallBackToHTTPS (cfg_InstanceUrl cfg) with
  | inl err => mret (inl err)
  | inr instanceURL =>
      client ← new_client cfg opts instanceURL;
      match client with
      | inl err => mret (inl err)
      | inr client =>
          _ ← set_client client;
          mret (inr {| d_instanceURL := instanceURL;
                       d_shouldUseUsernameForEmail := cfg_UserUsernameForEmail cfg;
                       d_syncConnectedApps := cfg_SyncConnectedApps cfg;
                       d_syncDeactivatedUsers := cfg_SyncDeactivatedUsers cfg;
                       d_syncNonStandardUsers := cfg_SyncNonStandardUsers cfg;
                       d_licenseToLeastProfileMapping := GetLicenseToLeastPrivilegedProfileMapping cfg |})
      end
  end.

Definition ResourceSyncers (d : Salesforce) : list any_syncer :=
  [syncer (newUserBuilder (d_shouldUseUsernameForEmail d) (d_syncDeactivatedUsers d)
             (d_syncNonStandardUsers d));
   syncer newGroupBuilder;
   syncer newPermissionBuilder;
   syncer (newProfileBuilder (d_licenseToLeastProfileMapping d));
   syncer newRoleBuilder;
   syncer newPermissionSetGroupBuilder;
   syncer newTerritoryBuilder;
   syncer newAgentBuilder]
  ++ (if d_syncConnectedApps d then [syncer newConnectedApplicationBuilder] else []).

Definition Validate : M (annotations * error) :=
  '(ratelimitData, err) ← Ping;
  mret (WithRateLimitAnnotations [ratelimitData], err).

(** The action: its answer ["success"], or an error. *)
Definition updateUserStatus (args : gmap string pb_value) :
    M (option (gmap string pb_value) * annotations * error) :=
  match args !! "resource_id" with
  | Some (PbString userId) =>
      match args !! "is_active" with
      | Some (PbBool isActive) =>
          '(ratelimitData, err) ← SetUserActiveState userId isActive;
          match err with
          | Some err => mret (None, [], Some err)
          | None =>
              mret (Some {["success" := PbBool true]}, WithRateLimitAnnotations [ratelimitData], None)
          end
      | _ => mret (None, [], Some (EMsg "missing is_active"))
      end
  | _ => mret (None, [], Some (EMsg "missing resource ID"))
  end.

(** [GlobalActions]: the registry of the SDK, an argument, takes the action with its
    schema. *)
Definition GlobalActions
    (register : string * list action_field * list action_field ->
       (gmap string pb_value -> M (option (gmap string pb_value) * annotations * error)) -> M error) : M error :=
  err ← register updateUserStatusActionSchema updateUserStatus;
  match err with
  | Some err => mret (Some err)
  | None => mret None
  end.
End connector.

(** ** The calls of the SDK *)

(** The provisioning calls and the other operations of the connector. *)
Inductive operation :=
| GroupGrant (principal : ResourceId) (e : Entitlement)
| GroupRevoke (g : Grant)
| RoleGrant (principal : ResourceId) (e : Entitlement)
| RoleRevoke (g : Grant)
| ProfileGrant (principal : ResourceId) (e : Entitlement)
| ProfileRevoke (g : Grant)
| PermissionGrant (principal : ResourceId) (e : Entitlement)
| PermissionRevoke (g : Grant)
| PermissionSetGroupGrant (principal : ResourceId) (e : Entitlement)
| PermissionSetGroupRevoke (g : Grant)
| TerritoryGrant (principal : ResourceId) (e : Entitlement)
| TerritoryRevoke (g : Grant)
| DeleteUser (id : ResourceId)
| CreateUserAccount (profile : option (gmap string pb_value))
| UpdateUserStatus (args : gmap string pb_value)
| ValidateCredentials.

Section calls.
Context `{Env} (d : Salesforce).

Definition discard {A} (m : GoM World A) : GoM World unit := _ ← m; mret tt.

Definition the_userBuilder : userBuilder :=
  newUserBuilder (d_shouldUseUsernameForEmail d) (d_syncDeactivatedUsers d) (d_syncNonStandardUsers d).
Definition the_profileBuilder : profileBuilder :=
  newProfileBuilder (d_licenseToLeastProfileMapping d).

Definition perform (o : operation) : GoM World unit :=
  match o with
  | GroupGrant p e => discard (group_Grant p e)
  | GroupRevoke g => discard (group_Revoke g)
  | RoleGrant p e => discard (role_Grant p e)
  | RoleRevoke g => discard (role_Revoke g)
  | ProfileGrant p e => discard (profile_Grant p e)
  | ProfileRevoke g => discard (profile_Revoke the_profileBuilder g)
  | PermissionGrant p e => discard (permission_Grant p e)
  | PermissionRevoke g => discard (permission_Revoke g)
  | PermissionSetGroupGrant p e => discard (permissionSetGroup_Grant p e)
  | PermissionSetGroupRevoke g => discard (permissionSetGroup_Revoke g)
  | TerritoryGrant p e => discard (territory_Grant p e)
  | TerritoryRevoke g => discard (territory_Revoke g)
  | DeleteUser id => discard (user_Delete id)
  | CreateUserAccount profile => discard (CreateAccount the_userBuilder profile)
  | UpdateUserStatus args => discard (updateUserStatus args)
  | ValidateCredentials => discard Validate
  end.

(** One call of a sync. *)
Inductive sync_step : World -> World -> Prop :=
| step_List (s : any_syncer) pt w :
    s ∈ ResourceSyncers d -> sync_step w (syncer_List (as_value s) pt w).2
| step_Entitlements (s : any_syncer) resource pt w :
    s ∈ ResourceSyncers d -> sync_step w (syncer_Entitlements (as_value s) resource pt w).2
| step_Grants (s : any_syncer) resource pt w :
    s ∈ ResourceSyncers d -> sync_step w (syncer_Grants (as_value s) resource pt w).2
| step_StaticEntitlements w : sync_step w (territory_StaticEntitlements w).2.

(** One call, of a sync or not. *)
Inductive step : World -> World -> Prop :=
| step_sync w w' : sync_step w w' -> step w w'
| step_operation o w : step w (perform o w).2.

Lemma runs_perform o : moves (runs (fun _ => True)) (perform o).
Proof.
  destruct o; simpl; unfold discard, group_Grant, group_Revoke, role_Grant, role_Revoke,
    profile_Grant, profile_Revoke, permission_Grant, permission_Revoke, permissionSetGroup_Grant,
    permissionSetGroup_Revoke, territory_Grant, grant_membership, grant_role, territory_Revoke,
    user_Delete, CreateAccount, finish_account, updateUserStatus, Validate; walk.
Qed.

Lemma sync_step_runs w w' : sync_step w w' -> runs reads_only w w'.
Proof.
  intros [s pt w0 _|s r pt w0 _|s r pt w0 _|w0].
  - apply List_reads.
  - apply Entitlements_reads.
  - apply Grants_reads.
  - apply runs_StaticEntitlements.
Qed.

Lemma runs_weaken (P Q : http_request -> Prop) w w' :
  (forall req, P req -> Q req) -> runs P w w' -> runs Q w w'.
Proof. intros HPQ (Hc & l & Hl & HP). split; [done|]. exists l. split; [done|]. by eapply Forall_impl. Qed.

Lemma step_runs w w' : step w w' -> runs (fun _ => True) w w'.
Proof.
  intros [w0 w1 Hs|o w0]; [|apply runs_perform].
  apply (runs_weaken reads_only); [done|by apply sync_step_runs].
Qed.
End calls.

(** A relation whose steps are in a preorder reaches only along it. *)
Lemma rtc_preorder {A} (S R : A -> A -> Prop) `{!PreOrder R} x y :
  (forall a b, S a b -> R a b) -> rtc S x y -> R x y.
Proof. intros HSR. induction 1 as [|a b c Hs _ IH]; [done|]. etrans; [by apply HSR|done]. Qed.

(** The one request that making a client may send: the form posted for a token,
    below the login URL for the JWT flow and below the instance for the client
    credentials. *)
Definition token_post `{Env} (cfg : Salesforce_config) (method instanceURL : string) (w : World)
    (req : http_request) : Prop :=
  let jwt := String.eqb method SalesforceJWTBearerGroup in
  exists u, url_Parse (if jwt then cfg_SalesforceLoginUrl cfg else instanceURL) = Some u
    /\ req_url req = url_String (url_JoinPath u "/services/oauth2/token")
    /\ req_method req = MethodPost /\ req_authorization req = ""
    /\ if jwt then exists assertion e,
            env_jwt_assertion {| jwt_Email := cfg_SalesforceClientId cfg;
                jwt_Subject := cfg_SalesforceJwtSubject cfg;
                jwt_PrivateKey := cfg_SalesforcePrivateKey cfg;
                jwt_TokenURL := req_url req; jwt_Audience := url_String u |} (w_env w) = (inr assertion, e)
            /\ req_body req = FormBody [("assertion", assertion);
                 ("grant_type", "urn:ietf:params:oauth:grant-type:jwt-bearer")]
        else exists form, req_body req = FormBody form
            /\ form = filter (fun kv => kv.2 <> "")
                 [("client_id", cfg_SalesforceClientId cfg);
                  ("client_secret", cfg_SalesforceClientSecret cfg);
                  ("grant_type", "client_credentials")].

(** A token exchange: the client stays, and the form is posted unless the URL is
    none, which is an error. *)
Lemma exchange_token_sends `{Env} url form bad w :
  let '(r, w1) := exchange_token url form bad w in
  w_client w1 = w_client w
  /\ ((w_log w1 = w_log w /\ exists err, r = Returns (inl err))
      \/ (w_log w1 = w_log w ++ [token_request url form] /\ exists t, r = Returns t)).
Proof.
  unfold exchange_token. destruct (url_Parse url); [|cbn; eauto].
  unfold log_request, go_modify, ask, mbind, GoM_bind. cbn.
  destruct (env_token_exchange _ _) as [t e]. cbn. eauto.
Qed.

(** The JWT flow signs an assertion and posts it. *)
Lemma jwt_Token_sends `{Env} cfg w :
  let '(r, w1) := jwt_Token cfg w in
  w_client w1 = w_client w
  /\ ((w_log w1 = w_log w /\ exists err, r = Returns (inl err))
      \/ exists assertion e, env_jwt_assertion cfg (w_env w) = (inr assertion, e)
         /\ w_log w1 = w_log w ++ [token_request (jwt_TokenURL cfg)
              [("assertion", assertion); ("grant_type", "urn:ietf:params:oauth:grant-type:jwt-bearer")]]
         /\ exists t, r = Returns t).
Proof.
  unfold jwt_Token, mbind at 1, GoM_bind at 1, ask at 1.
  destruct (env_jwt_assertion cfg (w_env w)) as [[err|a] e]; [cbn; eauto|].
  pose proof (exchange_token_sends (jwt_TokenURL cfg)
    [("assertion", a); ("grant_type", "urn:ietf:params:oauth:grant-type:jwt-bearer")]
    (EMsg "oauth2: cannot fetch token: parse: invalid URL") {| w_env := e; w_client := w_client w; w_log := w_log w |}) as Hsend.
  destruct (exchange_token _ _ _ _) as [r w1]. destruct Hsend as [Hc [[Hl Hr]|[Hl Hr]]]; split; eauto 10.
Qed.

(** Making a client leaves the one there is, and sends at most the form. *)
Lemma new_client_sends `{Env} cfg opts url w r w1 :
  new_client cfg opts url w = (Returns r, w1) ->
  let method := default "" (opts_SelectedAuthMethod <$> opts) in
  w_client w1 = w_client w
  /\ if bool_decide (method ∈ [SalesforceJWTBearerGroup; SalesforceClientCredentialsGroup])
     then (w_log w1 = w_log w /\ exists err, r = inl err)
          \/ exists req, w_log w1 = w_log w ++ [req] /\ token_post cfg method url w req
     else w_log w1 = w_log w.
Proof.
  unfold new_client.
  assert (match opts with Some o => opts_SelectedAuthMethod o | None => "" end
          = default "" (opts_SelectedAuthMethod <$> opts)) as -> by (by destruct opts).
  generalize (default "" (opts_SelectedAuthMethod <$> opts)). intros method. cbv zeta.
  destruct (String.eqb_spec method SalesforceOAuthGroup) as [->|H1]; [by intros [= <- <-]|].
  destruct (String.eqb_spec method SalesforceJWTBearerGroup) as [->|H2].
  { rewrite bool_decide_eq_true_2 by set_solver.
    intros ([err tok] & w2 & Hrun & Hr)%GoM_bind_inv. unfold NewJWTBearerTokenSource in Hrun.
    destruct (String.eqb _ ""); [injection Hrun as <- <- <-; injection Hr as <- <-; eauto|].
    destruct (url_Parse _) as [u|] eqn:Eu; [|injection Hrun as <- <- <-; injection Hr as <- <-; eauto].
    apply GoM_bind_inv in Hrun as (t & w3 & Ht & Hrun).
    match type of Ht with jwt_Token ?c _ = _ => pose proof (jwt_Token_sends c w) as Hs end.
    rewrite Ht in Hs. destruct Hs as [Hc [[Hl [e He]]|(a & e & Ha & Hl & _)]].
    - injection He as ->. injection Hrun as <- <- <-. injection Hr as <- <-. eauto.
    - assert (w2 = w3 /\ w1 = w2) as [-> ->]
        by (destruct t; injection Hrun as <- <- <-; by injection Hr as <- <-).
      split; [done|]. right. eexists. split; [exact Hl|]. exists u. cbn. eauto 10. }
  destruct (String.eqb_spec method SalesforceClientCredentialsGroup) as [->|H3].
  { rewrite bool_decide_eq_true_2 by set_solver.
    intros ([err tok] & w2 & Hrun & Hr)%GoM_bind_inv. unfold NewClientCredentialsTokenSource in Hrun.
    destruct (String.eqb url ""); [injection Hrun as <- <- <-; injection Hr as <- <-; eauto|].
    destruct (url_Parse _) as [u|] eqn:Eu; [|injection Hrun as <- <- <-; injection Hr as <- <-; eauto].
    apply GoM_bind_inv in Hrun as (t & w3 & Ht & Hrun). unfold clientcredentials_Token in Ht. cbn [cc_TokenURL cc_ClientID cc_ClientSecret] in Ht.
    match type of Ht with exchange_token ?u ?f ?b _ = _ => pose proof (exchange_token_sends u f b w) as Hs end.
    rewrite Ht in Hs. destruct Hs as [Hc [[Hl [e He]]|[Hl _]]].
    - injection He as ->. injection Hrun as <- <- <-. injection Hr as <- <-. eauto.
    - assert (w2 = w3 /\ w1 = w2) as [-> ->]
        by (destruct t; injection Hrun as <- <- <-; by injection Hr as <- <-).
      split; [done|]. right. eexists. split; [exact Hl|]. exists u. cbn.
      split_and!; [done..|]. eexists. split; [reflexivity|].
      by destruct (cfg_SalesforceClientId cfg), (cfg_SalesforceClientSecret cfg). }
  intros [= <- <-]. rewrite bool_decide_eq_false_2 by set_solver. done.
Qed.

Lemma new_client_credentials `{Env} cfg opts url w c w1 :
  new_client cfg opts url w = (Returns (inr c), w1) ->
  let method := default "" (opts_SelectedAuthMethod <$> opts) in
  c_baseUrl c = url /\ c_initialized c = false /\ c_client c = None
  /\ if bool_decide (method ∈ [SalesforceOAuthGroup; SalesforceJWTBearerGroup;
                               SalesforceClientCredentialsGroup])
     then c_Username c = "" /\ c_password c = "" /\ c_securityToken c = ""
          /\ c_TokenSource c = (if String.eqb method SalesforceOAuthGroup
                                then default false (opts_TokenSource <$> opts) else true)
     else c_Username c = cfg_SalesforceUsername cfg /\ c_password c = cfg_SalesforcePassword cfg
          /\ c_securityToken c = cfg_SecurityToken cfg /\ c_TokenSource c = false.
Proof.
  unfold new_client.
  assert (match opts with Some o => opts_SelectedAuthMethod o | None => "" end
          = default "" (opts_SelectedAuthMethod <$> opts)) as -> by (by destruct opts).
  assert (match opts with Some o => opts_TokenSource o | None => false end
          = default false (opts_TokenSource <$> opts)) as -> by (by destruct opts).
  generalize (default "" (opts_SelectedAuthMethod <$> opts)). intros method. cbv zeta.
  destruct (String.eqb_spec method SalesforceOAuthGroup) as [->|H1].
  { intros [= <- _]. rewrite bool_decide_eq_true_2 by set_solver. done. }
  destruct (String.eqb_spec method SalesforceJWTBearerGroup) as [->|H2].
  { intros ([[err|] tok] & w2 & _ & Hrun)%GoM_bind_inv; [done|]. injection Hrun as <- _.
    rewrite bool_decide_eq_true_2 by set_solver. done. }
  destruct (String.eqb_spec method SalesforceClientCredentialsGroup) as [->|H3].
  { intros ([[err|] tok] & w2 & _ & Hrun)%GoM_bind_inv; [done|]. injection Hrun as <- _.
    rewrite bool_decide_eq_true_2 by set_solver. done. }
  intros [= <- _]. rewrite bool_decide_eq_false_2 by set_solver. done.
Qed.

(** ** Properties *)

(** C2: a sync changes nothing in Salesforce.  Whatever calls a sync makes, of
    whichever syncers, in whatever order and with whatever page tokens, all that
    is ever sent is reads and logins. *)
Theorem sync_reads_only `{Env} d w w' :
  rtc (sync_step d) w w' -> exists l, w_log w' = w_log w ++ l /\ Forall reads_only l.
Proof.
  intros Hsteps. apply (rtc_preorder _ (runs reads_only)) in Hsteps as [_ Hl]; [done|].
  apply sync_step_runs.
Qed.

(** C20: the client's state survives every sequence of calls, failing and panicking
    ones included: an initialized client has a connection, the configuration and
    the credentials never change, a session once established is kept, and
    requests are only ever added. *)
Theorem reachable_client `{Env} d w w' :
  rtc (step d) w w' -> ready (w_client w) ->
  ready (w_client w') /\ same_config (w_client w) (w_client w')
  /\ (c_initialized (w_client w) = true ->
      c_initialized (w_client w') = true /\ c_client (w_client w') = c_client (w_client w))
  /\ w_log w `prefix_of` w_log w'.
Proof.
  intros Hsteps Hready.
  apply (rtc_preorder _ (runs (fun _ => True))) in Hsteps as [[Hconf Hr Hi] (l & -> & _)];
    [|apply step_runs].
  split_and!; [by apply Hr|done|done|by apply prefix_app_r].
Qed.

(** C29: what the sync hands on is consistent for every syncer of the connector:
    listed resources carry the syncer's resource type; a grant belongs to the
    resource it was asked for and names an entitlement that the same syncer
    offers for that resource.  The entitlements of territories are static: a
    territory's grant has the id of the territory and the slug of one of them,
    unless it is for a role that Salesforce does not list any more. *)
Theorem sync_consistent `{Env} d s :
  s ∈ ResourceSyncers d ->
  (forall pt w resources so err w',
     syncer_List (as_value s) pt w = (Returns (resources, so, err), w') ->
     Forall (fun r => rid_ResourceType (res_Id r) = rt_Id (syncer_ResourceType (as_value s))) resources)
  /\ (forall resource pt w grants so err w',
     syncer_Grants (as_value s) resource pt w = (Returns (grants, so, err), w') ->
     Forall (fun g => ent_Resource (grant_Entitlement g) = Some resource
       /\ if String.eqb (rt_Id (syncer_ResourceType (as_value s))) "territory" then
            forall w ents so w', territory_StaticEntitlements w = (Returns (ents, so, None), w') ->
              (exists ent, ent ∈ ents
                 /\ ent_Id (grant_Entitlement g) = NewEntitlementID (Some resource) (ent_Slug ent))
              \/ (exists role, ent_Id (grant_Entitlement g) = NewEntitlementID (Some resource) (role_slug role)
                   /\ forall roles rl w', GetTerritoryRoles w = (Returns (roles, rl, None), w') -> role ∉ roles)
          else forall pt' w ents so err w',
            syncer_Entitlements (as_value s) resource pt' w = (Returns (ents, so, err), w') ->
            ent_Id (grant_Entitlement g) ∈ map ent_Id ents) grants).
Proof.
  intros Hs. split.
  - intros pt w resources so err w' Hrun. exact (List_typed _ _ _ _ _ Hrun).
  - intros resource pt w grants so err w' Hrun.
    eapply Forall_impl; [exact (Grants_offered _ _ _ _ _ _ Hrun)|].
    intros g [Hres Hoff]. split; [exact Hres|]. clear Hrun. revert Hoff. unfold ResourceSyncers in Hs.
    destruct (d_syncConnectedApps d); repeat (apply elem_of_cons in Hs as [->|Hs]); try (by apply elem_of_nil in Hs).
    all: intros Hoff; first [exact Hoff|exact (static_grant_offered resource _ Hoff)].
Qed.

(** The connector has one syncer per resource type; connected applications are
    synced exactly when the configuration says so. *)
Theorem ResourceSyncers_types `{Env} d :
  let types := map (fun s => rt_Id (syncer_ResourceType (as_value s))) (ResourceSyncers d) in
  types = ["user"; "group"; "permission"; "profile"; "role"; "permission_set_group"; "territory"; "agent"]
          ++ (if d_syncConnectedApps d then ["connected_application"] else [])
  /\ NoDup types /\ ("connected_application" ∈ types <-> d_syncConnectedApps d = true).
Proof.
  intros types.
  assert (types = ["user"; "group"; "permission"; "profile"; "role"; "permission_set_group"; "territory"; "agent"]
          ++ (if d_syncConnectedApps d then ["connected_application"] else [])) as Ht.
  { unfold types, ResourceSyncers. by destruct (d_syncConnectedApps d). }
  rewrite Ht. split; [done|]. destruct (d_syncConnectedApps d).
  - split; [plain_keys|]. split; [done|intros _; plain_keys].
  - split; [plain_keys|]. split; [|done]. intros Hin. exfalso. revert Hin.
    apply (bool_decide_unpack _). vm_compute. exact I.
Qed.

(** C27: the chosen authentication method decides the credentials and nothing else
    does.  With OAuth, JWT or client credentials the client holds no user name,
    password or security token, and for the latter two a token has been obtained
    by the one request sent: the form with the signed assertion, or with the
    client's credentials, posted to the token path below the login URL or the
    instance.  With any other method the client holds the user name, password and
    security token of the configuration and no token source, and nothing is sent.
    The new client is not connected.  When the connector cannot be made, the
    client is left as it was and no more than that form has been posted. *)
Theorem New_credentials `{Env} cfg opts w r w' :
  New cfg opts w = (Returns r, w') ->
  let method := default "" (opts_SelectedAuthMethod <$> opts) in
  let c := w_client w' in
  (exists sent, w_log w' = w_log w ++ sent
     /\ if bool_decide (method ∈ [SalesforceJWTBearerGroup; SalesforceClientCredentialsGroup])
        then (sent = [] /\ exists err, r = inl err)
             \/ exists req url, sent = [req] /\ fallBackToHTTPS (cfg_InstanceUrl cfg) = inr url
                  /\ token_post cfg method url w req
        else sent = [])
  /\ match r with
     | inl _ => c = w_client w
     | inr d =>
         fallBackToHTTPS (cfg_InstanceUrl cfg) = inr (c_baseUrl c) /\ d_instanceURL d = c_baseUrl c
         /\ c_initialized c = false /\ c_client c = None
         /\ (if bool_decide (method ∈ [SalesforceOAuthGroup; SalesforceJWTBearerGroup;
                                       SalesforceClientCredentialsGroup])
             then c_Username c = "" /\ c_password c = "" /\ c_securityToken c = ""
                  /\ c_TokenSource c = (if String.eqb method SalesforceOAuthGroup
                                        then default false (opts_TokenSource <$> opts) else true)
             else c_Username c = cfg_SalesforceUsername cfg /\ c_password c = cfg_SalesforcePassword cfg
                  /\ c_securityToken c = cfg_SecurityToken cfg /\ c_TokenSource c = false)
         /\ forall license profile,
              d_licenseToLeastProfileMapping d !! license = Some profile
              <-> cfg_LicenseToLeastPrivilegedProfileMapping cfg !! license = Some (VString profile)
     end.
Proof.
  intros Hrun method c. unfold New in Hrun.
  destruct (fallBackToHTTPS (cfg_InstanceUrl cfg)) as [err|url] eqn:Eu.
  { injection Hrun as <- <-. split; [|done]. exists []. rewrite app_nil_r.
    split; [done|]. destruct (bool_decide _); [left; eauto|done]. }
  apply GoM_bind_inv in Hrun as (client & w1 & Hclient & Hrun).
  destruct (new_client_sends _ _ _ _ _ _ Hclient) as [Hc1 Hsent]. fold method in Hsent.
  assert (w_log w' = w_log w1 /\ forall err, client = inl err -> r = inl err) as [Hl1 Hr]
    by (destruct client; injection Hrun as <- <-; split; [done|by intros ? [= ->]|done..]).
  split.
  { rewrite Hl1. destruct (bool_decide _).
    - destruct Hsent as [[-> [err ->]]|(req & -> & Hpost)].
      + exists []. rewrite app_nil_r. eauto 6.
      + eauto 10.
    - exists []. by rewrite app_nil_r. }
  destruct client as [err|client]; [by injection Hrun as <- <-|].
  injection Hrun as <- <-. unfold c. cbn [w_client w_log].
  destruct (new_client_credentials _ _ _ _ _ _ Hclient) as (Hurl & Hi & Hnone & Hcred).
  rewrite Hurl. split_and!; try done.
  intros license profile. cbn [d_licenseToLeastProfileMapping].
  unfold GetLicenseToLeastPrivilegedProfileMapping. rewrite lookup_omap.
  destruct (cfg_LicenseToLeastPrivilegedProfileMapping cfg !! license) as [[]|]; simpl;
    split; intros; by simplify_eq.
Qed.

(** C28: the instance the connector talks to.  A plain host name gets [https://] in
    front, and one that has it already stays as it is, so that the instance is a
    URL below which every request of the client parses.  A host name with a port
    and no scheme gets none: its name is taken for a scheme, and the "instance" is
    no HTTP URL. *)
Theorem fallBackToHTTPS_spec host port :
  host <> "" -> str_forall host_byte host = true ->
  fallBackToHTTPS host = inr ("https://" +:+ host)
  /\ fallBackToHTTPS ("https://" +:+ host) = inr ("https://" +:+ host)
  /\ instance_url ("https://" +:+ host) = true
  /\ (match host with String c _ => is_letter c | "" => false end = true ->
      str_forall is_digit port = true -> port <> "" ->
      fallBackToHTTPS (host +:+ ":" +:+ port) = inr (strings_ToLower host +:+ ":" +:+ port)).
Proof.
  intros Hne Hh. unfold fallBackToHTTPS. split_and!.
  - rewrite url_Parse_host, url_Parse_https by done. cbn [url_Scheme plain_url String.eqb].
    by rewrite url_String_https.
  - rewrite url_Parse_https by done. cbn [url_Scheme plain_url String.eqb]. by rewrite url_String_https.
  - unfold instance_url. rewrite strip_prefix_app, Hh. by destruct host.
  - intros Hl Hp Hport. rewrite url_Parse_host_port by done. cbn [url_Scheme].
    assert (String.eqb (strings_ToLower host) "" = false) as -> by (by destruct host).
    unfold url_String. cbn. destruct (String.eqb_spec port ""); [done|]. cbn [negb].
    assert (String.eqb (strings_ToLower host) "" = false) as -> by (by destruct host).
    by rewrite !str_app_nil_r, str_app_assoc.
Qed.

Lemma fallBackToHTTPS_spec_witness :
  fallBackToHTTPS "acme.my.salesforce.com" = inr "https://acme.my.salesforce.com"
  /\ fallBackToHTTPS "acme.my.salesforce.com:8443" = inr "acme.my.salesforce.com:8443".
Proof.
  destruct (fallBackToHTTPS_spec "acme.my.salesforce.com" "8443" ltac:(discriminate) eq_refl)
    as (H1 & _ & _ & H4).
  split; [exact H1|]. exact (H4 eq_refl eq_refl ltac:(discriminate)).
Defined.

(** The action [update_user_status] refuses arguments that are missing or of the
    wrong type without sending anything; otherwise it reads the user and sets
    [IsActive] to the one given. *)
Theorem updateUserStatus_requests `{Env} client args w :
  online client w -> url_ok client = true ->
  match args !! "resource_id", args !! "is_active" with
  | Some (PbString id), Some (PbBool active) =>
      forall user rl w1,
        id <> "" -> path_safe id = true -> getOneUser id w = (Returns (Some user, rl, None), w1) ->
        SObject_Type user = Returns "User" -> SObject_ID user = id -> ExternalIDFieldName user = "" ->
        w_log (updateUserStatus args w).2
        = w_log w ++ [client_request client MethodGet (makeURL client ("sobjects/User/" +:+ id)) NoBody;
                      patch_request client "User" id
                        {["IsActive" := VString (if active : bool then "true" else "false")]}]
  | _, _ => exists err, updateUserStatus args w = (Returns (None, [], Some err), w)
  end.
Proof.
  intros Hw Hok. unfold updateUserStatus.
  destruct (args !! "resource_id") as [[| |id| |]|]; try by eexists.
  destruct (args !! "is_active") as [[| | |active|]|]; try by eexists.
  intros user rl w1 Hid Hids Hget Ht Huid He. rewrite bind_quiet by walk. unfold SetUserActiveState.
  assert (patch_request client "User" id {["IsActive" := VString (if active then "true" else "false")]}
    = patch_user_request client "IsActive" "User" user (strconv_FormatBool active)) as ->
    by (unfold patch_request, patch_user_request; rewrite Huid; by destruct active).
  apply (setOneValue_log client Hok id "IsActive" "User" w w1 user rl Hw Hid Hids eq_refl);
    [by rewrite Huid|done|done|done|by rewrite Huid|done|plain_keys].
Qed.

(** C36: only users can be granted anything: for a principal of another type every
    [Grant] answers with an error at once, and so do the revokes of permission
    sets and their groups; nothing is sent and no state changes. *)
Theorem only_users_are_granted `{Env} principal ent g w :
  is_user principal = false -> grant_Principal g = principal ->
  let refused {A} (m : GoM World (A * error)) := exists a err, m w = (Returns (a, Some err), w) in
  refused (group_Grant principal ent) /\ refused (role_Grant principal ent)
  /\ refused (profile_Grant principal ent) /\ refused (permission_Grant principal ent)
  /\ refused (permissionSetGroup_Grant principal ent) /\ refused (territory_Grant principal ent)
  /\ refused (permission_Revoke g) /\ refused (permissionSetGroup_Revoke g).
Proof.
  intros Hu Hp. cbv zeta.
  unfold group_Grant, role_Grant, profile_Grant, permission_Grant, permissionSetGroup_Grant,
    territory_Grant, permission_Revoke, permissionSetGroup_Revoke.
  rewrite Hp, Hu. cbn [negb]. split_and!; by do 2 eexists.
Qed.

Section connector_witness.
#[local] Existing Instance tape_env.

Definition a_config : Salesforce_config :=
  {| cfg_SalesforceUsername := "admin"; cfg_SalesforcePassword := "pw"; cfg_SecurityToken := "";
     cfg_InstanceUrl := "https://acme.my.salesforce.com"; cfg_UserUsernameForEmail := false;
     cfg_SyncConnectedApps := true; cfg_SyncDeactivatedUsers := false;
     cfg_SyncNonStandardUsers := false;
     cfg_LicenseToLeastPrivilegedProfileMapping := {["Salesforce" := VString "Minimum Access"]};
     cfg_Oauth2Token := ""; cfg_SalesforceClientId := "id"; cfg_SalesforceClientSecret := "secret";
     cfg_SalesforcePrivateKey := ""; cfg_SalesforceJwtSubject := ""; cfg_SalesforceLoginUrl := "" |}.
Definition some_opts : ConnectorOpts :=
  {| opts_SelectedAuthMethod := SalesforceClientCredentialsGroup; opts_TokenSource := false |}.
Definition a_connector : Salesforce :=
  {| d_instanceURL := "https://acme.my.salesforce.com"; d_shouldUseUsernameForEmail := false;
     d_syncConnectedApps := true; d_syncDeactivatedUsers := false; d_syncNonStandardUsers := false;
     d_licenseToLeastProfileMapping := {["Salesforce" := "Minimum Access"]} |}.
Definition role_json : json := JObj [("Id", JStr "00E1"); ("Name", JStr "CEO")].
Definition roles_world : World := tape_world [ok_json (page_json [role_json] true "")].
Definition first_page : PageToken := {| pt_Token := ""; pt_Size := 100 |}.
Definition roles : any_syncer := syncer newRoleBuilder.

Lemma sync_reads_only_witness :
  length (w_log (syncer_List (as_value roles) first_page roles_world).2) = 1
  /\ exists l, w_log (syncer_List (as_value roles) first_page roles_world).2 = [] ++ l
       /\ Forall reads_only l.
Proof.
  split; [vm_compute; reflexivity|].
  refine (sync_reads_only a_connector roles_world _ (rtc_once _ _ (step_List a_connector roles _ _ _))).
  do 4 right. left.
Defined.

Lemma reachable_client_witness :
  ready (w_client (perform a_connector ValidateCredentials roles_world).2)
  /\ c_client (w_client (perform a_connector ValidateCredentials roles_world).2) = Some sf_client.
Proof.
  destruct (reachable_client a_connector roles_world (perform a_connector ValidateCredentials roles_world).2)
    as (Hready & _ & Hkept & _).
  - apply rtc_once, step_operation.
  - intros _. vm_compute. eauto.
  - split; [exact Hready|]. apply Hkept. vm_compute. reflexivity.
Defined.

Definition roles_list := syncer_List (as_value roles) first_page roles_world.
Definition role_resources : list Resource := [roleResource {| r_ID := "00E1"; r_Name := "CEO" |}].

Definition territories : any_syncer := syncer newTerritoryBuilder.
Definition association_of_seller : json :=
  JObj [("Id", JStr "0Ma1"); ("UserId", JStr "005A"); ("Territory2Id", JStr "0MI1");
        ("RoleInTerritory2", JStr "Seller")].
Definition sellers_world : World := tape_world [ok_json (page_json [association_of_seller] true "")].
Definition picklist_world : World := tape_world [ok_json (page_json [JObj [("Value", JStr "Seller")]] true "")].
Definition seller_grants : list Grant :=
  [NewGrant west_territory "member" (user_principal "005A"); NewGrant west_territory "role:Seller" (user_principal "005A")].
Definition static_entitlements : list Entitlement := [member_entitlement; role_entitlement "Seller"].
Definition one_page : option SyncOpResults :=
  Some {| so_NextPageToken := ""; so_Annotations := [ARateLimit None] |}.

(** Roles are listed with their type; each of the two grants of a member with a role
    is for one of the territory's entitlements, or for a role that is not listed. *)
Lemma sync_consistent_witness :
  Forall (fun r => rid_ResourceType (res_Id r) = "role") role_resources
  /\ Forall (fun g => (exists ent, ent ∈ static_entitlements
         /\ ent_Id (grant_Entitlement g) = NewEntitlementID (Some west_territory) (ent_Slug ent))
       \/ (exists role, ent_Id (grant_Entitlement g) = NewEntitlementID (Some west_territory) (role_slug role)
            /\ forall roles rl w', GetTerritoryRoles picklist_world = (Returns (roles, rl, None), w') ->
                 role ∉ roles)) seller_grants.
Proof.
  split.
  - refine (proj1 (sync_consistent a_connector roles _) first_page roles_world role_resources
      (Some {| so_NextPageToken := ""; so_Annotations := [ARateLimit None] |}) None roles_list.2 _).
    + do 4 right. left.
    + unfold roles_list. reads.
  - eapply Forall_impl.
    + refine (proj2 (sync_consistent a_connector territories _) west_territory first_page sellers_world
        seller_grants one_page None (territory_Grants west_territory first_page sellers_world).2 _).
      * do 6 right. left.
      * change (territory_Grants west_territory first_page sellers_world
          = (Returns (seller_grants, one_page, None), (territory_Grants west_territory first_page sellers_world).2)).
        reads.
    + intros g [_ Hg]. refine (Hg picklist_world static_entitlements one_page
        (territory_StaticEntitlements picklist_world).2 _). reads.
Defined.

(** With client credentials the token is asked for below the instance. *)
Lemma New_credentials_witness :
  let w' := (New a_config (Some some_opts) roles_world).2 in
  let c := w_client w' in
  (c_Username c = "" /\ c_password c = "" /\ c_securityToken c = "" /\ c_TokenSource c = true)
  /\ w_log w' = [{| req_method := MethodPost;
       req_url := "https://acme.my.salesforce.com/services/oauth2/token"; req_authorization := "";
       req_body := FormBody [("client_id", "id"); ("client_secret", "secret");
                             ("grant_type", "client_credentials")] |}].
Proof.
  assert (New a_config (Some some_opts) roles_world
    = (Returns (inr a_connector), (New a_config (Some some_opts) roles_world).2)) as Hrun by reads.
  split; [|vm_compute; reflexivity].
  exact (proj1 (proj2 (proj2 (proj2 (proj2 (proj2
    (New_credentials a_config (Some some_opts) roles_world _ _ Hrun))))))).
Defined.

Lemma updateUserStatus_requests_witness :
  exists err, updateUserStatus {["resource_id" := PbString "005A"; "is_active" := PbString "true"]} roles_world
    = (Returns (None, [], Some err), roles_world).
Proof.
  refine (updateUserStatus_requests sf_client
    {["resource_id" := PbString "005A"; "is_active" := PbString "true"]} roles_world _ _).
  - vm_compute. eauto.
  - reflexivity.
Defined.

Definition group_principal : ResourceId := {| rid_ResourceType := "group"; rid_Resource := "00G1" |}.
Definition role_ent : Entitlement := NewAssignmentEntitlement None "assigned" [resourceTypeUser] "" "".

Lemma only_users_are_granted_witness :
  exists a err, role_Grant group_principal role_ent roles_world = (Returns (a, Some err), roles_world).
Proof.
  exact (proj1 (proj2 (only_users_are_granted group_principal role_ent
    (NewGrant (NewResource "" resourceTypeRole "00E1" None TRole) "assigned" group_principal)
    roles_world eq_refl eq_refl))).
Defined.
End connector_witness.
