(* ===== verification/Rest.v ===== *)
(** * The REST API, as the connector relies on it

    A part of what Salesforce holds, in a state of the environment, and how a
    request changes it: [RestService] is the transport's side of it (the token,
    the cache), [answers] says what a request is answered.  The lemmas carry an
    answer through the HTTP client, simpleforce and the helpers of the client,
    for queries and for the create, read, update and delete of an object.  The
    services of the following files say what the requests of a table are
    answered. *)
From S2P Require Export Connector Tape.

(** What the environment holds for a client, as far as [T] shows it. *)
Class RestService `{Env} (client : simple_client) (T : Type) := {
  rest_ok : env_state -> Prop;
  rest_state : env_state -> T;
  (* No request is answered from a cache, and the rest leaves the state alone.  The
     SDK caches by default: see [revokes_are_stale]. *)
  rest_no_cache req s : rest_ok s -> env_cache_get req s = inr None;
  (* What is answered can be read. *)
  rest_read req s resp s' : rest_ok s -> env_http req s = (inr resp, s') -> resp_read_error resp = None;
  rest_cache_set req resp s :
    rest_ok s -> rest_ok (env_cache_set req resp s) /\ rest_state (env_cache_set req resp s) = rest_state s;
  rest_token s : rest_ok s -> rest_ok (env_token s).2 /\ rest_state (env_token s).2 = rest_state s;
}.

(** A record id is letters and digits. *)
Definition object_id (id : string) : bool := negb (String.eqb id "") && str_forall is_alnum id.
Definition id_pair (p : string * string) : Prop := object_id p.1 = true /\ object_id p.2 = true.

Lemma object_id_safe id : object_id id = true -> id <> "" /\ path_safe id = true.
Proof.
  unfold object_id. rewrite andb_true_iff, negb_true_iff, String.eqb_neq. intros [Hne Hall]. split; [done|].
  apply host_path_safe. revert Hall. apply str_forall_weaken. intros c Hc. unfold host_byte. by rewrite Hc.
Qed.

(** A refusal with an error code. *)
Definition refuses (resp : http_response) (code : string) : Prop :=
  status_ok (resp_status resp) = false /\
  exists message rest, resp_json resp ≫= decode_json_errors = Some ((message, code) :: rest).

(** The request goes to this resource of the instance. *)
Definition goes_to (client : simple_client) (req : http_request) (path rawQuery : string) : Prop :=
  exists u, url_Parse (req_url req) = Some u /\ sc_instanceURL client = "https://" +:+ url_Host u
    /\ url_Path u = path /\ url_RawQuery u = rawQuery.

(** The paths of the query resource, of a table and of a record. *)
Definition query_path (client : simple_client) : string := "/services/data/v" +:+ sc_apiVersion client +:+ "/query".
Definition object_path (client : simple_client) (table id : string) : string :=
  "/services/data/v" +:+ drop_v (sc_apiVersion client) +:+ "/sobjects/" +:+ table +:+ "/" +:+ id.

(** The answer to a create that succeeded. *)
Definition created_answer (id : string) (resp : http_response) : Prop :=
  id <> "" /\ status_ok (resp_status resp) = true
  /\ resp_json resp = Some (JObj [("id", JStr id); ("success", JBool true); ("errors", JArr [])]).

(** The answer of a query with a page of records. *)
Definition page_of (resp : http_response) (result : QueryResult) (records : list SObject) : Prop :=
  resp_status resp = 200%Z /\ resp_json resp ≫= decode_QueryResult = Some result
  /\ qr_Records result = map Some records.

Lemma page_of_unique resp result1 records1 result2 records2 :
  page_of resp result1 records1 -> page_of resp result2 records2 -> result1 = result2 /\ records1 = records2.
Proof.
  intros (_ & Hd1 & Hr1) (_ & Hd2 & Hr2). assert (result1 = result2) as -> by congruence. split; [done|].
  apply (inj (map Some)). congruence.
Qed.

(** A record can be written like this: a table and fields with plain names. *)
Record writable (table : string) (values : gmap string value) : Prop := {
  writable_table : path_safe table = true /\ table <> "";
  writable_fields : plain_fields values;
  writable_json : json_Marshal_ok values = true;
}.

(** An error that carries this code of Salesforce's, and none of the sentinels. *)
Definition has_code (code : string) (err : go_error) : Prop :=
  sf_ErrorCode <$> errors_As_Salesforce err = Some code /\ forall x, errors_Is err x = false.

(** What a call makes of a response: nothing of a success, the code of a refusal. *)
Definition outcome_of (resp : http_response) (err : error) : Prop :=
  match err with
  | None => status_ok (resp_status resp) = true
  | Some e => exists code, refuses resp code /\ has_code code e
  end.

Lemma outcome_success resp err : outcome_of resp err -> status_ok (resp_status resp) = true -> err = None.
Proof. destruct err as [e|]; [|done]. intros (code & [Hst _] & _) Hst'. congruence. Qed.

Lemma refuses_code resp code code' : refuses resp code -> refuses resp code' -> code = code'.
Proof. intros (_ & m & r & H1) (_ & m' & r' & H2). congruence. Qed.

Lemma outcome_refused resp err code : outcome_of resp err -> refuses resp code -> exists e, err = Some e /\ has_code code e.
Proof.
  intros Hout Href. destruct err as [e|]; [|destruct Href as [Hst _]; unfold outcome_of in Hout; congruence].
  destruct Hout as (code' & Href' & Hcode). exists e. split; [done|]. by rewrite (refuses_code resp code code').
Qed.

Lemma has_code_duplicate e : has_code "DUPLICATE_VALUE" e -> isSalesforceDuplicateError e = true.
Proof.
  intros [He _]. unfold isSalesforceDuplicateError. destruct (errors_As_Salesforce e) as [x|]; [|done].
  cbn in He. injection He as ->. reflexivity.
Qed.

Lemma duplicate_outcome resp err :
  refuses resp "DUPLICATE_VALUE" -> outcome_of resp err ->
  exists e, err = Some e /\ isSalesforceDuplicateError e = true.
Proof.
  intros Href Hout. destruct (outcome_refused resp err _ Hout Href) as (e & -> & He). exists e. split; [done|].
  by apply has_code_duplicate.
Qed.

(** A refusal that is not for a duplicate. *)
Definition declined (resp : http_response) : Prop := exists code, refuses resp code /\ code <> "DUPLICATE_VALUE".

(** The error of a call that was declined. *)
Definition plain_failure (err : error) : Prop :=
  exists e, err = Some e /\ isSalesforceDuplicateError e = false /\ forall x, errors_Is e x = false.

Lemma declined_outcome resp err : declined resp -> outcome_of resp err -> plain_failure err.
Proof.
  intros (code & Href & Hcode) Hout. destruct (outcome_refused resp err code Hout Href) as (e & -> & [He Hs]).
  exists e. split; [done|]. split; [|done]. unfold isSalesforceDuplicateError.
  destruct (errors_As_Salesforce e); [|done]. cbn in He. injection He as ->. by apply String.eqb_neq.
Qed.

(** Every answer is a success or a refusal. *)
Definition settled {T} (Q : http_response -> T -> Prop) : Prop :=
  forall resp x, Q resp x -> status_ok (resp_status resp) = true \/ exists code, refuses resp code.

(** The error of a result. *)
Definition failure {A} (r : go_error + A) : error := match r with inl err => Some err | inr _ => None end.

Section rest.
Context `{Env} {client : simple_client} {T : Type} `{!RestService client T}.

(** The environment is in this state. *)
Definition holds (x : T) (w : World) : Prop := rest_ok (w_env w) /\ rest_state (w_env w) = x.

(** The client is connected to a Salesforce in this state. *)
Definition serves (x : T) (w : World) : Prop := online client w /\ holds x w.

(** However it is authorized, the request is answered like this. *)
Definition answers (req : http_request) (x : T) (Q : http_response -> T -> Prop) : Prop :=
  forall auth s, rest_ok s -> rest_state s = x ->
  exists resp s', env_http {| req_method := req_method req; req_url := req_url req;
                              req_authorization := auth; req_body := req_body req |} s = (inr resp, s')
    /\ rest_ok s' /\ Q resp (rest_state s').

Lemma RoundTrip_answers t req x Q :
  answers req x Q ->
  triple (holds x) (RoundTrip t req)
    (fun r w => exists resp x', r.2 = inr resp /\ resp_read_error resp = None /\ Q resp x' /\ holds x' w).
Proof.
  intros Hreq. unfold RoundTrip.
  apply (triple_bind _ _ (fun req' w => (exists auth, req' = {| req_method := req_method req; req_url := req_url req;
      req_authorization := auth; req_body := req_body req |}) /\ holds x w)).
  - destruct (t_tokenSource t); [|apply triple_ret; intros w Hw; split; [exists (req_authorization req); by destruct req|done]].
    intros w [Hs HL]. unfold ask. pose proof (rest_token _ Hs) as [Hs' HL'].
    destruct (env_token (w_env w)) as [tok s'] eqn:Et. simpl in Hs', HL'.
    erewrite GoM_bind_run by (by rewrite Et).
    destruct tok as [err|tok]; eexists _, _; (split; [reflexivity|]); (split; [|split; [exact Hs'|simpl; congruence]]).
    + exists (req_authorization req). by destruct req.
    + by eexists.
  - intros req'. apply triple_pure. intros [auth ->] w [Hs HL].
    destruct (Hreq auth (w_env w) Hs HL) as (resp & s' & Hh & Hs' & Hq).
    unfold ask. erewrite GoM_bind_run by (by rewrite Hh). eexists _, _. split; [reflexivity|].
    exists resp, (rest_state s'). split_and!; try done. exact (rest_read _ _ _ _ Hs Hh).
Qed.

Lemma Do_answers t req x Q :
  answers req x Q ->
  triple (holds x) (Do t req) (fun r w => exists resp x', r.1.2 = Some resp /\ resp_read_error resp = None /\ Q resp x' /\ holds x' w
    /\ r.2 = if status_ok (resp_status resp) then None
             else Some (EStatus (GrpcCodeFromHTTPStatus (resp_status resp)) (resp_status_text resp))).
Proof.
  intros Hreq. unfold Do.
  apply (triple_bind _ _ (fun _ => holds x)); [intros w Hw; eexists _, _; by split|]. intros [].
  apply triple_get. intros w0 [Hs0 HL0]. apply (triple_pre (holds x)); [intros ? Hw; by rewrite Hw|].
  assert (match req_method req with MethodGet => env_cache_get req (w_env w0) | _ => inr None end = inr None) as ->
    by (destruct (req_method req); [by apply rest_no_cache|done..]).
  eapply triple_bind; [by apply RoundTrip_answers|]. intros [t' resp].
  intros w (r & x' & Heq & Hread & Hq & Hw). simpl in Heq. subst resp. rewrite Hread.
  destruct (status_ok (resp_status r)) eqn:Es; cbn [negb].
  - assert (exists w', (match req_method req with
        | MethodGet => if (resp_status r =? 200)%Z then with_env (env_cache_set req r) else mret tt
        | _ => mret tt end) w = (Returns tt, w') /\ holds x' w') as (w' & Hset & Hw').
    { destruct (req_method req); [destruct (resp_status r =? 200)%Z|..]; (eexists; split; [reflexivity|]); try done.
      destruct Hw as [Hs HL]. destruct (rest_cache_set req r _ Hs) as [Hs' HL']. split; [done|simpl; congruence]. }
    rewrite (GoM_bind_run _ _ _ _ _ Hset). eexists _, w'. split; [reflexivity|].
    exists r, x'. by rewrite Es.
  - eexists _, w. split; [reflexivity|]. exists r, x'. by rewrite Es.
Qed.

(** A request that is answered with a success. *)
Lemma httpRequest_answers t method url body x Q :
  url_Parse url <> None -> answers (client_request client method url body) x Q ->
  (forall resp x', Q resp x' -> status_ok (resp_status resp) = true) ->
  triple (holds x) (httpRequest client t method url body)
    (fun r w => exists resp x', r.2 = (None, Some resp) /\ Q resp x' /\ holds x' w).
Proof.
  intros Hurl Hreq HQ. unfold httpRequest. destruct (url_Parse url); [|done].
  fold (client_request client method url body).
  eapply triple_bind; [by apply Do_answers|]. intros [[t' resp] err] w (r & x' & Heq & _ & Hq & Hw & He).
  cbn [fst snd] in Heq, He. subst. pose proof (HQ _ _ Hq) as Hst. rewrite Hst. cbn [negb].
  eexists _, w. split; [reflexivity|]. by exists r, x'.
Qed.

(** One that is answered with either. *)
Lemma httpRequest_settles t method url body x Q :
  url_Parse url <> None -> answers (client_request client method url body) x Q -> settled Q ->
  triple (holds x) (httpRequest client t method url body)
    (fun r w => exists resp x', Q resp x'
       /\ (r.2 = (None, Some resp) /\ status_ok (resp_status resp) = true
           \/ exists err, r.2 = (Some err, None) /\ outcome_of resp (Some err))
       /\ holds x' w).
Proof.
  intros Hurl Hreq HQ w Hw.
  destruct (Do_answers t _ x Q Hreq w Hw) as ([[t' r] e] & w' & Hdo & (resp & x' & Heq & Hread & Hq & Hw' & He)).
  cbn [fst snd] in Heq, He. subst r. destruct (HQ _ _ Hq) as [Hst|(code & Hst & message & rest & Hdec)].
  - rewrite Hst in He. subst e. unfold httpRequest. destruct (url_Parse url); [|done].
    fold (client_request client method url body). rewrite (GoM_bind_run _ _ _ _ _ Hdo), Hst.
    eexists _, w'. split; [reflexivity|]. exists resp, x'. split; [done|]. split; [by left|done].
  - rewrite (httpRequest_fails client t method url body w t' resp e w' message code rest Hurl Hdo Hread Hst Hdec).
    eexists _, w'. split; [reflexivity|]. exists resp, x'. split; [done|]. split; [|done]. right.
    eexists. split; [reflexivity|]. exists code. split; [by split; [|exists message, rest]|done].
Qed.

(** A call on the client: the store's client stays connected. *)
Lemma on_client_serves {A} (f : simple_client -> salesforceHttpTransport ->
    GoM World (salesforceHttpTransport * A)) x (Q : A -> T -> Prop) :
  (forall t, triple (holds x) (f client t) (fun r w => exists x', Q r.2 x' /\ holds x' w)) ->
  triple (serves x) (on_client f) (fun a w => exists x', Q a x' /\ serves x' w).
Proof.
  intros Hf w [(Hi & Hc & [t Ht]) Hw]. unfold on_client, get_client.
  rewrite GoM_bind_run with (a := w_client w) (s' := w) by done. rewrite Hc, Ht.
  destruct (Hf t w Hw) as ([t' a] & w1 & Hr & x' & Hq & Hw1). rewrite (GoM_bind_run _ _ _ _ _ Hr).
  eexists _, _. split; [reflexivity|]. exists x'. split; [done|]. split; [|done].
  split_and!; simpl; eauto.
Qed.

Lemma rateLimit_serves x : triple (serves x) rateLimit (fun _ => serves x).
Proof.
  intros w [(Hi & Hc & [t Ht]) Hw]. exists (t_rateLimit t), w. split; [|by split; [split_and!; eauto|]].
  unfold rateLimit, get_client. rewrite GoM_bind_run with (a := w_client w) (s' := w) by done. by rewrite Ht.
Qed.

(** An initialized client goes on at once. *)
Lemma init_serves {B} x (k : error -> GoM World B) Q :
  triple (serves x) (k None) Q -> triple (serves x) (Initialize ≫= k) Q.
Proof. intros Hk w Hw. rewrite (init_bind_online client) by apply Hw. by apply Hk. Qed.

Lemma set_record_clients_Some records :
  set_record_clients (map Some records) = Returns (map (fun r => setClient r true) records).
Proof.
  unfold set_record_clients.
  assert (mapM (fun r => flip setClient true <$> r) (map Some records)
    = Some (map (fun r => setClient r true) records)) as ->; [|done].
  induction records as [|r records IH]; [done|]. simpl. simpl in IH. by rewrite IH.
Qed.

Lemma setClient_ID r c : SObject_ID (setClient r c) = SObject_ID r.
Proof. unfold SObject_ID, StringField, InterfaceField, setClient. by rewrite lookup_insert_ne. Qed.

Lemma setClient_interface r c key : plain_field key -> InterfaceField (setClient r c) key = InterfaceField r key.
Proof. intros Hkey. unfold InterfaceField, setClient. rewrite lookup_insert_ne; [done|]. intros <-. apply Hkey. by left. Qed.

Lemma setClient_field r c key : plain_field key -> StringField (setClient r c) key = StringField r key.
Proof. intros Hkey. unfold StringField. by rewrite setClient_interface. Qed.

Context (Hlogged : isLoggedIn client = true) (Hok : url_ok client = true).

(** A query whose one request is answered with a page. *)
Lemma query_answers x q tok n text (Q : http_response -> Prop) :
  getQueryString q tok n = Returns text -> url_Parse (query_url client text) <> None ->
  (forall auth, answers {| req_method := MethodGet; req_url := query_url client text; req_authorization := auth;
     req_body := NoBody |} x (fun resp x' => x' = x /\ Q resp /\ exists result records, page_of resp result records)) ->
  triple (serves x) (query q tok n) (fun r w => serves x w
    /\ exists resp result records rl, Q resp /\ page_of resp result records
       /\ r = (map (fun r => setClient r true) records, if qr_Done result then "" else qr_NextRecordsURL result, rl, None)).
Proof.
  intros Htext Hurl Hreq. unfold query. apply init_serves. rewrite Htext.
  eapply (triple_bind _ _ (fun s w => s = text /\ serves x w)); [by intros w Hw; exists text, w|].
  intros s. apply triple_pure. intros ->.
  eapply triple_bind.
  { apply (on_client_serves _ x (fun a x' => x' = x /\ exists resp result records, Q resp /\ page_of resp result records
      /\ a = inr (qr_Done result, qr_NextRecordsURL result, map (fun r => setClient r true) records))). intros t.
    unfold Query. rewrite Hlogged. cbn [negb]. eapply triple_bind.
    { eapply (httpRequest_answers t MethodGet _ NoBody x); [done|apply Hreq|].
      by intros resp x' (_ & _ & result & records & -> & _). }
    intros [t' [err resp]] w (r & x' & Heq & (-> & Hq & result & records & Hpage) & Hw).
    cbn [snd] in Heq. injection Heq as -> ->. pose proof Hpage as (_ & Hdec & Hrec). cbn [mbind option_bind].
    rewrite Hdec, Hrec, set_record_clients_Some, lift_bind_ret. eexists _, w. split; [reflexivity|].
    exists x. split; [|done]. split; [done|]. by exists r, result, records. }
  intros a w0 (x' & [-> (resp & result & records & Hq & Hpage & ->)] & Hw).
  destruct (rateLimit_serves x w0 Hw) as (rl & w' & Hrl & Hw'). rewrite (GoM_bind_run _ _ _ _ _ Hrl).
  eexists _, w'. split; [reflexivity|]. split; [done|]. by exists resp, result, records, rl.
Qed.


(** ** Objects *)

Lemma object_url_parts table rest :
  path_safe table = true -> path_safe rest = true ->
  exists u, url_Parse (makeURL client ("sobjects/" +:+ table +:+ "/" +:+ rest)) = Some u
    /\ sc_instanceURL client = "https://" +:+ url_Host u
    /\ url_Path u = object_path client table rest /\ url_RawQuery u = "".
Proof.
  intros Ht Hr. destruct (makeURL_parts client ("sobjects/" +:+ table +:+ "/" +:+ rest) Hok)
    as (u & host & Hp & Hi & Hh & Hpath & Hq); [by rewrite !path_safe_app, Ht, Hr|].
  exists u. by rewrite Hp, Hh.
Qed.

(** The requests for an object: its URL parses and goes to its resource. *)
Definition object_request (method : http_method) (table id auth : string) (body : request_body) : http_request :=
  {| req_method := method; req_url := makeURL client ("sobjects/" +:+ table +:+ "/" +:+ id);
     req_authorization := auth; req_body := body |}.

Lemma object_goes method table id auth body :
  path_safe table = true -> path_safe id = true ->
  goes_to client (object_request method table id auth body) (object_path client table id) "".
Proof. intros Ht Hi. destruct (object_url_parts table id Ht Hi) as (u & Hu). by exists u. Qed.

Lemma object_parses table id :
  path_safe table = true -> path_safe id = true ->
  url_Parse (makeURL client ("sobjects/" +:+ table +:+ "/" +:+ id)) <> None.
Proof. intros Ht Hi. destruct (object_url_parts table id Ht Hi) as (u & -> & _). done. Qed.

(** What a call gives, and the state it leaves. *)
Definition gives {A} (Q : A -> T -> Prop) (a : A) (w : World) : Prop := exists x, Q a x /\ serves x w.

(** A call on the client; what it answers is read off with the rate limit. *)
Lemma call_gives {A B} (f : simple_client -> salesforceHttpTransport ->
    GoM World (salesforceHttpTransport * A)) (k : A -> option RateLimitDescription -> GoM World B) x Q Q' :
  (forall t, triple (holds x) (f client t) (fun r w => exists x', Q r.2 x' /\ holds x' w)) ->
  (forall a rl x', Q a x' -> exists b, k a rl = mret b /\ Q' b x') ->
  triple (serves x) (a ← on_client f; rl ← rateLimit; k a rl) (gives Q').
Proof.
  intros Hf Hk. eapply triple_bind; [by apply on_client_serves|]. intros a w (x' & Ha & Hw).
  destruct (rateLimit_serves _ w Hw) as (rl & w' & Hrl & Hw'). rewrite (GoM_bind_run _ _ _ _ _ Hrl).
  destruct (Hk a rl x' Ha) as (b & -> & Hb). eexists _, w'. split; [reflexivity|]. by exists x'.
Qed.

Lemma created_id obj id resp : created_answer id resp -> setIDFromResponseData obj (resp_json resp) = inr (setID obj id).
Proof.
  intros (Hne & _ & ->). unfold setIDFromResponseData.
  set (l := [("id", JStr id); ("success", JBool true); ("errors", JArr [])]).
  assert (decode_field "id" decode_string "" l = Some id) as -> by reflexivity.
  assert (decode_field "success" decode_bool false l = Some true) as -> by reflexivity.
  cbn [mbind option_bind negb orb]. by destruct (String.eqb_spec id "").
Qed.

Section write.
Context (table : string) (values : gmap string value) (Hwr : writable table values).

(** Creating an object sends the fields to the table, updating it to the record. *)
Lemma Create_sends t w :
  SObject_Create client t (set_all (map_to_list values) (Client_SObject true table)) w
  = ('(t, (err, resp)) ← httpRequest client t MethodPost (makeURL client ("sobjects/" +:+ table +:+ "/"))
        (JsonBody values);
     match err with
     | Some err => mret (t, inl err)
     | None => mret (t, setIDFromResponseData (values ∪ Client_SObject true table) (resp ≫= resp_json))
     end) w.
Proof.
  destruct Hwr as [[_ Hne] Hplain Hjson]. rewrite (set_all_values _ values) by done. unfold SObject_Create.
  rewrite written_type, Client_SObject_type, written_client, Client_SObject_client by done.
  rewrite lift_bind_ret. destruct (String.eqb_spec table ""); [done|]. cbn [orb negb].
  rewrite written_body by (done || apply Client_SObject_keys). by rewrite Hjson.
Qed.

(** An object of this table and id that is to be updated with the values. *)
Definition updates (obj : SObject) (id : string) : Prop :=
  SObject_Type obj = Returns table /\ SObject_client obj = true /\ SObject_ID obj = id /\ makeCopy obj = values.

Lemma Update_sends t obj id w :
  updates obj id -> id <> "" ->
  SObject_Update client t obj w
  = ('(t, (err, _)) ← httpRequest client t MethodPatch (makeURL client ("sobjects/" +:+ table +:+ "/" +:+ id))
        (JsonBody values);
     match err with Some err => mret (t, inl err) | None => mret (t, inr obj) end) w.
Proof.
  intros (Ht & Hc & Hi & Hcopy) Hid. destruct Hwr as [[_ Hne] _ Hjson]. unfold SObject_Update.
  rewrite Ht, Hc, Hi, Hcopy, Hjson, lift_bind_ret.
  destruct (String.eqb_spec table ""), (String.eqb_spec id ""); by cbn [orb negb].
Qed.

Lemma updates_set id : updates (values ∪ SObject_Set (Client_SObject true table) "Id" (VString id)) id.
Proof.
  destruct Hwr as [_ Hplain _]. unfold updates.
  rewrite written_type, written_client, written_id, Set_id_type, Set_id_client, Client_SObject_type,
    written_body by (done || apply Set_id_keys).
  split_and!; [done|done|apply StringField_Set|done].
Qed.

Lemma UpdateObject_updates id :
  updates (set_all (map_to_list values) (SObject_Set (Client_SObject true table) "Id" (VString id))) id.
Proof. rewrite (set_all_values _ values) by done. apply updates_set. Qed.

(** Updating it is a request to the record. *)
Lemma Update_gives t obj id x Q :
  updates obj id -> id <> "" -> path_safe id = true ->
  answers (object_request MethodPatch table id "" (JsonBody values)) x Q -> settled Q ->
  triple (holds x) (SObject_Update client t obj)
    (fun r w => exists x', (exists resp, Q resp x' /\ outcome_of resp (failure r.2)) /\ holds x' w).
Proof.
  intros Hobj Hne Hid Hreq HQ. eapply triple_run; [intros w; by apply Update_sends|]. eapply triple_bind.
  { apply httpRequest_settles; [|exact Hreq|done]. apply object_parses; [apply Hwr|done]. }
  intros [t' [err resp]] w (r & x' & Hq & Hres & Hw). cbn [snd] in Hres.
  destruct Hres as [[[= -> ->] Hst]|(e & [= -> ->] & Hcode)]; eexists _, w; (split; [reflexivity|]);
    exists x'; (split; [|done]); exists r; by split.
Qed.

Lemma CreateObject_gives x Q :
  answers (object_request MethodPost table "" "" (JsonBody values)) x Q ->
  (forall resp x', Q resp x' -> (exists id, created_answer id resp) \/ exists code, refuses resp code) ->
  triple (serves x) (CreateObject table values) (gives (fun r x' => exists resp, Q resp x' /\ outcome_of resp r.2)).
Proof.
  intros Hreq HQ. unfold CreateObject. apply init_serves.
  apply (call_gives _ _ x (fun a x' => exists resp, Q resp x' /\ outcome_of resp (failure a))).
  2: { intros [err|obj] rl x' (resp & Hq & Hout); eexists; (split; [reflexivity|]); exists resp; by split. }
  intros t. eapply triple_run; [intros w; apply Create_sends|]. eapply triple_bind.
  { apply (httpRequest_settles t _ _ _ x Q); [|exact Hreq|].
    - rewrite <-(str_app_nil_r "/") at 2. apply (object_parses table ""); [apply Hwr|done].
    - intros resp x' Hq. destruct (HQ _ _ Hq) as [(id & Hid)|Hcode]; [left; apply Hid|by right]. }
  intros [t' [err resp]] w (r & x' & Hq & Hres & Hw). cbn [snd] in Hres.
  destruct Hres as [[[= -> ->] Hst]|(e & [= -> ->] & Hcode)]; eexists _, w; (split; [reflexivity|]);
    exists x'; (split; [|done]); exists r; (split; [done|]); [|done].
  destruct (HQ _ _ Hq) as [(id & Hid)|(code & Href & _)]; [|congruence].
  cbn [mbind option_bind snd]. by rewrite (created_id _ id).
Qed.

Lemma UpdateObject_gives id x Q :
  id <> "" -> path_safe id = true ->
  answers (object_request MethodPatch table id "" (JsonBody values)) x Q -> settled Q ->
  triple (serves x) (UpdateObject table id values) (gives (fun r x' => exists resp, Q resp x' /\ outcome_of resp r.2)).
Proof.
  intros Hne Hid Hreq HQ. unfold UpdateObject. apply init_serves.
  apply (call_gives _ _ x (fun a x' => exists resp, Q resp x' /\ outcome_of resp (failure a))).
  - intros t. eapply Update_gives; [apply UpdateObject_updates|done..].
  - intros [err|obj] rl x' (resp & Hq & Hout); eexists; (split; [reflexivity|]); exists resp; by split.
Qed.
End write.

Lemma DeleteObject_gives table id x Q :
  path_safe table = true -> table <> "" -> id <> "" -> path_safe id = true ->
  answers (object_request MethodDelete table id "" NoBody) x Q -> settled Q ->
  triple (serves x) (DeleteObject table id) (gives (fun r x' => exists resp, Q resp x' /\ outcome_of resp r.2)).
Proof.
  intros Ht Hne Hnid Hid Hreq HQ. unfold DeleteObject. apply init_serves.
  apply (call_gives _ _ x (fun a x' => exists resp, Q resp x' /\ outcome_of resp a)).
  2: { intros err rl x' (resp & Hq & Hout). eexists; (split; [reflexivity|]). exists resp. by split. }
  intros t. unfold SObject_Delete. rewrite Set_id_type, Client_SObject_type, Set_id_client.
  assert (SObject_ID (SObject_Set (Client_SObject true table) "Id" (VString id)) = id) as ->
    by (apply StringField_Set).
  eapply (triple_bind _ _ (fun typ w => typ = table /\ holds x w)); [by intros w Hw; exists table, w|].
  intros typ. apply triple_pure. intros ->.
  destruct (String.eqb_spec table ""), (String.eqb_spec id ""); [done..|]. cbn [orb negb].
  eapply triple_bind; [by apply httpRequest_settles; [by apply object_parses|exact Hreq|]|].
  intros [t' [err resp]] w (r & x' & Hq & Hres & Hw). cbn [snd] in Hres.
  destruct Hres as [[[= -> ->] Hst]|(e & [= -> ->] & Hcode)]; eexists _, w; (split; [reflexivity|]);
    exists x'; (split; [|done]); exists r; by split.
Qed.
End rest.

Arguments updates table values obj id : clear implicits.

(** ** Sequences of calls *)

(** One after the other. *)
Fixpoint run_all {W Req} (step : Req -> GoM W unit) (rs : list Req) : GoM W unit :=
  match rs with
  | [] => mret tt
  | r :: rs => step r ≫= fun _ => run_all step rs
  end.

(** Where each does what [app] does to the abstract state, so do all of them. *)
Lemma run_all_refines {W Req X} (P : X -> W -> Prop) (ok : Req -> Prop) (app : X -> Req -> X) (step : Req -> GoM W unit) :
  (forall x r, ok r -> triple (P x) (step r) (fun _ => P (app x r))) ->
  forall rs x, Forall ok rs -> triple (P x) (run_all step rs) (fun _ => P (foldl app x rs)).
Proof.
  intros Hstep rs x Hrs. revert x. induction Hrs as [|r rs Hr _ IH]; intros x; [by apply triple_ret|].
  eapply triple_bind; [by apply Hstep|]. intros []. apply IH.
Qed.

Lemma triple_discard `{Env} {A} (P Q : World -> Prop) (m : GoM World A) (R : A -> World -> Prop) :
  (forall a w, R a w -> Q w) -> triple P m R -> triple P (discard m) (fun _ => Q).
Proof. intros HR Hm. eapply triple_bind; [exact Hm|]. intros a w Ha. exists tt, w. split; [done|by eapply HR]. Qed.
