(* ===== verification/Paging.v ===== *)
(** * Reading a list page by page

    What a page of a query shows ([shows]): some of the rows that are still to be
    listed, and a token that stands for the others.  When the API answers its own
    tokens ([continues]), the pages of a query list all of the rows; the pages of
    a sync call that is made of it list what the rows are mapped to.  [Listed]
    is what the API promises of a statement that lists the rows with a key. *)
From S2P Require Export Rest.

Section shows.
Context {Row : Type} (is_row : SObject -> Row -> Prop) (cursor : string -> option (list Row)).

(** A page that shows the first of these rows; its token stands for the rest. *)
Definition shows (rows : list Row) (resp : http_response) : Prop :=
  exists result records shown rest, page_of resp result records /\ rows = shown ++ rest
    /\ Forall2 is_row records shown
    /\ (if qr_Done result then rest = []
        else shown <> [] /\ qr_NextRecordsURL result <> "" /\ cursor (qr_NextRecordsURL result) = Some rest).

(** What a page of the query hands back. *)
Definition page_result (rows : list Row) (r : list SObject * string * option RateLimitDescription * error) : Prop :=
  exists records next rl shown rest, r = (records, next, rl, None) /\ rows = shown ++ rest
    /\ Forall2 is_row records shown
    /\ (next = "" /\ rest = [] \/ next <> "" /\ shown <> [] /\ cursor next = Some rest).

(** A page with all of the rows. *)
Lemma shows_all rows resp result records :
  page_of resp result records -> qr_Done result = true -> Forall2 is_row records rows -> shows rows resp.
Proof.
  intros Hpage Hdone Hrec. exists result, records, rows, []. rewrite app_nil_r, Hdone. by split_and!.
Qed.
End shows.

(** The client marks the records of a page as its own. *)
Definition keeps_rows {Row} (is_row : SObject -> Row -> Prop) : Prop :=
  forall record row b, is_row record row -> is_row (setClient record b) row.

Section paging.
Context `{RestService} (Hlogged : isLoggedIn client = true) (Hok : url_ok client = true).
Context {Row : Type} (is_row : SObject -> Row -> Prop) (Hrow : keeps_rows is_row).
Context (x : T) (cursor : string -> option (list Row)).

(** The request is answered with a page of the rows. *)
Definition answers_page (req : http_request) (rows : list Row) : Prop :=
  answers req x (fun resp x' => x' = x /\ shows is_row cursor rows resp).

Definition page_request (text : string) : http_request := client_request client MethodGet (query_url client text) NoBody.

(** A token of the API: the path of the next page. *)
Definition api_path (tok : string) : Prop :=
  strings_HasPrefix tok "/services/data" = true /\ url_Parse (query_url client tok) <> None.

(** The API knows its tokens. *)
Definition continues : Prop := forall tok rows, cursor tok = Some rows ->
  api_path tok /\ answers_page (page_request tok) rows.

Lemma page_serves q tok n text rows :
  getQueryString q tok n = Returns text -> url_Parse (query_url client text) <> None ->
  answers_page (page_request text) rows ->
  triple (serves x) (query q tok n) (fun r w => page_result is_row cursor rows r /\ serves x w).
Proof.
  intros Htext Hurl Hreq. eapply triple_post; [|eapply (query_answers Hlogged x q tok n text (shows is_row cursor rows)); [done..|]].
  - intros r w (Hw & resp & result & records & rl & Hshows & Hpage & ->). split; [|done].
    destruct Hshows as (result' & records' & shown & rest & Hpage' & Hrows & Hrec & Hrest).
    destruct (page_of_unique _ _ _ _ _ Hpage' Hpage) as [-> ->].
    eexists _, _, _, shown, rest. split; [reflexivity|]. split; [done|]. split.
    + clear -Hrec Hrow. induction Hrec; [constructor|]. constructor; [by apply Hrow|done].
    + destruct (qr_Done result); [by left|right]. by destruct Hrest as (? & ? & ?).
  - intros auth auth' s Hs Hx. destruct (Hreq auth' s Hs Hx) as (resp & s' & Hr & Hs' & Hx' & Hshows).
    exists resp, s'. split_and!; [exact Hr|done|done|done|].
    destruct Hshows as (result & records & _ & _ & Hpage & _). by exists result, records.
Qed.

Definition query_pages (q : SalesforceQuery) (n : Z) := read_pages api_path (fun tok => query q tok n).

(** From a page on, the pages list the rows there are. *)
Lemma pages_from q tok n rows w :
  continues ->
  triple (serves x) (query q tok n) (fun r w => page_result is_row cursor rows r /\ serves x w) -> serves x w ->
  exists records w', query_pages q n tok w records w' /\ serves x w' /\ Forall2 is_row records rows.
Proof.
  intros Hcont. remember (length rows) as len eqn:Hlen. revert tok rows Hlen w.
  induction len as [len IH] using lt_wf_ind. intros tok rows -> w Hpage Hw.
  destruct (Hpage w Hw) as (r & w1 & Hrun & (records & next & rl & shown & rest & -> & -> & Hrec & Hnext) & Hw1).
  destruct Hnext as [[-> ->]|(Hne & Hshown & Hcursor)].
  - exists records, w1. rewrite app_nil_r. split; [by eapply read_last|done].
  - destruct (Hcont next rest Hcursor) as [Hpath Hans]. pose proof (proj2 Hpath).
    destruct (IH (length rest)) with (tok := next) (rows := rest) (w := w1) as (records' & w' & Hpages & Hw' & Hrec').
    + rewrite length_app. destruct shown; [done|simpl; lia].
    + done.
    + apply (page_serves q next n next); [|done..]. unfold getQueryString. by destruct (String.eqb_spec next "").
    + done.
    + exists (records ++ records'), w'. split; [by eapply read_more|]. split; [done|]. by apply Forall2_app.
Qed.

(** Reading all of the pages of a query. *)
Lemma list_pages q n text rows w :
  continues -> getQueryString q "" n = Returns text -> strings_HasPrefix text "/services/data" = false ->
  answers_page (page_request text) rows -> serves x w ->
  exists records w', query_pages q n "" w records w' /\ serves x w' /\ Forall2 is_row records rows.
Proof.
  intros Hcont Htext Hpre Hans. apply pages_from; [done|]. apply (page_serves q "" n text); [done| |done].
  by apply query_url_parses.
Qed.

(** A sync call that shows the rows page by page, each page as what it makes of
    them. *)
Definition shows_rows {A} (call : PageToken -> GoM World (synced A)) (size : Z) (made : list A -> list Row -> Prop)
    (tok : string) (rows : list Row) : Prop :=
  triple (serves x) (call {| pt_Token := tok; pt_Size := size |}) (fun r w => serves x w
    /\ exists l next annos shown rest, r = sync_page l next annos /\ rows = shown ++ rest /\ made l shown
       /\ (next = "" /\ rest = [] \/ next <> "" /\ shown <> [] /\ cursor next = Some rest)).

(** Following its tokens comes to an end, with all of the rows; what holds of them
    may be relied on. *)
Lemma sync_rows {A} (call : PageToken -> GoM World (synced A)) size (made : list A -> list Row -> Prop)
    (good : list Row -> Prop) tok rows w :
  (forall l1 rows1 l2 rows2, made l1 rows1 -> made l2 rows2 -> made (l1 ++ l2) (rows1 ++ rows2)) ->
  (forall rows1 rows2, good (rows1 ++ rows2) -> good rows2) ->
  (forall tok rows, tok <> "" -> cursor tok = Some rows -> good rows -> shows_rows call size made tok rows) ->
  shows_rows call size made tok rows -> good rows -> serves x w ->
  exists l w', sync_pages call size tok w l w' /\ serves x w' /\ made l rows.
Proof.
  intros Hmade Hgood Hcont. remember (length rows) as len eqn:Hlen. revert tok rows Hlen w.
  induction len as [len IH] using lt_wf_ind. intros tok rows -> w Hpage Hrows Hw.
  destruct (Hpage w Hw) as (r & w1 & Hrun & Hw1 & l & next & annos & shown & rest & -> & -> & Hl & Hnext).
  destruct Hnext as [[-> ->]|(Hne & Hshown & Hcursor)].
  - exists l, w1. rewrite app_nil_r. split; [by eapply sync_last|done].
  - destruct (IH (length rest)) with (tok := next) (rows := rest) (w := w1) as (l' & w' & Hpages & Hw' & Hl');
      [|done|by apply Hcont, (Hgood shown)|by apply (Hgood shown)|done|].
    + rewrite length_app. destruct shown; [done|simpl; lia].
    + exists (l ++ l'), w'. split; [by eapply sync_more|]. split; [done|]. by apply Hmade.
Qed.

(** The statement's request goes to the query resource. *)
Lemma page_request_goes text auth :
  strings_HasPrefix text "/services/data" = false ->
  goes_to client {| req_method := MethodGet; req_url := query_url client text; req_authorization := auth;
                    req_body := NoBody |} (query_path client) ("q=" +:+ url_QueryEscape text).
Proof.
  intros Hpre. destruct (query_url_parts client text Hok Hpre) as (u & host & Hp & Hi & Hh & Hpath & Hq).
  exists u. cbn [req_url]. by rewrite Hp, Hh.
Qed.
End paging.


(** ** Lists by key *)

(** What the API promises of a statement that lists the rows with a key, for the
    keys that may be asked for: the values [args] of the key are in its holes. *)
Class Listed `{RestService client T} {Row K : Type} (statement : string) (args : K -> list string)
    (keys : K -> bool) (is_row : K -> SObject -> Row -> Prop) := {
  by_rows : T -> K -> list Row;
  (* What a page token stands for, in the list of a key. *)
  by_cursor : T -> K -> string -> option (list Row);
  by_path x c tok rows : by_cursor x c tok = Some rows -> api_path (client := client) tok;
  by_first req s e text c :
    rest_ok s -> keys c = true -> req_method req = MethodGet -> goes_to client req (query_path client) ("q=" +:+ e) ->
    url_QueryUnescape e = Some text -> read_literals None text = Some (statement, args c) ->
    exists resp s', env_http req s = (inr resp, s') /\ rest_ok s' /\ rest_state s' = rest_state s
      /\ shows (is_row c) (by_cursor (rest_state s) c) (by_rows (rest_state s) c) resp;
  by_next req s tok c rows :
    rest_ok s -> req_method req = MethodGet -> req_url req = query_url client tok ->
    by_cursor (rest_state s) c tok = Some rows ->
    exists resp s', env_http req s = (inr resp, s') /\ rest_ok s' /\ rest_state s' = rest_state s
      /\ shows (is_row c) (by_cursor (rest_state s) c) rows resp;
}.

(** The key is the value of one field. *)
Abbreviation ListedBy statement keys is_row := (Listed statement (fun c : string => [c]) keys is_row).

(** The query with these values in the holes of the statement. *)
Definition lists (statement : string) (q : SalesforceQuery) (vs : list string) : Prop :=
  exists text, (forall n, getQueryString q "" n = Returns text)
    /\ strings_HasPrefix text "/services/data" = false
    /\ read_literals None text = Some (statement, vs).

(** The query for the rows with a value. *)
Definition lists_by (statement : string) (q : SalesforceQuery) (c : string) : Prop := lists statement q [c].

(** A query for one field is. *)
Lemma lists_one statement t sel f v :
  plain (sb_head (NewQuery_cols t sel) t) && plain f = true ->
  query_text (fun _ => "?") (NewQuery_cols t sel) t [QEq f ""] [SalesforcePK] (-1) = statement ->
  lists_by statement (WhereEq (NewQuery t sel) f v) v.
Proof.
  rewrite andb_true_iff. intros [Ht Hf] Htext.
  assert (plain_query t sel [QEq f v]) as Hplain by (split_and!; [done|by repeat constructor|done]).
  eexists. split_and!.
  - intros n. exact (getQueryString_text t sel [QEq f v] false n Hplain).
  - apply query_text_no_path.
  - rewrite query_text_read by done. by rewrite <-Htext.
Qed.

Section listed_by.
Context `{Listed} (Hlogged : isLoggedIn client = true) (Hok : url_ok client = true).
Context (Hkept : forall c, keeps_rows (is_row c)).

Lemma by_continues x c : continues (client := client) (is_row c) x (by_cursor x c).
Proof.
  intros tok rows Hcursor. split; [by eapply by_path|]. intros auth s Hs <-.
  edestruct (by_next {| req_method := MethodGet; req_url := query_url client tok; req_authorization := auth;
    req_body := NoBody |} s tok c rows) as (resp & s' & Hr & Hs' & HL & Hshows); [done..|]. by exists resp, s'.
Qed.

Lemma by_answers x text c :
  keys c = true -> strings_HasPrefix text "/services/data" = false -> read_literals None text = Some (statement, args c) ->
  answers_page (client := client) (is_row c) x (by_cursor x c) (page_request (client := client) text) (by_rows x c).
Proof.
  intros Hc Hpre Hread auth s Hs <-. edestruct (by_first {| req_method := MethodGet; req_url := query_url client text;
    req_authorization := auth; req_body := NoBody |} s (url_QueryEscape text) text c)
    as (resp & s' & Hr & Hs' & HL & Hshows);
    [done|done|done|by apply page_request_goes|apply QueryUnescape_QueryEscape|done|]. by exists resp, s'.
Qed.

Lemma page_by x q n c :
  keys c = true -> lists statement q (args c) ->
  triple (serves x) (query q "" n) (fun r w => page_result (is_row c) (by_cursor x c) (by_rows x c) r /\ serves x w).
Proof.
  intros Hc (text & Htext & Hpre & Hread).
  apply (page_serves Hlogged _ (Hkept c) x _ q "" n text); [apply Htext|by apply query_url_parses|].
  by apply by_answers.
Qed.

Lemma list_by x q n c w :
  keys c = true -> lists statement q (args c) -> serves x w ->
  exists records w', query_pages (client := client) q n "" w records w' /\ serves x w'
    /\ Forall2 (is_row c) records (by_rows x c).
Proof.
  intros Hc (text & Htext & Hpre & Hread). apply (list_pages Hlogged Hok _ (Hkept c) x (by_cursor x c) q n text);
    [apply by_continues|apply Htext|done|by apply by_answers].
Qed.

(** The first of them, if any. *)
Lemma first_by {A} x q (f : SObject -> A) c :
  keys c = true -> lists statement q (args c) ->
  triple (serves x) (query_first q f) (fun r w => serves x w /\ exists rl,
    by_rows x c = [] /\ r = (None, rl, None)
    \/ exists record row, row ∈ by_rows x c /\ is_row c record row /\ r = (Some (f record), rl, None)).
Proof.
  intros Hc Hq. unfold query_first. eapply triple_bind; [by apply page_by|].
  intros r w [(records & next & rl & shown & rest & -> & Hrows & Hrec & Hnext) Hw].
  eexists _, w. split; [reflexivity|]. split; [done|]. exists rl. destruct Hrec as [|record row records shown Hrow Hrec].
  - left. destruct Hnext as [[_ ->]|(_ & Hshown & _)]; [|done]. by rewrite Hrows.
  - right. exists record, row. split; [rewrite Hrows; by left|done].
Qed.
End listed_by.

(** ** From the pages of a query to those of a sync call *)

Section pages.
Context `{Env} (ok : string -> Prop).

Lemma pages_weaken {A} (ok' : string -> Prop) (read : string -> GoM World (list A * string * option RateLimitDescription * error))
    tok w l w' :
  (forall tok, ok tok -> ok' tok) -> read_pages ok read tok w l w' -> read_pages ok' read tok w l w'.
Proof. intros Hok. induction 1; [by eapply read_last|eapply read_more; eauto]. Qed.

Lemma pages_map {A} q n (f : SObject -> A) tok w records w' :
  read_pages ok (fun tok => query q tok n) tok w records w' ->
  read_pages ok (fun tok => query_map q tok n f) tok w (map f records) w'.
Proof.
  induction 1 as [tok w l rl w' Hread|tok w l next rl w1 l' w' Hread Hne Hok _ IH].
  - apply (read_last _ _ _ _ _ rl). unfold query_map. by rewrite (GoM_bind_run _ _ _ _ _ Hread).
  - rewrite map_app. apply (read_more _ _ _ _ _ next rl w1); [|done..].
    unfold query_map. by rewrite (GoM_bind_run _ _ _ _ _ Hread).
Qed.

(** Records that are all kept or skipped. *)
Lemma pages_each {A} q n keep (f : SObject -> go_error + option A) (g : SObject -> option A) tok w records w' :
  Forall (fun record => f record = inr (g record)) records -> read_pages ok (fun tok => query q tok n) tok w records w' ->
  read_pages ok (fun tok => query_each q tok n keep f) tok w (omap g records) w'.
Proof.
  assert (forall l, Forall (fun record => f record = inr (g record)) l -> each_record f l = inr (omap g l)) as Hall.
  { induction 1 as [|r l Hr _ IH]; [done|]. cbn [each_record omap list_omap]. rewrite Hr, IH. by destruct (g r). }
  intros Hf Hpages. revert Hf. induction Hpages as [tok w l rl w' Hread|tok w l next rl w1 l' w' Hread Hne Hok _ IH].
  - intros Hf. apply (read_last _ _ _ _ _ rl). unfold query_each. rewrite (GoM_bind_run _ _ _ _ _ Hread). by rewrite Hall.
  - intros [Hf Hf']%Forall_app. rewrite omap_app. apply (read_more _ _ _ _ _ next rl w1); [|done|done|by apply IH].
    unfold query_each. rewrite (GoM_bind_run _ _ _ _ _ Hread). by rewrite Hall.
Qed.

Lemma pages_sync {A B} (read : PageToken -> GoM World (list A * string * option RateLimitDescription * error))
    (f : list A -> list B) size tok w l w' :
  (forall l1 l2, f (l1 ++ l2) = f l1 ++ f l2) ->
  read_pages ok (fun tok => read {| pt_Token := tok; pt_Size := size |}) tok w l w' ->
  sync_pages (fun pt => sync_read (read pt) f) size tok w (f l) w'.
Proof.
  intros Hf. induction 1 as [tok w l rl w' Hread|tok w l next rl w1 l' w' Hread Hne Hok _ IH].
  - eapply sync_last. unfold sync_read. by rewrite (GoM_bind_run _ _ _ _ _ Hread).
  - rewrite Hf. eapply sync_more; [|exact Hne|exact IH]. unfold sync_read. by rewrite (GoM_bind_run _ _ _ _ _ Hread).
Qed.
End pages.
