(* ===== verification/Links.v ===== *)
(** * Memberships: what Salesforce holds, and what the connector makes of it

    A membership is a record of a link table: a group and its member, a
    permission set (group) and its assignee, a territory and its user.  The
    abstract state is the set of pairs.  [LinkService] is what the API promises
    of such a table, request by request, as its documentation has it: how a
    lookup statement is answered, what a create and a delete do.  Against it the
    provisioning handlers refine adding a pair to the set and taking it out,
    through all of the stack: the query and its quoting, the URL, the HTTP
    client, the JSON of the answer, the page and the record. *)
From S2P Require Export Rest.

Record link := {
  l_table : string;
  l_container : string;
  l_member : string;
  l_lookup : string;                             (* the lookup, with holes *)
  l_args : string -> string -> list string;      (* of a container and a member *)
  l_list : string;                               (* the members of a container *)
}.

Definition group_link : link :=
  {| l_table := "GroupMember"; l_container := "GroupId"; l_member := "UserOrGroupId";
     l_lookup := "SELECT GroupId, UserOrGroupId, Id FROM GroupMember WHERE GroupId = ? AND UserOrGroupId = ? ORDER BY Id";
     l_args c m := [c; m];
     l_list := "SELECT GroupId, UserOrGroupId, Id FROM GroupMember WHERE GroupId = ? ORDER BY Id" |}.

Definition permission_set_link : link :=
  {| l_table := "PermissionSetAssignment"; l_container := "PermissionSetId"; l_member := "AssigneeId";
     l_lookup := "SELECT PermissionSetId, AssigneeId, IsActive, Id FROM PermissionSetAssignment WHERE AssigneeId = ? AND PermissionSetId = ? ORDER BY Id";
     l_args c m := [m; c];
     l_list := "SELECT PermissionSetId, AssigneeId, IsActive, Id FROM PermissionSetAssignment WHERE PermissionSetId = ? ORDER BY Id" |}.

Definition permission_set_group_link : link :=
  {| l_table := "PermissionSetAssignment"; l_container := "PermissionSetGroupId"; l_member := "AssigneeId";
     l_lookup := "SELECT PermissionSetGroupId, AssigneeId, Id FROM PermissionSetAssignment WHERE AssigneeId = ? AND PermissionSetGroupId = ? ORDER BY Id";
     l_args c m := [m; c];
     l_list := "SELECT PermissionSetGroupId, AssigneeId, Id FROM PermissionSetAssignment WHERE PermissionSetGroupId = ? ORDER BY Id" |}.

Definition territory_link : link :=
  {| l_table := "UserTerritory2Association"; l_container := "Territory2Id"; l_member := "UserId";
     l_lookup := "SELECT UserId, Territory2Id, RoleInTerritory2, Id FROM UserTerritory2Association WHERE Territory2Id = ? AND UserId = ? ORDER BY Id";
     l_args c m := [c; m];
     l_list := "SELECT UserId, Territory2Id, RoleInTerritory2, Id FROM UserTerritory2Association WHERE Territory2Id = ? ORDER BY Id" |}.

(** Its names are plain ones, fit for a URL and a JSON key. *)
Definition sound_link (l : link) : Prop :=
  path_safe (l_table l) = true /\ l_table l <> "" /\ plain_field (l_container l) /\ plain_field (l_member l).

(** The record ids of the links, each a container and a member. *)
Abbreviation links := (gmap string (string * string)).

Definition link_fields (l : link) (c m : string) : gmap string value :=
  {[l_container l := VString c; l_member l := VString m]}.

(** An answer that lists records with these ids. *)
Definition lists_ids (resp : http_response) (ids : list string) : Prop :=
  resp_status resp = 200%Z /\
  exists result records, resp_json resp ≫= decode_QueryResult = Some result
    /\ qr_Records result = map Some records /\ map SObject_ID records = ids.

(** The documented behaviour of a link table over REST. *)
Class LinkService `{Env} (client : simple_client) (l : link) := {
  link_rest :: RestService client links;
  link_ids s id p : rest_ok s -> rest_state s !! id = Some p -> id <> "" /\ path_safe id = true;
  (* A pair is linked at most once. *)
  link_unique s id1 id2 p :
    rest_ok s -> rest_state s !! id1 = Some p -> rest_state s !! id2 = Some p -> id1 = id2;
  (* A lookup of what are no ids makes the query fail. *)
  link_lookup req s e text c m :
    rest_ok s -> id_pair (c, m) -> req_method req = MethodGet -> goes_to client req (query_path client) ("q=" +:+ e) ->
    url_QueryUnescape e = Some text -> read_literals None text = Some (l_lookup l, l_args l c m) ->
    exists resp s' ids, env_http req s = (inr resp, s') /\ rest_ok s' /\ rest_state s' = rest_state s
      /\ lists_ids resp ids /\ forall id, id ∈ ids <-> rest_state s !! id = Some (c, m);
  (* The pairs that the organization takes; others are declined. *)
  link_valid : string * string -> bool;
  (* A pair that is there is linked again with success, and nothing happens; or the
     create is refused as a duplicate. *)
  link_repeats : bool;
  (* The pairs that cannot be taken out: their delete is declined. *)
  link_fixed : string * string -> bool;
  link_create req s c m :
    rest_ok s -> req_method req = MethodPost -> req_body req = JsonBody (link_fields l c m) ->
    goes_to client req (object_path client (l_table l) "") "" ->
    exists resp s', env_http req s = (inr resp, s') /\ rest_ok s'
      /\ ((exists id, rest_state s !! id = Some (c, m)) /\ rest_state s' = rest_state s
            /\ (if link_repeats then exists id, created_answer id resp else refuses resp "DUPLICATE_VALUE")
          \/ (forall id, rest_state s !! id <> Some (c, m))
            /\ if link_valid (c, m) then
                 exists id, rest_state s !! id = None /\ rest_state s' = <[id := (c, m)]> (rest_state s)
                   /\ created_answer id resp
               else rest_state s' = rest_state s /\ declined resp);
  link_delete req s id p :
    rest_ok s -> req_method req = MethodDelete -> rest_state s !! id = Some p ->
    goes_to client req (object_path client (l_table l) id) "" ->
    exists resp s', env_http req s = (inr resp, s') /\ rest_ok s'
      /\ if link_fixed p then rest_state s' = rest_state s /\ declined resp
         else rest_state s' = delete id (rest_state s) /\ status_ok (resp_status resp) = true;
}.

Section link.
Context `{LinkService} (Hlogged : isLoggedIn client = true) (Hok : url_ok client = true).
Context (Hsound : sound_link l).

(** ** Looking a link up *)

(** The query asks for the link of the two. *)
Definition asks_for (q : SalesforceQuery) (c m : string) : Prop :=
  exists text, (forall n, getQueryString q "" n = Returns text)
    /\ strings_HasPrefix text "/services/data" = false
    /\ read_literals None text = Some (l_lookup l, l_args l c m).

Lemma lookup_answered L text c m auth :
  id_pair (c, m) ->
  strings_HasPrefix text "/services/data" = false ->
  read_literals None text = Some (l_lookup l, l_args l c m) ->
  answers {| req_method := MethodGet; req_url := query_url client text; req_authorization := auth; req_body := NoBody |}
    L (fun resp L' => L' = L /\ exists ids, lists_ids resp ids /\ forall id, id ∈ ids <-> L !! id = Some (c, m)).
Proof.
  intros Hids' Hpre Hread auth' s Hs <-.
  destruct (query_url_parts client text Hok Hpre) as (u & host & Hp & Hi & Hh & Hpath & Hq).
  destruct (link_lookup {| req_method := MethodGet; req_url := query_url client text;
      req_authorization := auth'; req_body := NoBody |} s (url_QueryEscape text) text c m Hs Hids' eq_refl)
    as (resp & s' & ids & Hr & Hs' & HL & Hl & Hids); [|apply QueryUnescape_QueryEscape|done|].
  - exists u. cbn [req_url]. by rewrite Hp, Hh.
  - exists resp, s'. split_and!; [exact Hr|done|done|]. by exists ids.
Qed.

Lemma query_serves L q n c m :
  id_pair (c, m) -> asks_for q c m ->
  triple (serves L) (query q "" n) (fun r w => serves L w
    /\ exists records next rl, r = (records, next, rl, None)
       /\ forall id, id ∈ map SObject_ID records <-> L !! id = Some (c, m)).
Proof.
  intros Hpair (text & Htext & Hpre & Hread). eapply triple_post; [|eapply (query_answers Hlogged L q "" n text
    (fun resp => exists ids, lists_ids resp ids /\ forall id, id ∈ ids <-> L !! id = Some (c, m)))].
  - intros r w (Hw & resp & result & records & rl & (ids & Hlist & Hids) & Hpage & ->). split; [done|].
    destruct Hlist as (_ & result' & records' & Hdec & Hrec & <-), Hpage as (_ & Hdec' & Hrec').
    eexists _, _, _. split; [reflexivity|]. intros id. rewrite <-Hids, map_map.
    rewrite (map_ext _ SObject_ID) by (intros r'; apply setClient_ID).
    assert (records' = records) as -> by (apply (inj (map Some)); congruence). done.
  - apply Htext.
  - by apply query_url_parses.
  - intros auth auth' s Hs HL. destruct (lookup_answered L text c m auth Hpair Hpre Hread auth' s Hs HL)
      as (resp & s' & Hr & Hs' & HL' & ids & Hlist & Hids).
    exists resp, s'. split_and!; [exact Hr|done|done|by exists ids|].
    destruct Hlist as (Hst & result & records & Hdec & Hrec & _). by exists result, records.
Qed.

(** What a lookup hands back: a record of the link, or that there is none. *)
Definition found_link (L : links) (c m : string) (r : option SObject * option RateLimitDescription * error) : Prop :=
  match r with
  | (Some record, _, None) => L !! SObject_ID record = Some (c, m)
  | (None, _, Some err) => err = ESentinel ErrObjectNotFound /\ forall id, L !! id <> Some (c, m)
  | _ => False
  end.

Lemma no_link (L : links) c m (ids : list string) :
  ids = [] -> (forall id, id ∈ ids <-> L !! id = Some (c, m)) -> forall id, L !! id <> Some (c, m).
Proof. intros -> Hids id Hid. apply Hids in Hid. by apply elem_of_nil in Hid. Qed.

Lemma getSObject_serves L q c m :
  id_pair (c, m) -> asks_for q c m -> triple (serves L) (getSObject q) (fun r w => found_link L c m r /\ serves L w).
Proof.
  intros Hpair Hq. unfold getSObject. eapply triple_bind; [by apply query_serves|].
  intros r w [Hw (records & next & rl & -> & Hids)]. destruct records as [|record records].
  - eexists _, w. split; [reflexivity|]. split; [|done]. split; [done|]. by apply (no_link L c m []).
  - eexists _, w. split; [reflexivity|]. split; [|done]. apply Hids. by left.
Qed.

Lemma query_first_serves {A} L q (f : SObject -> A) c m :
  id_pair (c, m) -> asks_for q c m ->
  triple (serves L) (query_first q f) (fun r w => serves L w /\ exists rl,
    match r with
    | (Some a, rl', None) => rl' = rl /\ exists record, a = f record /\ L !! SObject_ID record = Some (c, m)
    | (None, rl', None) => rl' = rl /\ forall id, L !! id <> Some (c, m)
    | _ => False
    end).
Proof.
  intros Hpair Hq. unfold query_first. eapply triple_bind; [by apply query_serves|].
  intros r w [Hw (records & next & rl & -> & Hids)]. eexists _, w. split; [reflexivity|]. split; [done|].
  exists rl. destruct records as [|record records]; cbn [head fmap option_fmap option_map]; split; try done.
  - by apply (no_link L c m []).
  - exists record. split; [done|]. apply Hids. by left.
Qed.

(** ** Creating and deleting one *)

Lemma link_fields_writable c m : writable (l_table l) (link_fields l c m).
Proof.
  destruct Hsound as (Htable & Hne & Hc & Hm). split; [done|..]; unfold link_fields.
  - apply map_Forall_insert_2; [done|]. by apply map_Forall_singleton.
  - apply json_Marshal_ok_strings. intros key v Hv.
    apply lookup_insert_Some in Hv as [[_ <-]|[_ Hv]]; [eauto|].
    apply lookup_singleton_Some in Hv as [_ <-]. eauto.
Qed.

(** The pairs there are. *)
Definition members (L : links) : gset (string * string) := map_img L.

Lemma elem_of_members L p : p ∈ members L <-> exists id, L !! id = Some p.
Proof. apply elem_of_map_img. Qed.

(** A link that is not there is created. *)
Definition linked_anew (L : links) (p : string * string) (L' : links) : Prop :=
  exists id, L !! id = None /\ L' = <[id := p]> L.

(** A create is answered by the new record, by that of the pair if it is there or
    refused as a duplicate, or declined. *)
Definition create_answer (L : links) (p : string * string) (resp : http_response) (L' : links) : Prop :=
  if bool_decide (p ∈ members L) then
    L' = L /\ if link_repeats then exists id, created_answer id resp else refuses resp "DUPLICATE_VALUE"
  else if link_valid p then linked_anew L p L' /\ exists id, created_answer id resp
  else L' = L /\ declined resp.

Lemma create_answers L c m :
  answers (object_request (client := client) MethodPost (l_table l) "" "" (JsonBody (link_fields l c m))) L
    (create_answer L (c, m)).
Proof.
  intros auth s Hs <-. unfold create_answer. destruct Hsound as (Htable & _).
  edestruct (link_create (object_request (client := client) MethodPost (l_table l) "" auth (JsonBody (link_fields l c m)))
    s c m Hs) as (resp & s' & Hr & Hs' & Hcase); [done..|by apply object_goes|].
  exists resp, s'. split; [exact Hr|]. split; [done|]. destruct Hcase as [(Hin & HL & Href)|(Hno & Hcase)].
  - rewrite bool_decide_eq_true_2 by by apply elem_of_members. done.
  - rewrite bool_decide_eq_false_2 by (intros [id' Hid']%elem_of_members; by apply (Hno id')).
    destruct (link_valid (c, m)); [|done]. destruct Hcase as (id & Hid & HL & Hcr). split; [by exists id|by exists id].
Qed.

(** Creating a link: a new one is there afterwards, unless it is declined; with one
    that is there nothing happens. *)
Lemma CreateObject_link L c m :
  triple (serves L) (CreateObject (l_table l) (link_fields l c m))
    (gives (fun r L' => if bool_decide ((c, m) ∈ members L)
       then L' = L /\ if link_repeats then r.2 = None
                      else exists err, r.2 = Some err /\ isSalesforceDuplicateError err = true
       else if link_valid (c, m) then linked_anew L (c, m) L' /\ r.2 = None
       else L' = L /\ plain_failure r.2)).
Proof.
  eapply triple_post; [|apply (CreateObject_gives Hok _ _ (link_fields_writable c m) L (create_answer L (c, m)));
    [apply create_answers|]].
  - intros r w (L' & (resp & Hq & Hout) & Hw). exists L'. split; [|done]. unfold create_answer in Hq.
    case_bool_decide.
    + destruct Hq as [HL Href]. split; [done|]. destruct link_repeats; [|by eapply duplicate_outcome].
      destruct Href as (id & _ & Hst & _). exact (outcome_success _ _ Hout Hst).
    + destruct (link_valid (c, m)).
      * destruct Hq as [HL (id & _ & Hst & _)]. split; [done|]. exact (outcome_success _ _ Hout Hst).
      * destruct Hq as [HL Hdec]. split; [done|]. by eapply declined_outcome.
  - intros resp L' Hq. unfold create_answer in Hq. case_bool_decide; [destruct Hq as [_ Hq], link_repeats; [by left|right; eauto]|].
    destruct (link_valid (c, m)); destruct Hq as [_ Hq]; [by left|]. right. destruct Hq as (code & ? & _). by exists code.
Qed.

(** A record that is there is deleted, and its pair with it, unless it is to stay. *)
Lemma DeleteObject_serves (L : links) id p :
  L !! id = Some p ->
  triple (serves L) (DeleteObject (l_table l) id)
    (gives (fun r L' => if link_fixed p then L' = L /\ plain_failure r.2 else L' = delete id L /\ r.2 = None)).
Proof.
  intros Hid w0 Hw0. destruct Hsound as (Htable & Hnonempty & _). assert (id <> "" /\ path_safe id = true) as [Hne Hsafe].
  { destruct Hw0 as [_ [Hs HL]]. apply (link_ids (w_env w0) id p Hs). by rewrite HL. }
  destruct (DeleteObject_gives Hok (l_table l) id L
    (fun resp L' => if link_fixed p then L' = L /\ declined resp
                    else L' = delete id L /\ status_ok (resp_status resp) = true) Htable Hnonempty Hne Hsafe)
    with (s := w0) as (r & w & Hrun & L' & (resp & Hq & Hout) & Hw).
  - intros auth s Hs <-. edestruct (link_delete (object_request (client := client) MethodDelete (l_table l) id auth NoBody) s id p)
      as (resp & s' & Hr & Hs' & HL); [done..|by apply object_goes|]. by exists resp, s'.
  - intros resp L'. destruct (link_fixed p); intros [_ Hq]; [|by left]. right. destruct Hq as (code & ? & _). by exists code.
  - done.
  - exists r, w. split; [done|]. exists L'. split; [|done]. destruct (link_fixed p); destruct Hq as [-> Hq]; (split; [done|]).
    + by eapply declined_outcome.
    + exact (outcome_success _ _ Hout Hq).
Qed.
End link.

Arguments asks_for : clear implicits.
