(* ===== verification/Listing.v ===== *)
(** * Listing a membership table

    What the API promises of the query for the members of a container, page by
    page: it lists the records there are, and a page token stands for the ones
    still to be shown.  The same of the groups that contain a permission set. *)
From S2P Require Export Links Paging.

(** A record of the table: its id and its member. *)
Abbreviation row := (string * string)%type.

Definition row_record (l : link) (c : string) (record : SObject) (r : row) : Prop :=
  SObject_ID record = r.1 /\ StringField record (l_container l) = c /\ StringField record (l_member l) = r.2.

Class ListService `{LinkService} := {
  svc_list :: ListedBy (l_list l) object_id (row_record l);
  svc_rows (L : links) (c : string) : list row := by_rows L c;
  svc_rows_spec L c id m : (id, m) ∈ svc_rows L c <-> L !! id = Some (c, m);
  svc_rows_once L c : NoDup (svc_rows L c);
}.

Lemma row_record_kept l : sound_link l -> forall c, keeps_rows (row_record l c).
Proof.
  intros (_ & _ & Hc & Hm) c record r b (Hid & Hrc & Hrm). unfold row_record. by rewrite setClient_ID, !setClient_field.
Qed.

(** ** The groups that contain a permission set *)

Definition components_list : string :=
  "SELECT IsDeleted, PermissionSetGroupId, PermissionSetId, Id FROM PermissionSetGroupComponent WHERE PermissionSetId = ? ORDER BY Id".

(** A component: its id and the group. *)
Definition component_record (c : string) (record : SObject) (r : row) : Prop :=
  SObject_ID record = r.1 /\ StringField record "PermissionSetId" = c /\ StringField record "PermissionSetGroupId" = r.2
  /\ exists deleted, InterfaceField record "IsDeleted" = VBool deleted.

(** The connector never changes them; a group contains a permission set once. *)
Class ComponentService `{RestService client T} := {
  component_list :: ListedBy components_list object_id component_record;
  component_rows : string -> list row;
  component_rows_spec x c : by_rows (Listed := component_list) x c = component_rows c;
  component_rows_once c : NoDup (component_rows c).*2;
}.

Lemma component_record_kept c : keeps_rows (component_record c).
Proof.
  intros record r b (Hid & Hc & Hg & deleted & Hd). split; [by rewrite setClient_ID|].
  rewrite !setClient_field by (apply (bool_decide_unpack _); by vm_compute). split; [done|]. split; [done|]. exists deleted.
  unfold InterfaceField, setClient. by rewrite lookup_insert_ne.
Qed.
