(* ===== verification/Org.v ===== *)
(** * A concrete environment: an org that keeps one link table

    The environment the membership theorems are instantiated at.  It answers the
    REST requests of a link table out of a map of records: it parses the URL,
    decodes the statement and reads its values back, creates records under
    fresh ids, for users and groups only, and deletes them, except from locked
    containers.  A group member that is there is created again with success, as
    the mock server of [test/testHelpers.go] has it; other tables refuse the
    duplicate.  It keeps the promises of [LinkService]. *)
From S2P Require Export Listing.

(** The records, and how many ids were given out. *)
Record org := { org_links : links; org_next : nat }.

Fixpoint record_id (n : nat) : string :=
  match n with 0 => "r" | S n => "x" +:+ record_id n end.

Definition resource_path (l : link) : string := "/services/data/v54.0/sobjects/" +:+ l_table l +:+ "/".

Definition id_json (id : string) : json := JObj [("Id", JStr id)].

(** The ids of the records with these lookup arguments. *)
Definition ids_with (l : link) (L : links) (args : list string) : list string :=
  (filter (fun kv => l_args l kv.2.1 kv.2.2 = args) (map_to_list L)).*1.

(** The records of a container, and the JSON of one. *)
Definition rows_of (L : links) (c : string) : list row :=
  (fun kv => (kv.1, kv.2.2)) <$> filter (fun kv => kv.2.1 = c) (map_to_list L).

Definition row_json (l : link) (c : string) (r : row) : json :=
  JObj [("Id", JStr r.1); (l_container l, JStr c); (l_member l, JStr r.2)].

(** A list comes in one page. *)
Definition org_list (l : link) (c : string) (o : org) : json :=
  page_json (map (row_json l c) (rows_of (org_links o) c)) true "".

(** Every permission set is in one group. *)
Definition org_components (c : string) : list row := [("0PC1", "0PG1")].
Definition component_json (c : string) (r : row) : json :=
  JObj [("Id", JStr r.1); ("PermissionSetGroupId", JStr r.2); ("PermissionSetId", JStr c); ("IsDeleted", JBool false)].

Definition org_lookup (l : link) (u : URL) (o : org) : go_error + http_response :=
  match url_QueryUnescape (strings_TrimPrefix (url_RawQuery u) "q=") ≫= read_literals None with
  | Some (text, args) =>
      if String.eqb (url_Path u) "/services/data/v54.0/query" && String.eqb text (l_lookup l) then
        inr (json_response 200 "200 OK" (page_json (map id_json (ids_with l (org_links o) args)) true ""))
      else if String.eqb (url_Path u) "/services/data/v54.0/query" && String.eqb text (l_list l) then
        match args with
        | [c] => inr (json_response 200 "200 OK" (org_list l c o))
        | _ => inl (EMsg "malformed query")
        end
      else if String.eqb (url_Path u) "/services/data/v54.0/query" && String.eqb text components_list then
        match args with
        | [c] => inr (json_response 200 "200 OK" (page_json (map (component_json c) (org_components c)) true ""))
        | _ => inl (EMsg "malformed query")
        end
      else inl (EMsg "unknown query")
  | None => inl (EMsg "malformed query")
  end.

(** The members it takes are users and groups, by the prefix of the id. *)
Definition org_accepts (p : string * string) : bool :=
  object_id p.1 && object_id p.2 && (strings_HasPrefix p.2 UserIDPrefix || strings_HasPrefix p.2 GroupIDPrefix).

(** The containers whose ids start like this are locked. *)
Definition org_locked (p : string * string) : bool := strings_HasPrefix p.1 "00GZ".

(** Whether the table takes a record again. *)
Definition org_repeats (l : link) : bool := String.eqb (l_table l) "GroupMember".

(** The records of a pair. *)
Definition ids_of (L : links) (p : string * string) : list string :=
  (filter (fun kv => kv.2 = p) (map_to_list L)).*1.

Definition org_refuses (code : string) : http_response :=
  json_response 400 "400 Bad Request" (error_json "the record was refused" code).

Definition created_json (id : string) : json :=
  JObj [("id", JStr id); ("success", JBool true); ("errors", JArr [])].

Definition org_create (l : link) (u : URL) (body : request_body) (o : org) : (go_error + http_response) * org :=
  match body with
  | JsonBody fields =>
      match fields !! l_container l, fields !! l_member l with
      | Some (VString c), Some (VString m) =>
          if negb (String.eqb (url_Path u) (resource_path l)) then (inl (EMsg "unknown resource"), o)
          else match head (ids_of (org_links o) (c, m)) with
          | Some id =>
              (inr (if org_repeats l then json_response 200 "200 OK" (created_json id)
                    else org_refuses "DUPLICATE_VALUE"), o)
          | None =>
              if negb (org_accepts (c, m)) then (inr (org_refuses "INVALID_CROSS_REFERENCE_KEY"), o)
              else
                let id := record_id (org_next o) in
                (inr (json_response 201 "201 Created" (created_json id)),
                 {| org_links := <[id := (c, m)]> (org_links o); org_next := S (org_next o) |})
          end
      | _, _ => (inl (EMsg "missing field"), o)
      end
  | _ => (inl (EMsg "no record"), o)
  end.

Definition org_delete (l : link) (u : URL) (o : org) : (go_error + http_response) * org :=
  if strings_HasPrefix (url_Path u) (resource_path l) then
    let id := strings_TrimPrefix (url_Path u) (resource_path l) in
    match org_links o !! id with
    | Some p =>
        if org_locked p then (inr (org_refuses "INSUFFICIENT_ACCESS_OR_READONLY"), o)
        else (inr (json_response 204 "204 No Content" JNull),
              {| org_links := delete id (org_links o); org_next := org_next o |})
    | None => (inr (org_refuses "ENTITY_IS_DELETED"), o)
    end
  else (inl (EMsg "unknown resource"), o).

Definition org_http (l : link) (req : http_request) (o : org) : (go_error + http_response) * org :=
  match url_Parse (req_url req) with
  | None => (inl (EMsg "no such host"), o)
  | Some u =>
      match req_method req with
      | MethodGet => (org_lookup l u o, o)
      | MethodPost => org_create l u (req_body req) o
      | MethodDelete => org_delete l u o
      | _ => (inl (EMsg "unknown method"), o)
      end
  end.

Definition org_env (l : link) : Env := {|
  env_state := org;
  env_http := org_http l;
  env_token o := (inr {| AccessToken := "token"; token_instance_url := None |}, o);
  env_new_http o := (None, o);
  env_cache_get _ _ := inr None;
  env_cache_set _ _ o := o;
  env_cache_clear o := (None, o);
  env_wait o := (true, o);
  env_jwt_assertion _ o := (inr "signed", o);
  env_token_exchange _ o := (inr {| AccessToken := "token"; token_instance_url := None |}, o);
  mail_ParseAddress _ := true;
  env_zoneinfo _ := true;
|}.

(** Ids were given out in order, and no pair is there twice. *)
Definition org_ok (o : org) : Prop :=
  (forall id p, org_links o !! id = Some p -> exists n, n < org_next o /\ id = record_id n)
  /\ (forall id1 id2 p, org_links o !! id1 = Some p -> org_links o !! id2 = Some p -> id1 = id2).

Lemma record_id_ok n : record_id n <> "" /\ path_safe (record_id n) = true.
Proof. induction n as [|n [_ IH]]; [done|]. split; [done|]. cbn. exact IH. Qed.

Lemma record_id_inj n1 n2 : record_id n1 = record_id n2 -> n1 = n2.
Proof. revert n2. induction n1 as [|n1 IH]; intros [|n2]; simpl; intros [=]; [done|]. by f_equal; apply IH. Qed.

Lemma org_fresh o : org_ok o -> org_links o !! record_id (org_next o) = None.
Proof.
  intros [Hids _]. apply eq_None_not_Some. intros [p Hp]. destruct (Hids _ _ Hp) as (n & Hn & Heq).
  apply record_id_inj in Heq. lia.
Qed.

Lemma elem_of_ids_of L p id : id ∈ ids_of L p <-> L !! id = Some p.
Proof.
  unfold ids_of. rewrite list_elem_of_fmap. split.
  - intros ([id' p'] & -> & [Heq Hin]%list_elem_of_filter). cbn in Heq. subst. by apply elem_of_map_to_list in Hin.
  - intros Hid. exists (id, p). split; [done|]. apply list_elem_of_filter. split; [done|]. by apply elem_of_map_to_list.
Qed.

(** The first of them: the pair is there, or it is not. *)
Lemma ids_of_head L p :
  match head (ids_of L p) with Some id => L !! id = Some p | None => forall id, L !! id <> Some p end.
Proof.
  pose proof (elem_of_ids_of L p) as Hin. destruct (ids_of L p) as [|id ids]; cbn [head].
  - intros id Hid. apply Hin in Hid. by apply elem_of_nil in Hid.
  - apply Hin. by left.
Qed.

(** A page of ids reads back. *)
Definition id_record (id : string) : SObject := <["Id" := VString id]> ∅.

Lemma decode_ids ids : mapM decode_sobject (map id_json ids) = Some (map Some (map id_record ids)).
Proof. induction ids as [|id ids IH]; [done|]. cbn [map mapM]. by rewrite IH. Qed.

Lemma page_json_result records result :
  mapM decode_sobject records = Some result ->
  decode_QueryResult (page_json records true "")
  = Some {| qr_Done := true; qr_NextRecordsURL := ""; qr_Records := result |}.
Proof.
  intros Hrec. unfold page_json. unfold decode_QueryResult. set (js := JArr _). set (l := [_; _; _; _]).
  assert (decode_field "totalSize" decode_number tt l = Some tt) as -> by reflexivity.
  assert (decode_field "done" decode_bool false l = Some true) as -> by reflexivity.
  assert (decode_field "nextRecordsUrl" decode_string "" l = Some "") as -> by reflexivity.
  assert (decode_field "records" (decode_list decode_sobject) [] l = decode_list decode_sobject js)
    as -> by reflexivity.
  cbn [mbind option_bind]. subst js. cbn [decode_list]. by rewrite Hrec.
Qed.

Lemma page_of_ids ids :
  lists_ids (json_response 200 "200 OK" (page_json (map id_json ids) true "")) ids.
Proof.
  split; [done|].
  exists {| qr_Done := true; qr_NextRecordsURL := ""; qr_Records := map Some (map id_record ids) |}, (map id_record ids).
  split_and!; [|done|].
  - cbn [mbind option_bind resp_json json_response]. by apply page_json_result, decode_ids.
  - rewrite map_map. rewrite <-(map_id ids) at 2. apply map_ext. reflexivity.
Qed.

Section service.
Context (l : link) (Hsound : sound_link l) (Hfields : l_container l <> l_member l).
Context (Hargs : forall c m c' m', l_args l c m = l_args l c' m' -> c = c' /\ m = m').

Lemma elem_of_ids_with L c m id : id ∈ ids_with l L (l_args l c m) <-> L !! id = Some (c, m).
Proof.
  unfold ids_with. rewrite list_elem_of_fmap. split.
  - intros ([id' [c' m']] & -> & [Heq Hin]%list_elem_of_filter). apply elem_of_map_to_list in Hin.
    cbn [fst snd] in Heq. apply Hargs in Heq as [-> ->]. exact Hin.
  - intros Hid. exists (id, (c, m)). split; [done|]. apply list_elem_of_filter. split; [done|].
    by apply elem_of_map_to_list.
Qed.

#[local] Existing Instance org_env.

Lemma org_http_lookup req o e text c m :
  req_method req = MethodGet -> goes_to sf_client req "/services/data/v54.0/query" ("q=" +:+ e) ->
  url_QueryUnescape e = Some text -> read_literals None text = Some (l_lookup l, l_args l c m) ->
  org_http l req o = (inr (json_response 200 "200 OK"
     (page_json (map id_json (ids_with l (org_links o) (l_args l c m))) true "")), o).
Proof.
  intros Hm (u & Hu & _ & Hpath & Hq) He Ht. unfold org_http. rewrite Hu, Hm. unfold org_lookup.
  rewrite Hq, TrimPrefix_app, He. cbn [mbind option_bind]. by rewrite Ht, Hpath, !String.eqb_refl.
Qed.

Lemma org_http_create req o c m :
  req_method req = MethodPost -> req_body req = JsonBody (link_fields l c m) ->
  goes_to sf_client req (resource_path l) "" ->
  org_http l req o
  = match head (ids_of (org_links o) (c, m)) with
    | Some id =>
        (inr (if org_repeats l then json_response 200 "200 OK" (created_json id)
              else org_refuses "DUPLICATE_VALUE"), o)
    | None =>
        if negb (org_accepts (c, m)) then (inr (org_refuses "INVALID_CROSS_REFERENCE_KEY"), o)
        else (inr (json_response 201 "201 Created" (created_json (record_id (org_next o)))),
              {| org_links := <[record_id (org_next o) := (c, m)]> (org_links o); org_next := S (org_next o) |})
    end.
Proof.
  intros Hm Hb (u & Hu & _ & Hpath & _). unfold org_http. rewrite Hu, Hm, Hb. unfold org_create, link_fields.
  rewrite lookup_insert_eq, lookup_insert_ne, lookup_singleton_eq by done. by rewrite Hpath, String.eqb_refl.
Qed.

Lemma org_http_delete req o id p :
  req_method req = MethodDelete -> goes_to sf_client req (resource_path l +:+ id) "" ->
  org_links o !! id = Some p ->
  org_http l req o
  = if org_locked p then (inr (org_refuses "INSUFFICIENT_ACCESS_OR_READONLY"), o)
    else (inr (json_response 204 "204 No Content" JNull),
          {| org_links := delete id (org_links o); org_next := org_next o |}).
Proof.
  intros Hm (u & Hu & _ & Hpath & _) Hid. unfold org_http. rewrite Hu, Hm. unfold org_delete.
  by rewrite Hpath, HasPrefix_app, TrimPrefix_app, Hid.
Qed.

(** What it answers can be read. *)
Lemma org_http_read req o resp o' : org_http l req o = (inr resp, o') -> resp_read_error resp = None.
Proof.
  unfold org_http, org_lookup, org_create, org_delete, org_refuses. intros Hrun.
  repeat case_match; by simplify_eq.
Qed.

Lemma org_ok_insert o p :
  org_ok o -> (forall id, org_links o !! id <> Some p) ->
  org_ok {| org_links := <[record_id (org_next o) := p]> (org_links o); org_next := S (org_next o) |}.
Proof.
  intros [Hids Hu] Hno. split; cbn [org_links org_next].
  - intros id q [[<- <-]|[_ Hq]]%lookup_insert_Some; [exists (org_next o); split; [lia|done]|].
    destruct (Hids _ _ Hq) as (n & Hn & ->). exists n. split; [lia|done].
  - intros id1 id2 q [[<- <-]|[_ H1]]%lookup_insert_Some [[<- H2]|[_ H2]]%lookup_insert_Some; try done.
    + by destruct (Hno id2).
    + subst. by destruct (Hno id1).
    + by apply (Hu _ _ q).
Qed.

Lemma org_ok_delete o id :
  org_ok o -> org_ok {| org_links := delete id (org_links o); org_next := org_next o |}.
Proof.
  intros [Hids Hu]. split; cbn [org_links org_next].
  - intros id' q [_ Hq]%lookup_delete_Some. eauto.
  - intros id1 id2 q [_ H1]%lookup_delete_Some [_ H2]%lookup_delete_Some. eauto.
Qed.

(** The org keeps the promises. *)
#[refine] Definition org_rest : @RestService (org_env l) sf_client links := {|
  rest_ok := org_ok : @env_state (org_env l) -> Prop;
  rest_state := org_links;
|}.
Proof. all: try done. intros req s resp s' _. apply org_http_read. Defined.

#[refine] Definition org_service : @LinkService (org_env l) sf_client l := {|
  link_rest := org_rest;
  link_valid := org_accepts;
  link_repeats := org_repeats l;
  link_fixed := org_locked;
|}.
Proof.
  - intros s id p [Hids _] Hp. destruct (Hids _ _ Hp) as (n & _ & ->). apply record_id_ok.
  - intros s id1 id2 p [_ Hu]. apply Hu.
  - intros req s e text c m Hs _ Hm Hgo He Ht. eexists _, s, _.
    split; [by eapply org_http_lookup|]. split_and!; [done|done|apply page_of_ids|]. intros id. apply elem_of_ids_with.
  - intros req s c m Hs Hm Hb Hgo.
    assert (goes_to sf_client req (resource_path l) "") as Hgo'
      by (revert Hgo; unfold resource_path, object_path; by rewrite !str_app_nil_r).
    pose proof (org_http_create req s c m Hm Hb Hgo') as Hrun.
    pose proof (ids_of_head (org_links s) (c, m)) as Hhead.
    destruct (head _) as [id|]; [eexists _, _; split; [exact Hrun|]|].
    + split; [done|]. left. split; [eauto|]. split; [done|].
      destruct (org_repeats l); [|split; [done|]; by eexists _, _].
      exists id. split; [|done]. destruct Hs as [Hids _]. destruct (Hids _ _ Hhead) as (n & _ & ->). apply record_id_ok.
    + destruct (org_accepts (c, m)) eqn:Hacc; (eexists _, _; split; [exact Hrun|]).
      * split; [by apply org_ok_insert|]. right. split; [done|].
        exists (record_id (org_next s)). split_and!; [by apply org_fresh|reflexivity|].
        split_and!; [apply record_id_ok|reflexivity..].
      * split; [done|]. right. split; [done|]. split; [done|]. eexists. split; [split; [done|]; by eexists _, _|done].
  - intros req s id p Hs Hm Hid Hgo.
    assert (goes_to sf_client req (resource_path l +:+ id) "") as Hgo'
      by (revert Hgo; unfold resource_path, object_path; by rewrite !str_app_assoc).
    pose proof (org_http_delete req s id p Hm Hgo' Hid) as Hrun. change (@rest_state _ _ _ org_rest) with org_links.
    destruct (org_locked p); (eexists _, _; split; [exact Hrun|]).
    + split; [done|]. split; [done|]. eexists. split; [split; [done|]; by eexists _, _|done].
    + split_and!; [by apply org_ok_delete|done|done].
Defined.
End service.

(** It lists its records, in one page. *)
Section listing.
Context (l : link) (Hsound : sound_link l) (Hfields : l_container l <> l_member l) (Hlist : l_list l <> l_lookup l).

Definition row_object (c : string) (r : row) : SObject :=
  <[l_member l := VString r.2]> (<[l_container l := VString c]> (<["Id" := VString r.1]> ∅)).

Lemma row_object_record c r : row_record l c (row_object c r) r.
Proof.
  destruct Hsound as (_ & _ & Hc & Hm).
  assert (l_container l <> "Id") as Hc' by (intros He; rewrite He in Hc; apply Hc; plain_keys).
  assert (l_member l <> "Id") as Hm' by (intros He; rewrite He in Hm; apply Hm; plain_keys).
  unfold row_record, row_object, SObject_ID, StringField, InterfaceField.
  rewrite !lookup_insert_eq. rewrite (lookup_insert_ne _ (l_member l) "Id") by done.
  rewrite (lookup_insert_ne _ (l_container l) "Id") by done. rewrite lookup_insert_eq.
  rewrite (lookup_insert_ne _ (l_member l) (l_container l)) by done. by rewrite lookup_insert_eq.
Qed.

Lemma decode_rows c rows :
  mapM decode_sobject (map (row_json l c) rows) = Some (map Some (map (row_object c) rows)).
Proof. induction rows as [|r rows IH]; [done|]. cbn [map mapM]. by rewrite IH. Qed.

Lemma elem_of_rows L c id m : (id, m) ∈ rows_of L c <-> L !! id = Some (c, m).
Proof.
  unfold rows_of. rewrite list_elem_of_fmap. split.
  - intros ([id' [c' m']] & [= -> ->] & [Hc Hin]%list_elem_of_filter). cbn in Hc. subst c'.
    by apply elem_of_map_to_list.
  - intros Hid. exists (id, (c, m)). split; [done|]. apply list_elem_of_filter. split; [done|].
    by apply elem_of_map_to_list.
Qed.

Lemma rows_once L c : NoDup (rows_of L c).
Proof.
  unfold rows_of. apply NoDup_fmap_2_strong; [|apply NoDup_filter, NoDup_map_to_list].
  intros [id1 [c1 m1]] [id2 [c2 m2]] [Hc1 _]%list_elem_of_filter [Hc2 _]%list_elem_of_filter.
  cbn in Hc1, Hc2 |- *. congruence.
Qed.

Lemma org_http_list req o e text c :
  req_method req = MethodGet -> goes_to sf_client req "/services/data/v54.0/query" ("q=" +:+ e) ->
  url_QueryUnescape e = Some text -> read_literals None text = Some (l_list l, [c]) ->
  org_http l req o = (inr (json_response 200 "200 OK" (org_list l c o)), o).
Proof.
  intros Hm (u & Hu & _ & Hpath & Hq) He Ht. unfold org_http. rewrite Hu, Hm. unfold org_lookup.
  rewrite Hq, TrimPrefix_app, He. cbn [mbind option_bind]. rewrite Ht, Hpath, String.eqb_refl.
  destruct (String.eqb_spec (l_list l) (l_lookup l)); [done|]. by rewrite String.eqb_refl.
Qed.

#[refine] Definition org_listing (service : @LinkService (org_env l) sf_client l)
    (Hservice : @rest_state _ _ _ (@link_rest _ _ _ service) = org_links) : @ListService (org_env l) sf_client l service := {|
  svc_list := {| by_rows := rows_of : links -> string -> list row; by_cursor _ _ _ := None |};
|}.
Proof.
  - done.
  - intros req s e text c Hs _ Hm Hgo He Ht. eexists _, s. split; [by eapply org_http_list|].
    split_and!; [done|done|]. rewrite Hservice.
    exists {| qr_Done := true; qr_NextRecordsURL := "";
              qr_Records := map Some (map (row_object c) (rows_of (org_links s) c)) |},
      (map (row_object c) (rows_of (org_links s) c)), (rows_of (org_links s) c), []. split_and!.
    + split; [done|]. split; [|reflexivity]. cbn [mbind option_bind resp_json json_response].
      by apply page_json_result, decode_rows.
    + by rewrite app_nil_r.
    + apply Forall2_fmap_l, Forall_Forall2_diag, Forall_true. apply row_object_record.
    + done.
  - done.
  - apply elem_of_rows.
  - apply rows_once.
Defined.
End listing.

(** And the groups of a permission set. *)
Lemma org_http_components l req o e text c :
  l_lookup l <> components_list -> l_list l <> components_list ->
  req_method req = MethodGet -> goes_to sf_client req "/services/data/v54.0/query" ("q=" +:+ e) ->
  url_QueryUnescape e = Some text -> read_literals None text = Some (components_list, [c]) ->
  org_http l req o
  = (inr (json_response 200 "200 OK" (page_json (map (component_json c) (org_components c)) true "")), o).
Proof.
  intros Hlookup Hlist Hm (u & Hu & _ & Hpath & Hq) He Ht. unfold org_http. rewrite Hu, Hm. unfold org_lookup.
  rewrite Hq, TrimPrefix_app, He. cbn [mbind option_bind]. rewrite Ht, Hpath, !String.eqb_refl.
  destruct (String.eqb_spec components_list (l_lookup l)); [congruence|].
  by destruct (String.eqb_spec components_list (l_list l)); [congruence|].
Qed.

#[refine] Definition org_contains (l : link) (Hlookup : l_lookup l <> components_list) (Hlist : l_list l <> components_list)
    (rest : @RestService (org_env l) sf_client links) : @ComponentService (org_env l) sf_client links rest := {|
  component_list := {| by_rows := fun _ => org_components; by_cursor _ _ _ := None |};
  component_rows := org_components;
|}.
Proof.
  - done.
  - intros req s e text c Hs _ Hm Hgo He Ht. eexists _, s. split; [by eapply org_http_components|].
    split; [done|]. split; [done|].
    set (record := <["IsDeleted" := VBool false]> (<["PermissionSetId" := VString c]>
      (<["PermissionSetGroupId" := VString "0PG1"]> (<["Id" := VString "0PC1"]> (∅ : SObject))))).
    apply (shows_all _ _ _ _ {| qr_Done := true; qr_NextRecordsURL := ""; qr_Records := [Some record] |} [record]); [by split_and!|done|].
    constructor; [|constructor]. split; [reflexivity|]. split; [reflexivity|]. split; [reflexivity|]. by exists false.
  - done.
  - done.
  - intros c. apply NoDup_singleton.
Defined.

(** The links of the connector, each kept by an org. *)
Definition links_decided (l : link) : bool :=
  path_safe (l_table l) && negb (String.eqb (l_table l) "")
  && bool_decide (plain_field (l_container l)) && bool_decide (plain_field (l_member l))
  && negb (String.eqb (l_container l) (l_member l)).

Lemma links_decided_sound l : links_decided l = true -> sound_link l /\ l_container l <> l_member l.
Proof.
  unfold links_decided. rewrite !andb_true_iff, !negb_true_iff, !bool_decide_eq_true, !String.eqb_neq.
  intros [[[[? ?] ?] ?] ?]. by split_and!.
Qed.

#[local] Instance group_org : @LinkService (org_env group_link) sf_client group_link.
Proof. apply org_service; [by apply links_decided_sound..|]. by intros c m c' m' [= -> ->]. Defined.
#[local] Instance permission_set_org : @LinkService (org_env permission_set_link) sf_client permission_set_link.
Proof. apply org_service; [by apply links_decided_sound..|]. by intros c m c' m' [= -> ->]. Defined.
#[local] Instance permission_set_group_org :
  @LinkService (org_env permission_set_group_link) sf_client permission_set_group_link.
Proof. apply org_service; [by apply links_decided_sound..|]. by intros c m c' m' [= -> ->]. Defined.
#[local] Instance territory_org : @LinkService (org_env territory_link) sf_client territory_link.
Proof. apply org_service; [by apply links_decided_sound..|]. by intros c m c' m' [= -> ->]. Defined.

(** The connector, logged in to an org. *)
Definition org_world (l : link) (o : org) : @World (org_env l) := @Build_World (org_env l) o tape_client [].

(** An org with one record. *)
Definition one_link (c m : string) : org := {| org_links := {["r" := (c, m)]}; org_next := 1 |}.

Lemma one_link_ok c m : org_ok (one_link c m).
Proof.
  split; cbn [org_links org_next one_link].
  - intros id p [<- _]%lookup_singleton_Some. exists 0. split; [lia|done].
  - by intros id1 id2 p [<- _]%lookup_singleton_Some [<- _]%lookup_singleton_Some.
Qed.

Definition no_links : org := {| org_links := ∅; org_next := 0 |}.

Lemma no_links_ok : org_ok no_links.
Proof. by split; intros *; cbn [org_links no_links]; rewrite lookup_empty. Qed.

#[local] Instance group_listing : @ListService (org_env group_link) sf_client group_link group_org.
Proof. by apply org_listing; [apply links_decided_sound..| |]. Defined.
#[local] Instance permission_set_group_listing :
  @ListService (org_env permission_set_group_link) sf_client permission_set_group_link permission_set_group_org.
Proof. by apply org_listing; [apply links_decided_sound..| |]. Defined.
#[local] Instance permission_set_listing :
  @ListService (org_env permission_set_link) sf_client permission_set_link permission_set_org.
Proof. by apply org_listing; [apply links_decided_sound..| |]. Defined.
#[local] Instance permission_set_contained : ComponentService (H0 := @link_rest _ _ _ permission_set_org).
Proof. by apply org_contains. Defined.
