(* ===== verification/Memberships.v ===== *)
(** * Provisioning as set operations

    The abstract state of a link table is the set of its pairs.  [AddsPair] and
    [RemovesPair] are the abstract grant and revoke; the handlers of groups,
    permission sets, permission set groups and territory membership refine
    them, against any [LinkService]. *)
From S2P Require Export Org.

(** ** The abstract state *)

Lemma add_present (S : gset (string * string)) p : p ∈ S -> S ∪ {[p]} = S.
Proof.
  intros Hp. apply set_eq. intros q.
  rewrite elem_of_union, elem_of_singleton. split; [by intros [| ->]|by left].
Qed.

Lemma remove_absent (S : gset (string * string)) p : p ∉ S -> S ∖ {[p]} = S.
Proof.
  intros Hp. apply set_eq. intros q.
  rewrite elem_of_difference, elem_of_singleton. split; [by intros []|]. intros Hq. split; [done|]. by intros ->.
Qed.

Lemma members_insert (L : links) id p : L !! id = None -> members (<[id := p]> L) = members L ∪ {[p]}.
Proof. intros Hid. unfold members. rewrite map_img_insert_notin_L by done. apply (comm_L _). Qed.

Lemma members_delete (L : links) id p :
  L !! id = Some p -> (forall id1 id2, L !! id1 = Some p -> L !! id2 = Some p -> id1 = id2) ->
  members (delete id L) = members L ∖ {[p]}.
Proof.
  intros Hid Hunique. apply set_eq. intros q. rewrite elem_of_difference, elem_of_singleton, !elem_of_members.
  split.
  - intros [id' [Hne Hq]%lookup_delete_Some]. split; [by exists id'|]. intros ->. by apply Hne, Hunique.
  - intros [[id' Hq] Hne]. exists id'. rewrite lookup_delete_Some. split; [|done]. intros <-. congruence.
Qed.

Section refinement.
Context `{LinkService} (Hlogged : isLoggedIn client = true) (Hok : url_ok client = true).
Context (Hsound : sound_link l).

(** The client is connected to a Salesforce whose table links these pairs. *)
Definition linked_pairs (S : gset (string * string)) (w : World) : Prop :=
  exists L, members L = S /\ serves L w.

(** A grant of the pair: afterwards it is linked, if Salesforce takes it, and nothing
    else changes.  What the call answers depends on whether it was linked before
    and on whether it is taken. *)
Definition add_pair (valid : string * string -> bool) (p : string * string) (S : gset (string * string)) :=
  if valid p then S ∪ {[p]} else S.

Definition AddsPair {A} (p : string * string) (m : GoM World A) (created existed failed : A -> Prop) : Prop :=
  forall S, triple (linked_pairs S) m (fun r w => linked_pairs (add_pair link_valid p S) w
    /\ if bool_decide (p ∈ S) then existed r else if link_valid p then created r else failed r).

Lemma add_present_pair valid p S : p ∈ S -> add_pair valid p S = S.
Proof. intros Hp. unfold add_pair. destruct (valid p); [by apply add_present|done]. Qed.

(** A revoke of the pair: afterwards it is not linked, unless Salesforce keeps it. *)
Definition remove_pair (fixed : string * string -> bool) (p : string * string) (S : gset (string * string)) :=
  if fixed p then S else S ∖ {[p]}.

Definition RemovesPair {A} (p : string * string) (m : GoM World A) (removed absent failed : A -> Prop) : Prop :=
  forall S, triple (linked_pairs S) m (fun r w => linked_pairs (remove_pair link_fixed p S) w
    /\ if bool_decide (p ∈ S) then if link_fixed p then failed r else removed r else absent r).

Lemma remove_absent_pair fixed p S : p ∉ S -> remove_pair fixed p S = S.
Proof. intros Hp. unfold remove_pair. destruct (fixed p); [done|by apply remove_absent]. Qed.

Lemma triple_linked {A} S (m : GoM World A) Q :
  (forall L, members L = S -> triple (serves L) m Q) -> triple (linked_pairs S) m Q.
Proof. intros Hm w (L & HL & Hw). by apply (Hm L). Qed.

Lemma serves_linked (L : links) w : serves L w -> linked_pairs (members L) w.
Proof. intros Hw. by exists L. Qed.

Lemma serves_unique (L : links) w p id1 id2 :
  serves L w -> L !! id1 = Some p -> L !! id2 = Some p -> id1 = id2.
Proof. intros [_ [Hs <-]]. by apply link_unique. Qed.

Lemma not_member (L : links) p : (forall id, L !! id <> Some p) <-> p ∉ members L.
Proof. rewrite elem_of_members. split; [intros Hn [id Hid]|intros Hn id Hid; apply Hn; eauto]. by apply (Hn id). Qed.

(** ** The calls of the client *)

Definition succeeds (r : option RateLimitDescription * error) : Prop := r.2 = None.
Definition duplicate (r : option RateLimitDescription * error) : Prop :=
  exists err, r.2 = Some err /\ isSalesforceDuplicateError err = true.
Definition fails_otherwise (r : option RateLimitDescription * error) : Prop := plain_failure r.2.

(** A create of what is there. *)
Definition taken {A} (again refused : A -> Prop) (r : A) : Prop := if link_repeats then again r else refused r.

Lemma CreateObject_adds fields c m :
  fields = link_fields l c m ->
  AddsPair (c, m) (CreateObject (l_table l) fields) succeeds (taken succeeds duplicate) fails_otherwise.
Proof.
  intros -> S. apply triple_linked. intros L <-.
  eapply triple_post; [|by apply CreateObject_link]. intros r w (L' & Hr & Hw). case_bool_decide as Hin.
  - destruct Hr as [-> Hr]. split; [|done]. rewrite add_present_pair by done. by apply serves_linked.
  - unfold add_pair. destruct (link_valid (c, m)); [|destruct Hr as [-> Hr]; split; [by apply serves_linked|done]].
    destruct Hr as [(id & Hid & ->) Hr]. split; [|done].
    rewrite <-(members_insert L id) by done. by apply serves_linked.
Qed.

Lemma DeleteObject_removes (L : links) id p :
  L !! id = Some p ->
  triple (serves L) (DeleteObject (l_table l) id) (fun r w => linked_pairs (remove_pair link_fixed p (members L)) w
    /\ if link_fixed p then fails_otherwise r else succeeds r).
Proof.
  intros Hid w0 Hw0. pose proof (serves_unique L w0 p) as Hunique.
  destruct (DeleteObject_serves Hok Hsound L id p Hid w0 Hw0) as (r & w & Hrun & L' & Hr & Hw).
  exists r, w. split; [done|]. unfold remove_pair. destruct (link_fixed p); destruct Hr as [-> Hr]; (split; [|done]).
  - by apply serves_linked.
  - rewrite <-(members_delete L id) by eauto. by apply serves_linked.
Qed.

(** Going on with what a call answered. *)
Definition answers_with {A B} (k : A -> GoM World B) (Q : A -> Prop) (Q' : B -> Prop) : Prop :=
  forall a, Q a -> exists b, Q' b /\ forall w, k a w = (Returns b, w).

Lemma answers_with_triple {A B} (k : A -> GoM World B) Q Q' P :
  answers_with k Q Q' -> forall a, triple (fun w => P w /\ Q a) (k a) (fun b w => P w /\ Q' b).
Proof. intros Hk a w [Hw Ha]. destruct (Hk a Ha) as (b & Hb & Hrun). by exists b, w. Qed.

Lemma AddsPair_bind {A B} p (m : GoM World A) (k : A -> GoM World B) created existed failed created' existed' failed' :
  AddsPair p m created existed failed ->
  answers_with k created created' -> answers_with k existed existed' -> answers_with k failed failed' ->
  AddsPair p (m ≫= k) created' existed' failed'.
Proof.
  intros Hm Hc He Hf S. eapply triple_bind; [apply Hm|]. intros a. case_bool_decide; [|destruct (link_valid p)].
  all: by apply answers_with_triple.
Qed.

(** What is there already, in either of the ways it may be answered. *)
Lemma taken_answers {A B} (k : A -> GoM World B) again refused again' refused' :
  answers_with k again again' -> answers_with k refused refused' ->
  answers_with k (taken again refused) (taken again' refused').
Proof. unfold taken. by destruct link_repeats. Qed.

Lemma RemovesPair_bind {A B} p (m : GoM World A) (k : A -> GoM World B) removed absent failed removed' absent' failed' :
  RemovesPair p m removed absent failed ->
  answers_with k removed removed' -> answers_with k absent absent' -> answers_with k failed failed' ->
  RemovesPair p (m ≫= k) removed' absent' failed'.
Proof.
  intros Hm Hr Ha Hf S. eapply triple_bind; [apply Hm|]. intros a. case_bool_decide; [destruct (link_fixed p)|].
  all: by apply answers_with_triple.
Qed.

(** A lookup of a pair: it finds the id of its record, or tells that there is none. *)
Definition looks_up {X} (look : GoM World X) (c m : string) (found : string -> X -> Prop) (none : X -> Prop) : Prop :=
  forall L, triple (serves L) look (fun x w => serves L w
    /\ ((exists id, L !! id = Some (c, m) /\ found id x) \/ (((c, m) ∉ members L) /\ none x))).

Definition found_record (id : string) (r : option SObject * option RateLimitDescription * error) : Prop :=
  exists record rl, r = (Some record, rl, None) /\ SObject_ID record = id.
Definition not_found (r : option SObject * option RateLimitDescription * error) : Prop :=
  exists rl, r = (None, rl, Some (ESentinel ErrObjectNotFound)).

Lemma getSObject_looks_up q c m : id_pair (c, m) -> asks_for l q c m -> looks_up (getSObject q) c m found_record not_found.
Proof.
  intros Hpair Hq L. eapply triple_post; [|by apply getSObject_serves].
  intros [[[record|] rl] [err|]] w [Hlink Hw]; try done; (split; [done|]).
  - left. exists (SObject_ID record). split; [done|]. by exists record, rl.
  - right. destruct Hlink as [-> Hno]. split; [by apply not_member|]. by exists rl.
Qed.

Lemma query_first_looks_up {A} q (f : SObject -> A) c m :
  id_pair (c, m) -> asks_for l q c m ->
  looks_up (query_first q f) c m
    (fun id r => exists record rl, r = (Some (f record), rl, None) /\ SObject_ID record = id)
    (fun r => exists rl, r = (None, rl, None)).
Proof.
  intros Hpair Hq L. eapply triple_post; [|by apply (query_first_serves Hlogged Hok L q f c m)].
  intros [[[a|] rl] [err|]] w [Hw [rl' Hr]]; try done; (split; [done|]).
  - left. destruct Hr as (_ & record & -> & Hid). exists (SObject_ID record). split; [done|]. by exists record, rl.
  - right. split; [by apply not_member, Hr|by exists rl].
Qed.

(** A lookup, and a delete of what it finds. *)
Lemma lookup_delete {X A} (look : GoM World X) c m found none (k : X -> GoM World A)
    (k' : option RateLimitDescription * error -> GoM World A) removed absent failed :
  looks_up look c m found none ->
  (forall id x w, found id x -> k x w = (DeleteObject (l_table l) id ≫= k') w) ->
  answers_with k' succeeds removed -> answers_with k none absent -> answers_with k' fails_otherwise failed ->
  RemovesPair (c, m) (look ≫= k) removed absent failed.
Proof.
  intros Hlook Hk Hremoved Habsent Hfailed S. apply triple_linked. intros L <-.
  eapply triple_bind; [by apply Hlook|]. intros x w [Hw [(id & Hid & Hx)|[Hin Hx]]].
  - rewrite (Hk id) by done. rewrite bool_decide_eq_true_2 by (apply elem_of_members; eauto).
    revert w Hw. eapply triple_bind; [by apply DeleteObject_removes|].
    destruct (link_fixed (c, m)); by apply answers_with_triple.
  - rewrite bool_decide_eq_false_2 by done. destruct (Habsent x Hx) as (a & Ha & Hrun). exists a, w.
    split; [done|]. split; [|done]. rewrite remove_absent_pair by done. by apply serves_linked.
Qed.

(** A lookup, and a create when it finds nothing. *)
Lemma lookup_create {X A} (look : GoM World X) c m found none (k : X -> GoM World A) fields k' created existed failed :
  looks_up look c m found none -> fields = link_fields l c m ->
  (forall id, answers_with k (found id) existed) ->
  (forall x w, none x -> k x w = (CreateObject (l_table l) fields ≫= k') w) ->
  answers_with k' succeeds created -> answers_with k' fails_otherwise failed ->
  AddsPair (c, m) (look ≫= k) created existed failed.
Proof.
  intros Hlook Hfields Hexisted Hk Hcreated Hfailed S. apply triple_linked. intros L <-.
  eapply triple_bind; [by apply Hlook|]. intros x w [Hw [(id & Hid & Hx)|[Hin Hx]]].
  - assert ((c, m) ∈ members L) as Hin by (apply elem_of_members; eauto).
    rewrite bool_decide_eq_true_2 by done. destruct (Hexisted id x Hx) as (a & Ha & Hrun). exists a, w.
    split; [done|]. split; [|done]. rewrite add_present_pair by done. by apply serves_linked.
  - rewrite Hk by done. rewrite bool_decide_eq_false_2 by done.
    destruct (CreateObject_adds fields c m Hfields (members L) w (serves_linked L w Hw)) as (r & w' & Hrun & Hw' & Hr).
    rewrite bool_decide_eq_false_2 in Hr by done. rewrite (GoM_bind_run _ _ _ _ _ Hrun).
    destruct (link_valid (c, m)); [destruct (Hcreated r Hr) as (a & Ha & Hrun')|destruct (Hfailed r Hr) as (a & Ha & Hrun')].
    all: by exists a, w'.
Qed.
End refinement.

(** ** The tables *)

Lemma group_link_sound : sound_link group_link.
Proof. by apply links_decided_sound. Qed.
Lemma permission_set_link_sound : sound_link permission_set_link.
Proof. by apply links_decided_sound. Qed.
Lemma permission_set_group_link_sound : sound_link permission_set_group_link.
Proof. by apply links_decided_sound. Qed.
Lemma territory_link_sound : sound_link territory_link.
Proof. by apply links_decided_sound. Qed.

(** A query for two fields is the lookup of a link. *)
Lemma asks_for_two l t sel f1 v1 f2 v2 c m :
  plain (sb_head (NewQuery_cols t sel) t) && plain f1 && plain f2 = true ->
  query_text (fun _ => "?") (NewQuery_cols t sel) t [QEq f1 ""; QEq f2 ""] [SalesforcePK] (-1) = l_lookup l ->
  l_args l c m = [v1; v2] ->
  asks_for l (WhereEq (WhereEq (NewQuery t sel) f1 v1) f2 v2) c m.
Proof.
  rewrite !andb_true_iff. intros [[Ht H1] H2] Htext Hargs.
  assert (plain_query t sel [QEq f1 v1; QEq f2 v2]) as Hplain by (split_and!; [done|by repeat constructor|done]).
  eexists. split_and!.
  - intros n. exact (getQueryString_text t sel [QEq f1 v1; QEq f2 v2] false n Hplain).
  - apply query_text_no_path.
  - rewrite query_text_read by done. by rewrite Hargs, <-Htext.
Qed.

Lemma group_asks u g :
  asks_for group_link (WhereEq (WhereEq (NewQuery TableNameGroupMemberships []) "GroupId" g) "UserOrGroupId" u) g u.
Proof. apply asks_for_two; by vm_compute. Qed.

Lemma permission_set_asks u p :
  asks_for permission_set_link
    (WhereEq (WhereEq (NewQuery TableNamePermissionAssignments []) "AssigneeId" u) "PermissionSetId" p) p u.
Proof. apply asks_for_two; by vm_compute. Qed.

Lemma permission_set_group_asks u g :
  asks_for permission_set_group_link
    (WhereEq (WhereEq (NewQuery TableNamePermissionAssignments ["PermissionSetGroupId"; "AssigneeId"])
                "AssigneeId" u) "PermissionSetGroupId" g) g u.
Proof. apply asks_for_two; by vm_compute. Qed.

Lemma territory_asks u t : asks_for territory_link (territory_assoc_query u t) t u.
Proof. unfold territory_assoc_query. apply asks_for_two; by vm_compute. Qed.

(** What the creates send. *)
Lemma link_fields_of l c m : link_fields l c m = fields_of [(l_container l, c); (l_member l, m)].
Proof. reflexivity. Qed.

Lemma link_fields_swap l c m :
  l_container l <> l_member l -> link_fields l c m = fields_of [(l_member l, m); (l_container l, c)].
Proof. intros Hne. rewrite link_fields_of. unfold fields_of. simpl. by apply insert_insert_ne. Qed.

Lemma group_sends u g : fields_of [("GroupId", g); ("UserOrGroupId", u)] = link_fields group_link g u.
Proof. by rewrite link_fields_of. Qed.

Lemma permission_set_sends u p :
  fields_of [("AssigneeId", u); ("PermissionSetId", p)] = link_fields permission_set_link p u.
Proof. by rewrite link_fields_swap. Qed.

Lemma permission_set_group_sends u g :
  fields_of [("AssigneeId", u); ("PermissionSetGroupId", g)] = link_fields permission_set_group_link g u.
Proof. by rewrite link_fields_swap. Qed.

Lemma territory_sends u t :
  fields_of [("UserId", u); ("Territory2Id", t)] = link_fields territory_link t u.
Proof. by rewrite link_fields_swap. Qed.

Lemma bind_ret_run {W A} (m : GoM W A) w : (m ≫= mret) w = m w.
Proof. unfold mbind, GoM_bind. by destruct (m w) as [[]]. Qed.

Lemma bind_run_ext {W A B} (m : GoM W A) (k k' : A -> GoM W B) w :
  (forall a, k a = k' a) -> (m ≫= k) w = (m ≫= k') w.
Proof. intros Hk. unfold mbind, GoM_bind. destruct (m w) as [[a|why] w']; [by rewrite Hk|done]. Qed.

Lemma bind_assoc_run {W A B C} (m : GoM W A) (k : A -> GoM W B) (k' : B -> GoM W C) w :
  ((m ≫= k) ≫= k') w = (m ≫= (fun a => k a ≫= k')) w.
Proof. unfold mbind, GoM_bind. by destruct (m w) as [[]]. Qed.

(** ** The handlers *)

Abbreviation reply := (annotations * error)%type.

(** The pair a grant or revoke is about. *)
Definition pair_of (resource : Resource) (principal : ResourceId) : string * string :=
  (rid_Resource (res_Id resource), rid_Resource principal).

Definition done_now (r : reply) : Prop :=
  r.2 = None /\ (AGrantAlreadyRevoked ∉ r.1) /\ AGrantAlreadyExists ∉ r.1.
Definition already_revoked (r : reply) : Prop := r.2 = None /\ AGrantAlreadyRevoked ∈ r.1.
Definition declined_now (r : reply) : Prop := plain_failure r.2.
Definition not_granted (r : list Grant * annotations * error) : Prop := r.1.1 = [] /\ plain_failure r.2.
Definition refused_duplicate (r : reply) : Prop :=
  exists err, r.2 = Some err /\ isSalesforceDuplicateError err = true.
(** The grants handed back, and no error. *)
Definition granted (grants : list Grant) (r : list Grant * annotations * error) : Prop :=
  exists annos, r = (grants, annos, None) /\ AGrantAlreadyExists ∉ annos.
Definition already_granted (r : list Grant * annotations * error) : Prop := r = ([], [AGrantAlreadyExists], None).

Lemma rate_limits_no_answer rls :
  (AGrantAlreadyRevoked ∉ WithRateLimitAnnotations rls) /\ AGrantAlreadyExists ∉ WithRateLimitAnnotations rls.
Proof.
  unfold WithRateLimitAnnotations. split; intros (rl & Hrl & _)%list_elem_of_fmap; done.
Qed.

Section handlers.
Context `{Env} {client : simple_client} (Hlogged : isLoggedIn client = true) (Hok : url_ok client = true).

Lemma GetOne_looks_up `{!LinkService client permission_set_group_link} u g :
  id_pair (g, u) ->
  looks_up (client := client) (l := permission_set_group_link) (GetOnePermissionSetGroupAssignment u g) g u
    (fun id r => exists assignment, r = (Some assignment, None) /\ pa_ID assignment = id)
    (fun r => r = (None, None)).
Proof.
  intros Hids L. unfold GetOnePermissionSetGroupAssignment. eapply triple_bind.
  { apply (query_first_looks_up Hlogged Hok); [exact Hids|apply permission_set_group_asks]. }
  intros r w [Hw [(id & Hid & record & rl & -> & Hrec)|[Hno [rl ->]]]]; eexists _, w;
    (split; [reflexivity|]); (split; [done|]).
  - left. exists id. split; [done|]. by eexists.
  - by right.
Qed.

(** What a handler makes of the answer of a create or a delete. *)
Ltac answer := eexists; (split; [|reflexivity]).

Lemma group_Grant_adds `{!LinkService client group_link} principal ent resource :
  is_user principal = true -> ent_Resource ent = Some resource ->
  AddsPair (client := client) (l := group_link) (pair_of resource principal)
    (group_Grant principal ent) done_now (taken (l := group_link) done_now refused_duplicate) declined_now.
Proof.
  intros Hu Hres. unfold group_Grant, pair_of. rewrite Hu, Hres. cbn [negb].
  set (gid := rid_Resource (res_Id resource)). set (u := rid_Resource principal).
  eapply AddsPair_bind; [exact (CreateObject_adds Hok group_link_sound _ gid u (group_sends u gid))| | |].
  - intros [rl err] Hr. answer. split; [done|apply rate_limits_no_answer].
  - apply taken_answers; intros [rl err] Hr; answer; [split; [done|apply rate_limits_no_answer]|done].
  - intros [rl err] Hr. by answer.
Qed.

Lemma group_Revoke_removes `{!LinkService client group_link} g resource :
  ent_Resource (grant_Entitlement g) = Some resource ->
  id_pair (pair_of resource (grant_Principal g)) ->
  RemovesPair (client := client) (l := group_link) (pair_of resource (grant_Principal g))
    (group_Revoke g) done_now already_revoked declined_now.
Proof.
  intros Hres Hids. unfold group_Revoke, pair_of. rewrite Hres.
  set (gid := rid_Resource (res_Id resource)). set (u := rid_Resource (grant_Principal g)).
  apply (RemovesPair_bind _ (RemoveUserFromGroup u gid) _ (fun r => r.1.1 = true /\ r.2 = None) (fun r => r.1.1 = false /\ r.2 = None)
    (fun r => plain_failure r.2)).
  - eapply (lookup_delete Hok group_link_sound); [apply getSObject_looks_up; [done|done|exact Hids|apply group_asks]|..].
    + intros id x w (record & rl & -> & <-). reflexivity.
    + intros [rl err] Hr. by answer.
    + intros r (rl & ->). by answer.
    + intros [rl err] Hr. by answer.
  - intros [[revoked rl] err] [Hb He]. simpl in Hb, He. subst. answer. split; [done|apply rate_limits_no_answer].
  - intros [[revoked rl] err] [Hb He]. simpl in Hb, He. subst. answer. split; [done|]. simpl. set_solver.
  - intros [[revoked rl] err] (e & He & Hr). simpl in He. subst. answer. by exists e.
Qed.

Lemma permission_Grant_adds `{!LinkService client permission_set_link} principal ent resource :
  is_user principal = true -> ent_Resource ent = Some resource ->
  AddsPair (client := client) (l := permission_set_link) (pair_of resource principal)
    (permission_Grant principal ent) done_now (taken (l := permission_set_link) done_now refused_duplicate) declined_now.
Proof.
  intros Hu Hres. unfold permission_Grant, pair_of.
  rewrite Hres, Hu. cbn [negb].
  set (pid := rid_Resource (res_Id resource)). set (u := rid_Resource principal).
  eapply AddsPair_bind;
    [exact (CreateObject_adds Hok permission_set_link_sound _ pid u (permission_set_sends u pid))| | |].
  - intros [rl err] Hr. answer. split; [done|apply rate_limits_no_answer].
  - apply taken_answers; intros [rl err] Hr; answer; [split; [done|apply rate_limits_no_answer]|done].
  - intros [rl err] Hr. by answer.
Qed.

Lemma permission_Revoke_removes `{!LinkService client permission_set_link} g resource :
  is_user (grant_Principal g) = true -> ent_Resource (grant_Entitlement g) = Some resource ->
  id_pair (pair_of resource (grant_Principal g)) ->
  RemovesPair (client := client) (l := permission_set_link) (pair_of resource (grant_Principal g))
    (permission_Revoke g) done_now (fun r => r.2 = Some (ESentinel ErrObjectNotFound)) declined_now.
Proof.
  intros Hu Hres Hids. unfold permission_Revoke, pair_of.
  rewrite Hres, Hu. cbn [negb].
  set (pid := rid_Resource (res_Id resource)). set (u := rid_Resource (grant_Principal g)).
  apply (RemovesPair_bind _ (RemoveUserFromPermissionSet u pid) _ succeeds
    (fun r => r.2 = Some (ESentinel ErrObjectNotFound)) fails_otherwise).
  - eapply (lookup_delete Hok permission_set_link_sound _ _ _ _ _ _ mret);
      [apply getSObject_looks_up; [done|done|exact Hids|apply permission_set_asks]|..].
    + intros id x w (record & rl & -> & <-). by rewrite bind_ret_run.
    + intros [rl err] Hr. by answer.
    + intros r (rl & ->). by answer.
    + intros [rl err] Hr. by answer.
  - intros [rl err] Hr. answer. split; [done|apply rate_limits_no_answer].
  - intros [rl err] Hr. by answer.
  - intros [rl err] Hr. by answer.
Qed.

Lemma permissionSetGroup_Grant_adds `{!LinkService client permission_set_group_link} principal ent resource :
  is_user principal = true -> ent_Resource ent = Some resource ->
  id_pair (pair_of resource principal) ->
  AddsPair (client := client) (l := permission_set_group_link) (pair_of resource principal)
    (permissionSetGroup_Grant principal ent)
    (granted [NewGrant resource permissionSetGroupMemberEntitlementName principal]) already_granted not_granted.
Proof.
  intros Hu Hres Hids. unfold permissionSetGroup_Grant, pair_of.
  rewrite Hres, Hu. cbn [negb].
  set (gid := rid_Resource (res_Id resource)). set (u := rid_Resource principal).
  pose proof (GetOne_looks_up u gid Hids) as Hlook.
  eapply (lookup_create Hok permission_set_group_link_sound _ _ _ _ _ _ _
    (fun r => mret match r.2 with
                   | Some err => ([], [], Some err)
                   | None => ([NewGrant resource permissionSetGroupMemberEntitlementName principal], [], None)
                   end) _ _ _ Hlook (permission_set_group_sends u gid)).
  - intros id r (a & -> & Ha). by answer.
  - intros r w ->. apply bind_run_ext. intros [rl [err|]]; reflexivity.
  - intros [rl err] Hr. simpl in Hr. answer. unfold succeeds in Hr. simpl in *. subst. exists []. split; [done|set_solver].
  - intros [rl err] (e & He & Hrest). simpl in He. subst err. answer. split; [done|by exists e].
Qed.

Lemma permissionSetGroup_Revoke_removes `{!LinkService client permission_set_group_link} g resource :
  is_user (grant_Principal g) = true -> ent_Resource (grant_Entitlement g) = Some resource ->
  id_pair (pair_of resource (grant_Principal g)) ->
  RemovesPair (client := client) (l := permission_set_group_link) (pair_of resource (grant_Principal g))
    (permissionSetGroup_Revoke g) (fun r => r = ([], None)) (fun r => r = ([AGrantAlreadyRevoked], None)) declined_now.
Proof.
  intros Hu Hres Hids. unfold permissionSetGroup_Revoke, pair_of.
  rewrite Hres, Hu. cbn [negb].
  set (gid := rid_Resource (res_Id resource)). set (u := rid_Resource (grant_Principal g)).
  pose proof (GetOne_looks_up u gid Hids) as Hlook.
  eapply (lookup_delete Hok permission_set_group_link_sound _ _ _ _ _ _
    (fun r => mret match r.2 with Some err => ([], Some err) | None => ([], None) end) _ _ _ Hlook).
  - intros id r w (a & -> & <-). apply bind_run_ext. intros [rl [err|]]; reflexivity.
  - intros [rl err] Hr. answer. unfold succeeds in Hr. simpl in *. by subst.
  - intros r ->. by answer.
  - intros [rl err] (e & He & Hr). simpl in He. subst err. answer. by exists e.
Qed.

Lemma territory_Grant_adds `{!LinkService client territory_link} principal ent resource :
  is_user principal = true -> ent_Resource ent = Some resource ->
  parseTerritoryEntitlementID (ent_Id ent) = inr territoryMemberPermission ->
  id_pair (pair_of resource principal) ->
  AddsPair (client := client) (l := territory_link) (pair_of resource principal)
    (territory_Grant principal ent)
    (granted [NewGrant resource territoryMemberPermission principal]) already_granted not_granted.
Proof.
  intros Hu Hres Hparse Hids. unfold territory_Grant, pair_of.
  rewrite Hres, Hparse, Hu. cbn [negb].
  set (t := rid_Resource (res_Id resource)). set (u := rid_Resource principal).
  pose proof (getSObject_looks_up Hlogged Hok _ _ _ Hids (territory_asks u t)) as Hlook.
  eapply (lookup_create Hok territory_link_sound _ _ _ _ _ _ _
    (fun r => mret match r.2 with
                   | Some err => if isSalesforceDuplicateError err || errors_Is err ErrObjectAlreadyExists
                                 then ([], [AGrantAlreadyExists], None) else ([], WithRateLimitAnnotations [r.1], Some err)
                   | None => ([NewGrant resource territoryMemberPermission principal],
                              WithRateLimitAnnotations [r.1], None)
                   end) _ _ _ Hlook (territory_sends u t)).
  - intros id r (record & rl & -> & Ha). by answer.
  - intros r w (rl & ->). unfold GetUserTerritoryAssociation, grant_membership, AddUserToTerritory, create_association.
    cbn [errors_Is negb String.eqb]. rewrite String.eqb_refl, bool_decide_eq_true_2 by done. cbn [negb].
    rewrite bind_assoc_run. apply bind_run_ext. intros [rl' [err|]]; [|reflexivity]. cbn [snd].
    destruct (isSalesforceDuplicateError err); [reflexivity|]. cbn [orb].
    unfold mbind, GoM_bind, mret, GoM_ret. cbn. by destruct (errors_Is err ErrObjectAlreadyExists).
  - intros [rl err] Hr. simpl in Hr. answer. unfold succeeds in Hr. simpl in *. subst.
    eexists. split; [done|]. apply (rate_limits_no_answer [rl]).
  - intros [rl err] (e & He & Hdup & His). simpl in He. subst err. cbn [snd]. rewrite Hdup, His. answer. split; [done|by exists e].
Qed.

Lemma territory_Revoke_removes `{!LinkService client territory_link} g resource :
  ent_Resource (grant_Entitlement g) = Some resource ->
  parseTerritoryEntitlementID (ent_Id (grant_Entitlement g)) = inr territoryMemberPermission ->
  id_pair (pair_of resource (grant_Principal g)) ->
  RemovesPair (client := client) (l := territory_link) (pair_of resource (grant_Principal g))
    (territory_Revoke g) done_now (fun r => r = ([AGrantAlreadyRevoked], None)) declined_now.
Proof.
  intros Hres Hparse Hids. unfold territory_Revoke, pair_of.
  rewrite Hres, Hparse.
  set (t := rid_Resource (res_Id resource)). set (u := rid_Resource (grant_Principal g)).
  pose proof (getSObject_looks_up Hlogged Hok _ _ _ Hids (territory_asks u t)) as Hlook.
  apply (RemovesPair_bind _ (RemoveUserFromTerritory u t) _ succeeds
    (fun r => r.2 = Some (ESentinel ErrObjectNotFound)) fails_otherwise).
  - eapply (lookup_delete Hok territory_link_sound _ _ _ _ _ _ mret); [exact Hlook|..].
    + intros id x w (record & rl & -> & <-). by rewrite bind_ret_run.
    + intros [rl err] Hr. by answer.
    + intros r (rl & ->). by answer.
    + intros [rl err] Hr. by answer.
  - intros [rl err] Hr. unfold succeeds in Hr. simpl in Hr. subst. answer. split; [done|apply rate_limits_no_answer].
  - intros [rl err] Hr. simpl in Hr. subst. by answer.
  - intros [rl err] (e & He & Hdup & His). simpl in He. subst err. cbn. rewrite !His. answer. by exists e.
Qed.

End handlers.

(** ** Histories *)

(** What a component promises of its grants and revokes. *)
Class MembershipHandlers `{LinkService} := {
  (* The entitlements these are about. *)
  mh_entitlement : Entitlement -> Prop;
  mh_Grant : ResourceId -> Entitlement -> GoM World unit;
  mh_Revoke : ResourceId -> Entitlement -> GoM World unit;
  mh_adds principal ent resource :
    is_user principal = true -> ent_Resource ent = Some resource -> mh_entitlement ent -> id_pair (pair_of resource principal) ->
    AddsPair (pair_of resource principal) (mh_Grant principal ent) (fun _ => True) (fun _ => True) (fun _ => True);
  mh_removes principal ent resource :
    is_user principal = true -> ent_Resource ent = Some resource -> mh_entitlement ent -> id_pair (pair_of resource principal) ->
    RemovesPair (pair_of resource principal) (mh_Revoke principal ent) (fun _ => True) (fun _ => True) (fun _ => True);
}.

Inductive request := GrantOf (principal : ResourceId) (ent : Entitlement) | RevokeOf (principal : ResourceId) (ent : Entitlement).

Definition request_user (r : request) : ResourceId :=
  match r with GrantOf principal _ | RevokeOf principal _ => principal end.
Definition request_ent (r : request) : Entitlement :=
  match r with GrantOf _ ent | RevokeOf _ ent => ent end.

(** One request after the other, whatever they answer. *)
Definition handle `{LinkService} (handlers : MembershipHandlers) (r : request) : GoM World unit :=
  match r with
  | GrantOf principal ent => mh_Grant principal ent
  | RevokeOf principal ent => mh_Revoke principal ent
  end.

Definition handle_all `{LinkService} (handlers : MembershipHandlers) : list request -> GoM World unit :=
  run_all (handle handlers).

(** The same on the set. *)
Definition apply_request (valid fixed : string * string -> bool) (S : gset (string * string)) (r : request) :
    gset (string * string) :=
  match ent_Resource (request_ent r) with
  | None => S
  | Some resource =>
      let pair := pair_of resource (request_user r) in
      match r with GrantOf _ _ => add_pair valid pair S | RevokeOf _ _ => remove_pair fixed pair S end
  end.

Definition request_ok `{LinkService} (handlers : MembershipHandlers) (r : request) : Prop :=
  is_user (request_user r) = true /\ mh_entitlement (request_ent r)
  /\ exists resource, ent_Resource (request_ent r) = Some resource /\ id_pair (pair_of resource (request_user r)).

(** The handlers do what the set operations do. *)
Definition keeps_history `{LinkService} (handlers : MembershipHandlers) : Prop :=
  forall rs S, Forall (request_ok handlers) rs ->
  triple (linked_pairs S) (handle_all handlers rs) (fun _ => linked_pairs (foldl (apply_request link_valid link_fixed) S rs)).

Lemma history_refines `{LinkService} (handlers : MembershipHandlers) : keeps_history handlers.
Proof.
  intros rs S. apply run_all_refines. intros S0 r (Hu & He & resource & Hres & Hids). unfold apply_request, handle.
  rewrite Hres. destruct r as [principal ent|principal ent]; cbn [request_user request_ent] in *.
  - eapply triple_post; [|by apply (mh_adds principal ent resource)]. by intros ? w [Hw _].
  - eapply triple_post; [|by apply (mh_removes principal ent resource)]. by intros ? w [Hw _].
Qed.

(** The grant a revoke of it names. *)
Definition as_grant (principal : ResourceId) (ent : Entitlement) : Grant :=
  {| grant_Id := ""; grant_Entitlement := ent; grant_Principal := principal; grant_Expandable := None |}.

Section discarding.
Context `{LinkService}.

Lemma AddsPair_discard {A} p (m : GoM World A) created existed failed :
  AddsPair p m created existed failed -> AddsPair p (discard m) (fun _ => True) (fun _ => True) (fun _ => True).
Proof. intros Hm. by eapply AddsPair_bind; [exact Hm|intros a _; exists tt..]. Qed.

Lemma RemovesPair_discard {A} p (m : GoM World A) removed absent failed :
  RemovesPair p m removed absent failed -> RemovesPair p (discard m) (fun _ => True) (fun _ => True) (fun _ => True).
Proof. intros Hm. by eapply RemovesPair_bind; [exact Hm|intros a _; exists tt..]. Qed.
End discarding.

Section instances.
Context `{Env} (client : simple_client) (Hlogged : isLoggedIn client = true) (Hok : url_ok client = true).

#[refine] Definition group_handlers `{!LinkService client group_link} : MembershipHandlers (l := group_link) := {|
  mh_entitlement _ := True;
  mh_Grant principal ent := discard (group_Grant principal ent);
  mh_Revoke principal ent := discard (group_Revoke (as_grant principal ent));
|}.
Proof.
  - intros principal ent resource Hu Hres _ Hids. by eapply AddsPair_discard, group_Grant_adds.
  - intros principal ent resource Hu Hres _ Hids. by eapply RemovesPair_discard, group_Revoke_removes.
Defined.

#[refine] Definition permission_handlers `{!LinkService client permission_set_link} :
    MembershipHandlers (l := permission_set_link) := {|
  mh_entitlement _ := True;
  mh_Grant principal ent := discard (permission_Grant principal ent);
  mh_Revoke principal ent := discard (permission_Revoke (as_grant principal ent));
|}.
Proof.
  - intros principal ent resource Hu Hres _ Hids. by eapply AddsPair_discard, permission_Grant_adds.
  - intros principal ent resource Hu Hres _ Hids. by eapply RemovesPair_discard, permission_Revoke_removes.
Defined.

#[refine] Definition permissionSetGroup_handlers `{!LinkService client permission_set_group_link} :
    MembershipHandlers (l := permission_set_group_link) := {|
  mh_entitlement _ := True;
  mh_Grant principal ent := discard (permissionSetGroup_Grant principal ent);
  mh_Revoke principal ent := discard (permissionSetGroup_Revoke (as_grant principal ent));
|}.
Proof.
  - intros principal ent resource Hu Hres _ Hids. by eapply AddsPair_discard, permissionSetGroup_Grant_adds.
  - intros principal ent resource Hu Hres _ Hids. by eapply RemovesPair_discard, permissionSetGroup_Revoke_removes.
Defined.

(** Of a territory, the entitlements for membership. *)
#[refine] Definition territory_handlers `{!LinkService client territory_link} :
    MembershipHandlers (l := territory_link) := {|
  mh_entitlement ent := parseTerritoryEntitlementID (ent_Id ent) = inr territoryMemberPermission;
  mh_Grant principal ent := discard (territory_Grant principal ent);
  mh_Revoke principal ent := discard (territory_Revoke (as_grant principal ent));
|}.
Proof.
  - intros principal ent resource Hu Hres Hparse Hids. by eapply AddsPair_discard, territory_Grant_adds.
  - intros principal ent resource Hu Hres Hparse Hids. by eapply RemovesPair_discard, territory_Revoke_removes.
Defined.
End instances.

(** ** Properties *)

Section properties.
Context `{Env} {client : simple_client} (Hlogged : isLoggedIn client = true) (Hok : url_ok client = true).

(** C12: group membership, as the connector provisions it, is a set of pairs.  From
    whatever Salesforce holds, a grant of a user leaves the set with that one
    pair added.  For a member nothing changes: where Salesforce takes the record
    again the call succeeds just like the first one, and where it refuses the
    duplicate the call fails with that error.  When Salesforce declines the user,
    nothing changes and the call fails with its error.  A revoke leaves the set
    with that one pair taken out, says so when the user was no member, and fails
    only when Salesforce declines to take the pair out, which then stays. *)
Theorem group_membership_refines `{!LinkService client group_link} principal ent g resource :
  is_user principal = true -> ent_Resource ent = Some resource ->
  grant_Principal g = principal -> ent_Resource (grant_Entitlement g) = Some resource ->
  id_pair (pair_of resource principal) ->
  AddsPair (client := client) (l := group_link) (pair_of resource principal)
    (group_Grant principal ent) done_now
    (fun r => if link_repeats (l := group_link) then done_now r else refused_duplicate r) declined_now
  /\ RemovesPair (client := client) (l := group_link) (pair_of resource principal)
       (group_Revoke g) done_now already_revoked declined_now.
Proof.
  intros. split; [by apply group_Grant_adds|subst; by apply group_Revoke_removes].
Qed.

(** The assignments of a permission set are such a set as well; here a revoke of what is not
    there is an error ([ErrObjectNotFound]) which changes nothing. *)
Theorem permission_set_refines `{!LinkService client permission_set_link} principal ent g resource :
  is_user principal = true -> ent_Resource ent = Some resource ->
  grant_Principal g = principal -> ent_Resource (grant_Entitlement g) = Some resource ->
  id_pair (pair_of resource principal) ->
  AddsPair (client := client) (l := permission_set_link) (pair_of resource principal)
    (permission_Grant principal ent) done_now
    (fun r => if link_repeats (l := permission_set_link) then done_now r else refused_duplicate r) declined_now
  /\ RemovesPair (client := client) (l := permission_set_link) (pair_of resource principal)
       (permission_Revoke g) done_now (fun r => r.2 = Some (ESentinel ErrObjectNotFound)) declined_now.
Proof.
  intros. split; [by apply permission_Grant_adds|subst; by apply permission_Revoke_removes].
Qed.

(** C13: the members of a permission set group are such a set, and here granting and
    revoking are idempotent as well: neither fails, unless Salesforce declines a new pair
    or declines to take one out, and the answer says whether the pair was (not) there
    before. *)
Theorem permission_set_group_refines `{!LinkService client permission_set_group_link} principal ent g resource :
  is_user principal = true -> ent_Resource ent = Some resource ->
  grant_Principal g = principal -> ent_Resource (grant_Entitlement g) = Some resource ->
  id_pair (pair_of resource principal) ->
  AddsPair (client := client) (l := permission_set_group_link) (pair_of resource principal)
    (permissionSetGroup_Grant principal ent)
    (granted [NewGrant resource permissionSetGroupMemberEntitlementName principal]) already_granted not_granted
  /\ RemovesPair (client := client) (l := permission_set_group_link) (pair_of resource principal)
       (permissionSetGroup_Revoke g) (fun r => r = ([], None)) (fun r => r = ([AGrantAlreadyRevoked], None)) declined_now.
Proof.
  intros. split; [by apply permissionSetGroup_Grant_adds|subst; by apply permissionSetGroup_Revoke_removes].
Qed.

(** Membership of a territory is such a set, with grants and revokes that are
    both idempotent. *)
Theorem territory_membership_refines `{!LinkService client territory_link} principal ent g resource :
  is_user principal = true -> ent_Resource ent = Some resource ->
  parseTerritoryEntitlementID (ent_Id ent) = inr territoryMemberPermission ->
  grant_Principal g = principal -> grant_Entitlement g = ent -> id_pair (pair_of resource principal) ->
  AddsPair (client := client) (l := territory_link) (pair_of resource principal)
    (territory_Grant principal ent)
    (granted [NewGrant resource territoryMemberPermission principal]) already_granted not_granted
  /\ RemovesPair (client := client) (l := territory_link) (pair_of resource principal)
       (territory_Revoke g) done_now (fun r => r = ([AGrantAlreadyRevoked], None)) declined_now.
Proof.
  intros. split; [by apply territory_Grant_adds|subst; by apply territory_Revoke_removes].
Qed.

(** C4: histories of grants and revokes do what they would do on a set.  Whatever
    group, permission set (group) and territory memberships Salesforce holds,
    after any sequence of well formed grants and revokes, repeated, useless and
    declined ones included, it holds what adding and taking out the pairs in that
    order makes of them; no call panics on the way, and none writes anything else. *)
Theorem provisioning_history :
  (forall `{!LinkService client group_link}, keeps_history (group_handlers client Hlogged Hok))
  /\ (forall `{!LinkService client permission_set_link}, keeps_history (permission_handlers client Hlogged Hok))
  /\ (forall `{!LinkService client permission_set_group_link},
        keeps_history (permissionSetGroup_handlers client Hlogged Hok))
  /\ (forall `{!LinkService client territory_link}, keeps_history (territory_handlers client Hlogged Hok)).
Proof. split_and!; intros; apply history_refines. Qed.
End properties.

Section witnesses.
#[local] Existing Instances group_org permission_set_org permission_set_group_org territory_org.

Lemma org_linked l `{!@LinkService (org_env l) sf_client l} o :
  rest_ok (o : @env_state (org_env l)) -> rest_state (o : @env_state (org_env l)) = org_links o ->
  linked_pairs (members (org_links o)) (org_world l o).
Proof. intros Hs HL. exists (org_links o). split; [done|]. split; [vm_compute; eauto|by split]. Qed.

Lemma sf_logged : isLoggedIn sf_client = true.
Proof. reflexivity. Qed.
Lemma sf_url : url_ok sf_client = true.
Proof. reflexivity. Qed.

Definition group_g : Resource := NewResource "G" resourceTypeGroup "00G1" None TGroup.
Definition group_g_member : Entitlement :=
  NewAssignmentEntitlement (Some group_g) "member" [resourceTypeUser] "" "".
Definition user_a : ResourceId := user_principal "005A".

Lemma one_link_linked l `{!@LinkService (org_env l) sf_client l} c m :
  rest_ok (one_link c m : @env_state (org_env l)) -> rest_state (one_link c m : @env_state (org_env l)) = {["r" := (c, m)]} ->
  linked_pairs {[(c, m)]} (org_world l (one_link c m)).
Proof.
  intros Hs HL. assert ({[(c, m)]} = members (org_links (one_link c m))) as ->
    by (unfold members; cbn [org_links one_link]; by rewrite map_img_singleton_L). by apply org_linked.
Qed.

Lemma taken_out p : org_locked p = false -> remove_pair org_locked p {[p]} = ∅.
Proof. intros Hp. unfold remove_pair. rewrite Hp. apply difference_diag_L. Qed.

Lemma one_member (p : string * string) {A} (x y : A) : (if bool_decide (p ∈ ({[p]} : gset (string * string))) then x else y) = x.
Proof. rewrite bool_decide_eq_true_2; [done|]. by apply elem_of_singleton. Qed.

(** The one member is granted the membership again, which the org takes, and is
    revoked. *)
Lemma group_membership_refines_witness :
  (exists r w, group_Grant user_a group_g_member (org_world group_link (one_link "00G1" "005A")) = (Returns r, w)
    /\ linked_pairs (client := sf_client) (l := group_link) {[("00G1", "005A")]} w /\ done_now r)
  /\ exists r w, group_Revoke (as_grant user_a group_g_member) (org_world group_link (one_link "00G1" "005A")) = (Returns r, w)
    /\ linked_pairs (client := sf_client) (l := group_link) ∅ w /\ done_now r.
Proof.
  assert (linked_pairs (client := sf_client) (l := group_link) {[("00G1", "005A")]} (org_world group_link (one_link "00G1" "005A")))
    as Hstart by (apply one_link_linked; [apply one_link_ok|reflexivity]).
  destruct (group_membership_refines (LinkService0 := group_org) sf_logged sf_url user_a group_g_member (as_grant user_a group_g_member)
    group_g eq_refl eq_refl eq_refl eq_refl (conj eq_refl eq_refl)) as [Hadds Hremoves].
  change (pair_of group_g user_a) with ("00G1", "005A") in Hadds, Hremoves. split.
  - destruct (Hadds _ _ Hstart) as (r & w & Hrun & Hw & Hr). exists r, w. split; [exact Hrun|].
    rewrite one_member in Hr. rewrite add_present_pair in Hw by (by apply elem_of_singleton). split; [exact Hw|exact Hr].
  - destruct (Hremoves _ _ Hstart) as (r & w & Hrun & Hw & Hr). exists r, w. split; [exact Hrun|].
    rewrite one_member in Hr. split; [|exact Hr]. rewrite <-(taken_out ("00G1", "005A") eq_refl). exact Hw.
Defined.

Definition permission_p : Resource := NewResource "P" resourceTypePermissionSet "0PS1" None NoTrait.
Definition permission_p_assigned : Entitlement :=
  NewAssignmentEntitlement (Some permission_p) "assigned" [resourceTypeUser] "" "".

Lemma permission_set_refines_witness :
  exists r w, permission_Revoke (as_grant user_a permission_p_assigned)
      (org_world permission_set_link (one_link "0PS1" "005A")) = (Returns r, w)
    /\ linked_pairs (client := sf_client) (l := permission_set_link) ∅ w /\ done_now r.
Proof.
  destruct (proj2 (permission_set_refines sf_logged sf_url user_a permission_p_assigned
    (as_grant user_a permission_p_assigned) permission_p eq_refl eq_refl eq_refl eq_refl (conj eq_refl eq_refl))
    {[("0PS1", "005A")]} (org_world permission_set_link (one_link "0PS1" "005A"))) as (r & w & Hrun & Hw & Hr).
  - apply one_link_linked; [apply one_link_ok|reflexivity].
  - exists r, w. split; [exact Hrun|]. change (pair_of permission_p user_a) with ("0PS1", "005A") in Hw, Hr.
    rewrite one_member in Hr. split; [|exact Hr]. rewrite <-(taken_out ("0PS1", "005A") eq_refl). exact Hw.
Defined.

Definition group_psg : Resource := NewResource "PSG" resourceTypePermissionSetGroup "0PG1" None NoTrait.
Definition group_psg_member : Entitlement :=
  NewAssignmentEntitlement (Some group_psg) "member" [resourceTypeUser] "" "".

(** Granting what is there. *)
Lemma permission_set_group_refines_witness :
  exists r w, permissionSetGroup_Grant user_a group_psg_member
      (org_world permission_set_group_link (one_link "0PG1" "005A")) = (Returns r, w)
    /\ linked_pairs (client := sf_client) (l := permission_set_group_link) {[("0PG1", "005A")]} w
    /\ already_granted r.
Proof.
  destruct (proj1 (permission_set_group_refines sf_logged sf_url user_a group_psg_member
    (as_grant user_a group_psg_member) group_psg eq_refl eq_refl eq_refl eq_refl (conj eq_refl eq_refl))
    {[("0PG1", "005A")]} (org_world permission_set_group_link (one_link "0PG1" "005A"))) as (r & w & Hrun & Hw & Hr).
  - apply one_link_linked; [apply one_link_ok|reflexivity].
  - exists r, w. split; [exact Hrun|]. change (pair_of group_psg user_a) with ("0PG1", "005A") in Hw, Hr.
    rewrite one_member in Hr. rewrite add_present_pair in Hw by (by apply elem_of_singleton). split; [exact Hw|exact Hr].
Defined.

Definition territory_t : Resource := NewResource "T" resourceTypeTerritory "0MI1" None NoTrait.
Definition territory_t_member : Entitlement :=
  NewAssignmentEntitlement (Some territory_t) territoryMemberPermission [resourceTypeUser] "" "".

Lemma territory_membership_refines_witness :
  exists r w, territory_Grant user_a territory_t_member (org_world territory_link (one_link "0MI1" "005A")) = (Returns r, w)
    /\ linked_pairs (client := sf_client) (l := territory_link) {[("0MI1", "005A")]} w /\ already_granted r.
Proof.
  destruct (proj1 (territory_membership_refines sf_logged sf_url user_a territory_t_member
    (as_grant user_a territory_t_member) territory_t eq_refl eq_refl eq_refl eq_refl eq_refl (conj eq_refl eq_refl))
    {[("0MI1", "005A")]} (org_world territory_link (one_link "0MI1" "005A"))) as (r & w & Hrun & Hw & Hr).
  - apply one_link_linked; [apply one_link_ok|reflexivity].
  - exists r, w. split; [exact Hrun|]. change (pair_of territory_t user_a) with ("0MI1", "005A") in Hw, Hr.
    rewrite one_member in Hr. rewrite add_present_pair in Hw by (by apply elem_of_singleton). split; [exact Hw|exact Hr].
Defined.

(** Out of the group, in again, and out twice; on the way somebody that the org does
    not take is granted the membership, and one of a locked group is revoked. *)
Definition user_x : ResourceId := user_principal "003X".
Definition group_z_member : Entitlement :=
  NewAssignmentEntitlement (Some (NewResource "Z" resourceTypeGroup "00GZ1" None TGroup)) "member" [resourceTypeUser] "" "".
Definition some_history : list request :=
  [RevokeOf user_a group_g_member; GrantOf user_a group_g_member; GrantOf user_x group_g_member;
   GrantOf user_a group_z_member; RevokeOf user_a group_g_member; RevokeOf user_a group_g_member;
   RevokeOf user_a group_z_member].

Lemma provisioning_history_witness :
  exists w, handle_all (group_handlers sf_client sf_logged sf_url) some_history
      (org_world group_link (one_link "00G1" "005A")) = (Returns tt, w)
    /\ linked_pairs (client := sf_client) (l := group_link) {[("00GZ1", "005A")]} w.
Proof.
  destruct (proj1 (provisioning_history sf_logged sf_url) group_org some_history {[("00G1", "005A")]})
    with (s := org_world group_link (one_link "00G1" "005A")) as ([] & w & Hrun & Hw).
  - repeat apply Forall_cons_2; [..|apply Forall_nil_2]; (split; [done|]; split; [exact I|]; eexists; split; [reflexivity|by split]).
  - apply one_link_linked; [apply one_link_ok|reflexivity].
  - exists w. split; [exact Hrun|].
    assert (foldl (apply_request org_accepts org_locked) {[("00G1", "005A")]} some_history = {[("00GZ1", "005A")]}) as <-
      by (apply (bool_decide_unpack _); by vm_compute). exact Hw.
Defined.
End witnesses.
