(* ===== verification/SyncView.v ===== *)
(** * What the sync sees of the memberships

    Against an API that lists a membership table page by page ([ListService]), the
    grants the sync collects for a group, a permission set group or a permission
    set are exactly the members there are, each once; and after any history of grants and
    revokes they are what the set operations make of it. *)
From S2P Require Export Memberships.

Section view.
Context `{ListService} (Hlogged : isLoggedIn client = true) (Hok : url_ok client = true).
Context (Hsound : sound_link l).

(** The members of a container, each once. *)
Definition members_of (S : gset (string * string)) (c : string) (ms : list string) : Prop :=
  NoDup ms /\ forall m, m ∈ ms <-> (c, m) ∈ S.

Lemma rows_members (L : links) c w :
  serves L w -> members_of (members L) c (svc_rows L c).*2.
Proof.
  intros Hw. split.
  - apply NoDup_fmap_2_strong; [|apply svc_rows_once]. intros [id1 m1] [id2 m2] Hr1 Hr2 Heq. cbn in Heq. subst m2.
    rewrite svc_rows_spec in Hr1, Hr2. by rewrite (serves_unique L w _ _ _ Hw Hr1 Hr2).
  - intros m. rewrite elem_of_members, list_elem_of_fmap. split.
    + intros ([id m'] & -> & Hid). apply svc_rows_spec in Hid. eauto.
    + intros [id Hid]. exists (id, m). split; [done|]. by apply svc_rows_spec.
Qed.

(** A member's record, field by field. *)
Lemma records_members c records (rows : list row) :
  Forall2 (row_record l c) records rows ->
  (fun r => StringField r (l_member l)) <$> records = rows.*2.
Proof. induction 1 as [|record r records rows (_ & _ & Hm) _ IH]; [done|]. cbn. by rewrite Hm, IH. Qed.

(** The pages of the list, for whatever pairs are linked. *)
Lemma linked_list_pages S q n c w :
  object_id c = true -> lists_by (l_list l) q c -> linked_pairs (client := client) (l := l) S w ->
  exists records w', query_pages (client := client) q n "" w records w' /\ linked_pairs (client := client) (l := l) S w'
    /\ members_of S c ((fun r => StringField r (l_member l)) <$> records).
Proof.
  intros Hc Hq (L & <- & Hw). destruct (list_by Hlogged Hok (row_record_kept l Hsound) L q n c w Hc Hq Hw) as (records & w' & Hp & Hw' & Hrec).
  exists records, w'. split; [done|]. split; [by exists L|]. rewrite (records_members c records _ Hrec).
  by eapply rows_members.
Qed.
End view.

(** The queries of the connector list the members. *)
Lemma group_lists g :
  lists_by (l_list group_link) (WhereEq (NewQuery TableNameGroupMemberships []) "GroupId" g) g.
Proof. apply lists_one; by vm_compute. Qed.

Lemma permission_set_group_lists g :
  lists_by (l_list permission_set_group_link)
    (WhereEq (NewQuery TableNamePermissionAssignments ["PermissionSetGroupId"; "AssigneeId"])
       "PermissionSetGroupId" g) g.
Proof. apply lists_one; by vm_compute. Qed.

(** ** The grants of a group and of a permission set group *)

(** The principal of a group's member: a user or a group, by the prefix of its id;
    records with other ids are left out. *)
Definition group_member_principal (m : string) : option ResourceId :=
  if strings_HasPrefix m GroupIDPrefix then
    Some {| rid_ResourceType := rt_Id resourceTypeGroup; rid_Resource := m |}
  else if strings_HasPrefix m UserIDPrefix then Some (user_principal m)
  else None.

Definition group_grants_of (resource : Resource) (ms : list string) : list Grant :=
  NewGrant resource groupMemberEntitlementName <$> omap group_member_principal ms.

Definition psg_grants_of (resource : Resource) (ms : list string) : list Grant :=
  (fun m => NewGrant resource permissionSetGroupMemberEntitlementName (user_principal m)) <$> ms.

Section grants.
Context `{Env} {client : simple_client} (Hlogged : isLoggedIn client = true) (Hok : url_ok client = true).

Lemma psg_sync_members `{!LinkService client permission_set_group_link, !ListService} resource size S w :
  object_id (rid_Resource (res_Id resource)) = true -> linked_pairs (client := client) (l := permission_set_group_link) S w ->
  exists ms w', sync_pages (permissionSetGroup_Grants resource) size "" w (psg_grants_of resource ms) w'
    /\ members_of S (rid_Resource (res_Id resource)) ms
    /\ linked_pairs (client := client) (l := permission_set_group_link) S w'.
Proof.
  intros Hc Hw. destruct (linked_list_pages Hlogged Hok permission_set_group_link_sound S _ size _ w Hc
    (permission_set_group_lists (rid_Resource (res_Id resource))) Hw) as (records & w' & Hp & Hw' & Hms).
  eexists _, w'. split; [|by split]. apply (pages_map _ _ _ group_assignment_of) in Hp.
  unfold psg_grants_of. rewrite <-list_fmap_compose.
  assert ((fun m => NewGrant resource permissionSetGroupMemberEntitlementName (user_principal m))
      ∘ (fun r => StringField r (l_member permission_set_group_link)) <$> records
    = map (psg_member_grant resource) (map group_assignment_of records)) as ->
    by (rewrite map_map; reflexivity).
  by eapply pages_sync; [apply map_app|].
Qed.

(** One record of the loop over group members. *)
Definition membership_of (record : SObject) : option SalesforceGroupMembership :=
  match getIsGroup record with
  | inl _ => None
  | inr isGroup => Some {| gm_ID := SObject_ID record; gm_GroupID := StringField record "GroupId";
                           gm_PrincipalID := StringField record "UserOrGroupId"; gm_IsGroup := isGroup |}
  end.

Lemma group_grants_records resource records :
  map (group_grant resource) (omap membership_of records)
  = group_grants_of resource ((fun r => StringField r (l_member group_link)) <$> records).
Proof.
  unfold group_grants_of. induction records as [|r records IH]; [done|].
  cbn [omap list_omap fmap list_fmap]. unfold membership_of at 1, getIsGroup, group_member_principal at 1.
  change (l_member group_link) with "UserOrGroupId" in *.
  destruct (strings_HasPrefix (StringField r "UserOrGroupId") GroupIDPrefix); [cbn; by rewrite IH|].
  destruct (strings_HasPrefix (StringField r "UserOrGroupId") UserIDPrefix); [cbn; by rewrite IH|done].
Qed.

Lemma group_sync_members `{!LinkService client group_link, !ListService} resource size S w :
  object_id (rid_Resource (res_Id resource)) = true -> linked_pairs (client := client) (l := group_link) S w ->
  exists ms w', sync_pages (group_Grants resource) size "" w (group_grants_of resource ms) w'
    /\ members_of S (rid_Resource (res_Id resource)) ms
    /\ linked_pairs (client := client) (l := group_link) S w'.
Proof.
  intros Hc Hw. destruct (linked_list_pages Hlogged Hok group_link_sound S _ size _ w Hc
    (group_lists (rid_Resource (res_Id resource))) Hw) as (records & w' & Hp & Hw' & Hms).
  eexists _, w'. split; [|by split]. rewrite <-group_grants_records.
  apply (pages_each _ _ _ true membership_loop membership_of) in Hp.
  - by eapply pages_sync; [apply map_app|].
  - apply Forall_true. intros record. unfold membership_loop, membership_of. by destruct (getIsGroup record).
Qed.
End grants.

(** ** The grants of a permission set *)

Lemma permission_set_lists c :
  lists_by (l_list permission_set_link) (WhereEq (NewQuery TableNamePermissionAssignments []) "PermissionSetId" c) c.
Proof. apply lists_one; by vm_compute. Qed.

Lemma components_lists c :
  lists_by components_list (WhereEq (NewQuery TablePermissionSetGroupComponent []) "PermissionSetId" c) c.
Proof. apply lists_one; by vm_compute. Qed.

(** The grants of the users, and the expandable ones of the groups. *)
Definition permission_user_grants (resource : Resource) (ms : list string) : list Grant :=
  (fun m => NewGrant resource permissionSetAssignmentEntitlementName (user_principal m)) <$> ms.

Definition permission_group_grant (resource : Resource) (g : string) : Grant :=
  NewGrantWith (Some [rt_Id resourceTypePermissionSetGroup +:+ ":" +:+ g +:+ ":" +:+ permissionSetGroupMemberEntitlementName])
    resource permissionSetAssignmentEntitlementName
    {| rid_ResourceType := rt_Id resourceTypePermissionSetGroup; rid_Resource := g |}.

(** The component of a record. *)
Definition component_of (record : SObject) : option PermissionSetGroupComponent :=
  match component_loop record with inr component => component | inl _ => None end.

Lemma component_turns resource c records rows :
  Forall2 (component_record c) records rows ->
  Forall (fun record => component_loop record = inr (component_of record)) records
  /\ map (component_grant resource) (omap component_of records) = permission_group_grant resource <$> rows.*2.
Proof.
  induction 1 as [|record r records rows (Hid & Hc & Hg & deleted & Hd) _ [IH1 IH2]]; [done|].
  assert (component_loop record = inr (Some {| psc_ID := SObject_ID record; psc_IsDeleted := deleted;
    psc_PermissionSetGroupID := StringField record "PermissionSetGroupId";
    psc_PermissionSetID := StringField record "PermissionSetId" |})) as Hturn
    by (unfold component_loop, getBoolField; by rewrite Hd).
  cbn [omap list_omap]. unfold component_of at 2. split.
  - constructor; [|done]. unfold component_of. by rewrite Hturn.
  - rewrite Hturn. cbn [map fmap list_fmap]. rewrite IH2. f_equal. unfold component_grant, permission_group_grant. by rewrite <-Hg.
Qed.

(** A token of the API is none of the second phase. *)
Lemma api_path_token client tok : api_path (client := client) tok -> api_token tok.
Proof. intros [Hpath _]. unfold api_token. by destruct tok as [|[[] [] [] [] [] [] [] []] tok]. Qed.

Section permission_sets.
Context `{Env} {client : simple_client} (Hlogged : isLoggedIn client = true) (Hok : url_ok client = true).
Context `{!LinkService client permission_set_link, !ListService, !ComponentService}.

Abbreviation assigned_pairs := (linked_pairs (client := client) (l := permission_set_link)).

Lemma permission_sync_members resource size S w :
  object_id (rid_Resource (res_Id resource)) = true -> assigned_pairs S w ->
  exists ms w', sync_pages (permission_Grants resource) size "" w
      (permission_user_grants resource ms
       ++ (permission_group_grant resource <$> (component_rows (rid_Resource (res_Id resource))).*2)) w'
    /\ members_of S (rid_Resource (res_Id resource)) ms /\ assigned_pairs S w'.
Proof.
  intros Hc Hw. set (c := rid_Resource (res_Id resource)) in *.
  destruct (linked_list_pages Hlogged Hok permission_set_link_sound S _ size c w Hc (permission_set_lists c) Hw)
    as (records & w1 & Hp & (L & HL & Hw1) & Hms).
  destruct (list_by Hlogged Hok component_record_kept L _ size c w1 Hc (components_lists c) Hw1)
    as (records' & w2 & Hp' & Hw2 & Hrec). rewrite component_rows_spec in Hrec.
  destruct (component_turns resource c records' _ Hrec) as [Hturns Hgrants].
  eexists _, w2. split; [|split; [exact Hms|by exists L]]. rewrite <-Hgrants.
  assert (permission_user_grants resource ((fun r => StringField r (l_member permission_set_link)) <$> records)
    = map (assignment_grant resource) (map permission_set_assignment_of records)) as ->
    by (unfold permission_user_grants; rewrite <-list_fmap_compose, map_map; reflexivity).
  apply (first_phase resource size "" w _ w1); [|done|].
  - apply (pages_map _ _ _ permission_set_assignment_of), (pages_weaken _ api_token) in Hp; [exact Hp|apply api_path_token].
  - apply (pages_each _ _ _ true component_loop component_of) in Hp'; [|done].
    by apply (pages_weaken _ (fun _ => True)) in Hp'.
Qed.
End permission_sets.

(** ** Properties *)

(** C3: the sync reports what provisioning did.  From whatever memberships Salesforce
    holds, after any sequence of well formed grants and revokes, declined ones
    included, collecting the pages of the grants of a group, of a permission set
    group or of a permission set comes to an end and gives exactly the grants of
    the principals that the same sequence of additions and removals leaves in the
    set, each once; those of a permission set are followed by an expandable grant
    to each of the permission set groups that contain it, once. *)
Theorem provisioned_is_synced `{Env} client
    (Hlogged : isLoggedIn client = true) (Hok : url_ok client = true) rs resource size S w :
  let left (valid fixed : string * string -> bool) := foldl (apply_request valid fixed) S rs in
  let container := rid_Resource (res_Id resource) in
  object_id container = true ->
  (forall (service : LinkService client group_link) (listing : ListService),
     Forall (request_ok (group_handlers client Hlogged Hok)) rs ->
     linked_pairs (client := client) (l := group_link) S w ->
     exists w1 ms w2, handle_all (group_handlers client Hlogged Hok) rs w = (Returns tt, w1)
       /\ sync_pages (group_Grants resource) size "" w1 (group_grants_of resource ms) w2
       /\ members_of (left (link_valid (LinkService := service)) (link_fixed (LinkService := service))) container ms)
  /\ (forall (service : LinkService client permission_set_group_link) (listing : ListService),
     Forall (request_ok (permissionSetGroup_handlers client Hlogged Hok)) rs ->
     linked_pairs (client := client) (l := permission_set_group_link) S w ->
     exists w1 ms w2, handle_all (permissionSetGroup_handlers client Hlogged Hok) rs w = (Returns tt, w1)
       /\ sync_pages (permissionSetGroup_Grants resource) size "" w1 (psg_grants_of resource ms) w2
       /\ members_of (left (link_valid (LinkService := service)) (link_fixed (LinkService := service))) container ms)
  /\ (forall (service : LinkService client permission_set_link) (listing : ListService) (contained : ComponentService),
     Forall (request_ok (permission_handlers client Hlogged Hok)) rs ->
     linked_pairs (client := client) (l := permission_set_link) S w ->
     exists w1 ms w2, handle_all (permission_handlers client Hlogged Hok) rs w = (Returns tt, w1)
       /\ sync_pages (permission_Grants resource) size "" w1
            (permission_user_grants resource ms ++ (permission_group_grant resource <$> (component_rows container).*2)) w2
       /\ members_of (left (link_valid (LinkService := service)) (link_fixed (LinkService := service))) container ms /\ NoDup (component_rows container).*2).
Proof.
  intros left container Hc. split; [|split]; intros service listing; [intros Hrs Hw..|intros contained Hrs Hw].
  - destruct (history_refines _ rs S Hrs w Hw) as ([] & w1 & Hrun & Hw1).
    destruct (group_sync_members Hlogged Hok resource size (left link_valid link_fixed) w1 Hc Hw1) as (ms & w2 & Hpages & Hms & _).
    by exists w1, ms, w2.
  - destruct (history_refines _ rs S Hrs w Hw) as ([] & w1 & Hrun & Hw1).
    destruct (psg_sync_members Hlogged Hok resource size (left link_valid link_fixed) w1 Hc Hw1) as (ms & w2 & Hpages & Hms & _).
    by exists w1, ms, w2.
  - destruct (history_refines _ rs S Hrs w Hw) as ([] & w1 & Hrun & Hw1).
    destruct (permission_sync_members Hlogged Hok resource size (left link_valid link_fixed) w1 Hc Hw1) as (ms & w2 & Hpages & Hms & _).
    exists w1, ms, w2. split; [exact Hrun|]. split; [exact Hpages|]. split; [exact Hms|apply component_rows_once].
Qed.

#[local] Existing Instances permission_set_org permission_set_listing permission_set_contained.

(** Out, in, and out twice, and a user that is not taken; then the sync. *)
Definition assigned_history : list request :=
  [RevokeOf user_a permission_p_assigned; GrantOf user_a permission_p_assigned; GrantOf user_x permission_p_assigned;
   RevokeOf user_a permission_p_assigned; GrantOf (user_principal "005B") permission_p_assigned].

Lemma provisioned_is_synced_witness :
  exists w1 ms w2, handle_all (permission_handlers sf_client sf_logged sf_url) assigned_history
      (org_world permission_set_link (one_link "0PS1" "005A")) = (Returns tt, w1)
    /\ sync_pages (permission_Grants permission_p) 100 "" w1
         (permission_user_grants permission_p ms ++ [permission_group_grant permission_p "0PG1"]) w2
    /\ members_of {[("0PS1", "005B")]} "0PS1" ms.
Proof.
  destruct (provisioned_is_synced (H := org_env permission_set_link) sf_client sf_logged sf_url assigned_history permission_p 100
    {[("0PS1", "005A")]} (org_world permission_set_link (one_link "0PS1" "005A")) eq_refl) as (_ & _ & Hsync).
  destruct (Hsync permission_set_org permission_set_listing permission_set_contained) as (w1 & ms & w2 & Hrun & Hpages & Hms & _).
  - repeat apply Forall_cons_2; [..|apply Forall_nil_2]; (split; [reflexivity|]; split; [reflexivity|]; eexists; split; [reflexivity|by split]).
  - apply one_link_linked; [apply one_link_ok|reflexivity].
  - exists w1, ms, w2. split; [exact Hrun|]. split; [exact Hpages|].
    assert (foldl (apply_request org_accepts org_locked) {[("0PS1", "005A")]} assigned_history = {[("0PS1", "005B")]}) as <-
      by (apply (bool_decide_unpack _); by vm_compute). exact Hms.
Defined.
