(* ===== verification/Table.v ===== *)
(** * A table of records over the REST API

    The records of a table, by id, with the fields they have; and what the API
    promises of it ([TableService]), request by request, as its documentation has
    it: how the queries the connector makes of it are answered, how a record is
    read, created, updated and deleted.  The lemmas are what the helpers of the
    client make of these requests. *)
From S2P Require Export Paging.

(** The fields of a record; one that is blank may also be missing. *)
Abbreviation fields := (gmap string string).
Abbreviation table := (gmap string fields).

Definition field (r : fields) (f : string) : string := default "" (r !! f).
Definition column (kv : string * fields) (f : string) : string :=
  if String.eqb f SalesforcePK then kv.1 else field kv.2 f.

Record schema := {
  t_name : string;
  t_text : list string;                          (* the text fields that are read *)
  t_bools : list string;                         (* the checkboxes that are read *)
  t_derived : list string;                       (* the fields the API fills in itself *)
  t_keeps : string -> string -> bool;            (* the values a field takes as they are *)
  t_ids : list string;                           (* the fields that hold ids of other records *)
  t_key : list string;                           (* no two records share these fields *)
  t_duplicate : string;                          (* the code of the refusal of a second one *)
  t_queries : list (list string * list string);  (* selectors and fields compared *)
}.

(** A checkbox of a record. *)
Definition checked (r : fields) (f : string) : bool := String.eqb (field r f) "true".

(** The conditions of a query for these values, and its text with holes. *)
Definition equals (fs vs : list string) : list q_cond := zip_with QEq fs vs.
Definition template (t : schema) (q : list string * list string) : string :=
  query_text (fun _ => "?") (NewQuery_cols (t_name t) q.1) (t_name t) (equals q.2 q.2) [SalesforcePK] (-1).

Definition matches (fs vs : list string) (kv : string * fields) : Prop :=
  Forall2 (fun f v => column kv f = v) fs vs.

#[export] Instance matches_dec fs vs kv : Decision (matches fs vs kv).
Proof. unfold matches. apply _. Defined.

(** The records a query is for. *)
Definition matching (R : table) (fs vs : list string) : list (string * fields) :=
  filter (matches fs vs) (map_to_list R).

(** A record as a query shows it: its id, and the text fields and checkboxes that are
    asked for. *)
Definition is_record (t : schema) (cols : list string) (record : SObject) (kv : string * fields) : Prop :=
  SObject_ID record = kv.1
  /\ Forall (fun f => f ∈ cols -> StringField record f = field kv.2 f) (t_text t)
  /\ Forall (fun f => f ∈ cols -> InterfaceField record f = VBool (checked kv.2 f)) (t_bools t).

(** The answer to reading a record: unmarshalled into a new object of the table it
    gives the object, with its id and its text fields. *)
Definition is_object (t : schema) (id : string) (r : fields) (obj : SObject) : Prop :=
  SObject_Type obj = Returns (t_name t) /\ SObject_client obj = true /\ SObject_ID obj = id
  /\ ExternalIDFieldName obj = "" /\ Forall (fun f => StringField obj f = field r f) (t_text t).

(** The text fields of a record. *)
Definition shown (t : schema) (r : fields) : list string := field r <$> t_text t.

(** The records share the key. *)
Definition same_key (t : schema) (r1 r2 : fields) : Prop := Forall (fun f => field r1 f = field r2 f) (t_key t).

#[export] Instance same_key_dec t r1 r2 : Decision (same_key t r1 r2).
Proof. unfold same_key. apply _. Defined.

(** A new record has the fields it is created with; the other text fields are
    blank, but for those that the API fills in. *)
Definition new_record (t : schema) (vs r : fields) : Prop :=
  vs ⊆ r /\ Forall (fun f => vs !! f = None -> f ∈ t_derived t \/ field r f = "") (t_text t)
  /\ Forall (fun f => vs !! f = None -> field r f <> "") (t_derived t).

(** A field is compared with such a value; an id that is none makes the query fail. *)
Definition compared (t : schema) (f v : string) : Prop :=
  t_keeps t f v = true /\ (f ∈ t_ids t -> object_id v = true).

(** A record can be created with these values: none is changed on the way (letter
    case of an address, white space around a text). *)
Definition kept (t : schema) (vs : fields) : Prop := map_Forall (fun f v => t_keeps t f v = true) vs.

#[export] Instance kept_dec t vs : Decision (kept t vs).
Proof. unfold kept. apply _. Defined.


(** A JSON object of texts. *)
Abbreviation texts := (fmap (M := gmap string) VString).

Lemma fields_of_texts l : fields_of l = texts (list_to_map l).
Proof. unfold fields_of. by rewrite list_to_map_fmap. Qed.

Lemma one_text f v : list_to_map [(f, v)] = ({[f := v]} : fields).
Proof. reflexivity. Qed.

(** Updating one field. *)
Lemma field_set f v r g : field (list_to_map [(f, v)] ∪ r) g = if String.eqb g f then v else field r g.
Proof.
  unfold field. cbn [list_to_map foldr]. rewrite <-insert_union_l, map_empty_union.
  destruct (String.eqb_spec g f) as [->|Hne]; [by rewrite lookup_insert_eq|by rewrite lookup_insert_ne].
Qed.

Lemma new_record_given t vs r f v : new_record t vs r -> vs !! f = Some v -> field r f = v.
Proof. intros [Hsub _] Hv. unfold field. by rewrite (lookup_weaken _ _ _ _ Hv Hsub). Qed.

Lemma new_record_field t vs r f : new_record t vs r -> f ∈ t_text t -> f ∉ t_derived t -> field r f = field vs f.
Proof.
  intros Hnew Hf Hder. unfold field at 2. destruct (vs !! f) as [v|] eqn:Hv.
  - by rewrite (new_record_given _ _ _ _ _ Hnew Hv).
  - destruct Hnew as (_ & Hblank & _). rewrite Forall_forall in Hblank. by destruct (Hblank f Hf Hv).
Qed.

(** The documented behaviour of a table over REST.  Ids are the ones the API gives
    out (of 18 characters), which are equal when they name the same record. *)
Class TableService `{Env} (client : simple_client) (t : schema) := {
  table_rest :: RestService client table;
  (* The records that validate, by their text fields; the others are refused. *)
  table_valid : list string -> bool;
  (* The records that cannot be deleted. *)
  table_fixed : list string -> bool;
  table_ids s id r : rest_ok s -> rest_state s !! id = Some r -> object_id id = true;
  table_unique s id1 id2 r1 r2 :
    rest_ok s -> rest_state s !! id1 = Some r1 -> rest_state s !! id2 = Some r2 -> same_key t r1 r2 -> id1 = id2;
  (* The records a query is for, in the order of the answer. *)
  table_rows : table -> list string -> list string -> list (string * fields);
  table_rows_spec R fs vs : table_rows R fs vs ≡ₚ matching R fs vs;
  (* What a page token stands for: the columns shown, and the records left. *)
  table_cursor : table -> list string -> string -> option (list (string * fields));
  table_path R cols tok x : table_cursor R cols tok = Some x -> api_path (client := client) tok;
  table_query req s e text q vs :
    rest_ok s -> req_method req = MethodGet -> goes_to client req (query_path client) ("q=" +:+ e) ->
    q ∈ t_queries t -> Forall2 (compared t) q.2 vs ->
    url_QueryUnescape e = Some text -> read_literals None text = Some (template t q, vs) ->
    exists resp s', env_http req s = (inr resp, s') /\ rest_ok s' /\ rest_state s' = rest_state s
      /\ let cols := NewQuery_cols (t_name t) q.1 in
         shows (is_record t cols) (table_cursor (rest_state s) cols) (table_rows (rest_state s) q.2 vs) resp;
  table_next req s tok cols rows :
    rest_ok s -> req_method req = MethodGet -> req_url req = query_url client tok ->
    table_cursor (rest_state s) cols tok = Some rows ->
    exists resp s', env_http req s = (inr resp, s') /\ rest_ok s' /\ rest_state s' = rest_state s
      /\ shows (is_record t cols) (table_cursor (rest_state s) cols) rows resp;
  table_get req s id :
    rest_ok s -> object_id id = true -> req_method req = MethodGet -> goes_to client req (object_path client (t_name t) id) "" ->
    exists resp s', env_http req s = (inr resp, s') /\ rest_ok s' /\ rest_state s' = rest_state s
      /\ match rest_state s !! id with
         | Some r => status_ok (resp_status resp) = true
             /\ exists j obj, resp_json resp = Some j /\ unmarshal_into j (Client_SObject true (t_name t)) = Some obj
                  /\ is_object t id r obj
         | None => declined resp
         end;
  table_create req s vs :
    rest_ok s -> req_method req = MethodPost -> req_body req = JsonBody (texts vs) -> kept t vs ->
    goes_to client req (object_path client (t_name t) "") "" ->
    exists resp s', env_http req s = (inr resp, s') /\ rest_ok s'
      /\ if table_valid (shown t vs) then
           (exists id r, rest_state s !! id = Some r /\ same_key t vs r)
             /\ rest_state s' = rest_state s /\ refuses resp (t_duplicate t)
           \/ (forall id r, rest_state s !! id = Some r -> ~ same_key t vs r)
             /\ exists id r, rest_state s !! id = None /\ new_record t vs r
                  /\ rest_state s' = <[id := r]> (rest_state s) /\ created_answer id resp
         else rest_state s' = rest_state s /\ declined resp;
  (* Updates of other fields than the key. *)
  table_update req s id vs :
    rest_ok s -> object_id id = true -> req_method req = MethodPatch -> req_body req = JsonBody (texts vs) -> kept t vs ->
    Forall (fun f => vs !! f = None) (t_key t) ->
    goes_to client req (object_path client (t_name t) id) "" ->
    exists resp s', env_http req s = (inr resp, s') /\ rest_ok s'
      /\ match rest_state s !! id with
         | Some r =>
             if table_valid (shown t (vs ∪ r)) then
               rest_state s' = <[id := vs ∪ r]> (rest_state s) /\ status_ok (resp_status resp) = true
             else rest_state s' = rest_state s /\ declined resp
         | None => rest_state s' = rest_state s /\ declined resp
         end;
  table_delete req s id :
    rest_ok s -> object_id id = true -> req_method req = MethodDelete -> goes_to client req (object_path client (t_name t) id) "" ->
    exists resp s', env_http req s = (inr resp, s') /\ rest_ok s'
      /\ match rest_state s !! id with
         | Some r =>
             if table_fixed (shown t r) then rest_state s' = rest_state s /\ declined resp
             else rest_state s' = delete id (rest_state s) /\ status_ok (resp_status resp) = true
         | None => rest_state s' = rest_state s /\ declined resp
         end;
}.

(** The names of the schema are plain ones. *)
Record sound_schema (t : schema) : Prop := {
  sound_name : path_safe (t_name t) = true /\ t_name t <> "";
  sound_text : Forall plain_field (t_text t);
  sound_bools : Forall plain_field (t_bools t);
}.

(** The query compares these fields with these values. *)
Definition asks_table (t : schema) (q : SalesforceQuery) (sel fs vs : list string) : Prop :=
  (sel, fs) ∈ t_queries t /\ Forall2 (compared t) fs vs /\
  exists text, (forall n, getQueryString q "" n = Returns text)
    /\ strings_HasPrefix text "/services/data" = false
    /\ read_literals None text = Some (template t (sel, fs), vs).

Lemma equals_length fs vs : length vs = length fs -> query_values (equals fs vs) = vs.
Proof.
  revert vs. induction fs as [|f fs IH]; intros [|v vs] Hlen; simplify_eq/=; [done|].
  change (v :: query_values (equals fs vs) = v :: vs). by rewrite IH.
Qed.

Lemma equals_holes fs vs : length vs = length fs ->
  map (cond_text (fun _ => "?")) (equals fs vs) = map (fun f => f +:+ " = ?") fs.
Proof.
  revert vs. induction fs as [|f fs IH]; intros [|v vs] Hlen; simplify_eq/=; [done|]. f_equal. by apply IH.
Qed.

(** The queries over [WhereEq] ask the table. *)
Lemma WhereEq_asks t sel fs vs :
  (sel, fs) ∈ t_queries t -> Forall2 (compared t) fs vs -> (Z.of_nat (length fs) <= int64_max)%Z ->
  plain (sb_head (NewQuery_cols (t_name t) sel) (t_name t)) = true -> Forall (fun f => plain f = true) fs ->
  asks_table t (q_fold (NewQuery (t_name t) sel) (equals fs vs)) sel fs vs.
Proof.
  intros Hq Hkeeps Hmax Hhead Hfs. assert (length vs = length fs) as Hlen by (symmetry; by eapply Forall2_length).
  assert (plain_query (t_name t) sel (equals fs vs)) as Hplain.
  { split_and!; [done| |by rewrite equals_length, Hlen]. clear -Hfs. revert vs.
    induction Hfs as [|f fs Hf Hfs IH]; intros [|v vs]; constructor; [done|apply IH]. }
  split; [done|]. split; [done|]. eexists. split_and!.
  - intros n. exact (getQueryString_text _ sel (equals fs vs) false n Hplain).
  - apply query_text_no_path.
  - rewrite query_text_read by done. rewrite equals_length by done.
    unfold template, query_text. cbn [fst snd]. by rewrite !equals_holes.
Qed.

Section table.
Context `{TableService} (Hlogged : isLoggedIn client = true) (Hok : url_ok client = true).
Context (Hsound : sound_schema t).

Lemma serves_id (R : table) w id r : serves R w -> R !! id = Some r -> object_id id = true.
Proof. intros [_ [Hs <-]] Hr. by apply (table_ids (w_env w) id r). Qed.

(** ** Queries *)

Lemma is_record_kept cols : keeps_rows (is_record t cols).
Proof.
  intros record kv b (Hid & Hf & Hb). destruct Hsound as [_ Htext Hbools].
  rewrite Forall_forall in Hf, Hb, Htext, Hbools. split; [by rewrite setClient_ID|]. split; rewrite Forall_forall; intros f Hin Hcol.
  - rewrite setClient_field by by apply Htext. by apply Hf.
  - rewrite setClient_interface by by apply Hbools. by apply Hb.
Qed.

Lemma table_continues R cols : continues (client := client) (is_record t cols) R (table_cursor R cols).
Proof.
  intros tok rows Hcursor. split; [by eapply table_path|]. intros auth s Hs <-.
  edestruct (table_next {| req_method := MethodGet; req_url := query_url client tok; req_authorization := auth;
    req_body := NoBody |} s tok cols rows) as (resp & s' & Hr & Hs' & HR & Hshows); [done..|]. by exists resp, s'.
Qed.

Lemma table_answers R text sel fs vs :
  (sel, fs) ∈ t_queries t -> Forall2 (compared t) fs vs -> strings_HasPrefix text "/services/data" = false ->
  read_literals None text = Some (template t (sel, fs), vs) ->
  let cols := NewQuery_cols (t_name t) sel in
  answers_page (is_record t cols) R (table_cursor R cols) (page_request (client := client) text) (table_rows R fs vs).
Proof.
  intros Hq Hlen Hpre Hread cols auth s Hs <-.
  edestruct (table_query {| req_method := MethodGet; req_url := query_url client text;
    req_authorization := auth; req_body := NoBody |} s (url_QueryEscape text) text (sel, fs) vs)
    as (resp & s' & Hr & Hs' & HR & Hshows);
    [done|done|by apply page_request_goes|done|done|apply QueryUnescape_QueryEscape|done|]. by exists resp, s'.
Qed.

(** A query that asks the table lists the records it is for, page by page. *)
Lemma list_table R q n sel fs vs w :
  asks_table t q sel fs vs -> serves R w ->
  exists records w', query_pages (client := client) q n "" w records w' /\ serves R w'
    /\ Forall2 (is_record t (NewQuery_cols (t_name t) sel)) records (table_rows R fs vs).
Proof.
  intros (Hq & Hlen & text & Htext & Hpre & Hread). eapply (list_pages Hlogged Hok); [apply is_record_kept|..].
  - apply table_continues.
  - apply Htext.
  - done.
  - by apply table_answers.
Qed.

(** The first page of it. *)
Lemma query_table R q n sel fs vs :
  asks_table t q sel fs vs ->
  let cols := NewQuery_cols (t_name t) sel in
  triple (serves R) (query q "" n) (fun r w =>
    page_result (is_record t cols) (table_cursor R cols) (table_rows R fs vs) r /\ serves R w).
Proof.
  intros (Hq & Hkeeps & text & Htext & Hpre & Hread).
  eapply (page_serves Hlogged); [apply is_record_kept|apply Htext|by apply query_url_parses|by apply table_answers].
Qed.

(** A lookup finds one of the records, or tells that there is none. *)
Definition found_record_of (R : table) sel fs vs (r : option SObject * option RateLimitDescription * error) : Prop :=
  match r with
  | (Some record, _, None) =>
      exists kv, kv ∈ matching R fs vs /\ is_record t (NewQuery_cols (t_name t) sel) record kv
  | (None, _, Some err) => err = ESentinel ErrObjectNotFound /\ matching R fs vs = []
  | _ => False
  end.

Lemma getSObject_table R q sel fs vs :
  asks_table t q sel fs vs ->
  triple (serves R) (getSObject q) (fun r w => found_record_of R sel fs vs r /\ serves R w).
Proof.
  intros Hasks. unfold getSObject. eapply triple_bind; [by apply query_table|].
  intros r w ((records & next & rl & shown & rest & -> & Hrows & Hrec & Hnext) & Hw).
  destruct Hrec as [|record kv records shown Hkv Hrec]; (eexists _, w; split; [reflexivity|]; split; [|done]).
  - split; [done|]. destruct Hnext as [[_ ->]|(_ & Hshown & _)]; [|done].
    apply Permutation_nil. rewrite <-table_rows_spec. by rewrite Hrows.
  - exists kv. split; [|done]. rewrite <-table_rows_spec, Hrows. by left.
Qed.

(** ** Records *)

Lemma texts_writable vs : map_Forall (fun f _ => plain_field f) vs -> writable (t_name t) (texts vs).
Proof.
  intros Hvs. destruct Hsound as [Hname _ _]. split; [done|..].
  - intros f v (x & <- & Hx)%lookup_fmap_Some. by apply (Hvs f x).
  - apply json_Marshal_ok_strings. intros f v (x & <- & _)%lookup_fmap_Some. eauto.
Qed.

(** What a create does to the table, and answers. *)
Definition creates (R : table) (vs : fields) (err : error) (R' : table) : Prop :=
  if table_valid (t := t) (shown t vs) then
    (exists id r, R !! id = Some r /\ same_key t vs r) /\ R' = R
      /\ (exists e, err = Some e /\ has_code (t_duplicate t) e)
    \/ (forall id r, R !! id = Some r -> ~ same_key t vs r)
      /\ (exists id r, R !! id = None /\ new_record t vs r /\ R' = <[id := r]> R) /\ err = None
  else R' = R /\ plain_failure err.

Lemma CreateObject_table R vs :
  map_Forall (fun f _ => plain_field f) vs -> kept t vs ->
  triple (serves R) (CreateObject (t_name t) (texts vs)) (gives (fun r R' => creates R vs r.2 R')).
Proof.
  intros Hvs Hkept. pose proof Hsound as [[Hname _] _ _].
  eapply triple_post; [|eapply (CreateObject_gives Hok _ _ (texts_writable vs Hvs) R (fun resp R' =>
    if table_valid (t := t) (shown t vs) then
      (exists id r, R !! id = Some r /\ same_key t vs r) /\ R' = R /\ refuses resp (t_duplicate t)
      \/ (forall id r, R !! id = Some r -> ~ same_key t vs r)
        /\ exists id r, R !! id = None /\ new_record t vs r /\ R' = <[id := r]> R /\ created_answer id resp
    else R' = R /\ declined resp))].
  - intros r w (R' & (resp & Hq & Hout) & Hw). exists R'. split; [|done]. unfold creates.
    destruct (table_valid (shown t vs)); [|destruct Hq; split; [done|by eapply declined_outcome]].
    destruct Hq as [(Hin & -> & Href)|(Hno & id & r' & Hid & Hnew & -> & Hcr)]; [left|right].
    + split_and!; [done|done|by eapply outcome_refused].
    + split_and!; [done|by exists id, r'|]. destruct Hcr as (_ & Hst & _). exact (outcome_success _ _ Hout Hst).
  - intros auth s Hs <-. edestruct (table_create (object_request (client := client) MethodPost (t_name t) "" auth (JsonBody (texts vs))) s vs)
      as (resp & s' & Hr & Hs' & Hcase); [done..|by apply object_goes|]. by exists resp, s'.
  - intros resp R' Hq. destruct (table_valid (shown t vs)); [|destruct Hq as (_ & code & Hc & _); right; eauto].
    destruct Hq as [(_ & _ & Href)|(_ & id & r & _ & _ & _ & Hcr)]; [right|left]; eauto.
Qed.

(** What an update does. *)
Definition updated (R : table) (id : string) (vs : fields) (err : error) (R' : table) : Prop :=
  match R !! id with
  | Some r => if table_valid (t := t) (shown t (vs ∪ r)) then R' = <[id := vs ∪ r]> R /\ err = None
              else R' = R /\ plain_failure err
  | None => R' = R /\ plain_failure err
  end.

(** The answer to an update. *)
Definition update_answer (R : table) (id : string) (vs : fields) (resp : http_response) (R' : table) : Prop :=
  match R !! id with
  | Some r => if table_valid (t := t) (shown t (vs ∪ r)) then R' = <[id := vs ∪ r]> R /\ status_ok (resp_status resp) = true
              else R' = R /\ declined resp
  | None => R' = R /\ declined resp
  end.

Lemma update_answers R id vs :
  object_id id = true -> kept t vs -> Forall (fun f => vs !! f = None) (t_key t) ->
  answers (object_request (client := client) MethodPatch (t_name t) id "" (JsonBody (texts vs))) R (update_answer R id vs).
Proof.
  intros Hid Hkept Hkey auth s Hs <-. pose proof Hsound as [[Hname _] _ _]. destruct (object_id_safe id Hid).
  edestruct (table_update (object_request (client := client) MethodPatch (t_name t) id auth (JsonBody (texts vs))) s id vs)
    as (resp & s' & Hr & Hs' & Hcase); [done..|by apply object_goes|]. by exists resp, s'.
Qed.

Lemma update_settled R id vs : settled (update_answer R id vs).
Proof.
  intros resp R' Hq. unfold update_answer in Hq.
  repeat case_match; destruct Hq as [_ Hq]; try (by left); right; destruct Hq as (code & ? & _); by exists code.
Qed.

Lemma update_outcome R id vs resp R' err : update_answer R id vs resp R' -> outcome_of resp err -> updated R id vs err R'.
Proof.
  unfold update_answer, updated. intros Hq Hout. repeat case_match; destruct Hq as [-> Hq];
    (split; [done|]); try (by eapply declined_outcome). exact (outcome_success _ _ Hout Hq).
Qed.

Lemma UpdateObject_table R id vs :
  map_Forall (fun f _ => plain_field f) vs -> kept t vs -> Forall (fun f => vs !! f = None) (t_key t) -> object_id id = true ->
  triple (serves R) (UpdateObject (t_name t) id (texts vs)) (gives (fun r R' => updated R id vs r.2 R')).
Proof.
  intros Hvs Hkept Hkey Hid. destruct (object_id_safe id Hid).
  eapply triple_post; [|eapply (UpdateObject_gives Hok _ _ (texts_writable vs Hvs) id R (update_answer R id vs));
    [done..|by apply update_answers|apply update_settled]].
  intros r w (R' & (resp & Hq & Hout) & Hw). exists R'. split; [by eapply update_outcome|done].
Qed.

Lemma DeleteObject_table R id :
  object_id id = true ->
  triple (serves R) (DeleteObject (t_name t) id) (gives (fun r R' =>
    match R !! id with
    | Some fs => if table_fixed (t := t) (shown t fs) then R' = R /\ plain_failure r.2 else R' = delete id R /\ r.2 = None
    | None => R' = R /\ plain_failure r.2
    end)).
Proof.
  intros Hid. destruct (object_id_safe id Hid). pose proof Hsound as [[Hname Hne] _ _].
  eapply triple_post; [|eapply (DeleteObject_gives Hok (t_name t) id R (fun resp R' =>
    match R !! id with
    | Some fs => if table_fixed (t := t) (shown t fs) then R' = R /\ declined resp
                 else R' = delete id R /\ status_ok (resp_status resp) = true
    | None => R' = R /\ declined resp
    end)); [done..| |]].
  - intros r w (R' & (resp & Hq & Hout) & Hw). exists R'. split; [|done].
    repeat case_match; destruct Hq as [-> Hq]; (split; [done|]); try (by eapply declined_outcome).
    exact (outcome_success _ _ Hout Hq).
  - intros auth s Hs <-. edestruct (table_delete (object_request (client := client) MethodDelete (t_name t) id auth NoBody) s id)
      as (resp & s' & Hr & Hs' & Hcase); [done..|by apply object_goes|]. by exists resp, s'.
  - intros resp R' Hq. repeat case_match; destruct Hq as [_ Hq]; try (by left); right; destruct Hq as (code & ? & _); by exists code.
Qed.
End table.
