(* ===== verification/Records.v ===== *)
(** * A concrete environment: an org that keeps one table of records

    The environment the theorems about [TableService] are instantiated at.  It
    answers the REST requests of a table out of a map of records: queries by the
    fields they compare, reads, creates, updates and deletes of a record; records
    that do not validate are refused, and a new record also gets the fields the
    org derives.  What is not about the table is answered as told.  It keeps the
    promises of [TableService]. *)
From S2P Require Export Table Org.

Record record_org := { ro_table : table; ro_next : nat }.

(** ** The answers *)

Definition field_json (t : schema) (r : fields) (f : string) : json :=
  if bool_decide (f ∈ t_bools t) then JBool (checked r f) else JStr (field r f).

Definition fields_json (t : schema) (r : fields) (fs : list string) : list (string * json) :=
  (fun f => (f, field_json t r f)) <$> fs.

(** The fields that are read. *)
Definition t_fields (t : schema) : list string := t_text t ++ t_bools t.

(** A record in a page, and as an object. *)
Definition shown_json (t : schema) (cols : list string) (kv : string * fields) : json :=
  JObj (("Id", JStr kv.1) :: fields_json t kv.2 (filter (.∈ cols) (t_fields t))).

Definition attributes_json (t : schema) (id : string) : json :=
  JObj [("type", JStr (t_name t)); ("url", JStr ("/services/data/v54.0/sobjects/" +:+ t_name t +:+ "/" +:+ id))].

Definition object_json (t : schema) (id : string) (r : fields) : json :=
  JObj (("attributes", attributes_json t id) :: ("Id", JStr id) :: fields_json t r (t_fields t)).

Definition not_found : http_response :=
  json_response 404 "404 Not Found" (error_json "Provided external ID field does not exist or is not accessible" "NOT_FOUND").
Definition invalid : http_response :=
  json_response 400 "400 Bad Request" (error_json "bad value for restricted picklist field" "INVALID_OR_NULL_FOR_RESTRICTED_PICKLIST").
Definition duplicate_found (code : string) : http_response :=
  json_response 400 "400 Bad Request" (error_json "duplicate value found" code).
Definition no_access : http_response :=
  json_response 400 "400 Bad Request" (error_json "insufficient access rights" "INSUFFICIENT_ACCESS_OR_READONLY").
Definition no_content : http_response := json_response 204 "204 No Content" JNull.

Section org.
Context (t : schema) (valid fixed : list string -> bool) (derived : fields).
Context (others : http_request -> URL -> go_error + http_response).

Definition table_path : string := "/services/data/v54.0/sobjects/" +:+ t_name t +:+ "/".

(** The id of the path of a record. *)
Definition path_id (u : URL) : option string :=
  if strings_HasPrefix (url_Path u) table_path then Some (strings_TrimPrefix (url_Path u) table_path) else None.

Definition records_query (req : http_request) (u : URL) (R : table) : go_error + http_response :=
  match url_QueryUnescape (strings_TrimPrefix (url_RawQuery u) "q=") ≫= read_literals None with
  | Some (text, vs) =>
      match find (fun q => String.eqb (template t q) text) (t_queries t) with
      | Some q => inr (json_response 200 "200 OK" (page_json
          (map (shown_json t (NewQuery_cols (t_name t) q.1)) (matching R q.2 vs)) true ""))
      | None => others req u
      end
  | None => inl (EMsg "malformed query")
  end.

Definition records_get (req : http_request) (u : URL) (R : table) : go_error + http_response :=
  match path_id u with
  | Some id => inr match R !! id with
                   | Some r => json_response 200 "200 OK" (object_json t id r)
                   | None => not_found
                   end
  | None => records_query req u R
  end.

(** The texts of a body. *)
Definition body_texts (body : request_body) : fields :=
  match body with JsonBody m => omap value_string m | _ => ∅ end.

Definition records_create (vs : fields) (o : record_org) : http_response * record_org :=
  if negb (valid (shown t vs)) then (invalid, o)
  else if bool_decide (map_Forall (fun _ r => ~ same_key t vs r) (ro_table o)) then
    let id := record_id (ro_next o) in
    (json_response 201 "201 Created" (created_json id),
     {| ro_table := <[id := vs ∪ derived]> (ro_table o); ro_next := S (ro_next o) |})
  else (duplicate_found (t_duplicate t), o).

Definition with_table (o : record_org) (R : table) : record_org := {| ro_table := R; ro_next := ro_next o |}.

Definition records_update (id : string) (vs : fields) (o : record_org) : http_response * record_org :=
  match ro_table o !! id with
  | Some r => if valid (shown t (vs ∪ r)) then (no_content, with_table o (<[id := vs ∪ r]> (ro_table o))) else (invalid, o)
  | None => (not_found, o)
  end.

Definition records_delete (id : string) (o : record_org) : http_response * record_org :=
  match ro_table o !! id with
  | Some r => if fixed (shown t r) then (no_access, o) else (no_content, with_table o (delete id (ro_table o)))
  | None => (not_found, o)
  end.

Definition answered {O} (r : http_response * O) : (go_error + http_response) * O := (inr r.1, r.2).

Definition records_http (req : http_request) (o : record_org) : (go_error + http_response) * record_org :=
  match url_Parse (req_url req) with
  | None => (inl (EMsg "no such host"), o)
  | Some u =>
      match req_method req, path_id u with
      | MethodGet, _ => (records_get req u (ro_table o), o)
      | MethodPost, Some "" => answered (records_create (body_texts (req_body req)) o)
      | MethodPatch, Some id => answered (records_update id (body_texts (req_body req)) o)
      | MethodDelete, Some id => answered (records_delete id o)
      | _, _ => (others req u, o)
      end
  end.

Definition records_env : Env := {|
  env_state := record_org;
  env_http := records_http;
  env_token o := (inr {| AccessToken := "token"; token_instance_url := None |}, o);
  env_new_http o := (None, o);
  env_cache_get _ _ := inr None;
  env_cache_set _ _ o := o;
  env_cache_clear o := (None, o);
  env_wait o := (true, o);
  env_jwt_assertion _ o := (inr "signed", o);
  env_token_exchange _ o := (inr {| AccessToken := "token"; token_instance_url := None |}, o);
  mail_ParseAddress _ := true;
  env_zoneinfo _ := true;
|}.

(** Ids are well formed, fresh ones are not there, and no key is there twice. *)
Definition records_ok (o : record_org) : Prop :=
  map_Forall (fun id _ => object_id id = true /\ forall n, ro_next o <= n -> id <> record_id n) (ro_table o)
  /\ (forall id1 id2 r1 r2, ro_table o !! id1 = Some r1 -> ro_table o !! id2 = Some r2 -> same_key t r1 r2 -> id1 = id2).
End org.

(** An org that keeps nothing else. *)
Definition nothing_else (_ : http_request) (_ : URL) : go_error + http_response := inl (EMsg "unknown resource").

(** Nor refuses a delete. *)
Definition never_fixed (_ : list string) : bool := false.

Section service.
Context (t : schema) (valid fixed : list string -> bool) (derived : fields).
Context (others : http_request -> URL -> go_error + http_response).
Context (Hfilled : Forall (fun f => field derived f <> "") (t_derived t)).
Context (Hderived : map_Forall (fun f _ => f ∈ t_derived t /\ f ∉ t_key t) derived).
Context (Hsound : sound_schema t) (Hfields : NoDup (t_fields t)) (Hqueries : NoDup (template t <$> t_queries t)).

(** ** The answers decode *)

Lemma unmarshal_fields l obj :
  unmarshal_into (JObj l) obj = Some (set_all (prod_map id of_json <$> l) obj).
Proof.
  unfold unmarshal_into, set_all. f_equal. revert obj. induction l as [|[k v] l IH]; intros obj; [done|]. apply IH.
Qed.

(** The value of a field. *)
Definition field_value (r : fields) (f : string) : value := of_json (field_json t r f).

Lemma fields_values r fs : (prod_map id of_json <$> fields_json t r fs) = (fun f => (f, field_value r f)) <$> fs.
Proof. unfold fields_json. rewrite <-list_fmap_compose. done. Qed.

Lemma set_fields_lookup r fs obj f :
  NoDup fs ->
  set_all ((fun f => (f, field_value r f)) <$> fs) obj !! f
  = if bool_decide (f ∈ fs) then Some (field_value r f) else obj !! f.
Proof.
  intros Hnd. assert (NoDup ((fun f => (f, field_value r f)) <$> fs).*1) as Hnd'
    by (by rewrite <-list_fmap_compose, list_fmap_id).
  rewrite set_all_union by done. case_bool_decide as Hf.
  - apply lookup_union_Some_l. apply elem_of_list_to_map_1; [done|]. by apply list_elem_of_fmap_2 with (f := fun f => (f, field_value r f)).
  - apply lookup_union_r. apply not_elem_of_list_to_map_1. by rewrite <-list_fmap_compose, list_fmap_id.
Qed.

Lemma field_plain f : f ∈ t_fields t -> plain_field f.
Proof.
  intros Hf. destruct Hsound as [_ Htext Hbools]. rewrite Forall_forall in Htext, Hbools.
  apply elem_of_app in Hf as [?|?]; eauto.
Qed.

Lemma text_value r f : f ∈ t_text t -> field_value r f = VString (field r f).
Proof.
  intros Hf. unfold field_value, field_json. rewrite bool_decide_eq_false_2; [done|]. intros Hb.
  apply NoDup_app in Hfields as (_ & Hdis & _). exact (Hdis f Hf Hb).
Qed.

Lemma bool_value r f : f ∈ t_bools t -> field_value r f = VBool (checked r f).
Proof. intros Hf. unfold field_value, field_json. by rewrite bool_decide_eq_true_2. Qed.

(** A record of a page. *)
Definition shown_object (cols : list string) (kv : string * fields) : SObject :=
  set_all ((fun f => (f, field_value kv.2 f)) <$> filter (.∈ cols) (t_fields t)) (<["Id" := VString kv.1]> ∅).

Lemma shown_decodes cols kv : decode_sobject (shown_json t cols kv) = Some (Some (shown_object cols kv)).
Proof.
  unfold decode_sobject, shown_json. rewrite unmarshal_fields. cbn [fmap option_fmap option_map list_fmap].
  by rewrite fields_values.
Qed.

Lemma shown_interface cols kv f :
  f ∈ t_fields t -> f ∈ cols -> InterfaceField (shown_object cols kv) f = field_value kv.2 f.
Proof.
  intros Hf Hcol. unfold InterfaceField, shown_object. rewrite set_fields_lookup by by apply NoDup_filter.
  by rewrite bool_decide_eq_true_2 by by apply list_elem_of_filter.
Qed.

Lemma shown_record cols kv : is_record t cols (shown_object cols kv) kv.
Proof.
  split; [|split; rewrite Forall_forall; intros f Hf Hcol].
  - unfold SObject_ID, StringField, InterfaceField, shown_object. rewrite set_fields_lookup by by apply NoDup_filter.
    rewrite bool_decide_eq_false_2; [by rewrite lookup_insert_eq|].
    intros [_ Hin]%list_elem_of_filter. apply field_plain in Hin. apply Hin. right. right. left.
  - unfold StringField. rewrite shown_interface by (done || by apply elem_of_app; left). by rewrite text_value.
  - rewrite shown_interface by (done || by apply elem_of_app; right). by rewrite bool_value.
Qed.

Lemma shown_page cols rows :
  shows (is_record t cols) (fun _ => None) rows
    (json_response 200 "200 OK" (page_json (map (shown_json t cols) rows) true "")).
Proof.
  eapply (shows_all _ _ _ _ {| qr_Done := true; qr_NextRecordsURL := "";
      qr_Records := map Some (map (shown_object cols) rows) |} (map (shown_object cols) rows)).
  - split; [done|]. split; [|done]. cbn [mbind option_bind resp_json json_response]. apply page_json_result.
    induction rows as [|kv rows IH]; [done|]. cbn [map mapM]. by rewrite shown_decodes, IH.
  - done.
  - apply Forall2_fmap_l, Forall_Forall2_diag, Forall_true. apply shown_record.
Qed.

Lemma object_decodes id r :
  exists obj, unmarshal_into (object_json t id r) (Client_SObject true (t_name t)) = Some obj /\ is_object t id r obj.
Proof.
  unfold object_json. rewrite unmarshal_fields. eexists. split; [reflexivity|]. cbn [fmap list_fmap]. rewrite fields_values.
  set (obj := <["Id" := VString id]> (<["attributes" := of_json (attributes_json t id)]> (Client_SObject true (t_name t)))).
  assert (forall key, key ∉ t_fields t -> set_all ((fun f => (f, field_value r f)) <$> t_fields t) obj !! key = obj !! key) as Hother.
  { intros key Hkey. rewrite set_fields_lookup by done. by rewrite bool_decide_eq_false_2. }
  assert (forall key, key ∈ [sobjectClientKey; sobjectAttributesKey; sobjectIDKey; sobjectExternalIDFieldNameKey] -> key ∉ t_fields t) as Hnot.
  { intros key Hkey Hin%field_plain. apply Hin, elem_of_app. left. rewrite !elem_of_cons in *. tauto. }
  change (is_object t id r (set_all ((fun f => (f, field_value r f)) <$> t_fields t) obj)).
  unfold is_object, SObject_Type, AttributesField, SObject_client, SObject_ID, ExternalIDFieldName, StringField, InterfaceField.
  split_and!.
  - rewrite Hother by (apply Hnot; set_solver). subst obj. rewrite lookup_insert_ne, lookup_insert_eq by done. reflexivity.
  - rewrite Hother by (apply Hnot; set_solver). subst obj. by rewrite !lookup_insert_ne, Client_SObject_lookup by done.
  - rewrite Hother by (apply Hnot; set_solver). subst obj. by rewrite lookup_insert_eq.
  - rewrite Hother by (apply Hnot; set_solver). subst obj. by rewrite !lookup_insert_ne, Client_SObject_lookup by done.
  - rewrite Forall_forall. intros f Hf. rewrite set_fields_lookup by done.
    rewrite bool_decide_eq_true_2 by by apply elem_of_app; left. cbn [default option_map]. by rewrite text_value.
Qed.

(** ** It keeps the promises *)

Lemma find_template q : q ∈ t_queries t -> find (fun q' => String.eqb (template t q') (template t q)) (t_queries t) = Some q.
Proof.
  clear Hsound Hfields. induction (t_queries t) as [|q' qs IH]; [by intros ?%elem_of_nil|].
  apply NoDup_cons in Hqueries as [Hnot Hnd]. intros [->|Hin]%elem_of_cons; cbn [find]; [by rewrite String.eqb_refl|].
  destruct (String.eqb_spec (template t q') (template t q)) as [Heq|_]; [|by apply IH].
  exfalso. apply Hnot. rewrite Heq. by apply list_elem_of_fmap_2.
Qed.

Lemma body_texts_of vs : body_texts (JsonBody (texts vs)) = vs.
Proof. cbn [body_texts]. apply map_eq. intros f. rewrite lookup_omap, lookup_fmap. by destruct (vs !! f). Qed.

Lemma path_id_of u id : url_Path u = table_path t +:+ id -> path_id t u = Some id.
Proof. intros Hp. unfold path_id. by rewrite Hp, HasPrefix_app, TrimPrefix_app. Qed.

Lemma goes_to_record req id :
  goes_to sf_client req (object_path sf_client (t_name t) id) "" ->
  exists u, url_Parse (req_url req) = Some u /\ path_id t u = Some id.
Proof.
  intros (u & Hu & _ & Hpath & _). exists u. split; [done|]. apply path_id_of. rewrite Hpath.
  unfold table_path, object_path. by rewrite !str_app_assoc.
Qed.

Lemma goes_to_query req e :
  goes_to sf_client req (query_path sf_client) ("q=" +:+ e) ->
  exists u, url_Parse (req_url req) = Some u /\ path_id t u = None /\ url_RawQuery u = "q=" +:+ e.
Proof.
  intros (u & Hu & _ & Hpath & Hq). exists u. split_and!; [done| |done]. unfold path_id. by rewrite Hpath.
Qed.

(** A refusal of these is no duplicate. *)
Lemma declined_not_found : declined not_found.
Proof. exists "NOT_FOUND". split; [|done]. split; [done|]. by eexists _, _. Qed.
Lemma declined_invalid : declined invalid.
Proof. eexists. split; [split; [done|]; by eexists _, _|done]. Qed.

Lemma declined_no_access : declined no_access.
Proof. eexists. split; [split; [done|]; by eexists _, _|done]. Qed.

(** What it answers can be read, if what the others answer can. *)
Definition others_read : Prop := forall req u resp, others req u = inr resp -> resp_read_error resp = None.

Lemma records_http_read (Hothers : others_read) req o resp o' :
  records_http t valid fixed derived others req o = (inr resp, o') -> resp_read_error resp = None.
Proof.
  unfold records_http, records_get, records_query, answered, records_create, records_update, records_delete. intros Hrun.
  repeat case_match; simplify_eq; try done; by eapply Hothers.
Qed.

Lemma records_fresh o : records_ok t o -> ro_table o !! record_id (ro_next o) = None.
Proof. intros [Hids _]. apply eq_None_not_Some. intros [r Hr]. destruct (Hids _ _ Hr) as [_ Hn]. by apply (Hn (ro_next o)). Qed.

Lemma record_id_object n : object_id (record_id n) = true.
Proof. induction n as [|n IH]; [done|]. cbn [record_id]. unfold object_id in *. by destruct (record_id n). Qed.

(** What the org derives is no key. *)
Lemma derived_key vs r : same_key t (vs ∪ derived) r <-> same_key t vs r.
Proof.
  unfold same_key. rewrite !Forall_forall. apply forall_proper. intros f. apply forall_proper. intros Hf.
  assert (field (vs ∪ derived) f = field vs f) as ->; [|done]. unfold field. rewrite lookup_union.
  destruct (derived !! f) eqn:Hd; [|by destruct (vs !! f)]. by destruct (Hderived _ _ Hd).
Qed.

Lemma same_key_sym r1 r2 : same_key t r1 r2 -> same_key t r2 r1.
Proof. unfold same_key. rewrite !Forall_forall. intros Hs f Hf. by rewrite Hs. Qed.

Lemma derived_new vs : new_record t vs (vs ∪ derived).
Proof.
  assert (forall f, vs !! f = None -> field (vs ∪ derived) f = field derived f) as Hother.
  { intros f Hf. unfold field. rewrite lookup_union, Hf. by destruct (derived !! f). }
  rewrite Forall_forall in Hfilled. split; [apply map_union_subseteq_l|].
  split; rewrite Forall_forall; intros f Hin Hf; rewrite Hother by done; [|by apply Hfilled].
  unfold field. destruct (derived !! f) eqn:Hd; [left; by destruct (Hderived _ _ Hd)|by right].
Qed.

Lemma records_ok_insert o vs :
  records_ok t o -> map_Forall (fun _ r => ~ same_key t vs r) (ro_table o) ->
  records_ok t {| ro_table := <[record_id (ro_next o) := vs ∪ derived]> (ro_table o); ro_next := S (ro_next o) |}.
Proof.
  intros [Hids Hkeys] Hnew. split; cbn [ro_table ro_next].
  - apply map_Forall_insert_2.
    + split; [apply record_id_object|]. intros n Hn Heq%record_id_inj. lia.
    + intros id r Hr. destruct (Hids _ _ Hr) as [Hid Hn]. split; [done|]. intros n Hle. apply Hn. lia.
  - intros id1 id2 r1 r2 [[<- <-]|[_ H1]]%lookup_insert_Some [[<- <-]|[_ H2]]%lookup_insert_Some Hsame; [done| | |eauto].
    + destruct (Hnew _ _ H2). by apply derived_key.
    + destruct (Hnew _ _ H1). by apply derived_key, same_key_sym.
Qed.

Lemma records_ok_update o id r r' :
  records_ok t o -> ro_table o !! id = Some r -> same_key t r' r -> records_ok t (with_table o (<[id := r']> (ro_table o))).
Proof.
  intros [Hids Hkeys] Hr Hsame. split; cbn [ro_table ro_next with_table].
  - apply map_Forall_insert_2; [exact (Hids _ _ Hr)|done].
  - assert (forall r2, same_key t r' r2 -> same_key t r r2) as Hl
      by (unfold same_key in *; intros r2; rewrite !Forall_forall in *; intros Hf f Hin; by rewrite <-Hsame, Hf).
    assert (forall r2, same_key t r2 r' -> same_key t r2 r) as Hr'
      by (unfold same_key in *; intros r2; rewrite !Forall_forall in *; intros Hf f Hin; by rewrite <-Hsame, Hf).
    intros id1 id2 r1 r2 [[<- <-]|[_ H1]]%lookup_insert_Some [[<- <-]|[_ H2]]%lookup_insert_Some Hs; [done|eauto..].
Qed.

Lemma records_ok_delete o id : records_ok t o -> records_ok t (with_table o (delete id (ro_table o))).
Proof.
  intros [Hids Hkeys]. split; cbn [ro_table ro_next with_table]; [by apply map_Forall_delete|].
  intros id1 id2 r1 r2 [_ H1]%lookup_delete_Some [_ H2]%lookup_delete_Some. eauto.
Qed.

Lemma untouched_key vs r : Forall (fun f => vs !! f = None) (t_key t) -> same_key t (vs ∪ r) r.
Proof.
  unfold same_key. intros Hkey. eapply Forall_impl; [exact Hkey|]. intros f Hf. unfold field. by rewrite lookup_union_r.
Qed.

Context (Hothers : others_read).

#[refine] Definition records_rest : @RestService (records_env t valid fixed derived others) sf_client table := {|
  rest_ok := records_ok t : @env_state (records_env t valid fixed derived others) -> Prop;
  rest_state := ro_table;
|}.
Proof. all: try done. intros req s resp s' _. by apply records_http_read. Defined.

#[refine] Definition records_service : @TableService (records_env t valid fixed derived others) sf_client t := {|
  table_rest := records_rest;
  table_valid := valid;
  table_fixed := fixed;
  table_rows := matching;
  table_cursor _ _ _ := None;
|}.
Proof.
  - intros s id r [Hids _] Hr. by apply (Hids _ _ Hr).
  - intros s id1 id2 r1 r2 [_ Hkeys]. apply Hkeys.
  - done.
  - done.
  - intros req s e text q vs Hs Hm Hgo Hq Hlen He Ht. destruct (goes_to_query req e Hgo) as (u & Hu & Hid & Hraw).
    eexists _, s. split; [|split; [done|split; [done|apply shown_page]]]. cbn [env_http records_env].
    unfold records_http, records_get, records_query. rewrite Hu, Hm, Hid, Hraw, TrimPrefix_app, He.
    cbn [mbind option_bind]. by rewrite Ht, find_template.
  - done.
  - intros req s id Hs Hid Hm Hgo. destruct (goes_to_record req id Hgo) as (u & Hu & Hp). eexists _, s. split_and!.
    + cbn [env_http records_env]. unfold records_http, records_get. by rewrite Hu, Hm, Hp.
    + done.
    + done.
    + cbn [rest_state records_rest]. destruct (ro_table s !! id) as [r|]; [|apply declined_not_found]. split; [done|].
      destruct (object_decodes id r) as (obj & Hobj). by eexists _, obj.
  - intros req s vs Hs Hm Hb _ Hgo. destruct (goes_to_record req "" Hgo) as (u & Hu & Hp).
    assert (records_http t valid fixed derived others req s = answered (records_create t valid derived vs s)) as Hrun
      by (unfold records_http; by rewrite Hu, Hm, Hp, Hb, body_texts_of).
    unfold records_create in Hrun. cbn [rest_state records_rest]. destruct (valid (shown t vs)); cbn [negb] in Hrun.
    + case_bool_decide as Hnew; eexists _, _; (split; [exact Hrun|]).
      * split; [by apply records_ok_insert|]. right. split; [by intros id r Hr; apply (Hnew id r)|].
        exists (record_id (ro_next s)), (vs ∪ derived).
        split; [by apply records_fresh|]. split; [apply derived_new|]. split; [done|split_and!; [apply record_id_ok|done..]].
      * split; [done|]. left. split_and!; [|done|split; [done|by eexists _, _]].
        apply map_not_Forall in Hnew as (id & r & Hr & Hsame); [|apply _]. exists id, r. split; [done|].
        by apply dec_stable.
    + eexists _, s. split; [exact Hrun|]. split; [done|]. split; [done|apply declined_invalid].
  - intros req s id vs Hs Hid Hm Hb _ Hkey Hgo. destruct (goes_to_record req id Hgo) as (u & Hu & Hp).
    assert (records_http t valid fixed derived others req s = answered (records_update t valid id vs s)) as Hrun
      by (unfold records_http; by rewrite Hu, Hm, Hp, Hb, body_texts_of).
    unfold records_update in Hrun. cbn [rest_state records_rest]. destruct (ro_table s !! id) as [r|] eqn:Hr.
    + destruct (valid (shown t (vs ∪ r))); eexists _, _; (split; [exact Hrun|]).
      * split; [|done]. eapply records_ok_update; [done..|by apply untouched_key].
      * split; [done|]. split; [done|apply declined_invalid].
    + eexists _, s. split; [exact Hrun|]. split; [done|]. split; [done|apply declined_not_found].
  - intros req s id Hs Hid Hm Hgo. destruct (goes_to_record req id Hgo) as (u & Hu & Hp).
    assert (records_http t valid fixed derived others req s = answered (records_delete t fixed id s)) as Hrun
      by (unfold records_http; by rewrite Hu, Hm, Hp).
    unfold records_delete in Hrun. cbn [rest_state records_rest]. destruct (ro_table s !! id) as [r|] eqn:Hr.
    + destruct (fixed (shown t r)); eexists _, _; (split; [exact Hrun|]).
      * split; [done|]. split; [done|apply declined_no_access].
      * split; [by apply records_ok_delete|done].
    + eexists _, s. split; [exact Hrun|]. split; [done|]. split; [done|apply declined_not_found].
Defined.
End service.
