(* ===== verification/Associations.v ===== *)
(** * Territories as a map from members to roles

    Membership of a territory and the role in it live on one association record.
    The abstract state is a map: from the pairs of a territory and a user to the
    user's role there, blank for none.  Granting and revoking the membership or a
    role refine operations of the map, whatever the table holds before; so do
    histories of them, and the sync reports the grants that the map stands
    for. *)
From S2P Require Export Records Memberships.

(** Two ids and a value of a picklist. *)
Definition association_schema : schema :=
  {| t_name := TableNameUserTerritory2Assoc;
     t_text := ["UserId"; "Territory2Id"; "RoleInTerritory2"];
     t_bools := []; t_derived := []; t_keeps _ _ := true; t_ids := ["UserId"; "Territory2Id"];
     t_key := ["UserId"; "Territory2Id"]; t_duplicate := "DUPLICATE_VALUE";
     t_queries := [([], ["Territory2Id"; "UserId"]); ([], ["Territory2Id"])] |}.

Lemma association_sound : sound_schema association_schema.
Proof. split; [done|..]; apply (bool_decide_unpack _); by vm_compute. Qed.

(** ** The abstract state *)

(** From territory and user to role. *)
Abbreviation roles := (gmap (string * string) string).

Definition place (r : fields) : string * string := (field r "Territory2Id", field r "UserId").
Definition role_in (r : fields) : string := field r "RoleInTerritory2".

(** The table is this map. *)
Definition represents (R : table) (A : roles) : Prop :=
  forall p role, A !! p = Some role <-> exists id r, R !! id = Some r /\ place r = p /\ role_in r = role.

(** A permission of a territory: membership, or a role. *)
Definition permission_role (permission : string) : option string :=
  if String.eqb permission territoryMemberPermission then None
  else Some (strings_TrimPrefix permission territoryRolePermissionPrefix).

(** Whether a record of the user, the territory and the role validates. *)
Abbreviation accepts valid p role := (valid [p.2; p.1; role]).

(** Whether it cannot be taken out. *)
Abbreviation locked fixed p role := (fixed [p.2; p.1; role]).

(** The operations.  A grant adds the member, with the role if it is for one, or
    sets the role; a revoke takes the member out, or the role if it is the one. *)
Definition granted_role (permission : string) (A : roles) (p : string * string) : option string :=
  match A !! p, permission_role permission with
  | None, None => Some ""
  | None, Some role => Some role
  | Some _, None => None
  | Some current, Some role => if String.eqb current role then None else Some role
  end.

Definition grant_permission (valid : list string -> bool) (permission : string) (p : string * string) (A : roles) : roles :=
  match granted_role permission A p with
  | Some role => if accepts valid p role then <[p := role]> A else A
  | None => A
  end.

(** The role is there to be revoked. *)
Definition has_role (A : roles) (p : string * string) (role : string) : bool :=
  negb (String.eqb role "") && bool_decide (A !! p = Some role).

Definition revoke_permission (valid fixed : list string -> bool) (permission : string) (p : string * string) (A : roles) :
    roles :=
  match permission_role permission with
  | None => match A !! p with
            | Some role => if locked fixed p role then A else delete p A
            | None => A
            end
  | Some role => if has_role A p role && accepts valid p "" then <[p := ""]> A else A
  end.

(** What the calls answer. *)
Definition grant_reply (valid : list string -> bool) (permission : string) (resource : Resource) (principal : ResourceId)
    (A : roles) (r : list Grant * annotations * error) : Prop :=
  let p := pair_of resource principal in
  match granted_role permission A p with
  | Some role =>
      if accepts valid p role then
        granted (match A !! p, permission_role permission with
                 | None, Some role => [NewGrant resource territoryMemberPermission principal;
                                       NewGrant resource (role_slug role) principal]
                 | Some _, Some role => [NewGrant resource (role_slug role) principal]
                 | _, None => [NewGrant resource territoryMemberPermission principal]
                 end) r
      else r.1.1 = [] /\ plain_failure r.2
  | None => already_granted r
  end.

Definition revoke_reply (valid fixed : list string -> bool) (permission : string) (p : string * string) (A : roles)
    (r : reply) : Prop :=
  match permission_role permission with
  | None => match A !! p with
            | Some role => if locked fixed p role then plain_failure r.2 else done_now r
            | None => r = ([AGrantAlreadyRevoked], None)
            end
  | Some role =>
      if has_role A p role then if accepts valid p "" then done_now r else plain_failure r.2
      else r = ([AGrantAlreadyRevoked], None)
  end.

(** The well formed grants and revokes of a territory's permissions. *)
Definition territory_operation (o : operation) : Prop :=
  match o with
  | TerritoryGrant principal ent =>
      is_user principal = true /\ (exists resource, ent_Resource ent = Some resource /\ id_pair (pair_of resource principal))
      /\ exists permission, parseTerritoryEntitlementID (ent_Id ent) = inr permission
  | TerritoryRevoke g =>
      (exists resource, ent_Resource (grant_Entitlement g) = Some resource /\ id_pair (pair_of resource (grant_Principal g)))
      /\ exists permission, parseTerritoryEntitlementID (ent_Id (grant_Entitlement g)) = inr permission
  | _ => False
  end.

(** What they do to the map. *)
Definition apply_permission (valid fixed : list string -> bool) (A : roles) (o : operation) : roles :=
  match o with
  | TerritoryGrant principal ent =>
      match ent_Resource ent, parseTerritoryEntitlementID (ent_Id ent) with
      | Some resource, inr permission => grant_permission valid permission (pair_of resource principal) A
      | _, _ => A
      end
  | TerritoryRevoke g =>
      match ent_Resource (grant_Entitlement g), parseTerritoryEntitlementID (ent_Id (grant_Entitlement g)) with
      | Some resource, inr permission => revoke_permission valid fixed permission (pair_of resource (grant_Principal g)) A
      | _, _ => A
      end
  | _ => A
  end.

(** The grants that a member and its role stand for. *)
Definition member_grants (resource : Resource) (m : string * string) : list Grant :=
  NewGrant resource territoryMemberPermission (user_principal m.1) ::
  (if String.eqb m.2 "" then [] else [NewGrant resource (role_slug m.2) (user_principal m.1)]).

(** ** The table and the map *)

Lemma bool_decide_Some (x y : string) : bool_decide (Some x = Some y) = String.eqb x y.
Proof. destruct (String.eqb_spec x y) as [->|Hne]; [by rewrite bool_decide_eq_true_2|]. apply bool_decide_eq_false_2. congruence. Qed.

Lemma place_columns id r : matches ["Territory2Id"; "UserId"] [(place r).1; (place r).2] (id, r).
Proof. by repeat constructor. Qed.

Lemma matching_place R t u kv :
  kv ∈ matching R ["Territory2Id"; "UserId"] [t; u] <-> R !! kv.1 = Some kv.2 /\ place kv.2 = (t, u).
Proof.
  unfold matching. rewrite list_elem_of_filter. destruct kv as [id r]. rewrite elem_of_map_to_list. split.
  - intros [Hm HR]. split; [done|]. inversion Hm as [|???? Ht Hm']; subst. inversion Hm' as [|???? Hu _]; subst. done.
  - intros [HR Hp]. split; [|done]. cbn in Hp. injection Hp as <- <-. apply place_columns.
Qed.

Lemma same_place r1 r2 : same_key association_schema r1 r2 <-> place r1 = place r2.
Proof.
  unfold same_key, place. cbn [t_key association_schema]. rewrite !Forall_cons, Forall_nil. split.
  - by intros (-> & -> & _).
  - by intros [= -> ->].
Qed.

(** No two records for a pair. *)
Definition places_once (R : table) : Prop :=
  forall id1 id2 r1 r2, R !! id1 = Some r1 -> R !! id2 = Some r2 -> place r1 = place r2 -> id1 = id2.

Lemma represents_exists R : places_once R -> exists A, represents R A.
Proof.
  revert R. refine (map_ind _ _ _).
  - intros _. exists ∅. intros p role. rewrite lookup_empty. split; [done|]. intros (id & r & Hid & _).
    by rewrite lookup_empty in Hid.
  - intros id r R Hid IH Honce. destruct IH as [A HA].
    { intros id1 id2 r1 r2 H1 H2. apply (Honce _ _ r1 r2); rewrite lookup_insert_ne; try done; intros <-; congruence. }
    exists (<[place r := role_in r]> A). intros p role. rewrite lookup_insert_Some, (HA p role). split.
    + intros [[<- <-]|[_ (id' & r' & Hr & Hp)]]; [exists id, r; by rewrite lookup_insert_eq|].
      exists id', r'. rewrite lookup_insert_ne by congruence. done.
    + intros (id' & r' & [[<- <-]|[Hne Hr]]%lookup_insert_Some & <- & <-); [by left|right]. split; [|eauto].
      intros Hp. apply Hne. apply (Honce id id' r r'); [by rewrite lookup_insert_eq|by rewrite lookup_insert_ne|done].
Qed.

Section represents.
Context (R : table) (A : roles) (HA : represents R A).

Lemma represents_none p : A !! p = None <-> forall id r, R !! id = Some r -> place r <> p.
Proof.
  rewrite eq_None_not_Some. split.
  - intros Hn id r Hr Hp. apply Hn. exists (role_in r). apply HA. eauto.
  - intros Hn [role Hrole]. apply HA in Hrole as (id & r & Hr & Hp & _). by apply (Hn id r).
Qed.

Lemma represents_record id r : R !! id = Some r -> A !! place r = Some (role_in r).
Proof. intros Hr. apply HA. eauto. Qed.

Lemma represents_new id r :
  R !! id = None -> A !! place r = None -> represents (<[id := r]> R) (<[place r := role_in r]> A).
Proof.
  intros Hid Hp p role. rewrite lookup_insert_Some, (HA p role). split.
  - intros [[<- <-]|[_ (id' & r' & Hr & Hp')]]; [exists id, r; by rewrite lookup_insert_eq|].
    exists id', r'. rewrite lookup_insert_ne by congruence. done.
  - intros (id' & r' & [[<- <-]|[Hne Hr]]%lookup_insert_Some & <- & <-); [by left|right]. split; [|eauto].
    intros Heq. apply represents_record in Hr. congruence.
Qed.

Context (Honce : places_once R).

Lemma represents_update id r r' :
  R !! id = Some r -> place r' = place r -> represents (<[id := r']> R) (<[place r := role_in r']> A).
Proof.
  intros Hid Hp p role. rewrite lookup_insert_Some, (HA p role). split.
  - intros [[<- <-]|[Hne (id' & r1 & Hr & Hp1 & Hrole)]]; [exists id, r'; by rewrite lookup_insert_eq|].
    exists id', r1. rewrite lookup_insert_ne; [done|]. intros <-. congruence.
  - intros (id' & r1 & [[<- <-]|[Hne Hr]]%lookup_insert_Some & <- & <-); [by left|right]. split; [|eauto].
    intros Heq. by apply Hne, (Honce _ _ r r1).
Qed.

Lemma represents_delete id r : R !! id = Some r -> represents (delete id R) (delete (place r) A).
Proof.
  intros Hid p role. rewrite lookup_delete_Some, (HA p role). split.
  - intros [Hne (id' & r1 & Hr & Hp1 & Hrole)]. exists id', r1. rewrite lookup_delete_ne; [done|]. intros <-. congruence.
  - intros (id' & r1 & [Hne Hr]%lookup_delete_Some & <- & <-). split; [|eauto].
    intros Heq. by apply Hne, (Honce _ _ r r1).
Qed.
End represents.

(** ** The calls of the client *)

Section calls.
Context `{TableService client association_schema} (Hlogged : isLoggedIn client = true) (Hok : url_ok client = true).

Abbreviation valid := (table_valid (t := association_schema)).
Abbreviation fixed := (table_fixed (t := association_schema)).

(** The client is connected to a Salesforce of which the associations are this map. *)
Definition associated (A : roles) (w : World) : Prop := exists R : table, represents R A /\ serves R w.

Lemma serves_once (R : table) w : serves R w -> places_once R.
Proof.
  intros [_ [Hs <-]] id1 id2 r1 r2 H1 H2 Hp. apply (table_unique (w_env w) id1 id2 r1 r2); [done..|]. by apply same_place.
Qed.

Lemma triple_associated {A'} A (m : GoM World A') Q :
  (forall R, represents R A -> triple (serves R) m Q) -> triple (associated A) m Q.
Proof. intros Hm w (R & HA & Hw). by apply (Hm R). Qed.

(** Whatever the table holds, it is some map. *)
Lemma serves_associated (R : table) w : serves R w -> exists A, associated A w.
Proof. intros Hw. destruct (represents_exists R (serves_once R w Hw)) as [A HA]. exists A, R. by split. Qed.

Lemma association_asks u t :
  id_pair (t, u) -> asks_table association_schema (territory_assoc_query u t) [] ["Territory2Id"; "UserId"] [t; u].
Proof.
  intros [Ht Hu]. apply (WhereEq_asks association_schema [] ["Territory2Id"; "UserId"] [t; u]);
    [by left|by repeat constructor|done|by vm_compute|by repeat constructor].
Qed.

(** The lookup of an association: its record, or that there is none. *)
Definition looked_up (R : table) (A : roles) (p : string * string) (r : option SObject * option RateLimitDescription * error) : Prop :=
  (exists record rl fs, r = (Some record, rl, None) /\ R !! SObject_ID record = Some fs /\ place fs = p
     /\ A !! p = Some (role_in fs) /\ StringField record "RoleInTerritory2" = role_in fs)
  \/ (exists rl, r = (None, rl, Some (ESentinel ErrObjectNotFound))) /\ A !! p = None.

Lemma association_lookup (R : table) A u t :
  represents R A -> id_pair (t, u) ->
  triple (serves R) (getSObject (territory_assoc_query u t)) (fun r w => serves R w /\ looked_up R A (t, u) r).
Proof.
  intros HA Hids. eapply triple_post; [|apply (getSObject_table Hlogged Hok association_sound R _ _ _ _ (association_asks u t Hids))].
  intros [[[record|] rl] [err|]] w [Hr Hw]; try done; (split; [done|]).
  - left. destruct Hr as ([id fs] & [Hid Hp]%matching_place & Hrec). cbn [fst snd] in Hid, Hp.
    destruct Hrec as (Hrid & Hrec & _). cbn [fst snd] in Hrid, Hrec. exists record, rl, fs. rewrite Hrid.
    split_and!; [done|done|done|rewrite <-Hp; by apply (represents_record R A HA id)|].
    rewrite Forall_forall in Hrec. apply Hrec; [apply (bool_decide_unpack _); by vm_compute|].
    apply (bool_decide_unpack _). by vm_compute.
  - right. destruct Hr as [-> Hnone]. split; [by eexists|]. apply (represents_none R A HA). intros id r Hid Hp.
    assert ((id, r) ∈ matching R ["Territory2Id"; "UserId"] [t; u]) as Hin by by apply matching_place.
    rewrite Hnone in Hin. by apply elem_of_nil in Hin.
Qed.
(** A write that validates, or does not. *)
Definition writes (A : roles) (p : string * string) (role : string) (err : error) (w : World) : Prop :=
  if accepts valid p role then associated (<[p := role]> A) w /\ err = None else associated A w /\ plain_failure err.

Lemma association_plain (l : list (string * string)) :
  Forall (fun kv => kv.1 ∈ t_text association_schema) l -> map_Forall (fun f _ => plain_field f) (list_to_map l : fields).
Proof.
  intros Hl f v Hin%elem_of_list_to_map_2. rewrite Forall_forall in Hl. specialize (Hl _ Hin).
  destruct association_sound as [_ Htext _]. rewrite Forall_forall in Htext. by apply Htext.
Qed.

Lemma create_association_writes (R : table) A p role (l : list (string * string)) :
  let vs : fields := list_to_map l in
  represents R A -> A !! p = None -> Forall (fun kv => kv.1 ∈ t_text association_schema) l ->
  place vs = p -> role_in vs = role ->
  triple (serves R) (create_association (fields_of l)) (fun r w => writes A p role r.2 w).
Proof.
  intros vs HA Hnone Hl Hp Hrole. unfold create_association. rewrite fields_of_texts.
  eapply triple_bind; [apply (CreateObject_table Hok association_sound R vs); [by apply association_plain|by intros ?]|].
  intros [rl err] w (R' & Hcr & Hw). cbn [snd] in Hcr. unfold creates in Hcr.
  assert (shown association_schema vs = [p.2; p.1; role]) as Hshown by (by rewrite <-Hp, <-Hrole).
  rewrite Hshown in Hcr. unfold writes. destruct (accepts valid p role).
  - destruct Hcr as [((id & r & Hr & Hkey) & _)|(_ & (id & r & Hid & Hnew & ->) & ->)].
    + apply same_place in Hkey. exfalso. by apply (proj1 (represents_none R A HA p) Hnone id r); [|congruence].
    + eexists _, w. split; [reflexivity|]. split; [|done].
      assert (place r = p) as Hpr by (rewrite <-Hp; unfold place; by rewrite !(new_record_field _ _ _ _ Hnew) by (done || set_solver)).
      assert (role_in r = role) as Hrr by (rewrite <-Hrole; unfold role_in; by rewrite !(new_record_field _ _ _ _ Hnew) by (done || set_solver)).
      exists (<[id := r]> R). split; [|done]. rewrite <-Hpr, <-Hrr. apply represents_new; [done..|by rewrite Hpr].
  - destruct Hcr as [-> (e & -> & Hdup & He)]. rewrite Hdup. eexists _, w. split; [reflexivity|].
    split; [by exists R|by exists e].
Qed.

Lemma SetUserTerritoryRole_writes (R : table) A id fs role :
  represents R A -> R !! id = Some fs ->
  triple (serves R) (SetUserTerritoryRole id role) (fun r w => writes A (place fs) role r.2 w).
Proof.
  intros HA Hid w Hw. pose proof (serves_once R w Hw) as Honce. unfold SetUserTerritoryRole. rewrite fields_of_texts.
  destruct (UpdateObject_table Hok association_sound R id (list_to_map [("RoleInTerritory2", role)])) with (s := w)
    as (r & w' & Hrun & R' & Hup & Hw');
    [apply association_plain, (bool_decide_unpack _); by vm_compute|by intros ?|by repeat constructor|by eapply serves_id|done|].
  exists r, w'. split; [done|]. unfold updated in Hup. rewrite Hid in Hup.
  set (fs' := list_to_map [("RoleInTerritory2", role)] ∪ fs) in Hup.
  assert (place fs' = place fs /\ role_in fs' = role) as [Hp Hrole] by (unfold fs', place, role_in; by rewrite !field_set).
  assert (shown association_schema fs' = [(place fs).2; (place fs).1; role]) as Hshown
    by (unfold fs', shown; cbn [t_text association_schema fmap list_fmap]; by rewrite !field_set).
  rewrite Hshown in Hup. unfold writes. destruct (accepts valid (place fs) role); destruct Hup as [-> Herr];
    (split; [|done]); [|by exists R].
  exists (<[id := fs']> R). split; [|done]. pose proof (represents_update R A HA Honce id fs fs' Hid Hp) as Hrep.
  by rewrite Hrole in Hrep.
Qed.

Lemma DeleteObject_takes_out (R : table) A id fs :
  represents R A -> R !! id = Some fs ->
  triple (serves R) (DeleteObject TableNameUserTerritory2Assoc id)
    (fun r w => if locked fixed (place fs) (role_in fs) then associated A w /\ plain_failure r.2
                else associated (delete (place fs) A) w /\ r.2 = None).
Proof.
  intros HA Hid w Hw. pose proof (serves_once R w Hw) as Honce.
  destruct (DeleteObject_table Hok association_sound R id) with (s := w) as (r & w' & Hrun & R' & Hr & Hw');
    [by eapply serves_id|done|].
  exists r, w'. split; [done|]. rewrite Hid in Hr.
  change (shown association_schema fs) with [(place fs).2; (place fs).1; role_in fs] in Hr.
  destruct (locked fixed (place fs) (role_in fs)); destruct Hr as [-> Hr]; (split; [|done]); [by exists R|].
  exists (delete id R). split; [|done]. by apply represents_delete.
Qed.
(** ** The handlers *)

(** What a grant or a revoke leaves, and answers: the write was accepted or not. *)
Definition grant_written (A : roles) (p : string * string) (role : string) (grants : list Grant)
    (r : list Grant * annotations * error) (w : World) : Prop :=
  if accepts valid p role then associated (<[p := role]> A) w /\ granted grants r
  else associated A w /\ r.1.1 = [] /\ plain_failure r.2.

(** A new association, and the grants that are answered. *)
Lemma new_association_grants (R : table) A p role l grants :
  let vs : fields := list_to_map l in
  represents R A -> A !! p = None -> Forall (fun kv => kv.1 ∈ t_text association_schema) l ->
  place vs = p -> role_in vs = role ->
  triple (serves R)
    ('(ratelimitData, err) ← create_association (fields_of l);
     let outputAnnotations := WithRateLimitAnnotations [ratelimitData] in
     match err with
     | Some err =>
         if errors_Is err ErrObjectAlreadyExists then mret ([], [AGrantAlreadyExists], None)
         else mret ([], outputAnnotations, Some err)
     | None => mret (grants, outputAnnotations, None)
     end) (grant_written A p role grants).
Proof.
  intros vs HA Hnone Hl Hp Hrole. eapply triple_bind; [by apply (create_association_writes R A p role)|].
  intros [rl err] w Hwr. unfold writes in Hwr. unfold grant_written. destruct (accepts valid p role).
  - destruct Hwr as [Hw He]. cbn [snd] in He. subst err. eexists _, w. split; [reflexivity|]. split; [done|].
    eexists. split; [done|]. apply (rate_limits_no_answer [rl]).
  - destruct Hwr as [Hw (e & He & Hdup & His)]. cbn [snd] in He. subst err. rewrite His.
    eexists _, w. split; [reflexivity|]. split; [done|]. split; [done|]. by exists e.
Qed.

(** The role of an association there is. *)
Lemma set_role_grants (R : table) A id fs role grants :
  represents R A -> R !! id = Some fs ->
  triple (serves R)
    ('(ratelimitData, err) ← SetUserTerritoryRole id role;
     let outputAnnotations := WithRateLimitAnnotations [ratelimitData] in
     match err with
     | Some err => mret ([], outputAnnotations, Some err)
     | None => mret (grants, outputAnnotations, None)
     end) (grant_written A (place fs) role grants).
Proof.
  intros HA Hid. eapply triple_bind; [by apply (SetUserTerritoryRole_writes R A id fs role)|].
  intros [rl err] w Hwr. unfold writes in Hwr. unfold grant_written. destruct (accepts valid (place fs) role).
  - destruct Hwr as [Hw He]. cbn [snd] in He. subst err. eexists _, w. split; [reflexivity|]. split; [done|].
    eexists. split; [done|]. apply (rate_limits_no_answer [rl]).
  - destruct Hwr as [Hw (e & He & Hdup & His)]. cbn [snd] in He. subst err.
    eexists _, w. split; [reflexivity|]. split; [done|]. split; [done|]. by exists e.
Qed.

Lemma territory_Grant_refines principal ent resource permission A :
  is_user principal = true -> ent_Resource ent = Some resource -> id_pair (pair_of resource principal) ->
  parseTerritoryEntitlementID (ent_Id ent) = inr permission ->
  triple (associated A) (territory_Grant principal ent)
    (fun r w => associated (grant_permission valid permission (pair_of resource principal) A) w
       /\ grant_reply valid permission resource principal A r).
Proof.
  intros Hu Hres Hids Hparse. apply triple_associated. intros R HA. unfold territory_Grant. rewrite Hu, Hres, Hparse.
  cbn [negb]. unfold GetUserTerritoryAssociation.
  eapply triple_bind; [by apply association_lookup|].
  set (t := rid_Resource (res_Id resource)). set (u := rid_Resource principal).
  unfold grant_permission, grant_reply, granted_role, permission_role. change (pair_of resource principal) with (t, u).
  intros r w [Hw [(record & rl & fs & -> & Hid & Hp & HAp & Hrole)|[[rl ->] HAp]]]; rewrite HAp; cbn beta iota.
  - assert (associated A w) as Hnow by by exists R.
    destruct (String.eqb permission territoryMemberPermission); [by eexists _, w|]. unfold grant_role. rewrite Hrole.
    set (role := strings_TrimPrefix _ _). destruct (String.eqb (role_in fs) role); [by eexists _, w|].
    destruct (set_role_grants R A (SObject_ID record) fs role [NewGrant resource (role_slug role) principal] HA Hid w Hw)
      as (r & w' & Hrun & Hr).
    exists r, w'. split; [exact Hrun|]. rewrite Hp in Hr. unfold grant_written in Hr. by destruct (accepts valid (t, u) role).
  - cbn [errors_Is]. rewrite bool_decide_eq_true_2 by done. cbn [negb].
    destruct (String.eqb permission territoryMemberPermission).
    + edestruct (new_association_grants R A (t, u) "" [("UserId", u); ("Territory2Id", t)]) as (r & w' & Hrun & Hr);
        [done|done|apply (bool_decide_unpack _); by vm_compute|done|done|exact Hw|].
      exists r, w'. split; [exact Hrun|]. unfold grant_written in Hr. by destruct (accepts valid (t, u) "").
    + set (role := strings_TrimPrefix _ _).
      edestruct (new_association_grants R A (t, u) role [("UserId", u); ("Territory2Id", t); ("RoleInTerritory2", role)])
        as (r & w' & Hrun & Hr); [done|done|apply (bool_decide_unpack _); by vm_compute|done|done|exact Hw|].
      exists r, w'. split; [exact Hrun|]. unfold grant_written in Hr. by destruct (accepts valid (t, u) role).
Qed.
(** Deleting or clearing what the lookup found. *)
Lemma rate_limit_done rl : done_now (WithRateLimitAnnotations [rl], None).
Proof. split; [done|]. apply (rate_limits_no_answer [rl]). Qed.

Lemma RemoveUserFromTerritory_refines u t A :
  id_pair (t, u) ->
  triple (associated A) (RemoveUserFromTerritory u t) (fun r w =>
    match A !! (t, u) with
    | Some role => if locked fixed (t, u) role then associated A w /\ plain_failure r.2
                   else associated (delete (t, u) A) w /\ r.2 = None
    | None => associated A w /\ r.2 = Some (ESentinel ErrObjectNotFound)
    end).
Proof.
  intros Hids. apply triple_associated. intros R HA. unfold RemoveUserFromTerritory. eapply triple_bind; [by apply association_lookup|].
  intros r w [Hw [(record & rl & fs & -> & Hid & Hp & HAp & _)|[[rl ->] HAp]]]; rewrite HAp.
  - destruct (DeleteObject_takes_out R A _ fs HA Hid w Hw) as (r & w' & Hrun & Hr). rewrite Hp in Hr. by exists r, w'.
  - eexists _, w. split; [reflexivity|]. split; [|done]. by exists R.
Qed.

Lemma ClearUserTerritoryRole_refines u t role A :
  id_pair (t, u) ->
  triple (associated A) (ClearUserTerritoryRole u t role) (fun r w =>
    if has_role A (t, u) role then writes A (t, u) "" r.2 w
    else associated A w /\ r.2 = Some (ESentinel (match A !! (t, u) with
      | None => ErrObjectNotFound
      | Some current => if String.eqb current "" then ErrRoleAlreadyCleared else ErrRoleMismatch
      end))).
Proof.
  intros Hids. apply triple_associated. intros R HA. unfold ClearUserTerritoryRole, has_role.
  eapply triple_bind; [by apply association_lookup|].
  intros r w [Hw [(record & rl & fs & -> & Hid & Hp & HAp & Hrole)|[[rl ->] HAp]]]; rewrite HAp; cbn beta iota.
  - rewrite Hrole. assert (associated A w) as Hnow by by exists R. destruct (String.eqb_spec (role_in fs) "") as [He|He].
    + eexists _, w. split; [reflexivity|]. rewrite He, bool_decide_Some. by destruct role.
    + rewrite bool_decide_Some. destruct (String.eqb_spec (role_in fs) role) as [<-|Hne].
      * apply String.eqb_neq in He. rewrite He. cbn [negb andb].
        destruct (SetUserTerritoryRole_writes R A _ fs "" HA Hid w Hw) as (r & w' & Hrun & Hr).
        rewrite Hp in Hr. by exists r, w'.
      * rewrite andb_false_r. by eexists _, w.
  - rewrite bool_decide_eq_false_2 by done. rewrite andb_false_r. eexists _, w. split; [reflexivity|].
    split; [by exists R|done].
Qed.

Lemma territory_Revoke_refines g resource permission A :
  ent_Resource (grant_Entitlement g) = Some resource ->
  parseTerritoryEntitlementID (ent_Id (grant_Entitlement g)) = inr permission ->
  let p := pair_of resource (grant_Principal g) in
  id_pair p ->
  triple (associated A) (territory_Revoke g)
    (fun r w => associated (revoke_permission valid fixed permission p A) w /\ revoke_reply valid fixed permission p A r).
Proof.
  intros Hres Hparse p Hids. unfold territory_Revoke. rewrite Hres, Hparse.
  unfold revoke_permission, revoke_reply, permission_role, p, pair_of.
  set (t := rid_Resource (res_Id resource)). set (u := rid_Resource (grant_Principal g)).
  destruct (String.eqb permission territoryMemberPermission).
  - eapply triple_bind; [by apply RemoveUserFromTerritory_refines|]. intros [rl err] w Hr. cbn [fst snd] in Hr |- *.
    destruct (A !! (t, u)) as [role|]; [destruct (fixed [u; t; role])|].
    + destruct Hr as [Hw (e & -> & Hdup & His)]. rewrite !His. eexists _, w. split; [reflexivity|]. split; [done|by exists e].
    + destruct Hr as [Hw ->]. eexists _, w. split; [reflexivity|]. split; [done|apply rate_limit_done].
    + destruct Hr as [Hw ->]. by eexists _, w.
  - set (role := strings_TrimPrefix _ _). eapply triple_bind; [by apply (ClearUserTerritoryRole_refines u t role)|].
    intros [rl err] w Hr. cbn [snd] in Hr. destruct (has_role A (t, u) role); cbn [andb].
    + unfold writes in Hr. destruct (accepts valid (t, u) ""); destruct Hr as [Hw Hr].
      * subst err. eexists _, w. split; [reflexivity|]. split; [done|apply rate_limit_done].
      * destruct Hr as (e & -> & Hdup & His). rewrite !His. eexists _, w. split; [reflexivity|]. split; [done|by exists e].
    + destruct Hr as [Hw ->]. destruct (A !! (t, u)) as [c|]; [destruct (String.eqb c "")|]; by eexists _, w.
Qed.
(** ** Histories *)

Lemma perform_territory d A o :
  territory_operation o ->
  triple (associated A) (perform d o) (fun _ => associated (apply_permission valid fixed A o)).
Proof.
  destruct o; try done; cbn [territory_operation perform apply_permission].
  - intros (Hu & (resource & Hent & Hids) & permission & Hparse). rewrite Hent, Hparse.
    eapply triple_discard; [|by apply territory_Grant_refines]. by intros a w [Ha _].
  - intros ((resource & Hent & Hids) & permission & Hparse). rewrite Hent, Hparse.
    eapply triple_discard; [|by apply territory_Revoke_refines]. by intros a w [Ha _].
Qed.

Lemma territory_history d os A :
  Forall territory_operation os ->
  triple (associated A) (run_all (perform d) os) (fun _ => associated (foldl (apply_permission valid fixed) A os)).
Proof. apply run_all_refines. intros. by apply perform_territory. Qed.

(** ** The sync *)

(** The members of a territory and their roles, each member once. *)
Definition roles_in (A : roles) (t : string) (ms : list (string * string)) : Prop :=
  NoDup ms.*1 /\ forall u role, (u, role) ∈ ms <-> A !! (t, u) = Some role.

Lemma members_roles (R : table) A t rows :
  represents R A -> places_once R -> rows ≡ₚ matching R ["Territory2Id"] [t] ->
  roles_in A t ((fun kv => (field kv.2 "UserId", role_in kv.2)) <$> rows).
Proof.
  intros HA Honce Hrows.
  assert (forall kv, kv ∈ rows <-> R !! kv.1 = Some kv.2 /\ field kv.2 "Territory2Id" = t) as Hin.
  { intros [id r]. rewrite Hrows. unfold matching. rewrite list_elem_of_filter, elem_of_map_to_list. cbn [fst snd].
    split; [intros [Hm HR]; by inversion Hm|]. intros [HR Ht]. split; [|done]. by repeat constructor. }
  split.
  - rewrite <-list_fmap_compose. apply NoDup_fmap_2_strong.
    + intros [id1 r1] [id2 r2] [H1 Ht1]%Hin [H2 Ht2]%Hin Heq. cbn in *.
      assert (id1 = id2) as -> by (apply (Honce _ _ r1 r2); [done..|]; unfold place; congruence). congruence.
    + rewrite Hrows. apply NoDup_filter, NoDup_map_to_list.
  - intros u role. rewrite (HA (t, u) role), list_elem_of_fmap. split.
    + intros ([id r] & [= -> ->] & [HR Ht]%Hin). cbn in *. exists id, r. unfold place. by rewrite Ht.
    + intros (id & r & HR & [= Ht Hu] & <-). exists (id, r). split; [by rewrite <-Hu|]. by apply Hin.
Qed.

Lemma members_asks t :
  object_id t = true ->
  asks_table association_schema (WhereEq (NewQuery TableNameUserTerritory2Assoc []) "Territory2Id" t) []
    ["Territory2Id"] [t].
Proof.
  intros Ht. apply (WhereEq_asks association_schema [] ["Territory2Id"] [t]); [by right; left|by repeat constructor|done|by vm_compute|by repeat constructor].
Qed.

Lemma members_records (rows : list (string * fields)) records :
  Forall2 (is_record association_schema (NewQuery_cols TableNameUserTerritory2Assoc [])) records rows ->
  (fun record => (StringField record "UserId", StringField record "RoleInTerritory2")) <$> records
  = (fun kv => (field kv.2 "UserId", role_in kv.2)) <$> rows.
Proof.
  induction 1 as [|record kv records rows (_ & Hrec & _) _ IH]; [done|]. cbn [fmap list_fmap]. f_equal; [|exact IH].
  rewrite Forall_forall in Hrec. unfold role_in.
  by rewrite (Hrec "UserId"), (Hrec "RoleInTerritory2") by (apply (bool_decide_unpack _); by vm_compute).
Qed.

(** The pages of a territory's grants. *)
Lemma territory_sync resource size A w :
  object_id (rid_Resource (res_Id resource)) = true -> associated A w ->
  exists ms w', sync_pages (territory_Grants resource) size "" w (ms ≫= member_grants resource) w'
    /\ roles_in A (rid_Resource (res_Id resource)) ms /\ associated A w'.
Proof.
  intros Ht (R & HA & Hw). set (t := rid_Resource (res_Id resource)) in *. pose proof (serves_once R w Hw) as Honce.
  destruct (list_table Hlogged Hok association_sound R _ size _ _ _ w (members_asks t Ht) Hw) as (records & w' & Hp & Hw' & Hrec).
  exists ((fun record => (StringField record "UserId", StringField record "RoleInTerritory2")) <$> records), w'.
  split; [|split; [|by exists R]].
  - apply (pages_map _ _ _ territory_member_of) in Hp.
    assert (((fun record => (StringField record "UserId", StringField record "RoleInTerritory2")) <$> records)
        ≫= member_grants resource = map territory_member_of records ≫= territory_grants resource) as ->.
    { clear. induction records as [|r records IH]; [done|]. cbn [fmap list_fmap map mbind list_bind] in *. by f_equal. }
    eapply pages_sync; [|exact Hp]. intros l1 l2. apply bind_app.
  - rewrite (members_records (table_rows R ["Territory2Id"] [t]) records Hrec).
    by apply (members_roles R A t); [..|apply table_rows_spec].
Qed.
End calls.

(** ** An org with one member *)

(** The roles of the picklist, and none. *)
Definition picklist : list string := [""; "Seller"; "Manager"; "Account Owner"].
Definition valid_association (texts : list string) : bool :=
  match texts with [_; _; role] => bool_decide (role ∈ picklist) | _ => false end.

(** The associations of some territories are kept. *)
Definition fixed_association (texts : list string) : bool :=
  match texts with [_; t; _] => strings_HasPrefix t "0MIZ" | _ => false end.

Abbreviation association_env := (records_env association_schema valid_association fixed_association ∅ nothing_else).

#[local] Instance association_org : @TableService association_env sf_client association_schema.
Proof.
  apply records_service; [by apply Forall_nil|by apply map_Forall_empty|exact association_sound|apply (bool_decide_unpack _); by vm_compute..|done].
Defined.

Definition a_seller : fields :=
  {["UserId" := "005A"; "Territory2Id" := "0MI1"; "RoleInTerritory2" := "Seller"]}.
Definition one_seller : record_org := {| ro_table := {["0Ma1" := a_seller]}; ro_next := 0 |}.
Definition seller_world : @World association_env := @Build_World association_env one_seller tape_client [].
Definition seller_map : roles := {[("0MI1", "005A") := "Seller"]}.

Lemma one_seller_ok : records_ok association_schema one_seller.
Proof.
  split; cbn [ro_table ro_next one_seller].
  - apply map_Forall_singleton. split; [done|]. intros n _ Heq.
    by destruct n.
  - by intros id1 id2 r1 r2 [<- _]%lookup_singleton_Some [<- _]%lookup_singleton_Some.
Qed.

Lemma seller_represented : represents {["0Ma1" := a_seller]} seller_map.
Proof.
  intros p role. unfold seller_map. rewrite lookup_singleton_Some. split.
  - intros [<- <-]. exists "0Ma1", a_seller. by rewrite lookup_singleton_eq.
  - by intros (id & r & [_ <-]%lookup_singleton_Some & <- & <-).
Qed.

Lemma seller_associated : associated (client := sf_client) seller_map seller_world.
Proof.
  exists {["0Ma1" := a_seller]}. split; [apply seller_represented|]. split; [vm_compute; eauto|].
  split; [apply one_seller_ok|reflexivity].
Qed.

(** ** Properties *)

Section properties.
Context `{TableService client association_schema} (Hlogged : isLoggedIn client = true) (Hok : url_ok client = true).

(** C9: the territory permissions, membership and roles, refine operations of a map
    from territory and user to role.  Whatever associations Salesforce holds, a
    grant adds the user (with the role, when it is for one) or changes the role,
    and answers that the grant exists when it does; a revoke of the membership
    takes the user out, one of a role blanks the role only while it is the
    user's, and otherwise both answer that there was nothing to revoke.  A
    change Salesforce declines, a deletion included, leaves the map as it was and
    is an error. *)
Theorem territory_roles_refine principal ent g resource permission A :
  is_user principal = true -> ent_Resource ent = Some resource ->
  parseTerritoryEntitlementID (ent_Id ent) = inr permission ->
  grant_Principal g = principal -> grant_Entitlement g = ent ->
  let p := pair_of resource principal in
  id_pair p ->
  let valid := table_valid (t := association_schema) in
  let fixed := table_fixed (t := association_schema) in
  triple (associated A) (territory_Grant principal ent)
    (fun r w => associated (grant_permission valid permission p A) w
       /\ grant_reply valid permission resource principal A r)
  /\ triple (associated A) (territory_Revoke g)
    (fun r w => associated (revoke_permission valid fixed permission p A) w /\ revoke_reply valid fixed permission p A r).
Proof.
  intros Hu Hres Hparse <- <- p Hids valid fixed. split; [by apply territory_Grant_refines|by apply territory_Revoke_refines].
Qed.

(** C5: the sync of a territory reports what provisioning did.  After any sequence of
    well formed grants and revokes of its permissions, declined ones included,
    collecting the pages of a territory's grants comes to an end and gives, for
    each user the map then has in the territory, once, the grant of membership
    and that of the role if there is one. *)
Theorem territory_provisioned_is_synced d os resource size A w :
  Forall territory_operation os -> object_id (rid_Resource (res_Id resource)) = true -> associated A w ->
  let left := foldl (apply_permission (table_valid (t := association_schema)) (table_fixed (t := association_schema))) A os in
  exists w1 ms w2, run_all (perform d) os w = (Returns tt, w1)
    /\ sync_pages (territory_Grants resource) size "" w1 (ms ≫= member_grants resource) w2
    /\ roles_in left (rid_Resource (res_Id resource)) ms.
Proof.
  intros Hos Hres Hw left. destruct (territory_history Hlogged Hok d os A Hos w Hw) as ([] & w1 & Hrun & Hw1).
  destruct (territory_sync Hlogged Hok resource size left w1 Hres Hw1) as (ms & w2 & Hpages & Hms & _).
  by exists w1, ms, w2.
Qed.
End properties.

Definition territory_t_role (role : string) : Entitlement :=
  NewAssignmentEntitlement (Some territory_t) (role_slug role) [resourceTypeUser] "" "".

(** Another role than the one there is not revoked. *)
Lemma territory_roles_refine_witness :
  exists w, territory_Revoke (as_grant user_a (territory_t_role "Manager")) seller_world
    = (Returns ([AGrantAlreadyRevoked], None), w) /\ associated (client := sf_client) seller_map w.
Proof.
  destruct (proj2 (territory_roles_refine sf_logged sf_url user_a (territory_t_role "Manager")
    (as_grant user_a (territory_t_role "Manager")) territory_t "role:Manager" seller_map
    eq_refl eq_refl eq_refl eq_refl eq_refl (conj eq_refl eq_refl)) seller_world seller_associated) as (r & w & Hrun & Hw & Hr).
  exists w. split; [|exact Hw]. rewrite Hrun. f_equal. f_equal. exact Hr.
Defined.

Definition territory_z_member : Entitlement :=
  NewAssignmentEntitlement (Some (NewResource "Z" resourceTypeTerritory "0MIZ1" None NoTrait)) territoryMemberPermission
    [resourceTypeUser] "" "".

(** The role changes, is revoked under its old name and under its new one, and one
    that is not in the picklist is declined: the membership is left.  So is that
    of another territory, the revocation of which is declined. *)
Definition territory_changes : list operation :=
  [TerritoryGrant user_a (territory_t_role "Manager"); TerritoryRevoke (as_grant user_a (territory_t_role "Seller"));
   TerritoryRevoke (as_grant user_a (territory_t_role "Manager")); TerritoryGrant user_a (territory_t_role "Pilot");
   TerritoryGrant user_a territory_z_member; TerritoryRevoke (as_grant user_a territory_z_member)].

Lemma territory_provisioned_is_synced_witness :
  exists w1 ms w2, run_all (perform a_connector) territory_changes seller_world = (Returns tt, w1)
    /\ sync_pages (territory_Grants territory_t) 100 "" w1 (ms ≫= member_grants territory_t) w2
    /\ roles_in {[("0MI1", "005A") := ""; ("0MIZ1", "005A") := ""]} "0MI1" ms.
Proof.
  assert (foldl (apply_permission valid_association fixed_association) seller_map territory_changes
    = {[("0MI1", "005A") := ""; ("0MIZ1", "005A") := ""]}) as Hleft
    by (apply (bool_decide_unpack _); by vm_compute).
  rewrite <-Hleft.
  refine (territory_provisioned_is_synced sf_logged sf_url a_connector territory_changes territory_t 100 seller_map
    seller_world _ eq_refl seller_associated).
  repeat apply Forall_cons_2; [..|apply Forall_nil_2]; split_and!; try done; eexists; by repeat split.
Defined.
