(* ===== verification/UserRecords.v ===== *)
(** * Roles, profiles and status as fields of the user records

    A user's role, profile and status are fields of its record.  Granting a role
    or a profile sets the field, revoking a role blanks it while it is that role,
    deactivating a user clears [IsActive]: whatever the table of users holds,
    after any sequence of these calls it holds what the same sequence of field
    updates makes of it, and the sync of a role or a profile lists the users
    that then have it. *)
From S2P Require Export Records Memberships.
From Stdlib Require Import Ascii.

(** Salesforce trims texts, and keeps addresses in lower case. *)
Definition space (c : ascii) : bool := bool_decide (c ∈ [" "; "009"; "010"; "013"]%char).
Definition trimmed (s : string) : bool :=
  negb (existsb (fun i => from_option space false (String.get i s)) [0; String.length s - 1]).
Definition user_keeps (f v : string) : bool :=
  trimmed v
  && (negb (bool_decide (f ∈ ["Email"; "Username"])) || String.eqb (strings_ToLower v) v).

Definition user_schema : schema :=
  {| t_name := TableNameUsers;
     t_text := ["FirstName"; "LastName"; "Email"; "Username"; "UserType"; "ProfileId"; "UserRoleId"; "LastLoginDate"];
     t_bools := ["IsActive"];
     t_derived := ["UserType"; "IsActive"];
     t_keeps := user_keeps; t_ids := ["ProfileId"; "UserRoleId"];
     t_key := ["Username"]; t_duplicate := "DUPLICATE_USERNAME";
     t_queries := [([], ["UserType"; "UserRoleId"]); ([], ["UserType"; "ProfileId"]); ([], ["Email"]);
                   ([], ["UserType"]); ([], [])] |}.

Lemma user_sound : sound_schema user_schema.
Proof. split; [done|..]; apply (bool_decide_unpack _); by vm_compute. Qed.

(** A field of a user is set, if the result validates. *)
Definition set_field (valid : list string -> bool) (id f v : string) (U : table) : table :=
  match U !! id with
  | Some r =>
      let r' := list_to_map [(f, v)] ∪ r in
      if valid (shown user_schema r') then <[id := r']> U else U
  | None => U
  end.

(** It is set: there is such a user, and the record validates. *)
Definition can_set (valid : list string -> bool) (id f v : string) (U : table) : bool :=
  match U !! id with Some r => valid (shown user_schema (list_to_map [(f, v)] ∪ r)) | None => false end.

(** The user has this value in the field. *)
Definition has_field (id f v : string) (U : table) : bool :=
  match U !! id with Some r => String.eqb (field r f) v | None => false end.

(** The well formed operations on the role, the profile and the status of a user. *)
Definition user_operation (o : operation) : Prop :=
  match o with
  | RoleGrant principal ent | ProfileGrant principal ent =>
      is_user principal = true /\ exists resource, ent_Resource ent = Some resource /\ id_pair (pair_of resource principal)
  | RoleRevoke g => ent_Resource (grant_Entitlement g) <> None /\ object_id (rid_Resource (grant_Principal g)) = true
  | DeleteUser id => object_id (rid_Resource id) = true
  | UpdateUserStatus args =>
      match args !! "resource_id", args !! "is_active" with
      | Some (PbString id), Some (PbBool _) => object_id id = true
      | _, _ => False
      end
  | _ => False
  end.

(** What they do to the table. *)
Definition apply_user (valid : list string -> bool) (U : table) (o : operation) : table :=
  match o with
  | RoleGrant principal ent =>
      match ent_Resource ent with
      | Some resource => set_field valid (rid_Resource principal) "UserRoleId" (rid_Resource (res_Id resource)) U
      | None => U
      end
  | RoleRevoke g =>
      match ent_Resource (grant_Entitlement g) with
      | Some resource =>
          let id := rid_Resource (grant_Principal g) in
          if has_field id "UserRoleId" (rid_Resource (res_Id resource)) U then set_field valid id "UserRoleId" "" U else U
      | None => U
      end
  | ProfileGrant principal ent =>
      match ent_Resource ent with
      | Some resource => set_field valid (rid_Resource principal) "ProfileId" (rid_Resource (res_Id resource)) U
      | None => U
      end
  | DeleteUser id => set_field valid (rid_Resource id) "IsActive" "false" U
  | UpdateUserStatus args =>
      match args !! "resource_id", args !! "is_active" with
      | Some (PbString id), Some (PbBool active) => set_field valid id "IsActive" (strconv_FormatBool active) U
      | _, _ => U
      end
  | _ => U
  end.

Lemma alnum_space c : is_alnum c = true -> space c = false.
Proof.
  intros Hc. unfold space. apply bool_decide_eq_false_2. intros Hin.
  by repeat (apply elem_of_cons in Hin as [->|Hin]; [done|]); apply elem_of_nil in Hin.
Qed.

Lemma object_id_trimmed id : object_id id = true -> trimmed id = true.
Proof.
  unfold object_id, trimmed. intros [_ Hall]%andb_true_iff.
  assert (forall i, from_option space false (String.get i id) = false) as Hget.
  { induction id as [|c id IH]; [by destruct i|]. cbn [str_forall] in Hall. apply andb_true_iff in Hall as [Hc Hall].
    intros [|i]; [by apply alnum_space|by apply IH]. }
  cbn [existsb]. by rewrite !Hget.
Qed.

(** An id field is compared with an id. *)
Lemma compared_id f v : f ∈ ["UserRoleId"; "ProfileId"] -> object_id v = true -> compared user_schema f v.
Proof.
  intros Hf Hv. split; [|done]. cbn [t_keeps user_schema]. unfold user_keeps. rewrite object_id_trimmed by done.
  by repeat (apply elem_of_cons in Hf as [->|Hf]); [..|apply elem_of_nil in Hf].
Qed.

(** The user of an assignment: only its id is read. *)
Definition user_with_id (id : string) : SalesforceUser := user_id_of {["Id" := VString id]}.

Section calls.
Context `{TableService client user_schema} (Hlogged : isLoggedIn client = true) (Hok : url_ok client = true).

Abbreviation valid := (table_valid (t := user_schema)).

(** A write of a field: it is done, or the call failed and nothing changed. *)
Definition field_set_to (U : table) (id f v : string) (err : error) (U' : table) : Prop :=
  U' = set_field valid id f v U /\ if can_set valid id f v U then err = None else plain_failure err.

Lemma updated_field U id f v err U' :
  updated (t := user_schema) U id (list_to_map [(f, v)]) err U' -> field_set_to U id f v err U'.
Proof.
  unfold updated, field_set_to, set_field, can_set. destruct (U !! id) as [r|]; [|done].
  by destruct (valid _).
Qed.

(** Reading a user. *)
Definition user_read (U : table) (id : string) (r : option SObject * option RateLimitDescription * error) : Prop :=
  match U !! id with
  | Some fs => exists user rl, r = (Some user, rl, None) /\ is_object user_schema id fs user
  | None => r.1.1 = None /\ plain_failure r.2
  end.

Lemma getOneUser_reads (U : table) id :
  object_id id = true -> triple (serves U) (getOneUser id) (fun r w => user_read U id r /\ serves U w).
Proof.
  intros Hid. destruct (object_id_safe id Hid) as [Hne Hsafe]. unfold getOneUser. apply init_serves. eapply triple_bind.
  { apply (on_client_serves _ U (fun a U' => U' = U /\ match U !! id with
      | Some fs => exists user, a = (None, Some user) /\ is_object user_schema id fs user
      | None => plain_failure a.1
      end)). intros t. unfold SObject_Get. rewrite Client_SObject_type, Client_SObject_client.
    eapply (triple_bind _ _ (fun typ w => typ = TableNameUsers /\ holds U w)); [by intros w Hw; exists TableNameUsers, w|].
    intros typ. apply triple_pure. intros ->. cbn [orb negb String.eqb]. destruct (String.eqb_spec id ""); [done|].
    eapply triple_bind.
    { apply (httpRequest_settles t _ _ _ U (fun resp U' => U' = U /\ match U !! id with
        | Some fs => status_ok (resp_status resp) = true /\ exists j obj, resp_json resp = Some j
            /\ unmarshal_into j (Client_SObject true TableNameUsers) = Some obj /\ is_object user_schema id fs obj
        | None => declined resp end)).
      - by apply (object_parses Hok TableNameUsers id).
      - intros auth s Hs <-. edestruct (table_get (object_request (client := client) MethodGet TableNameUsers id auth NoBody) s id)
          as (resp & s' & Hr & Hs' & HU & Hcase); [done..|by apply object_goes|]. by exists resp, s'.
      - intros resp U' [_ Hq]. destruct (U !! id); [left; apply Hq|right]. destruct Hq as (code & ? & _). by exists code. }
    intros [t' [err resp]] w (r & U' & [-> Hq] & Hres & Hw). cbn [snd] in Hres.
    destruct Hres as [[[= -> ->] Hst]|(e & [= -> ->] & Hout)].
    - destruct (U !! id) as [fs|].
      + destruct Hq as [_ (j & obj & Hj & Hobj & His)]. cbn [mbind option_bind]. rewrite Hj. cbn [mbind option_bind]. rewrite Hobj.
        eexists _, w. split; [reflexivity|]. exists U. split; [|done]. split; [done|]. by exists obj.
      + destruct Hq as (code & [Hst' _] & _). congruence.
    - eexists _, w. split; [reflexivity|]. exists U. split; [|done]. split; [done|]. destruct (U !! id) as [fs|].
      + destruct Hq as [Hst _], Hout as (code & [Hst' _] & _). congruence.
      + by eapply declined_outcome. }
  intros [err user] w (U' & [-> Hr] & Hw). unfold user_read. destruct (U !! id) as [fs|].
  - destruct Hr as (obj & [= -> ->] & His). destruct (rateLimit_serves U w Hw) as (rl & w' & Hrl & Hw').
    rewrite (GoM_bind_run _ _ _ _ _ Hrl). eexists _, w'. split; [reflexivity|]. split; [by exists obj, rl|done].
  - destruct Hr as (e & He & Hrest). cbn in He. subst err. eexists _, w. split; [reflexivity|].
    split; [|done]. split; [done|]. by exists e.
Qed.

(** A field other than the key, and a value that it takes as it is. *)
Definition settable (f v : string) : Prop := (f ∉ t_key user_schema) /\ plain_field f /\ user_keeps f v = true.

(** Writing a field of the object that was read. *)
Lemma updateUser_sets (U : table) id fs user f v copied :
  is_object user_schema id fs user -> object_id id = true -> settable f v ->
  copySObject user [f] = Returns copied ->
  triple (serves U) (updateUser copied f v) (gives (fun r U' => field_set_to U id f v r.2 U')).
Proof.
  intros (Htype & _ & Hid & Hext & _) Hobj (Hkey & Hf & Hkept) Hcopied. destruct (object_id_safe id Hobj) as [Hne Hsafe].
  destruct (copySObject_set user TableNameUsers f Htype Hext) as (obj & Hobj' & Hset). rewrite Hcopied in Hobj'.
  injection Hobj' as <-. specialize (Hset (VString v)). rewrite Hid in Hset.
  assert (writable TableNameUsers (texts (list_to_map [(f, v)]))) as Hwr.
  { apply (texts_writable user_sound). rewrite one_text. by apply map_Forall_singleton. }
  unfold updateUser. apply (call_gives _ _ U (fun a U' => exists resp, update_answer (t := user_schema) U id (list_to_map [(f, v)]) resp U'
    /\ outcome_of resp (failure a))).
  - intros t. rewrite Hset. eapply (Update_gives Hok); [exact Hwr| |done|done| |].
    + assert (texts (list_to_map [(f, v)]) = ({[f := VString v]} : SObject)) as <-
        by (rewrite one_text; apply map_fmap_singleton).
      by apply updates_set.
    + apply (update_answers Hok user_sound); [done|by rewrite one_text; apply map_Forall_singleton|]. apply Forall_singleton. rewrite one_text. apply lookup_singleton_ne. set_solver.
    + apply update_settled.
  - intros a rl U' (resp & Hq & Hout). pose proof (updated_field _ _ _ _ _ _ (update_outcome _ _ _ _ _ _ Hq Hout)) as Hset'.
    destruct a as [err|obj]; by eexists.
Qed.
(** Setting a field of a user, whatever it was. *)
Lemma setOneValue_sets (U : table) id f v :
  object_id id = true -> settable f v -> triple (serves U) (setOneValue id f v) (gives (fun r U' => field_set_to U id f v r.2 U')).
Proof.
  intros Hid Hset. unfold setOneValue. eapply triple_bind; [by apply getOneUser_reads|].
  intros r w [Hr Hw]. unfold user_read in Hr. destruct (U !! id) as [fs|] eqn:Hu.
  - destruct Hr as (user & rl & -> & His). pose proof His as (Htype & _ & _ & Hext & _).
    destruct (copySObject_set user TableNameUsers f Htype Hext) as (copied & Hcopied & _).
    rewrite Hcopied, lift_bind_ret. by apply (updateUser_sets U id fs user f v copied).
  - destruct r as [[user rl] err], Hr as [Hnone (e & He & Hplain)]. cbn in Hnone, He. subst.
    eexists _, w. split; [reflexivity|]. exists U. split; [|done]. unfold field_set_to, set_field, can_set. rewrite Hu.
    split; [done|by exists e].
Qed.

Lemma setValue_setOneValue : setValue = setOneValue.
Proof. reflexivity. Qed.

(** Blanking a text field while it has the value. *)
Lemma clearValue_clears (U : table) id f v :
  object_id id = true -> settable f "" -> f ∈ t_text user_schema ->
  triple (serves U) (clearValue id f v) (gives (fun r U' =>
    if has_field id f v U then field_set_to U id f "" r.2 U' else U' = U /\ plain_failure r.2)).
Proof.
  intros Hid Hset Htext. unfold clearValue. eapply triple_bind; [by apply getOneUser_reads|].
  intros r w [Hr Hw]. unfold user_read in Hr. unfold has_field. destruct (U !! id) as [fs|] eqn:Hu.
  - destruct Hr as (user & rl & -> & His). pose proof His as (Htype & _ & _ & Hext & Hfields).
    rewrite Forall_forall in Hfields. rewrite (Hfields f Htext).
    destruct (String.eqb (field fs f) v); cbn [negb].
    + destruct (copySObject_set user TableNameUsers f Htype Hext) as (copied & Hcopied & _).
      rewrite Hcopied, lift_bind_ret. by apply (updateUser_sets U id fs user f "" copied).
    + eexists _, w. split; [reflexivity|]. exists U. split; [|done]. split; [done|]. by eexists.
  - destruct r as [[user rl] err], Hr as [Hnone (e & He & Hplain)]. cbn in Hnone, He. subst.
    eexists _, w. split; [reflexivity|]. exists U. split; [|done]. split; [done|by exists e].
Qed.

(** ** The handlers *)

Lemma settable_id f v : f ∈ ["UserRoleId"; "ProfileId"] -> object_id v = true -> settable f v.
Proof.
  intros Hf Hv. destruct (compared_id f v Hf Hv) as [Hkept _].
  assert ((f ∉ t_key user_schema) /\ plain_field f) as [Hkey Hplain]; [|by split_and!].
  repeat (apply elem_of_cons in Hf as [->|Hf]); [..|by apply elem_of_nil in Hf]; split; apply (bool_decide_unpack _); by vm_compute.
Qed.

Lemma settable_blank : settable "UserRoleId" "".
Proof. repeat split; apply (bool_decide_unpack _); by vm_compute. Qed.

Lemma settable_status active : settable "IsActive" (strconv_FormatBool active).
Proof. destruct active; repeat split; apply (bool_decide_unpack _); by vm_compute. Qed.

(** The error is handed on, with the rate limit as an annotation. *)
Lemma annotated_error {A} (U : table) (m : GoM World A) (P : A -> table -> Prop) (k : A -> GoM World reply) Q :
  triple (serves U) m (gives P) ->
  (forall a U', P a U' -> exists r : reply, k a = mret r /\ Q r U') -> triple (serves U) (m ≫= k) (gives Q).
Proof.
  intros Hm Hk. eapply triple_bind; [exact Hm|]. intros a w (U' & Ha & Hw). destruct (Hk a U' Ha) as (r & -> & Hr).
  exists r, w. split; [done|]. by exists U'.
Qed.

Lemma role_Grant_sets (U : table) principal ent resource :
  is_user principal = true -> ent_Resource ent = Some resource -> id_pair (pair_of resource principal) ->
  triple (serves U) (role_Grant principal ent) (gives (fun r U' =>
    field_set_to U (rid_Resource principal) "UserRoleId" (rid_Resource (res_Id resource)) r.2 U')).
Proof.
  intros Hu Hres [Htarget Hid]. unfold role_Grant. rewrite Hu, Hres. cbn [negb]. eapply annotated_error.
  - unfold AddUserToRole. rewrite setValue_setOneValue. apply setOneValue_sets; [done|]. apply settable_id; [by left|done].
  - intros [rl err] U' Hset. eexists. split; [reflexivity|exact Hset].
Qed.

Lemma role_Revoke_clears (U : table) g resource :
  ent_Resource (grant_Entitlement g) = Some resource -> object_id (rid_Resource (grant_Principal g)) = true ->
  triple (serves U) (role_Revoke g) (gives (fun r U' =>
    if has_field (rid_Resource (grant_Principal g)) "UserRoleId" (rid_Resource (res_Id resource)) U
    then field_set_to U (rid_Resource (grant_Principal g)) "UserRoleId" "" r.2 U'
    else U' = U /\ plain_failure r.2)).
Proof.
  intros Hres Hid. unfold role_Revoke. rewrite Hres. eapply annotated_error.
  - apply clearValue_clears; [done|apply settable_blank|]. apply (bool_decide_unpack _). by vm_compute.
  - intros [rl err] U' Hset. eexists. split; [reflexivity|exact Hset].
Qed.

Lemma profile_Grant_sets (U : table) principal ent resource :
  is_user principal = true -> ent_Resource ent = Some resource -> id_pair (pair_of resource principal) ->
  triple (serves U) (profile_Grant principal ent) (gives (fun r U' =>
    field_set_to U (rid_Resource principal) "ProfileId" (rid_Resource (res_Id resource)) r.2 U')).
Proof.
  intros Hu Hres [Htarget Hid]. unfold profile_Grant. rewrite Hu, Hres. cbn [negb]. eapply annotated_error.
  - apply setOneValue_sets; [done|]. apply settable_id; [by right; left|done].
  - intros [rl err] U' Hset. eexists. split; [reflexivity|exact Hset].
Qed.

Lemma user_Delete_deactivated (U : table) id :
  object_id (rid_Resource id) = true ->
  triple (serves U) (user_Delete id) (gives (fun r U' => field_set_to U (rid_Resource id) "IsActive" "false" r.2 U')).
Proof.
  intros Hid. unfold user_Delete. eapply annotated_error.
  { apply (setOneValue_sets U (rid_Resource id) "IsActive" "false"); [done|apply (settable_status false)]. }
  intros [rl [err|]] U' Hset; eexists; (split; [reflexivity|exact Hset]).
Qed.

Lemma updateUserStatus_sets (U : table) args id active :
  args !! "resource_id" = Some (PbString id) -> args !! "is_active" = Some (PbBool active) -> object_id id = true ->
  triple (serves U) (updateUserStatus args)
    (gives (fun r U' => field_set_to U id "IsActive" (strconv_FormatBool active) r.2 U')).
Proof.
  intros Hargs Hactive Hid. unfold updateUserStatus. rewrite Hargs, Hactive.
  eapply triple_bind; [apply (setOneValue_sets U id "IsActive"); [done|apply settable_status]|].
  intros [rl [err|]] w (U' & Hset & Hw); (eexists _, w; split; [reflexivity|]); exists U'; by split.
Qed.
(** ** Histories *)

Lemma field_set_done {A} (U : table) id f v (e : A -> error) a (w : World) :
  gives (fun a U' => field_set_to U id f v (e a) U') a w -> serves (set_field valid id f v U) w.
Proof. by intros (U' & [-> _] & Hw). Qed.

Lemma perform_user d (U : table) o :
  user_operation o -> triple (serves U) (perform d o) (fun _ => serves (apply_user valid U o)).
Proof.
  destruct o; try done; cbn [user_operation perform apply_user].
  - intros (Hu & resource & Hent & Hids). rewrite Hent. eapply triple_discard; [|by apply role_Grant_sets]. intros a w. apply field_set_done.
  - intros (Hres & Hid). destruct (ent_Resource (grant_Entitlement g)) as [resource|] eqn:Hent; [|done].
    eapply triple_discard; [|by apply role_Revoke_clears]. intros a w (U' & Hset & Hw).
    destruct (has_field _ _ _ U); by destruct Hset as [-> _].
  - intros (Hu & resource & Hent & Hids). rewrite Hent. eapply triple_discard; [|by apply profile_Grant_sets]. intros a w. apply field_set_done.
  - intros Hid. eapply triple_discard; [|by apply user_Delete_deactivated]. intros a w. apply field_set_done.
  - destruct (args !! "resource_id") as [[| |id| |]|] eqn:Hargs; try done.
    destruct (args !! "is_active") as [[| | |active|]|] eqn:Hactive; try done. intros Hid.
    eapply triple_discard; [|by apply (updateUserStatus_sets U args id active)]. intros a w. apply field_set_done.
Qed.

Lemma user_history d os (U : table) :
  Forall user_operation os ->
  triple (serves U) (run_all (perform d) os) (fun _ => serves (foldl (apply_user valid) U os)).
Proof. apply run_all_refines. intros. by apply perform_user. Qed.

(** ** The sync *)

(** The standard users that have this value in the field, each once. *)
Definition users_with (U : table) (f v : string) (ids : list string) : Prop :=
  NoDup ids /\ forall id, id ∈ ids <-> exists r, U !! id = Some r /\ field r "UserType" = "Standard" /\ field r f = v.

Lemma assignments_ask f v :
  f ∈ ["UserRoleId"; "ProfileId"] -> object_id v = true ->
  asks_table user_schema (WhereEq (WhereEq (NewQuery TableNameUsers []) "UserType" "Standard") f v) []
    ["UserType"; f] ["Standard"; v].
Proof.
  intros Hf Hv. pose proof (compared_id f v Hf Hv) as Hc.
  assert (Forall2 (compared user_schema) ["UserType"; f] ["Standard"; v]) as Hcs.
  { repeat constructor; try done; try apply Hc. }
  apply (WhereEq_asks user_schema [] ["UserType"; f] ["Standard"; v]); [|exact Hcs|done|by vm_compute|].
  all: repeat (apply elem_of_cons in Hf as [->|Hf]); try by apply elem_of_nil in Hf.
  all: try by repeat constructor.
Qed.

Lemma matching_users (U : table) f v rows :
  f <> SalesforcePK -> rows ≡ₚ matching U ["UserType"; f] ["Standard"; v] -> users_with U f v rows.*1.
Proof.
  intros Hf Hrows. apply String.eqb_neq in Hf. split.
  - rewrite Hrows. unfold matching. apply NoDup_fmap_2_strong; [|apply NoDup_filter, NoDup_map_to_list].
    intros [id1 r1] [id2 r2] [_ H1%elem_of_map_to_list]%list_elem_of_filter [_ H2%elem_of_map_to_list]%list_elem_of_filter Heq.
    cbn in Heq. subst. congruence.
  - intros id. rewrite list_elem_of_fmap. split.
    + intros ([id' r] & -> & Hin). rewrite Hrows in Hin.
      apply list_elem_of_filter in Hin as [Hm Hr%elem_of_map_to_list]. exists r. cbn [fst snd] in *. split; [done|].
      inversion Hm as [|???? Ht Hm']; subst. inversion Hm' as [|???? Hv _]; subst. unfold column in *. by rewrite Hf.
    + intros (r & Hr & Ht & Hv). exists (id, r). split; [done|]. rewrite Hrows. apply list_elem_of_filter.
      split; [|by apply elem_of_map_to_list]. repeat constructor; unfold column; by rewrite ?Hf.
Qed.

(** The pages of the assignments of a role or a profile. *)
Lemma assignment_sync (U : table) resource f (grant : SalesforceUser -> Grant) size w :
  f ∈ ["UserRoleId"; "ProfileId"] -> object_id (rid_Resource (res_Id resource)) = true -> serves U w ->
  exists ids w', sync_pages (fun pt => sync_read (getAssignments f (rid_Resource (res_Id resource)) (pt_Token pt) (pt_Size pt)) (map grant))
      size "" w (map (fun id => grant (user_with_id id)) ids) w'
    /\ users_with U f (rid_Resource (res_Id resource)) ids /\ serves U w'.
Proof.
  intros Hf Hv Hw. set (v := rid_Resource (res_Id resource)) in *.
  destruct (list_table Hlogged Hok user_sound U _ size _ _ _ w (assignments_ask f v Hf Hv) Hw) as (records & w' & Hp & Hw' & Hrec).
  set (rows := table_rows U _ _) in Hrec. exists rows.*1, w'. split; [|split; [|done]].
  - apply (pages_map _ _ _ user_id_of) in Hp.
    assert (map (fun id => grant (user_with_id id)) rows.*1 = map grant (map user_id_of records)) as ->.
    { clear -Hrec. induction Hrec as [|record kv records rows [Hid _] _ IH]; [done|].
      cbn [fmap list_fmap map] in *. f_equal; [|exact IH]. unfold user_id_of. by rewrite Hid. }
    unfold getAssignments. eapply pages_sync; [|exact Hp]. intros l1 l2. apply map_app.
  - apply matching_users; [|apply table_rows_spec].
    intros ->. by repeat (apply elem_of_cons in Hf as [Hf|Hf]; [done|]); apply elem_of_nil in Hf.
Qed.
End calls.

(** ** An org with two users *)

(** Every user has a profile. *)
Definition valid_user (texts : list string) : bool :=
  match texts with [_; _; _; _; _; profile; _; _] => negb (String.eqb profile "") | _ => false end.

(** A new user is active, of the type that goes with its profile. *)
Definition derived_user : fields := {["UserType" := "Standard"; "IsActive" := "true"]}.

Abbreviation user_env := (records_env user_schema valid_user never_fixed derived_user nothing_else).

#[local] Instance user_org : @TableService user_env sf_client user_schema.
Proof. apply records_service; [by apply (bool_decide_unpack _); vm_compute|by apply (bool_decide_unpack _); vm_compute|exact user_sound|
  apply (bool_decide_unpack _); by vm_compute..|done]. Defined.

Definition a_user (username role : string) : fields :=
  {["Username" := username; "UserType" := "Standard"; "ProfileId" := "00e1"; "UserRoleId" := role]}.
Definition two_users : table := {["005A" := a_user "a@x.io" "00E1"; "005B" := a_user "b@x.io" ""]}.
Definition users_world : @World user_env := @Build_World user_env {| ro_table := two_users; ro_next := 0 |} tape_client [].

Lemma two_users_ok : records_ok user_schema {| ro_table := two_users; ro_next := 0 |}.
Proof.
  unfold two_users. split; cbn [ro_table ro_next].
  - apply map_Forall_insert_2; [|apply map_Forall_singleton]; (split; [done|]); intros [|n] _; done.
  - intros id1 id2 r1 r2 [[<- <-]|[_ [<- <-]%lookup_singleton_Some]]%lookup_insert_Some
      [[<- <-]|[_ [<- <-]%lookup_singleton_Some]]%lookup_insert_Some Hsame; try done;
      by apply Forall_cons in Hsame as [Hname _].
Qed.

Lemma users_served : serves two_users users_world.
Proof. split; [vm_compute; eauto|]. split; [apply two_users_ok|reflexivity]. Qed.

(** ** Properties *)

Section properties.
Context `{TableService client user_schema} (Hlogged : isLoggedIn client = true) (Hok : url_ok client = true).

(** C10: the calls on a user's role, profile and status refine the update of one field
    of one record.  Whatever users Salesforce holds, granting a role or a profile
    and changing the status set the field of that user and nothing else; revoking
    a role blanks it while the user has that role, and otherwise is an error.
    For a user there is not, and for a change Salesforce declines, the table
    stays as it was and the answer is an error. *)
Theorem user_fields_refine principal ent g resource deleted (args : gmap string pb_value) active (U : table) :
  let user := rid_Resource principal in
  let target := rid_Resource (res_Id resource) in
  let sets f v (err : error) U' := field_set_to U user f v err U' in
  is_user principal = true -> ent_Resource ent = Some resource -> id_pair (target, user) ->
  grant_Principal g = principal -> ent_Resource (grant_Entitlement g) = Some resource -> rid_Resource deleted = user ->
  args !! "resource_id" = Some (PbString user) -> args !! "is_active" = Some (PbBool active) ->
  triple (serves U) (role_Grant principal ent) (gives (fun r => sets "UserRoleId" target r.2))
  /\ triple (serves U) (role_Revoke g) (gives (fun r U' =>
       if has_field user "UserRoleId" target U then sets "UserRoleId" "" r.2 U' else U' = U /\ plain_failure r.2))
  /\ triple (serves U) (profile_Grant principal ent) (gives (fun r => sets "ProfileId" target r.2))
  /\ triple (serves U) (user_Delete deleted) (gives (fun r => sets "IsActive" "false" r.2))
  /\ triple (serves U) (updateUserStatus args) (gives (fun r => sets "IsActive" (strconv_FormatBool active) r.2)).
Proof.
  intros user target sets Hu Hres Hids <- Hres' Hdel Hargs Hactive. pose proof (proj2 Hids) as Hid. unfold sets. split_and!.
  - by apply role_Grant_sets.
  - by apply role_Revoke_clears.
  - by apply profile_Grant_sets.
  - pose proof (user_Delete_deactivated Hlogged Hok U deleted) as Hd. rewrite Hdel in Hd. by apply Hd.
  - by apply updateUserStatus_sets.
Qed.

(** C6: the sync of roles and profiles reports what provisioning did.  After any
    sequence of well formed operations on the roles, the profiles and the status
    of users, failed ones included, collecting the pages of a role's or of a
    profile's grants comes to an end and gives the grants of exactly the standard
    users who then have it, each once: a user who was given another role is
    no longer listed under the first. *)
Theorem roles_provisioned_are_synced d os role profile size (U : table) w :
  Forall user_operation os -> id_pair (rid_Resource (res_Id role), rid_Resource (res_Id profile)) -> serves U w ->
  let left := foldl (apply_user (table_valid (t := user_schema))) U os in
  exists w1 ids1 w2 ids2 w3, run_all (perform d) os w = (Returns tt, w1)
    /\ sync_pages (role_Grants role) size "" w1
         (map (fun id => NewGrant role roleAssignmentEntitlementName (user_principal id)) ids1) w2
    /\ users_with left "UserRoleId" (rid_Resource (res_Id role)) ids1
    /\ sync_pages (profile_Grants profile) size "" w2
         (map (fun id => NewGrant profile profileAssignmentEntitlementName (user_principal id)) ids2) w3
    /\ users_with left "ProfileId" (rid_Resource (res_Id profile)) ids2.
Proof.
  intros Hos [Hrole Hprofile] Hw left. destruct (user_history Hlogged Hok d os U Hos w Hw) as ([] & w1 & Hrun & Hw1).
  destruct (assignment_sync Hlogged Hok left role "UserRoleId" (role_grant role) size w1)
    as (ids1 & w2 & Hp1 & Hids1 & Hw2); [by left|done|done|].
  destruct (assignment_sync Hlogged Hok left profile "ProfileId" (profile_grant profile) size w2)
    as (ids2 & w3 & Hp2 & Hids2 & Hw3); [by right; left|done|done|].
  exists w1, ids1, w2, ids2, w3. exact (conj Hrun (conj Hp1 (conj Hids1 (conj Hp2 Hids2)))).
Qed.
End properties.

Definition role_ceo : Resource := NewResource "CEO" resourceTypeRole "00E1" None TRole.
Definition role_cfo : Resource := NewResource "CFO" resourceTypeRole "00E2" None TRole.
Definition profile_std : Resource := NewResource "Standard" resourceTypeProfile "00e1" None NoTrait.
Definition ceo_assigned : Entitlement := NewAssignmentEntitlement (Some role_ceo) "assigned" [resourceTypeUser] "" "".
Definition cfo_assigned : Entitlement := NewAssignmentEntitlement (Some role_cfo) "assigned" [resourceTypeUser] "" "".
Definition user_b : ResourceId := user_principal "005B".

(** Revoking a role from a user who has none. *)
Lemma user_fields_refine_witness :
  exists r w, role_Revoke (as_grant user_b ceo_assigned) users_world = (Returns r, w)
    /\ serves two_users w /\ plain_failure r.2.
Proof.
  pose proof (user_fields_refine (H := user_env) sf_logged sf_url user_b ceo_assigned (as_grant user_b ceo_assigned) role_ceo user_b
    {["resource_id" := PbString "005B"; "is_active" := PbBool true]} true two_users
    eq_refl eq_refl (conj eq_refl eq_refl) eq_refl eq_refl eq_refl eq_refl eq_refl) as (_ & Hrevoke & _).
  destruct (Hrevoke users_world users_served) as (r & w & Hrun & U' & Hr & Hw).
  destruct Hr as [-> Hr]. by exists r, w.
Defined.

(** The role is handed over. *)
Definition handed_over : list operation :=
  [RoleRevoke (as_grant user_a ceo_assigned); RoleGrant user_b ceo_assigned; RoleGrant user_a cfo_assigned;
   RoleRevoke (as_grant user_a ceo_assigned); DeleteUser user_a].

Lemma roles_provisioned_are_synced_witness :
  exists w1 ids w2, run_all (perform a_connector) handed_over users_world = (Returns tt, w1)
    /\ sync_pages (role_Grants role_ceo) 100 "" w1
         (map (fun id => NewGrant role_ceo roleAssignmentEntitlementName (user_principal id)) ids) w2
    /\ forall id, id ∈ ids <-> id = "005B".
Proof.
  destruct (roles_provisioned_are_synced (H := user_env) sf_logged sf_url a_connector handed_over role_ceo profile_std 100 two_users users_world)
    as (w1 & ids & w2 & _ & _ & Hrun & Hpages & [_ Hids] & _).
  - repeat apply Forall_cons_2; [..|apply Forall_nil_2]; cbn; repeat split; try (eexists; split; [reflexivity|]); by repeat split.
  - by split.
  - exact users_served.
  - exists w1, ids, w2. split; [exact Hrun|]. split; [exact Hpages|]. intros id. rewrite Hids.
    set (left := foldl _ two_users handed_over).
    assert (left = {["005A" := <["IsActive" := "false"]> (a_user "a@x.io" "00E2"); "005B" := a_user "b@x.io" "00E1"]}) as ->
      by (apply (bool_decide_unpack _); by vm_compute).
    split.
    + intros (r & [[<- <-]|[_ [<- <-]%lookup_singleton_Some]]%lookup_insert_Some & _ & Hrole); [|done].
      vm_compute in Hrole. discriminate.
    + intros ->. exists (a_user "b@x.io" "00E1"). split; [|split; by vm_compute].
      by rewrite lookup_insert_ne, lookup_singleton_eq.
Defined.
