(* ===== verification/LeastProfile.v ===== *)
(** * Revoking a profile, over the users' table

    A profile is revoked by setting the least privileged one that the configuration
    names for its license.  [ProfileService] adds to the users' table what the API
    promises of the queries for profiles and licenses, which the connector never
    changes.  Whatever users there are, the call updates the one field of the one
    user, or changes nothing; it panics where a profile is missing. *)
From S2P Require Export UserRecords Profiles.

(** The statements, with holes. *)
Definition profile_by_id_list : string := "SELECT Name, UserLicenseId, Id FROM Profile WHERE Id = ? ORDER BY Id".
Definition profile_by_name_list : string := "SELECT Name, UserLicenseId, Id FROM Profile WHERE Name = ? ORDER BY Id".
Definition license_by_id_list : string := "SELECT Name, Id FROM UserLicense WHERE Id = ? ORDER BY Id".

(** A record shows this profile, this license. *)
Definition license_of (record : SObject) : SalesforceUserLicense :=
  {| ul_ID := SObject_ID record; ul_Name := StringField record "Name" |}.
Definition is_profile (_ : string) (record : SObject) (p : SalesforceProfile) : Prop := profile_of record = p.
Definition is_license (_ : string) (record : SObject) (l : SalesforceUserLicense) : Prop := license_of record = l.

(** Names are compared without regard to letter case. *)
Definition same_name (name : string) (p : SalesforceProfile) : Prop := strings_ToLower (pf_Name p) = strings_ToLower name.

#[export] Instance same_name_dec name p : Decision (same_name name p).
Proof. unfold same_name. apply _. Defined.

(** The documented behaviour of the profiles and licenses of an organization: ids are
    ids, and no two profiles share one, nor a name. *)
Class ProfileService `{RestService client T} := {
  profiles : list SalesforceProfile;
  licenses : list SalesforceUserLicense;
  profile_by_id : ListedBy profile_by_id_list object_id is_profile;
  profile_by_id_spec x c p : p ∈ by_rows (Listed := profile_by_id) x c <-> p ∈ profiles /\ pf_ID p = c;
  profile_by_name : ListedBy profile_by_name_list trimmed is_profile;
  profile_by_name_spec x c p : p ∈ by_rows (Listed := profile_by_name) x c <-> p ∈ profiles /\ same_name c p;
  license_by_id : ListedBy license_by_id_list object_id is_license;
  license_by_id_spec x c l : l ∈ by_rows (Listed := license_by_id) x c <-> l ∈ licenses /\ ul_ID l = c;
  profile_ids p : p ∈ profiles -> object_id (pf_ID p) = true /\ object_id (pf_UserLicenseId p) = true;
  profile_unique p1 p2 : p1 ∈ profiles -> p2 ∈ profiles -> pf_ID p1 = pf_ID p2 \/ same_name (pf_Name p1) p2 -> p1 = p2;
  license_unique l1 l2 : l1 ∈ licenses -> l2 ∈ licenses -> ul_ID l1 = ul_ID l2 -> l1 = l2;
}.

(** What a revocation comes to. *)
Inductive revocation :=
| MoveTo (profile : string)
| Refuse
| MissingProfile.

Lemma profile_by_id_lists c : lists_by profile_by_id_list (WhereEq (NewQuery TableNameProfiles []) "Id" c) c.
Proof. apply lists_one; by vm_compute. Qed.
Lemma profile_by_name_lists c : lists_by profile_by_name_list (WhereEq (NewQuery TableNameProfiles []) "Name" c) c.
Proof. apply lists_one; by vm_compute. Qed.
Lemma license_by_id_lists c : lists_by license_by_id_list (WhereEq (NewQuery TableNameUserLicenses []) "Id" c) c.
Proof. apply lists_one; by vm_compute. Qed.

Lemma is_profile_kept c : keeps_rows (is_profile c).
Proof.
  intros record p b <-. unfold is_profile, profile_of. rewrite setClient_ID.
  by rewrite !setClient_field by (apply (bool_decide_unpack _); by vm_compute).
Qed.

Lemma is_license_kept c : keeps_rows (is_license c).
Proof.
  intros record l b <-. unfold is_license, license_of. rewrite setClient_ID.
  by rewrite !setClient_field by (apply (bool_decide_unpack _); by vm_compute).
Qed.

(** The one that is found, when no two are. *)
Lemma find_unique {A} (P : A -> bool) (l : list A) x :
  (forall y, y ∈ l -> P y = true -> y = x) -> x ∈ l -> P x = true -> find P l = Some x.
Proof.
  intros Huniq Hin Hx. induction l as [|y l IH]; [by apply elem_of_nil in Hin|]. cbn [find].
  destruct (P y) eqn:Hy; [f_equal; apply Huniq; [by left|done]|].
  apply elem_of_cons in Hin as [->|Hin]; [congruence|]. apply IH; [|done]. intros z Hz. apply Huniq. by right.
Qed.

Lemma find_nothing {A} (P : A -> bool) (l : list A) : (forall x, x ∈ l -> P x = false) -> find P l = None.
Proof.
  induction l as [|y l IH]; [done|]. intros Hnone. cbn [find]. rewrite Hnone by by left. apply IH. intros x Hx. apply Hnone. by right.
Qed.

(** A read that finds this. *)
Definition reads_one `{RestService client T} {A} (x : T) (m : GoM World (option A * option RateLimitDescription * error))
    (a : option A) : Prop :=
  triple (serves x) m (fun r w => serves x w /\ exists rl, r = (a, rl, None)).

(** Reading one of a list, where no two have the value. *)
Lemma reads_one_by `{Listed} (Hlogged : isLoggedIn client = true) (Hok : url_ok client = true)
    (Hkept : forall c, keeps_rows (is_row c)) x q (f : SObject -> Row) c (P : Row -> bool) (all : list Row) :
  keys c = true -> lists statement q (args c) -> (forall record row, is_row c record row -> f record = row) ->
  (forall row, row ∈ by_rows x c <-> row ∈ all /\ P row = true) ->
  (forall r1 r2, r1 ∈ all -> r2 ∈ all -> P r1 = true -> P r2 = true -> r1 = r2) ->
  reads_one x (query_first q f) (find P all).
Proof.
  intros Hc Hq Hf Hrows Huniq. eapply triple_post; [|exact (first_by Hlogged Hok Hkept x q f c Hc Hq)].
  intros r w (Hw & rl & Hr). split; [done|]. exists rl. destruct Hr as [[Hnone ->]|(record & row & Hrow & Hrec & ->)].
  - rewrite find_nothing; [done|]. intros row Hrow. destruct (P row) eqn:HP; [|done].
    assert (row ∈ by_rows x c) as Hin by by apply Hrows. rewrite Hnone in Hin. by apply elem_of_nil in Hin.
  - apply Hrows in Hrow as [Hin HP]. rewrite (Hf _ _ Hrec). rewrite (find_unique _ _ row); [done| |done..].
    intros y Hy HPy. by apply Huniq.
Qed.

Section service.
Context `{ProfileService}.

Definition find_profile (id : string) : option SalesforceProfile := find (fun p => String.eqb (pf_ID p) id) profiles.
Definition find_license (id : string) : option SalesforceUserLicense := find (fun l => String.eqb (ul_ID l) id) licenses.
Definition named_profile (name : string) : option SalesforceProfile := find (fun p => bool_decide (same_name name p)) profiles.

(** The profile to move to: the one configured for the license of the revoked one. *)
Definition revoke_of (mapping : gmap string string) (id : string) : revocation :=
  match find_profile id with
  | None => MissingProfile
  | Some p =>
      match find_license (pf_UserLicenseId p) ≫= fun l => mapping !! ul_Name l with
      | None => Refuse
      | Some name => from_option (fun least => MoveTo (pf_ID least)) MissingProfile (named_profile name)
      end
  end.

Context (Hlogged : isLoggedIn client = true) (Hok : url_ok client = true).

(** What the three reads find. *)
Lemma GetProfileById_reads x id : object_id id = true -> reads_one x (GetProfileById id) (find_profile id).
Proof.
  intros Hid. apply (reads_one_by (H1 := profile_by_id) Hlogged Hok is_profile_kept _ _ _ id); [done|apply profile_by_id_lists|done|..].
  - intros p. by rewrite profile_by_id_spec, String.eqb_eq.
  - intros p1 p2 Hp1 Hp2 He1%String.eqb_eq He2%String.eqb_eq. apply profile_unique; [done..|]. left. congruence.
Qed.

Lemma GetProfileByName_reads x name : trimmed name = true -> reads_one x (GetProfileByName name) (named_profile name).
Proof.
  intros Hname. apply (reads_one_by (H1 := profile_by_name) Hlogged Hok is_profile_kept _ _ _ name); [done|apply profile_by_name_lists|done|..].
  - intros p. by rewrite profile_by_name_spec, bool_decide_eq_true.
  - intros p1 p2 Hp1 Hp2 He1%bool_decide_eq_true He2%bool_decide_eq_true. apply profile_unique; [done..|]. right.
    unfold same_name in *. congruence.
Qed.

Lemma GetUserLicenseByID_reads x id : object_id id = true -> reads_one x (GetUserLicenseByID id) (find_license id).
Proof.
  intros Hid. apply (reads_one_by (H1 := license_by_id) Hlogged Hok is_license_kept _ _ license_of id); [done|apply license_by_id_lists|done|..].
  - intros l. by rewrite license_by_id_spec, String.eqb_eq.
  - intros l1 l2 Hl1 Hl2 He1%String.eqb_eq He2%String.eqb_eq. apply license_unique; [done..|]. congruence.
Qed.
End service.

(** ** The call *)

Section call.
Context `{TableService client user_schema, !ProfileService} (Hlogged : isLoggedIn client = true) (Hok : url_ok client = true).

(** The call does this. *)
Definition revokes (U : table) (user : string) (what : revocation) (m : GoM World reply) : Prop :=
  match what with
  | MoveTo profile => triple (serves U) m (gives (fun r => field_set_to U user "ProfileId" profile r.2))
  | Refuse => triple (serves U) m (fun r w => r.2 <> None /\ serves U w)
  | MissingProfile => forall w, serves U w -> exists w', m w = (Panics nil_dereference, w') /\ serves U w'
  end.

(** It does so after a read. *)
Lemma read_then {A} (U : table) user what (m : GoM World (option A * option RateLimitDescription * error)) a k :
  reads_one U m a -> (forall rl, revokes U user what (k (a, rl, None))) -> revokes U user what (m ≫= k).
Proof.
  intros Hm Hk. destruct what; [eapply triple_bind; [exact Hm|]; intros r w (Hw & rl & ->); by apply (Hk rl)..|].
  intros w Hw. destruct (Hm w Hw) as (r & w' & Hrun & Hw' & rl & ->). destruct (Hk rl w' Hw') as (w'' & Hp & Hw'').
  exists w''. by rewrite (GoM_bind_run _ _ _ _ _ Hrun).
Qed.

Lemma refused (U : table) user err : revokes U user Refuse (mret ([], Some err)).
Proof. intros w Hw. by eexists _, w. Qed.

Lemma missing (U : table) user : revokes U user MissingProfile (go_panic nil_dereference).
Proof. intros w Hw. by exists w. Qed.

Lemma moved (U : table) user profile :
  object_id user = true -> object_id profile = true ->
  revokes U user (MoveTo profile) (
    '(ratelimitData, err) ← SetNewUserProfile user profile;
    match err with
    | Some err =>
        mret ([], Some (EWrap "salesforce-connector: error setting new user's profile to the least privileged profile: " err))
    | None => mret (WithRateLimitAnnotations [ratelimitData], None)
    end).
Proof.
  intros Huser Hprofile. eapply annotated_error.
  - apply (setOneValue_sets Hlogged Hok U user "ProfileId" profile); [done|]. apply settable_id; [by right; left|done].
  - intros [rl [err|]] U' [-> Hset]; eexists; (split; [reflexivity|]); split; try done.
    destruct (can_set _ _ _ _ _); [done|]. destruct Hset as (e & [= <-] & Hdup & Hs). eexists. by split_and!.
Qed.

(** The configured names are taken as they are. *)
Definition plain_names (mapping : gmap string string) : Prop := map_Forall (fun _ name => trimmed name = true) mapping.

Lemma profile_Revoke_revokes o g resource (U : table) :
  ent_Resource (grant_Entitlement g) = Some resource -> id_pair (pair_of resource (grant_Principal g)) ->
  plain_names (pb_licenseToLeastProfileMapping o) ->
  revokes U (rid_Resource (grant_Principal g))
    (revoke_of (pb_licenseToLeastProfileMapping o) (rid_Resource (res_Id resource))) (profile_Revoke o g).
Proof.
  intros Hres [Hid Huser] Hmapping. cbn [fst snd pair_of] in Hid, Huser. unfold profile_Revoke, revoke_of. rewrite Hres.
  eapply read_then; [by apply (GetProfileById_reads Hlogged Hok)|]. intros rl. destruct (find_profile _) as [p|] eqn:Hp; [|apply missing].
  apply find_some in Hp as [Hin _]. rewrite <-list_elem_of_In in Hin. destruct (profile_ids p Hin) as [_ Hlicense].
  eapply read_then; [by apply (GetUserLicenseByID_reads Hlogged Hok)|]. intros rl'. destruct (find_license _) as [l|]; [|apply refused].
  cbn [mbind option_bind]. destruct (_ !! ul_Name l) as [name|] eqn:Hname; [|apply refused].
  eapply read_then; [apply (GetProfileByName_reads Hlogged Hok); exact (Hmapping _ _ Hname)|]. intros rl''.
  destruct (named_profile name) as [least|] eqn:Hleast; [|apply missing]. cbn [from_option].
  apply find_some in Hleast as [Hin' _]. rewrite <-list_elem_of_In in Hin'. by apply moved, profile_ids.
Qed.
End call.

(** ** Properties *)

Section properties.
Context `{TableService client user_schema, !ProfileService} (Hlogged : isLoggedIn client = true) (Hok : url_ok client = true).

(** C11: revoking a profile refines one update of one record.  Whatever users there
    are, the call reads the profile, its license and the profile that the
    configuration names for the license (by name, in any letter case), and then
    sets the user's profile to that one and nothing else, or fails as Salesforce
    does not take it.  Without a license or a name for it, it changes nothing
    and fails; and when one of the two profiles is not there, it panics, with
    nothing changed. *)
Theorem profile_Revoke_refines o g resource (U : table) :
  ent_Resource (grant_Entitlement g) = Some resource -> id_pair (pair_of resource (grant_Principal g)) ->
  plain_names (pb_licenseToLeastProfileMapping o) ->
  revokes U (rid_Resource (grant_Principal g))
    (revoke_of (pb_licenseToLeastProfileMapping o) (rid_Resource (res_Id resource))) (profile_Revoke o g).
Proof. by apply profile_Revoke_revokes. Qed.
End properties.

(** ** An org with two profiles of one license *)

Definition org_profiles : list SalesforceProfile :=
  [{| pf_ID := "00e1"; pf_Name := "Admin"; pf_UserLicenseId := "1001" |};
   {| pf_ID := "00e9"; pf_Name := "Minimum Access"; pf_UserLicenseId := "1001" |}].
Definition org_licenses : list SalesforceUserLicense := [{| ul_ID := "1001"; ul_Name := "Salesforce" |}].

Definition profile_shown (p : SalesforceProfile) : json :=
  JObj [("Id", JStr (pf_ID p)); ("Name", JStr (pf_Name p)); ("UserLicenseId", JStr (pf_UserLicenseId p))].
Definition license_shown (l : SalesforceUserLicense) : json := JObj [("Id", JStr (ul_ID l)); ("Name", JStr (ul_Name l))].

Definition profiles_with_id (c : string) : list SalesforceProfile := filter (fun p => pf_ID p = c) org_profiles.
Definition profiles_with_name (c : string) : list SalesforceProfile := filter (same_name c) org_profiles.
Definition licenses_with_id (c : string) : list SalesforceUserLicense := filter (fun l => ul_ID l = c) org_licenses.

Definition profile_answer (statement c : string) : go_error + http_response :=
  let shown := if String.eqb statement profile_by_id_list then Some (map profile_shown (profiles_with_id c))
    else if String.eqb statement profile_by_name_list then Some (map profile_shown (profiles_with_name c))
    else if String.eqb statement license_by_id_list then Some (map license_shown (licenses_with_id c)) else None in
  match shown with
  | Some records => inr (json_response 200 "200 OK" (page_json records true ""))
  | None => inl (EMsg "unknown query")
  end.

Definition profile_requests (req : http_request) (u : URL) : go_error + http_response :=
  match url_QueryUnescape (strings_TrimPrefix (url_RawQuery u) "q=") ≫= read_literals None with
  | Some (statement, [c]) => profile_answer statement c
  | _ => inl (EMsg "unknown query")
  end.

Abbreviation users_env others := (records_env user_schema valid_user never_fixed derived_user others).
Abbreviation profile_env := (users_env profile_requests).

Definition users_of others (Hread : others_read others) : @TableService (users_env others) sf_client user_schema.
Proof.
  apply records_service; [by apply (bool_decide_unpack _); vm_compute|by apply (bool_decide_unpack _); vm_compute|exact user_sound|
    apply (bool_decide_unpack _); by vm_compute..|exact Hread].
Defined.

(** Statements that it answers with the rows with a value, next to whatever else. *)
Section answers.
Context (others : http_request -> URL -> go_error + http_response).
Context (Hothers_read : others_read others).
Context (Hothers : forall req u statement c page, profile_answer statement c = inr page ->
  url_QueryUnescape (strings_TrimPrefix (url_RawQuery u) "q=") ≫= read_literals None = Some (statement, [c]) ->
  req_method req = MethodGet -> others req u = inr page).

#[refine] Definition answered_by {Row} (statement : string) (keys : string -> bool) (is_row : string -> SObject -> Row -> Prop)
    (rows : string -> list Row) (show : Row -> json) (record_of : Row -> SObject)
    (Hother : find (fun q => String.eqb (template user_schema q) statement) (t_queries user_schema) = None)
    (Hanswer : forall c, profile_answer statement c = inr (json_response 200 "200 OK" (page_json (map show (rows c)) true "")))
    (Hshow : forall row, decode_sobject (show row) = Some (Some (record_of row)))
    (Hrow : forall c row, is_row c (record_of row) row) :
    @Listed (users_env others) sf_client table (@table_rest _ _ _ (users_of others Hothers_read)) Row string statement (fun c => [c]) keys is_row :=
  {| by_rows _ := rows; by_cursor _ _ _ := None |}.
Proof.
  - done.
  - intros req s e text c Hs _ Hm Hgo He Ht. destruct (goes_to_query user_schema req e Hgo) as (u & Hu & Hid & Hraw).
    assert (url_QueryUnescape (strings_TrimPrefix (url_RawQuery u) "q=") ≫= read_literals None = Some (statement, [c])) as Hread
      by (by rewrite Hraw, TrimPrefix_app, He).
    eexists _, s. split; [|split; [done|split; [done|]]].
    + cbn [env_http records_env]. unfold records_http. rewrite Hu, Hm. unfold records_get. rewrite Hid.
      unfold records_query. rewrite Hread, Hother. by rewrite (Hothers req u statement c _ (Hanswer c) Hread Hm).
    + apply (shows_all _ _ _ _ {| qr_Done := true; qr_NextRecordsURL := ""; qr_Records := map Some (map record_of (rows c)) |}
        (map record_of (rows c))); [|done|].
      * split; [done|]. split; [|done]. cbn [mbind option_bind resp_json json_response]. apply page_json_result.
        induction (rows c) as [|row l IH]; [done|]. cbn [map mapM]. by rewrite Hshow, IH.
      * apply Forall2_fmap_l, Forall_Forall2_diag, Forall_true. apply Hrow.
  - done.
Defined.

Definition profile_object (p : SalesforceProfile) : SObject :=
  <["UserLicenseId" := VString (pf_UserLicenseId p)]> (<["Name" := VString (pf_Name p)]> (<["Id" := VString (pf_ID p)]> ∅)).
Definition license_object (l : SalesforceUserLicense) : SObject :=
  <["Name" := VString (ul_Name l)]> (<["Id" := VString (ul_ID l)]> ∅).

Lemma shows_profile c p : is_profile c (profile_object p) p.
Proof. by destruct p. Qed.
Lemma shows_license c l : is_license c (license_object l) l.
Proof. by destruct l. Qed.

Lemma not_asked statement :
  forallb (fun q => negb (String.eqb (template user_schema q) statement)) (t_queries user_schema) = true ->
  find (fun q => String.eqb (template user_schema q) statement) (t_queries user_schema) = None.
Proof.
  intros Hall. apply find_nothing. intros q Hq. rewrite forallb_forall in Hall. apply negb_true_iff, Hall.
  by apply list_elem_of_In.
Qed.

Definition profiles_of : @ProfileService (users_env others) sf_client table (@table_rest _ _ _ (users_of others Hothers_read)).
Proof.
  refine {| profiles := org_profiles; licenses := org_licenses;
    profile_by_id := answered_by profile_by_id_list object_id is_profile profiles_with_id profile_shown profile_object
      (not_asked profile_by_id_list eq_refl) (fun _ => eq_refl) (fun _ => eq_refl) shows_profile;
    profile_by_name := answered_by profile_by_name_list trimmed is_profile profiles_with_name profile_shown profile_object
      (not_asked profile_by_name_list eq_refl) (fun _ => eq_refl) (fun _ => eq_refl) shows_profile;
    license_by_id := answered_by license_by_id_list object_id is_license licenses_with_id license_shown license_object
      (not_asked license_by_id_list eq_refl) (fun _ => eq_refl) (fun _ => eq_refl) shows_license |}.
  - intros x c p. cbn [by_rows answered_by]. unfold profiles_with_id. rewrite list_elem_of_filter. tauto.
  - intros x c p. cbn [by_rows answered_by]. unfold profiles_with_name. rewrite list_elem_of_filter. tauto.
  - intros x c l. cbn [by_rows answered_by]. unfold licenses_with_id. rewrite list_elem_of_filter. tauto.
  - intros p Hp. unfold org_profiles in Hp. rewrite !elem_of_cons in Hp. by destruct Hp as [->|[->|[]%elem_of_nil]].
  - intros p1 p2 Hp1 Hp2 Hsame. unfold org_profiles in Hp1, Hp2. rewrite !elem_of_cons in Hp1, Hp2.
    destruct Hp1 as [->|[->|[]%elem_of_nil]]; destruct Hp2 as [->|[->|[]%elem_of_nil]]; by destruct Hsame.
  - intros l1 l2 ->%list_elem_of_singleton ->%list_elem_of_singleton. done.
Defined.
End answers.

Lemma profile_requests_read : others_read profile_requests.
Proof.
  intros req u resp. unfold profile_requests, profile_answer. intros Hrun. repeat case_match; by simplify_eq.
Qed.

#[local] Instance profile_users : @TableService profile_env sf_client user_schema := users_of profile_requests profile_requests_read.
#[local] Instance profile_org : @ProfileService profile_env sf_client table (@table_rest _ _ _ profile_users).
Proof.
  apply profiles_of. intros req u statement c page Hanswer Hread _. unfold profile_requests. by rewrite Hread.
Defined.

(** The user of the admin profile is moved to the other one. *)
Definition profile_world : @World profile_env := @Build_World profile_env {| ro_table := two_users; ro_next := 0 |} tape_client [].

Lemma profile_Revoke_refines_witness :
  exists r w U, profile_Revoke mapping admin_grant profile_world = (Returns r, w)
    /\ serves (H := profile_env) (client := sf_client) U w /\ r.2 = None
    /\ U = <["005A" := <["ProfileId" := "00e9"]> (a_user "a@x.io" "00E1")]> two_users.
Proof.
  pose proof (profile_Revoke_refines (H := profile_env) (H1 := profile_org) sf_logged sf_url mapping admin_grant admin_profile two_users
    eq_refl (conj eq_refl eq_refl)) as Hrefines.
  assert (revoke_of (H1 := profile_org) (pb_licenseToLeastProfileMapping mapping) (rid_Resource (res_Id admin_profile)) = MoveTo "00e9") as Hto
    by (vm_compute; reflexivity).
  rewrite Hto in Hrefines. destruct (Hrefines) with (s := profile_world) as (r & w & Hrun & U & [HU Hr] & Hw).
  - apply map_Forall_singleton. reflexivity.
  - split; [vm_compute; eauto|]. split; [apply two_users_ok|reflexivity].
  - exists r, w, U. split; [exact Hrun|]. split; [exact Hw|]. split; [exact Hr|]. subst U. apply (bool_decide_unpack _). by vm_compute.
Defined.
