(* ===== verification/Accounts.v ===== *)
(** * Accounts as records of the users' table

    [CreateAccount], all of it, over the table of users: an address that somebody
    has makes no record and activates at most one user; another makes exactly
    one.  [AccountService] adds to the users' table what the API promises of the
    passwords and the logins of users.  What any sequence of account requests and
    of operations on users leaves is the relation [user_steps]; no address is given
    out twice in it and no user is lost. *)
From S2P Require Export LeastProfile.
From Stdlib Require Import Ascii.

(** The users with an address. *)
Abbreviation with_email U email := (matching U ["Email"] [email]).

(** What every user has: a type, and a last login that can be read. *)
Definition readable_user (r : fields) : Prop :=
  field r "UserType" <> "" /\ (parseSalesforceDatetime (field r "LastLoginDate")).2 = None.
Definition readable_users (U : table) : Prop := map_Forall (fun _ => readable_user) U.

(** The user of a record. *)
Definition account_of (kv : string * fields) : SalesforceUser :=
  {| u_ID := kv.1; u_Email := field kv.2 "Email"; u_Username := field kv.2 "Username";
     u_FirstName := field kv.2 "FirstName"; u_LastName := field kv.2 "LastName"; u_UserType := field kv.2 "UserType";
     u_LicenseDefinitionKey := ""; u_IsActive := checked kv.2 "IsActive";
     u_LastLoginDate := (parseSalesforceDatetime (field kv.2 "LastLoginDate")).1 |}.

(** The resource of a password, with the slashes that the client puts in the URL. *)
Definition password_path (id : string) : string := "//services/data/v64.0/sobjects/User/" +:+ id +:+ "/password".

(** The statement for the login of a user, with a hole. *)
Definition login_template : string :=
  query_text (fun _ => "?") (NewQuery_cols TableNameUserLogin []) TableNameUserLogin [QEq "UserId" "?"] [SalesforcePK] (-1).

(** The same for the logins of these users. *)
Definition logins_template (ids : list string) : string :=
  query_text (fun _ => "?") (NewQuery_cols TableNameUserLogin []) TableNameUserLogin [QIn "UserId" ids] [SalesforcePK] (-1).

(** A record of a login. *)
Definition is_login (id : string) (record : SObject) : Prop :=
  StringField record "UserId" = id
  /\ exists frozen locked, InterfaceField record "IsFrozen" = VBool frozen /\ InterfaceField record "IsPasswordLocked" = VBool locked.

(** The documented behaviour of the passwords and logins of users, and of the cache
    when it is told to forget. *)
Class AccountService `{TableService client user_schema} := {
  account_clear s :
    rest_ok s -> (env_cache_clear s).1 = None /\ rest_ok (env_cache_clear s).2
      /\ rest_state (env_cache_clear s).2 = rest_state s;
  account_reset req s id r :
    rest_ok s -> rest_state s !! id = Some r -> req_method req = MethodDelete -> goes_to client req (password_path id) "" ->
    exists resp s', env_http req s = (inr resp, s') /\ rest_ok s' /\ rest_state s' = rest_state s
      /\ (status_ok (resp_status resp) = true \/ declined resp);
  account_login req s e text id r :
    rest_ok s -> rest_state s !! id = Some r -> req_method req = MethodGet ->
    goes_to client req (query_path client) ("q=" +:+ e) ->
    url_QueryUnescape e = Some text -> read_literals None text = Some (login_template, [id]) ->
    exists resp s' result records, env_http req s = (inr resp, s') /\ rest_ok s' /\ rest_state s' = rest_state s
      /\ page_of resp result records /\ Forall (is_login id) records;
}.

(** The fields of a request: texts that the table takes as they are, and none of
    those that Salesforce fills in itself. *)
Record account_fields (request : UserCreateRequest) (vs : fields) : Prop := {
  account_texts : create_user_fields request = texts vs;
  account_plain : map_Forall (fun f _ => plain_field f) vs;
  account_kept : kept user_schema vs;
  account_own : vs !! "UserType" = None /\ vs !! "LastLoginDate" = None;
}.

(** Those of a request whose extra fields are texts. *)
Lemma requested_texts request extra :
  ucr_ExtraFields request = texts extra ->
  create_user_fields request
  = texts (list_to_map (core_user_fields request) ∪ (extra ∪ list_to_map
      [("EmailEncodingKey", "UTF-8"); ("LocaleSidKey", "en_US"); ("LanguageLocaleKey", "en_US")])).
Proof.
  intros Hextra. rewrite create_user_fields_layers, Hextra. unfold default_user_fields.
  by rewrite !fields_of_texts, <-!map_fmap_union.
Qed.

Section accounts.
Context `{AccountService} (Hlogged : isLoggedIn client = true) (Hok : url_ok client = true).

Abbreviation valid := (table_valid (t := user_schema)).

(** ** Looking for the user of an address *)

Lemma email_asks email :
  user_keeps "Email" email = true ->
  asks_table user_schema (WhereEq (NewQuery TableNameUsers []) "Email" email) [] ["Email"] [email].
Proof.
  intros Hkeeps. apply (WhereEq_asks user_schema [] ["Email"] [email]); [by right; right; left| |done|by vm_compute|by repeat constructor].
  repeat constructor; [done|]. intros Hin. by repeat (apply elem_of_cons in Hin as [Hin|Hin]; [done|]); apply elem_of_nil in Hin.
Qed.

Lemma email_turn record kv :
  is_record user_schema (NewQuery_cols TableNameUsers []) record kv -> readable_user kv.2 ->
  user_by_email_loop record = inr (Some (account_of kv)).
Proof.
  intros (Hid & Htext & Hbool) [Htype Hlogin].
  assert (forall f, f ∈ t_text user_schema -> bool_decide (f ∈ NewQuery_cols TableNameUsers []) = true ->
    StringField record f = field kv.2 f) as Hfield.
  { intros f Hf Hcol%bool_decide_eq_true. rewrite Forall_forall in Htext. by apply Htext. }
  assert (InterfaceField record "IsActive" = VBool (checked kv.2 "IsActive")) as Hactive.
  { apply Forall_inv in Hbool. apply Hbool. apply (bool_decide_unpack _). by vm_compute. }
  unfold user_by_email_loop, getIsActive. rewrite Hactive. cbn [bool_of_value].
  unfold shouldSkipSyncingUserType. rewrite !Hfield by ((by vm_compute) || set_solver).
  destruct (String.eqb_spec (field kv.2 "UserType") ""); [done|].
  destruct (parseSalesforceDatetime (field kv.2 "LastLoginDate")) as [lastLogin err] eqn:Hparse. cbn in Hlogin. subst err.
  f_equal. f_equal. unfold user_of, account_of. rewrite Hid, !Hfield by ((by vm_compute) || set_solver). by rewrite Hparse.
Qed.

Lemma email_turns records rows :
  Forall2 (is_record user_schema (NewQuery_cols TableNameUsers [])) records rows -> Forall (fun kv => readable_user kv.2) rows ->
  each_record user_by_email_loop records = inr (map account_of rows).
Proof.
  induction 1 as [|record kv records rows Hrec _ IH]; [done|]. intros [Hkv Hrows]%Forall_cons.
  cbn [each_record map]. by rewrite (email_turn record kv Hrec Hkv), IH.
Qed.

Lemma with_email_user (U : table) email id r :
  (id, r) ∈ with_email U email <-> U !! id = Some r /\ field r "Email" = email.
Proof.
  unfold matching. rewrite list_elem_of_filter, elem_of_map_to_list. split.
  - intros [Hm HU]. split; [done|]. by inversion Hm as [|???? Hf _]; subst.
  - intros [HU <-]. split; [|done]. by repeat constructor.
Qed.

(** One of the users with the address, or that there is none. *)
Definition found_user (U : table) (email : string) (r : option SalesforceUser * error) : Prop :=
  (exists kv, kv ∈ with_email U email /\ r = (Some (account_of kv), None))
  \/ with_email U email = [] /\ r = (None, Some (EStatus NotFound ("user with email " +:+ email +:+ " not found"))).

Lemma GetUserByEmail_finds (U : table) email :
  user_keeps "Email" email = true -> readable_users U ->
  triple (serves U) (GetUserByEmail email) (fun r w => found_user U email r /\ serves U w).
Proof.
  intros Hkeeps HU. unfold GetUserByEmail.
  eapply triple_bind; [apply (query_table Hlogged Hok user_sound U); by apply email_asks|].
  intros r w [(records & next & rl & shown & rest & -> & Hrows & Hrec & Hnext) Hw].
  assert (forall kv, kv ∈ shown -> kv ∈ with_email U email) as Hin.
  { intros kv Hkv. rewrite <-(table_rows_spec U), Hrows. apply elem_of_app. by left. }
  rewrite (email_turns records shown) by (done || apply Forall_forall; intros [id r] [Hid _]%Hin%with_email_user; by apply (HU id)).
  destruct shown as [|kv shown]; (eexists _, w; split; [reflexivity|]; split; [|done]).
  - right. split; [|done]. destruct Hnext as [[_ ->]|(_ & Hshown & _)]; [|done].
    apply Permutation_nil. rewrite <-(table_rows_spec U). by rewrite Hrows.
  - left. exists kv. split; [apply Hin; by left|done].
Qed.
(** ** The end of a request *)

Lemma password_url id auth :
  object_id id = true ->
  let url := sc_instanceURL client +:+ "/" +:+ ResetPasswordPath id in
  url_Parse url <> None
  /\ goes_to client {| req_method := MethodDelete; req_url := url; req_authorization := auth; req_body := NoBody |}
       (password_path id) "".
Proof.
  intros Hid url. destruct (object_id_safe id Hid) as [_ Hsafe]. pose proof Hok as [Hi _]%andb_true_iff.
  destruct (url_Parse_below (sc_instanceURL client) (ResetPasswordPath id) "") as (u & host & Hu & Hb & _ & Hh & Hpath & Hq);
    [done|unfold ResetPasswordPath; by rewrite !path_safe_app, Hsafe|done|].
  rewrite str_app_nil_r in Hu. fold url in Hu. unfold goes_to. cbn [req_url]. rewrite Hu. split; [done|]. exists u.
  by rewrite Hh, Hpath, Hq.
Qed.

(** The API takes the reset, or declines it. *)
Lemma SendResetPasswordEmail_serves (U : table) id r :
  U !! id = Some r ->
  triple (serves U) (SendResetPasswordEmail id) (fun err w => (err = None \/ plain_failure err) /\ serves U w).
Proof.
  intros Hr w Hw. pose proof (serves_id U w id r Hw Hr) as Hid. revert w Hw. unfold SendResetPasswordEmail.
  eapply triple_bind.
  { apply (on_client_serves _ U (fun a U' => U' = U /\ (a.1 = None \/ plain_failure a.1))). intros t.
    unfold ApexREST. rewrite Hlogged. cbn [negb].
    eapply triple_post; [|apply (httpRequest_settles t _ _ _ U (fun resp U' => U' = U
      /\ (status_ok (resp_status resp) = true \/ declined resp)))].
    - intros [t' [err resp]] w (resp' & U' & [-> Hq] & Hres & Hw). cbn [snd] in Hres. exists U. split; [|done]. split; [done|].
      destruct Hres as [[[= -> ->] _]|(e & [= -> ->] & Hout)]; [by left|right].
      destruct Hq as [Hst|Hdec]; [by apply (outcome_success _ _ Hout) in Hst|by eapply declined_outcome].
    - by apply (password_url id "").
    - intros auth s Hs HU. subst U. edestruct (account_reset {| req_method := MethodDelete;
        req_url := sc_instanceURL client +:+ "/" +:+ ResetPasswordPath id; req_authorization := auth;
        req_body := NoBody |} s id r) as (resp & s' & Hh & Hs' & HU & Hst);
        [done|done|reflexivity|by apply password_url|]. by exists resp, s'.
    - intros resp U' [_ [Hst|(code & Href & _)]]; [by left|right; by exists code]. }
  intros [err resp] w (U' & [-> Herr] & Hw). by exists err, w.
Qed.
(** The login of a user, if it has one. *)
Lemma login_turn id record :
  is_login id record -> exists login, login_loop record = inr (Some login) /\ l_UserId login = id.
Proof.
  intros (Hid & frozen & locked & Hf & Hl). unfold login_loop, getBoolField. rewrite Hf, Hl. cbn [bool_of_value].
  eexists. by split.
Qed.

Lemma is_login_kept id record b : is_login id record -> is_login id (setClient record b).
Proof.
  intros (Hid & frozen & locked & Hf & Hl). split; [|exists frozen, locked].
  - rewrite setClient_field; [done|]. apply (bool_decide_unpack _). by vm_compute.
  - rewrite !setClient_interface; [done|..]; apply (bool_decide_unpack _); by vm_compute.
Qed.

Lemma GetUserLogin_serves (U : table) id r :
  U !! id = Some r ->
  triple (serves U) (GetUserLogin id) (fun r w =>
    (exists login rl, r = (login, rl, None) /\ forall l, login = Some l -> l_UserId l = id) /\ serves U w).
Proof.
  intros Hr. unfold GetUserLogin.
  set (text := query_text quoteStringValue (NewQuery_cols TableNameUserLogin []) TableNameUserLogin [QEq "UserId" id] [SalesforcePK] (-1)).
  assert (plain_query TableNameUserLogin [] [QEq "UserId" id]) as Hplain by (split_and!; [by vm_compute|by constructor|by vm_compute]).
  eapply triple_bind; [eapply (query_answers Hlogged U _ "" 1 text
    (fun resp => exists result records, page_of resp result records /\ Forall (is_login id) records))|].
  - exact (getQueryString_text _ [] [QEq "UserId" id] false 1 Hplain).
  - apply query_url_parses; [done|apply query_text_no_path].
  - intros auth auth' s Hs <-.
    edestruct (account_login {| req_method := MethodGet; req_url := query_url client text; req_authorization := auth';
      req_body := NoBody |} s (url_QueryEscape text) text id r) as (resp & s' & result & records & Hh & Hs' & HU & Hpage & Hall);
      [done|done|done|apply page_request_goes; [done|apply query_text_no_path]|apply QueryUnescape_QueryEscape| |].
    + by apply (query_text_read TableNameUserLogin [] [QEq "UserId" id]).
    + exists resp, s'. split; [exact Hh|]. split; [done|]. split; [done|]. by split; exists result, records.
  - intros a w (Hw & resp & result & records & rl & (result' & records' & Hpage' & Hall) & Hpage & ->).
    destruct (page_of_unique _ _ _ _ _ Hpage' Hpage) as [-> ->]. clear Hpage Hpage'.
    destruct records as [|record records]; cbn [map].
    + eexists _, w. split; [reflexivity|]. split; [|done]. by exists None, rl.
    + apply Forall_inv in Hall. destruct (login_turn id (setClient record true)) as (login & Hlogin & Hid);
        [by apply is_login_kept|]. rewrite Hlogin. eexists _, w. split; [reflexivity|]. split; [|done].
      exists (Some login), rl. split; [done|]. by intros l [= <-].
Qed.
(** What a request for an account ends with: the resource of one of the users with
    the address, or the reset of its password was declined. *)
Definition account_ready (o : userBuilder) (U : table) (email : string)
    (r : option Resource * annotations * error) : Prop :=
  exists kv, kv ∈ with_email U email
    /\ ((exists login, r = (Some (userResource (account_of kv) login (ub_shouldUseUsernameForEmail o)), [], None)
           /\ forall l, login = Some l -> l_UserId l = kv.1)
        \/ r.1 = (None, []) /\ plain_failure r.2).

Lemma cache_cleared (U : table) : triple (serves U) (ask env_cache_clear) (fun err w => err = None /\ serves U w).
Proof.
  intros w [Hon [Hs Hx]]. destruct (account_clear _ Hs) as (Hc & Hs' & Hx'). unfold ask.
  destruct (env_cache_clear (w_env w)) as [err s'] eqn:Hclear. cbn in Hc, Hs', Hx'. eexists _, _. split; [reflexivity|].
  split; [done|]. split; [exact Hon|]. split; [done|]. cbn. congruence.
Qed.

Lemma get_user_at_once (U : table) n email :
  user_keeps "Email" email = true -> readable_users U -> with_email U email <> [] ->
  triple (serves U) (get_user_attempts (S n) email) (fun r w =>
    (exists kv, kv ∈ with_email U email /\ r = (Some (account_of kv), None)) /\ serves U w).
Proof.
  intros Hkeeps HU Hsome. cbn [get_user_attempts]. eapply triple_bind; [apply cache_cleared|].
  intros err. apply triple_pure. intros ->. eapply triple_bind; [by apply GetUserByEmail_finds|].
  intros r w [[(kv & Hkv & ->)|[Hnone _]] Hw]; [|done]. eexists _, w. split; [reflexivity|]. split; [by exists kv|done].
Qed.

Lemma finish_account_ends (o : userBuilder) (U : table) email :
  user_keeps "Email" email = true -> readable_users U -> with_email U email <> [] ->
  triple (serves U) (finish_account o email) (fun r w => account_ready o U email r /\ serves U w).
Proof.
  intros Hkeeps HU Hsome. unfold finish_account, GetUserByEmailWithRetry.
  eapply triple_bind; [by apply get_user_at_once|]. intros r w [([id u] & Hkv & ->) Hw]. cbn beta iota.
  pose proof Hkv as [Hu _]%with_email_user. destruct (SendResetPasswordEmail_serves U id u Hu w Hw) as (err & w1 & Hrun & Herr & Hw1).
  rewrite (GoM_bind_run _ _ _ _ _ Hrun). destruct Herr as [->|(e & -> & Hplain)].
  - destruct (GetUserLogin_serves U id u Hu w1 Hw1) as (r & w2 & Hlogin & (login & rl & -> & Hid) & Hw2).
    rewrite (GoM_bind_run _ _ _ _ _ Hlogin). eexists _, w2. split; [reflexivity|]. split; [|done].
    exists (id, u). split; [done|]. left. by exists login.
  - eexists _, w1. split; [reflexivity|]. split; [|done]. exists (id, u). split; [done|]. right. split; [done|by exists e].
Qed.
(** ** The request *)

(** A new record, or not: the error, and whether the account then gets ready. *)
Definition account_created (o : userBuilder) (request : UserCreateRequest) (vs : fields) (U : table)
    (r : option Resource * annotations * error) (U' : table) : Prop :=
  if mail_ParseAddress (ucr_Email request) && time_LoadLocation (ucr_TimeZoneSid request) then
    exists err, creates (t := user_schema) U vs err U'
      /\ match err with Some e => r = (None, [], Some e) | None => account_ready o U' (ucr_Email request) r end
  else U' = U /\ r.1 = (None, []) /\ r.2 <> None.

(** One of the users with the address is activated if it is not active. *)
Definition account_reactivated (o : userBuilder) (email : string) (U : table)
    (r : option Resource * annotations * error) (U' : table) : Prop :=
  exists kv, kv ∈ with_email U email /\
    if checked kv.2 "IsActive" then U' = U /\ account_ready o U email r
    else exists err, field_set_to U kv.1 "IsActive" "true" err U'
      /\ match err with Some e => r.1.1 = None /\ r.2 = Some e | None => account_ready o U' email r end.

Definition account_outcome (o : userBuilder) (request : UserCreateRequest) (vs : fields) (U : table)
    (r : option Resource * annotations * error) (U' : table) : Prop :=
  if bool_decide (with_email U (ucr_Email request) = []) then account_created o request vs U r U'
  else account_reactivated o (ucr_Email request) U r U'.

Lemma account_email request vs : account_fields request vs -> vs !! "Email" = Some (ucr_Email request).
Proof.
  intros [Htexts _ _ _]. assert (create_user_fields request !! "Email" = Some (VString (ucr_Email request))) as Hemail; cycle 1.
  { rewrite Htexts, lookup_fmap in Hemail. destruct (vs !! "Email"); [by injection Hemail as ->|done]. }
  rewrite create_user_fields_layers. apply lookup_union_Some_l. unfold fields_of. apply elem_of_list_to_map_1.
  - rewrite <-list_fmap_compose. unfold core_user_fields. destruct (String.eqb (ucr_ContactID request) ""); plain_keys.
  - apply list_elem_of_fmap. exists ("Email", ucr_Email request). split; [done|]. unfold core_user_fields. set_solver.
Qed.

Lemma account_keeps request vs : account_fields request vs -> user_keeps "Email" (ucr_Email request) = true.
Proof. intros Hvs. exact (account_kept _ _ Hvs _ _ (account_email _ _ Hvs)). Qed.

(** A new user can be read, and has the address. *)
Lemma new_user_readable request vs r : account_fields request vs -> new_record user_schema vs r -> readable_user r.
Proof.
  intros [_ _ _ [Htype Hlogin]] Hnew. split.
  - destruct Hnew as (_ & _ & Hfilled). rewrite Forall_forall in Hfilled. apply Hfilled; [set_solver|done].
  - rewrite (new_record_field _ _ _ _ Hnew) by (apply (bool_decide_unpack _); by vm_compute). unfold field. by rewrite Hlogin.
Qed.

Lemma CreateUser_creates (U : table) request vs :
  account_fields request vs ->
  triple (serves U) (CreateUser request) (gives (fun err U' =>
    if mail_ParseAddress (ucr_Email request) && time_LoadLocation (ucr_TimeZoneSid request)
    then creates (t := user_schema) U vs err U' else U' = U /\ err <> None)).
Proof.
  intros [Htexts Hplain Hkept _]. unfold CreateUser.
  assert (forall e : go_error, triple (serves U) (mret (Some e)) (gives (fun err U' => U' = U /\ err <> None))) as Hfail.
  { intros e w Hw. eexists _, w. split; [reflexivity|]. by exists U. }
  destruct (mail_ParseAddress _); [|apply Hfail]. destruct (time_LoadLocation _); [|apply Hfail]. cbn [negb andb].
  rewrite Htexts. eapply triple_bind; [by apply (CreateObject_table Hok user_sound)|].
  intros [rl err] w Hw. by exists err, w.
Qed.

Lemma readable_insert (U : table) id r : readable_users U -> readable_user r -> readable_users (<[id := r]> U).
Proof. intros HU Hr. by apply map_Forall_insert_2. Qed.

(** Setting a field leaves the others. *)
Lemma set_field_readable (U : table) id f v :
  f <> "UserType" -> f <> "LastLoginDate" -> readable_users U -> readable_users (set_field valid id f v U).
Proof.
  intros Ht Hl HU. unfold set_field. destruct (U !! id) as [r|] eqn:Hr; [|done]. destruct (valid _); [|done].
  apply readable_insert; [done|]. destruct (HU id r Hr).
  split; rewrite field_set; case_match eqn:Hf; try done; apply String.eqb_eq in Hf; congruence.
Qed.

Lemma set_field_email (U : table) id f v email :
  f <> "Email" -> with_email U email <> [] -> with_email (set_field valid id f v U) email <> [].
Proof.
  intros Hf Hsome. unfold set_field. destruct (U !! id) as [r|] eqn:Hr; [|done]. destruct (valid _); [|done].
  destruct (with_email U email) as [|[id' r'] l] eqn:Hl; [done|]. clear Hsome.
  assert ((id', r') ∈ with_email U email) as Hin by (rewrite Hl; by left).
  apply with_email_user in Hin as [Hr' He]. intros Hnone.
  destruct (decide (id' = id)) as [->|Hne].
  - simplify_eq. assert ((id, list_to_map [(f, v)] ∪ r) ∈ with_email (<[id := list_to_map [(f, v)] ∪ r]> U) (field r "Email")) as Hin.
    { apply with_email_user. split; [by rewrite lookup_insert_eq|]. rewrite field_set.
      destruct (String.eqb_spec "Email" f); [congruence|done]. }
    rewrite Hnone in Hin. by apply elem_of_nil in Hin.
  - assert ((id', r') ∈ with_email (<[id := list_to_map [(f, v)] ∪ r]> U) email) as Hin
      by (apply with_email_user; by rewrite lookup_insert_ne).
    rewrite Hnone in Hin. by apply elem_of_nil in Hin.
Qed.

Lemma found_again (U : table) email kv : kv ∈ with_email U email -> with_email U email <> [].
Proof. intros Hkv Hnone. rewrite Hnone in Hkv. by apply elem_of_nil in Hkv. Qed.

Lemma UserExist_tells (U : table) email :
  user_keeps "Email" email = true -> readable_users U ->
  triple (serves U) (UserExist email) (fun r w => r = (negb (bool_decide (with_email U email = [])), None) /\ serves U w).
Proof.
  intros Hkeeps HU. unfold UserExist. eapply triple_bind; [by apply GetUserByEmail_finds|].
  intros r w [[(kv & Hkv & ->)|[Hnone ->]] Hw]; cbn beta iota; (eexists _, w; split; [reflexivity|]; split; [|done]).
  - rewrite bool_decide_eq_true_2 by done. by rewrite (bool_decide_eq_false_2 _ (found_again _ _ _ Hkv)).
  - by rewrite (bool_decide_eq_true_2 _ Hnone).
Qed.

(** A record that was made is found. *)
Lemma created_user (U : table) request vs U' :
  account_fields request vs -> readable_users U -> creates (t := user_schema) U vs None U' ->
  readable_users U' /\ with_email U' (ucr_Email request) <> [].
Proof.
  intros Hvs HU. unfold creates. destruct (valid _); [|by intros [_ (e & He & _)]].
  intros [(_ & _ & e & He & _)|(_ & (id & r & Hid & Hnew & ->) & _)]; [done|].
  split; [apply readable_insert; [done|by eapply new_user_readable]|].
  apply (found_again _ _ (id, r)), with_email_user. split; [by rewrite lookup_insert_eq|].
  apply (new_record_given _ _ _ _ _ Hnew). by apply account_email.
Qed.

Lemma CreateAccount_makes (o : userBuilder) profile request vs (U : table) :
  getUserCreateRequestParams profile = inr request -> account_fields request vs -> readable_users U ->
  triple (serves U) (CreateAccount o profile) (gives (fun r U' => account_outcome o request vs U r U')).
Proof.
  intros Hparams Hvs HU. pose proof (account_keeps _ _ Hvs) as Hkeeps. unfold CreateAccount. rewrite Hparams.
  set (email := ucr_Email request) in *. eapply triple_bind; [by apply UserExist_tells|].
  intros r. apply triple_pure. intros ->. cbn beta iota. unfold account_outcome. fold email.
  destruct (decide (with_email U email = [])) as [Hnone|Hsome].
  - rewrite !(bool_decide_eq_true_2 _ Hnone). cbn [negb]. eapply triple_bind; [by apply CreateUser_creates|].
    intros err w (U' & Hcr & Hw). unfold account_created. destruct (_ && _).
    + destruct err as [e|].
      * eexists _, w. split; [reflexivity|]. exists U'. split; [|done]. by exists (Some e).
      * destruct (created_user _ _ _ _ Hvs HU Hcr) as [HU' Hfound].
        destruct (finish_account_ends o U' email Hkeeps HU' Hfound w Hw) as (r & w' & Hrun & Hr & Hw').
        exists r, w'. split; [exact Hrun|]. exists U'. split; [|done]. by exists None.
    + destruct Hcr as [-> Herr]. destruct err as [e|]; [|done]. eexists _, w. split; [reflexivity|]. by exists U.
  - rewrite !(bool_decide_eq_false_2 _ Hsome). cbn [negb]. eapply triple_bind; [by apply GetUserByEmail_finds|].
    intros r w [[([id u] & Hkv & ->)|[Hnone _]] Hw]; [|done]. cbn [account_of u_IsActive u_ID fst snd].
    destruct (checked u "IsActive") eqn:Hactive; cbn [negb].
    + destruct (finish_account_ends o U email Hkeeps HU Hsome w Hw) as (r & w' & Hrun & Hr & Hw').
      exists r, w'. split; [exact Hrun|]. exists U. split; [|done]. exists (id, u). cbn [snd]. by rewrite Hactive.
    + pose proof Hkv as [Hu _]%with_email_user.
      destruct (setOneValue_sets Hlogged Hok U id "IsActive" "true") with (s := w) as ([rl err] & w1 & Hrun & U' & Hset & Hw1);
        [by eapply serves_id|apply (settable_status true)|done|].
      unfold SetUserActiveState. cbn [strconv_FormatBool]. rewrite (GoM_bind_run _ _ _ _ _ Hrun). cbn [snd] in Hset.
      destruct err as [e|].
      * eexists _, w1. split; [reflexivity|]. exists U'. split; [|done]. exists (id, u). cbn [fst snd]. rewrite Hactive.
        split; [done|]. by exists (Some e).
      * pose proof Hset as [HU' _]. destruct (finish_account_ends o U' email Hkeeps) with (s := w1) as (r & w' & Hrun' & Hr & Hw');
          [subst U'; by apply set_field_readable|subst U'; by apply set_field_email|done|].
        exists r, w'. split; [exact Hrun'|]. exists U'. split; [|done]. exists (id, u). cbn [fst snd]. rewrite Hactive.
        split; [done|]. by exists None.
Qed.
(** ** Sequences of requests *)

(** The users with an address, and what no call of the connector does: lose a user,
    or give an address that a user has to another one. *)
Definition holders (U : table) (email : string) : gset string := dom (filter (fun kv => field kv.2 "Email" = email) U).

Record grows (U U' : table) : Prop := {
  grows_users : dom U ⊆ dom U';
  grows_holders email : size (holders U' email) <= 1 `max` size (holders U email);
}.

#[export] Instance grows_preorder : PreOrder grows.
Proof.
  split.
  - intros U. split; [done|]. intros email. lia.
  - intros U1 U2 U3 [Hdom Hsize] [Hdom' Hsize']. split; [by etrans|]. intros email.
    specialize (Hsize email). specialize (Hsize' email). lia.
Qed.

Lemma holder (U : table) email id : id ∈ holders U email <-> exists r, U !! id = Some r /\ field r "Email" = email.
Proof.
  unfold holders. rewrite elem_of_dom. split.
  - intros [r [Hr He]%map_lookup_filter_Some]. by exists r.
  - intros (r & Hr & He). exists r. by apply map_lookup_filter_Some.
Qed.

Lemma no_holders (U : table) email : with_email U email = [] -> holders U email = ∅.
Proof.
  intros Hnone. apply set_eq. intros id. rewrite holder. split; [|by intros ?%elem_of_empty].
  intros (r & Hr). apply with_email_user in Hr. rewrite Hnone in Hr. by apply elem_of_nil in Hr.
Qed.

(** Setting another field than the address. *)
Lemma set_field_grows (U : table) id f v : f <> "Email" -> grows U (set_field valid id f v U).
Proof.
  intros Hf. unfold set_field. destruct (U !! id) as [r|] eqn:Hr; [|done]. destruct (valid _); [|done].
  set (r' := list_to_map [(f, v)] ∪ r). assert (field r' "Email" = field r "Email") as He.
  { unfold r'. rewrite field_set. destruct (String.eqb_spec "Email" f); [congruence|done]. }
  split; [rewrite dom_insert; apply union_subseteq_r|]. intros email.
  assert (holders (<[id := r']> U) email = holders U email) as ->; [|lia]. apply set_eq. intros id'. rewrite !holder.
  destruct (decide (id' = id)) as [->|Hne]; [|by rewrite lookup_insert_ne]. rewrite lookup_insert_eq, Hr.
  split; intros (r0 & [= <-] & <-); [exists r|exists r']; by rewrite He.
Qed.

Lemma created_grows (U : table) request vs err U' :
  account_fields request vs -> with_email U (ucr_Email request) = [] -> creates (t := user_schema) U vs err U' -> grows U U'.
Proof.
  intros Hvs Hnone. unfold creates. destruct (valid _); [|by intros [-> _]].
  intros [(_ & -> & _)|(_ & (id & r & Hid & Hnew & ->) & _)]; [done|]. apply not_elem_of_dom in Hid as Hdom.
  assert (field r "Email" = ucr_Email request) as He by (apply (new_record_given _ _ _ _ _ Hnew); by apply account_email).
  split; [rewrite dom_insert; apply union_subseteq_r|]. intros email. destruct (decide (email = ucr_Email request)) as [->|Hne].
  - assert (holders (<[id := r]> U) (ucr_Email request) ⊆ {[id]}) as Hsub.
    { intros id'. rewrite holder. intros (r0 & [[-> _]|[_ Hr0]]%lookup_insert_Some & He0); [set_solver|].
      assert (id' ∈ holders U (ucr_Email request)) as Hin by (apply holder; by exists r0).
      rewrite no_holders in Hin by done. set_solver. }
    apply subseteq_size in Hsub. rewrite size_singleton in Hsub. lia.
  - assert (holders (<[id := r]> U) email = holders U email) as ->; [|lia]. apply set_eq. intros id'. rewrite !holder.
    destruct (decide (id' = id)) as [->|Hne']; [|by rewrite lookup_insert_ne]. rewrite lookup_insert_eq.
    split; [intros (r0 & [= <-] & He'); congruence|]. intros (r0 & Hr0 & _). congruence.
Qed.

Lemma outcome_grows (o : userBuilder) request vs (U : table) r U' :
  account_fields request vs -> readable_users U -> account_outcome o request vs U r U' -> grows U U' /\ readable_users U'.
Proof.
  intros Hvs HU. unfold account_outcome, account_created, account_reactivated. case_bool_decide as Hnone.
  - destruct (_ && _); [|by intros [-> _]]. intros (err & Hcr & _). split; [by eapply created_grows|].
    destruct err as [e|]; [|by eapply created_user]. unfold creates in Hcr. destruct (valid _); [|by destruct Hcr as [-> _]].
    by destruct Hcr as [(_ & -> & _)|(_ & _ & He)].
  - intros (kv & Hkv & Hcase). destruct (checked _ _); [by destruct Hcase as [-> _]|].
    destruct Hcase as (err & [-> _] & _). split; [by apply set_field_grows|by apply set_field_readable].
Qed.

(** ** Histories *)

Context `{!ProfileService}.

(** What revoking a profile comes to. *)
Definition profile_revocation (d : Salesforce) (g : Grant) : revocation :=
  match ent_Resource (grant_Entitlement g) with
  | Some resource => revoke_of (d_licenseToLeastProfileMapping d) (rid_Resource (res_Id resource))
  | None => MissingProfile
  end.

(** Well formed operations on users, and requests for accounts.  The two profiles
    that a revocation is about have to be there: see [profile_Revoke_panics]. *)
Definition account_operation (d : Salesforce) (o : operation) : Prop :=
  match o with
  | ProfileRevoke g => plain_names (d_licenseToLeastProfileMapping d) /\ profile_revocation d g <> MissingProfile
      /\ exists resource, ent_Resource (grant_Entitlement g) = Some resource /\ id_pair (pair_of resource (grant_Principal g))
  | CreateUserAccount profile =>
      match getUserCreateRequestParams profile with
      | inl _ => True
      | inr request => exists vs, account_fields request vs
      end
  | o => user_operation o
  end.

Lemma set_one_grows (U : table) id f v :
  f ∈ ["UserRoleId"; "ProfileId"; "IsActive"] -> readable_users U ->
  grows U (set_field valid id f v U) /\ readable_users (set_field valid id f v U).
Proof.
  intros Hf HU. repeat (apply elem_of_cons in Hf as [->|Hf]); [..|by apply elem_of_nil in Hf];
    (split; [by apply set_field_grows|by apply set_field_readable]).
Qed.

Lemma apply_user_grows (U : table) o :
  readable_users U -> grows U (apply_user valid U o) /\ readable_users (apply_user valid U o).
Proof.
  intros HU. destruct o; cbn [apply_user]; repeat case_match;
    first [by split|apply set_one_grows; [apply (bool_decide_unpack _); by vm_compute|done]].
Qed.

(** What an operation does to the users. *)
Definition user_step (d : Salesforce) (U : table) (o : operation) (U' : table) : Prop :=
  match o with
  | CreateUserAccount profile =>
      match getUserCreateRequestParams profile with
      | inl _ => U' = U
      | inr request => exists vs r, account_fields request vs /\ account_outcome (the_userBuilder d) request vs U r U'
      end
  | ProfileRevoke g =>
      match profile_revocation d g with
      | MoveTo profile => U' = set_field valid (rid_Resource (grant_Principal g)) "ProfileId" profile U
      | _ => U' = U
      end
  | o => U' = apply_user valid U o
  end.

(** What a sequence of them leaves. *)
Inductive user_steps (d : Salesforce) : table -> list operation -> table -> Prop :=
| steps_done U : user_steps d U [] U
| steps_more U o U1 os U2 : user_step d U o U1 -> user_steps d U1 os U2 -> user_steps d U (o :: os) U2.

Lemma user_step_grows d (U : table) o U' :
  user_step d U o U' -> readable_users U -> grows U U' /\ readable_users U'.
Proof.
  assert ((exists profile, o = CreateUserAccount profile) \/ (exists g, o = ProfileRevoke g)
    \/ (user_step d U o U' -> U' = apply_user valid U o)) as [[profile ->]|[[g ->]|Ho]] by (destruct o; eauto).
  - cbn [user_step]. destruct (getUserCreateRequestParams profile) as [err|request]; [by intros -> HU|].
    intros (vs & r & Hvs & Hout) HU. by eapply outcome_grows.
  - cbn [user_step]. destruct (profile_revocation d g); intros -> HU; [|done..].
    apply set_one_grows; [by right; left|done].
  - intros ->%Ho HU. by apply apply_user_grows.
Qed.

Lemma user_steps_grow d (U : table) os U' :
  user_steps d U os U' -> readable_users U -> grows U U' /\ readable_users U'.
Proof.
  induction 1 as [U|U o U1 os U2 Hstep _ IH]; intros HU; [done|].
  destruct (user_step_grows d U o U1 Hstep HU) as [Hg1 HU1]. destruct (IH HU1). split; [by etrans|done].
Qed.

Lemma profile_revoked d (U : table) g :
  account_operation d (ProfileRevoke g) ->
  triple (serves U) (perform d (ProfileRevoke g)) (gives (fun _ U' => user_step d U (ProfileRevoke g) U')).
Proof.
  intros (Hnames & Hthere & resource & Hres & Hids). cbn [perform user_step]. unfold profile_revocation in *. rewrite Hres in *.
  pose proof (profile_Revoke_revokes Hlogged Hok (the_profileBuilder d) g resource U Hres Hids Hnames) as Hrev.
  cbn [the_profileBuilder newProfileBuilder pb_licenseToLeastProfileMapping] in Hrev.
  destruct (revoke_of _ _) as [profile| |]; [|..|done]; (eapply triple_bind; [exact Hrev|]).
  - intros r w (U' & [-> _] & Hw). exists tt, w. split; [done|]. by eexists.
  - intros r w [_ Hw]. exists tt, w. split; [done|]. by exists U.
Qed.

Lemma perform_step d (U : table) o :
  account_operation d o -> readable_users U -> triple (serves U) (perform d o) (gives (fun _ U' => user_step d U o U')).
Proof.
  intros Ho HU. assert (user_operation o \/ (exists profile, o = CreateUserAccount profile) \/ exists g, o = ProfileRevoke g)
    as [Huser|[[profile ->]|[g ->]]] by (destruct o; eauto).
  { eapply triple_post; [|by apply (perform_user Hlogged Hok d U)]. intros [] w Hw. eexists. split; [|exact Hw].
    by destruct o. }
  2: by apply profile_revoked.
  cbn [account_operation perform user_step] in *. destruct (getUserCreateRequestParams profile) as [err|request] eqn:Hparams.
  - intros w Hw. unfold CreateAccount. rewrite Hparams. eexists _, w. split; [reflexivity|]. by exists U.
  - destruct Ho as [vs Hvs]. eapply triple_bind; [by apply CreateAccount_makes|].
    intros r w (U' & Hout & Hw). exists tt, w. split; [done|]. exists U'. split; [by exists vs, r|done].
Qed.

Lemma perform_steps d os (U : table) :
  Forall (account_operation d) os -> readable_users U ->
  triple (serves U) (run_all (perform d) os) (gives (fun _ U' => user_steps d U os U')).
Proof.
  intros Hos. revert U. induction Hos as [|o os Ho _ IH]; intros U HU.
  { apply triple_ret. intros w Hw. exists U. by split; [constructor|]. }
  eapply triple_bind; [by apply perform_step|]. intros [] w (U1 & Hstep & Hw).
  destruct (user_step_grows d U o U1 Hstep HU) as [_ HU1].
  destruct (IH U1 HU1 w Hw) as (r & w' & Hrun & U2 & Hsteps & Hw'). exists r, w'. split; [exact Hrun|].
  exists U2. split; [by econstructor|done].
Qed.
End accounts.

(** ** An org with two users *)

(** It takes every reset, and every user has a login; that of [frozen_user] is frozen. *)
Definition frozen_user : string := "005F".
Definition login_json (id : string) : json :=
  JObj [("Id", JStr "0Yw1"); ("UserId", JStr id); ("IsFrozen", JBool (String.eqb id frozen_user)); ("IsPasswordLocked", JBool false)].

Definition logins_page (ids : list string) : http_response :=
  json_response 200 "200 OK" (page_json (map login_json ids) true "").

Definition account_requests (req : http_request) (u : URL) : go_error + http_response :=
  match req_method req with
  | MethodDelete => if strings_HasPrefix (url_Path u) "//services/data/v64.0/sobjects/User/" then inr no_content else inl (EMsg "unknown resource")
  | MethodGet =>
      match url_QueryUnescape (strings_TrimPrefix (url_RawQuery u) "q=") ≫= read_literals None with
      | Some (text, ids) =>
          if String.eqb text login_template || String.eqb text (logins_template ids) then inr (logins_page ids)
          else profile_requests req u
      | None => inl (EMsg "unknown query")
      end
  | _ => inl (EMsg "unknown resource")
  end.

(** The record of a login. *)
Definition login_object (id : string) : SObject :=
  <["IsPasswordLocked" := VBool false]> (<["IsFrozen" := VBool (String.eqb id frozen_user)]>
    (<["UserId" := VString id]> (<["Id" := VString "0Yw1"]> ∅))).

Lemma logins_page_of ids :
  page_of (logins_page ids) {| qr_Done := true; qr_NextRecordsURL := ""; qr_Records := map Some (map login_object ids) |}
    (map login_object ids).
Proof.
  split; [done|]. split; [|done]. cbn [mbind option_bind resp_json json_response logins_page]. apply page_json_result.
  by induction ids as [|id ids IH]; [|cbn [map mapM]; rewrite IH].
Qed.

Abbreviation account_env := (users_env account_requests).

Lemma account_requests_read : others_read account_requests.
Proof.
  intros req u resp. unfold account_requests. intros Hrun. repeat case_match; simplify_eq; try done.
  all: by eapply profile_requests_read.
Qed.

#[local] Instance account_table : @TableService account_env sf_client user_schema := users_of account_requests account_requests_read.

(** It has the two profiles. *)
#[local] Instance account_profiles : @ProfileService account_env sf_client table (@table_rest _ _ _ account_table).
Proof.
  apply profiles_of. intros req u statement c page Hanswer Hread Hm. unfold account_requests. rewrite Hm, Hread.
  destruct (String.eqb_spec statement login_template) as [->|_]; [done|].
  destruct (String.eqb_spec statement (logins_template [c])) as [->|_]; cbn [orb].
  - unfold logins_template in Hanswer. rewrite user_login_head in Hanswer. by vm_compute in Hanswer.
  - unfold profile_requests. by rewrite Hread.
Defined.

(** The queries for logins are answered with them. *)
Lemma logins_answered req (s : @env_state account_env) e text holes ids :
  req_method req = MethodGet -> goes_to sf_client req (query_path sf_client) ("q=" +:+ e) ->
  url_QueryUnescape e = Some text -> read_literals None text = Some (holes, ids) ->
  holes = login_template \/ holes = logins_template ids ->
  @env_http account_env req s = (inr (logins_page ids), s).
Proof.
  intros Hm Hgo He Ht Hholes. destruct (goes_to_query user_schema req e Hgo) as (u & Hu & Hid & Hraw).
  assert (find (fun q => String.eqb (template user_schema q) holes) (t_queries user_schema) = None) as Hother.
  { destruct Hholes as [->| ->]; [by vm_compute|]. unfold logins_template. rewrite user_login_head. by vm_compute. }
  assert ((String.eqb holes login_template || String.eqb holes (logins_template ids))%bool = true) as Hknown.
  { destruct Hholes as [->| ->]; rewrite String.eqb_refl; [done|apply orb_true_r]. }
  cbn [env_http records_env]. unfold records_http. rewrite Hu, Hm. unfold records_get. rewrite Hid.
  unfold records_query. rewrite Hraw, TrimPrefix_app, He. cbn [mbind option_bind]. rewrite Ht, Hother.
  unfold account_requests. rewrite Hm, Hraw, TrimPrefix_app, He. cbn [mbind option_bind]. by rewrite Ht, Hknown.
Qed.

#[local] Instance account_org : @AccountService account_env sf_client account_table.
Proof.
  split.
  - done.
  - intros req s id r Hs Hr Hm (u & Hu & _ & Hpath & _). exists no_content, s. split; [|by split_and!; [..|left]].
    cbn [env_http records_env]. unfold records_http, path_id. rewrite Hu, Hm, Hpath. unfold account_requests. by rewrite Hm, Hpath.
  - intros req s e text id r Hs Hr Hm Hgo He Ht. pose proof (logins_answered req s e text _ [id] Hm Hgo He Ht (or_introl eq_refl)) as Hrun.
    exists (logins_page [id]), s. eexists _, _. split; [exact Hrun|]. split; [done|]. split; [done|]. split; [apply logins_page_of|].
    apply Forall_singleton. split; [reflexivity|]. exists (String.eqb id frozen_user), false. by split.
Defined.

(** ** Properties *)

Section properties.
Context `{Env} {client : simple_client} `{!TableService client user_schema, !AccountService, !ProfileService}.
Context (Hlogged : isLoggedIn client = true) (Hok : url_ok client = true).

(** C17: a request for an account does to the users' table what it says, whatever the
    table holds.  For an address that nobody has, and that is one, Salesforce is
    asked for one record, with the fields of the request: it is there and the
    account is that user's, or the record was refused and nothing changed.  For
    one that somebody has, no record is made: one of the users with the address
    is activated if it was not, and nothing else changes.  The account is the
    resource of a user with the address and its login, unless the reset of the
    password is declined.  A request that is not well formed changes nothing. *)
Theorem account_requests_refine (o : userBuilder) profile (U : table) :
  readable_users U ->
  match getUserCreateRequestParams profile with
  | inl _ => triple (serves U) (CreateAccount o profile) (fun r w => r.1 = (None, []) /\ r.2 <> None /\ serves U w)
  | inr request => forall vs, account_fields request vs ->
      triple (serves U) (CreateAccount o profile) (gives (fun r U' => account_outcome o request vs U r U'))
  end.
Proof.
  intros HU. destruct (getUserCreateRequestParams profile) as [err|request] eqn:Hparams.
  - intros w Hw. unfold CreateAccount. rewrite Hparams. eexists _, w. by split_and!.
  - intros vs Hvs. by apply CreateAccount_makes.
Qed.

(** C18: no user is lost and no address is given out twice.  After any sequence of
    requests for accounts and of operations on the roles, profiles and status of
    users, failed ones and revocations of profiles included, every user is still
    there, and for each address there are no more users than there were, or
    one. *)
Theorem accounts_are_unique d os (U : table) w :
  Forall (account_operation d) os -> readable_users U -> serves U w ->
  exists w' U', run_all (perform d) os w = (Returns tt, w') /\ serves U' w'
    /\ dom U ⊆ dom U' /\ forall email, size (holders U' email) <= 1 `max` size (holders U email).
Proof.
  intros Hos HU Hw. destruct (perform_steps Hlogged Hok d os U Hos HU w Hw) as ([] & w' & Hrun & U' & Hsteps & Hw').
  destruct (user_steps_grow Hlogged Hok d U os U' Hsteps HU) as [[Hdom Hsize] _]. by exists w', U'.
Qed.
End properties.

(** An inactive user, with an address. *)
Definition idle_user : fields := <["Email" := "a@x.io"]> (<["IsActive" := "false"]> (a_user "a@x.io" "")).
Definition idle_users : table := {["005A" := idle_user]}.
Definition accounts_world : @World account_env := @Build_World account_env {| ro_table := idle_users; ro_next := 0 |} tape_client [].

Lemma accounts_served : serves (H := account_env) (client := sf_client) idle_users accounts_world.
Proof.
  split; [vm_compute; eauto|]. split; [|reflexivity].
  change (w_env accounts_world) with ({| ro_table := {["005A" := idle_user]}; ro_next := 0 |}). split; cbn [ro_table ro_next].
  - apply map_Forall_singleton. split; [done|]. by intros [|n].
  - by intros id1 id2 r1 r2 [<- _]%lookup_singleton_Some [<- _]%lookup_singleton_Some.
Qed.

Lemma idle_readable : readable_users idle_users.
Proof. apply map_Forall_singleton. split; [done|reflexivity]. Qed.

Definition requested_fields (email : string) : fields :=
  list_to_map [("Username", email); ("Alias", "a"); ("Email", email); ("LastName", "B"); ("FirstName", "A");
    ("TimeZoneSidKey", "UTC"); ("ProfileId", "00e1")]
  ∪ (∅ ∪ list_to_map [("EmailEncodingKey", "UTF-8"); ("LocaleSidKey", "en_US"); ("LanguageLocaleKey", "en_US")]).

Definition profile_for (email : string) : option (gmap string pb_value) := Some (<["email" := PbString email]> account_profile).
Definition request_for (email : string) : UserCreateRequest :=
  {| ucr_Email := email; ucr_Alias := "a"; ucr_LastName := "B"; ucr_FirstName := "A"; ucr_ProfileId := "00e1";
     ucr_TimeZoneSid := "UTC"; ucr_ContactID := ""; ucr_ExtraFields := ∅ |}.

Lemma requested email :
  bool_decide (map_Forall (fun f _ => plain_field f) (requested_fields email) /\ kept user_schema (requested_fields email)
    /\ requested_fields email !! "UserType" = None /\ requested_fields email !! "LastLoginDate" = None) = true ->
  account_fields (request_for email) (requested_fields email).
Proof.
  intros (Hplain & Hkept & Hown)%bool_decide_eq_true. split; [|done..]. by apply (requested_texts (request_for email) ∅).
Qed.

(** The address is idle: the account is that user's, active again. *)
Lemma account_requests_refine_witness :
  exists r w U', CreateAccount syncer_options (profile_for "a@x.io") accounts_world = (Returns r, w)
    /\ serves (H := account_env) (client := sf_client) U' w
    /\ U' = {["005A" := <["IsActive" := "true"]> idle_user]} /\ account_ready syncer_options U' "a@x.io" r.
Proof.
  pose proof (account_requests_refine (H := account_env) sf_logged sf_url syncer_options (profile_for "a@x.io") idle_users idle_readable)
    as Hmakes.
  assert (getUserCreateRequestParams (profile_for "a@x.io") = inr (request_for "a@x.io")) as Hparams by (vm_compute; reflexivity).
  rewrite Hparams in Hmakes. destruct (Hmakes _ (requested "a@x.io" eq_refl) accounts_world accounts_served)
    as (r & w & Hrun & U' & Hout & Hw).
  exists r, w, U'. split; [exact Hrun|]. split; [exact Hw|]. unfold account_outcome in Hout.
  assert (with_email idle_users "a@x.io" = [("005A", idle_user)]) as Hfound by reflexivity.
  cbn [ucr_Email request_for] in Hout. rewrite Hfound in Hout. cbn in Hout.
  destruct Hout as (kv & Hkv & Hcase). rewrite Hfound in Hkv. apply list_elem_of_singleton in Hkv as ->.
  change (checked (snd ("005A", idle_user)) "IsActive") with false in Hcase. destruct Hcase as (err & [-> Herr] & Hcase).
  change (err = None) in Herr. subst err. split; [|exact Hcase]. apply (bool_decide_unpack _). by vm_compute.
Defined.

(** The idle user is asked for twice, somebody new twice, and the first one is
    deactivated in between. *)
Definition account_changes : list operation :=
  [CreateUserAccount (profile_for "a@x.io"); DeleteUser user_a; CreateUserAccount (profile_for "c@x.io");
   CreateUserAccount None; ProfileRevoke admin_grant; CreateUserAccount (profile_for "a@x.io"); CreateUserAccount (profile_for "c@x.io")].

Lemma revocable : account_operation (H2 := account_profiles) a_connector (ProfileRevoke admin_grant).
Proof.
  split; [by apply map_Forall_singleton|]. split; [|by exists admin_profile].
  assert (profile_revocation (H2 := account_profiles) a_connector admin_grant = MoveTo "00e9") as -> by (vm_compute; reflexivity). done.
Qed.

Lemma accounts_are_unique_witness :
  exists w U, run_all (perform a_connector) account_changes accounts_world = (Returns tt, w)
    /\ serves (H := account_env) (client := sf_client) U w
    /\ "005A" ∈ dom U /\ size (holders U "a@x.io") <= 1 /\ size (holders U "c@x.io") <= 1.
Proof.
  destruct (accounts_are_unique (H := account_env) sf_logged sf_url a_connector account_changes idle_users accounts_world)
    as (w & U & Hrun & Hw & Hdom & Hsize).
  - assert (forall email, bool_decide (map_Forall (fun f _ => plain_field f) (requested_fields email)
        /\ kept user_schema (requested_fields email) /\ requested_fields email !! "UserType" = None
        /\ requested_fields email !! "LastLoginDate" = None) = true ->
      getUserCreateRequestParams (profile_for email) = inr (request_for email) ->
      account_operation (H2 := account_profiles) a_connector (CreateUserAccount (profile_for email))) as Hrequest.
    { intros email Hfields Hparams. cbn [account_operation]. rewrite Hparams. exists (requested_fields email). by apply requested. }
    pose proof (Hrequest "a@x.io" eq_refl ltac:(vm_compute; reflexivity)) as Ha.
    pose proof (Hrequest "c@x.io" eq_refl ltac:(vm_compute; reflexivity)) as Hc.
    repeat apply Forall_cons_2; [exact Ha|reflexivity|exact Hc|exact I|exact revocable|exact Ha|exact Hc|apply Forall_nil_2].
  - exact idle_readable.
  - exact accounts_served.
  - exists w, U. split; [exact Hrun|]. split; [exact Hw|]. split; [apply Hdom; set_solver|].
    split; [pose proof (Hsize "a@x.io") as Hs|pose proof (Hsize "c@x.io") as Hs].
    + assert (size (holders idle_users "a@x.io") = 1) as Ha by by vm_compute. rewrite Ha in Hs. exact Hs.
    + assert (size (holders idle_users "c@x.io") = 0) as Hc by by vm_compute. rewrite Hc in Hs. exact Hs.
Defined.
