(* ===== verification/UserSync.v ===== *)
(** * The sync of users

    What the sync reports of the users' table: the users that the configuration asks
    for, each once, enabled when active and not frozen.  [LoginService] adds to the
    table what the API promises of the query for the logins of up to 250 users.
    After any sequence of account requests and operations on users, the sync
    reports what they left. *)
From S2P Require Export Accounts.
From Stdlib Require Import Ascii.

(** A record of the login of a user, frozen or not. *)
Definition login_record (record : SObject) (row : string * bool) : Prop :=
  StringField record "UserId" = row.1 /\ InterfaceField record "IsFrozen" = VBool row.2
  /\ exists locked, InterfaceField record "IsPasswordLocked" = VBool locked.

(** The documented behaviour of the logins of users.  The connector never changes a
    login. *)
Class LoginService `{TableService client user_schema} := {
  (* The users with a login, and whether it is frozen. *)
  frozen : string -> option bool;
  login_batch req s e text ids :
    rest_ok s -> req_method req = MethodGet -> goes_to client req (query_path client) ("q=" +:+ e) ->
    url_QueryUnescape e = Some text -> read_literals None text = Some (logins_template ids, ids) ->
    Forall (fun id => is_Some (rest_state s !! id)) ids -> NoDup ids -> 0 < length ids <= userLoginInClauseChunkSize ->
    exists resp s' result records rows, env_http req s = (inr resp, s') /\ rest_ok s' /\ rest_state s' = rest_state s
      /\ page_of resp result records /\ qr_Done result = true
      /\ Forall2 login_record records rows /\ rows ≡ₚ omap (fun id => pair id <$> frozen id) ids;
}.

(** A row that is to be listed: active unless deactivated users are asked for, and of
    no portal or guest type unless all types are. *)
Definition listed (o : userBuilder) (kv : string * fields) : bool :=
  (ub_syncDeactivatedUsers o || checked kv.2 "IsActive")
  && (ub_syncNonStandardUsers o || negb (bool_decide (field kv.2 "UserType" ∈ userTypesToSkip))).

(** The values that are asked for. *)
Definition asked (o : userBuilder) : list string * list string :=
  if ub_syncNonStandardUsers o then ([], []) else (["UserType"], ["Standard"]).

(** The user of a row; the license is of another object. *)
Definition user_row (u : SalesforceUser) (kv : string * fields) : Prop :=
  exists license, u = {| u_ID := kv.1; u_Email := field kv.2 "Email"; u_Username := field kv.2 "Username";
    u_FirstName := field kv.2 "FirstName"; u_LastName := field kv.2 "LastName"; u_UserType := field kv.2 "UserType";
    u_LicenseDefinitionKey := license; u_IsActive := checked kv.2 "IsActive";
    u_LastLoginDate := (parseSalesforceDatetime (field kv.2 "LastLoginDate")).1 |}.

(** What the sync makes of a row: the user, enabled when active and not frozen, with
    the address that is asked for. *)
Definition reported `{LoginService} (o : userBuilder) (res : Resource) (kv : string * fields) : Prop :=
  res_Id res = user_principal kv.1 /\ exists trait, res_Trait res = TUser trait
    /\ (ut_Status trait = STATUS_ENABLED <-> checked kv.2 "IsActive" = true /\ frozen kv.1 <> Some true)
    /\ ut_Profile trait !! "email" = Some (field kv.2 (if ub_shouldUseUsernameForEmail o then "Username" else "Email")).

Section sync.
Context `{LoginService} (Hlogged : isLoggedIn client = true) (Hok : url_ok client = true).

(** ** The users of a page *)

Lemma user_turn (o : userBuilder) record kv :
  is_record user_schema (NewQuery_cols TableNameUsers []) record kv -> readable_user kv.2 ->
  exists u, user_row u kv
    /\ users_loop (ub_syncDeactivatedUsers o) (ub_syncNonStandardUsers o) record
       = inr (if listed o kv then Some u else None).
Proof.
  intros (Hid & Htext & Hbool) [Htype Hlogin].
  assert (forall f, f ∈ t_text user_schema -> bool_decide (f ∈ NewQuery_cols TableNameUsers []) = true ->
    StringField record f = field kv.2 f) as Hfield.
  { intros f Hf Hcol%bool_decide_eq_true. rewrite Forall_forall in Htext. by apply Htext. }
  assert (InterfaceField record "IsActive" = VBool (checked kv.2 "IsActive")) as Hactive.
  { apply Forall_inv in Hbool. apply Hbool. apply (bool_decide_unpack _). by vm_compute. }
  eexists. split; [by exists (licenseDefinitionKey record)|].
  unfold users_loop, getIsActive, listed. rewrite Hactive. cbn [bool_of_value].
  unfold shouldSkipSyncingUserType. rewrite !Hfield by ((by vm_compute) || set_solver).
  apply String.eqb_neq in Htype. rewrite Htype. unfold user_of. rewrite Hid, !Hfield by ((by vm_compute) || set_solver).
  destruct (parseSalesforceDatetime (field kv.2 "LastLoginDate")) as [lastLogin err]. cbn in Hlogin. subst err.
  by destruct (ub_syncDeactivatedUsers o), (checked kv.2 "IsActive"), (ub_syncNonStandardUsers o), (bool_decide _).
Qed.

Lemma user_turns (o : userBuilder) records rows :
  Forall2 (is_record user_schema (NewQuery_cols TableNameUsers [])) records rows -> Forall (fun kv => readable_user kv.2) rows ->
  exists users, each_record (users_loop (ub_syncDeactivatedUsers o) (ub_syncNonStandardUsers o)) records = inr users
    /\ Forall2 user_row users (filter (fun kv => listed o kv = true) rows).
Proof.
  induction 1 as [|record kv records rows Hrec _ IH]; [by exists []|]. intros [Hkv Hrows]%Forall_cons.
  destruct (IH Hrows) as (users & Hrun & Husers). destruct (user_turn o record kv Hrec Hkv) as (u & Hu & Hturn).
  cbn [each_record]. rewrite Hturn, Hrun. destruct (listed o kv) eqn:Hl.
  - exists (u :: users). split; [done|]. rewrite filter_cons_True by done. by constructor.
  - exists users. split; [done|]. by rewrite filter_cons_False by (by rewrite Hl).
Qed.

(** ** The logins of the users of a page *)

Lemma login_turns records rows :
  Forall2 login_record records rows ->
  exists logins, each_record login_loop records = inr logins
    /\ Forall2 (fun l row => l_UserId l = row.1 /\ l_IsFrozen l = row.2) logins rows.
Proof.
  induction 1 as [|record row records rows (Hid & Hfrozen & locked & Hlocked) _ (logins & Hrun & Hlogins)]; [by exists []|].
  cbn [each_record]. assert (login_loop record = inr (Some (user_login_of record row.2 locked))) as Hturn
    by (unfold login_loop, getBoolField; by rewrite Hfrozen, Hlocked).
  rewrite Hturn, Hrun. eexists (_ :: logins). split; [reflexivity|]. by constructor.
Qed.

Lemma login_record_kept record row b : login_record record row -> login_record (setClient record b) row.
Proof.
  intros (Hid & Hfrozen & locked & Hlocked). split; [|split; [|exists locked]];
    rewrite ?setClient_field, ?setClient_interface; try done; apply (bool_decide_unpack _); by vm_compute.
Qed.

(** The map holds the logins of these users. *)
Definition logins_of (ids : list string) (m : gmap string UserLogin) : Prop :=
  forall id, l_IsFrozen <$> m !! id = if bool_decide (id ∈ ids) then frozen id else None.

Lemma logins_inserted rows logins (m : gmap string UserLogin) id :
  Forall2 (fun l row => l_UserId l = row.1 /\ l_IsFrozen l = row.2) logins rows ->
  Forall (fun row => frozen row.1 = Some row.2) rows ->
  l_IsFrozen <$> foldl (fun m l => <[l_UserId l := l]> m) m logins !! id
  = if bool_decide (id ∈ rows.*1) then frozen id else l_IsFrozen <$> m !! id.
Proof.
  intros Hl. revert m. induction Hl as [|l row logins rows [Hid Hf] _ IH]; intros m; [done|].
  intros [Hrow Hrows]%Forall_cons. cbn [foldl]. rewrite IH by done. cbn [fmap list_fmap].
  case_bool_decide as Hin; [by rewrite bool_decide_eq_true_2 by by right|].
  destruct (decide (id = row.1)) as [->|Hne].
  - rewrite bool_decide_eq_true_2 by by left. rewrite Hid, lookup_insert_eq. cbn. by rewrite Hf.
  - rewrite bool_decide_eq_false_2 by by intros [?|?]%elem_of_cons. by rewrite Hid, lookup_insert_ne.
Qed.

(** What is shown of the logins of these users. *)
Lemma shown_logins ids rows :
  rows ≡ₚ omap (fun id => pair id <$> frozen id) ids ->
  Forall (fun row => frozen row.1 = Some row.2) rows
  /\ forall id, id ∈ rows.*1 <-> id ∈ ids /\ frozen id <> None.
Proof.
  intros Hrows. split.
  - rewrite Hrows. apply Forall_forall. intros row (id & _ & Hrow)%list_elem_of_omap.
    destruct (frozen id) as [b|] eqn:Hid; [|done]. by injection Hrow as <-.
  - intros id. rewrite Hrows, list_elem_of_fmap. split.
    + intros ([id' b] & -> & (id1 & Hin & Hrow)%list_elem_of_omap). destruct (frozen id1) as [b'|] eqn:Hid; [|done].
      injection Hrow as <- <-. cbn. by rewrite Hid.
    + intros [Hin Hid]. destruct (frozen id) as [b|] eqn:Hb; [|done]. exists (id, b). split; [done|].
      apply list_elem_of_omap. exists id. by rewrite Hb.
Qed.

Lemma logins_more ids done' rows logins m :
  logins_of done' m -> rows ≡ₚ omap (fun id => pair id <$> frozen id) ids ->
  Forall2 (fun l row => l_UserId l = row.1 /\ l_IsFrozen l = row.2) logins rows ->
  logins_of (done' ++ ids) (foldl (fun m l => <[l_UserId l := l]> m) m logins).
Proof.
  intros Hm Hrows Hl id. destruct (shown_logins _ _ Hrows) as [Hfrozen Hin].
  rewrite (logins_inserted rows) by done. rewrite Hm.
  destruct (frozen id) as [b|] eqn:Hid; [|by repeat case_bool_decide].
  assert (id ∈ rows.*1 <-> id ∈ ids) as Hids by (rewrite Hin, Hid; split; [by intros [? _]|by split]).
  rewrite (bool_decide_ext (id ∈ done' ++ ids) (id ∈ done' \/ id ∈ ids)) by apply elem_of_app.
  rewrite (bool_decide_ext _ _ Hids).
  repeat case_bool_decide; tauto.
Qed.

(** ** A page of users *)

Lemma user_logins_chunk_serves (U : table) done' m rl ids :
  Forall (fun id => is_Some (U !! id)) ids -> NoDup ids -> 0 < length ids <= userLoginInClauseChunkSize -> logins_of done' m ->
  triple (serves U) (user_logins_chunk (m, rl) ids) (fun r w =>
    exists m' rl', r = inl (m', rl') /\ logins_of (done' ++ ids) m' /\ serves U w).
Proof.
  intros Hids Hnd Hlen Hm. set (text := user_login_text ids). unfold user_logins_chunk.
  eapply triple_bind; [eapply (query_answers Hlogged U _ "" _ text (fun resp => exists result records rows,
    page_of resp result records /\ qr_Done result = true /\ Forall2 login_record records rows
    /\ rows ≡ₚ omap (fun id => pair id <$> frozen id) ids))|].
  - by apply user_login_query_text, Hlen.
  - apply query_url_parses; [done|apply query_text_no_path].
  - intros auth auth' s Hs <-.
    edestruct (login_batch {| req_method := MethodGet; req_url := query_url client text; req_authorization := auth';
      req_body := NoBody |} s (url_QueryEscape text) text ids)
      as (resp & s' & result & records & rows & Hh & Hs' & HU & Hpage & Hdone & Hrec & Hrows);
      [done|done|apply page_request_goes; [done|apply query_text_no_path]|apply QueryUnescape_QueryEscape| |done..|].
    + pose proof (query_text_read TableNameUserLogin [] [QIn "UserId" ids] [SalesforcePK] (-1)
        (user_login_plain ids (proj2 Hlen)) eq_refl) as Hread.
      unfold query_values in Hread. cbn [mbind list_bind cond_values] in Hread. by rewrite app_nil_r in Hread.
    + exists resp, s'. split; [exact Hh|]. split; [done|]. split; [done|]. by split; [exists result, records, rows|exists result, records].
  - intros a w (Hw & resp & result & records & rl' & (result' & records' & rows & Hpage' & Hdone & Hrec & Hrows) & Hpage & ->).
    destruct (page_of_unique _ _ _ _ _ Hpage' Hpage) as [-> ->]. rewrite Hdone. cbn [negb String.eqb].
    destruct (login_turns (map (fun r => setClient r true) records) rows) as (logins & Hrun & Hlogins).
    { clear -Hrec. induction Hrec; constructor; [by apply login_record_kept|done]. }
    rewrite Hrun. eexists _, w. split; [reflexivity|]. eexists _, rl'. split; [reflexivity|]. split; [|done].
    by eapply logins_more.
Qed.

Lemma GetUserLoginsByUserIDs_serves (U : table) ids :
  Forall (fun id => is_Some (U !! id)) ids -> NoDup ids ->
  triple (serves U) (GetUserLoginsByUserIDs ids) (fun r w =>
    exists m rl, r = (Some m, rl, None) /\ logins_of ids m /\ serves U w).
Proof.
  intros Hids Hnd. unfold GetUserLoginsByUserIDs. set (cs := chunks userLoginInClauseChunkSize ids).
  assert (Forall (fun c => 0 < length c <= userLoginInClauseChunkSize) cs) as Hsize
    by (apply chunks_fuel_size; [apply Nat.lt_0_succ|done]).
  assert (concat cs = ids) as Hconcat by (apply chunks_fuel_concat; [apply Nat.lt_0_succ|done]).
  eapply triple_bind.
  - eapply triple_pre; [|apply (triple_range (fun cs acc w => logins_of (concat cs) acc.1 /\ serves U w) [] cs)]; [by split|].
    intros done' [m rl] c Hc. apply triple_pure. intros Hm.
    assert (Forall (fun id => is_Some (U !! id)) c /\ NoDup c) as [Hc1 Hc2].
    { apply list_elem_of_split in Hc as (l1 & l2 & ->). rewrite concat_app in Hconcat. cbn [concat] in Hconcat. subst ids.
      apply Forall_app in Hids as [_ [Hc _]%Forall_app].
      by apply NoDup_app in Hnd as (_ & _ & [Hnd _]%NoDup_app). }
    rewrite Forall_forall in Hsize.
    eapply triple_post; [|by apply (user_logins_chunk_serves U (concat done') m rl c Hc1 Hc2 (Hsize c Hc))].
    intros r w (m' & rl' & -> & Hm' & Hw). exists (m', rl'). rewrite concat_app. cbn [concat]. by rewrite app_nil_r.
  - intros r w ([m rl] & -> & [Hm Hw]). cbn [fst app] in Hm. rewrite Hconcat in Hm.
    eexists _, w. split; [reflexivity|]. by exists m, rl.
Qed.

Definition users_query (o : userBuilder) : SalesforceQuery :=
  if ub_syncNonStandardUsers o then NewQuery TableNameUsers [] else WhereEq (NewQuery TableNameUsers []) "UserType" "Standard".

Lemma users_ask (o : userBuilder) : asks_table user_schema (users_query o) [] (asked o).1 (asked o).2.
Proof.
  unfold users_query, asked. destruct (ub_syncNonStandardUsers o).
  - apply (WhereEq_asks user_schema [] [] []); [apply (bool_decide_unpack _); by vm_compute|constructor|done|by vm_compute|constructor].
  - apply (WhereEq_asks user_schema [] ["UserType"] ["Standard"]); [apply (bool_decide_unpack _); by vm_compute| |done|by vm_compute|by repeat constructor].
    constructor; [|constructor]. split; [by vm_compute|]. intros Hin. by repeat (apply elem_of_cons in Hin as [Hin|Hin]; [done|]); apply elem_of_nil in Hin.
Qed.

Lemma user_row_reported (o : userBuilder) u kv login :
  user_row u kv -> l_IsFrozen <$> login = frozen kv.1 ->
  reported o (userResource u login (ub_shouldUseUsernameForEmail o)) kv.
Proof.
  intros (license & ->) Hlogin.
  destruct (userResource_status {| u_ID := kv.1; u_Email := field kv.2 "Email"; u_Username := field kv.2 "Username";
    u_FirstName := field kv.2 "FirstName"; u_LastName := field kv.2 "LastName"; u_UserType := field kv.2 "UserType";
    u_LicenseDefinitionKey := license; u_IsActive := checked kv.2 "IsActive";
    u_LastLoginDate := (parseSalesforceDatetime (field kv.2 "LastLoginDate")).1 |} login (ub_shouldUseUsernameForEmail o))
    as (trait & Htrait & Hid & Hstatus & Hemail & _). split; [exact Hid|]. exists trait. split; [done|]. split.
  - rewrite Hstatus. cbn [u_IsActive]. apply and_iff_compat_l. rewrite <-Hlogin. split.
    + intros Hl. destruct login as [l|]; [|done]. cbn. by rewrite (Hl l eq_refl).
    + intros Hl login' ->. cbn in Hl. by destruct (l_IsFrozen login').
  - rewrite Hemail. by destruct (ub_shouldUseUsernameForEmail o).
Qed.

Lemma user_rows_reported (o : userBuilder) users rows ids m :
  Forall2 user_row users rows -> rows.*1 ⊆ ids -> logins_of ids m ->
  Forall2 (reported o) (map (fun u => userResource u (m !! u_ID u) (ub_shouldUseUsernameForEmail o)) users) rows.
Proof.
  intros Hrows Hids Hm. induction Hrows as [|u kv users rows Hu _ IH]; constructor.
  - apply user_row_reported; [done|]. destruct Hu as (license & ->). cbn [u_ID]. rewrite Hm.
    rewrite bool_decide_eq_true_2; [done|]. apply Hids. by left.
  - apply IH. intros id Hid. apply Hids. by right.
Qed.

(** Rows of the table, each once. *)
Definition rows_of (U : table) (rows : list (string * fields)) : Prop :=
  NoDup rows.*1 /\ Forall (fun kv => U !! kv.1 = Some kv.2) rows.

Lemma rows_of_app U l1 l2 : rows_of U (l1 ++ l2) -> rows_of U l1 /\ rows_of U l2.
Proof. unfold rows_of. rewrite fmap_app. intros [(Hn1 & _ & Hn2)%NoDup_app [Hf1 Hf2]%Forall_app]. done. Qed.

Lemma rows_of_filter U P `{forall kv, Decision (P kv)} rows : rows_of U rows -> rows_of U (filter P rows).
Proof.
  intros [Hnd Hall]. split.
  2: { rewrite Forall_forall in *. intros kv [_ Hkv]%list_elem_of_filter. by apply Hall. }
  eapply sublist_NoDup; [done|apply fmap_sublist, sublist_filter].
Qed.

Lemma matching_rows (U : table) fs vs : rows_of U (table_rows U fs vs).
Proof.
  split.
  - rewrite (table_rows_spec U). unfold matching.
    eapply sublist_NoDup; [exact (NoDup_fst_map_to_list U)|apply fmap_sublist, sublist_filter].
  - rewrite (table_rows_spec U). apply Forall_forall. intros [id r] [_ Hin%elem_of_map_to_list]%list_elem_of_filter. exact Hin.
Qed.

(** The cursor of the users' pages. *)
Abbreviation user_cursor U := (table_cursor (t := user_schema) U (NewQuery_cols TableNameUsers [])).
Abbreviation is_user_record := (is_record user_schema (NewQuery_cols TableNameUsers [])).
Abbreviation listed_rows o := (filter (fun kv => listed o kv = true)).

Lemma GetUsers_page (U : table) (o : userBuilder) tok size rows :
  triple (serves U) (query (users_query o) tok size) (fun r w => page_result is_user_record (user_cursor U) rows r /\ serves U w) ->
  Forall (fun kv => readable_user kv.2) rows ->
  triple (serves U) (GetUsers tok size (ub_syncDeactivatedUsers o) (ub_syncNonStandardUsers o)) (fun r w =>
    (exists users next rl shown rest, r = (users, next, rl, None) /\ rows = shown ++ rest /\ Forall2 user_row users (listed_rows o shown)
       /\ (next = "" /\ rest = [] \/ next <> "" /\ shown <> [] /\ user_cursor U next = Some rest)) /\ serves U w).
Proof.
  intros Hquery Hread. unfold GetUsers, query_each. fold (users_query o).
  eapply triple_bind; [exact Hquery|]. intros r w [(records & next & rl & shown & rest & -> & -> & Hrec & Hnext) Hw].
  apply Forall_app in Hread as [Hread _]. destruct (user_turns o records shown Hrec Hread) as (users & Hrun & Husers).
  rewrite Hrun. eexists _, w. split; [reflexivity|]. split; [|done]. by exists users, next, rl, shown, rest.
Qed.

Lemma users_page (U : table) (o : userBuilder) tok size rows :
  triple (serves U) (query (users_query o) tok size) (fun r w => page_result is_user_record (user_cursor U) rows r /\ serves U w) ->
  readable_users U -> rows_of U rows ->
  shows_rows U (user_cursor U) (user_List o) size (fun l rows => Forall2 (reported o) l (listed_rows o rows)) tok rows.
Proof.
  intros Hquery HU Hrows. unfold shows_rows, user_List. cbn [pt_Token pt_Size].
  eapply triple_bind; [apply (GetUsers_page U o tok size rows Hquery)|].
  { destruct Hrows as [_ Hall]. eapply Forall_impl; [exact Hall|]. intros [id r] Hr. by apply (HU id). }
  intros r w [(users & next & rl & shown & rest & -> & -> & Husers & Hnext) Hw].
  apply rows_of_app in Hrows as [Hshown _]. apply (rows_of_filter U (fun kv => listed o kv = true)) in Hshown as [Hnd Hall].
  set (rows' := listed_rows o shown) in *.
  assert (map u_ID users = rows'.*1) as Hids
    by (clear -Husers; induction Husers as [|u kv us rows (license & ->) _ IH]; [done|cbn; by rewrite IH]).
  rewrite Hids. destruct (GetUserLoginsByUserIDs_serves U rows'.*1) with (s := w) as (r & w' & Hlogins & m & rl' & -> & Hm & Hw'); [|done..|].
  { apply Forall_fmap. eapply Forall_impl; [exact Hall|]. intros kv Hkv. cbn. by rewrite Hkv. }
  rewrite (GoM_bind_run _ _ _ _ _ Hlogins). eexists _, w'. split; [reflexivity|]. split; [done|].
  eexists _, next, _, shown, rest. split; [reflexivity|]. split; [done|]. split; [|done].
  by eapply user_rows_reported.
Qed.

(** The users that a sync is to report. *)
Definition to_report (o : userBuilder) (U : table) : list (string * fields) :=
  filter (fun kv => listed o kv = true) (matching U (asked o).1 (asked o).2).

Lemma user_sync (U : table) (o : userBuilder) size w :
  readable_users U -> serves U w ->
  exists l rows w', sync_pages (user_List o) size "" w l w' /\ serves U w'
    /\ Forall2 (reported o) l rows /\ rows ≡ₚ to_report o U.
Proof.
  intros HU Hw.
  destruct (sync_rows U (user_cursor U) (user_List o) size (fun l rows => Forall2 (reported o) l (listed_rows o rows))
    (rows_of U) "" (table_rows U (asked o).1 (asked o).2) w) as (l & w' & Hpages & Hw' & Hl).
  - intros l1 rows1 l2 rows2 Hl1 Hl2. rewrite filter_app. by apply Forall2_app.
  - intros l1 l2 Hl. by apply (rows_of_app U l1).
  - intros tok rows Htok Hcursor Hrows. apply users_page; [|done..].
    destruct (table_continues (client := client) (t := user_schema) U _ tok rows Hcursor) as [[_ Hparse] Hans].
    apply (page_serves Hlogged _ (is_record_kept user_sound _) U _ _ tok size tok); [|done..].
    unfold getQueryString. by destruct (String.eqb_spec tok "").
  - apply users_page; [|done|apply matching_rows]. exact (query_table Hlogged Hok user_sound U _ size [] _ _ (users_ask o)).
  - apply matching_rows.
  - done.
  - exists l, (listed_rows o (table_rows U (asked o).1 (asked o).2)), w'. split_and!; [done..|].
    unfold to_report. by rewrite (table_rows_spec U).
Qed.

Lemma to_report_rows (o : userBuilder) (U : table) rows :
  rows ≡ₚ to_report o U ->
  NoDup rows.*1 /\ forall id r, (id, r) ∈ rows <-> U !! id = Some r /\ listed o (id, r) = true
    /\ (ub_syncNonStandardUsers o = false -> field r "UserType" = "Standard").
Proof.
  intros Hrows. assert (NoDup (to_report o U).*1) as Hnd.
  { eapply sublist_NoDup; [exact (NoDup_fst_map_to_list U)|apply fmap_sublist]. unfold to_report, matching.
    etrans; [apply sublist_filter|apply sublist_filter]. }
  split; [by rewrite Hrows|]. intros id r. rewrite Hrows. unfold to_report, matching.
  rewrite !list_elem_of_filter, elem_of_map_to_list. unfold asked.
  destruct (ub_syncNonStandardUsers o); cbn [fst snd]; split.
  - intros (Hl & _ & Hr). by split_and!.
  - intros (Hr & Hl & _). split_and!; [done|constructor|done].
  - intros (Hl & Hm & Hr). split_and!; [done..|]. intros _. by inversion Hm as [|???? Hf _]; subst.
  - intros (Hr & Hl & Ht). split_and!; [done| |done]. repeat constructor. by apply Ht.
Qed.
End sync.

(** ** Properties *)

Section properties.
Context `{Env} {client : simple_client} `{!TableService client user_schema, !AccountService, !ProfileService, !LoginService}.
Context (Hlogged : isLoggedIn client = true) (Hok : url_ok client = true).

(** C7: the sync of users reports what the requests left.  After any sequence of
    requests for accounts and of operations on the roles, profiles and status of
    users, failed ones included, the users' table holds what they say, one after
    the other, and collecting the pages of the users comes to an end: it lists
    the users that the configuration asks for (their type, and whether they are
    active), each once, enabled exactly when active and not frozen, with the
    address it asks for.  However many users a page has, their logins are found. *)
Theorem users_are_synced d os (o : userBuilder) size (U : table) w :
  Forall (account_operation d) os -> readable_users U -> serves U w ->
  exists w1 U' users rows w2, run_all (perform d) os w = (Returns tt, w1) /\ user_steps d U os U'
    /\ sync_pages (user_List o) size "" w1 users w2
    /\ Forall2 (reported o) users rows /\ NoDup rows.*1
    /\ forall id r, (id, r) ∈ rows <-> U' !! id = Some r /\ listed o (id, r) = true
         /\ (ub_syncNonStandardUsers o = false -> field r "UserType" = "Standard").
Proof.
  intros Hos HU Hw. destruct (perform_steps Hlogged Hok d os U Hos HU w Hw) as ([] & w1 & Hrun & U' & Hsteps & Hw1).
  destruct (user_steps_grow Hlogged Hok d U os U' Hsteps HU) as [_ HU'].
  destruct (user_sync Hlogged Hok U' o size w1 HU' Hw1) as (users & rows & w2 & Hpages & _ & Hreported & Hrows).
  exists w1, U', users, rows, w2. split; [exact Hrun|]. split; [done|]. split; [exact Hpages|]. split; [done|].
  by apply to_report_rows.
Qed.
End properties.

(** ** At the org with the logins *)

Definition synced_names : gmap string string := {["005A" := "a@x.io"; "005B" := "b@x.io"; "005F" := "f@x.io"]}.
Definition synced_users : table := (fun name => <["Email" := name]> (<["IsActive" := "true"]> (a_user name ""))) <$> synced_names.
Definition sync_world : @World account_env := @Build_World account_env {| ro_table := synced_users; ro_next := 0 |} tape_client [].

#[local] Existing Instances account_table account_profiles account_org.

#[local] Instance login_org : @LoginService account_env sf_client account_table.
Proof.
  refine {| frozen id := Some (String.eqb id frozen_user) |}.
  intros req s e text ids Hs Hm Hgo He Ht _ _ _.
  pose proof (logins_answered req s e text _ ids Hm Hgo He Ht (or_intror eq_refl)) as Hrun.
  exists (logins_page ids), s. eexists _, _, ((fun id => (id, String.eqb id frozen_user)) <$> ids).
  split; [exact Hrun|]. split; [done|]. split; [done|]. split; [apply logins_page_of|]. split; [done|]. clear. split.
  - induction ids as [|id ids IH]; constructor; [|exact IH]. split; [reflexivity|]. split; [reflexivity|]. by exists false.
  - induction ids as [|id ids IH]; [done|]. cbn. by f_equiv.
Defined.

Lemma synced_name id name :
  synced_names !! id = Some name -> (id, name) ∈ [("005A", "a@x.io"); ("005B", "b@x.io"); ("005F", "f@x.io")].
Proof.
  unfold synced_names. intros [[<- <-]|[_ [[<- <-]|[_ [<- <-]%lookup_singleton_Some]]%lookup_insert_Some]]%lookup_insert_Some;
    apply (bool_decide_unpack _); by vm_compute.
Qed.

Lemma sync_served : serves (H := account_env) (client := sf_client) synced_users sync_world.
Proof.
  split; [vm_compute; eauto|]. split; [|reflexivity].
  change (w_env sync_world) with ({| ro_table := synced_users; ro_next := 0 |}). split; cbn [ro_table ro_next].
  - intros id r (name & _ & Hin%synced_name)%lookup_fmap_Some. rewrite !elem_of_cons in Hin.
    destruct Hin as [[= -> ->]|[[= -> ->]|[[= -> ->]|[]%elem_of_nil]]]; (split; [done|]); by intros [|n].
  - intros id1 id2 r1 r2 (n1 & <- & Hin1%synced_name)%lookup_fmap_Some (n2 & <- & Hin2%synced_name)%lookup_fmap_Some Hsame.
    assert (n1 = n2) as <- by by apply Forall_inv in Hsame.
    rewrite !elem_of_cons in Hin1, Hin2.
    destruct Hin1 as [[= -> ->]|[[= -> ->]|[[= -> ->]|[]%elem_of_nil]]];
      by destruct Hin2 as [Heq|[Heq|[Heq|[]%elem_of_nil]]]; simplify_eq.
Qed.

Lemma synced_readable : readable_users synced_users.
Proof. intros id r (name & <- & _)%lookup_fmap_Some. by split. Qed.

(** The first user is deactivated; the third one is frozen. *)
Definition sync_all : userBuilder := newUserBuilder false true true.

Lemma users_are_synced_witness :
  exists w1 users w2, run_all (perform a_connector) [DeleteUser user_a; CreateUserAccount None] sync_world = (Returns tt, w1)
    /\ sync_pages (user_List sync_all) 100 "" w1 users w2
    /\ forall user trait, user ∈ users -> res_Trait user = TUser trait ->
         (ut_Status trait = STATUS_ENABLED <-> res_Id user = user_principal "005B").
Proof.
  destruct (users_are_synced (H := account_env) sf_logged sf_url a_connector [DeleteUser user_a; CreateUserAccount None] sync_all 100
    synced_users sync_world) as (w1 & U & users & rows & w2 & Hrun & Hsteps & Hpages & Hreported & _ & Hrows);
    [by repeat constructor|exact synced_readable|exact sync_served|].
  exists w1, users, w2. split; [exact Hrun|]. split; [exact Hpages|]. intros user trait Hin Htrait.
  assert (map_Forall (fun id r => (id <> "005F" /\ checked r "IsActive" = true) <-> id = "005B") U) as HU.
  { inversion Hsteps as [|? ? U1 ? ? Hstep1 Hrest]; subst. inversion Hrest as [|? ? U2 ? ? Hstep2 Hdone]; subst.
    inversion Hdone; subst. cbn [user_step getUserCreateRequestParams] in Hstep1, Hstep2. cbn in Hstep2. subst U U1.
    apply (bool_decide_unpack _). by vm_compute. }
  apply list_elem_of_lookup in Hin as [i Hi]. destruct (Forall2_lookup_l _ _ _ _ _ Hreported Hi) as ([id r] & Hrow & Hrep).
  apply list_elem_of_lookup_2, Hrows in Hrow as [Hr _]. destruct Hrep as (Hid & trait' & Htrait' & Hstatus & _).
  assert (trait' = trait) as -> by congruence. rewrite Hstatus, Hid. specialize (HU id r Hr). cbn [fst snd] in *.
  change (frozen id) with (Some (String.eqb id "005F")). split.
  - intros [Hactive Hfrozen]. f_equal. apply HU. split; [|done]. intros ->. by apply Hfrozen.
  - intros [= ->]. destruct HU as [_ HU]. destruct (HU eq_refl) as [_ Hactive]. split; [exact Hactive|vm_compute; discriminate].
Defined.
