(* ===== verification/ResourceSync.v ===== *)
(** * What the sync sees of the resources

    Against an API that lists the rows of a table page by page ([ResourceListing]),
    the resources the sync collects for groups, roles, profiles, permission sets,
    permission set groups, connected applications and territories are the ones of
    the rows, one each.  Users are in [UserSync]; agents are listed through
    another version of the API. *)
From S2P Require Export Groups Profiles PermissionSets Territories Agents Table.

(** ** The tables *)

Inductive resource_kind :=
| KGroup | KRole | KProfile | KPermissionSet | KPermissionSetGroup | KConnectedApplication | KTerritory.

(** The statement, and the values in its holes: territories are those of the
    active models. *)
Definition kind_statement (k : resource_kind) : string :=
  match k with
  | KGroup => "SELECT Name, DeveloperName, Type, RelatedId, Related.Name, Id FROM Group ORDER BY Id"
  | KRole => "SELECT Name, Id FROM UserRole ORDER BY Id"
  | KProfile => "SELECT Name, UserLicenseId, Id FROM Profile ORDER BY Id"
  | KPermissionSet => "SELECT Name, Label, Type, ProfileId, Profile.Name, Id FROM PermissionSet ORDER BY Id"
  | KPermissionSetGroup => "SELECT IsDeleted, DeveloperName, Language, MasterLabel, NamespacePrefix, Description, HasActivationRequired, Id FROM PermissionSetGroup ORDER BY Id"
  | KConnectedApplication => "SELECT Name, Id FROM ConnectedApplication ORDER BY Id"
  | KTerritory => "SELECT Name, Territory2ModelId, Territory2TypeId, ParentTerritory2Id, Description, Id FROM Territory2 WHERE Territory2ModelId IN (SELECT Id FROM Territory2Model WHERE State = ?) ORDER BY Id"
  end.

Definition kind_values (k : resource_kind) : list string := match k with KTerritory => ["Active"] | _ => [] end.

(** The text fields, the checkboxes and the related objects of a record. *)
Definition kind_texts (k : resource_kind) : list string :=
  match k with
  | KGroup => ["Name"; "Type"]
  | KRole | KProfile | KConnectedApplication => ["Name"]
  | KPermissionSet => ["Name"; "Type"]
  | KPermissionSetGroup => ["MasterLabel"]
  | KTerritory => ["Name"; "ParentTerritory2Id"]
  end.

Definition kind_bools (k : resource_kind) : list string :=
  match k with KPermissionSetGroup => ["IsDeleted"; "HasActivationRequired"] | _ => [] end.

Definition kind_related (k : resource_kind) : list string :=
  match k with KGroup => ["Related"] | KPermissionSet => ["Profile"] | _ => [] end.

(** A row: its id and its fields; the name of a related object is a field too,
    blank when there is none. *)
Abbreviation resource_row := (string * fields)%type.

Definition related_field (key : string) : string := key +:+ ".Name".

(** A related object comes as an object of its own, with its type and URL, or is null. *)
Definition shows_related (record : SObject) (key name : string) : Prop :=
  if String.eqb name "" then InterfaceField record key = VNil
  else exists linked attrs type url id, InterfaceField record key = VMap linked
    /\ linked !! sobjectAttributesKey = Some (VMap attrs)
    /\ attrs !! "type" = Some (VString type) /\ type <> ""
    /\ attrs !! "url" = Some (VString url) /\ url <> "" /\ after_last_slash url = Some id
    /\ linked !! "Name" = Some (VString name).

Definition is_listed (k : resource_kind) (record : SObject) (row : resource_row) : Prop :=
  SObject_ID record = row.1
  /\ Forall (fun f => StringField record f = field row.2 f) (kind_texts k)
  /\ Forall (fun f => InterfaceField record f = VBool (checked row.2 f)) (kind_bools k)
  /\ Forall (fun key => shows_related record key (field row.2 (related_field key))) (kind_related k).

(** The API lists the rows of the table, no two with one id. *)
Class ResourceListing `{RestService client T} (k : resource_kind) := {
  resource_list :: Listed (kind_statement k) (fun _ : unit => kind_values k) (fun _ => true) (fun _ => is_listed k);
  resource_rows (x : T) : list resource_row := by_rows (Listed := resource_list) x tt;
  resource_once x : NoDup (resource_rows x).*1;
}.

(** ** The resources *)

(** The name of the related object, or the row's own. *)
Definition named_after (key : string) (row : fields) : string :=
  let name := field row (related_field key) in
  if String.eqb name "" then field row "Name" else name.

(** The groups that come with a role carry its name, and the one of all users has none. *)
Definition group_label (type name : string) : string :=
  if String.eqb type "Organization" then "All Internal Users"
  else if String.eqb type "RoleAndSubordinates" then name +:+ " (role and subordinates)"
  else if String.eqb type "Role" then name +:+ " (role)"
  else name.

Definition parent_territory (id : string) : option ResourceId :=
  if String.eqb id "" then None else Some {| rid_ResourceType := "territory"; rid_Resource := id |}.

(** The resource of a row. *)
Definition row_resource (k : resource_kind) (row : resource_row) : Resource :=
  let '(id, r) := row in
  let resource type name parent trait :=
    {| res_Id := {| rid_ResourceType := type; rid_Resource := id |};
       res_DisplayName := name; res_Parent := parent; res_Trait := trait |} in
  match k with
  | KGroup => resource "group" (group_label (field r "Type") (named_after "Related" r)) None TGroup
  | KRole => resource "role" (field r "Name") None TRole
  | KProfile => resource "profile" (field r "Name") None NoTrait
  | KPermissionSet => resource "permission" (field r "Type" +:+ " - " +:+ named_after "Profile" r) None NoTrait
  | KPermissionSetGroup => resource "permission_set_group" (field r "MasterLabel") None NoTrait
  | KConnectedApplication => resource "connected_application" (field r "Name") None (TApp "salesforce.connected_application")
  | KTerritory => resource "territory" (field r "Name") (parent_territory (field r "ParentTerritory2Id")) NoTrait
  end.

Lemma row_resource_id k row : rid_Resource (res_Id (row_resource k row)) = row.1.
Proof. by destruct k, row. Qed.

(** ** What the records are made into *)

Lemma StringField_not record key v : InterfaceField record key = v -> value_string v = None -> StringField record key = "".
Proof. intros Hv Hn. unfold StringField. rewrite Hv. by destruct v. Qed.

Lemma related_name_of record typeName key name r :
  shows_related record key name -> StringField record "Name" = field r "Name" -> field r (related_field key) = name ->
  related_name record typeName key = named_after key r.
Proof.
  unfold shows_related, related_name, SObjectField, named_after. intros Hrel Hname ->. rewrite Hname.
  destruct (String.eqb_spec name "") as [->|Hne].
  - by rewrite (StringField_not record key _ Hrel), Hrel by done.
  - destruct Hrel as (linked & attrs & type & url & id & Hlinked & Hattrs & Htype & Ht & Hurl & Hu & Hid & Hn).
    rewrite (StringField_not record key _ Hlinked), Hlinked by done. cbn [String.eqb negb value_map mbind option_bind]. rewrite Hattrs.
    cbn [default from_option Datatypes.id value_map mbind option_bind]. rewrite Htype, Hurl. cbn [default from_option Datatypes.id value_string].
    destruct (String.eqb_spec type "") as [|_]; [done|]. destruct (String.eqb_spec url "") as [|_]; [done|].
    cbn [orb]. rewrite Hid. cbn [mbind option_bind]. unfold StringField, InterfaceField. rewrite (lookup_union_Some_l _ _ _ _ Hn). cbn.
    by destruct (String.eqb_spec name "").
Qed.

(** What the calls make of a record, if anything. *)
Definition record_resource (k : resource_kind) (record : SObject) : option Resource :=
  match k with
  | KGroup => Some (groupResource (group_of record))
  | KRole => Some (roleResource (role_of record))
  | KProfile => Some (profileResource (profile_of record))
  | KPermissionSet => Some (permissionResource (permission_of record))
  | KPermissionSetGroup =>
      match permission_set_group_loop record with inr g => permissionSetGroupResource <$> g | inl _ => None end
  | KConnectedApplication => Some (connectedApplicationResource (connected_application_of record))
  | KTerritory => Some (territoryResource record)
  end.

Lemma group_label_of record :
  group_display_name (group_of record) = group_label (StringField record "Type") (getGroupName record).
Proof.
  unfold group_display_name, group_label, group_of. cbn [g_Type g_Name].
  destruct (String.eqb_spec (StringField record "Type") "RoleAndSubordinates") as [->|]; [done|].
  destruct (String.eqb_spec (StringField record "Type") "Role") as [->|]; [done|].
  by destruct (String.eqb_spec (StringField record "Type") "Organization"); [|rewrite str_app_nil_r].
Qed.

Lemma listed_resource k record row : is_listed k record row -> record_resource k record = Some (row_resource k row).
Proof.
  destruct row as [id r]. intros (Hid & Htexts & Hbools & Hrel). cbn [fst snd] in *.
  destruct k; cbn [kind_texts kind_bools kind_related] in *; rewrite ?Forall_cons in *; destruct_and?.
  all: unfold record_resource, row_resource, groupResource, roleResource, profileResource, permissionResource,
    permissionSetGroupResource, connectedApplicationResource, territoryResource, NewResource, parent_territory.
  1: rewrite group_label_of; unfold getGroupName; erewrite related_name_of by done.
  4: cbn; unfold getPermissionSetName; erewrite related_name_of by done.
  5: unfold permission_set_group_loop, getBoolField; do 2 match goal with Hf : InterfaceField _ _ = _ |- _ => rewrite Hf; clear Hf end.
  all: subst id; cbn; repeat match goal with Hf : StringField _ _ = _ |- _ => rewrite Hf; clear Hf end; reflexivity.
Qed.

Lemma listed_resources k records rows :
  Forall2 (is_listed k) records rows ->
  Forall (fun record => record_resource k record <> None) records
  /\ omap (record_resource k) records = row_resource k <$> rows.
Proof.
  induction 1 as [|record row records rows Hrow _ [IH1 IH2]]; [done|]. apply listed_resource in Hrow.
  split; [constructor; [by rewrite Hrow|done]|]. cbn [omap list_omap fmap list_fmap]. by rewrite Hrow, IH2.
Qed.

(** The client marks the records as its own. *)
Lemma kind_fields_kept k f record b :
  f ∈ kind_texts k ++ kind_bools k ++ kind_related k -> InterfaceField (setClient record b) f = InterfaceField record f.
Proof.
  intros Hf. assert (sobjectClientKey <> f) as Hne.
  { intros <-. revert Hf. destruct k; apply (bool_decide_unpack _); by vm_compute. }
  unfold InterfaceField, setClient. by rewrite lookup_insert_ne.
Qed.

Lemma resource_row_kept k : keeps_rows (is_listed k).
Proof.
  intros record row b (Hid & Htexts & Hbools & Hrel).
  rewrite !Forall_forall in Htexts, Hbools, Hrel. unfold is_listed. rewrite !Forall_forall, setClient_ID.
  split_and!; [done|intros f Hf..]; unfold shows_related, StringField; rewrite (kind_fields_kept k) by set_solver;
    [by apply Htexts|by apply Hbools|by apply Hrel].
Qed.

(** ** The calls *)

(** The query of a table. *)
Definition territory_query : SalesforceQuery :=
  sq_with (NewQuery TableNameTerritory2 []) (SB_Where (sq_sb (NewQuery TableNameTerritory2 []))
    "Territory2ModelId IN (SELECT Id FROM Territory2Model WHERE State = 'Active')").

Definition kind_query (k : resource_kind) : SalesforceQuery :=
  match k with
  | KGroup => NewQuery TableNameGroups []
  | KRole => NewQuery TableNameRoles []
  | KProfile => NewQuery TableNameProfiles []
  | KPermissionSet => NewQuery TableNamePermissionsSets []
  | KPermissionSetGroup => NewQuery TablePermissionSetGroup []
  | KConnectedApplication => NewQuery TableNameConnectedApps []
  | KTerritory => territory_query
  end.

Lemma territory_subquery :
  WhereInSubQuery (NewQuery TableNameTerritory2 []) "Territory2ModelId"
    (WhereEq (NewIDQuery TableNameTerritory2Model) "State" "Active") = Returns territory_query.
Proof. vm_compute. reflexivity. Qed.

Lemma kind_lists k : lists (kind_statement k) (kind_query k) (kind_values k).
Proof.
  assert (exists text, getQueryString (kind_query k) "" 0 = Returns text
    /\ strings_HasPrefix text "/services/data" = false
    /\ read_literals None text = Some (kind_statement k, kind_values k)) as (text & Htext & Hread)
    by (destruct k; vm_compute; eexists; (split; [reflexivity|]); split; reflexivity).
  by exists text.
Qed.

Section calls.
Context `{Env}.

Definition kind_List (k : resource_kind) : PageToken -> GoM World (synced Resource) :=
  match k with
  | KGroup => group_List
  | KRole => role_List
  | KProfile => profile_List
  | KPermissionSet => permission_List
  | KPermissionSetGroup => permissionSetGroup_List
  | KConnectedApplication => connectedApplication_List
  | KTerritory => territory_List
  end.

Lemma GetTerritories_query tok n w : GetTerritories tok n w = query_map territory_query tok n (fun record => record) w.
Proof.
  unfold GetTerritories. rewrite territory_subquery, lift_bind_ret. unfold query_map, mbind, GoM_bind.
  destruct (query territory_query tok n w) as [[[[[records next] rl] [err|]]|why] w']; [done| |done]. by rewrite map_id.
Qed.

Lemma read_pages_ext {A} ok (read1 read2 : string -> GoM World (list A * string * option RateLimitDescription * error)) tok w l w' :
  (forall tok w, read2 tok w = read1 tok w) -> read_pages ok read1 tok w l w' -> read_pages ok read2 tok w l w'.
Proof.
  intros Hext. induction 1 as [|tok w l next rl w1 l' w']; [eapply read_last|eapply read_more; [|done..]]; by rewrite Hext.
Qed.

Lemma omap_total {A B} (f : A -> option B) (g : A -> B) l : (forall a, f a = Some (g a)) -> omap f l = map g l.
Proof. intros Hf. induction l as [|a l IH]; [done|]. cbn [omap list_omap map]. by rewrite Hf, IH. Qed.

(** Each page is converted record by record. *)
Lemma converted {A} ok q size (f : SObject -> A) (g : A -> Resource) k w records w' :
  (forall record, record_resource k record = Some (g (f record))) ->
  read_pages ok (fun tok => query q tok size) "" w records w' ->
  sync_pages (fun pt => sync_read (query_map q (pt_Token pt) (pt_Size pt) f) (map g)) size "" w
    (omap (record_resource k) records) w'.
Proof.
  intros Hk Hpages. rewrite (omap_total _ (fun record => g (f record))), <-map_map by done.
  eapply (pages_sync ok (fun pt => query_map q (pt_Token pt) (pt_Size pt) f)); [apply map_app|].
  by apply (pages_map ok q size f).
Qed.

Lemma kind_reads k ok size w records w' :
  Forall (fun record => record_resource k record <> None) records ->
  read_pages ok (fun tok => query (kind_query k) tok size) "" w records w' ->
  sync_pages (kind_List k) size "" w (omap (record_resource k) records) w'.
Proof.
  intros Hall Hpages. destruct k.
  1-4, 6: by eapply converted in Hpages.
  - apply (pages_each _ _ _ true permission_set_group_loop
      (fun record => match permission_set_group_loop record with inr g => g | inl _ => None end)) in Hpages.
    + assert (omap (record_resource KPermissionSetGroup) records = map permissionSetGroupResource
        (omap (fun record => match permission_set_group_loop record with inr g => g | inl _ => None end) records)) as ->.
      { clear. induction records as [|record records IH]; [done|]. cbn [omap list_omap record_resource].
        destruct (permission_set_group_loop record) as [err|[g|]]; cbn; by rewrite IH. }
      by apply (pages_sync ok (fun pt => GetPermissionSetGroups (pt_Token pt) (pt_Size pt))); [apply map_app|].
    + eapply Forall_impl; [exact Hall|]. intros record. cbn [record_resource].
      by destruct (permission_set_group_loop record).
  - rewrite (omap_total _ territoryResource) by done. apply (pages_map ok _ size (fun record => record)) in Hpages.
    rewrite map_id in Hpages.
    apply (pages_sync ok (fun pt => GetTerritories (pt_Token pt) (pt_Size pt))); [apply map_app|].
    revert Hpages. apply read_pages_ext. intros tok w0. apply GetTerritories_query.
Qed.
End calls.

(** ** Properties *)

(** C8: the sync lists every resource.  When the API lists the rows of the groups,
    roles, profiles, permission sets, permission set groups, connected
    applications or the territories of active models, in pages of its choice,
    following the page tokens of the resource listing comes to an end and gives
    exactly the resources of the rows, in their order and each once: of the right
    type, with the id of the row, the name it is shown under and, for a
    territory, its parent. *)
Theorem resources_are_synced `{ResourceListing} (Hlogged : isLoggedIn client = true) (Hok : url_ok client = true) size x w :
  serves x w ->
  exists w', sync_pages (kind_List k) size "" w (row_resource k <$> resource_rows x) w' /\ serves x w'
    /\ NoDup (res_Id <$> (row_resource k <$> resource_rows x)).
Proof.
  intros Hw. destruct (list_by Hlogged Hok (fun _ => resource_row_kept k) x (kind_query k) size tt w eq_refl (kind_lists k) Hw)
    as (records & w' & Hpages & Hw' & Hrec). exists w'. split; [|split; [done|]].
  - destruct (listed_resources k records _ Hrec) as [Hall Hmade]. unfold resource_rows. rewrite <-Hmade. by eapply kind_reads.
  - apply (NoDup_fmap_1 rid_Resource). rewrite <-!list_fmap_compose.
    rewrite (list_fmap_ext _ fst) by (intros i row _; apply row_resource_id). apply resource_once.
Qed.

(** An org with three groups, on two pages: one of everyone, one of a role, one
    of its own. *)
Definition org_groups : list resource_row :=
  [("00G1", list_to_map [("Type", "Organization")]);
   ("00G2", list_to_map [("Type", "Role"); ("Related.Name", "CEO")]);
   ("00G3", list_to_map [("Name", "Admins"); ("Type", "Regular")])].

Definition group_related_json (name : string) : json :=
  if String.eqb name "" then JNull
  else JObj [("attributes", JObj [("type", JStr "Name"); ("url", JStr "/services/data/v54.0/sobjects/UserRole/00E1")]);
             ("Name", JStr name)].

Definition group_json (row : resource_row) : json :=
  JObj [("Id", JStr row.1); ("Name", JStr (field row.2 "Name")); ("Type", JStr (field row.2 "Type"));
        ("Related", group_related_json (field row.2 "Related.Name"))].

Definition groups_token : string := "/services/data/v54.0/query/01g-2".

Definition groups_answer (u : URL) : go_error + http_response :=
  if String.eqb (url_Path u) groups_token then ok_json (page_json (map group_json (drop 2 org_groups)) true "")
  else match url_QueryUnescape (strings_TrimPrefix (url_RawQuery u) "q=") ≫= read_literals None with
       | Some (statement, []) =>
           if String.eqb statement (kind_statement KGroup) && String.eqb (url_Path u) (query_path sf_client)
           then ok_json (page_json (map group_json (take 2 org_groups)) false groups_token)
           else inl (EMsg "unknown query")
       | _ => inl (EMsg "unknown query")
       end.

Definition groups_env : Env := {|
  env_state := unit;
  env_http req _ := (match url_Parse (req_url req) with Some u => groups_answer u | None => inl (EMsg "no such host") end, tt);
  env_token _ := (inr {| AccessToken := "token"; token_instance_url := None |}, tt);
  env_new_http _ := (None, tt);
  env_cache_get _ _ := inr None;
  env_cache_set _ _ _ := tt;
  env_cache_clear _ := (None, tt);
  env_wait _ := (true, tt);
  env_jwt_assertion _ _ := (inr "signed", tt);
  env_token_exchange _ _ := (inr {| AccessToken := "token"; token_instance_url := None |}, tt);
  mail_ParseAddress _ := true;
  env_zoneinfo _ := true;
|}.

#[local] Instance groups_rest : @RestService groups_env sf_client unit.
Proof.
  refine {| rest_ok _ := True; rest_state _ := tt |}; try done.
  intros req s resp s' _. cbn [env_http groups_env]. unfold groups_answer, ok_json. intros Hrun. repeat case_match; by simplify_eq.
Defined.

(** The record of a row. *)
Definition group_object (row : resource_row) : SObject :=
  match decode_sobject (group_json row) with Some (Some record) => record | _ => ∅ end.

Lemma group_listed row : row ∈ org_groups -> is_listed KGroup (group_object row) row.
Proof.
  unfold org_groups. rewrite !elem_of_cons, elem_of_nil.
  intros [->|[->|[->|[]]]]; (split; [reflexivity|]); (split; [by repeat constructor|]); (split; [constructor|]); (constructor; [|constructor]).
  1,3: reflexivity.
  vm_compute. eexists _, _, _, _, _. repeat (split; [first [reflexivity|discriminate]|]). reflexivity.
Qed.

Definition groups_cursor (tok : string) : option (list resource_row) :=
  if String.eqb tok groups_token then Some (drop 2 org_groups) else None.

Lemma groups_page_1 :
  shows (is_listed KGroup) groups_cursor org_groups
    (json_response 200 "200 OK" (page_json (map group_json (take 2 org_groups)) false groups_token)).
Proof.
  exists {| qr_Done := false; qr_NextRecordsURL := groups_token; qr_Records := map (fun row => Some (group_object row)) (take 2 org_groups) |},
    (map group_object (take 2 org_groups)), (take 2 org_groups), (drop 2 org_groups).
  split; [by split_and!|]. split; [done|]. split; [|done].
  repeat (constructor; [by apply group_listed; set_solver|]). constructor.
Qed.

Lemma groups_page_2 :
  shows (is_listed KGroup) groups_cursor (drop 2 org_groups)
    (json_response 200 "200 OK" (page_json (map group_json (drop 2 org_groups)) true "")).
Proof.
  apply (shows_all _ _ _ _ {| qr_Done := true; qr_NextRecordsURL := ""; qr_Records := map (fun row => Some (group_object row)) (drop 2 org_groups) |}
    (map group_object (drop 2 org_groups))); [by split_and!|done|].
  repeat (constructor; [by apply group_listed; set_solver|]). constructor.
Qed.

#[local] Instance groups_listing : @ResourceListing groups_env sf_client unit groups_rest KGroup.
Proof.
  unshelve refine {| resource_list := {| by_rows _ _ := org_groups; by_cursor _ _ := groups_cursor |} |}.
  - intros _ [] tok rows. unfold groups_cursor. destruct (String.eqb_spec tok groups_token) as [->|]; [|done].
    intros _. by split; vm_compute.
  - intros req s e text [] _ _ Hm (u & Hu & _ & Hpath & Hq) He Hread. eexists _, s. split.
    + cbn [env_http groups_env]. rewrite Hu. unfold groups_answer. rewrite Hpath, Hq, TrimPrefix_app, He.
      cbn [mbind option_bind]. rewrite Hread. destruct s. reflexivity.
    + split; [done|]. split; [done|]. exact groups_page_1.
  - intros req s tok [] rows _ Hm Hurl. cbn [by_cursor]. unfold groups_cursor.
    destruct (String.eqb_spec tok groups_token) as [->|]; [|done]. intros [= <-]. eexists _, s. split.
    + cbn [env_http groups_env]. rewrite Hurl. destruct s. vm_compute. reflexivity.
    + split; [done|]. split; [done|]. exact groups_page_2.
  - intros x. apply (bool_decide_unpack _). by vm_compute.
Defined.

Definition groups_world : @World groups_env := @Build_World groups_env tt tape_client [].

Lemma resources_are_synced_witness :
  exists l w, sync_pages (H := groups_env) (group_List (H := groups_env)) 100 "" groups_world l w
    /\ map res_DisplayName l = ["All Internal Users"; "CEO (role)"; "Admins"].
Proof.
  destruct (resources_are_synced (H := groups_env) (H1 := groups_listing) (k := KGroup) eq_refl eq_refl 100 tt groups_world)
    as (w & Hpages & _); [split; [vm_compute; eauto|by split]|].
  eexists _, w. split; [exact Hpages|]. vm_compute. reflexivity.
Defined.
