(* ===== verification/Caching.v ===== *)
(** * The SDK's cache of responses

    [CreateCacheKey] and the in-memory cache of [uhttp], as they are by default, around
    any environment: a GET that was answered is answered again with that response
    until the cache is cleared.  The key tells two statements apart; and since
    nothing the connector writes clears the cache, a lookup after a write can be
    answered with what was there before it. *)
From S2P Require Export Associations UserRecords.
From stdpp Require Import sorting.
From Stdlib Require Import Ascii.

(** [strings.Cut]: before and after the first separator. *)
Definition strings_Cut (s : string) (sep : ascii) : string * string :=
  let '(before, after) := split_first sep s in (before, default "" after).

(** One setting of [url.ParseQuery]; what is malformed is left out. *)
Definition query_setting (s : string) : option (string * string) :=
  if String.eqb s "" || negb (no_char ";" s) then None
  else
    let '(key, value) := strings_Cut s "=" in
    key ← url_QueryUnescape key;
    value ← url_QueryUnescape value;
    Some (key, value).

(** [u.Query()], in the order of the settings. *)
Definition url_Query (u : URL) : list (string * string) :=
  omap query_setting (split_all (String.length (url_RawQuery u)) "&" (url_RawQuery u)).

#[export] Instance string_leb_dec : RelDecision (fun a b : string => String.leb a b = true).
Proof. intros a b. apply _. Defined.

(** [sort.Strings]. *)
Definition sort_Strings (l : list string) : list string := merge_sort (fun a b => String.leb a b = true) l.

(** What [CreateCacheKey] hashes.  Every GET goes out with the one content type; the
    host and the authorization are not part of it. *)
Definition cache_string (u : URL) : string :=
  strings_ToLower (url_Path u) +:+ "?"
  +:+ strings_Join (sort_Strings ((fun kv => kv.1 +:+ "=" +:+ kv.2) <$> url_Query u)) "&"
  +:+ "&headers=" +:+ strings_Join (sort_Strings ["Content-Type=application/json"]) "&".

(** The key; two strings with one hash are left aside. *)
Definition CreateCacheKey (req : http_request) : option string := cache_string <$> url_Parse (req_url req).

(** ** The environment behind the cache *)

Section cached.
Context (E : Env).

Abbreviation cache := (list (string * http_response)).

Definition GoCache_Get (req : http_request) (c : cache) : go_error + option http_response :=
  inr (key ← CreateCacheKey req; snd <$> find (fun kv => String.eqb kv.1 key) c).

Definition GoCache_Set (req : http_request) (resp : http_response) (c : cache) : cache :=
  match CreateCacheKey req with Some key => (key, resp) :: c | None => c end.

(** Ask the environment behind it. *)
Definition behind {A} (f : @env_state E -> A * @env_state E) (s : @env_state E * cache) : A * (@env_state E * cache) :=
  let '(a, e) := f s.1 in (a, (e, s.2)).

Definition cached_env : Env := {|
  env_state := @env_state E * cache;
  env_http req := behind (@env_http E req);
  env_token := behind (@env_token E);
  env_new_http := behind (@env_new_http E);
  env_cache_get req s := GoCache_Get req s.2;
  env_cache_set req resp s := (s.1, GoCache_Set req resp s.2);
  env_cache_clear s := (None, (s.1, []));
  env_wait := behind (@env_wait E);
  env_jwt_assertion c := behind (@env_jwt_assertion E c);
  env_token_exchange req := behind (@env_token_exchange E req);
  mail_ParseAddress := @mail_ParseAddress E;
  env_zoneinfo := @env_zoneinfo E;
|}.

Definition cached_world (w : @World E) : @World cached_env :=
  @Build_World cached_env (w_env w, []) (w_client w) (w_log w).
End cached.

(** ** What the key tells apart *)

Lemma str_app_inj_r s t u : s +:+ u = t +:+ u -> s = t.
Proof.
  intros H. assert (String.length s = String.length t) as Hlen
    by (apply (f_equal String.length) in H; rewrite !str_app_length in H; lia).
  revert t H Hlen. induction s as [|c s IH]; intros [|d t] H Hlen; try discriminate Hlen; [done|].
  rewrite !str_app_cons in H. injection H as -> H. injection Hlen as Hlen. f_equal. by apply IH.
Qed.

(** A byte that is none of the escaped ones is not in an escaped value. *)
Lemma escaped_no_char c s : url_query_byte c = false -> no_char c (url_QueryEscape s) = true.
Proof.
  intros Hc. apply (str_forall_weaken url_query_byte); [|apply QueryEscape_bytes].
  intros c' Hc'. destruct (Ascii.eqb_spec c' c) as [->|]; [congruence|done].
Qed.

(** The query of a statement has the one setting. *)
Lemma url_Query_statement u text : url_RawQuery u = "q=" +:+ url_QueryEscape text -> url_Query u = [("q", text)].
Proof.
  intros Hu. unfold url_Query. rewrite Hu.
  assert (forall c, url_query_byte c = false -> no_char c "q=" = true -> no_char c ("q=" +:+ url_QueryEscape text) = true) as Hno.
  { intros c Hc Hq. unfold no_char. rewrite str_forall_app. apply andb_true_iff. split; [exact Hq|by apply escaped_no_char]. }
  set (raw := "q=" +:+ url_QueryEscape text) in *. change (String.length raw) with (S (S (String.length (url_QueryEscape text)))).
  cbn [split_all]. rewrite split_first_none by by apply Hno. cbn [omap list_omap]. unfold query_setting, strings_Cut.
  rewrite (Hno ";"%char) by done. subst raw. change ("q=" +:+ ?s) with ("q" +:+ String "=" s).
  rewrite split_first_app by done. cbn [orb negb String.eqb]. cbn [default option_map mbind option_bind].
  unfold id. by rewrite QueryUnescape_QueryEscape.
Qed.

Lemma ToLower_app s t : strings_ToLower (s +:+ t) = strings_ToLower s +:+ strings_ToLower t.
Proof.
  induction s as [|c s IH]; [by rewrite !str_app_nil_l|]. rewrite str_app_cons. cbn [strings_ToLower].
  by rewrite str_app_cons, IH.
Qed.

Section keys.
Context (client : simple_client) (Hok : url_ok client = true).

Lemma statement_key text :
  strings_HasPrefix text "/services/data" = false ->
  CreateCacheKey (client_request client MethodGet (query_url client text) NoBody)
  = Some (strings_ToLower (query_path client) +:+ "?q=" +:+ text +:+ "&headers=Content-Type=application/json").
Proof.
  intros Hpre. destruct (query_url_parts client text Hok Hpre) as (u & host & Hp & _ & _ & Hpath & Hq).
  unfold CreateCacheKey. cbn [req_url client_request]. rewrite Hp. cbn [fmap option_fmap option_map]. f_equal.
  unfold cache_string. rewrite Hpath, (url_Query_statement u text Hq). reflexivity.
Qed.

Lemma object_key table id auth body :
  path_safe table = true -> path_safe id = true ->
  CreateCacheKey (object_request (client := client) MethodGet table id auth body)
  = Some (strings_ToLower (object_path client table id) +:+ "?&headers=Content-Type=application/json").
Proof.
  intros Ht Hi. destruct (object_url_parts Hok table id Ht Hi) as (u & Hp & _ & Hpath & Hq).
  unfold CreateCacheKey. cbn [req_url object_request]. rewrite Hp. cbn [fmap option_fmap option_map]. f_equal.
  unfold cache_string. rewrite Hpath. unfold url_Query. rewrite Hq. reflexivity.
Qed.
End keys.

(** ** Calls behind the cache *)

Section behind.
Context {E : Env}.

Abbreviation CW := (@World (cached_env E)).
Abbreviation cache := (list (string * http_response)).

(** The world of the environment with the cache, and the one without. *)
Definition ahead (w : @World E) (c : cache) : CW := @Build_World (cached_env E) (w_env w, c) (w_client w) (w_log w).
Definition uncached (w : CW) : @World E := @Build_World E (fst (w_env w)) (w_client w) (w_log w).

(** A call that does not use the cache. *)
Definition passes {A} (m : GoM CW A) (m' : GoM (@World E) A) : Prop :=
  forall w c, m (ahead w c) = ((m' w).1, ahead (m' w).2 c).

Lemma passes_ret {A} (a : A) : passes (mret a) (mret a).
Proof. done. Qed.

Lemma passes_lift {A} (o : outcome A) : passes (lift o) (lift o).
Proof. done. Qed.

Lemma passes_panic {A} why : passes (A := A) (go_panic why) (go_panic why).
Proof. done. Qed.

Lemma passes_bind {A B} (m : GoM CW A) m' (k : A -> GoM CW B) k' :
  passes m m' -> (forall a, passes (k a) (k' a)) -> passes (m ≫= k) (m' ≫= k').
Proof.
  intros Hm Hk w c. unfold mbind, GoM_bind. rewrite Hm. destruct (m' w) as [[a|why] w1]; [apply Hk|done].
Qed.

Lemma passes_ask {A} (f : @env_state E -> A * @env_state E) : passes (@ask (cached_env E) A (behind E f)) (ask f).
Proof. intros w c. unfold ask, behind. cbn. by destruct (f (w_env w)). Qed.

Lemma passes_client : passes get_client get_client.
Proof. done. Qed.

Lemma passes_set_client c : passes (set_client c) (set_client c).
Proof. done. Qed.

Lemma passes_log req : passes (log_request req) (log_request req).
Proof. done. Qed.

Lemma RoundTrip_passes t req : passes (RoundTrip t req) (RoundTrip t req).
Proof.
  unfold RoundTrip. apply passes_bind.
  - destruct (t_tokenSource t); [|apply passes_ret]. apply passes_bind; [apply passes_ask|]. intros []; apply passes_ret.
  - intros req'. apply passes_bind; [apply passes_ask|]. intros []; apply passes_ret.
Qed.

(** A write goes past the cache. *)
Lemma Do_passes t req : req_method req <> MethodGet -> passes (Do t req) (Do t req).
Proof.
  intros Hm. unfold Do. apply passes_bind; [apply passes_log|]. intros [] w c.
  unfold go_get, mbind at 1 3, GoM_bind at 1 3. destruct (req_method req); [done|..]; cbv beta iota zeta;
    (refine (passes_bind _ _ _ _ (RoundTrip_passes t req) _ w c)); intros [t' [err|resp]]; try apply passes_ret;
    destruct (resp_read_error resp), (status_ok (resp_status resp)); apply passes_ret.
Qed.

Lemma httpRequest_passes client t method url body :
  method <> MethodGet -> passes (httpRequest client t method url body) (httpRequest client t method url body).
Proof.
  intros Hm. unfold httpRequest. destruct (url_Parse url); [|apply passes_ret].
  apply passes_bind; [by apply Do_passes|]. intros [[t' resp] [err|]].
  - apply passes_bind; [apply passes_lift|]. intros err'. apply passes_ret.
  - destruct resp as [resp|]; [|apply passes_panic]. destruct (status_ok (resp_status resp)); [apply passes_ret|].
    apply passes_bind; [apply passes_lift|]. intros err'. apply passes_ret.
Qed.

Lemma SObject_Create_passes client t obj : passes (SObject_Create client t obj) (SObject_Create client t obj).
Proof.
  unfold SObject_Create. apply passes_bind; [apply passes_lift|]. intros typ.
  destruct (_ || _); [apply passes_ret|]. destruct (negb _); [apply passes_ret|].
  apply passes_bind; [by apply httpRequest_passes|]. intros [t' [[err|] resp]]; apply passes_ret.
Qed.

Lemma CreateObject_passes client table values w c :
  online client w -> CreateObject table values (ahead w c)
  = ((CreateObject table values w).1, ahead (CreateObject table values w).2 c).
Proof.
  intros Hw. unfold CreateObject. rewrite !(init_bind_online client) by exact Hw. clear Hw. revert w c.
  change (passes (x ← on_client (fun client t => SObject_Create client t (set_all (map_to_list values) (Client_SObject true table)));
      ratelimitData ← rateLimit;
      match x with inl err => mret (ratelimitData, Some err) | inr _ => mret (ratelimitData, None) end)
    (x ← on_client (fun client t => SObject_Create client t (set_all (map_to_list values) (Client_SObject true table)));
      ratelimitData ← rateLimit;
      match x with inl err => mret (ratelimitData, Some err) | inr _ => mret (ratelimitData, None) end)).
  apply passes_bind.
  - unfold on_client. apply passes_bind; [apply passes_client|]. intros c.
    destruct (c_client c), (c_salesforceTransport c); try apply passes_panic.
    apply passes_bind; [apply SObject_Create_passes|]. intros [t' a].
    apply passes_bind; [apply passes_set_client|]. intros []. apply passes_ret.
  - intros a. apply passes_bind.
    + unfold rateLimit. apply passes_bind; [apply passes_client|]. intros c.
      destruct (c_salesforceTransport c); [apply passes_ret|apply passes_panic].
    + intros rl. destruct a; apply passes_ret.
Qed.
End behind.

(** A query of which the one request is answered like this. *)
Lemma query_of_response `{Env} client q n text w resp e log result records :
  isLoggedIn client = true -> online client w ->
  getQueryString q "" n = Returns text -> url_Parse (query_url client text) <> None ->
  (forall t, c_salesforceTransport (w_client w) = Some t ->
     exists t' w1, Do t (client_request client MethodGet (query_url client text) NoBody) w
       = (Returns (t', Some resp, None), w1) /\ w_env w1 = e /\ w_log w1 = log) ->
  page_of resp result records ->
  exists next rl w2, query q "" n w = (Returns (map (fun r => setClient r true) records, next, rl, None), w2)
    /\ w_env w2 = e /\ w_log w2 = log /\ online client w2.
Proof.
  intros Hlogged Hw Htext Hurl Hdo (Hst & Hdec & Hrec). unfold query. rewrite (init_bind_online client) by done.
  rewrite Htext, lift_bind_ret. destruct Hw as (Hi & Hc & [t Ht]). destruct (Hdo t Ht) as (t' & w1 & Hrun & He & Hlog).
  assert (Query client t text w = (Returns (t', inr (qr_Done result, qr_NextRecordsURL result,
    map (fun r => setClient r true) records)), w1)) as Hquery.
  { assert (httpRequest client t MethodGet (query_url client text) NoBody w = (Returns (t', (None, Some resp)), w1)) as Hreq.
    { unfold httpRequest. destruct (url_Parse _); [|done]. fold (client_request client MethodGet (query_url client text) NoBody).
      rewrite (GoM_bind_run _ _ _ _ _ Hrun), Hst. reflexivity. }
    unfold Query. rewrite Hlogged. cbn [negb]. rewrite (GoM_bind_run _ _ _ _ _ Hreq). cbn [mbind option_bind].
    by rewrite Hdec, Hrec, set_record_clients_Some, lift_bind_ret. }
  unfold on_client, get_client.
  erewrite GoM_bind_run; cycle 1.
  { rewrite GoM_bind_run with (a := w_client w) (s' := w) by done. rewrite Hc, Ht.
    rewrite (GoM_bind_run _ _ _ _ _ Hquery). reflexivity. }
  unfold rateLimit, get_client. eexists _, _, _. split; [reflexivity|]. cbn. split_and!; [done|done|]. split_and!; eauto.
Qed.

Definition psg_lookup (u g : string) : SalesforceQuery :=
  WhereEq (WhereEq (NewQuery TableNamePermissionAssignments ["PermissionSetGroupId"; "AssigneeId"]) "AssigneeId" u)
    "PermissionSetGroupId" g.

(** The lookup of a permission set group's assignment, of which the answer is empty. *)
Lemma GetOne_of_response `{Env} client u g text w resp e log result :
  isLoggedIn client = true -> online client w ->
  getQueryString (psg_lookup u g) "" 1 = Returns text -> url_Parse (query_url client text) <> None ->
  (forall t, c_salesforceTransport (w_client w) = Some t ->
     exists t' w1, Do t (client_request client MethodGet (query_url client text) NoBody) w
       = (Returns (t', Some resp, None), w1) /\ w_env w1 = e /\ w_log w1 = log) ->
  page_of resp result [] ->
  exists w2, GetOnePermissionSetGroupAssignment u g w = (Returns (None, None), w2)
    /\ w_env w2 = e /\ w_log w2 = log /\ online client w2.
Proof.
  intros Hlogged Hw Htext Hurl Hdo Hpage.
  destruct (query_of_response client _ 1%Z text w resp e log result [] Hlogged Hw Htext Hurl Hdo Hpage)
    as (next & rl & w2 & Hrun & Hw2).
  exists w2. split; [|done].
  assert (query_first (psg_lookup u g) group_assignment_of w = (Returns (None, rl, None), w2)) as Hfirst
    by (unfold query_first; by rewrite (GoM_bind_run _ _ _ _ _ Hrun)).
  unfold psg_lookup in Hfirst. unfold GetOnePermissionSetGroupAssignment. by rewrite (GoM_bind_run _ _ _ _ _ Hfirst).
Qed.

Section reads.
Context {E : Env} {client : simple_client} {T : Type} `{!@RestService E client T}.

(** A read that is not in the cache: it is answered, and the response kept. *)
Lemma Do_miss t req (x : T) Q w key :
  holds x w -> req_method req = MethodGet -> CreateCacheKey req = Some key -> answers req x Q ->
  (forall resp x', Q resp x' -> resp_status resp = 200%Z) ->
  exists t' resp w1 x', Do t req (ahead w []) = (Returns (t', Some resp, None), ahead w1 [(key, resp)])
    /\ Q resp x' /\ holds x' w1 /\ resp_read_error resp = None.
Proof.
  intros Hw Hm Hkey Hreq Hst. set (w0 := @Build_World E (w_env w) (w_client w) (w_log w ++ [req])).
  destruct (RoundTrip_answers t req x Q Hreq w0) as ([t' r] & w1 & Hrun & resp & x' & Heq & Hread & Hq & Hw1); [exact Hw|].
  cbn [snd] in Heq. subst r. exists t', resp, w1, x'. split; [|done]. unfold Do.
  rewrite GoM_bind_run with (a := tt) (s' := ahead w0 []) by done.
  rewrite GoM_bind_run with (a := ahead w0 []) (s' := ahead w0 []) by done. rewrite Hm.
  assert (@env_cache_get (cached_env E) req (w_env (ahead w0 [])) = inr None) as -> by (cbn; unfold GoCache_Get; by rewrite Hkey).
  assert (RoundTrip t req (ahead w0 []) = (Returns (t', inr resp), ahead w1 [])) as Hahead
    by (rewrite RoundTrip_passes; by rewrite Hrun).
  rewrite (GoM_bind_run _ _ _ _ _ Hahead), Hread, (Hst resp x' Hq). cbn. unfold GoCache_Set. by rewrite Hkey.
Qed.

(** One that is: it is answered with the response kept, and the environment is not
    asked. *)
Lemma Do_hit t req w key resp :
  req_method req = MethodGet -> CreateCacheKey req = Some key ->
  resp_read_error resp = None -> resp_status resp = 200%Z ->
  Do t req (ahead w [(key, resp)])
  = (Returns (t, Some resp, None),
     ahead (@Build_World E (w_env w) (w_client w) (w_log w ++ [req])) [(key, resp); (key, resp)]).
Proof.
  intros Hm Hkey Hread Hst. set (w0 := @Build_World E (w_env w) (w_client w) (w_log w ++ [req])). unfold Do.
  rewrite GoM_bind_run with (a := tt) (s' := ahead w0 [(key, resp)]) by done.
  rewrite GoM_bind_run with (a := ahead w0 [(key, resp)]) (s' := ahead w0 [(key, resp)]) by done. rewrite Hm.
  assert (@env_cache_get (cached_env E) req (w_env (ahead w0 [(key, resp)])) = inr (Some resp)) as ->
    by (cbn; unfold GoCache_Get; rewrite Hkey; cbn; by rewrite String.eqb_refl).
  cbv beta iota. rewrite GoM_bind_run with (a := (t, inr resp)) (s' := ahead w0 [(key, resp)]) by done.
  rewrite Hread, Hst. cbn. unfold GoCache_Set. by rewrite Hkey.
Qed.
End reads.

(** ** Properties *)

(** What the connector was told and what Salesforce holds, behind the cache. *)
Definition given_role := role_Grant user_b ceo_assigned (cached_world user_env users_world).
Definition taken_role := role_Revoke (as_grant user_b ceo_assigned) given_role.2.

(** C21: the cache never answers one statement with the response to another.  Whatever
    the statements hold (separators, quotes, [&] and [=] included), the requests
    of two statements have the same key just when the statements are equal; those
    of two records just when the ids are equal up to case; and that of a record is
    never that of a statement. *)
Theorem cache_keys client text1 text2 table id1 id2 :
  url_ok client = true -> path_safe table = true -> path_safe id1 = true -> path_safe id2 = true ->
  strings_HasPrefix text1 "/services/data" = false -> strings_HasPrefix text2 "/services/data" = false ->
  let statement text := CreateCacheKey (client_request client MethodGet (query_url client text) NoBody) in
  let record id := CreateCacheKey (client_request client MethodGet (makeURL client ("sobjects/" +:+ table +:+ "/" +:+ id)) NoBody) in
  (statement text1 = statement text2 <-> text1 = text2)
  /\ (record id1 = record id2 <-> strings_ToLower id1 = strings_ToLower id2)
  /\ (drop_v (sc_apiVersion client) = sc_apiVersion client -> statement text1 <> record id1).
Proof.
  intros Hok Ht Hi1 Hi2 Hp1 Hp2 statement record. unfold statement, record. split_and!.
  - rewrite !statement_key by done. split; [|by intros ->]. intros [= H]. by apply str_app_inj_l, str_app_inj_l, str_app_inj_r in H.
  - change (CreateCacheKey (client_request client MethodGet (makeURL client ("sobjects/" +:+ table +:+ "/" +:+ ?i)) NoBody))
      with (CreateCacheKey (object_request (client := client) MethodGet table i ("Bearer " +:+ sc_sessionID client) NoBody)).
    rewrite !(object_key client Hok table) by done. unfold object_path. rewrite !ToLower_app.
    split; [|by intros ->]. intros [= H]. by apply str_app_inj_r in H; repeat apply str_app_inj_l in H.
  - change (CreateCacheKey (client_request client MethodGet (makeURL client ("sobjects/" +:+ table +:+ "/" +:+ id1)) NoBody))
      with (CreateCacheKey (object_request (client := client) MethodGet table id1 ("Bearer " +:+ sc_sessionID client) NoBody)).
    rewrite statement_key, (object_key client Hok table) by done. intros Hv [= H]. revert H.
    unfold object_path, query_path. rewrite Hv, !ToLower_app, !str_app_assoc. intros H.
    by apply str_app_inj_l, str_app_inj_l in H.
Qed.

Lemma cache_keys_witness :
  CreateCacheKey (client_request sf_client MethodGet (query_url sf_client "WHERE Name = 'a&b'") NoBody)
  <> CreateCacheKey (client_request sf_client MethodGet (query_url sf_client "WHERE Name = 'b&a'") NoBody)
  /\ CreateCacheKey (client_request sf_client MethodGet (makeURL sf_client ("sobjects/User/005Ab")) NoBody)
     = CreateCacheKey (client_request sf_client MethodGet (makeURL sf_client ("sobjects/User/005aB")) NoBody).
Proof.
  destruct (cache_keys sf_client "WHERE Name = 'a&b'" "WHERE Name = 'b&a'" "User" "005Ab" "005aB"
    eq_refl eq_refl eq_refl eq_refl eq_refl eq_refl) as (Htext & Hid & _).
  split; [by intros Heq%Htext|by apply Hid].
Defined.

(** A role that was given is not taken away: the revoke fails, because the user is
    said not to have it. *)
Lemma role_Revoke_stale :
  given_role.1 = Returns ([ARateLimit None], None)
  /\ taken_role.1 = Returns ([ARateLimit None], Some (EMsg "missing UserRoleId: 00E1"))
  /\ has_field "005B" "UserRoleId" "00E1" (ro_table (w_env taken_role.2).1) = true.
Proof. split; [by vm_compute|]. split; by vm_compute. Qed.

Section stale.
Context {E : Env} {client : simple_client} `{!@LinkService E client permission_set_group_link}.
Context (Hlogged : isLoggedIn client = true) (Hok : url_ok client = true).

Abbreviation linked := (linked_pairs (client := client) (l := permission_set_group_link)).

(** The key of the lookup of an assignment, and its empty answer. *)
Definition lookup_kept (g u : string) (text key : string) (resp : http_response) : Prop :=
  getQueryString (psg_lookup u g) "" 1 = Returns text /\ url_Parse (query_url client text) <> None
  /\ CreateCacheKey (client_request client MethodGet (query_url client text) NoBody) = Some key
  /\ resp_read_error resp = None /\ exists result, page_of resp result [].

Lemma lookup_misses S (w : @World E) g u :
  id_pair (g, u) -> (g, u) ∉ S -> linked S w ->
  exists text key resp w1, GetOnePermissionSetGroupAssignment u g (ahead w []) = (Returns (None, None), ahead w1 [(key, resp)])
    /\ lookup_kept g u text key resp /\ linked S w1.
Proof.
  intros Hids Hno (L & <- & Hw). destruct (permission_set_group_asks u g) as (text & Htext & Hpre & Hread).
  pose proof (query_url_parses client text Hok Hpre) as Hurl.
  pose proof Hw as [Hon Hholds]. destruct Hon as (Hi & Hc & [t Ht]).
  set (req := client_request client MethodGet (query_url client text) NoBody).
  assert (exists key, CreateCacheKey req = Some key) as [key Hkey] by (eexists; by apply statement_key).
  edestruct (Do_miss t req L _ w key Hholds eq_refl Hkey (lookup_answered Hok L text g u _ Hids Hpre Hread))
    as (t' & resp & w1 & x & Hdo & (-> & ids & Hlist & Hin) & Hw1 & Hrd); [by intros resp x' (_ & ids & [Hst _] & _)|].
  assert (ids = []) as ->.
  { destruct ids as [|id ids]; [done|]. exfalso. apply Hno, elem_of_members. exists id. apply Hin. by left. }
  destruct Hlist as (Hst & result & records & Hdec & Hrec & Hnil). apply map_eq_nil in Hnil as ->.
  destruct (GetOne_of_response (H := cached_env E) client u g text (ahead w []) resp (w_env w1, [(key, resp)]) (w_log w1) result
    Hlogged (conj Hi (conj Hc (ex_intro _ t Ht))) (Htext 1%Z) Hurl) as (w2 & Hrun & He & Hlog & Hon2).
  - intros t0 Ht0. cbn in Ht0. rewrite Ht in Ht0. injection Ht0 as <-. by exists t', (ahead w1 [(key, resp)]).
  - by split_and!.
  - exists text, key, resp, (uncached w2). split.
    + rewrite Hrun. f_equal. destruct w2 as [[e c] cl lg]. cbn in He |- *. injection He as -> ->. reflexivity.
    + split; [split_and!; [exact (Htext 1%Z)|exact Hurl|exact Hkey|exact Hrd|exists result; by split_and!]|].
      exists L. split; [done|]. split; [exact Hon2|]. unfold holds. cbn. by rewrite He.
Qed.

Lemma lookup_hits S (w : @World E) g u text key resp :
  lookup_kept g u text key resp -> linked S w ->
  exists w1 c lookup, GetOnePermissionSetGroupAssignment u g (ahead w [(key, resp)]) = (Returns (None, None), ahead w1 c)
    /\ linked S w1 /\ req_method lookup = MethodGet /\ w_log w1 = w_log w ++ [lookup].
Proof.
  intros (Htext & Hurl & Hkey & Hrd & result & Hpage) (L & <- & Hw). pose proof Hw as [Hon Hholds]. pose proof Hpage as (Hst & _).
  set (req := client_request client MethodGet (query_url client text) NoBody) in *.
  destruct (GetOne_of_response (H := cached_env E) client u g text (ahead w [(key, resp)]) resp
    (w_env w, [(key, resp); (key, resp)]) (w_log w ++ [req]) result Hlogged Hon Htext Hurl) as (w2 & Hrun & He & Hlog & Hon2).
  - intros t Ht. exists t. eexists. split; [by apply Do_hit|]. by split.
  - exact Hpage.
  - exists (uncached w2), [(key, resp); (key, resp)], req. split_and!; [|exists L; split; [done|]; split; [exact Hon2|]|done|exact Hlog].
    + rewrite Hrun. f_equal. destruct w2 as [[e c] cl lg]. cbn in He |- *. injection He as -> ->. reflexivity.
    + unfold holds. cbn. by rewrite He.
Qed.
End stale.

(** C32: what the assumption that no lookup is answered from a cache is for.  Behind
    the SDK's cache, on by default and still empty, around any Salesforce that keeps
    its promises: a user who is no member of a permission set group, and whom
    Salesforce takes, is granted the membership; the revoke that follows answers
    that it was revoked already, hands the SDK's client nothing but the lookup, and
    leaves the user a member, because the answer to the lookup of the grant is
    still in the cache. *)
Theorem revokes_are_stale {E : Env} {client : simple_client} `{!@LinkService E client permission_set_group_link}
    principal ent g resource S (w : @World E) :
  isLoggedIn client = true -> url_ok client = true ->
  is_user principal = true -> ent_Resource ent = Some resource ->
  grant_Principal g = principal -> ent_Resource (grant_Entitlement g) = Some resource ->
  let p := pair_of resource principal in
  id_pair p -> p ∉ S -> link_valid (l := permission_set_group_link) p = true ->
  linked_pairs (client := client) (l := permission_set_group_link) S w ->
  let granted := permissionSetGroup_Grant principal ent (cached_world E w) in
  let revoked := permissionSetGroup_Revoke g granted.2 in
  granted.1 = Returns ([NewGrant resource permissionSetGroupMemberEntitlementName principal], [], None)
  /\ linked_pairs (client := client) (l := permission_set_group_link) (S ∪ {[p]}) (uncached granted.2)
  /\ revoked.1 = Returns ([AGrantAlreadyRevoked], None)
  /\ linked_pairs (client := client) (l := permission_set_group_link) (S ∪ {[p]}) (uncached revoked.2)
  /\ exists lookup, req_method lookup = MethodGet /\ w_log revoked.2 = w_log granted.2 ++ [lookup].
Proof.
  intros Hlogged Hok Hu Hres Hgp Hgr p Hids Hno Hvalid Hw granted revoked.
  destruct (lookup_misses Hlogged Hok S w _ _ Hids Hno Hw) as (text & key & resp & w1 & Hmiss & Hkept & Hw1).
  destruct (CreateObject_adds Hok permission_set_group_link_sound _ p.1 p.2 (permission_set_group_sends p.2 p.1) S w1 Hw1)
    as ([rl err] & w2 & Hcreate & Hw2 & Hanswer).
  change (p.1, p.2) with p in Hw2, Hanswer. rewrite bool_decide_eq_false_2 in Hanswer by exact Hno.
  unfold add_pair in Hw2. rewrite Hvalid in Hw2, Hanswer. unfold succeeds in Hanswer. cbn [snd] in Hanswer. subst err.
  assert (granted = (Returns ([NewGrant resource permissionSetGroupMemberEntitlementName principal], [], None), ahead w2 [(key, resp)]))
    as Hgranted.
  { unfold granted, permissionSetGroup_Grant. rewrite Hu, Hres. cbn [negb]. change (cached_world E w) with (ahead w []).
    rewrite (GoM_bind_run _ _ _ _ _ Hmiss). unfold AddUserToPermissionSetGroup.
    assert (online client w1) as Hon by (destruct Hw1 as (L & _ & Hon & _); exact Hon).
    pose proof (CreateObject_passes client TableNamePermissionAssignments
      (fields_of [("AssigneeId", p.2); ("PermissionSetGroupId", p.1)]) w1 [(key, resp)] Hon) as Hpass.
    change TableNamePermissionAssignments with (l_table permission_set_group_link) in Hpass at 2 3. rewrite Hcreate in Hpass.
    by rewrite (GoM_bind_run _ _ _ _ _ Hpass). }
  unfold revoked. clear revoked. rewrite Hgranted. cbn [fst snd].
  destruct (lookup_hits Hlogged (S ∪ {[p]}) w2 _ _ text key resp Hkept Hw2) as (w3 & c & lookup & Hhit & Hw3 & Hm & Hlog).
  assert (permissionSetGroup_Revoke g (ahead w2 [(key, resp)]) = (Returns ([AGrantAlreadyRevoked], None), ahead w3 c)) as ->.
  { unfold permissionSetGroup_Revoke. rewrite Hgp, Hu, Hgr. cbn [negb]. by rewrite (GoM_bind_run _ _ _ _ _ Hhit). }
  split_and!; [done|exact Hw2|done|exact Hw3|by exists lookup].
Qed.

#[local] Existing Instance permission_set_group_org.

Lemma revokes_are_stale_witness :
  exists revoked : outcome reply * @World (cached_env (org_env permission_set_group_link)),
    revoked = permissionSetGroup_Revoke (as_grant user_a group_psg_member)
      (permissionSetGroup_Grant user_a group_psg_member
         (cached_world (org_env permission_set_group_link) (org_world permission_set_group_link no_links))).2
    /\ revoked.1 = Returns ([AGrantAlreadyRevoked], None)
    /\ linked_pairs (client := sf_client) (l := permission_set_group_link) {[("0PG1", "005A")]} (uncached revoked.2).
Proof.
  eexists. split; [reflexivity|].
  destruct (revokes_are_stale (E := org_env permission_set_group_link) (H := permission_set_group_org)
    user_a group_psg_member (as_grant user_a group_psg_member) group_psg ∅ (org_world permission_set_group_link no_links)
    sf_logged sf_url eq_refl eq_refl eq_refl eq_refl (conj eq_refl eq_refl)) as (_ & _ & Hr & Hw & _).
  - set_solver.
  - reflexivity.
  - exists ∅. split; [by vm_compute|]. split; [vm_compute; eauto|]. split; [apply no_links_ok|reflexivity].
  - split; [exact Hr|]. rewrite (union_empty_l_L {[pair_of group_psg user_a]}) in Hw. exact Hw.
Defined.
