(* ===== verification/NoPanic.v ===== *)
(** * No call panics

    Go's nil dereferences, failed type assertions and indices out of range are
    [Panics] in the model.  Against an API that answers in its documented shapes
    ([SaneEnv]) no call of the sync panics and neither does provisioning, with
    the one exception the properties of [Profiles] are about.  In particular
    every query of the connector can be built. *)
From S2P Require Export Connector.

(** ** An API that answers in its documented shapes *)

(** What the code takes for granted of a response: an error list is not empty,
    the records of a page are no nulls, and the attributes of an object have
    strings for type and URL. *)
Definition sane_json (j : json) : bool :=
  negb (bool_decide (decode_json_errors j = Some []))
  && match decode_QueryResult j with
     | Some result => forallb (fun r => bool_decide (is_Some r)) (qr_Records result)
     | None => true
     end
  && match unmarshal_into j (Client_SObject true TableNameUsers) with
     | Some obj => match SObject_Type obj with Panics _ => false | Returns _ => true end
     | None => true
     end.

Definition sane_response (resp : http_response) : bool :=
  match resp_json resp with Some j => sane_json j | None => true end.

(** An environment all of whose responses are sane, from states its operations
    keep to. *)
Class SaneEnv `{Env} := {
  sane : env_state -> Prop;
  sane_http req s r : sane s -> (env_http req s).1 = inr r -> sane_response r = true;
  sane_cached req s r : sane s -> env_cache_get req s = inr (Some r) -> sane_response r = true;
  sane_http_next req s : sane s -> sane (env_http req s).2;
  sane_token_next s : sane s -> sane (env_token s).2;
  sane_new_http_next s : sane s -> sane (env_new_http s).2;
  sane_cache_next req r s : sane s -> sane_response r = true -> sane (env_cache_set req r s);
  sane_clear_next s : sane s -> sane (env_cache_clear s).2;
  sane_wait_next s : sane s -> sane (env_wait s).2;
}.

(** The client satisfies [K] and the environment is sane. *)
Definition calm `{SaneEnv} (K : SalesforceClient -> Prop) (w : World) : Prop :=
  K (w_client w) /\ sane (w_env w).

(** The client has its connection. *)
Definition linked (c : SalesforceClient) : Prop :=
  is_Some (c_client c) /\ is_Some (c_salesforceTransport c).

Lemma linked_ready c : linked c -> ready c.
Proof. by intros [H1 H2] _. Qed.

(** Walk through a body that keeps an invariant. *)
Ltac settle :=
  repeat first
    [ match goal with |- forall _, _ => intro end
    | solve [eauto 3 with golog]
    | match goal with
      | |- triple ?I ?m (fun _ => ?I) => change (total I m)
      | |- total _ (@mbind _ _ _ _ _ _) => apply total_bind
      | |- total _ (go_range _ _ _) => apply total_range; intros
      end
    | case_match ].

(** ** The SDK's client and simpleforce *)

Section http_total.
Context `{SaneEnv} (K : SalesforceClient -> Prop).

Lemma total_ask {A} (f : env_state -> A * env_state) :
  (forall s, sane s -> sane (f s).2) -> total (calm K) (ask f).
Proof.
  intros Hf w [HK Hs]. unfold ask. specialize (Hf _ Hs). destruct (f (w_env w)) as [a e].
  eexists _, _. split; [reflexivity|]. done.
Qed.

Lemma total_log_request req : total (calm K) (log_request req).
Proof. intros w Hw. eexists _, _. by split. Qed.

Lemma ask_http req :
  triple (calm K) (ask (env_http req))
    (fun r w => match r with inr resp => sane_response resp = true | inl _ => True end /\ calm K w).
Proof.
  intros w [HK Hs]. unfold ask. pose proof (sane_http req (w_env w)) as Hr.
  pose proof (sane_http_next req (w_env w) Hs) as Hn.
  destruct (env_http req (w_env w)) as [[err|resp] e]; eexists _, _; (split; [reflexivity|]); [done|].
  split; [by apply Hr|done].
Qed.

(** A response, or an error: never neither, and the response is sane. *)
Definition answered (r : option http_response * error) : Prop :=
  match r with
  | (Some resp, _) => sane_response resp = true
  | (None, err) => err <> None
  end.

Lemma RoundTrip_total t req :
  triple (calm K) (RoundTrip t req)
    (fun r w => match r.2 with inr resp => sane_response resp = true | inl _ => True end /\ calm K w).
Proof.
  unfold RoundTrip. eapply (triple_bind _ _ (fun _ => calm K)).
  - destruct (t_tokenSource t); [|apply total_ret]. apply total_bind; [apply total_ask, sane_token_next|].
    intros [err|tok]; apply total_ret.
  - intros req'. eapply triple_bind; [apply ask_http|].
    intros [err|resp]; apply triple_ret; intros w [Hr Hw]; done.
Qed.

Lemma Do_total t req :
  triple (calm K) (Do t req) (fun r w => answered (r.1.2, r.2) /\ calm K w).
Proof.
  unfold Do. eapply triple_bind; [apply total_log_request|]. intros [].
  apply triple_get. intros w0 [HK0 Hs0].
  apply (triple_pre (calm K)); [intros ? Hw; by rewrite Hw|].
  destruct (match req_method req with MethodGet => env_cache_get req (w_env w0) | _ => inr None end) as [err|cached] eqn:Ec;
    [by apply triple_ret|].
  eapply (triple_bind _ _ (fun r w => match r.2 with inr resp => sane_response resp = true | inl _ => True end /\ calm K w)).
  - assert (triple (calm K) (RoundTrip t req)
      (fun r w => match r.2 with inr resp => sane_response resp = true | inl _ => True end /\ calm K w)) as Hround
      by apply RoundTrip_total.
    destruct cached as [resp|]; [|done]. apply triple_ret. intros w Hw. split; [|done].
    destruct (req_method req); [by apply (sane_cached req (w_env w0))|done..].
  - intros [t' [err|resp]]; apply triple_pure; intros Hr; [by apply triple_ret|].
    destruct (resp_read_error resp); [by apply triple_ret|].
    destruct (negb (status_ok (resp_status resp))); [by apply triple_ret|].
    eapply (triple_bind _ _ (fun _ => calm K)); [|intros []; by apply triple_ret].
    assert (total (calm K) (with_env (env_cache_set req resp))) as Hset.
    { intros w [HK Hs]. eexists _, _. split; [reflexivity|]. split; [done|]. by apply sane_cache_next. }
    destruct (req_method req); [destruct (resp_status resp =? 200)%Z; [exact Hset|]|..]; apply total_ret.
Qed.

Lemma total_lift {A} (o : outcome A) : (exists a, o = Returns a) -> total (calm K) (lift o).
Proof. intros [a ->] w Hw. by exists a, w. Qed.

Lemma ParseSalesforceError_returns resp :
  sane_response resp = true -> exists e, ParseSalesforceError resp = Returns e.
Proof.
  unfold sane_response, sane_json, ParseSalesforceError. intros Hs.
  destruct (resp_json resp) as [j|]; simpl.
  - rewrite !andb_true_iff, negb_true_iff, bool_decide_eq_false in Hs. destruct Hs as [[Hs _] _].
    destruct (decode_json_errors j) as [[|[m c] l]|]; [done|eauto|]. destruct (resp_fault resp) as [[m c]|]; eauto.
  - destruct (resp_fault resp) as [[m c]|]; eauto.
Qed.

Lemma parseUhttpError_returns r err :
  answered (r, err) -> exists e, parseUhttpError r err = Returns e.
Proof.
  unfold parseUhttpError. intros Hr. destruct r as [resp|]; [|eauto].
  destruct (negb (status_ok (resp_status resp))); [|eauto]. destruct (_ && _); [eauto|].
  destruct (ParseSalesforceError_returns resp Hr) as [e ->]. eauto.
Qed.

(** The body of a request without an error is there, and sane. *)
Definition delivered (r : error * option http_response) : Prop :=
  r.1 = None -> exists resp, r.2 = Some resp /\ sane_response resp = true.

Lemma httpRequest_total client t method url body :
  triple (calm K) (httpRequest client t method url body) (fun r w => delivered r.2 /\ calm K w).
Proof.
  unfold httpRequest. destruct (url_Parse url); [|by apply triple_ret].
  eapply triple_bind; [apply Do_total|]. intros [[t' resp] err]. cbn [fst snd].
  apply triple_pure. intros Hr. destruct err as [err|].
  - eapply (triple_bind _ _ (fun e w => e <> None /\ calm K w)).
    + intros w Hw. destruct (parseUhttpError_returns _ _ Hr) as [e He]. exists e, w.
      split; [unfold lift; by rewrite He|]. split; [|done].
      unfold parseUhttpError in He. destruct resp as [resp|]; [|by injection He as <-].
      destruct (negb _); [|by injection He as <-]. destruct (_ && _); [by injection He as <-|].
      destruct (ParseSalesforceError resp); [|done].
      by injection He as <-.
    + intros e. apply triple_ret. intros w [He Hw]. split; [intros Hn; by destruct (He Hn)|done].
  - destruct resp as [resp|]; [|done].
    destruct (negb (status_ok (resp_status resp))) eqn:Es; [|apply triple_ret; intros w Hw; split; [|done]; intros _; eauto].
    eapply (triple_bind _ _ (fun e w => e <> None /\ calm K w)).
    + intros w Hw. destruct (parseUhttpError_returns (Some resp) None Hr) as [e He]. exists e, w.
      split; [unfold lift; by rewrite He|]. split; [|done]. unfold parseUhttpError in He. rewrite Es in He.
      destruct (_ && _); [by injection He as <-|]. destruct (ParseSalesforceError resp); [|done]. by injection He as <-.
    + intros e. apply triple_ret. intros w [He Hw]. split; [intros Hn; by destruct (He Hn)|done].
Qed.
End http_total.

Section simpleforce_total.
Context `{SaneEnv} (K : SalesforceClient -> Prop).

Lemma set_record_clients_returns (records : list (option SObject)) :
  forallb (fun r => bool_decide (is_Some r)) records = true ->
  exists l, set_record_clients records = Returns l.
Proof.
  unfold set_record_clients. intros Hr.
  assert (exists l, mapM (fun r => flip setClient true <$> r) records = Some l) as [l ->]; [|eauto].
  induction records as [|r records IH]; [by exists []|]. simpl in Hr.
  apply andb_true_iff in Hr as [[r' ->]%bool_decide_eq_true Hr]. destruct (IH Hr) as [l Hl].
  exists (setClient r' true :: l). cbn [mapM fmap option_fmap option_map mbind option_bind flip]. by rewrite Hl.
Qed.

Lemma Query_total client t q : total (calm K) (Query client t q).
Proof.
  unfold Query. destruct (negb (isLoggedIn client)); [apply total_ret|].
  eapply triple_bind; [apply httpRequest_total|]. intros [t' [[err|] resp]]; apply triple_pure; intros Hr;
    [apply total_ret|].
  destruct (Hr eq_refl) as (r & Heq & Hs). simpl in Heq. subst resp. cbn [mbind option_bind].
  destruct (resp_json r ≫= decode_QueryResult) as [result|] eqn:Ed; [|apply total_ret].
  apply total_bind; [|intros records; apply total_ret]. apply total_lift, set_record_clients_returns.
  unfold sane_response in Hs. destruct (resp_json r) as [j|]; [|done]. simpl in Ed. unfold sane_json in Hs.
  rewrite Ed, !andb_true_iff in Hs. tauto.
Qed.

(** The body of a request may be read or not; the call returns. *)
Lemma httpRequest_returns client t method url body : total (calm K) (httpRequest client t method url body).
Proof. eapply triple_post; [|apply httpRequest_total]. by intros r w [_ Hw]. Qed.
#[local] Hint Resolve httpRequest_returns : golog.

Lemma ApexREST_total client t method path body : total (calm K) (ApexREST client t method path body).
Proof. unfold ApexREST. settle. Qed.

(** An object whose type can be read. *)
Definition typed_object (obj : SObject) : Prop := exists t, SObject_Type obj = Returns t.

Lemma Client_SObject_typed c t : typed_object (Client_SObject c t).
Proof. exists t. apply Client_SObject_type. Qed.

Lemma Set_id_typed c t v : typed_object (SObject_Set (Client_SObject c t) "Id" v).
Proof. exists t. by rewrite Set_id_type, Client_SObject_type. Qed.

Lemma SObject_Create_total client t obj : typed_object obj -> total (calm K) (SObject_Create client t obj).
Proof. intros Ht. unfold SObject_Create. apply total_bind; [by apply total_lift|]. settle. Qed.

Lemma SObject_Update_total client t obj : typed_object obj -> total (calm K) (SObject_Update client t obj).
Proof. intros Ht. unfold SObject_Update. apply total_bind; [by apply total_lift|]. settle. Qed.

Lemma SObject_Delete_total client t obj : typed_object obj -> total (calm K) (SObject_Delete client t obj).
Proof. intros Ht. unfold SObject_Delete. apply total_bind; [by apply total_lift|]. settle. Qed.

Lemma LoginPassword_total client t u p token : total (calm K) (LoginPassword client t u p token).
Proof.
  unfold LoginPassword. destruct (url_Parse _); [|apply total_ret].
  eapply triple_bind; [apply Do_total|]. intros [[t' resp] err]. cbn [fst snd]. apply triple_pure. intros Hr.
  destruct resp as [resp|].
  - destruct err; cbn; (destruct (negb _); [|destruct (resp_login resp); apply total_ret]);
      (apply total_bind; [|intros e; apply total_ret]); by apply total_lift, ParseSalesforceError_returns.
  - destruct err; [apply total_ret|done].
Qed.

(** The user that is read can be written: its type is a string. *)
Lemma SObject_Get_total client t id :
  triple (calm K) (SObject_Get client t (Client_SObject true TableNameUsers) id)
    (fun r w => (forall user, r.2.2 = Some user -> typed_object user) /\ calm K w).
Proof.
  unfold SObject_Get. eapply triple_bind; [apply total_lift, Client_SObject_typed|]. intros typ.
  destruct (String.eqb typ "" || negb (SObject_client (Client_SObject true TableNameUsers)));
    [by apply triple_ret|].
  destruct (String.eqb id ""); [by apply triple_ret|].
  eapply triple_bind; [apply httpRequest_total|]. intros [t' [[err|] resp]]; apply triple_pure; intros Hr;
    [by apply triple_ret|].
  destruct (Hr eq_refl) as (r & Heq & Hs). simpl in Heq. subst resp. cbn [mbind option_bind].
  unfold sane_response in Hs. destruct (resp_json r) as [j|]; cbn [mbind option_bind]; [|by apply triple_ret].
  destruct (unmarshal_into j (Client_SObject true TableNameUsers)) as [obj|] eqn:Eu; [|by apply triple_ret].
  apply triple_ret. intros w Hw. split; [|done]. intros user [= <-].
  unfold sane_json in Hs. rewrite Eu, !andb_true_iff in Hs. destruct Hs as [_ Hs].
  destruct (SObject_Type obj) eqn:Et; [|done]. by eexists.
Qed.
End simpleforce_total.

(** ** The Salesforce client *)

Section client_total.
Context `{SaneEnv}.

Lemma connect_total K c : total (calm K) (connect c).
Proof.
  pose proof (LoginPassword_total K). pose proof (fun A => total_ask K (A:=A)).
  pose proof sane_new_http_next. pose proof sane_token_next.
  unfold connect, simpleforce_NewClient, Initialize_login. settle.
Qed.

(** Once [Initialize] has succeeded the client is linked. *)
Lemma Initialize_total :
  triple (calm ready) Initialize
    (fun err => match err with None => calm linked | Some _ => calm ready end).
Proof.
  intros w [Hready Hs].
  destruct (Initialize_cases (fun _ => True) (fun _ _ => I) w)
    as [[Hi Heq]|(Hi & r & w1 & [Hc _] & Hcon & Heq)]; rewrite Heq.
  - exists None, w. split; [done|]. split; [by apply Hready|done].
  - destruct (connect_total ready (w_client w) w (conj Hready Hs)) as (r' & w' & Hr & [_ Hs1]).
    rewrite Hr in Hcon. injection Hcon as <- <-. destruct r' as [err|[t sc]].
    + exists (Some err), w'. split; [done|]. split; [by rewrite Hc|done].
    + eexists None, _. split; [done|]. split; [split; eexists; reflexivity|done].
Qed.

Lemma on_client_triple {A} (f : simple_client -> salesforceHttpTransport ->
    GoM World (salesforceHttpTransport * A)) (Q : A -> Prop) :
  (forall client t, triple (calm (fun _ => True)) (f client t) (fun r w => Q r.2 /\ calm (fun _ => True) w)) ->
  triple (calm linked) (on_client f) (fun a w => Q a /\ calm linked w).
Proof.
  intros Hf w [[[client Hc] [t Ht]] Hs]. unfold on_client, get_client.
  rewrite GoM_bind_run with (a := w_client w) (s' := w) by done. rewrite Hc, Ht.
  destruct (Hf client t w (conj I Hs)) as ([t' a] & w1 & Hr & Hq & _ & Hs1).
  rewrite (GoM_bind_run _ _ _ _ _ Hr). eexists _, _. split; [reflexivity|].
  split; [done|]. split; [split; eexists; reflexivity|done].
Qed.

Lemma on_client_total {A} (f : simple_client -> salesforceHttpTransport ->
    GoM World (salesforceHttpTransport * A)) :
  (forall client t, total (calm (fun _ => True)) (f client t)) -> total (calm linked) (on_client f).
Proof.
  intros Hf. eapply triple_post; [|apply (on_client_triple f (fun _ => True))]; [by intros a w [_ Hw]|].
  intros client t. eapply triple_post; [|apply Hf]. done.
Qed.

Lemma rateLimit_total : total (calm linked) rateLimit.
Proof.
  intros w [[Hc [t Ht]] Hs]. exists (t_rateLimit t), w. split; [|by repeat split; eauto].
  unfold rateLimit, get_client. rewrite GoM_bind_run with (a := w_client w) (s' := w) by done. by rewrite Ht.
Qed.

Lemma linked_total_ready {A} (m : GoM World A) : total (calm linked) m -> triple (calm linked) m (fun _ => calm ready).
Proof. apply triple_post. intros a w [Hl Hs]. split; [by apply linked_ready|done]. Qed.

(** A query that can be built, whatever the page. *)
Definition builds (q : SalesforceQuery) : Prop :=
  forall tok n, exists s, getQueryString q tok n = Returns s.

(** What a read leaves: a linked client when it succeeded. *)
Definition left_by (err : error) (w : World) : Prop :=
  calm ready w /\ (err = None -> calm linked w).

Lemma left_by_linked err w : calm linked w -> left_by err w.
Proof. intros [Hl Hs]. split; [split; [by apply linked_ready|done]|done]. Qed.

Lemma query_triple q tok n :
  builds q -> triple (calm ready) (query q tok n) (fun r => left_by r.2).
Proof.
  intros Hq. unfold query. eapply triple_bind; [apply Initialize_total|].
  intros [err|]; [by apply triple_ret; intros w Hw; split|].
  eapply triple_bind; [apply total_lift, Hq|]. intros s.
  eapply triple_bind; [apply on_client_total; intros; apply Query_total|]. intros records.
  eapply triple_bind; [apply rateLimit_total|]. intros rl.
  destruct records as [err|[[done next] records]]; apply triple_ret; intros w; apply left_by_linked.
Qed.

Lemma left_by_ready err w : left_by err w -> calm ready w.
Proof. by intros [Hr _]. Qed.

Lemma total_query q tok n : builds q -> total (calm ready) (query q tok n).
Proof. intros Hq. eapply triple_post; [|by apply query_triple]. intros r w. apply left_by_ready. Qed.

Lemma total_queryWithAPIVersion q tok v :
  (exists s, SalesforceQuery_String (OrderBy q SalesforcePK) = Returns s) ->
  total (calm ready) (queryWithAPIVersion q tok v).
Proof.
  intros Hq. unfold queryWithAPIVersion. eapply triple_bind; [apply Initialize_total|].
  intros [err|]; [apply total_ret|]. apply linked_total_ready. apply total_bind.
  { destruct (String.eqb tok ""); [|apply total_ret]. apply total_bind; [by apply total_lift|].
    intros s. apply total_ret. }
  intros s. apply total_bind; [apply on_client_total; intros; apply Query_total|]. intros records.
  apply total_bind; [apply rateLimit_total|]. intros rl. settle.
Qed.

Lemma total_Ping : total (calm ready) Ping.
Proof.
  unfold Ping. eapply triple_bind; [apply Initialize_total|]. intros [err|]; [apply total_ret|].
  apply linked_total_ready, total_bind; [apply on_client_total; intros; apply ApexREST_total|].
  intros [err r]. apply total_bind; [apply rateLimit_total|]. settle.
Qed.

(** The writes of one object. *)
Lemma after_Initialize {A} (k : GoM World A) (failed : go_error -> A) :
  total (calm linked) k ->
  total (calm ready) (err ← Initialize; match err with Some err => mret (failed err) | None => k end).
Proof.
  intros Hk. eapply triple_bind; [apply Initialize_total|]. intros [err|]; [apply total_ret|].
  by apply linked_total_ready.
Qed.

(** Setting an entry to anything but a map leaves the type readable. *)
Definition flat_value (v : value) : bool := match v with VMap _ => false | _ => true end.

Lemma Set_typed obj k v : flat_value v = true -> typed_object obj -> typed_object (SObject_Set obj k v).
Proof.
  intros Hv [t Ht]. unfold typed_object, SObject_Type, AttributesField in *.
  destruct (decide (k = sobjectAttributesKey)) as [->|Hk].
  - rewrite InterfaceField_Set. destruct v; try done; eauto.
  - rewrite InterfaceField_Set_ne by done. eauto.
Qed.

Lemma set_all_typed l obj :
  forallb flat_value l.*2 = true -> typed_object obj -> typed_object (set_all l obj).
Proof.
  revert obj. induction l as [|[k v] l IH]; intros obj Hl Ho; [done|]. simpl in Hl.
  apply andb_true_iff in Hl as [Hv Hl]. apply (IH (SObject_Set obj k v)); [done|]. by apply Set_typed.
Qed.

Definition flat_fields (values : gmap string value) : Prop :=
  map_Forall (fun _ v => flat_value v = true) values.

Lemma flat_fields_list values : flat_fields values -> forallb flat_value (map_to_list values).*2 = true.
Proof.
  intros Hf. apply forallb_forall. intros v ([k w] & -> & Hin)%list_elem_of_In%list_elem_of_fmap.
  apply elem_of_map_to_list in Hin. exact (Hf k w Hin).
Qed.

Lemma total_CreateObject t values : flat_fields values -> total (calm ready) (CreateObject t values).
Proof.
  intros Hf. apply after_Initialize. apply total_bind; [|intros c; apply total_bind; [apply rateLimit_total|settle]].
  apply on_client_total. intros. apply SObject_Create_total, set_all_typed, Client_SObject_typed. by apply flat_fields_list.
Qed.

Lemma total_UpdateObject t id values : flat_fields values -> total (calm ready) (UpdateObject t id values).
Proof.
  intros Hf. apply after_Initialize. apply total_bind; [|intros c; apply total_bind; [apply rateLimit_total|settle]].
  apply on_client_total. intros. apply SObject_Update_total, set_all_typed, Set_id_typed. by apply flat_fields_list.
Qed.

Lemma total_DeleteObject t id : total (calm ready) (DeleteObject t id).
Proof.
  apply after_Initialize. apply total_bind; [|intros c; apply total_bind; [apply rateLimit_total|settle]].
  apply on_client_total. intros. apply SObject_Delete_total, Set_id_typed.
Qed.

(** A user without an error is there and can be written. *)
Definition got_user (r : option SObject * option RateLimitDescription * error) (w : World) : Prop :=
  left_by r.2 w /\ (r.2 = None -> exists user, r.1.1 = Some user /\ typed_object user).

Lemma getOneUser_triple id : triple (calm ready) (getOneUser id) got_user.
Proof.
  unfold getOneUser. eapply triple_bind; [apply Initialize_total|].
  intros [err|]; [by apply triple_ret; intros w Hw; split; [split|]|].
  eapply triple_bind.
  { apply (on_client_triple _ (fun a => forall user, a.2 = Some user -> typed_object user)).
    intros client t. apply SObject_Get_total. }
  intros [err user]. apply triple_pure. intros Hu. destruct err as [err|].
  { apply triple_ret. intros w Hw. split; [by apply left_by_linked|done]. }
  eapply triple_bind; [apply rateLimit_total|]. intros rl.
  destruct user as [user|]; apply triple_ret; intros w Hw; (split; [by apply left_by_linked|]); [|done].
  intros _. exists user. split; [done|by apply Hu].
Qed.

Lemma updateUser_total user f v : typed_object user -> total (calm linked) (updateUser user f v).
Proof.
  intros Hu. unfold updateUser. apply total_bind; [|intros c; apply total_bind; [apply rateLimit_total|settle]].
  apply on_client_total. intros. by apply SObject_Update_total, Set_typed.
Qed.

Lemma copySObject_typed user fields :
  typed_object user -> exists obj, copySObject user fields = Returns obj /\ typed_object obj.
Proof.
  intros [t Ht]. unfold copySObject. rewrite Ht. eexists. split; [reflexivity|].
  assert (forall obj, typed_object obj -> typed_object (foldl (fun response field =>
    if String.eqb (StringField user field) "" then response
    else SObject_Set response field (VString (StringField user field))) obj fields)) as Hfold.
  { induction fields as [|f fields IH]; intros obj Ho; [done|]. apply IH. case_match; [done|]. by apply Set_typed. }
  apply Hfold. destruct (String.eqb _ _); [apply Set_id_typed|]. by apply Set_typed, Set_id_typed.
Qed.

(** Reading a user and writing one of its fields, under a check or not. *)
Lemma total_user_field id f v (check : SObject -> option error) x :
  total (calm ready)
    ('(user, ratelimitData, err) ← getOneUser id;
     match err, user with
     | Some err, _ => mret (ratelimitData, Some err)
     | None, None => go_panic nil_dereference
     | None, Some user =>
         match check user with
         | Some err => mret (None, err)
         | None => copied ← lift (copySObject user [f]); updateUser copied x v
         end
     end).
Proof.
  eapply triple_bind; [apply getOneUser_triple|]. intros [[user rl] err].
  apply (triple_pre (fun w => (err = None -> exists u, user = Some u /\ typed_object u) /\ left_by err w));
    [by intros w [H1 H2]|].
  apply triple_pure. intros Hu. destruct err as [err|].
  { apply triple_ret. intros w. apply left_by_ready. }
  destruct (Hu eq_refl) as (u & -> & Ht). apply (triple_pre (calm linked)); [by intros w [_ Hl]; apply Hl|].
  apply linked_total_ready. destruct (check u); [apply total_ret|].
  destruct (copySObject_typed u [f] Ht) as (obj & Hc & Ho).
  intros w Hw. rewrite Hc, lift_bind_ret. by apply updateUser_total.
Qed.

Lemma total_setValue id f v : total (calm ready) (setValue id f v).
Proof. apply (total_user_field id f v (fun _ => None) f). Qed.

Lemma total_setOneValue id f v : total (calm ready) (setOneValue id f v).
Proof. apply (total_user_field id f v (fun _ => None) f). Qed.

Lemma total_clearValue id f v : total (calm ready) (clearValue id f v).
Proof.
  intros w Hw. destruct (total_user_field id f ""
    (fun user => if negb (String.eqb (StringField user f) v)
                 then Some (Some (EMsg ("missing " +:+ f +:+ ": " +:+ v))) else None) f w Hw)
    as (a & w' & Hr & Hw'). exists a, w'. split; [|done]. rewrite <-Hr. unfold clearValue, mbind, GoM_bind.
  destruct (getOneUser id w) as [[[[[u|] rl] [err|]]|why] w1]; [reflexivity| |reflexivity..].
  by destruct (negb _).
Qed.
End client_total.

#[export] Hint Resolve total_query total_queryWithAPIVersion total_Ping total_CreateObject total_UpdateObject
  total_DeleteObject total_setValue total_setOneValue total_clearValue : golog.

(** ** Every query of the connector can be built *)

Lemma builds_plain t sel conds skip :
  plain_query t sel conds ->
  builds (if skip : bool then WithoutOrderBy (q_fold (NewQuery t sel) conds) else q_fold (NewQuery t sel) conds).
Proof.
  intros Hp tok n. destruct (String.eqb_spec tok "") as [->|Hne].
  - eexists. by apply getQueryString_text.
  - exists tok. unfold getQueryString. by destruct (String.eqb_spec tok "").
Qed.

(** The table, selectors and conditions a query was built with. *)
Ltac query_parts q :=
  lazymatch q with
  | NewQuery ?t ?sel => constr:((t, sel, @nil q_cond))
  | WithoutOrderBy ?q => query_parts q
  | WhereEq ?q ?f ?v => add_part q (QEq f v)
  | WhereBoolEq ?q ?f ?v => add_part q (QBool f v)
  | WhereNotEq ?q ?f ?v => add_part q (QNe f v)
  | WhereGT ?q ?f ?v => add_part q (QGt f v)
  | WhereIn ?q ?f ?vs => add_part q (QIn f vs)
  end
with add_part q c :=
  lazymatch query_parts q with
  | (?t, ?sel, ?conds) => let conds' := eval cbv [app] in (conds ++ [c]) in constr:((t, sel, conds'))
  end.

(** Names are plain by evaluation; how many values there are does not depend on
    what they are. *)
Ltac plain_names :=
  split_and!; [vm_compute; reflexivity|repeat constructor|vm_compute; discriminate].

Ltac build :=
  lazymatch goal with
  | |- builds (WithoutOrderBy ?q) =>
      lazymatch query_parts q with
      | (?t, ?sel, ?conds) => apply (builds_plain t sel conds true); plain_names
      end
  | |- builds ?q =>
      lazymatch query_parts q with
      | (?t, ?sel, ?conds) => apply (builds_plain t sel conds false); plain_names
      end
  end.

Lemma builds_territories :
  exists q, WhereInSubQuery (NewQuery TableNameTerritory2 []) "Territory2ModelId"
              (WhereEq (NewIDQuery TableNameTerritory2Model) "State" "Active") = Returns q /\ builds q.
Proof.
  destruct (WhereInSubQuery (NewQuery TableNameTerritory2 []) "Territory2ModelId"
              (WhereEq (NewIDQuery TableNameTerritory2Model) "State" "Active")) as [q|why] eqn:Eq;
    [|vm_compute in Eq; discriminate].
  exists q. split; [done|]. intros tok n. destruct (String.eqb_spec tok "") as [->|Hne].
  - vm_compute in Eq. injection Eq as <-. eexists. vm_compute. reflexivity.
  - exists tok. unfold getQueryString. by destruct (String.eqb_spec tok "").
Qed.

Section reads_total.
Context `{SaneEnv}.

Lemma total_query_each {A} q tok n keep (f : SObject -> go_error + option A) :
  builds q -> total (calm ready) (query_each q tok n keep f).
Proof. intros Hq. unfold query_each. pose proof (total_query q tok n Hq). settle. Qed.

Lemma total_query_map {A} q tok n (f : SObject -> A) : builds q -> total (calm ready) (query_map q tok n f).
Proof. intros Hq. unfold query_map. pose proof (total_query q tok n Hq). settle. Qed.

Lemma total_query_first {A} q (f : SObject -> A) : builds q -> total (calm ready) (query_first q f).
Proof. intros Hq. unfold query_first. pose proof (total_query q "" 1 Hq). settle. Qed.

(** One record, or an error. *)
Lemma getSObject_found q : returns (fun r : option SObject * option RateLimitDescription * error =>
  r.2 = None -> r.1.1 <> None) (getSObject q).
Proof.
  unfold getSObject. apply returns_then. intros [[[records next] rl] [err|]]; [by apply returns_ret|].
  destruct records; by apply returns_ret.
Qed.

Lemma total_getSObject q : builds q -> total (calm ready) (getSObject q).
Proof. intros Hq. unfold getSObject. pose proof (total_query q "" (-1) Hq). settle. Qed.

Lemma total_GetUsers tok n d s : total (calm ready) (GetUsers tok n d s).
Proof. apply total_query_each. destruct s; build. Qed.
Lemma total_GetProfileById id : total (calm ready) (GetProfileById id).
Proof. apply total_query_first. build. Qed.
Lemma total_GetProfileByName name : total (calm ready) (GetProfileByName name).
Proof. apply total_query_first. build. Qed.
Lemma total_GetUserRoles tok n : total (calm ready) (GetUserRoles tok n).
Proof. apply total_query_map. build. Qed.
Lemma total_GetGroups tok n : total (calm ready) (GetGroups tok n).
Proof. apply total_query_map. build. Qed.
Lemma total_GetPermissionSets tok n : total (calm ready) (GetPermissionSets tok n).
Proof. apply total_query_map. build. Qed.
Lemma total_GetProfiles tok n : total (calm ready) (GetProfiles tok n).
Proof. apply total_query_map. build. Qed.
Lemma total_GetUserLicenseByID id : total (calm ready) (GetUserLicenseByID id).
Proof. apply total_query_first. build. Qed.
Lemma total_GetProfileAssignments id tok n : total (calm ready) (GetProfileAssignments id tok n).
Proof. apply total_query_map. build. Qed.
Lemma total_GetRoleAssignments id tok n : total (calm ready) (GetRoleAssignments id tok n).
Proof. apply total_query_map. build. Qed.
Lemma total_GetPermissionSetAssignments id tok n : total (calm ready) (GetPermissionSetAssignments id tok n).
Proof. apply total_query_map. build. Qed.
Lemma total_GetGroupMemberships id tok n : total (calm ready) (GetGroupMemberships id tok n).
Proof. apply total_query_each. build. Qed.
Lemma total_getGroupMembership u g : total (calm ready) (getGroupMembership u g).
Proof. apply total_getSObject. build. Qed.
Lemma total_getPermissionSetAssignment u p : total (calm ready) (getPermissionSetAssignment u p).
Proof. apply total_getSObject. build. Qed.
Lemma total_GetPermissionSetGroups tok n : total (calm ready) (GetPermissionSetGroups tok n).
Proof. apply total_query_each. build. Qed.
Lemma total_GetPermissionSetGroupComponentsByPermissionSet id tok n :
  total (calm ready) (GetPermissionSetGroupComponentsByPermissionSet id tok n).
Proof. apply total_query_each. build. Qed.
Lemma total_GetPermissionSetGroupAssignments id tok n :
  total (calm ready) (GetPermissionSetGroupAssignments id tok n).
Proof. apply total_query_map. build. Qed.
Lemma total_GetOnePermissionSetGroupAssignment u p :
  total (calm ready) (GetOnePermissionSetGroupAssignment u p).
Proof. unfold GetOnePermissionSetGroupAssignment. apply total_bind; [apply total_query_first; build|settle]. Qed.
Lemma total_GetConnectedApplications tok n : total (calm ready) (GetConnectedApplications tok n).
Proof. apply total_query_map. build. Qed.
Lemma total_GetTerritoryMembers id tok n : total (calm ready) (GetTerritoryMembers id tok n).
Proof. apply total_query_map. build. Qed.
Lemma total_GetUserTerritoryAssociation u t : total (calm ready) (GetUserTerritoryAssociation u t).
Proof. apply total_getSObject. unfold territory_assoc_query. build. Qed.

Lemma total_GetBotDefinitions tok : total (calm ready) (GetBotDefinitions tok).
Proof.
  unfold GetBotDefinitions. apply total_bind; [|settle]. apply total_queryWithAPIVersion.
  eexists. vm_compute. reflexivity.
Qed.

Lemma total_GetTerritories tok n : total (calm ready) (GetTerritories tok n).
Proof.
  unfold GetTerritories. destruct builds_territories as (q & Hq & Hb). rewrite Hq.
  apply (total_bind_returns _ (eq q)); [apply total_lift; eauto|by intros w a w' [= <- _]|].
  intros _ <-. pose proof (total_query q tok n Hb). settle.
Qed.

Lemma total_GetTerritoryRoles : total (calm ready) GetTerritoryRoles.
Proof.
  unfold GetTerritoryRoles. apply total_bind; [|settle]. apply total_query. unfold territory_roles_query. build.
Qed.

Lemma total_GetUserLogin id : total (calm ready) (GetUserLogin id).
Proof. unfold GetUserLogin. apply total_bind; [apply total_query; build|settle]. Qed.

Lemma total_user_logins_chunk acc ids :
  length ids <= 250 -> total (calm ready) (user_logins_chunk acc ids).
Proof.
  intros Hn. unfold user_logins_chunk. apply total_bind; [|settle]. apply total_query.
  apply (builds_plain TableNameUserLogin [] [QIn "UserId" ids] false). by apply user_login_plain.
Qed.

Lemma total_GetUserLoginsByUserIDs ids : total (calm ready) (GetUserLoginsByUserIDs ids).
Proof.
  unfold GetUserLoginsByUserIDs. apply total_bind; [|settle]. apply total_range. intros acc c Hc.
  apply total_user_logins_chunk.
  pose proof (chunks_fuel_size userLoginInClauseChunkSize (Nat.lt_0_succ _) (length ids) ids (Nat.le_refl _)) as Hs.
  rewrite Forall_forall in Hs. by apply Hs in Hc as [_ Hc].
Qed.

(** A user found leaves a linked client. *)
Definition found_user (r : option SalesforceUser * error) (w : World) : Prop :=
  left_by r.2 w /\ found_or_error r.

Lemma GetUserByEmail_triple email : triple (calm ready) (GetUserByEmail email) found_user.
Proof.
  eapply triple_post; [|apply triple_returns; [apply GetUserByEmail_found|]].
  { intros r w [Hf Hl]. split; [exact Hl|exact Hf]. }
  unfold GetUserByEmail. eapply triple_bind; [apply query_triple; build|].
  intros [[[records next] rl] [err|]]; [by apply triple_ret|].
  destruct (each_record user_by_email_loop records) as [err|[|user users]]; apply triple_ret; intros w Hw;
    (split; [exact (left_by_ready _ _ Hw)|]); [done|done|]. intros _. by apply Hw.
Qed.

Lemma found_user_ready r w : found_user r w -> calm ready w.
Proof. intros [Hl _]. by eapply left_by_ready. Qed.

Lemma total_GetUserByEmail email : total (calm ready) (GetUserByEmail email).
Proof. eapply triple_post; [|apply GetUserByEmail_triple]. apply found_user_ready. Qed.

Lemma total_UserExist email : total (calm ready) (UserExist email).
Proof. unfold UserExist. pose proof (total_GetUserByEmail email). settle. Qed.

Lemma found_user_err user err w : err <> None -> calm ready w -> found_user (user, err) w.
Proof. intros He Hw. split; [split; [done|]|]; by intros Hn; destruct (He Hn). Qed.

(** The retries end with a user or an error. *)
Lemma attempts_triple n email : triple (calm ready) (get_user_attempts n email) found_user.
Proof.
  induction n as [|n IH]; [apply triple_ret; intros w Hw; by apply found_user_err|]. cbn [get_user_attempts].
  eapply triple_bind; [apply total_ask, sane_clear_next|].
  intros [err|]; [apply triple_ret; intros w Hw; by apply found_user_err|].
  eapply triple_bind; [apply GetUserByEmail_triple|]. intros [user [err|]]; [|by apply triple_ret].
  apply (triple_pre (calm ready)); [intros w; apply found_user_ready|].
  destruct (negb _); [apply triple_ret; intros w Hw; by apply found_user_err|].
  destruct (bool_decide (n = 0)); [done|].
  eapply triple_bind; [apply total_ask, sane_wait_next|].
  intros [|]; [done|apply triple_ret; intros w Hw; by apply found_user_err].
Qed.
End reads_total.

#[export] Hint Resolve total_GetUsers total_GetProfileById total_GetProfileByName total_GetUserRoles
  total_GetGroups total_GetPermissionSets total_GetProfiles total_GetUserLicenseByID
  total_GetProfileAssignments total_GetRoleAssignments total_GetPermissionSetAssignments
  total_GetGroupMemberships total_getGroupMembership total_getPermissionSetAssignment
  total_GetPermissionSetGroups total_GetPermissionSetGroupComponentsByPermissionSet
  total_GetPermissionSetGroupAssignments total_GetOnePermissionSetGroupAssignment
  total_GetConnectedApplications total_GetTerritoryMembers total_GetUserTerritoryAssociation
  total_GetBotDefinitions total_GetTerritories total_GetTerritoryRoles total_GetUserLogin
  total_GetUserLoginsByUserIDs total_GetUserByEmail total_UserExist : golog.

(** ** The writes *)

Lemma fields_of_flat l : flat_fields (fields_of l).
Proof. by intros key v (x & -> & _)%fields_of_elem. Qed.
#[export] Hint Resolve fields_of_flat : golog.

Section writes_total.
Context `{SaneEnv}.

Lemma total_AddUserToGroup u g : total (calm ready) (AddUserToGroup u g).
Proof. unfold AddUserToGroup. settle. Qed.
Lemma total_AddUserToPermissionSet u p : total (calm ready) (AddUserToPermissionSet u p).
Proof. unfold AddUserToPermissionSet. settle. Qed.
Lemma total_AddUserToPermissionSetGroup u p : total (calm ready) (AddUserToPermissionSetGroup u p).
Proof. unfold AddUserToPermissionSetGroup. settle. Qed.
Lemma total_RemoveUserFromPermissionSetGroup a : total (calm ready) (RemoveUserFromPermissionSetGroup a).
Proof. unfold RemoveUserFromPermissionSetGroup. settle. Qed.
Lemma total_AddUserToProfile u p : total (calm ready) (AddUserToProfile u p).
Proof. unfold AddUserToProfile. settle. Qed.
Lemma total_SetNewUserProfile u p : total (calm ready) (SetNewUserProfile u p).
Proof. unfold SetNewUserProfile. settle. Qed.
Lemma total_AddUserToRole u r : total (calm ready) (AddUserToRole u r).
Proof. unfold AddUserToRole. settle. Qed.
Lemma total_RemoveUserFromRole u r : total (calm ready) (RemoveUserFromRole u r).
Proof. unfold RemoveUserFromRole. settle. Qed.
Lemma total_SetUserActiveState u b : total (calm ready) (SetUserActiveState u b).
Proof. unfold SetUserActiveState. settle. Qed.
Lemma total_create_association l : total (calm ready) (create_association (fields_of l)).
Proof. unfold create_association. settle. Qed.
Lemma total_AddUserToTerritory u t : total (calm ready) (AddUserToTerritory u t).
Proof. apply total_create_association. Qed.
Lemma total_AddUserToTerritoryWithRole u t r : total (calm ready) (AddUserToTerritoryWithRole u t r).
Proof. apply total_create_association. Qed.
Lemma total_SetUserTerritoryRole a r : total (calm ready) (SetUserTerritoryRole a r).
Proof. unfold SetUserTerritoryRole. settle. Qed.

(** What looks a record up and goes on with it. *)
Lemma total_found {A} q (k : SObject -> option RateLimitDescription -> GoM World A)
    (failed : go_error -> option SObject -> option RateLimitDescription -> GoM World A) :
  builds q -> (forall record rl, total (calm ready) (k record rl)) ->
  (forall err record rl, total (calm ready) (failed err record rl)) ->
  total (calm ready)
    ('(record, rl, err) ← getSObject q;
     match err, record with
     | Some err, _ => failed err record rl
     | None, None => go_panic nil_dereference
     | None, Some record => k record rl
     end).
Proof.
  intros Hq Hk Hf. eapply total_bind_returns; [by apply total_getSObject|apply getSObject_found|].
  intros [[record rl] [err|]] Hr; [apply Hf|]. destruct record; [apply Hk|by destruct Hr].
Qed.

Lemma total_RemoveUserFromGroup u g : total (calm ready) (RemoveUserFromGroup u g).
Proof.
  apply (total_found _ (fun found _ => '(rl, err) ← DeleteObject TableNameGroupMemberships (SObject_ID found); mret (true, rl, err))
    (fun err _ rl => if errors_Is err ErrObjectNotFound then mret (false, rl, None) else mret (false, rl, Some err)));
    [build|settle..].
Qed.

Lemma total_RemoveUserFromPermissionSet u p : total (calm ready) (RemoveUserFromPermissionSet u p).
Proof.
  apply (total_found _ (fun found _ => DeleteObject TableNamePermissionAssignments (SObject_ID found))
    (fun err _ rl => mret (rl, Some err))); [build|settle..].
Qed.

Lemma total_RemoveUserFromTerritory u t : total (calm ready) (RemoveUserFromTerritory u t).
Proof.
  apply (total_found _ (fun found _ => DeleteObject TableNameUserTerritory2Assoc (SObject_ID found))
    (fun err _ rl => mret (rl, Some err))); [unfold territory_assoc_query; build|settle..].
Qed.

Lemma total_ClearUserTerritoryRole u t r : total (calm ready) (ClearUserTerritoryRole u t r).
Proof.
  unfold ClearUserTerritoryRole.
  eapply total_bind_returns; [apply total_getSObject; unfold territory_assoc_query; build|apply getSObject_found|].
  intros [[record rl] [err|]] Hr; [apply total_ret|]. destruct record; [|by destruct Hr]. settle.
Qed.

Lemma total_CreateUser request : flat_fields (ucr_ExtraFields request) -> total (calm ready) (CreateUser request).
Proof.
  intros Hf. unfold CreateUser. destruct (negb (mail_ParseAddress _)); [apply total_ret|].
  destruct (negb (time_LoadLocation _)); [apply total_ret|]. apply total_bind; [|settle].
  apply total_CreateObject. rewrite create_user_fields_layers. unfold flat_fields.
  apply map_Forall_union_2; [apply fields_of_flat|]. apply map_Forall_union_2; [done|apply fields_of_flat].
Qed.

Lemma SendResetPasswordEmail_total id : total (calm linked) (SendResetPasswordEmail id).
Proof.
  unfold SendResetPasswordEmail. apply total_bind; [|settle].
  apply on_client_total. intros. apply ApexREST_total.
Qed.

Lemma total_finish_account o email : total (calm ready) (finish_account o email).
Proof.
  unfold finish_account. eapply triple_bind; [apply attempts_triple|]. intros [user err].
  apply (triple_pre (fun w => found_or_error (user, err) /\ left_by err w)); [by intros w [Hl Hf]|].
  apply triple_pure. intros Hf. destruct err as [err|].
  { apply triple_ret. intros w. apply left_by_ready. }
  destruct user as [user|]; [|by destruct (Hf eq_refl)].
  apply (triple_pre (calm linked)); [by intros w [_ Hl]; apply Hl|].
  eapply triple_bind; [apply linked_total_ready, SendResetPasswordEmail_total|].
  intros [err|]; [apply total_ret|]. settle.
Qed.

Lemma scalar_flat x v : scalar_value x = Some v -> flat_value v = true.
Proof. by destruct x; intros [= <-]. Qed.

Lemma params_flat profile request :
  getUserCreateRequestParams profile = inr request -> flat_fields (ucr_ExtraFields request).
Proof.
  destruct profile as [p|]; [|done]. intros (_ & _ & _ & _ & _ & _ & _ & He)%params_inr key v Hk.
  apply (extra_fields_lookup p) in Hk as (_ & x & _ & Hx); [|exact He]. by eapply scalar_flat.
Qed.

Lemma total_CreateAccount o profile : total (calm ready) (CreateAccount o profile).
Proof.
  unfold CreateAccount. destruct (getUserCreateRequestParams profile) as [err|request] eqn:Ep; [apply total_ret|].
  pose proof (total_finish_account o (ucr_Email request)) as Hfinish. pose proof total_SetUserActiveState.
  apply total_bind; [apply total_UserExist|]. intros [exist [err|]]; [apply total_ret|]. destruct exist.
  - eapply total_bind_returns; [apply total_GetUserByEmail|apply GetUserByEmail_found|].
    intros [user [err|]] Hr; [apply total_ret|]. destruct user as [user|]; [|by destruct Hr]. settle.
  - apply total_bind; [by apply total_CreateUser, (params_flat profile)|]. settle.
Qed.
End writes_total.

#[export] Hint Resolve total_AddUserToGroup total_AddUserToPermissionSet total_AddUserToPermissionSetGroup
  total_RemoveUserFromPermissionSetGroup total_AddUserToProfile total_SetNewUserProfile total_AddUserToRole
  total_RemoveUserFromRole total_SetUserActiveState total_AddUserToTerritory total_AddUserToTerritoryWithRole
  total_SetUserTerritoryRole total_RemoveUserFromGroup total_RemoveUserFromPermissionSet
  total_RemoveUserFromTerritory total_ClearUserTerritoryRole total_CreateAccount : golog.

(** ** The syncers *)

(** The interface of a syncer none of whose calls panics. *)
Class TotalSyncer `{SaneEnv} (B : Type) `{!ResourceSyncer B} : Prop := {
  List_returns b pt : total (calm ready) (syncer_List b pt);
  Entitlements_returns b r pt : total (calm ready) (syncer_Entitlements b r pt);
  Grants_returns b r pt : total (calm ready) (syncer_Grants b r pt);
}.

Section syncers_total.
Context `{SaneEnv}.

Lemma total_sync_read {A B} (read : GoM World (list A * string * option RateLimitDescription * error))
    (f : list A -> list B) :
  total (calm ready) read -> total (calm ready) (sync_read read f).
Proof. intros Hr. unfold sync_read. settle. Qed.

#[local] Hint Resolve total_sync_read : golog.

#[export] Instance user_total : TotalSyncer userBuilder.
Proof. split; intros; simpl; unfold user_List; settle. Qed.
#[export] Instance group_total : TotalSyncer groupBuilder.
Proof. split; intros; simpl; unfold group_List, group_Grants; settle. Qed.
#[export] Instance role_total : TotalSyncer roleBuilder.
Proof. split; intros; simpl; unfold role_List, role_Grants; settle. Qed.
#[export] Instance profile_total : TotalSyncer profileBuilder.
Proof. split; intros; simpl; unfold profile_List, profile_Grants; settle. Qed.
#[export] Instance permission_total : TotalSyncer permissionBuilder.
Proof. split; intros; simpl; unfold permission_List, permission_Grants; settle. Qed.
#[export] Instance permissionSetGroup_total : TotalSyncer permissionSetGroupBuilder.
Proof. split; intros; simpl; unfold permissionSetGroup_List, permissionSetGroup_Grants; settle. Qed.
#[export] Instance territory_total : TotalSyncer territoryBuilder.
Proof. split; intros; simpl; unfold territory_List, territory_Grants; settle. Qed.
#[export] Instance agent_total : TotalSyncer agentBuilder.
Proof. split; intros; simpl; unfold agent_List; settle. Qed.
#[export] Instance connectedApplication_total : TotalSyncer connectedApplicationBuilder.
Proof. split; intros; simpl; unfold connectedApplication_List; settle. Qed.

Lemma total_StaticEntitlements : total (calm ready) territory_StaticEntitlements.
Proof. unfold territory_StaticEntitlements. settle. Qed.

(** A call the SDK makes: the entitlement of a grant is for a resource.  Revoking a
    profile is the exception ([profile_Revoke_panics]). *)
Definition has_resource (e : Entitlement) : bool := bool_decide (is_Some (ent_Resource e)).

Definition well_formed (o : operation) : bool :=
  match o with
  | GroupGrant _ e | RoleGrant _ e | ProfileGrant _ e | PermissionGrant _ e
  | PermissionSetGroupGrant _ e | TerritoryGrant _ e => has_resource e
  | GroupRevoke g | RoleRevoke g | PermissionRevoke g | PermissionSetGroupRevoke g
  | TerritoryRevoke g => has_resource (grant_Entitlement g)
  | ProfileRevoke _ => false
  | DeleteUser _ | CreateUserAccount _ | UpdateUserStatus _ | ValidateCredentials => true
  end.

Lemma total_perform d o : well_formed o = true -> total (calm ready) (perform d o).
Proof.
  intros Ho. destruct o; simpl in Ho; try discriminate; try (apply bool_decide_eq_true in Ho as [resource Ho]).
  all: simpl; unfold discard, group_Grant, group_Revoke, role_Grant, role_Revoke, profile_Grant,
    permission_Grant, permission_Revoke, permissionSetGroup_Grant, permissionSetGroup_Revoke,
    territory_Grant, grant_membership, grant_role, territory_Revoke, user_Delete, updateUserStatus, Validate;
    try rewrite Ho; settle.
Qed.
End syncers_total.

(** ** Properties *)

(** C15: no call of a sync panics or hangs.  Against an API that answers in its
    documented shapes, [List], [Entitlements] and [Grants] of every syncer, for
    any resource and page token, and the static entitlements of territories
    return, and leave a client that goes on working; failures of the network or
    of the API are results, not panics. *)
Theorem sync_never_panics `{SaneEnv} d s w :
  s ∈ ResourceSyncers d -> calm ready w ->
  let returned {A} (m : GoM World A) := exists a w', m w = (Returns a, w') /\ calm ready w' in
  (forall pt, returned (syncer_List (as_value s) pt))
  /\ (forall resource pt, returned (syncer_Entitlements (as_value s) resource pt))
  /\ (forall resource pt, returned (syncer_Grants (as_value s) resource pt))
  /\ returned territory_StaticEntitlements.
Proof.
  intros Hs Hw returned. unfold ResourceSyncers in Hs.
  destruct (d_syncConnectedApps d); simpl in Hs;
    repeat (apply elem_of_cons in Hs as [->|Hs]); try (by apply elem_of_nil in Hs).
  all: split_and!; intros; [by apply List_returns|by apply Entitlements_returns|by apply Grants_returns|
    by apply total_StaticEntitlements].
Qed.

Lemma discard_panics `{Env} {A} (m : GoM World A) why w : m w = (Panics why, w) -> discard m w = (Panics why, w).
Proof. intros Hm. unfold discard, mbind, GoM_bind. by rewrite Hm. Qed.

(** A user, or what a revoke does not ask whether it is one, is to be granted or to
    lose an entitlement that has no resource. *)
Definition lacks_resource (o : operation) : bool :=
  match o with
  | GroupGrant p e | RoleGrant p e | ProfileGrant p e | PermissionGrant p e
  | PermissionSetGroupGrant p e | TerritoryGrant p e => is_user p && negb (has_resource e)
  | GroupRevoke g | RoleRevoke g | ProfileRevoke g | TerritoryRevoke g => negb (has_resource (grant_Entitlement g))
  | PermissionRevoke g | PermissionSetGroupRevoke g =>
      is_user (grant_Principal g) && negb (has_resource (grant_Entitlement g))
  | DeleteUser _ | CreateUserAccount _ | UpdateUserStatus _ | ValidateCredentials => false
  end.

(** C16: against an API that answers in its documented shapes, with a client that is
    ready, no well formed provisioning call panics or hangs.  Granting and revoking
    an entitlement that has a resource (revoking profiles apart), creating and
    deleting accounts, the action and the credentials check return, whatever the
    principal, the id of the entitlement, the profile or the arguments are.  The
    resource is needed: without one every grant to a user, and every revoke that
    is not refused for its principal, panics at once. *)
Theorem provisioning_never_panics `{SaneEnv} d o w :
  (well_formed o = true -> calm ready w ->
   exists w', perform d o w = (Returns tt, w') /\ calm ready w')
  /\ (lacks_resource o = true -> perform d o w = (Panics nil_dereference, w)).
Proof.
  split.
  - intros Ho Hw. destruct (total_perform d o Ho w Hw) as ([] & w' & Hr & Hw'). by exists w'.
  - intros Ho. destruct o; try discriminate Ho; cbn [lacks_resource] in Ho.
    all: try (apply andb_true_iff in Ho as [Hu Ho]).
    all: apply negb_true_iff, bool_decide_eq_false, eq_None_not_Some in Ho; cbn [perform].
    all: apply discard_panics; unfold group_Grant, group_Revoke, role_Grant, role_Revoke, profile_Grant, profile_Revoke,
      permission_Grant, permission_Revoke, permissionSetGroup_Grant, permissionSetGroup_Revoke, territory_Grant, territory_Revoke.
    all: by rewrite ?Hu, Ho.
Qed.

Section no_panic_witness.
#[local] Existing Instance tape_env.

(** The tape's responses are sane. *)
Definition tape_ok (tape : list (go_error + http_response)) : bool :=
  forallb (fun r => match r with inr resp => sane_response resp | inl _ => true end) tape.

#[export] Instance tape_sane : @SaneEnv tape_env.
Proof.
  refine {| sane := fun tape : @env_state tape_env => tape_ok tape = true |}; try done.
  - intros req [|r tape] resp; simpl; [done|]. rewrite andb_true_iff. by intros [Hr _] ->.
  - intros req [|r tape]; simpl; [done|]. by rewrite andb_true_iff; intros [_ Ht].
Defined.

Lemma sync_never_panics_witness :
  exists r w', syncer_List (as_value roles) first_page roles_world = (Returns r, w').
Proof.
  assert (calm ready roles_world) as Hw by (split; [intros _; vm_compute; eauto|vm_compute; reflexivity]).
  assert (roles ∈ ResourceSyncers a_connector) as Hs by (do 4 right; left).
  destruct (sync_never_panics a_connector roles roles_world Hs Hw) as (Hlist & _).
  destruct (Hlist first_page) as (r & w' & Hr & _). by exists r, w'.
Defined.

(** A user who is deactivated while the network is down. *)
Lemma provisioning_never_panics_witness :
  exists w', perform a_connector (DeleteUser (user_principal "005A")) (tape_world []) = (Returns tt, w').
Proof.
  assert (calm ready (tape_world [])) as Hw by (split; [intros _; vm_compute; eauto|vm_compute; reflexivity]).
  destruct (provisioning_never_panics a_connector (DeleteUser (user_principal "005A")) (tape_world [])) as [Hreturns _].
  destruct (Hreturns eq_refl Hw) as (w' & Hr & _). by exists w'.
Defined.
End no_panic_witness.
