(* ===== verification/Draining.v ===== *)
(** * Following page tokens comes to an end

    The sync calls [List] and [Grants] again for as long as they hand back a page
    token.  The tokens are the API's ([nextRecordsUrl]), so that this ends is a
    promise of the API, [PagedEnv]: a rank of the pages goes down.  Against such
    an API every syncer runs to an end; for the grants of a permission set, with
    its two phases and a token of the connector's own, too. *)
From S2P Require Export NoPanic.
From Stdlib Require Import Ascii.

(** A page that is the last one, or is followed by a lower one. *)
Definition goes_on (rank : string -> nat) (q : string) (done : bool) (next : string) : Prop :=
  done = true \/ next = "" \/ rank next < rank q.

Class PagedEnv `{SaneEnv} (client : simple_client) := {
  page_rank : string -> nat;
  paged_http req s resp q result :
    sane s -> (env_http req s).1 = inr resp -> req_url req = query_url client q ->
    resp_json resp ≫= decode_QueryResult = Some result ->
    goes_on page_rank q (qr_Done result) (qr_NextRecordsURL result);
  paged_cached req s resp q result :
    sane s -> env_cache_get req s = inr (Some resp) -> req_url req = query_url client q ->
    resp_json resp ≫= decode_QueryResult = Some result ->
    goes_on page_rank q (qr_Done result) (qr_NextRecordsURL result);
}.

(** ** Where a response comes from *)

Section responses.
Context `{SaneEnv}.

(** The network answered this URL, or the cache. *)
Definition came_from (url : string) (resp : http_response) : Prop :=
  exists req s, sane s /\ req_url req = url
    /\ ((env_http req s).1 = inr resp \/ env_cache_get req s = inr (Some resp)).

Lemma RoundTrip_came_from t req w t' resp w' :
  sane (w_env w) -> RoundTrip t req w = (Returns (t', inr resp), w') -> came_from (req_url req) resp.
Proof.
  intros Hs (req' & w1 & Hreq & Hrun)%GoM_bind_inv.
  assert (sane (w_env w1) /\ req_url req' = req_url req) as [Hs1 <-].
  { destruct (t_tokenSource t); [|by injection Hreq as <- <-].
    apply GoM_bind_inv in Hreq as (tok & w2 & Htok & Hreq). unfold ask in Htok.
    pose proof (sane_token_next _ Hs) as Hn. destruct (env_token (w_env w)) as [o e]. injection Htok as <- <-.
    by destruct o; injection Hreq as <- <-. }
  apply GoM_bind_inv in Hrun as (r & w2 & Hask & Hrun). unfold ask in Hask.
  exists req', (w_env w1). split_and!; [done|done|left].
  destruct (env_http req' (w_env w1)) as [o e]. injection Hask as <- <-.
  destruct o as [err|resp']; [done|]. by injection Hrun as _ <- _.
Qed.

Lemma Do_came_from t req w t' resp err w' :
  sane (w_env w) -> Do t req w = (Returns (t', Some resp, err), w') -> came_from (req_url req) resp.
Proof.
  intros Hs ([] & w1 & Hlog & Hrun)%GoM_bind_inv. injection Hlog as <-.
  apply GoM_bind_inv in Hrun as (w2 & w3 & Hget & Hrun). injection Hget as <- <-.
  cbn [w_env] in Hrun.
  destruct (match req_method req with MethodGet => env_cache_get req (w_env w) | _ => inr None end) as [e|cached] eqn:Ec; [done|].
  apply GoM_bind_inv in Hrun as ([t1 r] & w2 & Hresp & Hrun).
  assert (r = inr resp) as ->.
  { destruct r as [e|resp']; [done|].
    destruct (resp_read_error resp'); [injection Hrun; congruence|].
    destruct (negb (status_ok (resp_status resp'))); [injection Hrun; congruence|].
    apply GoM_bind_inv in Hrun as ([] & w3 & _ & Hrun). injection Hrun; congruence. }
  destruct cached as [resp'|]; [|by eapply RoundTrip_came_from in Hresp].
  injection Hresp as <- <- <-. eexists req, _. split_and!; [exact Hs|done|right]. by destruct (req_method req).
Qed.

Lemma httpRequest_came_from client t method url body w t' resp w' :
  sane (w_env w) -> httpRequest client t method url body w = (Returns (t', (None, Some resp)), w') ->
  came_from url resp.
Proof.
  intros Hs. unfold httpRequest. destruct (url_Parse url); [|done].
  intros ([[t1 r] e] & w1 & Hdo & Hrun)%GoM_bind_inv.
  destruct e as [e|]; [apply GoM_bind_inv in Hrun as (? & ? & _ & Hrun); done|].
  destruct r as [resp'|]; [|done].
  destruct (negb (status_ok _)); [apply GoM_bind_inv in Hrun as (? & ? & _ & Hrun); done|].
  injection Hrun as <- <- <-. by eapply Do_came_from in Hdo.
Qed.
End responses.

(** ** The tokens of the client's reads go down *)

Section ranked.
Context `{PagedEnv} (Hlogged : isLoggedIn client = true).

(** A client at work, logged in as this one. *)
Definition steady (w : World) : Prop := calm ready w /\ online client w.

(** Called with a page token, [m] hands back the token of a lower page, if any. *)
Definition ranked {A} (tok : string) (next : A -> string) (m : GoM World A) : Prop :=
  forall w a w', steady w -> m w = (Returns a, w') -> next a = "" \/ page_rank (next a) < page_rank tok.

(** What goes on with the token of [m], or with none. *)
Lemma ranked_bind {A B} tok (next : A -> string) (next' : B -> string) (m : GoM World A) (k : A -> GoM World B) :
  ranked tok next m -> (forall a, returns (fun b => next' b = "" \/ next' b = next a) (k a)) ->
  ranked tok next' (m ≫= k).
Proof.
  intros Hm Hk w b w' Hw (a & w1 & Ha & Hb)%GoM_bind_inv.
  destruct (Hk a _ _ _ Hb) as [Hn|Hn]; [by left|]. rewrite Hn. by apply (Hm w a w1).
Qed.

Lemma Query_ranked t q w t' done next records w' :
  sane (w_env w) -> Query client t q w = (Returns (t', inr (done, next, records)), w') ->
  goes_on page_rank q done next.
Proof.
  intros Hs. unfold Query. rewrite Hlogged. cbn [negb].
  intros ([t1 [err resp]] & w1 & Hreq & Hrun)%GoM_bind_inv. destruct err as [err|]; [done|].
  destruct ((resp ≫= resp_json) ≫= decode_QueryResult) as [result|] eqn:Hd; [|done].
  apply GoM_bind_inv in Hrun as (records' & w2 & _ & Hrun).
  assert (qr_Done result = done /\ qr_NextRecordsURL result = next) as [<- <-] by (injection Hrun; split; congruence).
  destruct resp as [resp|]; [|done]. cbn [mbind option_bind] in Hd.
  destruct (httpRequest_came_from _ _ _ _ _ _ _ _ _ Hs Hreq) as (req & s & Hsane & Hurl & [Hnet|Hcache]).
  - by eapply paged_http.
  - by eapply paged_cached.
Qed.

(** A query on the connected client. *)
Lemma on_client_Query_ranked q w r w' :
  steady w -> on_client (fun client t => Query client t q) w = (Returns r, w') ->
  match r with inr (done, next, _) => goes_on page_rank q done next | inl _ => True end.
Proof.
  intros [[_ Hs] (_ & Hc & [t Ht])]. unfold on_client, get_client.
  rewrite GoM_bind_run with (a := w_client w) (s' := w) by done. rewrite Hc, Ht.
  intros ([t' a] & w1 & Hq & Hrun)%GoM_bind_inv.
  apply GoM_bind_inv in Hrun as ([] & w2 & _ & Hrun).
  assert (a = r) as -> by (injection Hrun; congruence).
  destruct r as [|[[d n] l]]; [done|]. by eapply Query_ranked.
Qed.

Definition page_next {A} (r : list A * string * option RateLimitDescription * error) : string := r.1.1.2.

Lemma query_ranked q tok n : tok <> "" -> ranked tok page_next (query q tok n).
Proof.
  intros Htok w r w' Hw. unfold query. rewrite (init_bind_online client) by apply Hw.
  unfold getQueryString. destruct (String.eqb_spec tok ""); [done|]. cbn [negb]. rewrite lift_bind_ret.
  intros (rec & w1 & Hq & Hrun)%GoM_bind_inv. apply on_client_Query_ranked in Hq; [|done].
  apply GoM_bind_inv in Hrun as (rl & w2 & _ & Hrun). destruct rec as [err|[[done next] records]].
  - left. by injection Hrun as <-.
  - injection Hrun as <- _. cbn. destruct done; [by left|]. by destruct Hq as [|[]]; [|left|right].
Qed.

Lemma queryWithAPIVersion_ranked q tok v : tok <> "" -> ranked tok page_next (queryWithAPIVersion q tok v).
Proof.
  intros Htok w r w' Hw. unfold queryWithAPIVersion. rewrite (init_bind_online client) by apply Hw.
  destruct (String.eqb_spec tok ""); [done|]. rewrite GoM_bind_ret_l.
  intros (rec & w1 & Hq & Hrun)%GoM_bind_inv. apply on_client_Query_ranked in Hq; [|done].
  apply GoM_bind_inv in Hrun as (rl & w2 & _ & Hrun). destruct rec as [err|[[done next] records]].
  - left. by injection Hrun as <-.
  - injection Hrun as <- _. cbn. destruct done; [by left|]. by destruct Hq as [|[]]; [|left|right].
Qed.

Lemma query_each_ranked {A} q tok n keep (f : SObject -> go_error + option A) :
  tok <> "" -> ranked tok page_next (query_each q tok n keep f).
Proof.
  intros Htok. eapply ranked_bind; [by apply query_ranked|]. intros [[[l next] rl] [err|]]; [by apply returns_ret; left|].
  destruct (each_record f l); apply returns_ret; [by left|by right].
Qed.

Lemma query_map_ranked {A} q tok n (f : SObject -> A) :
  tok <> "" -> ranked tok page_next (query_map q tok n f).
Proof.
  intros Htok. eapply ranked_bind; [by apply query_ranked|].
  intros [[[l next] rl] [err|]]; apply returns_ret; [by left|by right].
Qed.
End ranked.

(** ** The sync loop *)

(** The token a sync call hands back. *)
Definition sync_next {A} (r : synced A) : string :=
  match r.1.2 with Some so => so_NextPageToken so | None => "" end.

(** Calling again with the token handed back ends, with the last page or an error. *)
Inductive drains `{Env} {A} (call : PageToken -> GoM World (synced A)) (size : Z) : string -> World -> Prop :=
| drains_end tok w r w' :
    call {| pt_Token := tok; pt_Size := size |} w = (Returns r, w') ->
    r.2 <> None \/ sync_next r = "" -> drains call size tok w
| drains_more tok w r w' :
    call {| pt_Token := tok; pt_Size := size |} w = (Returns r, w') ->
    sync_next r <> "" -> drains call size (sync_next r) w' -> drains call size tok w.

Section drains.
Context `{PagedEnv} (Hlogged : isLoggedIn client = true).

Abbreviation steady := (steady (client := client)).

(** A call that returns and keeps the client at work. *)
Definition serving {A} (m : GoM World A) : Prop := triple steady m (fun _ => steady).

Lemma serving_call {A} (m : GoM World A) : total (calm ready) m -> moves (runs reads_only) m -> serving m.
Proof.
  intros Ht Hr w [Hcalm Hon]. destruct (Ht w Hcalm) as (a & w' & Hrun & Hw'). exists a, w'. split; [done|].
  split; [done|]. pose proof (Hr w) as Hw. rewrite Hrun in Hw. by eapply online_runs.
Qed.

(** After one call it is the next token's turn. *)
Lemma drains_step {A} (call : PageToken -> GoM World (synced A)) size tok w :
  (forall pt, serving (call pt)) -> steady w ->
  (forall r w', call {| pt_Token := tok; pt_Size := size |} w = (Returns r, w') -> steady w' ->
     sync_next r = "" \/ drains call size (sync_next r) w') ->
  drains call size tok w.
Proof.
  intros Hcall Hw Hnext. destruct (Hcall {| pt_Token := tok; pt_Size := size |} w Hw) as (r & w' & Hrun & Hw').
  destruct (String.eqb_spec (sync_next r) "") as [He|Hne].
  - eapply drains_end; [exact Hrun|by right].
  - eapply drains_more; [exact Hrun|done|]. by destruct (Hnext r w' Hrun Hw').
Qed.

(** Tokens whose rank goes down. *)
Lemma drains_rank {A} (call : PageToken -> GoM World (synced A)) size tok w :
  (forall pt, serving (call pt)) ->
  (forall tok, tok <> "" -> ranked (client := client) tok sync_next (call {| pt_Token := tok; pt_Size := size |})) ->
  steady w -> drains call size tok w.
Proof.
  intros Hcall Hranked. assert (forall n tok w, page_rank tok < n -> tok <> "" -> steady w -> drains call size tok w) as Hdrain.
  { induction n as [|n IH]; intros tok' w' Hn Htok Hw'; [lia|]. apply drains_step; [done..|].
    intros r w1 Hrun Hw1. destruct (String.eqb_spec (sync_next r) "") as [He|Hne]; [by left|right].
    destruct (Hranked tok' Htok w' r w1 Hw' Hrun) as [He|Hlt]; [done|]. apply IH; [lia|done..]. }
  intros Hw. apply drains_step; [done..|]. intros r w1 _ Hw1.
  destruct (String.eqb_spec (sync_next r) "") as [He|Hne]; [by left|right]. apply (Hdrain (S (page_rank (sync_next r)))); [lia|done..].
Qed.

Lemma sync_read_ranked {A B} tok (read : GoM World (list A * string * option RateLimitDescription * error))
    (f : list A -> list B) :
  ranked (client := client) tok page_next read -> ranked (client := client) tok sync_next (sync_read read f).
Proof.
  intros Hr. eapply ranked_bind; [exact Hr|].
  intros [[[l next] rl] [err|]]; apply returns_ret; [by left|by right].
Qed.

Lemma drains_sync_read {A B} (read : PageToken -> GoM World (list A * string * option RateLimitDescription * error))
    (f : list A -> list B) size w :
  (forall pt, serving (sync_read (read pt) f)) ->
  (forall pt, pt_Token pt <> "" -> ranked (client := client) (pt_Token pt) page_next (read pt)) ->
  steady w -> drains (fun pt => sync_read (read pt) f) size "" w.
Proof.
  intros Hs Hr. apply drains_rank; [done|]. intros tok Htok. apply sync_read_ranked. exact (Hr {| pt_Token := tok; pt_Size := size |} Htok).
Qed.

(** A syncer without grants. *)
Lemma drains_none {A} (call : PageToken -> GoM World (synced A)) size w r :
  (forall pt, call pt = mret r) -> sync_next r = "" -> drains call size "" w.
Proof. intros Hc Hr. eapply drains_end; [by rewrite Hc|by right]. Qed.
End drains.

(** A syncer whose pages come to an end. *)
Class DrainingSyncer `{PagedEnv} (B : Type) `{!ResourceSyncer B} : Prop := {
  List_drains b size w : steady (client := client) w -> drains (syncer_List b) size "" w;
  Grants_drains b r size w : steady (client := client) w -> drains (syncer_Grants b r) size "" w;
}.

Section syncers_drain.
Context `{PagedEnv} (Hlogged : isLoggedIn client = true).

Lemma serving_List {B} `{!ResourceSyncer B} `{!ReadOnlySyncer B} `{!TotalSyncer B} (b : B) pt :
  serving (client := client) (syncer_List b pt).
Proof. apply serving_call; [apply List_returns|apply List_reads]. Qed.

Lemma serving_Grants {B} `{!ResourceSyncer B} `{!ReadOnlySyncer B} `{!TotalSyncer B} (b : B) r pt :
  serving (client := client) (syncer_Grants b r pt).
Proof. apply serving_call; [apply Grants_returns|apply Grants_reads]. Qed.

Lemma GetTerritories_ranked tok n : tok <> "" -> ranked (client := client) tok page_next (GetTerritories tok n).
Proof.
  intros Htok w r w' Hw (q & w1 & Hq & Hrun)%GoM_bind_inv.
  assert (w1 = w) as -> by (by injection Hq). clear Hq.
  revert w r w' Hw Hrun. eapply ranked_bind; [by apply query_ranked|].
  intros [[[l next] rl] [err|]]; apply returns_ret; [by left|by right].
Qed.

Lemma agent_List_ranked tok n :
  tok <> "" -> ranked (client := client) tok sync_next (agent_List {| pt_Token := tok; pt_Size := n |}).
Proof.
  intros Htok. apply (ranked_bind tok page_next).
  - eapply ranked_bind; [by apply queryWithAPIVersion_ranked|].
    intros [[[l next] rl] [err|]]; [|apply returns_ret; by right].
    destruct (isSObjectNotSupportedError err); apply returns_ret; by left.
  - intros [[[l next] rl] [err|]]; apply returns_ret; [by left|by right].
Qed.

Lemma user_List_ranked b tok n :
  tok <> "" -> ranked (client := client) tok sync_next (user_List b {| pt_Token := tok; pt_Size := n |}).
Proof.
  intros Htok. eapply ranked_bind; [by apply query_each_ranked|].
  intros [[[l next] rl] [err|]]; [apply returns_ret; by left|].
  apply returns_then. intros [[logins rl'] [err|]]; apply returns_ret; [by left|by right].
Qed.

(** A call of this shape drains; or there is nothing to drain. *)
Ltac drain Hs :=
  first
    [ eapply drains_none; [reflexivity|reflexivity]
    | apply drains_sync_read;
      [ exact Hs
      | intros pt Htok; first [by apply query_map_ranked|by apply query_each_ranked|by apply GetTerritories_ranked]
      | done ]
    | apply drains_rank; [exact Hs| |done] ].
Ltac drains :=
  split;
    [ intros b size w Hw; pose proof (serving_List b) as Hs; drain Hs
    | intros b r size w Hw; pose proof (serving_Grants b r) as Hs; drain Hs ].

#[local] Existing Instances user_total group_total role_total profile_total permission_total permissionSetGroup_total
  territory_total agent_total connectedApplication_total.

Lemma user_drains : DrainingSyncer (client := client) userBuilder.
Proof. drains. intros tok. apply user_List_ranked. Qed.
Lemma group_drains : DrainingSyncer (client := client) groupBuilder.
Proof. drains. Qed.
Lemma role_drains : DrainingSyncer (client := client) roleBuilder.
Proof. drains. Qed.
Lemma profile_drains : DrainingSyncer (client := client) profileBuilder.
Proof. drains. Qed.
Lemma permissionSetGroup_drains : DrainingSyncer (client := client) permissionSetGroupBuilder.
Proof. drains. Qed.
Lemma territory_drains : DrainingSyncer (client := client) territoryBuilder.
Proof. drains. Qed.
Lemma agent_drains : DrainingSyncer (client := client) agentBuilder.
Proof. drains. intros tok. apply agent_List_ranked. Qed.
Lemma connectedApplication_drains : DrainingSyncer (client := client) connectedApplicationBuilder.
Proof. drains. Qed.

(** The grants of a permission set: the token of the second phase. *)
Lemma second_phase_next resource t n w r w' :
  steady (client := client) w ->
  permission_Grants resource {| pt_Token := permPsgPageTokenPrefix +:+ t; pt_Size := n |} w = (Returns r, w') ->
  sync_next r = "" \/ exists t', sync_next r = permPsgPageTokenPrefix +:+ t' /\ t' <> ""
    /\ (t <> "" -> page_rank t' < page_rank t).
Proof.
  intros Hw. unfold permission_Grants. cbn [pt_Token pt_Size]. rewrite HasPrefix_app, TrimPrefix_app.
  intros ([[[l next] rl] err] & w1 & Hread & Hrun)%GoM_bind_inv. destruct err as [err|]; injection Hrun as <- _; [by left|].
  cbn. unfold next_psg_token. destruct (String.eqb_spec next "") as [->|Hne]; [by left|right].
  exists next. split_and!; [done..|]. intros Ht.
  unfold GetPermissionSetGroupComponentsByPermissionSet in Hread.
  destruct (query_each_ranked Hlogged _ _ _ _ _ Ht w _ _ Hw Hread); [done|done].
Qed.

(** Of the first phase. *)
Lemma first_phase_next resource tok n w r w' :
  tok <> "" -> strings_HasPrefix tok permPsgPageTokenPrefix = false -> steady (client := client) w ->
  permission_Grants resource {| pt_Token := tok; pt_Size := n |} w = (Returns r, w') ->
  sync_next r = "" \/ sync_next r = permPsgPageTokenPrefix \/ page_rank (sync_next r) < page_rank tok.
Proof.
  intros Htok Hapi Hw. unfold permission_Grants. cbn [pt_Token pt_Size]. rewrite Hapi.
  intros ([[[l next] rl] err] & w1 & Hread & Hrun)%GoM_bind_inv. destruct err as [err|]; injection Hrun as <- _; [by left|].
  cbn. unfold next_user_token. destruct (String.eqb_spec next "") as [->|Hne]; [by right; left|].
  unfold GetPermissionSetAssignments in Hread. destruct (query_map_ranked Hlogged _ _ _ _ Htok w _ _ Hw Hread); [done|by right; right].
Qed.

Lemma second_phase_drains resource t size w :
  steady (client := client) w -> drains (permission_Grants resource) size (permPsgPageTokenPrefix +:+ t) w.
Proof.
  pose proof (serving_Grants Build_permissionBuilder resource) as Hs.
  assert (forall n t w, page_rank t < n -> t <> "" -> steady (client := client) w ->
    drains (permission_Grants resource) size (permPsgPageTokenPrefix +:+ t) w) as Hdrain.
  { induction n as [|n IH]; intros t' w' Hn Ht Hw; [lia|]. apply (drains_step (client := client)); [exact Hs|done|].
    intros r w1 Hrun Hw1. destruct (second_phase_next _ _ _ _ _ _ Hw Hrun) as [He|(t1 & -> & Ht1 & Hlt)]; [by left|right].
    apply IH; [specialize (Hlt Ht); lia|done..]. }
  intros Hw. apply (drains_step (client := client)); [exact Hs|done|]. intros r w1 Hrun Hw1.
  destruct (second_phase_next _ _ _ _ _ _ Hw Hrun) as [He|(t1 & -> & Ht1 & _)]; [by left|right].
  apply (Hdrain (S (page_rank t1))); [lia|done..].
Qed.

Lemma permission_Grants_drains resource tok size w :
  steady (client := client) w -> drains (permission_Grants resource) size tok w.
Proof.
  pose proof (serving_Grants Build_permissionBuilder resource) as Hs.
  assert (forall n tok w, page_rank tok < n -> tok <> "" -> steady (client := client) w ->
    drains (permission_Grants resource) size tok w) as Hdrain.
  { induction n as [|n IH]; intros tok' w' Hn Htok Hw; [lia|].
    destruct (strings_HasPrefix tok' permPsgPageTokenPrefix) eqn:Hp.
    - apply HasPrefix_spec in Hp as [t ->]. by apply second_phase_drains.
    - apply (drains_step (client := client)); [exact Hs|done|]. intros r w1 Hrun Hw1.
      destruct (String.eqb_spec (sync_next r) "") as [He|Hne]; [by left|right].
      destruct (first_phase_next _ _ _ _ _ _ Htok Hp Hw Hrun) as [He|[->|Hlt]]; [done| |apply IH; [lia|done..]].
      by apply (second_phase_drains resource ""). }
  intros Hw. apply (drains_step (client := client)); [exact Hs|done|]. intros r w1 _ Hw1.
  destruct (String.eqb_spec (sync_next r) "") as [He|Hne]; [by left|right].
  apply (Hdrain (S (page_rank (sync_next r)))); [lia|done..].
Qed.

Lemma permission_drains : DrainingSyncer (client := client) permissionBuilder.
Proof.
  split; [|intros; by apply permission_Grants_drains].
  intros b size w Hw. pose proof (serving_List b) as Hs. drain Hs.
Qed.
End syncers_drain.

(** ** Properties *)

(** C14: the sync comes to an end.  Against an API that answers in its documented
    shapes and whose pages are finitely many, calling [List] of any syncer, or
    [Grants] for any resource, again with the page token it handed back reaches
    a call without a next token, or an error, whatever the responses are; the
    two phases of a permission set's grants included. *)
Theorem sync_terminates `{PagedEnv} d s size w :
  isLoggedIn client = true -> s ∈ ResourceSyncers d -> calm ready w -> online client w ->
  drains (syncer_List (as_value s)) size "" w
  /\ forall resource, drains (syncer_Grants (as_value s) resource) size "" w.
Proof.
  intros Hl Hs Hc Ho. assert (steady (client := client) w) as Hw by done. unfold ResourceSyncers in Hs.
  pose proof (user_drains Hl). pose proof (group_drains Hl). pose proof (role_drains Hl).
  pose proof (profile_drains Hl). pose proof (permission_drains Hl). pose proof (permissionSetGroup_drains Hl).
  pose proof (territory_drains Hl). pose proof (agent_drains Hl). pose proof (connectedApplication_drains Hl).
  destruct (d_syncConnectedApps d); simpl in Hs;
    repeat (apply elem_of_cons in Hs as [->|Hs]); try (by apply elem_of_nil in Hs).
  all: by split; intros; [apply List_drains|apply Grants_drains].
Qed.

(** ** A concrete environment whose pages count down *)

Section draining_witness.

Fixpoint xs (n : nat) : string := match n with 0 => "" | S n => "x" +:+ xs n end.
Definition page_token (n : nat) : string := "/services/data/v54.0/query/01g-" +:+ xs n.

(** How many x's a URL ends with. *)
Fixpoint trailing_x (acc : nat) (s : string) : nat :=
  match s with
  | "" => acc
  | String c s => trailing_x (if Ascii.eqb c "x" then S acc else 0) s
  end.

Definition is_statement (url : string) : bool :=
  strings_HasPrefix url "https://acme.my.salesforce.com/services/data/v54.0/query?q=".

Definition url_rank (url : string) : nat := if is_statement url then 4 else trailing_x 0 url.

(** A statement has four pages. *)
Definition page_at (url : string) : json :=
  match url_rank url with
  | 0 => page_json [] true ""
  | S n => page_json [] false (page_token n)
  end.

Definition pages_env : Env := {|
  env_state := unit;
  env_http req _ := (ok_json (page_at (req_url req)), tt);
  env_token _ := (inr {| AccessToken := "token"; token_instance_url := None |}, tt);
  env_new_http _ := (None, tt);
  env_cache_get _ _ := inr None;
  env_cache_set _ _ _ := tt;
  env_cache_clear _ := (None, tt);
  env_wait _ := (true, tt);
  env_jwt_assertion _ _ := (inr "signed", tt);
  env_token_exchange _ _ := (inr {| AccessToken := "token"; token_instance_url := None |}, tt);
  mail_ParseAddress _ := true;
  env_zoneinfo _ := true;
|}.

#[local] Existing Instance pages_env.

Lemma page_at_result url :
  decode_QueryResult (page_at url) = Some
    match url_rank url with
    | 0 => {| qr_Done := true; qr_NextRecordsURL := ""; qr_Records := [] |}
    | S n => {| qr_Done := false; qr_NextRecordsURL := page_token n; qr_Records := [] |}
    end.
Proof. unfold page_at. by destruct (url_rank url). Qed.

Lemma trailing_xs acc n : trailing_x acc (xs n) = acc + n.
Proof. revert acc. induction n as [|n IH]; intros acc; simpl; [lia|]. rewrite IH. lia. Qed.

Lemma rank_page n : url_rank (query_url sf_client (page_token n)) = n.
Proof. exact (trailing_xs 0 n). Qed.

#[local] Instance pages_sane : SaneEnv.
Proof.
  refine {| sane := fun _ : @env_state pages_env => True |}; try done.
  intros req s r _ [= <-]. unfold sane_response, sane_json. cbn [resp_json json_response].
  rewrite page_at_result. unfold page_at. by destruct (url_rank (req_url req)).
Defined.

#[local] Instance pages_paged : PagedEnv sf_client.
Proof.
  refine {| page_rank q := url_rank (query_url sf_client q) |}; [|done].
  intros req s resp q result _ [= <-] ->. cbn [resp_json json_response mbind option_bind].
  rewrite page_at_result. intros [= <-]. unfold goes_on.
  destruct (url_rank (query_url sf_client q)) as [|n] eqn:Er; [by left|right; right].
  cbn [qr_NextRecordsURL]. rewrite rank_page. lia.
Defined.

Definition permission_sets : any_syncer := syncer Build_permissionBuilder.
Definition pages_world : World := Build_World pages_env tt tape_client [].

Lemma sync_terminates_witness :
  drains (syncer_List (as_value permission_sets)) 100 "" pages_world
  /\ drains (syncer_Grants (as_value permission_sets) some_permission) 100 "" pages_world.
Proof.
  assert (calm ready pages_world) as Hc by (split; [intros _; vm_compute; eauto|exact I]).
  assert (online sf_client pages_world) as Ho by (vm_compute; eauto).
  assert (permission_sets ∈ ResourceSyncers a_connector) as Hs by (do 2 right; left).
  destruct (sync_terminates (client := sf_client) a_connector permission_sets 100 pages_world eq_refl Hs Hc Ho) as [Hlist Hgrants].
  split; [exact Hlist|apply Hgrants].
Defined.
End draining_witness.
